(* ===== verification/_CoqProject ===== *)
-Q . S2P
Prelude.v
GoText.v
RustText.v
Json.v
JsonParse.v
Codec.v
JsonText.v
Scalars.v
Types.v
JsonSize.v
Messages.v
Errors.v
Queries.v
Documents.v
Memory.v
MemDB.v
MemDBConc.v
MemDBLock.v
World.v
Mocks.v
Iterators.v
Callbacks.v
Vtables.v
Backend.v
Storage.v
Scans.v
StoreSpec.v
ContractQueries.v
Addresses.v
MockTests.v
Libwasmvm.v
ExampleVM.v
Api.v
ContractCalls.v
CacheLock.v
Sha256.v
VM.v
Methods.v
Nesting.v
Demo.v
