(* ===== verification/Prelude.v ===== *)
(** * wasmvm: verification of the Go side of CosmWasm's VM bindings

    ** The program

    [wasmvm] lets a blockchain node written in Go run CosmWasm smart
    contracts.  The virtual machine is written in Rust ([cosmwasm-vm], behind
    the C interface of [libwasmvm/]).  Its Go side has three layers:

    - package [types] ([src/types]): the data that cross the boundary as JSON
      (environment, messages, results, queries, errors, configuration) with
      their hand-written readers and writers, predictions of JSON sizes,
      checksums, fractions, and the interfaces a host implements (store,
      iterator, gas meter, querier, address functions);
    - package [internal/api] ([src/internal/api]): the calls into Rust
      ([lib.go]), the callbacks Rust makes into Go while a contract runs
      ([callbacks.go]), the iterators that are open per call ([iterator.go]),
      and memory that changes owner ([memory.go]); also the mocks and the
      in-memory database its tests use ([mocks.go], [mock_failure.go],
      [testdb/]);
    - package [cosmwasm] ([src/lib.go], [src/lib_libwasmvm.go]): the handle
      [VM] with a method per entry point, which marshals the arguments, calls
      [internal/api], and charges for and reads the response; [cmd/demo] is
      a small client.

    A method of [VM] starts a call (an ID and a frame for its iterators),
    hands views of its arguments and tables of callbacks to Rust, and gets
    vectors back that it has to copy and destroy.  While the contract runs,
    Rust calls the store, the querier and the address functions of the host
    through the callbacks; the host may panic, and may itself call methods of
    [VM].  When the call ends its iterators are closed.

    ** The files

    Go's integers are [Z] with the wrap-around written out; byte slices are
    [option string] so that nil and empty differ; strings are byte strings; a
    panic is a value of [outcome]; code with state is a function in the monad
    [GoM] of this file, which keeps the state when it panics.  A
    [json.RawMessage] is the text of its value, which is compacted and
    escaped when it is written.

    - [Prelude]: integers, outcomes, the state monad, strings, tactics.
    - [GoText]: UTF-8, decimal, hexadecimal and base64 text as the Go
      library has them.  [RustText]: what Rust does with invalid UTF-8.
      [Json], [JsonParse]: JSON documents, the text [encoding/json] writes
      and its reader.  [Codec]: what the package derives from a type and its
      tags, in both directions, with round trips per type.  [JsonText]: the
      text is read back as the document.
    - [Scalars]: [types.go] (numbers, [Array]), [checksum.go],
      [fraction.go], [config.go] (sizes), the enumerations.  [Types]:
      [env.go], [config.go], [ibc.go], [ibc2.go], the rest of [types.go].
      [JsonSize]: [json_size.go].  [Messages]: [msg.go], [submessages.go] and
      the results of [ibc.go].  [Errors]: [systemerror.go].  [Queries]:
      [queries.go].  [Documents]: the documents of the messages and of the
      results spelled out, and results through their text.
    - [Memory]: [memory.go] and [memory.rs] over a heap of live buffers.
      [World]: the state of the process (heap, frames, counter of calls,
      host), the class [Host] for the interfaces of [store.go], [gas.go],
      [queries.go] and [api.go], and [HostLaws]: what a call into the host
      may change.
    - [MemDB]: [testdb/] with an iterator as the list of what it delivers,
      over the class [BTree] for [google/btree] and an instance of it.
      [MemDBConc]: the same iterators as goroutine, channel, read lock and
      cancellation, as a step relation.  [MemDBLock]: the threads that call
      the database, the [RWMutex] they wait for and its preference of a
      waiting writer.  [Mocks]: [mocks.go] and [mock_failure.go] as an
      instance of [Host].  [MockTests]: the test functions of [mocks.go].
    - [Iterators]: [iterator.go]; any number of interleaved calls as a step
      relation.  [Callbacks]: [callbacks.go], with its tables of function
      pointers.  [Vtables]: [callbacks_cgo.go], the signatures on the C, the
      Go and the Rust side, and what a call through a pointer reaches.
      [Backend]: the methods of the Rust side ([storage.rs], [iterator.rs],
      [api.rs], [querier.rs], [error/go.rs]) over these tables, and contracts
      as programs over requests.  [Storage], [Scans], [ContractQueries],
      [Addresses]: what requests of each kind give from end to end.
      [StoreSpec]: the abstract store with iterators, and that the code
      implements it.
    - [Libwasmvm]: the exported functions of [cache.rs] and [calls.rs] with
      [error/rust.rs], over the class [VMLib] for [cosmwasm-vm].  [ExampleVM]:
      an instance.  [Api]: [internal/api/lib.go], over the classes [OS]
      (files and locks) and [MsgPack]; [ContractCalls] and [CacheLock] have
      what holds of its calls and of its lock.  [Sha256]: the hash of
      [CreateChecksum].  [VM]: [lib_libwasmvm.go], [lib.go], the versions.
      [Methods]: the nineteen methods that call a contract as one family.
      [Nesting]: hosts that call them to answer queries.  [Demo]:
      [cmd/demo/main.go].

    ** What the theorems show

    - Calls ([Methods], [Nesting], [Api], [VM]): every method runs the entry point of
      its name with its arguments in their order and returns its answer, its
      error and its gas ([methods_exact], [methods_answer]); nothing it took
      stays behind, even after a panic, and it respects the very relation it
      assumes of its host, so nested calls are covered
      ([methods_contained], [nested_methods_contained]); gas stays within the limit
      ([methods_gas_limit], [DeserializeResponse_gas]); calls that must not
      run do not ([contract_call_refused]); code management and the lock of
      the cache directory ([code_functions_exact], [StoreCode_gas],
      [InitCache_exclusive] and others); the handle from creation to release
      ([main_exact]).
    - Requests of a contract ([Backend], [Storage], [Scans],
      [ContractQueries], [Addresses]): exact replies on every branch over any
      host ([storage_exact], [scan_exact], [iterator_exact], [query_exact],
      [address_exact]); an end without a panic for every run
      ([run_contained]); function pointers that are called with what they
      take and reach the callback of their name ([vtables_reach]); and over
      the mocks the refinement of an
      abstract metered map with iterators, for programs that mix all
      operations of a store ([StoreSpec]: [store_refines_map],
      [scan_reads_range]).
    - Shared state: isolation of the iterators of concurrent calls
      ([iterators_isolated]); ownership of buffers
      ([vector_round_trip], [vector_destroyed_once]); the concurrent test
      database implements the sequential one ([concurrent_iterator_exact]),
      closing returns ([close_returns]), a write is served as soon as the
      goroutines have room for what they send ([write_served]), and waits
      for ever, with all others, behind an iterator of its own thread that
      has more ([write_waits_forever]).
    - Data ([JsonText], [Messages], [Queries], [Errors], [Documents],
      [Scalars], [JsonSize]): the documents that are written
      ([message_documents], [result_documents]), round trips down to the
      text ([results_round_trip]), the behaviour of the
      hand-written readers on every spelling, predictions of sizes against
      the text that is written.

    Where the code does not do what it means to, the theorem states what it
    does: [VoteMsg_option_vote] (a panic on a vote without an option),
    [ExpectedJSONSizeString_error], [ExpectedJSONSizeInt_exact],
    [sizes_wrap], [scan_exact] (an iterator that is never closed at the
    limit), [iterators_isolated] (the rest of a frame stays open when a
    [Close] panics), [vtables_typed] (prototypes of the iterator functions),
    [InitCache_failure_keeps_lock], [vector_length_narrowed],
    [DeserializeResponse_gas] (remaining gas that wraps),
    [AnalyzeCode_exact], [write_served], [mock_tests], [stored_line_digits]
    (a checksum printed as the digits of its digits).

    ** Fuel

    Recursions that are not structural take fuel, and theorems show that
    what they are given is enough.  The JSON reader gets [3 * length + 3] for
    documents ([need_length]: a document takes at most twice its length) and
    [length + 1] for strings; decimal digits get 20, the most a 64-bit number
    has; [chunks_exact] the length of its input; SHA-256 the number of
    words; [collect] and [drain] are loops of clients, and their theorems
    hold for every fuel above the number of entries.

    ** Not modelled

    [link_*.go] (linker flags), and what a caught panic or a contract's debug
    message prints.  The C functions of the iterators are declared
    with a pointer where a value is passed; a call through them is modelled
    as forwarding the value, which is what the compiled jump does.

    Code outside the repository is a parameter: [cosmwasm-vm] ([VMLib], with
    [VMLaws]: results and error texts below 2 GiB, vectors that hold their
    bytes), [google/btree] ([BTree], [BTreeLaws]), the operating system
    ([OS], [OSLaws], [Reader]), MessagePack ([MsgPack]), [serde_json] where it
    reads the result of a query ([SerdeJson]), Unicode case mapping
    ([CaseMapping]), the texts of errors of the Go library and of Rust's
    debug format ([ErrorTexts]).  No scheduler is
    modelled: goroutines and threads take their steps in any order, and a
    theorem that something happens bounds the steps until it does. *)

From stdpp Require Export base list gmap strings.
From Stdlib Require Export ZArith Lia.
From Stdlib Require Import Ascii.

Declare Scope go_scope.
Delimit Scope go_scope with go.
#[global] Open Scope Z_scope.

(** ** Machine integers

    A Go integer of a fixed width is a [Z] in the range of its type; every
    arithmetic operation that can leave the range wraps, as the Go
    specification says. *)

Definition two32 : Z := 4294967296.
Definition two63 : Z := 9223372036854775808.
Definition two64 : Z := 18446744073709551616.
Definition MaxInt32 : Z := 2147483647.
Definition MaxInt64 : Z := two63 - 1.
Definition MinInt64 : Z := - two63.
Definition MaxUint64 : Z := two64 - 1.

Definition u32 (z : Z) : Z := z mod two32.
Definition u64 (z : Z) : Z := z mod two64.
Definition i64 (z : Z) : Z := (z + two63) mod two64 - two63.

Definition is_u32 (z : Z) : Prop := 0 <= z < two32.
Definition is_u64 (z : Z) : Prop := 0 <= z < two64.
Definition is_i64 (z : Z) : Prop := - two63 <= z < two63.

Notation "a +u b" := (u64 (a + b)) (at level 50, left associativity) : go_scope.
Notation "a -u b" := (u64 (a - b)) (at level 50, left associativity) : go_scope.
Notation "a *u b" := (u64 (a * b)) (at level 40, left associativity) : go_scope.
#[global] Open Scope go_scope.

(** Go's integer division truncates toward zero and panics on a zero divisor
    (the divisor test is in the operations that divide). *)
Definition int_quot (a b : Z) : Z := i64 (Z.quot a b).

(** The two closing tactics for width arithmetic. *)
Ltac widths :=
  unfold u32, u64, i64, is_u32, is_u64, is_i64, int_quot,
    MaxInt32, MaxInt64, MinInt64, MaxUint64, two32, two63, two64 in *.
Ltac width_lia := widths; Z.div_mod_to_equations; lia.

Create HintDb go.
Create Rewrite HintDb go.

Lemma u64_id z : is_u64 z -> u64 z = z.
Proof. intros H. apply Z.mod_small, H. Qed.
Lemma u32_id z : is_u32 z -> u32 z = z.
Proof. intros H. apply Z.mod_small, H. Qed.
Lemma i64_id z : is_i64 z -> i64 z = z.
Proof. width_lia. Qed.
Lemma u64_range z : is_u64 (u64 z).
Proof. apply Z.mod_pos_bound. reflexivity. Qed.
Lemma u32_range z : is_u32 (u32 z).
Proof. apply Z.mod_pos_bound. reflexivity. Qed.
Lemma i64_range z : is_i64 (i64 z).
Proof. width_lia. Qed.
#[export] Hint Resolve u64_range u32_range i64_range : go.

(** ** Go results

    A Go call either returns or panics.  The value of a panic is what
    [recover] hands out: the name of its dynamic type (what [reflect] shows
    of it) and its text. *)

Record panic_value := PanicValue { panic_type : string; panic_text : string }.

Inductive outcome (A : Type) : Type :=
| Ret (a : A)
| Panic (p : panic_value).
Arguments Ret {A} _.
Arguments Panic {A} _.

(** A panic raised by the runtime (nil dereference, division by zero). *)
Definition runtime_panic (text : string) : panic_value :=
  PanicValue "runtime.Error" text.
(** A panic raised by [panic("...")]. *)
Definition string_panic (text : string) : panic_value :=
  PanicValue "string" text.

Definition obind {A B} (m : outcome A) (k : A -> outcome B) : outcome B :=
  match m with Ret a => k a | Panic p => Panic p end.
Notation "'let%' x := m 'in' k" := (obind m (fun x => k))
  (at level 10, x pattern, m at level 100, k at level 200) : go_scope.

(** Dereferencing a pointer that may be nil. *)
Definition deref {A} (p : option A) : outcome A :=
  match p with
  | Some a => Ret a
  | None => Panic (runtime_panic "invalid memory address or nil pointer dereference")
  end.

Definition no_panic {A} (m : outcome A) : Prop := exists a, m = Ret a.

Lemma obind_Ret {A B} (a : A) (k : A -> outcome B) : obind (Ret a) k = k a.
Proof. reflexivity. Qed.
Lemma obind_Panic {A B} p (k : A -> outcome B) : obind (Panic p) k = Panic p.
Proof. reflexivity. Qed.
Lemma obind_inv {A B} (m : outcome A) (k : A -> outcome B) b :
  obind m k = Ret b -> exists a, m = Ret a /\ k a = Ret b.
Proof. destruct m as [a|p]; simpl; [eauto | discriminate]. Qed.
#[export] Hint Rewrite @obind_Ret @obind_Panic : go.

(** ** Stateful code

    A computation of Go code over a state of type [S]: it returns or panics,
    and leaves a state in both cases.  The bind notation of stdpp
    ([x <- m; k], written with the arrow) sequences computations. *)

Definition GoM (S A : Type) : Type := S -> outcome A * S.
#[global] Instance GoM_ret S : MRet (GoM S) := fun A a s => (Ret a, s).
#[global] Instance GoM_bind S : MBind (GoM S) := fun A B k m s =>
  match m s with
  | (Ret a, s) => k a s
  | (Panic p, s) => (Panic p, s)
  end.

Definition gpanic {S A} (p : panic_value) : GoM S A := fun s => (Panic p, s).
Definition gget {S} : GoM S S := fun s => (Ret s, s).
Definition gput {S} (s : S) : GoM S unit := fun _ => (Ret tt, s).
(** A computation without effects, which may panic. *)
Definition glift {S A} (m : outcome A) : GoM S A := fun s => (m, s).
(** [defer cleanup()] followed by [body]: the cleanup runs in every case, and
    a panic of its own replaces the outcome. *)
Definition with_defer {S A} (body : GoM S A) (cleanup : GoM S unit) : GoM S A := fun s =>
  let '(r, s) := body s in
  match cleanup s with
  | (Ret _, s) => (r, s)
  | (Panic p, s) => (Panic p, s)
  end.

Lemma gbind_ret {S A B} (a : A) (k : A -> GoM S B) : (mret a ≫= k) = k a.
Proof. reflexivity. Qed.
Lemma gbind_inv {S A B} (m : GoM S A) (k : A -> GoM S B) s r s' :
  (m ≫= k) s = (r, s') ->
  (exists a s1, m s = (Ret a, s1) /\ k a s1 = (r, s')) \/
  (exists p, m s = (Panic p, s') /\ r = Panic p).
Proof.
  unfold mbind, GoM_bind. destruct (m s) as [[a|p] s1] eqn:E; [left; eauto|].
  intros [= <- <-]. right; eauto.
Qed.
Lemma gbind_eq {S A B} (m : GoM S A) (k : A -> GoM S B) s a s1 :
  m s = (Ret a, s1) -> (m ≫= k) s = k a s1.
Proof. unfold mbind, GoM_bind. by intros ->. Qed.
Lemma gbind_assoc {S A B C} (m : GoM S A) (k : A -> GoM S B) (l : B -> GoM S C) s :
  ((m ≫= k) ≫= l) s = (m ≫= (fun a => k a ≫= l)) s.
Proof. unfold mbind, GoM_bind. by destruct (m s) as [[a|p] s1]. Qed.
(** To name the state an evaluated computation leaves. *)
Lemma grun {S A} (m : GoM S A) s r : fst (m s) = r -> m s = (r, snd (m s)).
Proof. destruct (m s). by intros <-. Qed.
Lemma gbind_panic {S A B} (m : GoM S A) (k : A -> GoM S B) s p s1 :
  m s = (Panic p, s1) -> (m ≫= k) s = (Panic p, s1).
Proof. unfold mbind, GoM_bind. by intros ->. Qed.

(** ** Byte sequences

    A Go [string] is a [string] (a sequence of bytes).  A Go [[]byte] is
    nil or a sequence of bytes; the code tells the two apart in many places. *)

Definition bytes := option string.
#[global] Instance bytes_eq_dec : EqDecision bytes := _.

(** [string(b)] *)
Definition string_of_bytes (b : bytes) : string := default EmptyString b.

Definition slen (s : string) : Z := Z.of_nat (String.length s).
(** [len(b)], 0 for a nil slice. *)
Definition blen (b : bytes) : Z := slen (string_of_bytes b).
(** [len] of a slice, as an [int]. *)
Definition zlen {A} (l : list A) : Z := Z.of_nat (length l).

#[global] Arguments String.append !_ _ / : simpl nomatch.

Definition chr (n : nat) : string := String (ascii_of_nat n) EmptyString.
(** The one-character string of a double quote. *)
Definition dquote : string := String "034"%char EmptyString.
Definition quote (s : string) : string := dquote +:+ s +:+ dquote.

Lemma slen_nonneg s : 0 <= slen s.
Proof. unfold slen. lia. Qed.
Lemma slen_cons c s : slen (String c s) = 1 + slen s.
Proof. unfold slen. simpl. lia. Qed.
Lemma slen_app s t : slen (s +:+ t) = slen s + slen t.
Proof.
  induction s as [|c s IH]; [reflexivity|].
  simpl. rewrite !slen_cons, IH. lia.
Qed.
Lemma slen_quote s : slen (quote s) = 2 + slen s.
Proof. unfold quote. rewrite !slen_app. change (slen dquote) with 1. lia. Qed.
Lemma slen_empty s : slen s = 0 <-> s = EmptyString.
Proof.
  destruct s; [split; reflexivity|].
  rewrite slen_cons. pose proof (slen_nonneg s). split; [lia | discriminate].
Qed.
#[export] Hint Rewrite slen_app slen_cons slen_quote : go.

Lemma zlen_nonneg {A} (l : list A) : 0 <= zlen l.
Proof. unfold zlen. lia. Qed.
Lemma zlen_cons {A} (a : A) l : zlen (a :: l) = 1 + zlen l.
Proof. unfold zlen. simpl. lia. Qed.
Lemma zlen_app {A} (l k : list A) : zlen (l ++ k) = zlen l + zlen k.
Proof. unfold zlen. rewrite length_app. lia. Qed.
#[export] Hint Rewrite @zlen_app @zlen_cons : go.

Lemma string_app_assoc (a b c : string) : (a +:+ b) +:+ c = a +:+ (b +:+ c).
Proof. induction a; simpl; f_equal; auto. Qed.
Lemma string_app_nil_r (a : string) : a +:+ EmptyString = a.
Proof. induction a; simpl; f_equal; auto. Qed.

(** The concatenation of a list of strings. *)
Fixpoint concat_strings (l : list string) : string :=
  match l with
  | [] => EmptyString
  | s :: l => s +:+ concat_strings l
  end.

(** Concatenation with a separator between consecutive elements. *)
Fixpoint join (sep : string) (l : list string) : string :=
  match l with
  | [] => EmptyString
  | [s] => s
  | s :: l => s +:+ sep +:+ join sep l
  end.

Lemma join_cons2 sep (s t : string) l :
  join sep (s :: t :: l) = s +:+ sep +:+ join sep (t :: l).
Proof. done. Qed.

(** ** Automation *)

(** Splits on every [if] and [match] scrutinee of the goal, keeping the
    equations, and closes what computation closes. *)
Ltac go_cases :=
  repeat (case_match; simplify_eq/=); try done.
(** Evaluates a closed goal. *)
Ltac go_compute := vm_compute; repeat split; try reflexivity; try discriminate.
