(* ===== verification/GoText.v ===== *)
(** * Text of the Go standard library that the code relies on

    Iteration over the runes of a string ([for _, r := range s], UTF-8
    decoding), decimal formatting and parsing ([strconv]), hexadecimal
    ([encoding/hex]) and base64 ([encoding/base64]). *)

From Stdlib Require Import Ascii.
From S2P Require Import Prelude.

(** ** Bytes *)

Definition code (c : ascii) : Z := Z.of_N (N_of_ascii c).
Definition byte_of (z : Z) : ascii := ascii_of_N (Z.to_N z).

Lemma code_range c : 0 <= code c < 256.
Proof. unfold code. pose proof (N_ascii_bounded c). lia. Qed.
Lemma byte_of_code c : byte_of (code c) = c.
Proof. unfold byte_of, code. by rewrite N2Z.id, ascii_N_embedding. Qed.
Lemma code_byte_of z : 0 <= z < 256 -> code (byte_of z) = z.
Proof. intros H. unfold byte_of, code. rewrite N_ascii_embedding; lia. Qed.
Lemma code_inj c d : code c = code d -> c = d.
Proof. intros H. by rewrite <- (byte_of_code c), H, byte_of_code. Qed.

Fixpoint stake (n : nat) (s : string) : string :=
  match n, s with
  | S n, String c s => String c (stake n s)
  | _, _ => EmptyString
  end.
Fixpoint sdrop (n : nat) (s : string) : string :=
  match n, s with
  | S n, String c s => sdrop n s
  | _, _ => s
  end.

Lemma stake_sdrop n s : stake n s +:+ sdrop n s = s.
Proof. revert s. induction n; intros [|c s]; simpl; f_equal; auto. Qed.
Lemma slen_stake n s : (n <= String.length s)%nat -> slen (stake n s) = Z.of_nat n.
Proof.
  revert s. induction n as [|n IH]; intros [|c s]; simpl; intros; [done..|lia|].
  rewrite slen_cons, IH; lia.
Qed.

(** Induction on the length, for functions that eat several bytes at once. *)
Lemma string_len_ind (P : string -> Prop) :
  (forall s, (forall t, (String.length t < String.length s)%nat -> P t) -> P s) ->
  forall s, P s.
Proof. apply (well_founded_induction (Wf_nat.well_founded_ltof _ String.length)). Qed.

(** ** UTF-8 ([unicode/utf8]) *)

Module Utf8.

Definition RuneError : Z := 0xFFFD.
Definition RuneSelf : Z := 0x80.

(** What the first byte of a sequence of two bytes or more announces: the
    number of bytes, and the range of the second byte. *)
Definition first (b0 : Z) : option (nat * Z * Z) :=
  if (0xC2 <=? b0) && (b0 <=? 0xDF) then Some (2%nat, 0x80, 0xBF)
  else if b0 =? 0xE0 then Some (3%nat, 0xA0, 0xBF)
  else if b0 =? 0xED then Some (3%nat, 0x80, 0x9F)
  else if (0xE1 <=? b0) && (b0 <=? 0xEF) then Some (3%nat, 0x80, 0xBF)
  else if b0 =? 0xF0 then Some (4%nat, 0x90, 0xBF)
  else if (0xF1 <=? b0) && (b0 <=? 0xF3) then Some (4%nat, 0x80, 0xBF)
  else if b0 =? 0xF4 then Some (4%nat, 0x80, 0x8F)
  else None.

Definition within (lo hi : Z) (c : ascii) : bool := (lo <=? code c) && (code c <=? hi).
Definition cont (c : ascii) : bool := within 0x80 0xBF c.
Definition low6 (c : ascii) : Z := Z.land (code c) 0x3F.

(** [utf8.DecodeRuneInString]: the first rune and its width; an invalid
    sequence gives the error rune with width 1. *)
Definition DecodeRune (s : string) : Z * nat :=
  match s with
  | EmptyString => (RuneError, 0%nat)
  | String c0 r =>
    if code c0 <? RuneSelf then (code c0, 1%nat)
    else
      match first (code c0), r with
      | Some (2%nat, lo, hi), String c1 _ =>
        if within lo hi c1
        then (Z.lor (Z.shiftl (Z.land (code c0) 0x1F) 6) (low6 c1), 2%nat)
        else (RuneError, 1%nat)
      | Some (3%nat, lo, hi), String c1 (String c2 _) =>
        if within lo hi c1 && cont c2
        then (Z.lor (Z.lor (Z.shiftl (Z.land (code c0) 0x0F) 12) (Z.shiftl (low6 c1) 6))
                (low6 c2), 3%nat)
        else (RuneError, 1%nat)
      | Some (4%nat, lo, hi), String c1 (String c2 (String c3 _)) =>
        if within lo hi c1 && cont c2 && cont c3
        then (Z.lor (Z.lor (Z.lor (Z.shiftl (Z.land (code c0) 0x07) 18)
                                  (Z.shiftl (low6 c1) 12))
                           (Z.shiftl (low6 c2) 6))
                (low6 c3), 4%nat)
        else (RuneError, 1%nat)
      | _, _ => (RuneError, 1%nat)
      end
  end.

Arguments DecodeRune : simpl never.

(** The runes of a string with the bytes each was decoded from: the loop
    [for i, r := range s].  [skip] bytes belong to the previous rune. *)
Fixpoint range_from (skip : nat) (s : string) : list (Z * string) :=
  match s with
  | EmptyString => []
  | String _ rest =>
    match skip with
    | S k => range_from k rest
    | O =>
      let '(r, w) := DecodeRune s in
      (r, stake w s) :: range_from (pred w) rest
    end
  end.
Definition range_string (s : string) : list (Z * string) := range_from 0 s.

Ltac decode_cases :=
  unfold DecodeRune, first;
  repeat (case_match; simplify_eq/=; try done).

Lemma DecodeRune_width c s :
  (1 <= (DecodeRune (String c s)).2 <= String.length (String c s))%nat.
Proof. decode_cases; simpl; lia. Qed.

Lemma range_from_concat k s :
  concat_strings (map snd (range_from k s)) = sdrop k s.
Proof.
  revert k. induction s as [|c s IH]; intros [|k]; simpl; [done..| |apply IH].
  pose proof (DecodeRune_width c s) as Hw.
  destruct (DecodeRune (String c s)) as [r w] eqn:E. simpl in *.
  rewrite IH. destruct w as [|w]; [lia|]. simpl. by rewrite stake_sdrop.
Qed.

(** The source bytes of the runes are the string: the loop sees every byte
    exactly once. *)
Lemma range_string_concat s : concat_strings (map snd (range_string s)) = s.
Proof. apply range_from_concat. Qed.

(** The runes that a sequence of two, three or four bytes can encode. *)
Definition width_of (r w : Z) : Prop :=
  (w = 2 /\ 2 ^ 7 <= r < 2 ^ 11) \/ (w = 3 /\ 2 ^ 11 <= r) \/ (w = 4 /\ 2 ^ 16 <= r).

(** A chunk of the loop: an ASCII byte, an invalid byte, or a valid
    sequence. *)
Definition chunk_wf (ch : Z * string) : Prop :=
  (exists c, ch = (code c, String c EmptyString) /\ code c < RuneSelf) \/
  (exists c, ch = (RuneError, String c EmptyString) /\ RuneSelf <= code c) \/
  width_of ch.1 (slen ch.2).

Lemma lor_ge_l k a b : 0 <= k -> 0 <= a -> 0 <= b -> 2 ^ k <= a -> 2 ^ k <= Z.lor a b.
Proof.
  intros Hk0 Ha Hb Hk.
  assert (0 < 2 ^ k) by (apply Z.pow_pos_nonneg; lia).
  assert (0 < Z.lor a b) as Hpos.
  { apply Z.le_neq. split; [by apply Z.lor_nonneg|].
    intros E. symmetry in E. apply Z.lor_eq_0_iff in E as [-> ->]. lia. }
  apply Z.log2_le_pow2; [done|]. rewrite Z.log2_lor by done.
  apply Z.log2_le_pow2 in Hk; lia.
Qed.
Lemma lor_ge_r k a b : 0 <= k -> 0 <= a -> 0 <= b -> 2 ^ k <= b -> 2 ^ k <= Z.lor a b.
Proof. intros. rewrite Z.lor_comm. by apply lor_ge_l. Qed.
Lemma lor_lt k a b : 0 < k -> 0 <= a < 2 ^ k -> 0 <= b < 2 ^ k -> Z.lor a b < 2 ^ k.
Proof.
  intros Hk [Ha Ha'] [Hb Hb'].
  destruct (Z.eq_dec (Z.lor a b) 0) as [->|Hne]; [lia|].
  apply Z.log2_lt_pow2.
  { pose proof (proj2 (Z.lor_nonneg a b) (conj Ha Hb)). lia. }
  rewrite Z.log2_lor by done. apply Z.max_lub_lt.
  - destruct (Z.eq_dec a 0) as [->|]; [done|]. apply Z.log2_lt_pow2; lia.
  - destruct (Z.eq_dec b 0) as [->|]; [done|]. apply Z.log2_lt_pow2; lia.
Qed.

Lemma low6_mod c : low6 c = code c mod 64.
Proof. apply (Z.land_ones _ 6). lia. Qed.
Lemma shift_land_nonneg c m k : 0 <= m -> 0 <= Z.shiftl (Z.land (code c) m) k.
Proof. intros. apply Z.shiftl_nonneg, Z.land_nonneg. auto. Qed.
Lemma shift_low6_nonneg c k : 0 <= Z.shiftl (low6 c) k.
Proof. by apply shift_land_nonneg. Qed.
Lemma low6_nonneg c : 0 <= low6 c.
Proof. rewrite low6_mod. apply Z.mod_pos_bound. lia. Qed.
#[local] Hint Resolve shift_low6_nonneg low6_nonneg : go.
#[local] Hint Extern 1 (0 <= Z.shiftl (Z.land _ _) _) => apply shift_land_nonneg; lia : go.
#[local] Hint Extern 2 (0 <= Z.lor _ _) => apply Z.lor_nonneg; split : go.

(** The leading bits of a sequence put its rune in the range of its width. *)
Lemma lead2 c0 : 0xC2 <= code c0 <= 0xDF ->
  2 ^ 7 <= Z.shiftl (Z.land (code c0) 0x1F) 6 < 2 ^ 11.
Proof.
  rewrite (Z.land_ones _ 5), Z.shiftl_mul_pow2 by lia.
  intros. Z.div_mod_to_equations. lia.
Qed.
Lemma lead3 c0 : 0xE1 <= code c0 <= 0xEF -> 2 ^ 11 <= Z.shiftl (Z.land (code c0) 0x0F) 12.
Proof.
  rewrite (Z.land_ones _ 4), Z.shiftl_mul_pow2 by lia.
  intros. Z.div_mod_to_equations. lia.
Qed.
Lemma lead4 c0 : 0xF1 <= code c0 <= 0xF4 -> 2 ^ 16 <= Z.shiftl (Z.land (code c0) 0x07) 18.
Proof.
  rewrite (Z.land_ones _ 3), Z.shiftl_mul_pow2 by lia.
  intros. Z.div_mod_to_equations. lia.
Qed.
Lemma second3 c1 : within 0xA0 0xBF c1 = true -> 2 ^ 11 <= Z.shiftl (low6 c1) 6.
Proof.
  unfold within. rewrite andb_true_iff, !Z.leb_le. intros [H1 H2].
  rewrite Z.shiftl_mul_pow2, low6_mod by lia. Z.div_mod_to_equations. lia.
Qed.
Lemma second4 c1 : within 0x90 0xBF c1 = true -> 2 ^ 16 <= Z.shiftl (low6 c1) 12.
Proof.
  unfold within. rewrite andb_true_iff, !Z.leb_le. intros [H1 H2].
  rewrite Z.shiftl_mul_pow2, low6_mod by lia. Z.div_mod_to_equations. lia.
Qed.

(** What the announced length says of the first two bytes. *)
Lemma first_spec b n lo hi :
  first b = Some (n, lo, hi) ->
  (n = 2%nat /\ 0xC2 <= b <= 0xDF) \/
  (n = 3%nat /\ (0xE1 <= b <= 0xEF \/ (lo = 0xA0 /\ hi = 0xBF))) \/
  (n = 4%nat /\ (0xF1 <= b <= 0xF4 \/ (lo = 0x90 /\ hi = 0xBF))).
Proof.
  unfold first. intros H.
  repeat (case_match; [simplify_eq; lia|]). discriminate.
Qed.

Lemma DecodeRune_wide c s r w :
  DecodeRune (String c s) = (r, w) -> (2 <= w)%nat -> width_of r (Z.of_nat w).
Proof.
  unfold DecodeRune, width_of. case_match; [intros; simplify_eq; lia|].
  destruct (first (code c)) as [[[n lo] hi]|] eqn:F; [|intros; simplify_eq; lia].
  apply first_spec in F as [[-> F]|[[-> F]|[-> F]]];
    repeat case_match; intros; simplify_eq; try lia;
    repeat match goal with H : _ && _ = true |- _ => apply andb_true_iff in H as [? ?] end.
  - left. split; [done|]. apply lead2 in F as [? ?]. split.
    + apply lor_ge_l; auto with go lia.
    + apply lor_lt; auto with go lia. split; [auto with go|].
      rewrite low6_mod. Z.div_mod_to_equations. lia.
  - right; left. split; [done|]. apply lor_ge_l; auto with go lia.
    destruct F as [F|[-> ->]].
    + apply lor_ge_l; auto with go lia. by apply lead3.
    + apply lor_ge_r; auto with go lia. by apply second3.
  - right; right. split; [done|]. do 2 (apply lor_ge_l; auto with go lia).
    destruct F as [F|[-> ->]].
    + apply lor_ge_l; auto with go lia. by apply lead4.
    + apply lor_ge_r; auto with go lia. by apply second4.
Qed.

Lemma DecodeRune_narrow c s r :
  DecodeRune (String c s) = (r, 1%nat) ->
  (r = code c /\ code c < RuneSelf) \/ (r = RuneError /\ RuneSelf <= code c).
Proof.
  unfold DecodeRune. case_match; [intros; simplify_eq; lia|].
  destruct (first (code c)) as [[[n lo] hi]|] eqn:F; [|intros; simplify_eq; lia].
  apply first_spec in F as [[-> F]|[[-> F]|[-> F]]];
    repeat case_match; intros; simplify_eq; try lia.
Qed.

Lemma DecodeRune_le4 s : ((DecodeRune s).2 <= 4)%nat.
Proof.
  unfold DecodeRune. repeat case_match; simpl; lia.
Qed.

Lemma range_from_wf k s : Forall chunk_wf (range_from k s).
Proof.
  revert k. induction s as [|c s IH]; intros [|k]; simpl; [constructor..| |apply IH].
  pose proof (DecodeRune_width c s) as Hw. pose proof (DecodeRune_le4 (String c s)).
  destruct (DecodeRune (String c s)) as [r w] eqn:E. simpl in *.
  constructor; [|apply IH].
  destruct w as [|[|w]]; [lia| |].
  - apply DecodeRune_narrow in E as [[-> ?]|[-> ?]]; [left|right; left]; by exists c.
  - right; right. cbn [fst snd]. rewrite slen_stake by (simpl; lia).
    eapply DecodeRune_wide; [eassumption|lia].
Qed.
Lemma range_string_wf s : Forall chunk_wf (range_string s).
Proof. apply range_from_wf. Qed.

End Utf8.

(** ** Decimal integers ([strconv]) *)

Module Strconv.

Inductive num_error := ErrSyntax | ErrRange.

Definition digit_char (d : Z) : ascii := byte_of (48 + d).

(** The digits of a non-negative number, most significant first.  A uint64
    has at most 20 of them. *)
Fixpoint dec_digits (fuel : nat) (n : Z) : string :=
  match fuel with
  | O => EmptyString
  | S f =>
    if n <? 10 then String (digit_char n) EmptyString
    else dec_digits f (n / 10) +:+ String (digit_char (n mod 10)) EmptyString
  end.

(** [strconv.FormatUint(n, 10)] *)
Definition FormatUint (n : Z) : string := dec_digits 20 n.

(** [strconv.FormatInt(n, 10)]: the magnitude is negated as a uint64. *)
Definition FormatInt (n : Z) : string :=
  if n <? 0 then String "-" (FormatUint (0 -u u64 n)) else FormatUint (u64 n).

Definition is_digit (c : ascii) : bool := (48 <=? code c) && (code c <=? 57).

(** The loop of [strconv.ParseUint(s, 10, 64)] over the digits read so far. *)
Definition cutoff : Z := MaxUint64 / 10 + 1.
Fixpoint parse_digits (s : string) (n : Z) : num_error + Z :=
  match s with
  | EmptyString => inr n
  | String c s =>
    if is_digit c then
      if cutoff <=? n then inl ErrRange
      else
        let n0 := n *u 10 in
        let n1 := n0 +u (code c - 48) in
        if n1 <? n0 then inl ErrRange else parse_digits s n1
    else inl ErrSyntax
  end.
Definition ParseUint (s : string) : num_error + Z :=
  match s with EmptyString => inl ErrSyntax | _ => parse_digits s 0 end.

(** [strconv.ParseInt(s, 10, 64)] *)
Definition ParseInt (s : string) : num_error + Z :=
  match s with
  | EmptyString => inl ErrSyntax
  | String c r =>
    let '(neg, body) :=
      if Ascii.eqb c "+" then (false, r)
      else if Ascii.eqb c "-" then (true, r) else (false, s) in
    match ParseUint body with
    | inl e => inl e
    | inr un =>
      if negb neg && (two63 <=? un) then inl ErrRange
      else if neg && (two63 <? un) then inl ErrRange
      else inr (if neg then i64 (- i64 un) else i64 un)
    end
  end.

Lemma code_digit d : 0 <= d < 10 -> code (digit_char d) = 48 + d.
Proof. intros. unfold digit_char. apply code_byte_of. lia. Qed.
Lemma is_digit_char d : 0 <= d < 10 -> is_digit (digit_char d) = true.
Proof. intros. unfold is_digit. rewrite code_digit by done. lia. Qed.

Lemma parse_digits_app s t n :
  parse_digits (s +:+ t) n =
  match parse_digits s n with inl e => inl e | inr m => parse_digits t m end.
Proof.
  revert n. induction s as [|c s IH]; intros n; [done|].
  cbn [String.append parse_digits].
  destruct (is_digit c); [|done]. destruct (cutoff <=? n); [done|].
  cbv zeta. destruct (_ <? _); [done|]. apply IH.
Qed.

Lemma parse_last_digit n m :
  is_u64 n -> m = n / 10 ->
  parse_digits (String (digit_char (n mod 10)) EmptyString) m = inr n.
Proof.
  intros Hn ->. cbn [parse_digits].
  assert (0 <= n mod 10 < 10) by (apply Z.mod_pos_bound; lia).
  rewrite is_digit_char, code_digit by done.
  assert (n = 10 * (n / 10) + n mod 10) by (apply Z.div_mod; lia).
  assert (n / 10 *u 10 = n / 10 * 10) as -> by (apply u64_id; widths; lia).
  replace (48 + n mod 10 - 48) with (n mod 10) by lia.
  assert (n / 10 * 10 +u n mod 10 = n) as -> by (rewrite u64_id; widths; lia).
  unfold cutoff. widths. change (18446744073709551616 - 1) with 18446744073709551615.
  case_match; [exfalso; Z.div_mod_to_equations; lia|].
  cbv zeta. case_match; [exfalso; lia|done].
Qed.

Lemma parse_dec_digits f n :
  is_u64 n -> n < 10 ^ Z.of_nat f -> parse_digits (dec_digits f n) 0 = inr n.
Proof.
  revert n. induction f as [|f IH]; intros n Hn Hf.
  { simpl in *. f_equal. widths. lia. }
  cbn [dec_digits]. case_match.
  - rewrite <- (Z.mod_small n 10) at 1 by (widths; lia).
    apply parse_last_digit; [done|]. symmetry. apply Z.div_small. widths. lia.
  - assert (n = 10 * (n / 10) + n mod 10) by (apply Z.div_mod; lia).
    assert (0 <= n mod 10 < 10) by (apply Z.mod_pos_bound; lia).
    rewrite Nat2Z.inj_succ, Z.pow_succ_r in Hf by lia.
    rewrite parse_digits_app, IH by (widths; lia). by apply parse_last_digit.
Qed.

Lemma dec_digits_nonempty f n : dec_digits (S f) n <> EmptyString.
Proof.
  cbn [dec_digits]. case_match; [discriminate|].
  destruct (dec_digits f (n / 10)); discriminate.
Qed.

Lemma ParseUint_FormatUint n : is_u64 n -> ParseUint (FormatUint n) = inr n.
Proof.
  intros Hn. unfold ParseUint, FormatUint.
  pose proof (dec_digits_nonempty 19 n). case_match; [done|].
  match goal with E : dec_digits _ _ = _ |- _ => rewrite <- E end.
  apply parse_dec_digits; [done|]. widths. lia.
Qed.

(** A number that parses starts with a digit, not with a sign. *)
Lemma parse_digits_head c s n m :
  parse_digits (String c s) n = inr m -> is_digit c = true.
Proof. cbn [parse_digits]. by destruct (is_digit c). Qed.
Lemma digit_not_sign c : is_digit c = true -> Ascii.eqb c "+" = false /\ Ascii.eqb c "-" = false.
Proof.
  intros H. split; apply Ascii.eqb_neq; intros ->; discriminate H.
Qed.

Lemma ParseInt_FormatInt n : is_i64 n -> ParseInt (FormatInt n) = inr n.
Proof.
  intros Hn. unfold FormatInt. case_match eqn:Hneg.
  - cbn [ParseInt]. change (Ascii.eqb "-" "+") with false.
    change (Ascii.eqb "-" "-") with true. cbv iota beta.
    rewrite ParseUint_FormatUint by auto with go.
    assert (0 -u u64 n = - n) as -> by width_lia.
    cbn [negb andb]. case_match; [exfalso; width_lia|]. f_equal. width_lia.
  - rewrite u64_id by width_lia.
    pose proof (ParseUint_FormatUint n ltac:(width_lia)) as HP.
    destruct (FormatUint n) as [|c r]; [done|].
    pose proof (parse_digits_head _ _ _ _ HP) as Hd.
    apply digit_not_sign in Hd as [H1 H2].
    unfold ParseInt. rewrite H1, H2, HP. cbn [negb andb].
    case_match; [exfalso; width_lia|]. f_equal. width_lia.
Qed.

(** What parses is in range. *)
Lemma parse_digits_range s n m :
  is_u64 n -> parse_digits s n = inr m -> is_u64 m.
Proof.
  revert n. induction s as [|c s IH]; intros n Hn; [intros; by simplify_eq/=|].
  cbn [parse_digits]. repeat case_match; try done. apply IH. auto with go.
Qed.
Lemma ParseUint_range s m : ParseUint s = inr m -> is_u64 m.
Proof.
  unfold ParseUint. case_match; [done|].
  apply parse_digits_range. split; [done|reflexivity].
Qed.

(** The loop that counts decimal digits, as the size estimation writes it:
    [for i > 0 { i /= 10; out += 1 }]. *)
Fixpoint digit_loop (fuel : nat) (i out : Z) : option Z :=
  match fuel with
  | O => if 0 <? i then None else Some out
  | S f => if 0 <? i then digit_loop f (i / 10) (out + 1) else Some out
  end.

Lemma digit_loop_length f n out :
  0 < n < 10 ^ Z.of_nat f ->
  digit_loop f n out = Some (out + slen (dec_digits f n)).
Proof.
  revert n out. induction f as [|f IH]; intros n out Hn; [simpl in Hn; lia|].
  cbn [digit_loop dec_digits]. rewrite (proj2 (Z.ltb_lt 0 n)) by lia.
  rewrite Nat2Z.inj_succ, Z.pow_succ_r in Hn by lia. case_match.
  - rewrite Z.div_small by lia. by destruct f.
  - rewrite IH by (Z.div_mod_to_equations; lia).
    rewrite slen_app. change (slen (String _ EmptyString)) with 1. f_equal. lia.
Qed.

(** Twenty rounds are enough for every uint64. *)
Lemma digit_loop_FormatUint n :
  is_u64 n -> n <> 0 -> digit_loop 20 n 0 = Some (slen (FormatUint n)).
Proof.
  intros Hn H0. unfold FormatUint. rewrite digit_loop_length; [f_equal; lia|].
  widths. lia.
Qed.

End Strconv.

(** ** Hexadecimal ([encoding/hex]) *)

Module Hex.

Inductive hex_error := InvalidByteError (c : ascii) | ErrLength.

Definition hex_char (d : Z) : ascii := byte_of (if d <? 10 then 48 + d else 87 + d).

Definition hex_val (c : ascii) : option Z :=
  let z := code c in
  if (48 <=? z) && (z <=? 57) then Some (z - 48)
  else if (97 <=? z) && (z <=? 102) then Some (z - 87)
  else if (65 <=? z) && (z <=? 70) then Some (z - 55)
  else None.

(** [hex.EncodeToString] *)
Fixpoint EncodeToString (s : string) : string :=
  match s with
  | EmptyString => EmptyString
  | String c r =>
    String (hex_char (code c / 16)) (String (hex_char (code c mod 16)) (EncodeToString r))
  end.

(** The same with digits in upper case: [%X] of package [fmt] for bytes and
    strings, and [hex::encode_upper] in Rust. *)
Definition upper_hex_char (d : Z) : ascii := byte_of (if d <? 10 then 48 + d else 55 + d).
Fixpoint encode_upper (s : string) : string :=
  match s with
  | EmptyString => EmptyString
  | String c r =>
    String (upper_hex_char (code c / 16)) (String (upper_hex_char (code c mod 16)) (encode_upper r))
  end.

(** [hex.DecodeString]: an invalid digit is reported before an odd length. *)
Fixpoint DecodeString (s : string) : hex_error + string :=
  match s with
  | EmptyString => inr EmptyString
  | String a EmptyString =>
    match hex_val a with None => inl (InvalidByteError a) | Some _ => inl ErrLength end
  | String a (String b r) =>
    match hex_val a, hex_val b with
    | None, _ => inl (InvalidByteError a)
    | Some _, None => inl (InvalidByteError b)
    | Some x, Some y =>
      match DecodeString r with
      | inl e => inl e
      | inr t => inr (String (byte_of (16 * x + y)) t)
      end
    end
  end.

Lemma hex_val_char d : 0 <= d < 16 -> hex_val (hex_char d) = Some d.
Proof.
  intros Hd. unfold hex_val, hex_char.
  rewrite code_byte_of by (case_match; lia).
  repeat case_match; f_equal; lia.
Qed.
Lemma hex_val_range c d : hex_val c = Some d -> 0 <= d < 16.
Proof. unfold hex_val. cbv zeta. repeat case_match; intros; simplify_eq; lia. Qed.

Lemma slen_EncodeToString s : slen (EncodeToString s) = 2 * slen s.
Proof.
  induction s as [|c s IH]; [done|].
  cbn [EncodeToString]. rewrite !slen_cons, IH. lia.
Qed.

Lemma Decode_Encode s : DecodeString (EncodeToString s) = inr s.
Proof.
  induction s as [|c s IH]; [done|]. pose proof (code_range c).
  cbn [EncodeToString DecodeString].
  rewrite !hex_val_char, IH by (Z.div_mod_to_equations; lia).
  rewrite <- Z.div_mod by lia. by rewrite byte_of_code.
Qed.

Lemma slen_upper s : slen (encode_upper s) = 2 * slen s.
Proof.
  induction s as [|c s IH]; [done|].
  cbn [encode_upper]. rewrite !slen_cons, IH. lia.
Qed.
Lemma hex_val_upper d : 0 <= d < 16 -> hex_val (upper_hex_char d) = Some d.
Proof.
  intros Hd. assert (forallb (fun n => bool_decide (hex_val (upper_hex_char (Z.of_nat n)) = Some (Z.of_nat n)))
    (seq 0 16) = true) as Hall by reflexivity.
  rewrite forallb_forall in Hall. specialize (Hall (Z.to_nat d)). rewrite Z2Nat.id in Hall by lia.
  eapply bool_decide_eq_true, Hall. apply in_seq. lia.
Qed.
Lemma Decode_upper s : DecodeString (encode_upper s) = inr s.
Proof.
  induction s as [|c s IH]; [done|]. pose proof (code_range c).
  cbn [encode_upper DecodeString].
  rewrite !hex_val_upper, IH by (Z.div_mod_to_equations; lia).
  rewrite <- Z.div_mod by lia. by rewrite byte_of_code.
Qed.

Lemma Decode_length s t : DecodeString s = inr t -> slen s = 2 * slen t.
Proof.
  revert t. induction s as [s IH] using string_len_ind.
  intros t. destruct s as [|a [|b r]]; cbn [DecodeString].
  - intros; by simplify_eq.
  - by case_match.
  - repeat case_match; intros; simplify_eq. rewrite !slen_cons.
    rewrite (IH r) with (t := s); [lia|simpl; lia|done].
Qed.

End Hex.

(** ** Base64 with padding ([base64.StdEncoding]) *)

Module Base64.

Definition b64_char (d : Z) : ascii :=
  byte_of
    (if d <? 26 then 65 + d
     else if d <? 52 then 71 + d
     else if d <? 62 then d - 4
     else if d =? 62 then 43 else 47).

(** The four characters of a group of three bytes. *)
Definition c1 (a : Z) : ascii := b64_char (a / 4).
Definition c2 (a b : Z) : ascii := b64_char (16 * (a mod 4) + b / 16).
Definition c3 (b c : Z) : ascii := b64_char (4 * (b mod 16) + c / 64).
Definition c4 (c : Z) : ascii := b64_char (c mod 64).

Fixpoint Encode (s : string) : string :=
  match s with
  | EmptyString => EmptyString
  | String x EmptyString =>
    String (c1 (code x)) (String (c2 (code x) 0) "==")
  | String x (String y EmptyString) =>
    String (c1 (code x)) (String (c2 (code x) (code y)) (String (c3 (code y) 0) "="))
  | String x (String y (String z r)) =>
    String (c1 (code x)) (String (c2 (code x) (code y))
      (String (c3 (code y) (code z)) (String (c4 (code z)) (Encode r))))
  end.

Lemma slen_Encode s : slen (Encode s) = 4 * ((slen s + 2) / 3).
Proof.
  induction s as [s IH] using string_len_ind.
  destruct s as [|x [|y [|z r]]]; [done..|].
  cbn [Encode]. rewrite !slen_cons, IH by (simpl; lia).
  Z.div_mod_to_equations. lia.
Qed.

(** Every character of the output is printable ASCII, and none needs an
    escape in a JSON string. *)
Definition plain (c : ascii) : bool :=
  let z := code c in
  (0x20 <=? z) && (z <=? 0x7E) &&
  negb (existsb (Z.eqb z) [0x22; 0x26; 0x3C; 0x3E; 0x5C]).

Fixpoint all_plain (s : string) : bool :=
  match s with
  | EmptyString => true
  | String c s => plain c && all_plain s
  end.

Lemma b64_char_plain d : 0 <= d < 64 -> plain (b64_char d) = true.
Proof.
  intros Hd. unfold plain, b64_char. rewrite code_byte_of by (repeat case_match; lia).
  cbn [existsb]. repeat case_match; lia.
Qed.

Lemma Encode_plain s : all_plain (Encode s) = true.
Proof.
  induction s as [s IH] using string_len_ind.
  destruct s as [|x [|y [|z r]]]; [done|..]; cbn [Encode all_plain];
    try pose proof (code_range x); try pose proof (code_range y);
    try pose proof (code_range z);
    unfold c1, c2, c3, c4;
    rewrite !b64_char_plain by (Z.div_mod_to_equations; lia); [done..|].
  rewrite IH by (simpl; lia). done.
Qed.

(** [StdEncoding.Decode]: newlines are skipped, the length must be a multiple
    of four and only the last group may be padded. *)
Definition b64_val (c : ascii) : option Z :=
  let z := code c in
  if (65 <=? z) && (z <=? 90) then Some (z - 65)
  else if (97 <=? z) && (z <=? 122) then Some (z - 71)
  else if (48 <=? z) && (z <=? 57) then Some (z + 4)
  else if z =? 43 then Some 62
  else if z =? 47 then Some 63
  else None.

Fixpoint strip_newlines (s : string) : string :=
  match s with
  | EmptyString => EmptyString
  | String c r =>
    if (code c =? 10) || (code c =? 13) then strip_newlines r
    else String c (strip_newlines r)
  end.

Definition d1 (p q : Z) : ascii := byte_of (4 * p + q / 16).
Definition d2 (q r : Z) : ascii := byte_of (16 * (q mod 16) + r / 4).
Definition d3 (r s : Z) : ascii := byte_of (64 * (r mod 4) + s).

Fixpoint decode_groups (s : string) : option string :=
  match s with
  | EmptyString => Some EmptyString
  | String a (String b (String c (String d rest))) =>
    match b64_val a, b64_val b, b64_val c, b64_val d with
    | Some p, Some q, Some r, Some t =>
      match decode_groups rest with
      | Some out => Some (String (d1 p q) (String (d2 q r) (String (d3 r t) out)))
      | None => None
      end
    | Some p, Some q, Some r, None =>
      if Ascii.eqb d "=" && (String.length rest =? 0)%nat
      then Some (String (d1 p q) (String (d2 q r) EmptyString)) else None
    | Some p, Some q, None, None =>
      if Ascii.eqb c "=" && Ascii.eqb d "=" && (String.length rest =? 0)%nat
      then Some (String (d1 p q) EmptyString) else None
    | _, _, _, _ => None
    end
  | _ => None
  end.
Definition Decode (s : string) : option string := decode_groups (strip_newlines s).

Lemma b64_val_char d : 0 <= d < 64 -> b64_val (b64_char d) = Some d.
Proof.
  intros Hd. unfold b64_val, b64_char.
  rewrite code_byte_of by (repeat case_match; lia).
  repeat case_match; f_equal; lia.
Qed.
Lemma strip_plain s : all_plain s = true -> strip_newlines s = s.
Proof.
  induction s as [|c s IH]; [done|]. cbn [all_plain strip_newlines].
  intros [Hc Hs]%andb_true_iff. rewrite IH by done.
  unfold plain in Hc. case_match; [lia|done].
Qed.

Lemma group1 a b : 0 <= b < 256 -> d1 (code a / 4) (16 * (code a mod 4) + b / 16) = a.
Proof.
  intros Hb. pose proof (code_range a). apply code_inj. unfold d1.
  rewrite code_byte_of; Z.div_mod_to_equations; lia.
Qed.
Lemma group2 a b c : 0 <= c < 256 ->
  d2 (16 * (code a mod 4) + code b / 16) (4 * (code b mod 16) + c / 64) = b.
Proof.
  intros Hc. pose proof (code_range a). pose proof (code_range b). apply code_inj. unfold d2.
  rewrite code_byte_of; Z.div_mod_to_equations; lia.
Qed.
Lemma group3 b c : d3 (4 * (code b mod 16) + code c / 64) (code c mod 64) = c.
Proof.
  pose proof (code_range b). pose proof (code_range c). apply code_inj. unfold d3.
  rewrite code_byte_of; Z.div_mod_to_equations; lia.
Qed.

Lemma decode_groups_Encode s : decode_groups (Encode s) = Some s.
Proof.
  induction s as [s IH] using string_len_ind.
  destruct s as [|x [|y [|z r]]]; [done|..]; cbn [Encode decode_groups];
    pose proof (code_range x); try pose proof (code_range y); try pose proof (code_range z);
    unfold c1, c2, c3, c4;
    rewrite !b64_val_char by (Z.div_mod_to_equations; lia);
    try change (b64_val "="%char) with (@None Z); cbn [Ascii.eqb Bool.eqb andb String.length Nat.eqb].
  - by rewrite group1.
  - rewrite group1 by done. by rewrite group2.
  - rewrite IH by (simpl; lia). rewrite group1, group2, group3 by done. done.
Qed.

Lemma Decode_Encode64 s : Decode (Encode s) = Some s.
Proof. unfold Decode. rewrite strip_plain by apply Encode_plain. apply decode_groups_Encode. Qed.

End Base64.
