(* ===== verification/RustText.v ===== *)
(** * Text on the Rust side

    What [libwasmvm] uses of Rust's standard library and of the [hex] crate
    on bytes that come from Go or from a contract: the check and the lossy
    conversion of UTF-8 ([String::from_utf8], [String::from_utf8_lossy]) and
    hexadecimal digits ([hex::encode_upper]).

    Rust and Go accept the same sequences ([GoText.Utf8.first]) but replace
    invalid ones differently: Go every byte, Rust the longest start of a
    sequence at once. *)

From Stdlib Require Import Ascii.
From S2P Require Import Prelude GoText.

(** The first character: whether it is valid, and the number of its bytes;
    for an invalid one, of the bytes that are replaced together. *)
Definition first_char (s : string) : bool * nat :=
  match s with
  | EmptyString => (true, 0%nat)
  | String c0 r =>
    if code c0 <? Utf8.RuneSelf then (true, 1%nat)
    else
      match Utf8.first (code c0), r with
      | Some (n, lo, hi), String c1 r1 =>
        if Utf8.within lo hi c1 then
          match n, r1 with
          | 2%nat, _ => (true, 2%nat)
          | _, EmptyString => (false, 2%nat)
          | _, String c2 r2 =>
            if Utf8.cont c2 then
              match n, r2 with
              | 3%nat, _ => (true, 3%nat)
              | _, EmptyString => (false, 3%nat)
              | _, String c3 _ => if Utf8.cont c3 then (true, 4%nat) else (false, 3%nat)
              end
            else (false, 2%nat)
          end
        else (false, 1%nat)
      | _, _ => (false, 1%nat)
      end
  end.

(** A string from the numbers of its bytes; the bytes of U+FFFD. *)
Definition raw (l : list Z) : string := fold_right (fun b s => String (byte_of b) s) EmptyString l.
Definition replacement : string := raw [0xEF; 0xBF; 0xBD].

Fixpoint lossy_from (skip : nat) (s : string) : string :=
  match s with
  | EmptyString => EmptyString
  | String _ rest =>
    match skip with
    | S k => lossy_from k rest
    | O =>
      let '(ok, w) := first_char s in
      (if ok then stake w s else replacement) +:+ lossy_from (pred w) rest
    end
  end.
Definition from_utf8_lossy (s : string) : string := lossy_from 0 s.

Fixpoint valid_from (skip : nat) (s : string) : bool :=
  match s with
  | EmptyString => true
  | String _ rest =>
    match skip with
    | S k => valid_from k rest
    | O => let '(ok, w) := first_char s in ok && valid_from (pred w) rest
    end
  end.
(** [String::from_utf8]; [None] is the error. *)
Definition from_utf8 (s : string) : option string :=
  if valid_from 0 s then Some s else None.

(** ** Lemmas *)

Lemma first_char_width c s : (1 <= (first_char (String c s)).2 <= String.length (String c s))%nat.
Proof. unfold first_char. repeat case_match; cbn; lia. Qed.

(** Rust and Go agree on what is valid. *)
Lemma first_char_decode c s :
  (first_char (String c s)).1 = true ->
  Utf8.DecodeRune (String c s) <> (Utf8.RuneError, 1%nat) /\
  (first_char (String c s)).2 = (Utf8.DecodeRune (String c s)).2.
Proof.
  unfold first_char, Utf8.DecodeRune.
  destruct (Z.ltb_spec (code c) Utf8.RuneSelf) as [Hc|Hc].
  { intros _. split; [|done]. intros [= E]. rewrite E in Hc. done. }
  destruct (Utf8.first (code c)) as [[[n lo] hi]|] eqn:Ef; [|done].
  assert (n = 2 \/ n = 3 \/ n = 4)%nat as Hn.
  { unfold Utf8.first in Ef. repeat case_match; simplify_eq; auto. }
  destruct s as [|c1 [|c2 [|c3 s]]]; destruct Hn as [-> | [-> | ->]]; try done;
    repeat case_match; simplify_eq/=; try done; intros _; split; done.
Qed.

Lemma lossy_from_valid k s : valid_from k s = true -> lossy_from k s = sdrop k s.
Proof.
  revert k. induction s as [|c s IH]; intros [|k]; cbn [lossy_from valid_from sdrop]; try done;
    [|apply IH].
  pose proof (first_char_width c s) as Hw. destruct (first_char (String c s)) as [ok w].
  cbn [snd] in Hw. intros [-> Hv]%andb_true_iff. rewrite IH by done.
  destruct w as [|w]; [lia|]. cbn [stake pred sdrop String.append]. by rewrite stake_sdrop.
Qed.
(** Text that is UTF-8 comes through unchanged. *)
Lemma from_utf8_lossy_id s : from_utf8 s = Some s -> from_utf8_lossy s = s.
Proof.
  unfold from_utf8. destruct (valid_from 0 s) eqn:E; [|done]. intros _. by apply lossy_from_valid.
Qed.
Lemma from_utf8_Some s t : from_utf8 s = Some t -> t = s.
Proof. unfold from_utf8. by case_match; intros [= <-]. Qed.

(** Two bytes of a sequence of three that is cut short are one replacement;
    bytes that can start nothing are replaced one by one. *)
Lemma lossy_examples :
  from_utf8_lossy (raw [0x61; 0xE2; 0x82; 0x62]) = "a"%string +:+ replacement +:+ "b" /\
  from_utf8_lossy (raw [0xFF; 0xFE]) = replacement +:+ replacement /\
  from_utf8_lossy (raw [0xF0; 0x9F; 0x92; 0x9A]) = raw [0xF0; 0x9F; 0x92; 0x9A].
Proof. by vm_compute. Qed.
