(* ===== verification/Json.v ===== *)
(** * JSON values and their text ([encoding/json])

    The documents Go's encoder produces, as a tree ([json]) and as the bytes
    [json.Marshal] writes for it ([json_text]).  A number is kept as its
    literal.  A value that was read from a text other than the one that is
    written for its tree (with spaces, or with other escapes) is kept with
    that text, because a [json.RawMessage] is the text of a value.  Strings are written as Go writes them: control characters and
    HTML characters are escaped, an invalid UTF-8 byte becomes the escape of
    the replacement character, and the two line separators U+2028 and U+2029
    are escaped (Go 1.22, the version go.mod names). *)

From Stdlib Require Import Ascii.
From S2P Require Import Prelude GoText.

#[local] Unset Elimination Schemes.
Inductive json : Type :=
| JNull
| JBool (b : bool)
| JNumber (literal : string)
| JString (s : string)
| JArray (l : list json)
| JObject (fields : list (string * json))
| JSource (text : string) (j : json).
#[local] Set Elimination Schemes.

(** Induction through the lists of elements and of members. *)
Section JsonInd.
Variable P : json -> Prop.
Hypothesis HNull : P JNull.
Hypothesis HBool : forall b, P (JBool b).
Hypothesis HNumber : forall n, P (JNumber n).
Hypothesis HString : forall s, P (JString s).
Hypothesis HArray : forall l, Forall P l -> P (JArray l).
Hypothesis HObject : forall fs, Forall (fun kv => P kv.2) fs -> P (JObject fs).
Hypothesis HSource : forall t j, P j -> P (JSource t j).

Fixpoint json_ind (j : json) : P j :=
  match j with
  | JNull => HNull
  | JBool b => HBool b
  | JNumber n => HNumber n
  | JString s => HString s
  | JArray l =>
    HArray l ((fix go l : Forall P l :=
      match l with
      | [] => List.Forall_nil _
      | x :: l => List.Forall_cons _ _ _ (json_ind x) (go l)
      end) l)
  | JObject fs =>
    HObject fs ((fix go fs : Forall (fun kv => P kv.2) fs :=
      match fs with
      | [] => List.Forall_nil _
      | kv :: fs => List.Forall_cons _ _ _ (json_ind kv.2) (go fs)
      end) fs)
  | JSource t j => HSource t j (json_ind j)
  end.
End JsonInd.

(** ** Strings *)

(** [htmlSafeSet]: the ASCII characters that are written as they are. *)
Definition htmlSafe (r : Z) : bool :=
  (0x20 <=? r) && (r <? Utf8.RuneSelf) &&
  negb (existsb (Z.eqb r) [0x22; 0x26; 0x3C; 0x3E; 0x5C]).

Definition backslash : string := String "092"%char EmptyString.
Definition hex1 (d : Z) : string := String (Hex.hex_char d) EmptyString.

(** What [appendString] writes for one rune and the bytes it came from. *)
Definition escape_rune (ch : Z * string) : string :=
  let '(r, src) := ch in
  if r <? Utf8.RuneSelf then
    if htmlSafe r then src
    else if (r =? 0x5C) || (r =? 0x22) then backslash +:+ src
    else if r =? 0x08 then backslash +:+ "b"
    else if r =? 0x0C then backslash +:+ "f"
    else if r =? 0x0A then backslash +:+ "n"
    else if r =? 0x0D then backslash +:+ "r"
    else if r =? 0x09 then backslash +:+ "t"
    else backslash +:+ "u00" +:+ hex1 (Z.shiftr r 4) +:+ hex1 (Z.land r 0xF)
  else if (r =? Utf8.RuneError) && (slen src =? 1) then backslash +:+ "ufffd"
  else if (r =? 0x2028) || (r =? 0x2029) then backslash +:+ "u202" +:+ hex1 (Z.land r 0xF)
  else src.

Definition string_text (s : string) : string :=
  quote (concat_strings (map escape_rune (Utf8.range_string s))).

(** ** Documents *)

Definition brace (s : string) : string := "{" +:+ s +:+ "}".
Definition bracket (s : string) : string := "[" +:+ s +:+ "]".

Fixpoint json_text (j : json) : string :=
  match j with
  | JNull => "null"
  | JBool b => if b then "true" else "false"
  | JNumber n => n
  | JString s => string_text s
  | JArray l => bracket (join "," (map json_text l))
  | JObject fs =>
    brace (join "," (map (fun kv => string_text kv.1 +:+ ":" +:+ json_text kv.2) fs))
  | JSource t _ => t
  end.

(** The value itself, without its text. *)
Fixpoint view (j : json) : json := match j with JSource _ j => view j | _ => j end.
(** The tree without any text. *)
Fixpoint plain (j : json) : json :=
  match j with
  | JArray l => JArray (map plain l)
  | JObject fs => JObject (map (fun kv => (kv.1, plain kv.2)) fs)
  | JSource _ j => plain j
  | j => j
  end.
Lemma plain_view j : plain (view j) = plain j.
Proof. induction j using json_ind; done. Qed.
Lemma view_plain j : view (plain j) = plain j.
Proof. induction j using json_ind; done. Qed.
