(* ===== verification/JsonParse.v ===== *)
(** * Reading JSON text ([encoding/json])

    The grammar that Go's scanner accepts and the values its decoder takes
    from it: white space around every token, the three literals, numbers kept
    as their literal, strings with their escapes (surrogate pairs joined, lone
    surrogates and bytes that are not UTF-8 replaced by U+FFFD), and a nesting
    of at most 10000 arrays and objects.  Every step of the parser either
    consumes a byte or goes from a list to its first element, so fuel of
    three times the length of the text is enough. *)

From Stdlib Require Import Ascii.
From S2P Require Import Prelude GoText Json.

Definition maxNestingDepth : nat := Z.to_nat 10000.

Definition is_space (c : ascii) : bool :=
  (code c =? 0x20) || (code c =? 0x09) || (code c =? 0x0A) || (code c =? 0x0D).
Fixpoint skip_space (s : string) : string :=
  match s with
  | String c r => if is_space c then skip_space r else s
  | EmptyString => s
  end.

(** ** Strings *)

(** [utf8.AppendRune]: surrogates and values out of range are written as the
    error rune. *)
Definition is_surrogate (r : Z) : bool := (0xD800 <=? r) && (r <? 0xE000).
Definition error_rune : string :=
  String (byte_of 0xEF) (String (byte_of 0xBF) (String (byte_of 0xBD) EmptyString)).
Definition tail6 (r k : Z) : ascii := byte_of (Z.lor 0x80 (Z.land (Z.shiftr r k) 0x3F)).
Definition AppendRune (r : Z) : string :=
  if r <? 0x80 then String (byte_of r) EmptyString
  else if r <? 0x800 then
    String (byte_of (Z.lor 0xC0 (Z.shiftr r 6))) (String (tail6 r 0) EmptyString)
  else if is_surrogate r || (0x10FFFF <? r) then error_rune
  else if r <? 0x10000 then
    String (byte_of (Z.lor 0xE0 (Z.shiftr r 12)))
      (String (tail6 r 6) (String (tail6 r 0) EmptyString))
  else
    String (byte_of (Z.lor 0xF0 (Z.shiftr r 18)))
      (String (tail6 r 12) (String (tail6 r 6) (String (tail6 r 0) EmptyString))).

(** The four hexadecimal digits after [\u]. *)
Definition getu4 (s : string) : option (Z * string) :=
  match s with
  | String a (String b (String c (String d r))) =>
    match Hex.hex_val a, Hex.hex_val b, Hex.hex_val c, Hex.hex_val d with
    | Some a, Some b, Some c, Some d => Some (((a * 16 + b) * 16 + c) * 16 + d, r)
    | _, _, _, _ => None
    end
  | _ => None
  end.

(** [\uXXXX], joined with a second one when the two form a surrogate pair. *)
Definition unicode_escape (s : string) : option (string * string) :=
  match getu4 s with
  | None => None
  | Some (r1, rest) =>
    if is_surrogate r1 then
      match rest with
      | String b (String u rest') =>
        if (code b =? 0x5C) && (code u =? 0x75) then
          match getu4 rest' with
          | None => None
          | Some (r2, rest2) =>
            if (r1 <? 0xDC00) && (0xDC00 <=? r2) && (r2 <? 0xE000)
            then Some (AppendRune ((r1 - 0xD800) * 1024 + (r2 - 0xDC00) + 0x10000), rest2)
            else Some (error_rune, rest)
          end
        else Some (error_rune, rest)
      | _ => Some (error_rune, rest)
      end
    else Some (AppendRune r1, rest)
  end.

(** The character of a one-letter escape. *)
Definition simple_escape (e : Z) : option Z :=
  if (e =? 0x22) || (e =? 0x5C) || (e =? 0x2F) then Some e
  else if e =? 0x62 then Some 0x08
  else if e =? 0x66 then Some 0x0C
  else if e =? 0x6E then Some 0x0A
  else if e =? 0x72 then Some 0x0D
  else if e =? 0x74 then Some 0x09
  else None.

(** The contents of a string after its opening quote, and what follows its
    closing one. *)
Fixpoint parse_chars (fuel : nat) (s : string) : option (string * string) :=
  match fuel, s with
  | S f, String c rest =>
    if code c =? 0x22 then Some (EmptyString, rest)
    else if code c =? 0x5C then
      match rest with
      | EmptyString => None
      | String e rest' =>
        match (if code e =? 0x75 then unicode_escape rest'
               else option_map (fun r => (String (byte_of r) EmptyString, rest')) (simple_escape (code e)))
        with
        | None => None
        | Some (piece, rest2) =>
          option_map (fun '(t, u) => (piece +:+ t, u)) (parse_chars f rest2)
        end
      end
    else if code c <? 0x20 then None
    else
      let '(r, w) := Utf8.DecodeRune s in
      let piece := if (r =? Utf8.RuneError) && (w =? 1)%nat then error_rune else stake w s in
      option_map (fun '(t, u) => (piece +:+ t, u)) (parse_chars f (sdrop w s))
  | _, _ => None
  end.
Definition parse_string (s : string) : option (string * string) :=
  parse_chars (S (String.length s)) s.

(** ** Numbers *)

Fixpoint span_digits (s : string) : string * string :=
  match s with
  | String c r =>
    if Strconv.is_digit c then let '(d, t) := span_digits r in (String c d, t)
    else (EmptyString, s)
  | EmptyString => (EmptyString, s)
  end.
(** One digit or more. *)
Definition digits1 (s : string) : option (string * string) :=
  let '(d, r) := span_digits s in
  match d with EmptyString => None | _ => Some (d, r) end.

(** [0], or digits that do not start with 0. *)
Definition integer_part (s : string) : option (string * string) :=
  match s with
  | String c r =>
    if code c =? 48 then Some (String c EmptyString, r) else digits1 s
  | EmptyString => None
  end.
Definition fraction_part (s : string) : option (string * string) :=
  match s with
  | String c r =>
    if code c =? 0x2E then option_map (fun '(d, t) => (String c d, t)) (digits1 r)
    else Some (EmptyString, s)
  | EmptyString => Some (EmptyString, s)
  end.
Definition exponent_part (s : string) : option (string * string) :=
  match s with
  | String c r =>
    if (code c =? 0x65) || (code c =? 0x45) then
      let '(sg, r) :=
        match r with
        | String g t => if (code g =? 0x2B) || (code g =? 0x2D) then (String g EmptyString, t)
                        else (EmptyString, r)
        | EmptyString => (EmptyString, r)
        end in
      option_map (fun '(d, t) => (String c (sg +:+ d), t)) (digits1 r)
    else Some (EmptyString, s)
  | EmptyString => Some (EmptyString, s)
  end.
Definition parse_number (s : string) : option (string * string) :=
  let '(sg, r) :=
    match s with
    | String c t => if code c =? 0x2D then (String c EmptyString, t) else (EmptyString, s)
    | EmptyString => (EmptyString, s)
    end in
  match integer_part r with
  | None => None
  | Some (i, r) =>
    match fraction_part r with
    | None => None
    | Some (f, r) =>
      match exponent_part r with
      | None => None
      | Some (e, r) => Some (sg +:+ i +:+ f +:+ e, r)
      end
    end
  end.

(** ** Values *)

Fixpoint strip_prefix (p s : string) : option string :=
  match p, s with
  | EmptyString, _ => Some s
  | String a p, String b s => if Ascii.eqb a b then strip_prefix p s else None
  | String _ _, EmptyString => None
  end.
Definition literal (p : string) (j : json) (s : string) : option (json * string) :=
  option_map (fun r => (j, r)) (strip_prefix p s).

(** What was read of [s] when [r] is left, kept with the value unless it is
    what would be written for it. *)
Definition consumed (s r : string) : string := stake (String.length s - String.length r) s.
Definition with_source (s r : string) (j : json) : json :=
  let t := consumed s r in if String.eqb t (json_text j) then j else JSource t j.

(** A value that starts with the character [c], given the readers of what is
    inside brackets and braces. *)
Definition parse_body (elements : nat -> string -> option (list json * string))
    (members : nat -> string -> option (list (string * json) * string))
    (depth : nat) (c : ascii) (rest : string) : option (json * string) :=
  if code c =? 0x7B then
    match depth with
    | O => None
    | S d =>
      match skip_space rest with
      | String c2 r2 =>
        if code c2 =? 0x7D then Some (JObject [], r2)
        else option_map (fun '(l, r) => (JObject l, r)) (members d rest)
      | EmptyString => None
      end
    end
  else if code c =? 0x5B then
    match depth with
    | O => None
    | S d =>
      match skip_space rest with
      | String c2 r2 =>
        if code c2 =? 0x5D then Some (JArray [], r2)
        else option_map (fun '(l, r) => (JArray l, r)) (elements d rest)
      | EmptyString => None
      end
    end
  else if code c =? 0x22 then option_map (fun '(t, r) => (JString t, r)) (parse_string rest)
  else if code c =? 0x6E then literal "null" JNull (String c rest)
  else if code c =? 0x74 then literal "true" (JBool true) (String c rest)
  else if code c =? 0x66 then literal "false" (JBool false) (String c rest)
  else option_map (fun '(n, r) => (JNumber n, r)) (parse_number (String c rest)).

Fixpoint parse_value (fuel depth : nat) (s : string) : option (json * string) :=
  match fuel with
  | O => None
  | S f =>
    match skip_space s with
    | EmptyString => None
    | String c rest =>
      option_map (fun '(j, r) => (with_source (String c rest) r j, r))
        (parse_body (parse_elements f) (parse_members f) depth c rest)
    end
  end
(** The elements of an array after its bracket or a comma. *)
with parse_elements (fuel depth : nat) (s : string) : option (list json * string) :=
  match fuel with
  | O => None
  | S f =>
    match parse_value f depth s with
    | None => None
    | Some (j, r) =>
      match skip_space r with
      | EmptyString => None
      | String c r2 =>
        if code c =? 0x2C then option_map (fun '(l, t) => (j :: l, t)) (parse_elements f depth r2)
        else if code c =? 0x5D then Some ([j], r2) else None
      end
    end
  end
(** The members of an object after its brace or a comma. *)
with parse_members (fuel depth : nat) (s : string) : option (list (string * json) * string) :=
  match fuel with
  | O => None
  | S f =>
    match skip_space s with
    | EmptyString => None
    | String q r0 =>
      if code q =? 0x22 then
        match parse_string r0 with
        | None => None
        | Some (k, r1) =>
          match skip_space r1 with
          | EmptyString => None
          | String col r2 =>
            if code col =? 0x3A then
              match parse_value f depth r2 with
              | None => None
              | Some (j, r3) =>
                match skip_space r3 with
                | EmptyString => None
                | String c r4 =>
                  if code c =? 0x2C
                  then option_map (fun '(l, t) => ((k, j) :: l, t)) (parse_members f depth r4)
                  else if code c =? 0x7D then Some ([(k, j)], r4) else None
                end
              end
            else None
          end
        end
      else None
    end
  end.

(** The document of a text: one value with nothing but space around it. *)
Definition parse_json (s : string) : option json :=
  match parse_value (3 * String.length s + 3) maxNestingDepth s with
  | Some (j, r) => match skip_space r with EmptyString => Some j | _ => None end
  | None => None
  end.

(** What is read is written as it was read. *)
Lemma parse_value_text f depth s j r :
  parse_value f depth s = Some (j, r) -> json_text j = consumed (skip_space s) r.
Proof.
  destruct f as [|f]; [done|]. cbn [parse_value]. destruct (skip_space s) as [|c rest]; [done|].
  destruct (parse_body _ _ _ _ _) as [[j' r']|]; [|done]. cbn [option_map]. intros [= <- <-].
  unfold with_source. destruct (String.eqb_spec (consumed (String c rest) r') (json_text j')); done.
Qed.

(** ** Compact text

    [compact] of [encoding/json], with the escapes for HTML: what becomes of
    the text of a [json.RawMessage] when it is written.  Spaces between
    tokens are dropped; three ASCII characters and the two line separators
    are escaped. *)
Fixpoint compact (in_string escaped : bool) (s : string) : string :=
  match s with
  | EmptyString => EmptyString
  | String c r =>
    let in_string' := if in_string then negb ((code c =? 0x22) && negb escaped) else code c =? 0x22 in
    let escaped' := in_string && negb escaped && (code c =? 0x5C) in
    if existsb (Z.eqb (code c)) [0x26; 0x3C; 0x3E] then
      backslash +:+ "u00" +:+ hex1 (Z.shiftr (code c) 4) +:+ hex1 (Z.land (code c) 0xF) +:+
      compact in_string' escaped' r
    else if negb in_string && is_space c then compact in_string' escaped' r
    else
      match r with
      | String c1 (String c2 r2) =>
        if (code c =? 0xE2) && (code c1 =? 0x80) && (Z.land (code c2) 0xFE =? 0xA8) then
          backslash +:+ "u202" +:+ hex1 (Z.land (code c2) 0xF) +:+ compact in_string' escaped' r2
        else String c (compact in_string' escaped' r)
      | _ => String c (compact in_string' escaped' r)
      end
  end.
