(* ===== verification/Codec.v ===== *)
(** * Reflection-driven JSON of Go values ([encoding/json])

    [json.Marshal] and [json.Unmarshal] follow the type of the value.  A
    [codec] is what the package derives from a type: how a value is written,
    how a document is read into an existing value, the zero value, and the
    emptiness test of [omitempty].  A struct's codec is the list of its
    fields with their tags, so that one declaration per struct gives both
    directions, as the tags do in Go.

    Reading works as Go's decoder does: the members of an object are applied
    in the order of the document to the struct under construction, unknown
    members are ignored, names match exactly or else without regard to case,
    [null] leaves a non-pointer as it is, a value of the wrong kind is
    recorded and reading goes on, while an error of a type's own
    [UnmarshalJSON] stops it. *)

From Stdlib Require Import Ascii.
From S2P Require Import Prelude GoText Json JsonParse.

(** ** Results of reading *)

Inductive json_error :=
| SyntaxError
| UnmarshalTypeError (kind : string)
| Base64Error
| StringTagError
| MarshalerError
| CustomError (msg : string).

Inductive dres (A : Type) : Type :=
| DOk (a : A) (saved : option json_error)
| DAbort (e : json_error)
| DPanic (p : panic_value).
Arguments DOk {A} _ _.
Arguments DAbort {A} _.
Arguments DPanic {A} _.

Definition dret {A} (a : A) : dres A := DOk a None.
(** The first recorded error is the one that counts. *)
Definition first_error (a b : option json_error) : option json_error :=
  match a with Some _ => a | None => b end.
Definition dbind {A B} (m : dres A) (k : A -> dres B) : dres B :=
  match m with
  | DOk a s =>
    match k a with
    | DOk b s' => DOk b (first_error s s')
    | DAbort e => DAbort e
    | DPanic p => DPanic p
    end
  | DAbort e => DAbort e
  | DPanic p => DPanic p
  end.

(** What [json.Unmarshal] returns: an error that stopped the decoder comes
    before one it had recorded. *)
Definition finish {A} (m : dres A) : outcome (json_error + A) :=
  match m with
  | DOk a None => Ret (inr a)
  | DOk _ (Some e) => Ret (inl e)
  | DAbort e => Ret (inl e)
  | DPanic p => Panic p
  end.

Definition kind_of (j : json) : string :=
  match view j with
  | JNull => "null" | JBool _ => "bool" | JNumber _ => "number"
  | JString _ => "string" | JArray _ => "array" | JObject _ => "object"
  | JSource _ _ => "value"
  end.

Record codec (A : Type) := Codec {
  enc : A -> json;
  dec : json -> A -> dres A;
  zero : A;
  is_empty : A -> bool;
  (** The values that survive being written and read back. *)
  wf : A -> Prop;
}.
Arguments Codec {A} _ _ _ _ _.
Arguments enc {A} _ _.
Arguments dec {A} _ _ _.
Arguments zero {A} _.
Arguments is_empty {A} _ _.
Arguments wf {A} _ _.

(** A document of the wrong kind leaves the value and records an error. *)
Definition mismatch {A} (j : json) (old : A) : dres A :=
  match view j with
  | JNull => dret old
  | _ => DOk old (Some (UnmarshalTypeError (kind_of j)))
  end.

(** ** Scalars *)

Definition c_string : codec string :=
  Codec JString
    (fun j old => match view j with JString s => dret s | _ => mismatch j old end)
    EmptyString (fun s => slen s =? 0) (fun _ => True).

Definition c_bool : codec bool :=
  Codec JBool (fun j old => match view j with JBool b => dret b | _ => mismatch j old end)
    false negb (fun _ => True).

(** An unsigned integer of the given width (an exclusive bound). *)
Definition c_uint (bound : Z) : codec Z :=
  Codec (fun n => JNumber (Strconv.FormatUint n))
    (fun j old =>
       match view j with
       | JNumber lit =>
         match Strconv.ParseUint lit with
         | inr n =>
           if n <? bound then dret n
           else DOk old (Some (UnmarshalTypeError "number"))
         | inl _ => DOk old (Some (UnmarshalTypeError "number"))
         end
       | _ => mismatch j old
       end)
    0 (Z.eqb 0) (fun n => 0 <= n < bound).
Definition c_uint64 : codec Z := c_uint two64.
Definition c_uint32 : codec Z := c_uint two32.
Definition c_uint16 : codec Z := c_uint 65536.

(** A number from the text of a string ([literalStore] with [fromQuoted]):
    what is not a JSON value stops the decoder, a value of another kind or out
    of range is recorded. *)
Definition dec_quoted_uint64 (s : string) (old : Z) : dres Z :=
  match s with
  | EmptyString => DOk old (Some StringTagError)
  | String c r =>
    if code c =? 0x6E then if String.eqb s "null" then dret old else DOk old (Some StringTagError)
    else if (code c =? 0x74) || (code c =? 0x66) then DOk old (Some StringTagError)
    else if code c =? 0x22 then
      match parse_string r with
      | Some (_, EmptyString) => DOk old (Some (UnmarshalTypeError "string"))
      | _ => DAbort StringTagError
      end
    else if Strconv.is_digit c || (code c =? 0x2D) then
      match Strconv.ParseUint s with
      | inr n => dret n
      | inl _ => DOk old (Some (UnmarshalTypeError "number"))
      end
    else DAbort StringTagError
  end.
(** [uint64] with the [string] option of the tag. *)
Definition c_uint64_string : codec Z :=
  Codec (fun n => JString (Strconv.FormatUint n))
    (fun j old =>
       match view j with
       | JNull => dret old
       | JString s => dec_quoted_uint64 s old
       | _ => DOk old (Some StringTagError)
       end)
    0 (Z.eqb 0) is_u64.

(** A [uint8] element of a byte slice that is written as an array. *)
Definition dec_byte (j : json) : dres ascii :=
  match view j with
  | JNumber lit =>
    match Strconv.ParseUint lit with
    | inr n =>
      if n <? 256 then dret (byte_of n)
      else DOk (byte_of 0) (Some (UnmarshalTypeError "number"))
    | inl _ => DOk (byte_of 0) (Some (UnmarshalTypeError "number"))
    end
  | _ => mismatch j (byte_of 0)
  end.
Fixpoint dec_byte_array (l : list json) : dres string :=
  match l with
  | [] => dret EmptyString
  | j :: l => dbind (dec_byte j) (fun c => dbind (dec_byte_array l) (fun s => dret (String c s)))
  end.

(** [[]byte]: base64 text, null for nil. *)
Definition c_bytes : codec bytes :=
  Codec (fun b => match b with None => JNull | Some s => JString (Base64.Encode s) end)
    (fun j old =>
       match view j with
       | JNull => dret None
       | JString s =>
         match Base64.Decode s with
         | Some b => dret (Some b)
         | None => DOk old (Some Base64Error)
         end
       | JArray l => dbind (dec_byte_array l) (fun s => dret (Some s))
       | _ => mismatch j old
       end)
    None (fun b => blen b =? 0) (fun _ => True).

(** [json.RawMessage]: the text of a value.  It is read as it stands in the
    document and written without spaces; [Marshal] refuses one that is not
    empty and is no JSON ([raw_writable]). *)
Definition raw_document (s : string) : option json := parse_json (compact false false s).
Definition raw_writable (r : bytes) : bool :=
  match r with
  | Some (String _ _ as s) => match raw_document s with Some _ => true | None => false end
  | _ => true
  end.
Definition c_raw : codec bytes :=
  Codec (fun r => match r with None => JNull | Some s => default JNull (raw_document s) end)
    (fun j _ => dret (Some (json_text j))) None (fun r => blen r =? 0)
    (fun r => exists s, r = Some s /\ option_map json_text (raw_document s) = Some s).

(** ** Pointers and slices *)

Definition c_ptr {A} (c : codec A) : codec (option A) :=
  Codec (fun p => match p with None => JNull | Some a => enc c a end)
    (fun j old =>
       match view j with
       | JNull => dret None
       | _ => dbind (dec c j (default (zero c) old)) (fun a => dret (Some a))
       end)
    None (fun p => match p with None => true | Some _ => false end)
    (fun p => match p with None => True | Some a => wf c a /\ view (enc c a) <> JNull end).

(** Elements are read into those already there, then into zero values. *)
Fixpoint dec_elements {A} (c : codec A) (js : list json) (old : list A) : dres (list A) :=
  match js with
  | [] => dret []
  | j :: js =>
    dbind (dec c j (match old with a :: _ => a | [] => zero c end)) (fun a =>
    dbind (dec_elements c js (tail old)) (fun l => dret (a :: l)))
  end.

(** [[]T]: nil or a list. *)
Definition c_slice {A} (c : codec A) : codec (option (list A)) :=
  Codec (fun l => match l with None => JNull | Some l => JArray (map (enc c) l) end)
    (fun j old =>
       match view j with
       | JNull => dret None
       | JArray js => dbind (dec_elements c js (default [] old)) (fun l => dret (Some l))
       | _ => mismatch j old
       end)
    None (fun l => match l with Some (_ :: _) => false | _ => true end)
    (fun l => match l with None => True | Some l => Forall (wf c) l end).

(** ** Structs *)

Record fdesc (A : Type) := FDesc {
  f_key : string;
  f_omitempty : bool;
  f_enc : A -> json;
  f_empty : A -> bool;
  f_dec : json -> A -> dres A;
  f_wf : A -> Prop;
}.
Arguments FDesc {A} _ _ _ _ _ _.
Arguments f_key {A} _.
Arguments f_omitempty {A} _.
Arguments f_enc {A} _ _.
Arguments f_empty {A} _ _.
Arguments f_dec {A} _ _ _.
Arguments f_wf {A} _ _.

(** A field of a struct: its tag, its type's codec, and how it is read and
    written in the struct. *)
Definition gfield {A T} (omit : bool) (key : string) (c : codec T)
    (get : A -> T) (set : T -> A -> A) : fdesc A :=
  FDesc key omit (fun a => enc c (get a)) (fun a => is_empty c (get a))
    (fun j a => dbind (dec c j (get a)) (fun v => dret (set v a)))
    (fun a => if omit && is_empty c (get a) then get a = zero c else wf c (get a)).
Abbreviation field := (gfield false).
Abbreviation field_omitempty := (gfield true).

Definition enc_fields {A} (fs : list (fdesc A)) (a : A) : list (string * json) :=
  flat_map (fun f => if f_omitempty f && f_empty f a then [] else [(f_key f, f_enc f a)]) fs.

(** Matching without regard to case: letters to upper case, and the two
    non-ASCII runes that fold to an ASCII letter. *)
Definition fold_chunk (ch : Z * string) : string :=
  let '(r, src) := ch in
  if (97 <=? r) && (r <=? 122) then String (byte_of (r - 32)) EmptyString
  else if r =? 0x17F then "S"
  else if r =? 0x212A then "K"
  else src.
Definition fold_name (s : string) : string :=
  concat_strings (map fold_chunk (Utf8.range_string s)).

Definition find_field {A} (fs : list (fdesc A)) (k : string) : option (fdesc A) :=
  match List.find (fun f => String.eqb (f_key f) k) fs with
  | Some f => Some f
  | None => List.find (fun f => String.eqb (fold_name (f_key f)) (fold_name k)) fs
  end.

Fixpoint dec_members {A} (fs : list (fdesc A)) (ms : list (string * json)) (a : A) : dres A :=
  match ms with
  | [] => dret a
  | (k, j) :: ms =>
    dbind (match find_field fs k with Some f => f_dec f j a | None => dret a end)
      (dec_members fs ms)
  end.

Definition c_struct {A} (z : A) (fs : list (fdesc A)) : codec A :=
  Codec (fun a => JObject (enc_fields fs a))
    (fun j old => match view j with JObject ms => dec_members fs ms old | _ => mismatch j old end)
    z (fun _ => false) (fun a => Forall (fun f => f_wf f a) fs).

(** The setter of a field, from the struct rebuilt field by field. *)
Ltac make_setter eta proj :=
  let e := eval cbv delta [eta] in eta in
  let r := eval pattern proj in e in
  match r with ?f _ => exact (fun v x => f (fun _ => v) x) end.
Notation "'field!' eta key c proj" :=
  (gfield false key c proj ltac:(make_setter eta proj))
  (at level 10, eta at level 9, key at level 9, c at level 9, proj at level 9, only parsing).
Notation "'omitempty!' eta key c proj" :=
  (gfield true key c proj ltac:(make_setter eta proj))
  (at level 10, eta at level 9, key at level 9, c at level 9, proj at level 9, only parsing).

(** A type with methods [MarshalJSON] and [UnmarshalJSON] of its own.  The
    latter gets the document and its error stops the decoder. *)
Definition c_custom {A} (z : A) (e : A -> json)
    (u : json -> A -> outcome (json_error + A)) (empty : A -> bool) (ok : A -> Prop) : codec A :=
  Codec e
    (fun j old =>
       match u j old with
       | Ret (inr a) => dret a
       | Ret (inl er) => DAbort er
       | Panic p => DPanic p
       end) z empty ok.

(** Types with a JSON form. *)
Class JSONType (A : Type) := codec_of : codec A.
#[export] Hint Mode JSONType ! : typeclass_instances.

Definition to_json {A} `{JSONType A} (a : A) : json := enc codec_of a.
(** [json.Marshal] *)
Definition Marshal {A} `{JSONType A} (a : A) : string := json_text (to_json a).
(** [json.Unmarshal] of a document that is well-formed JSON, into a fresh
    variable. *)
Definition from_json {A} `{JSONType A} (j : json) : outcome (json_error + A) :=
  finish (dec codec_of j (zero codec_of)).
(** [json.Unmarshal]: the text is checked as a whole before anything is
    read. *)
Definition Unmarshal {A} `{JSONType A} (data : string) : outcome (json_error + A) :=
  match parse_json data with
  | None => Ret (inl SyntaxError)
  | Some j => from_json j
  end.

(** ** Round trips *)

(** Writing a value and reading the document into a fresh variable gives the
    value back. *)
Class RoundTrip {A} (c : codec A) : Prop :=
  round_trip : forall a, wf c a -> dec c (enc c a) (zero c) = dret a.

#[export] Hint Opaque c_string c_bool c_uint c_uint64 c_uint32 c_uint16 c_uint64_string c_bytes
  c_raw c_ptr c_slice c_struct c_custom : typeclass_instances.

#[export] Instance c_string_rt : RoundTrip c_string.
Proof. intros a _. reflexivity. Qed.
#[export] Instance c_bool_rt : RoundTrip c_bool.
Proof. intros a _. reflexivity. Qed.

Lemma c_uint_rt bound : bound <= two64 -> RoundTrip (c_uint bound).
Proof.
  intros Hb n Hn. cbn [wf c_uint] in Hn. cbn [c_uint dec enc view].
  rewrite Strconv.ParseUint_FormatUint by (unfold is_u64; lia).
  by rewrite (proj2 (Z.ltb_lt _ _)) by lia.
Qed.
#[export] Instance c_uint64_rt : RoundTrip c_uint64.
Proof. by apply c_uint_rt. Qed.
#[export] Instance c_uint32_rt : RoundTrip c_uint32.
Proof. by apply c_uint_rt. Qed.
#[export] Instance c_uint16_rt : RoundTrip c_uint16.
Proof. by apply c_uint_rt. Qed.

#[export] Instance c_uint64_string_rt : RoundTrip c_uint64_string.
Proof.
  intros n Hn. cbn [c_uint64_string dec enc view]. unfold dec_quoted_uint64.
  pose proof (Strconv.ParseUint_FormatUint n Hn) as E.
  destruct (Strconv.FormatUint n) as [|c r]; [done|]. rewrite E.
  assert (Strconv.is_digit c = true) as Hc by (by eapply Strconv.parse_digits_head).
  rewrite Hc. unfold Strconv.is_digit in Hc.
  rewrite !(proj2 (Z.eqb_neq (code c) _)) by lia. done.
Qed.

#[export] Instance c_bytes_rt : RoundTrip c_bytes.
Proof. intros [b|] _; [|reflexivity]. cbn. by rewrite Base64.Decode_Encode64. Qed.
#[export] Instance c_raw_rt : RoundTrip c_raw.
Proof.
  intros r (s & -> & E). cbn [c_raw enc dec view]. destruct (raw_document s) as [j|]; [|done].
  injection E as E. cbn [default]. unfold id. by rewrite E.
Qed.

#[export] Instance c_ptr_rt {A} (c : codec A) `{!RoundTrip c} : RoundTrip (c_ptr c).
Proof.
  intros [a|] H; [|reflexivity]. destruct H as [Hw Hn]. cbn [c_ptr enc dec zero default].
  unfold id. rewrite round_trip by done. by destruct (view (enc c a)).
Qed.

Lemma dec_elements_rt {A} (c : codec A) `{!RoundTrip c} l :
  Forall (wf c) l -> dec_elements c (map (enc c) l) [] = dret l.
Proof.
  induction 1 as [|a l Ha _ IH]; [reflexivity|].
  cbn [map dec_elements tail]. rewrite round_trip by done. cbn [dbind dret]. by rewrite IH.
Qed.
#[export] Instance c_slice_rt {A} (c : codec A) `{!RoundTrip c} : RoundTrip (c_slice c).
Proof.
  intros [l|] H; [|reflexivity]. cbn [c_slice enc dec zero default view].
  by rewrite dec_elements_rt.
Qed.

(** Structs: the state of the struct under construction, field by field. *)
Fixpoint dec_chain {A} (fs : list (fdesc A)) (a s : A) : Prop :=
  match fs with
  | [] => s = a
  | f :: fs =>
    exists s', (if f_omitempty f && f_empty f a then s' = s else f_dec f (f_enc f a) s = dret s') /\
      dec_chain fs a s'
  end.

Lemma find_field_in {A} (fs : list (fdesc A)) f :
  NoDup (map f_key fs) -> In f fs -> find_field fs (f_key f) = Some f.
Proof.
  intros Hnd Hin. unfold find_field.
  enough (List.find (fun g => String.eqb (f_key g) (f_key f)) fs = Some f) as -> by done.
  induction fs as [|g fs IH]; [done|]. cbn [map] in Hnd. apply NoDup_cons in Hnd as [Hg Hnd].
  cbn [List.find]. destruct Hin as [->|Hin]; [by rewrite String.eqb_refl|].
  destruct (String.eqb_spec (f_key g) (f_key f)) as [E|_]; [|by apply IH].
  destruct Hg. rewrite E. apply list_elem_of_In, in_map, Hin.
Qed.

Lemma dec_chain_rt {A} (all fs : list (fdesc A)) a s :
  NoDup (map f_key all) -> incl fs all -> dec_chain fs a s ->
  dec_members all (enc_fields fs a) s = dret a.
Proof.
  intros Hnd. revert s. induction fs as [|f fs IH]; intros s Hin; cbn [dec_chain]; [by intros ->|].
  apply incl_cons_inv in Hin as [Hf Hin]. intros (s' & Hs & Hc).
  change (enc_fields (f :: fs) a) with
    ((if f_omitempty f && f_empty f a then [] else [(f_key f, f_enc f a)]) ++ enc_fields fs a).
  destruct (f_omitempty f && f_empty f a); cbn [app].
  - subst s'. by apply IH.
  - cbn [dec_members]. rewrite find_field_in, Hs by done. cbn [dbind dret].
    by rewrite IH.
Qed.

(** The members of the first fields alone. *)
Lemma dec_struct_prefix {A} (z : A) fs n a :
  NoDup (map f_key fs) -> dec_chain (firstn n fs) a z ->
  dec (c_struct z fs) (JObject (enc_fields (firstn n fs) a)) z = dret a.
Proof.
  intros Hnd Hc. cbn [c_struct dec view]. apply dec_chain_rt; [done| |done].
  intros f Hf. rewrite <- (firstn_skipn n fs). apply in_or_app. by left.
Qed.

Lemma dec_chain_field {A T} omit key (c : codec T) `{!RoundTrip c} get set
    (fs : list (fdesc A)) a s :
  f_wf (gfield omit key c get set) a ->
  get s = zero c -> set (get s) s = s ->
  dec_chain fs a (set (get a) s) ->
  dec_chain (gfield omit key c get set :: fs) a s.
Proof.
  intros Hw Hz Hs Hc. exists (set (get a) s). split; [|exact Hc].
  cbn [gfield f_wf f_omitempty f_empty f_dec f_enc] in *.
  destruct (omit && is_empty c (get a)).
  - by rewrite Hw, <- Hz.
  - rewrite Hz, round_trip by done. reflexivity.
Qed.

Lemma c_struct_rt {A} (z : A) fs :
  NoDup (map f_key fs) -> (forall a, Forall (fun f => f_wf f a) fs -> dec_chain fs a z) ->
  RoundTrip (c_struct z fs).
Proof.
  intros Hnd Hc a Hw. cbn [c_struct enc dec zero view].
  apply dec_chain_rt; [done|apply incl_refl|by apply Hc].
Qed.

(** Proves [RoundTrip] for the codec of a struct; the struct under
    construction is kept in normal form. *)
Ltac norm_state :=
  lazymatch goal with
  | |- dec_chain ?l ?a ?s => let s' := eval lazy in s in change (dec_chain l a s')
  end.
Ltac solve_chain :=
  norm_state;
  lazymatch goal with
  | |- dec_chain [] _ _ => reflexivity
  | H : Forall _ (_ :: _) |- dec_chain (_ :: _) _ _ =>
    let H1 := fresh in let H2 := fresh in
    apply Forall_cons in H as [H1 H2];
    apply dec_chain_field; [typeclasses eauto|exact H1|reflexivity|reflexivity|clear H1; solve_chain]
  end.
Ltac solve_struct_rt codec :=
  unfold codec; apply c_struct_rt;
  [ apply (bool_decide_unpack _); vm_compute; exact I
  | let a := fresh in let H := fresh in intros a H; destruct a; solve_chain ].

(** Reads the next member of a concrete object: finds its field by
    evaluation. *)
Ltac read_member :=
  cbn [dec_members];
  match goal with
  | |- context [find_field ?fs ?k] =>
    let r := eval hnf in (find_field fs k) in
    change (find_field fs k) with r
  end;
  cbn beta iota; unfold gfield at 1; cbn [f_dec].

Lemma from_json_to_json {A} `{JSONType A} `{!RoundTrip (codec_of (A := A))} (a : A) :
  wf codec_of a -> from_json (to_json a) = Ret (inr a).
Proof. intros Hw. unfold from_json, to_json. by rewrite round_trip. Qed.

(** ** Spelling

    But for raw messages, reading depends on the tree of a document alone and
    not on the text it was written with. *)
Class Spelled {A} (c : codec A) : Prop :=
  spelled : forall j old, dec c j old = dec c (plain j) old.

Lemma view_head j : match view j with JSource _ _ => False | _ => True end.
Proof. induction j using json_ind; done. Qed.
Lemma mismatch_plain {A} j (old : A) : mismatch j old = mismatch (plain j) old.
Proof.
  unfold mismatch, kind_of. rewrite view_plain, <- (plain_view j).
  pose proof (view_head j). by destruct (view j).
Qed.

#[export] Instance c_string_spelled : Spelled c_string.
Proof.
  intros j old. cbn [c_string dec]. rewrite (mismatch_plain j), view_plain, <- (plain_view j).
  pose proof (view_head j). by destruct (view j).
Qed.
Lemma c_uint_spelled bound : Spelled (c_uint bound).
Proof.
  intros j old. cbn [c_uint dec]. rewrite (mismatch_plain j), view_plain, <- (plain_view j).
  pose proof (view_head j). by destruct (view j).
Qed.
#[export] Instance c_uint64_spelled : Spelled c_uint64.
Proof. apply c_uint_spelled. Qed.
#[export] Instance c_ptr_spelled {A} (c : codec A) `{!Spelled c} : Spelled (c_ptr c).
Proof.
  intros j old. cbn [c_ptr dec]. rewrite spelled, view_plain, <- (plain_view j).
  pose proof (view_head j). by destruct (view j).
Qed.
Lemma c_struct_spelled {A} (z : A) fs :
  Forall (fun f => forall j a, f_dec f j a = f_dec f (plain j) a) fs -> Spelled (c_struct z fs).
Proof.
  intros Hfs j old. cbn [c_struct dec]. rewrite (mismatch_plain j), view_plain, <- (plain_view j).
  pose proof (view_head j). destruct (view j) as [| | | | |ms|]; try done. cbn [plain]. clear -Hfs.
  revert old. induction ms as [|[k v] ms IH]; intros old; [done|]. cbn [dec_members map fst snd].
  assert (match find_field fs k with Some f => f_dec f v old | None => dret old end =
    match find_field fs k with Some f => f_dec f (plain v) old | None => dret old end) as ->.
  { unfold find_field. rewrite List.Forall_forall in Hfs.
    destruct (List.find _ fs) as [f|] eqn:E; [by apply List.find_some in E as [E _]; apply Hfs|].
    destruct (List.find _ fs) as [f|] eqn:E2 in |- *; [by apply List.find_some in E2 as [E2 _]; apply Hfs|done]. }
  destruct (match find_field fs k with Some f => _ | None => _ end) as [a s| |]; [|done..].
  cbn [dbind]. by rewrite IH.
Qed.
Lemma field_spelled {A T} omit key (c : codec T) `{!Spelled c} get set j (a : A) :
  f_dec (gfield omit key c get set) j a = f_dec (gfield omit key c get set) (plain j) a.
Proof. cbn [gfield f_dec]. by rewrite spelled. Qed.
