(* ===== verification/JsonText.v ===== *)
(** * Writing a document and reading it back

    [json_text] and [parse_json] are inverse: the text of a document whose
    strings are UTF-8, whose numbers are JSON numbers and which is not nested
    too deeply is read as that document.  With the round trips of the codecs
    this makes [json.Unmarshal] of what [json.Marshal] writes give the value
    back. *)

From Stdlib Require Import Ascii.
From S2P Require Import Prelude GoText Json JsonParse Codec.

(** ** Documents that survive *)

Definition invalid_chunk (ch : Z * string) : bool :=
  (ch.1 =? Utf8.RuneError) && (slen ch.2 =? 1).
(** [utf8.ValidString] *)
Definition valid_utf8 (s : string) : bool :=
  forallb (fun ch => negb (invalid_chunk ch)) (Utf8.range_string s).

Definition number_ok (n : string) : bool :=
  match parse_number n with
  | Some (m, EmptyString) => String.eqb m n
  | _ => false
  end.

Fixpoint printable (j : json) : bool :=
  match j with
  | JNull | JBool _ => true
  | JNumber n => number_ok n
  | JString s => valid_utf8 s
  | JArray l => forallb printable l
  | JObject fs => forallb (fun kv => valid_utf8 kv.1 && printable kv.2) fs
  | JSource _ _ => false
  end.

Fixpoint nesting (j : json) : nat :=
  match j with
  | JArray l => S (list_max (map nesting l))
  | JObject fs => S (list_max (map (fun kv => nesting kv.2) fs))
  | JSource _ j => nesting j
  | _ => O
  end.

(** ** Strings *)

Lemma DecodeRune_prefix s r w :
  Utf8.DecodeRune s = (r, w) -> (2 <= w)%nat ->
  String.length (stake w s) = w /\ forall t, Utf8.DecodeRune (stake w s +:+ t) = (r, w).
Proof.
  intros E Hw. destruct s as [|c0 s]; [unfold Utf8.DecodeRune in E; simplify_eq; lia|].
  unfold Utf8.DecodeRune in E. destruct (code c0 <? Utf8.RuneSelf) eqn:E0; [simplify_eq; lia|].
  destruct (Utf8.first (code c0)) as [[[n lo] hi]|] eqn:F; [|simplify_eq; lia].
  apply Utf8.first_spec in F as Hn.
  destruct Hn as [[-> _]|[[-> _]|[-> _]]]; repeat case_match; simplify_eq; try lia;
    (split; [done|]); intros t; cbn [stake]; unfold Utf8.DecodeRune; cbn [String.append];
    rewrite E0, F;
    repeat match goal with H : _ = true |- _ => rewrite H; clear H end; done.
Qed.

(** The characters that are written as they are or as an escape. *)
Lemma parse_ascii f c t :
  code c < Utf8.RuneSelf ->
  parse_chars (S f) (escape_rune (code c, String c EmptyString) +:+ t) =
  option_map (fun '(a, u) => (String c a, u)) (parse_chars f t).
Proof.
  intros Hc. destruct c as [[] [] [] [] [] [] [] []]; first [vm_compute in Hc; discriminate Hc|reflexivity].
Qed.

(** The bits of a sequence of three bytes do not overlap. *)
Definition range_Z (n : nat) : list Z := map Z.of_nat (seq 0 n).
Lemma range_Z_in n x : 0 <= x < Z.of_nat n -> In x (range_Z n).
Proof.
  intros Hx. apply in_map_iff. exists (Z.to_nat x). split; [lia|]. apply in_seq. lia.
Qed.
Lemma lor3_check :
  forallb (fun a => forallb (fun b => forallb (fun c =>
    Z.lor (Z.lor (Z.shiftl a 12) (Z.shiftl b 6)) c =? a * 4096 + b * 64 + c)
    (range_Z 64)) (range_Z 64)) (range_Z 16) = true.
Proof. vm_compute. reflexivity. Qed.
Lemma lor3 a b c : 0 <= a < 16 -> 0 <= b < 64 -> 0 <= c < 64 ->
  Z.lor (Z.lor (Z.shiftl a 12) (Z.shiftl b 6)) c = a * 4096 + b * 64 + c.
Proof.
  intros Ha Hb Hc. pose proof lor3_check as H.
  rewrite forallb_forall in H. specialize (H a (range_Z_in 16 a Ha)).
  rewrite forallb_forall in H. specialize (H b (range_Z_in 64 b Hb)).
  rewrite forallb_forall in H. specialize (H c (range_Z_in 64 c Hc)).
  by apply Z.eqb_eq.
Qed.

(** The two line separators have one encoding each. *)
Lemma DecodeRune_separator s r w :
  r = 0x2028 \/ r = 0x2029 -> Utf8.DecodeRune s = (r, w) -> (2 <= w)%nat ->
  stake w s = AppendRune r.
Proof.
  intros Hr E Hw. destruct s as [|c0 s]; [unfold Utf8.DecodeRune in E; simplify_eq; lia|].
  assert (Utf8.width_of r (Z.of_nat w)) as Hwd by (by eapply Utf8.DecodeRune_wide).
  unfold Utf8.DecodeRune in E. destruct (code c0 <? Utf8.RuneSelf); [simplify_eq; lia|].
  destruct (Utf8.first (code c0)) as [[[n lo] hi]|] eqn:F; [|simplify_eq; lia].
  assert (n = 3%nat) as ->.
  { apply Utf8.first_spec in F. unfold Utf8.width_of in Hwd.
    destruct F as [[-> _]|[[-> _]|[-> _]]]; [|done|]; repeat case_match; simplify_eq; lia. }
  destruct s as [|c1 [|c2 s]]; [simplify_eq; lia..|].
  destruct (Utf8.within lo hi c1 && Utf8.cont c2) eqn:Hb; [|simplify_eq; lia].
  injection E as E <-. apply andb_true_iff in Hb as [H1 H2]. unfold Utf8.cont, Utf8.within in *.
  apply andb_true_iff in H1 as [H1 H1'], H2 as [H2 H2']. apply Z.leb_le in H1, H1', H2, H2'.
  rewrite !Utf8.low6_mod, (Z.land_ones _ 4) in E by lia. change (2 ^ 4) with 16 in E.
  rewrite lor3 in E by (apply Z.mod_pos_bound; lia).
  assert (code c0 = 0xE2 /\ code c1 = 0x80 /\ code c2 = r - 0x2000 + 0x80) as (E0 & E1 & E2).
  { unfold Utf8.first in F. pose proof (code_range c0). pose proof (code_range c1).
    repeat case_match; simplify_eq; Z.div_mod_to_equations; lia. }
  cbn [stake]. rewrite <- (byte_of_code c0), <- (byte_of_code c1), <- (byte_of_code c2), E0, E1, E2.
  by destruct Hr as [-> | ->].
Qed.

(** A chunk of a string that is decoded from its own bytes, whatever follows. *)
Definition chunk_decodes (ch : Z * string) : Prop :=
  (exists c, ch = (code c, String c EmptyString) /\ code c < Utf8.RuneSelf) \/
  (exists c, ch = (Utf8.RuneError, String c EmptyString)) \/
  ((2 <= String.length ch.2)%nat /\ Utf8.RuneSelf <= ch.1 /\
   (ch.1 = 0x2028 \/ ch.1 = 0x2029 -> ch.2 = AppendRune ch.1) /\
   forall t, Utf8.DecodeRune (ch.2 +:+ t) = (ch.1, String.length ch.2)).

Lemma range_from_decodes k s : Forall chunk_decodes (Utf8.range_from k s).
Proof.
  revert k. induction s as [|c s IH]; intros [|k]; cbn [Utf8.range_from]; [constructor..| |apply IH].
  pose proof (Utf8.DecodeRune_width c s) as Hw.
  destruct (Utf8.DecodeRune (String c s)) as [r w] eqn:E. cbn [fst snd] in *.
  constructor; [|apply IH]. destruct w as [|[|w]]; [lia| |].
  - apply Utf8.DecodeRune_narrow in E as [[-> ?]|[-> ?]]; [left|right; left]; by exists c.
  - right; right. destruct (DecodeRune_prefix _ _ _ E) as [Hl Hd]; [lia|]. cbn [fst snd].
    rewrite Hl. split_and!; [lia| |intros Hr; eapply DecodeRune_separator; [done|exact E|lia]|done].
    apply Utf8.DecodeRune_wide in E; [|lia]. unfold Utf8.width_of, Utf8.RuneSelf in *. lia.
Qed.

Lemma stake_app s t : stake (String.length s) (s +:+ t) = s.
Proof. induction s as [|c s IH]; [by destruct t|]. cbn. by rewrite IH. Qed.
Lemma sdrop_app s t : sdrop (String.length s) (s +:+ t) = t.
Proof. induction s as [|c s IH]; [by destruct t|]. cbn. by rewrite IH. Qed.

(** One rune of a valid string is read back as its bytes. *)
Lemma parse_chunk f ch t :
  chunk_decodes ch -> invalid_chunk ch = false ->
  parse_chars (S f) (escape_rune ch +:+ t) =
  option_map (fun '(a, u) => (ch.2 +:+ a, u)) (parse_chars f t).
Proof.
  intros [(c & -> & Hc)|[[c ->]|(Hl & Hr & Hs & Hd)]] Hi; [by apply parse_ascii|done|].
  destruct ch as [r src]. cbn [fst snd] in *. unfold escape_rune.
  rewrite (proj2 (Z.ltb_ge _ _)) by done.
  assert ((r =? Utf8.RuneError) && (slen src =? 1) = false) as -> by exact Hi.
  destruct ((r =? 0x2028) || (r =? 0x2029)) eqn:Es.
  { assert (r = 0x2028 \/ r = 0x2029) as Hr2
      by (apply orb_true_iff in Es as [Es|Es]; apply Z.eqb_eq in Es; auto).
    rewrite (Hs Hr2). by destruct Hr2 as [-> | ->]. }
  destruct src as [|c src]; [cbn in Hl; lia|].
  assert (0x80 <= code c) as Hc.
  { specialize (Hd t). cbn [String.append] in Hd. unfold Utf8.DecodeRune in Hd.
    destruct (Z.ltb_spec (code c) Utf8.RuneSelf); [|done].
    injection Hd as _ Hd. cbn [String.length] in *. lia. }
  cbn [String.append parse_chars].
  rewrite (proj2 (Z.eqb_neq (code c) 0x22)), (proj2 (Z.eqb_neq (code c) 0x5C)),
    (proj2 (Z.ltb_ge (code c) 0x20)) by lia.
  change (String c (src +:+ t)) with (String c src +:+ t). rewrite Hd.
  rewrite stake_app, sdrop_app.
  assert ((String.length (String c src) =? 1)%nat = false) as ->
    by (apply Nat.eqb_neq; lia). by rewrite andb_false_r.
Qed.

Lemma parse_chunks l fuel rest :
  Forall chunk_decodes l -> forallb (fun ch => negb (invalid_chunk ch)) l = true ->
  (length l < fuel)%nat ->
  parse_chars fuel (concat_strings (map escape_rune l) +:+ dquote +:+ rest) =
  Some (concat_strings (map snd l), rest).
Proof.
  intros Hl. revert fuel. induction Hl as [|ch l Hch Hl IH]; intros fuel Hv Hf.
  - destruct fuel as [|fuel]; [cbn in Hf; lia|]. reflexivity.
  - cbn [forallb map concat_strings length] in *. apply andb_true_iff in Hv as [Hi Hv].
    apply negb_true_iff in Hi. destruct fuel as [|fuel]; [lia|].
    rewrite string_app_assoc, parse_chunk by done. rewrite IH by (done || lia). done.
Qed.

Lemma escape_nonempty ch : chunk_decodes ch -> (1 <= String.length (escape_rune ch))%nat.
Proof.
  intros Hch. assert (1 <= String.length ch.2)%nat as H1.
  { destruct Hch as [(c & -> & _)|[[c ->]|[? _]]]; cbn; lia. }
  destruct ch as [r src]. cbn [snd] in H1. unfold escape_rune. repeat case_match; cbn; lia.
Qed.
Lemma length_app_string (s t : string) :
  String.length (s +:+ t) = (String.length s + String.length t)%nat.
Proof. induction s; cbn; auto. Qed.
Lemma escaped_length l :
  Forall chunk_decodes l -> (length l <= String.length (concat_strings (map escape_rune l)))%nat.
Proof.
  induction 1 as [|ch l Hch _ IH]; [done|]. cbn [map concat_strings length].
  rewrite length_app_string. apply escape_nonempty in Hch. lia.
Qed.

(** A string in its quotes. *)
Lemma parse_string_text s rest :
  valid_utf8 s = true ->
  exists r, string_text s +:+ rest = dquote +:+ r /\ parse_string r = Some (s, rest).
Proof.
  intros Hv. unfold string_text, quote. eexists. rewrite !string_app_assoc. split; [reflexivity|].
  unfold parse_string. rewrite parse_chunks; [|apply range_from_decodes|done|].
  - by rewrite Utf8.range_string_concat.
  - pose proof (escaped_length _ (range_from_decodes 0 s)). unfold Utf8.range_string.
    rewrite !length_app_string. lia.
Qed.

(** ** Numbers *)

(** What follows a value inside a document. *)
Definition stop (s : string) : bool :=
  match s with
  | EmptyString => true
  | String c _ => existsb (Z.eqb (code c)) [0x2C; 0x5D; 0x7D]
  end.
Lemma stop_cons c s :
  stop (String c s) = true -> code c = 0x2C \/ code c = 0x5D \/ code c = 0x7D.
Proof.
  cbn. rewrite !orb_true_iff, !Z.eqb_eq. by intros [?|[?|[?|?]]]; auto.
Qed.

(** Reading a part of a number gives the same when a stop follows. *)
Definition stable (part : string -> option (string * string)) : Prop :=
  forall s d t rest, stop rest = true -> part s = Some (d, t) ->
  part (s +:+ rest) = Some (d, t +:+ rest).

Lemma span_digits_app s rest d t :
  stop rest = true -> span_digits s = (d, t) -> span_digits (s +:+ rest) = (d, t +:+ rest).
Proof.
  intros Hs. revert d. induction s as [|c s IH]; intros d E.
  - cbn in E. simplify_eq. destruct rest as [|c rest]; [done|]. cbn.
    apply stop_cons in Hs. unfold Strconv.is_digit.
    destruct (Z.leb_spec 48 (code c)), (Z.leb_spec (code c) 57); try done; lia.
  - cbn in *. destruct (Strconv.is_digit c); [|by simplify_eq].
    destruct (span_digits s) as [d' t'] eqn:E'. simplify_eq. by rewrite (IH d' eq_refl).
Qed.
Lemma digits1_stable : stable digits1.
Proof.
  intros s d t rest Hs. unfold digits1. destruct (span_digits s) as [d' t'] eqn:E.
  rewrite (span_digits_app _ _ _ _ Hs E). destruct d'; [done|]. intros ?. by simplify_eq.
Qed.
Lemma integer_stable : stable integer_part.
Proof.
  intros [|c s] d t rest Hs; [done|]. cbn [integer_part String.append].
  destruct (code c =? 48); [intros ?; by simplify_eq|].
  intros E. by apply (digits1_stable (String c s)).
Qed.
Lemma fraction_stable : stable fraction_part.
Proof.
  intros [|c s] d t rest Hs.
  - cbn. intros ?. simplify_eq. destruct rest as [|c rest]; [done|]. cbn.
    apply stop_cons in Hs. destruct (Z.eqb_spec (code c) 0x2E); [lia|done].
  - cbn. destruct (code c =? 0x2E); [|intros ?; by simplify_eq].
    destruct (digits1 s) as [[d' t']|] eqn:E; [|done]. cbn. intros ?. simplify_eq.
    by rewrite (digits1_stable _ _ _ _ Hs E).
Qed.
Lemma exponent_stable : stable exponent_part.
Proof.
  intros [|c s] d t rest Hs.
  - cbn. intros ?. simplify_eq. destruct rest as [|c rest]; [done|]. cbn.
    apply stop_cons in Hs. destruct (Z.eqb_spec (code c) 0x65), (Z.eqb_spec (code c) 0x45); done || lia.
  - cbn. destruct (_ || _); [|intros ?; by simplify_eq]. destruct s as [|g s]; [done|]. cbn.
    destruct ((code g =? 0x2B) || (code g =? 0x2D)).
    + destruct (digits1 s) as [[d' t']|] eqn:E; [|done]. cbn. intros ?. simplify_eq.
      by rewrite (digits1_stable _ _ _ _ Hs E).
    + destruct (digits1 (String g s)) as [[d' t']|] eqn:E; [|done]. cbn. intros ?. simplify_eq.
      change (String g (s +:+ rest)) with (String g s +:+ rest).
      by rewrite (digits1_stable _ _ _ _ Hs E).
Qed.

Definition sign_part (s : string) : string * string :=
  match s with
  | String c t => if code c =? 0x2D then (String c EmptyString, t) else (EmptyString, s)
  | EmptyString => (EmptyString, s)
  end.
Lemma sign_app s rest g t :
  s <> EmptyString -> sign_part s = (g, t) -> sign_part (s +:+ rest) = (g, t +:+ rest).
Proof.
  destruct s as [|c s]; [done|]. intros _. cbn. destruct (code c =? 0x2D); intros ?; by simplify_eq.
Qed.
Lemma number_stable : stable parse_number.
Proof.
  intros s d t rest Hs. unfold parse_number. fold (sign_part s) (sign_part (s +:+ rest)).
  destruct (decide (s = EmptyString)) as [->|Hn]; [done|].
  destruct (sign_part s) as [g s1] eqn:E1. rewrite (sign_app _ _ _ _ Hn E1).
  destruct (integer_part s1) as [[i s2]|] eqn:E2; [|done]. rewrite (integer_stable _ _ _ _ Hs E2).
  destruct (fraction_part s2) as [[f s3]|] eqn:E3; [|done]. rewrite (fraction_stable _ _ _ _ Hs E3).
  destruct (exponent_part s3) as [[e s4]|] eqn:E4; [|done]. rewrite (exponent_stable _ _ _ _ Hs E4).
  intros ?. by simplify_eq.
Qed.

Lemma parse_number_ok n rest :
  number_ok n = true -> stop rest = true -> parse_number (n +:+ rest) = Some (n, rest).
Proof.
  unfold number_ok. destruct (parse_number n) as [[m [|c t]]|] eqn:E; try done.
  intros Hm Hs. apply String.eqb_eq in Hm as ->. by apply (number_stable n _ _ _ Hs) in E.
Qed.
(** A number starts with a sign or a digit. *)
Lemma number_head n :
  number_ok n = true ->
  exists c t, n = String c t /\ (code c = 0x2D \/ 48 <= code c <= 57).
Proof.
  unfold number_ok. destruct n as [|c n]; [done|]. intros Hn. exists c, n. split; [done|].
  unfold parse_number in Hn. destruct (Z.eqb_spec (code c) 0x2D); [by left|right].
  unfold integer_part in Hn. destruct (Z.eqb_spec (code c) 48); [lia|].
  unfold digits1 in Hn. cbn [span_digits] in Hn.
  destruct (Strconv.is_digit c) eqn:D; [unfold Strconv.is_digit in D; lia|done].
Qed.

(** ** Documents *)

(** Steps of the parser a document takes. *)
Fixpoint need (j : json) : nat :=
  match j with
  | JArray l => S (list_sum (map (fun x => S (need x)) l))
  | JObject fs => S (list_sum (map (fun kv => S (need kv.2)) fs))
  | _ => 1%nat
  end.

(** The first character of a value: not a space and not a closing bracket. *)
Lemma text_head j :
  printable j = true ->
  exists c t, json_text j = String c t /\ is_space c = false /\ (code c =? 0x5D) = false.
Proof.
  destruct j; intros Hp; [..|discriminate Hp]; cbn [json_text];
    try by (do 2 eexists; split_and!; [reflexivity|reflexivity|reflexivity]).
  - destruct b; by do 2 eexists.
  - destruct (number_head _ Hp) as (c & t & -> & Hc). exists c, t. unfold is_space.
    split_and!; [done|lia|lia].
Qed.

Lemma skip_none c s : is_space c = false -> skip_space (String c s) = String c s.
Proof. intros E. cbn. by rewrite E. Qed.

Lemma need_length j : printable j = true -> (need j <= 2 * String.length (json_text j))%nat.
Proof.
  assert (forall (l : list (nat * string)),
    Forall (fun x => x.1 <= 2 * String.length x.2)%nat l ->
    (S (list_sum (map (fun x => S x.1) l)) <= 2 * (2 + String.length (join "," (map snd l))))%nat) as Hj.
  { induction 1 as [|x l Hx Hl IH]; [cbn; lia|].
    destruct l as [|y l]; cbn [map list_sum fold_right] in *; [cbn [join]; lia|].
    rewrite join_cons2, !length_app_string. cbn [String.length]. lia. }
  induction j as [|b|n|s|l IH|fs IH|t j _] using json_ind; intros Hp; [..|discriminate Hp];
    try (destruct (text_head _ Hp) as (c & t & -> & _); cbn; lia).
  - cbn [need json_text]. unfold bracket. rewrite !length_app_string.
    specialize (Hj (map (fun x => (need x, json_text x)) l)). rewrite !map_map in Hj. cbn [fst snd] in Hj.
    cbn [String.length]. etrans; [apply Hj|change (map (fun x => json_text x) l) with (map json_text l); lia].
    apply Forall_map. cbn in Hp.
    rewrite forallb_forall in Hp. rewrite !List.Forall_forall in *. intros x Hx. cbn [fst snd]. auto.
  - cbn [need json_text]. unfold brace. rewrite !length_app_string.
    specialize (Hj (map (fun kv => (need kv.2, string_text kv.1 +:+ ":" +:+ json_text kv.2)) fs)).
    rewrite !map_map in Hj. cbn [fst snd] in Hj.
    cbn [String.length]. etrans; [apply Hj|lia]. apply Forall_map. cbn in Hp.
    rewrite forallb_forall in Hp. rewrite !List.Forall_forall in *. intros kv Hkv. cbn [fst snd].
    rewrite !length_app_string. specialize (Hp _ Hkv). apply andb_true_iff in Hp as [_ Hp].
    specialize (IH _ Hkv Hp). lia.
Qed.

(** A value is read back whatever may follow it. *)
Definition reads_back (j : json) : Prop :=
  printable j = true -> forall fuel depth rest,
  (need j <= fuel)%nat -> (nesting j <= depth)%nat -> stop rest = true ->
  parse_value fuel depth (json_text j +:+ rest) = Some (j, rest).

Lemma elements_read_back l :
  Forall reads_back l -> forall fuel depth rest, l <> [] ->
  forallb printable l = true -> (list_sum (map (fun x => S (need x)) l) <= fuel)%nat ->
  (list_max (map nesting l) <= depth)%nat ->
  parse_elements fuel depth (join "," (map json_text l) +:+ "]" +:+ rest) = Some (l, rest).
Proof.
  induction 1 as [|x l Hx Hl IH]; intros fuel depth rest Hne Hp Hf Hd; [done|].
  cbn [forallb map list_sum list_max fold_right] in Hp, Hf, Hd. apply andb_true_iff in Hp as [Hp Hps].
  change (fold_right Init.Nat.max 0%nat (map nesting l)) with (list_max (map nesting l)) in Hd.
  change (fold_right Init.Nat.add 0%nat) with list_sum in Hf.
  destruct fuel as [|fuel]; [lia|]. cbn [parse_elements].
  destruct l as [|y l].
  - cbn [map join]. by rewrite (Hx Hp) by (done || lia).
  - cbn [map]. rewrite join_cons2, !string_app_assoc, (Hx Hp) by (done || lia).
    cbn [String.append]. rewrite skip_none by done. change (code "," =? 0x2C) with true. cbn iota.
    change (json_text y :: map json_text l) with (map json_text (y :: l)).
    change (String "]" rest) with ("]" +:+ rest).
    rewrite (IH fuel depth rest) by (done || lia). done.
Qed.

Lemma members_read_back fs :
  Forall (fun kv => reads_back kv.2) fs -> forall fuel depth rest, fs <> [] ->
  forallb (fun kv => valid_utf8 kv.1 && printable kv.2) fs = true ->
  (list_sum (map (fun kv => S (need kv.2)) fs) <= fuel)%nat ->
  (list_max (map (fun kv => nesting kv.2) fs) <= depth)%nat ->
  parse_members fuel depth
    (join "," (map (fun kv => string_text kv.1 +:+ ":" +:+ json_text kv.2) fs) +:+ "}" +:+ rest) =
  Some (fs, rest).
Proof.
  set (member := fun kv : string * json => string_text kv.1 +:+ ":" +:+ json_text kv.2).
  induction 1 as [|[k x] fs Hx Hl IH]; intros fuel depth rest Hne Hp Hf Hd; [done|].
  cbn [forallb map list_sum list_max fold_right fst snd] in Hp, Hf, Hd, Hx.
  apply andb_true_iff in Hp as [Hp Hps]. apply andb_true_iff in Hp as [Hk Hp].
  change (fold_right Init.Nat.max 0%nat) with list_max in Hd.
  change (fold_right Init.Nat.add 0%nat) with list_sum in Hf.
  destruct fuel as [|fuel]; [lia|].
  assert (forall tail, stop tail = true ->
    parse_members (S fuel) depth (member (k, x) +:+ tail) =
    match tail with
    | EmptyString => None
    | String c r4 =>
      if code c =? 0x2C then option_map (fun '(l, t) => ((k, x) :: l, t)) (parse_members fuel depth r4)
      else if code c =? 0x7D then Some ([(k, x)], r4) else None
    end) as Hstep.
  { intros tail Ht. unfold member. cbn [fst snd]. rewrite string_app_assoc.
    destruct (parse_string_text k ((":" +:+ json_text x) +:+ tail) Hk) as (r & -> & Hr).
    change (dquote +:+ r) with (String "034"%char r). cbn [parse_members skip_space is_space].
    change (is_space "034"%char) with false. cbn iota.
    change (code "034"%char =? 0x22) with true. cbn iota. rewrite Hr. cbn [String.append].
    rewrite skip_none by done. change (code ":" =? 0x3A) with true. cbn iota.
    rewrite (Hx Hp) by (done || lia). destruct tail as [|c tail]; [done|].
    rewrite skip_none; [done|]. apply stop_cons in Ht. unfold is_space. lia. }
  destruct fs as [|[k' y] fs].
  - cbn [map join]. by rewrite Hstep.
  - cbn [map] in *. rewrite join_cons2, string_app_assoc, Hstep by done. cbn [String.append].
    change (code "," =? 0x2C) with true. cbn iota.
    change (String "}" rest) with ("}" +:+ rest). by rewrite (IH fuel depth rest) by (done || lia).
Qed.

Lemma with_source_text j rest : with_source (json_text j +:+ rest) rest j = j.
Proof.
  unfold with_source, consumed. rewrite length_app_string, Nat.add_sub, stake_app.
  by rewrite String.eqb_refl.
Qed.
(** A value is read by its first character. *)
Lemma parse_value_body f depth j rest c t :
  json_text j = String c t -> is_space c = false ->
  parse_body (parse_elements f) (parse_members f) depth c (t +:+ rest) = Some (j, rest) ->
  parse_value (S f) depth (json_text j +:+ rest) = Some (j, rest).
Proof.
  intros Et Hc E. rewrite Et. cbn [String.append parse_value]. rewrite skip_none, E by done.
  cbn [option_map]. change (String c (t +:+ rest)) with (String c t +:+ rest).
  by rewrite <- Et, with_source_text.
Qed.

Lemma value_reads_back j : reads_back j.
Proof.
  induction j as [|b|n|s|l IH|fs IH|t j _] using json_ind; intros Hp fuel depth rest Hf Hd Hs;
    [..|discriminate Hp]; (destruct fuel as [|fuel]; [cbn in Hf; lia|]).
  - by eapply parse_value_body.
  - destruct b; by eapply parse_value_body.
  - destruct (number_head _ Hp) as (c & t & -> & Hc).
    eapply parse_value_body; [reflexivity|unfold is_space; lia|].
    pose proof (parse_number_ok _ rest Hp Hs) as E. cbn [String.append] in *. unfold parse_body.
    rewrite E. do 6 (rewrite (proj2 (Z.eqb_neq _ _)) by lia). done.
  - destruct (parse_string_text s rest Hp) as (r & Er & Hr).
    eapply (parse_value_body fuel depth (JString s)); [reflexivity|done|].
    unfold string_text, quote in Er. injection Er as Er. unfold parse_body. rewrite Er.
    cbn -[parse_string]. by rewrite Hr.
  - cbn [need nesting printable] in *. destruct depth as [|depth]; [lia|].
    apply (parse_value_body fuel (S depth) (JArray l) rest "[" (join "," (map json_text l) +:+ "]"));
      [reflexivity|done|]. unfold parse_body.
    change (code "[" =? 0x7B) with false. change (code "[" =? 0x5B) with true. cbn iota.
    rewrite string_app_assoc. destruct l as [|x l]; [done|].
    change ("]" +:+ rest) with (String "]" rest).
    assert (exists c r, join "," (map json_text (x :: l)) +:+ String "]" rest = String c r /\
      is_space c = false /\ (code c =? 0x5D) = false) as (c & r & E & Hc & Hb).
    { cbn [forallb] in Hp. apply andb_true_iff in Hp as [Hp _].
      destruct (text_head _ Hp) as (c & t & E & ? & ?). exists c.
      destruct l as [|y l]; cbn [map]; [cbn [join]|rewrite join_cons2];
        rewrite E; eexists; (split; [reflexivity|done]). }
    pose proof (elements_read_back (x :: l) IH fuel depth rest ltac:(done) Hp ltac:(lia) ltac:(lia)) as Er.
    change ("]" +:+ rest) with (String "]" rest) in Er. rewrite E in *.
    by rewrite skip_none, Hb, Er by done.
  - cbn [need nesting printable] in *. destruct depth as [|depth]; [lia|].
    apply (parse_value_body fuel (S depth) (JObject fs) rest "{"
      (join "," (map (fun kv => string_text kv.1 +:+ ":" +:+ json_text kv.2) fs) +:+ "}"));
      [reflexivity|done|]. unfold parse_body.
    change (code "{" =? 0x7B) with true. cbn iota. rewrite string_app_assoc.
    destruct fs as [|[k x] fs]; [done|].
    pose proof (members_read_back ((k, x) :: fs) IH fuel depth rest ltac:(done) Hp
      ltac:(lia) ltac:(lia)) as E.
    set (text := join "," _) in *.
    assert (exists r, text = String "034"%char r) as (r & ->).
    { unfold text, string_text, quote.
      destruct fs as [|y fs]; cbn [map fst snd]; [cbn [join]|rewrite join_cons2]; by eexists. }
    cbn [String.append] in *. rewrite skip_none by done. by rewrite E.
Qed.

Lemma parse_json_text j :
  printable j = true -> (nesting j <= maxNestingDepth)%nat -> parse_json (json_text j) = Some j.
Proof.
  intros Hp Hd. pose proof (need_length j Hp). unfold parse_json.
  rewrite <- (string_app_nil_r (json_text j)) at 2.
  by rewrite (value_reads_back j Hp) by (done || lia).
Qed.

(** The values that come back through the text: in the normal form of their
    type ([wf]), with strings that are UTF-8 and raw messages as the encoder
    writes them ([printable]), and nested at most 10000 deep. *)
Definition survives {A} `{JSONType A} (a : A) : Prop :=
  wf codec_of a /\ printable (to_json a) = true /\ (nesting (to_json a) <= maxNestingDepth)%nat.

(** [json.Unmarshal] of what [json.Marshal] has written. *)
Lemma Unmarshal_Marshal {A} `{JSONType A} `{!RoundTrip (A := A) codec_of} (a : A) :
  survives a -> Unmarshal (Marshal a) = Ret (inr a).
Proof.
  intros (Hw & Hp & Hd). unfold Unmarshal, Marshal. rewrite parse_json_text by done.
  unfold from_json, to_json. by rewrite round_trip.
Qed.
