(* ===== verification/Scalars.v ===== *)
(** * Scalar types of package types

    [types/types.go] (Uint64, Int64, Array), [types/checksum.go],
    [types/fraction.go], the sizes of [types/config.go], and the two string
    enumerations: [replyOn] of [types/submessages.go] and [voteOption] of
    [types/msg.go]. *)

From S2P Require Import Prelude GoText Json Codec.

(** [json.Unmarshal(data, &v)] into a fresh variable of the codec's type. *)
Definition unmarshal {A} (c : codec A) (j : json) : outcome (json_error + A) :=
  finish (dec c j (zero c)).

(** ** types.go: Uint64 and Int64 *)

Definition Uint64_MarshalJSON (u : Z) : json := JString (Strconv.FormatUint u).

Definition Uint64_UnmarshalJSON (data : json) : outcome (json_error + Z) :=
  let% r := unmarshal c_string data in
  match r with
  | inl _ =>
    Ret (inl (CustomError ("cannot unmarshal " +:+ json_text data +:+
      " into Uint64, expected string-encoded integer")))
  | inr s =>
    match Strconv.ParseUint s with
    | inl _ =>
      Ret (inl (CustomError ("cannot unmarshal " +:+ json_text data +:+
        " into Uint64, failed to parse integer")))
    | inr v => Ret (inr v)
    end
  end.

Definition c_Uint64 : codec Z :=
  c_custom 0 Uint64_MarshalJSON (fun j _ => Uint64_UnmarshalJSON j) (Z.eqb 0) is_u64.

Definition Int64_MarshalJSON (i : Z) : json := JString (Strconv.FormatInt i).

Definition Int64_UnmarshalJSON (data : json) : outcome (json_error + Z) :=
  let% r := unmarshal c_string data in
  match r with
  | inl _ =>
    Ret (inl (CustomError ("cannot unmarshal " +:+ json_text data +:+
      " into Int64, expected string-encoded integer")))
  | inr s =>
    match Strconv.ParseInt s with
    | inl _ =>
      Ret (inl (CustomError ("cannot unmarshal " +:+ json_text data +:+
        " into Int64, failed to parse integer")))
    | inr v => Ret (inr v)
    end
  end.

Definition c_Int64 : codec Z :=
  c_custom 0 Int64_MarshalJSON (fun j _ => Int64_UnmarshalJSON j) (Z.eqb 0) is_i64.

(** ** types.go: Array

    A slice that is written as [[]] when nil and read as an empty slice from
    [[]] and from [null]. *)

Definition Array (C : Type) := option (list C).

Definition Array_MarshalJSON {C} (c : codec C) (a : Array C) : json :=
  if zlen (default [] a) =? 0 then JArray [] else enc (c_slice c) a.

Definition Array_UnmarshalJSON {C} (c : codec C) (data : json) :
    outcome (json_error + Array C) :=
  let% r := unmarshal (c_slice c) data in
  match r with
  | inl e => Ret (inl e)
  | inr raw => Ret (inr (if zlen (default [] raw) =? 0 then Some [] else raw))
  end.

Definition c_Array {C} (c : codec C) : codec (Array C) :=
  c_custom None (Array_MarshalJSON c) (fun j _ => Array_UnmarshalJSON c j)
    (is_empty (c_slice c))
    (fun a => match a with None => False | Some l => Forall (wf c) l end).

(** ** checksum.go *)

Definition Checksum := bytes.
Definition ChecksumLen : Z := 32.

Definition Checksum_String (cs : Checksum) : string :=
  Hex.EncodeToString (string_of_bytes cs).

Definition Checksum_MarshalJSON (cs : Checksum) : json :=
  JString (Hex.EncodeToString (string_of_bytes cs)).

Definition hex_error_text (e : Hex.hex_error) : string :=
  match e with
  | Hex.InvalidByteError _ => "encoding/hex: invalid byte"
  | Hex.ErrLength => "encoding/hex: odd length hex string"
  end.

Definition Checksum_UnmarshalJSON (input : json) : outcome (json_error + Checksum) :=
  let% r := unmarshal c_string input in
  match r with
  | inl e => Ret (inl e)
  | inr hexString =>
    match Hex.DecodeString hexString with
    | inl e => Ret (inl (CustomError (hex_error_text e)))
    | inr data =>
      if negb (slen data =? ChecksumLen)
      then Ret (inl (CustomError "got wrong number of bytes for checksum"))
      else Ret (inr (Some data))
    end
  end.

Definition c_Checksum : codec Checksum :=
  c_custom None Checksum_MarshalJSON (fun j _ => Checksum_UnmarshalJSON j)
    (fun cs => blen cs =? 0) (fun cs => blen cs = ChecksumLen).

Definition ForceNewChecksum (input : string) : outcome Checksum :=
  match Hex.DecodeString input with
  | inl _ => Panic (string_panic "could not decode hex bytes")
  | inr data =>
    if negb (slen data =? ChecksumLen)
    then Panic (string_panic "got wrong number of bytes")
    else Ret (Some data)
  end.

(** ** fraction.go *)

Definition div_by_zero : panic_value := runtime_panic "integer divide by zero".

Record Fraction := mkFraction { Fraction_Numerator : Z; Fraction_Denominator : Z }.

Definition Fraction_Mul (f : Fraction) (m : Z) : Fraction :=
  mkFraction (i64 (Fraction_Numerator f * m)) (Fraction_Denominator f).
Definition Fraction_Floor (f : Fraction) : outcome Z :=
  if Fraction_Denominator f =? 0 then Panic div_by_zero
  else Ret (int_quot (Fraction_Numerator f) (Fraction_Denominator f)).

Record UFraction := mkUFraction { UFraction_Numerator : Z; UFraction_Denominator : Z }.

Definition UFraction_Mul (f : UFraction) (m : Z) : UFraction :=
  mkUFraction (UFraction_Numerator f *u m) (UFraction_Denominator f).
Definition UFraction_Floor (f : UFraction) : outcome Z :=
  if UFraction_Denominator f =? 0 then Panic div_by_zero
  else Ret (UFraction_Numerator f / UFraction_Denominator f).

(** ** config.go: Size *)

Record Size := mkSize { Size_uint32 : Z }.

Definition NewSize (v : Z) : Size := mkSize v.
Definition NewSizeKilo (v : Z) : Size := mkSize (u32 (v * 1000)).
Definition NewSizeKibi (v : Z) : Size := mkSize (u32 (v * 1024)).
Definition NewSizeMega (v : Z) : Size := mkSize (u32 (u32 (v * 1000) * 1000)).
Definition NewSizeMebi (v : Z) : Size := mkSize (u32 (u32 (v * 1024) * 1024)).
Definition NewSizeGiga (v : Z) : Size :=
  mkSize (u32 (u32 (u32 (v * 1000) * 1000) * 1000)).
Definition NewSizeGibi (v : Z) : Size :=
  mkSize (u32 (u32 (u32 (v * 1024) * 1024) * 1024)).

Definition Size_MarshalJSON (s : Size) : json := enc c_uint32 (Size_uint32 s).

(** [Size] has no [UnmarshalJSON]; its one field is not exported, so reading
    an object leaves it alone and anything else is of the wrong kind. *)
Definition c_Size : codec Size :=
  Codec Size_MarshalJSON
    (fun j old => match view j with JObject _ => dret old | _ => mismatch j old end)
    (mkSize 0) (fun _ => false) (fun _ => False).

(** ** submessages.go: replyOn *)

Definition replyOn := Z.
Definition UnsetReplyOn : replyOn := 0.
Definition ReplyAlways : replyOn := 1.
Definition ReplySuccess : replyOn := 2.
Definition ReplyError : replyOn := 3.
Definition ReplyNever : replyOn := 4.

Definition fromReplyOn : gmap Z string := list_to_map
  [ (ReplyAlways, "always"); (ReplySuccess, "success");
    (ReplyError, "error"); (ReplyNever, "never") ].
Definition toReplyOn : gmap string Z := list_to_map
  [ ("always", ReplyAlways); ("success", ReplySuccess);
    ("error", ReplyError); ("never", ReplyNever) ].

Definition replyOn_String (r : replyOn) : string := default EmptyString (fromReplyOn !! r).
Definition replyOn_MarshalJSON (s : replyOn) : json := JString (replyOn_String s).
Definition replyOn_UnmarshalJSON (b : json) : outcome (json_error + replyOn) :=
  let% r := unmarshal c_string b in
  match r with
  | inl e => Ret (inl e)
  | inr j =>
    match toReplyOn !! j with
    | None => Ret (inl (CustomError ("invalid reply_on value '" +:+ j +:+ "'")))
    | Some v => Ret (inr v)
    end
  end.
Definition c_replyOn : codec replyOn :=
  c_custom UnsetReplyOn replyOn_MarshalJSON (fun j _ => replyOn_UnmarshalJSON j) (Z.eqb 0)
    (fun r => ReplyAlways <= r <= ReplyNever).

(** ** msg.go: voteOption *)

Definition voteOption := Z.
Definition UnsetVoteOption : voteOption := 0.
Definition Yes : voteOption := 1.
Definition No : voteOption := 2.
Definition Abstain : voteOption := 3.
Definition NoWithVeto : voteOption := 4.

Definition fromVoteOption : gmap Z string := list_to_map
  [ (Yes, "yes"); (No, "no"); (Abstain, "abstain"); (NoWithVeto, "no_with_veto") ].
Definition toVoteOption : gmap string Z := list_to_map
  [ ("yes", Yes); ("no", No); ("abstain", Abstain); ("no_with_veto", NoWithVeto) ].

Definition voteOption_String (v : voteOption) : string :=
  default EmptyString (fromVoteOption !! v).
Definition voteOption_MarshalJSON (v : voteOption) : json := JString (voteOption_String v).
Definition voteOption_UnmarshalJSON (b : json) : outcome (json_error + voteOption) :=
  let% r := unmarshal c_string b in
  match r with
  | inl e => Ret (inl e)
  | inr j =>
    match toVoteOption !! j with
    | None => Ret (inl (CustomError ("invalid vote option '" +:+ j +:+ "'")))
    | Some v => Ret (inr v)
    end
  end.
Definition c_voteOption : codec voteOption :=
  c_custom UnsetVoteOption voteOption_MarshalJSON (fun j _ => voteOption_UnmarshalJSON j)
    (Z.eqb 0) (fun v => Yes <= v <= NoWithVeto).

(** ** Lemmas *)

(** A document that is not a string is an error of every type that is read
    through a string, but for [null], which reads as the empty string. *)
Lemma unmarshal_string j :
  unmarshal c_string j =
  match view j with
  | JString s => Ret (inr s)
  | JNull => Ret (inr EmptyString)
  | _ => Ret (inl (UnmarshalTypeError (kind_of j)))
  end.
Proof. unfold unmarshal. cbn [dec c_string]. unfold mismatch. by destruct (view j). Qed.

#[export] Hint Opaque c_Uint64 c_Int64 c_Array c_Checksum c_Size c_replyOn c_voteOption
  : typeclass_instances.

#[export] Instance c_Uint64_rt : RoundTrip c_Uint64.
Proof.
  intros n Hn. cbn [c_Uint64 c_custom enc dec wf] in *. unfold Uint64_UnmarshalJSON, Uint64_MarshalJSON.
  rewrite unmarshal_string. cbn [obind view]. by rewrite Strconv.ParseUint_FormatUint.
Qed.
#[export] Instance c_Int64_rt : RoundTrip c_Int64.
Proof.
  intros n Hn. cbn [c_Int64 c_custom enc dec wf] in *. unfold Int64_UnmarshalJSON, Int64_MarshalJSON.
  rewrite unmarshal_string. cbn [obind view]. by rewrite Strconv.ParseInt_FormatInt.
Qed.

Lemma unmarshal_rt {A} (c : codec A) `{!RoundTrip c} a :
  wf c a -> unmarshal c (enc c a) = Ret (inr a).
Proof. intros H. unfold unmarshal. by rewrite round_trip. Qed.

#[export] Instance c_Array_rt {C} (c : codec C) `{!RoundTrip c} : RoundTrip (c_Array c).
Proof.
  intros [[|x l]|] Hl; [reflexivity| |done].
  cbn [c_Array c_custom enc dec wf] in *. unfold Array_UnmarshalJSON.
  change (Array_MarshalJSON c (Some (x :: l))) with (enc (c_slice c) (Some (x :: l))).
  rewrite (unmarshal_rt (c_slice c)) by exact Hl. reflexivity.
Qed.

#[export] Instance c_Checksum_rt : RoundTrip c_Checksum.
Proof.
  intros [cs|] Hcs; [|by vm_compute in Hcs].
  cbn [c_Checksum c_custom enc dec wf] in *. unfold Checksum_UnmarshalJSON, Checksum_MarshalJSON.
  rewrite unmarshal_string. cbn [view obind string_of_bytes default]. unfold id.
  rewrite Hex.Decode_Encode. unfold blen in Hcs. cbn in Hcs. unfold id in Hcs.
  by rewrite Hcs.
Qed.

(** The four values of each enumeration. *)
Lemma four_values v (P : Z -> Prop) : P 1 -> P 2 -> P 3 -> P 4 -> 1 <= v <= 4 -> P v.
Proof.
  intros ???? Hv. assert (v = 1 \/ v = 2 \/ v = 3 \/ v = 4) as [->|[->|[->| -> ] ] ] by lia; done.
Qed.
#[export] Instance c_replyOn_rt : RoundTrip c_replyOn.
Proof. intros r Hr. by pattern r; apply four_values. Qed.
#[export] Instance c_voteOption_rt : RoundTrip c_voteOption.
Proof. intros v Hv. by pattern v; apply four_values. Qed.

(** Reading through a table of names gives only values of the table. *)
Lemma table_values (l : list (string * Z)) k v (P : Z -> Prop) :
  Forall (fun p => P p.2) l -> (list_to_map l : gmap string Z) !! k = Some v -> P v.
Proof.
  intros Hl Hk. apply elem_of_list_to_map_2 in Hk.
  rewrite Forall_forall in Hl. by apply (Hl (k, v)).
Qed.

Lemma replyOn_read r j : replyOn_UnmarshalJSON j = Ret (inr r) -> ReplyAlways <= r <= ReplyNever.
Proof.
  unfold replyOn_UnmarshalJSON. intros H. apply obind_inv in H as ([e|s] & _ & H); [discriminate|].
  destruct (toReplyOn !! s) eqn:E; simplify_eq.
  eapply (table_values _ s r (fun v => ReplyAlways <= v <= ReplyNever)); [|exact E].
  repeat constructor; vm_compute; congruence.
Qed.
Lemma voteOption_read r j : voteOption_UnmarshalJSON j = Ret (inr r) -> Yes <= r <= NoWithVeto.
Proof.
  unfold voteOption_UnmarshalJSON. intros H. apply obind_inv in H as ([e|s] & _ & H); [discriminate|].
  destruct (toVoteOption !! s) eqn:E; simplify_eq.
  eapply (table_values _ s r (fun v => Yes <= v <= NoWithVeto)); [|exact E].
  repeat constructor; vm_compute; congruence.
Qed.

Lemma u32_product a b : u32 (u32 a * b) = u32 (a * b).
Proof. unfold u32. by rewrite Z.mul_mod_idemp_l by (unfold two32; lia). Qed.

(** ** Properties *)

(** Uint64: reading what was written gives the number back; whatever is
    read is a uint64; and a document that is not a string, or a string that is
    not a decimal number in range, is refused without a panic. *)
Theorem Uint64_json (u : Z) :
  is_u64 u ->
  Uint64_UnmarshalJSON (Uint64_MarshalJSON u) = Ret (inr u) /\
  forall j, (exists v, Uint64_UnmarshalJSON j = Ret (inr v) /\ is_u64 v /\
               exists s, view j = JString s /\ Strconv.ParseUint s = inr v) \/
            exists m, Uint64_UnmarshalJSON j = Ret (inl (CustomError m)).
Proof.
  intros Hu. split.
  - unfold Uint64_UnmarshalJSON, Uint64_MarshalJSON. rewrite unmarshal_string. cbn [obind view].
    by rewrite Strconv.ParseUint_FormatUint.
  - intros j. unfold Uint64_UnmarshalJSON. rewrite unmarshal_string.
    destruct (view j) as [| | |s| | |]; cbn [obind view]; [right; eauto .. | | right; eauto | right; eauto | right; eauto].
    destruct (Strconv.ParseUint s) as [e|v] eqn:E; [right; eauto|].
    left. exists v. repeat split; [by apply (Strconv.ParseUint_range s)..|eauto].
Qed.
Lemma Uint64_json_witness :
  Uint64_UnmarshalJSON (Uint64_MarshalJSON MaxUint64) = Ret (inr MaxUint64) /\
  Uint64_MarshalJSON MaxUint64 = JString "18446744073709551615".
Proof.
  split; [|reflexivity]. apply (Uint64_json MaxUint64). vm_compute. split; congruence.
Defined.

(** C39. Checksum: a checksum read from JSON always has 32 bytes, and it is
    the one written; a checksum of any other length is written but cannot be
    read back. *)
Theorem Checksum_json (cs : Checksum) (j : json) :
  (Checksum_UnmarshalJSON j = Ret (inr cs) ->
     blen cs = ChecksumLen /\ cs <> None) /\
  (Checksum_UnmarshalJSON (Checksum_MarshalJSON cs) =
     if blen cs =? ChecksumLen then Ret (inr cs)
     else Ret (inl (CustomError "got wrong number of bytes for checksum"))).
Proof.
  split.
  - unfold Checksum_UnmarshalJSON. rewrite unmarshal_string.
    destruct (view j) as [| | |s| | |]; cbn [obind view]; try discriminate.
    destruct (Hex.DecodeString s) as [e|d]; [discriminate|].
    destruct (Z.eqb_spec (slen d) ChecksumLen) as [E|]; cbn [negb]; [|discriminate].
    intros [= <-]. split; [exact E|discriminate].
  - unfold Checksum_UnmarshalJSON, Checksum_MarshalJSON. rewrite unmarshal_string.
    cbn [obind view]. rewrite Hex.Decode_Encode. unfold blen.
    destruct (Z.eqb_spec (slen (string_of_bytes cs)) ChecksumLen) as [E|]; [|done].
    destruct cs; [done|by vm_compute in E].
Qed.
Definition example_checksum : Checksum :=
  Some "0123456789abcdef0123456789abcdef".
Lemma Checksum_json_witness :
  blen example_checksum = ChecksumLen /\ example_checksum <> None.
Proof.
  apply (Checksum_json example_checksum
    (JString "3031323334353637383961626364656630313233343536373839616263646566")).
  vm_compute. reflexivity.
Defined.

(** [ForceNewChecksum] returns a checksum of 32 bytes or panics, and it
    inverts [String] on every checksum of that length. *)
Theorem ForceNewChecksum_ok (input : string) (cs : Checksum) :
  (forall r, ForceNewChecksum input = Ret r -> blen r = ChecksumLen) /\
  (blen cs = ChecksumLen -> ForceNewChecksum (Checksum_String cs) = Ret cs).
Proof.
  unfold ForceNewChecksum, Checksum_String. split.
  - intros r. destruct (Hex.DecodeString input) as [|d]; [discriminate|].
    destruct (Z.eqb_spec (slen d) ChecksumLen); cbn [negb]; [|discriminate]. by intros [= <-].
  - intros Hcs. rewrite Hex.Decode_Encode. destruct cs as [s|]; [|by vm_compute in Hcs].
    unfold blen in Hcs. rewrite (proj2 (Z.eqb_eq _ _) Hcs). reflexivity.
Qed.
Lemma ForceNewChecksum_ok_witness :
  ForceNewChecksum (Checksum_String example_checksum) = Ret example_checksum.
Proof. apply (ForceNewChecksum_ok EmptyString example_checksum). reflexivity. Defined.

(** The string enumerations: a [reply_on] or vote option that is read is
    one of the four named values, never the unset zero value, and the named
    values are exactly those that survive a round trip (the unset value is
    written as the empty string, which is refused). *)
Theorem enumerations_json (r : Z) (j : json) :
  (replyOn_UnmarshalJSON j = Ret (inr r) -> ReplyAlways <= r <= ReplyNever) /\
  (voteOption_UnmarshalJSON j = Ret (inr r) -> Yes <= r <= NoWithVeto) /\
  (ReplyAlways <= r <= ReplyNever <->
     replyOn_UnmarshalJSON (replyOn_MarshalJSON r) = Ret (inr r)) /\
  (Yes <= r <= NoWithVeto <->
     voteOption_UnmarshalJSON (voteOption_MarshalJSON r) = Ret (inr r)).
Proof.
  split_and!.
  - apply replyOn_read.
  - apply voteOption_read.
  - split; [intros H; by pattern r; apply four_values | apply replyOn_read].
  - split; [intros H; by pattern r; apply four_values | apply voteOption_read].
Qed.
Lemma enumerations_json_witness :
  ReplyAlways <= ReplyError <= ReplyNever.
Proof. apply (enumerations_json ReplyError (JString "error")). vm_compute. reflexivity. Defined.

(** The size constructors are exact where the product fits 32 bits and
    wrap where it does not; in particular [NewSizeMebi] is exact exactly below
    4096, and 4096 MiB is a size of zero. *)
Theorem sizes_wrap (v : Z) :
  is_u32 v ->
  Size_uint32 (NewSizeKilo v) = u32 (v * 1000) /\
  Size_uint32 (NewSizeKibi v) = u32 (v * 1024) /\
  Size_uint32 (NewSizeMega v) = u32 (v * 1000000) /\
  Size_uint32 (NewSizeMebi v) = u32 (v * 1048576) /\
  Size_uint32 (NewSizeGiga v) = u32 (v * 1000000000) /\
  Size_uint32 (NewSizeGibi v) = u32 (v * 1073741824) /\
  (Size_uint32 (NewSizeMebi v) = v * 1048576 <-> v < 4096) /\
  Size_uint32 (NewSizeMebi 4096) = 0.
Proof.
  intros Hv. unfold NewSizeKilo, NewSizeKibi, NewSizeMega, NewSizeMebi, NewSizeGiga, NewSizeGibi.
  cbn [Size_uint32]. rewrite !u32_product, <- !Z.mul_assoc.
  change (1000 * 1000) with 1000000. change (1024 * 1024) with 1048576.
  change (1000 * (1000 * 1000)) with 1000000000. change (1024 * (1024 * 1024)) with 1073741824.
  repeat (split; [done|]). split; [|reflexivity]. width_lia.
Qed.
Lemma sizes_wrap_witness : Size_uint32 (NewSizeMebi 512) = 536870912.
Proof.
  change 536870912 with (512 * 1048576).
  apply (sizes_wrap 512); [vm_compute; split; congruence|lia].
Defined.

(** [Floor] panics exactly on a zero denominator, and for a fraction of
    positive numbers in range it is the floor of the quotient, multiplication
    included when the product fits. *)
Theorem fraction_floor (f : UFraction) (m : Z) :
  is_u64 (UFraction_Numerator f) -> is_u64 (UFraction_Denominator f) -> 0 <= m ->
  (UFraction_Denominator f = 0 <-> UFraction_Floor f = Panic div_by_zero) /\
  (UFraction_Denominator f <> 0 -> UFraction_Numerator f * m < two64 ->
     exists q, UFraction_Floor (UFraction_Mul f m) = Ret q /\
       q * UFraction_Denominator f <= UFraction_Numerator f * m
         < (q + 1) * UFraction_Denominator f).
Proof.
  destruct f as [n d]. unfold UFraction_Floor, UFraction_Mul. cbn. intros Hn Hd Hm. split.
  - destruct (Z.eqb_spec d 0); split; congruence.
  - intros H0 Hlt. rewrite (proj2 (Z.eqb_neq d 0)) by done.
    rewrite u64_id by (unfold is_u64 in *; nia).
    eexists; split; [done|]. pose proof (Z.mod_pos_bound (n * m) d) as Hb.
    pose proof (Z.div_mod (n * m) d H0). unfold is_u64 in *. nia.
Qed.
Lemma fraction_floor_witness :
  UFraction_Denominator (mkUFraction 3 0) = 0 <-> UFraction_Floor (mkUFraction 3 0) = Panic div_by_zero.
Proof. apply (fraction_floor (mkUFraction 3 0) 7); vm_compute; split || idtac; congruence. Defined.
