(* ===== verification/Types.v ===== *)
(** * Data of package types

    The structs of [types/types.go], [types/env.go], [types/config.go],
    [types/ibc.go] (the messages passed to the IBC entry points) and
    [types/ibc2.go].  Each struct is a record with the fields of the source
    in their order, and a codec with the names and options of their tags.
    A pointer is an [option], a slice is an [option] of a list. *)

From S2P Require Import Prelude GoText Json Codec Scalars.

(** ** types.go *)

Record Coin := mkCoin {
  Coin_Denom : string;
  Coin_Amount : string }.
Definition Coin_eta (x : Coin) : Coin :=
  mkCoin (Coin_Denom x) (Coin_Amount x).
Definition Coin_codec : codec Coin :=
  c_struct (mkCoin EmptyString EmptyString)
  [ field! Coin_eta "denom" c_string Coin_Denom;
    field! Coin_eta "amount" c_string Coin_Amount ].
#[export] Instance Coin_JSON : JSONType Coin := Coin_codec.

Record DenomUnit := mkDenomUnit {
  DenomUnit_Denom : string;
  DenomUnit_Exponent : Z;
  DenomUnit_Aliases : option (list string) }.
Definition DenomUnit_eta (x : DenomUnit) : DenomUnit :=
  mkDenomUnit (DenomUnit_Denom x) (DenomUnit_Exponent x) (DenomUnit_Aliases x).
Definition DenomUnit_codec : codec DenomUnit :=
  c_struct (mkDenomUnit EmptyString 0 None)
  [ field! DenomUnit_eta "denom" c_string DenomUnit_Denom;
    field! DenomUnit_eta "exponent" c_uint32 DenomUnit_Exponent;
    field! DenomUnit_eta "aliases" (c_slice c_string) DenomUnit_Aliases ].
#[export] Instance DenomUnit_JSON : JSONType DenomUnit := DenomUnit_codec.

Record DenomMetadata := mkDenomMetadata {
  DenomMetadata_Description : string;
  DenomMetadata_DenomUnits : option (list DenomUnit);
  DenomMetadata_Base : string;
  DenomMetadata_Display : string;
  DenomMetadata_Name : string;
  DenomMetadata_Symbol : string;
  DenomMetadata_URI : string;
  DenomMetadata_URIHash : string }.
Definition DenomMetadata_eta (x : DenomMetadata) : DenomMetadata :=
  mkDenomMetadata (DenomMetadata_Description x) (DenomMetadata_DenomUnits x)
    (DenomMetadata_Base x) (DenomMetadata_Display x) (DenomMetadata_Name x)
    (DenomMetadata_Symbol x) (DenomMetadata_URI x) (DenomMetadata_URIHash x).
Definition DenomMetadata_codec : codec DenomMetadata :=
  c_struct (mkDenomMetadata EmptyString None EmptyString EmptyString EmptyString EmptyString
    EmptyString EmptyString)
  [ field! DenomMetadata_eta "description" c_string DenomMetadata_Description;
    field! DenomMetadata_eta "denom_units" (c_slice DenomUnit_codec) DenomMetadata_DenomUnits;
    field! DenomMetadata_eta "base" c_string DenomMetadata_Base;
    field! DenomMetadata_eta "display" c_string DenomMetadata_Display;
    field! DenomMetadata_eta "name" c_string DenomMetadata_Name;
    field! DenomMetadata_eta "symbol" c_string DenomMetadata_Symbol;
    field! DenomMetadata_eta "uri" c_string DenomMetadata_URI;
    field! DenomMetadata_eta "uri_hash" c_string DenomMetadata_URIHash ].
#[export] Instance DenomMetadata_JSON : JSONType DenomMetadata := DenomMetadata_codec.

Record DecCoin := mkDecCoin {
  DecCoin_Amount : string;
  DecCoin_Denom : string }.
Definition DecCoin_eta (x : DecCoin) : DecCoin :=
  mkDecCoin (DecCoin_Amount x) (DecCoin_Denom x).
Definition DecCoin_codec : codec DecCoin :=
  c_struct (mkDecCoin EmptyString EmptyString)
  [ field! DecCoin_eta "amount" c_string DecCoin_Amount;
    field! DecCoin_eta "denom" c_string DecCoin_Denom ].
#[export] Instance DecCoin_JSON : JSONType DecCoin := DecCoin_codec.

Record PageRequest := mkPageRequest {
  PageRequest_Key : bytes;
  PageRequest_Limit : Z;
  PageRequest_Reverse : bool }.
Definition PageRequest_eta (x : PageRequest) : PageRequest :=
  mkPageRequest (PageRequest_Key x) (PageRequest_Limit x) (PageRequest_Reverse x).
Definition PageRequest_codec : codec PageRequest :=
  c_struct (mkPageRequest None 0 false)
  [ field! PageRequest_eta "key" c_bytes PageRequest_Key;
    field! PageRequest_eta "limit" c_uint32 PageRequest_Limit;
    field! PageRequest_eta "reverse" c_bool PageRequest_Reverse ].
#[export] Instance PageRequest_JSON : JSONType PageRequest := PageRequest_codec.

Record MigrateInfo := mkMigrateInfo {
  MigrateInfo_Sender : string;
  MigrateInfo_OldMigrateVersion : option Z }.
Definition MigrateInfo_eta (x : MigrateInfo) : MigrateInfo :=
  mkMigrateInfo (MigrateInfo_Sender x) (MigrateInfo_OldMigrateVersion x).
Definition MigrateInfo_codec : codec MigrateInfo :=
  c_struct (mkMigrateInfo EmptyString None)
  [ field! MigrateInfo_eta "sender" c_string MigrateInfo_Sender;
    field! MigrateInfo_eta "old_migrate_version" (c_ptr c_uint64) MigrateInfo_OldMigrateVersion ].
#[export] Instance MigrateInfo_JSON : JSONType MigrateInfo := MigrateInfo_codec.

(** [NewCoin] *)
Definition NewCoin (amount : Z) (denom : string) : Coin :=
  mkCoin denom (Strconv.FormatUint amount).

Record GasReport := mkGasReport {
  GasReport_Limit : Z;
  GasReport_Remaining : Z;
  GasReport_UsedExternally : Z;
  GasReport_UsedInternally : Z }.

Definition EmptyGasReport (limit : Z) : GasReport := mkGasReport limit limit 0 0.

(** Returned by [VM.AnalyzeCode]. *)
Record AnalysisReport := mkAnalysisReport {
  AnalysisReport_HasIBCEntryPoints : bool;
  AnalysisReport_RequiredCapabilities : string;
  AnalysisReport_Entrypoints : list string;
  AnalysisReport_ContractMigrateVersion : option Z }.

Record Metrics := mkMetrics {
  Metrics_HitsPinnedMemoryCache : Z;
  Metrics_HitsMemoryCache : Z;
  Metrics_HitsFsCache : Z;
  Metrics_Misses : Z;
  Metrics_ElementsPinnedMemoryCache : Z;
  Metrics_ElementsMemoryCache : Z;
  Metrics_SizePinnedMemoryCache : Z;
  Metrics_SizeMemoryCache : Z }.

Record PerModuleMetrics := mkPerModuleMetrics {
  PerModuleMetrics_Hits : Z;
  PerModuleMetrics_Size : Z }.
Record PerModuleEntry := mkPerModuleEntry {
  PerModuleEntry_Checksum : bytes;
  PerModuleEntry_Metrics : PerModuleMetrics }.
Record PinnedMetrics := mkPinnedMetrics {
  PinnedMetrics_PerModule : list PerModuleEntry }.

(** ** env.go *)

Record BlockInfo := mkBlockInfo {
  BlockInfo_Height : Z;
  BlockInfo_Time : Z;
  BlockInfo_ChainID : string }.
Definition BlockInfo_eta (x : BlockInfo) : BlockInfo :=
  mkBlockInfo (BlockInfo_Height x) (BlockInfo_Time x) (BlockInfo_ChainID x).
Definition BlockInfo_codec : codec BlockInfo :=
  c_struct (mkBlockInfo 0 0 EmptyString)
  [ field! BlockInfo_eta "height" c_uint64 BlockInfo_Height;
    field! BlockInfo_eta "time" c_Uint64 BlockInfo_Time;
    field! BlockInfo_eta "chain_id" c_string BlockInfo_ChainID ].
#[export] Instance BlockInfo_JSON : JSONType BlockInfo := BlockInfo_codec.

Record TransactionInfo := mkTransactionInfo {
  TransactionInfo_Index : Z;
  TransactionInfo_Hash : bytes }.
Definition TransactionInfo_eta (x : TransactionInfo) : TransactionInfo :=
  mkTransactionInfo (TransactionInfo_Index x) (TransactionInfo_Hash x).
Definition TransactionInfo_codec : codec TransactionInfo :=
  c_struct (mkTransactionInfo 0 None)
  [ field! TransactionInfo_eta "index" c_uint32 TransactionInfo_Index;
    omitempty! TransactionInfo_eta "hash" c_bytes TransactionInfo_Hash ].
#[export] Instance TransactionInfo_JSON : JSONType TransactionInfo := TransactionInfo_codec.

Record ContractInfo := mkContractInfo {
  ContractInfo_Address : string }.
Definition ContractInfo_eta (x : ContractInfo) : ContractInfo :=
  mkContractInfo (ContractInfo_Address x).
Definition ContractInfo_codec : codec ContractInfo :=
  c_struct (mkContractInfo EmptyString)
  [ field! ContractInfo_eta "address" c_string ContractInfo_Address ].
#[export] Instance ContractInfo_JSON : JSONType ContractInfo := ContractInfo_codec.

Record Env := mkEnv {
  Env_Block : BlockInfo;
  Env_Transaction : option TransactionInfo;
  Env_Contract : ContractInfo }.
Definition Env_eta (x : Env) : Env :=
  mkEnv (Env_Block x) (Env_Transaction x) (Env_Contract x).
Definition Env_codec : codec Env :=
  c_struct (mkEnv (zero BlockInfo_codec) None (zero ContractInfo_codec))
  [ field! Env_eta "block" BlockInfo_codec Env_Block;
    field! Env_eta "transaction" (c_ptr TransactionInfo_codec) Env_Transaction;
    field! Env_eta "contract" ContractInfo_codec Env_Contract ].
#[export] Instance Env_JSON : JSONType Env := Env_codec.

Record MessageInfo := mkMessageInfo {
  MessageInfo_Sender : string;
  MessageInfo_Funds : Array Coin }.
Definition MessageInfo_eta (x : MessageInfo) : MessageInfo :=
  mkMessageInfo (MessageInfo_Sender x) (MessageInfo_Funds x).
Definition MessageInfo_codec : codec MessageInfo :=
  c_struct (mkMessageInfo EmptyString None)
  [ field! MessageInfo_eta "sender" c_string MessageInfo_Sender;
    field! MessageInfo_eta "funds" (c_Array Coin_codec) MessageInfo_Funds ].
#[export] Instance MessageInfo_JSON : JSONType MessageInfo := MessageInfo_codec.

(** ** config.go *)

Record WasmLimits := mkWasmLimits {
  WasmLimits_InitialMemoryLimitPages : option Z;
  WasmLimits_TableSizeLimitElements : option Z;
  WasmLimits_MaxImports : option Z;
  WasmLimits_MaxFunctions : option Z;
  WasmLimits_MaxFunctionParams : option Z;
  WasmLimits_MaxTotalFunctionParams : option Z;
  WasmLimits_MaxFunctionResults : option Z;
  WasmLimits_MaxFunctionLocals : option Z;
  WasmLimits_MaxTotalFunctionLocals : option Z }.
Definition WasmLimits_eta (x : WasmLimits) : WasmLimits :=
  mkWasmLimits (WasmLimits_InitialMemoryLimitPages x) (WasmLimits_TableSizeLimitElements x)
    (WasmLimits_MaxImports x) (WasmLimits_MaxFunctions x) (WasmLimits_MaxFunctionParams x)
    (WasmLimits_MaxTotalFunctionParams x) (WasmLimits_MaxFunctionResults x)
    (WasmLimits_MaxFunctionLocals x) (WasmLimits_MaxTotalFunctionLocals x).
Definition WasmLimits_codec : codec WasmLimits :=
  c_struct (mkWasmLimits None None None None None None None None None)
  [ omitempty! WasmLimits_eta "initial_memory_limit_pages" (c_ptr c_uint32) WasmLimits_InitialMemoryLimitPages;
    omitempty! WasmLimits_eta "table_size_limit_elements" (c_ptr c_uint32) WasmLimits_TableSizeLimitElements;
    omitempty! WasmLimits_eta "max_imports" (c_ptr c_uint32) WasmLimits_MaxImports;
    omitempty! WasmLimits_eta "max_functions" (c_ptr c_uint32) WasmLimits_MaxFunctions;
    omitempty! WasmLimits_eta "max_function_params" (c_ptr c_uint32) WasmLimits_MaxFunctionParams;
    omitempty! WasmLimits_eta "max_total_function_params" (c_ptr c_uint32) WasmLimits_MaxTotalFunctionParams;
    omitempty! WasmLimits_eta "max_function_results" (c_ptr c_uint32) WasmLimits_MaxFunctionResults;
    omitempty! WasmLimits_eta "max_function_locals" (c_ptr c_uint32) WasmLimits_MaxFunctionLocals;
    omitempty! WasmLimits_eta "max_total_function_locals" (c_ptr c_uint32) WasmLimits_MaxTotalFunctionLocals ].
#[export] Instance WasmLimits_JSON : JSONType WasmLimits := WasmLimits_codec.

Record CacheOptions := mkCacheOptions {
  CacheOptions_BaseDir : string;
  CacheOptions_AvailableCapabilities : option (list string);
  CacheOptions_MemoryCacheSizeBytes : Size;
  CacheOptions_InstanceMemoryLimitBytes : Size }.
Definition CacheOptions_eta (x : CacheOptions) : CacheOptions :=
  mkCacheOptions (CacheOptions_BaseDir x) (CacheOptions_AvailableCapabilities x)
    (CacheOptions_MemoryCacheSizeBytes x) (CacheOptions_InstanceMemoryLimitBytes x).
Definition CacheOptions_codec : codec CacheOptions :=
  c_struct (mkCacheOptions EmptyString None (mkSize 0) (mkSize 0))
  [ field! CacheOptions_eta "base_dir" c_string CacheOptions_BaseDir;
    field! CacheOptions_eta "available_capabilities" (c_slice c_string) CacheOptions_AvailableCapabilities;
    field! CacheOptions_eta "memory_cache_size_bytes" c_Size CacheOptions_MemoryCacheSizeBytes;
    field! CacheOptions_eta "instance_memory_limit_bytes" c_Size CacheOptions_InstanceMemoryLimitBytes ].
#[export] Instance CacheOptions_JSON : JSONType CacheOptions := CacheOptions_codec.

Record VMConfig := mkVMConfig {
  VMConfig_WasmLimits : WasmLimits;
  VMConfig_Cache : CacheOptions }.
Definition VMConfig_eta (x : VMConfig) : VMConfig :=
  mkVMConfig (VMConfig_WasmLimits x) (VMConfig_Cache x).
Definition VMConfig_codec : codec VMConfig :=
  c_struct (mkVMConfig (zero WasmLimits_codec) (zero CacheOptions_codec))
  [ field! VMConfig_eta "wasm_limits" WasmLimits_codec VMConfig_WasmLimits;
    field! VMConfig_eta "cache" CacheOptions_codec VMConfig_Cache ].
#[export] Instance VMConfig_JSON : JSONType VMConfig := VMConfig_codec.

(** ** ibc.go: channels and packets *)

Record IBCEndpoint := mkIBCEndpoint {
  IBCEndpoint_PortID : string;
  IBCEndpoint_ChannelID : string }.
Definition IBCEndpoint_eta (x : IBCEndpoint) : IBCEndpoint :=
  mkIBCEndpoint (IBCEndpoint_PortID x) (IBCEndpoint_ChannelID x).
Definition IBCEndpoint_codec : codec IBCEndpoint :=
  c_struct (mkIBCEndpoint EmptyString EmptyString)
  [ field! IBCEndpoint_eta "port_id" c_string IBCEndpoint_PortID;
    field! IBCEndpoint_eta "channel_id" c_string IBCEndpoint_ChannelID ].
#[export] Instance IBCEndpoint_JSON : JSONType IBCEndpoint := IBCEndpoint_codec.

Record IBCChannel := mkIBCChannel {
  IBCChannel_Endpoint : IBCEndpoint;
  IBCChannel_CounterpartyEndpoint : IBCEndpoint;
  IBCChannel_Order : string;
  IBCChannel_Version : string;
  IBCChannel_ConnectionID : string }.
Definition IBCChannel_eta (x : IBCChannel) : IBCChannel :=
  mkIBCChannel (IBCChannel_Endpoint x) (IBCChannel_CounterpartyEndpoint x) (IBCChannel_Order x)
    (IBCChannel_Version x) (IBCChannel_ConnectionID x).
Definition IBCChannel_codec : codec IBCChannel :=
  c_struct (mkIBCChannel (zero IBCEndpoint_codec) (zero IBCEndpoint_codec) EmptyString
    EmptyString EmptyString)
  [ field! IBCChannel_eta "endpoint" IBCEndpoint_codec IBCChannel_Endpoint;
    field! IBCChannel_eta "counterparty_endpoint" IBCEndpoint_codec IBCChannel_CounterpartyEndpoint;
    field! IBCChannel_eta "order" c_string IBCChannel_Order;
    field! IBCChannel_eta "version" c_string IBCChannel_Version;
    field! IBCChannel_eta "connection_id" c_string IBCChannel_ConnectionID ].
#[export] Instance IBCChannel_JSON : JSONType IBCChannel := IBCChannel_codec.

Record IBCOpenInit := mkIBCOpenInit {
  IBCOpenInit_Channel : IBCChannel }.
Definition IBCOpenInit_eta (x : IBCOpenInit) : IBCOpenInit :=
  mkIBCOpenInit (IBCOpenInit_Channel x).
Definition IBCOpenInit_codec : codec IBCOpenInit :=
  c_struct (mkIBCOpenInit (zero IBCChannel_codec))
  [ field! IBCOpenInit_eta "channel" IBCChannel_codec IBCOpenInit_Channel ].
#[export] Instance IBCOpenInit_JSON : JSONType IBCOpenInit := IBCOpenInit_codec.

Record IBCOpenTry := mkIBCOpenTry {
  IBCOpenTry_Channel : IBCChannel;
  IBCOpenTry_CounterpartyVersion : string }.
Definition IBCOpenTry_eta (x : IBCOpenTry) : IBCOpenTry :=
  mkIBCOpenTry (IBCOpenTry_Channel x) (IBCOpenTry_CounterpartyVersion x).
Definition IBCOpenTry_codec : codec IBCOpenTry :=
  c_struct (mkIBCOpenTry (zero IBCChannel_codec) EmptyString)
  [ field! IBCOpenTry_eta "channel" IBCChannel_codec IBCOpenTry_Channel;
    field! IBCOpenTry_eta "counterparty_version" c_string IBCOpenTry_CounterpartyVersion ].
#[export] Instance IBCOpenTry_JSON : JSONType IBCOpenTry := IBCOpenTry_codec.

Record IBCChannelOpenMsg := mkIBCChannelOpenMsg {
  IBCChannelOpenMsg_OpenInit : option IBCOpenInit;
  IBCChannelOpenMsg_OpenTry : option IBCOpenTry }.
Definition IBCChannelOpenMsg_eta (x : IBCChannelOpenMsg) : IBCChannelOpenMsg :=
  mkIBCChannelOpenMsg (IBCChannelOpenMsg_OpenInit x) (IBCChannelOpenMsg_OpenTry x).
Definition IBCChannelOpenMsg_codec : codec IBCChannelOpenMsg :=
  c_struct (mkIBCChannelOpenMsg None None)
  [ omitempty! IBCChannelOpenMsg_eta "open_init" (c_ptr IBCOpenInit_codec) IBCChannelOpenMsg_OpenInit;
    omitempty! IBCChannelOpenMsg_eta "open_try" (c_ptr IBCOpenTry_codec) IBCChannelOpenMsg_OpenTry ].
#[export] Instance IBCChannelOpenMsg_JSON : JSONType IBCChannelOpenMsg := IBCChannelOpenMsg_codec.

Record IBCOpenAck := mkIBCOpenAck {
  IBCOpenAck_Channel : IBCChannel;
  IBCOpenAck_CounterpartyVersion : string }.
Definition IBCOpenAck_eta (x : IBCOpenAck) : IBCOpenAck :=
  mkIBCOpenAck (IBCOpenAck_Channel x) (IBCOpenAck_CounterpartyVersion x).
Definition IBCOpenAck_codec : codec IBCOpenAck :=
  c_struct (mkIBCOpenAck (zero IBCChannel_codec) EmptyString)
  [ field! IBCOpenAck_eta "channel" IBCChannel_codec IBCOpenAck_Channel;
    field! IBCOpenAck_eta "counterparty_version" c_string IBCOpenAck_CounterpartyVersion ].
#[export] Instance IBCOpenAck_JSON : JSONType IBCOpenAck := IBCOpenAck_codec.

Record IBCOpenConfirm := mkIBCOpenConfirm {
  IBCOpenConfirm_Channel : IBCChannel }.
Definition IBCOpenConfirm_eta (x : IBCOpenConfirm) : IBCOpenConfirm :=
  mkIBCOpenConfirm (IBCOpenConfirm_Channel x).
Definition IBCOpenConfirm_codec : codec IBCOpenConfirm :=
  c_struct (mkIBCOpenConfirm (zero IBCChannel_codec))
  [ field! IBCOpenConfirm_eta "channel" IBCChannel_codec IBCOpenConfirm_Channel ].
#[export] Instance IBCOpenConfirm_JSON : JSONType IBCOpenConfirm := IBCOpenConfirm_codec.

Record IBCChannelConnectMsg := mkIBCChannelConnectMsg {
  IBCChannelConnectMsg_OpenAck : option IBCOpenAck;
  IBCChannelConnectMsg_OpenConfirm : option IBCOpenConfirm }.
Definition IBCChannelConnectMsg_eta (x : IBCChannelConnectMsg) : IBCChannelConnectMsg :=
  mkIBCChannelConnectMsg (IBCChannelConnectMsg_OpenAck x) (IBCChannelConnectMsg_OpenConfirm x).
Definition IBCChannelConnectMsg_codec : codec IBCChannelConnectMsg :=
  c_struct (mkIBCChannelConnectMsg None None)
  [ omitempty! IBCChannelConnectMsg_eta "open_ack" (c_ptr IBCOpenAck_codec) IBCChannelConnectMsg_OpenAck;
    omitempty! IBCChannelConnectMsg_eta "open_confirm" (c_ptr IBCOpenConfirm_codec) IBCChannelConnectMsg_OpenConfirm ].
#[export] Instance IBCChannelConnectMsg_JSON : JSONType IBCChannelConnectMsg := IBCChannelConnectMsg_codec.

Record IBCCloseInit := mkIBCCloseInit {
  IBCCloseInit_Channel : IBCChannel }.
Definition IBCCloseInit_eta (x : IBCCloseInit) : IBCCloseInit :=
  mkIBCCloseInit (IBCCloseInit_Channel x).
Definition IBCCloseInit_codec : codec IBCCloseInit :=
  c_struct (mkIBCCloseInit (zero IBCChannel_codec))
  [ field! IBCCloseInit_eta "channel" IBCChannel_codec IBCCloseInit_Channel ].
#[export] Instance IBCCloseInit_JSON : JSONType IBCCloseInit := IBCCloseInit_codec.

Record IBCCloseConfirm := mkIBCCloseConfirm {
  IBCCloseConfirm_Channel : IBCChannel }.
Definition IBCCloseConfirm_eta (x : IBCCloseConfirm) : IBCCloseConfirm :=
  mkIBCCloseConfirm (IBCCloseConfirm_Channel x).
Definition IBCCloseConfirm_codec : codec IBCCloseConfirm :=
  c_struct (mkIBCCloseConfirm (zero IBCChannel_codec))
  [ field! IBCCloseConfirm_eta "channel" IBCChannel_codec IBCCloseConfirm_Channel ].
#[export] Instance IBCCloseConfirm_JSON : JSONType IBCCloseConfirm := IBCCloseConfirm_codec.

Record IBCChannelCloseMsg := mkIBCChannelCloseMsg {
  IBCChannelCloseMsg_CloseInit : option IBCCloseInit;
  IBCChannelCloseMsg_CloseConfirm : option IBCCloseConfirm }.
Definition IBCChannelCloseMsg_eta (x : IBCChannelCloseMsg) : IBCChannelCloseMsg :=
  mkIBCChannelCloseMsg (IBCChannelCloseMsg_CloseInit x) (IBCChannelCloseMsg_CloseConfirm x).
Definition IBCChannelCloseMsg_codec : codec IBCChannelCloseMsg :=
  c_struct (mkIBCChannelCloseMsg None None)
  [ omitempty! IBCChannelCloseMsg_eta "close_init" (c_ptr IBCCloseInit_codec) IBCChannelCloseMsg_CloseInit;
    omitempty! IBCChannelCloseMsg_eta "close_confirm" (c_ptr IBCCloseConfirm_codec) IBCChannelCloseMsg_CloseConfirm ].
#[export] Instance IBCChannelCloseMsg_JSON : JSONType IBCChannelCloseMsg := IBCChannelCloseMsg_codec.

Record IBCTimeoutBlock := mkIBCTimeoutBlock {
  IBCTimeoutBlock_Revision : Z;
  IBCTimeoutBlock_Height : Z }.
Definition IBCTimeoutBlock_eta (x : IBCTimeoutBlock) : IBCTimeoutBlock :=
  mkIBCTimeoutBlock (IBCTimeoutBlock_Revision x) (IBCTimeoutBlock_Height x).
Definition IBCTimeoutBlock_codec : codec IBCTimeoutBlock :=
  c_struct (mkIBCTimeoutBlock 0 0)
  [ field! IBCTimeoutBlock_eta "revision" c_uint64 IBCTimeoutBlock_Revision;
    field! IBCTimeoutBlock_eta "height" c_uint64 IBCTimeoutBlock_Height ].
#[export] Instance IBCTimeoutBlock_JSON : JSONType IBCTimeoutBlock := IBCTimeoutBlock_codec.

Record IBCTimeout := mkIBCTimeout {
  IBCTimeout_Block : option IBCTimeoutBlock;
  IBCTimeout_Timestamp : Z }.
Definition IBCTimeout_eta (x : IBCTimeout) : IBCTimeout :=
  mkIBCTimeout (IBCTimeout_Block x) (IBCTimeout_Timestamp x).
Definition IBCTimeout_codec : codec IBCTimeout :=
  c_struct (mkIBCTimeout None 0)
  [ field! IBCTimeout_eta "block" (c_ptr IBCTimeoutBlock_codec) IBCTimeout_Block;
    omitempty! IBCTimeout_eta "timestamp" c_uint64_string IBCTimeout_Timestamp ].
#[export] Instance IBCTimeout_JSON : JSONType IBCTimeout := IBCTimeout_codec.

Record IBCPacket := mkIBCPacket {
  IBCPacket_Data : bytes;
  IBCPacket_Src : IBCEndpoint;
  IBCPacket_Dest : IBCEndpoint;
  IBCPacket_Sequence : Z;
  IBCPacket_Timeout : IBCTimeout }.
Definition IBCPacket_eta (x : IBCPacket) : IBCPacket :=
  mkIBCPacket (IBCPacket_Data x) (IBCPacket_Src x) (IBCPacket_Dest x) (IBCPacket_Sequence x)
    (IBCPacket_Timeout x).
Definition IBCPacket_codec : codec IBCPacket :=
  c_struct (mkIBCPacket None (zero IBCEndpoint_codec) (zero IBCEndpoint_codec) 0 (zero
    IBCTimeout_codec))
  [ field! IBCPacket_eta "data" c_bytes IBCPacket_Data;
    field! IBCPacket_eta "src" IBCEndpoint_codec IBCPacket_Src;
    field! IBCPacket_eta "dest" IBCEndpoint_codec IBCPacket_Dest;
    field! IBCPacket_eta "sequence" c_uint64 IBCPacket_Sequence;
    field! IBCPacket_eta "timeout" IBCTimeout_codec IBCPacket_Timeout ].
#[export] Instance IBCPacket_JSON : JSONType IBCPacket := IBCPacket_codec.

Record IBCPacketReceiveMsg := mkIBCPacketReceiveMsg {
  IBCPacketReceiveMsg_Packet : IBCPacket;
  IBCPacketReceiveMsg_Relayer : string }.
Definition IBCPacketReceiveMsg_eta (x : IBCPacketReceiveMsg) : IBCPacketReceiveMsg :=
  mkIBCPacketReceiveMsg (IBCPacketReceiveMsg_Packet x) (IBCPacketReceiveMsg_Relayer x).
Definition IBCPacketReceiveMsg_codec : codec IBCPacketReceiveMsg :=
  c_struct (mkIBCPacketReceiveMsg (zero IBCPacket_codec) EmptyString)
  [ field! IBCPacketReceiveMsg_eta "packet" IBCPacket_codec IBCPacketReceiveMsg_Packet;
    field! IBCPacketReceiveMsg_eta "relayer" c_string IBCPacketReceiveMsg_Relayer ].
#[export] Instance IBCPacketReceiveMsg_JSON : JSONType IBCPacketReceiveMsg := IBCPacketReceiveMsg_codec.

Record IBCAcknowledgement := mkIBCAcknowledgement {
  IBCAcknowledgement_Data : bytes }.
Definition IBCAcknowledgement_eta (x : IBCAcknowledgement) : IBCAcknowledgement :=
  mkIBCAcknowledgement (IBCAcknowledgement_Data x).
Definition IBCAcknowledgement_codec : codec IBCAcknowledgement :=
  c_struct (mkIBCAcknowledgement None)
  [ field! IBCAcknowledgement_eta "data" c_bytes IBCAcknowledgement_Data ].
#[export] Instance IBCAcknowledgement_JSON : JSONType IBCAcknowledgement := IBCAcknowledgement_codec.

Record IBCPacketAckMsg := mkIBCPacketAckMsg {
  IBCPacketAckMsg_Acknowledgement : IBCAcknowledgement;
  IBCPacketAckMsg_OriginalPacket : IBCPacket;
  IBCPacketAckMsg_Relayer : string }.
Definition IBCPacketAckMsg_eta (x : IBCPacketAckMsg) : IBCPacketAckMsg :=
  mkIBCPacketAckMsg (IBCPacketAckMsg_Acknowledgement x) (IBCPacketAckMsg_OriginalPacket x)
    (IBCPacketAckMsg_Relayer x).
Definition IBCPacketAckMsg_codec : codec IBCPacketAckMsg :=
  c_struct (mkIBCPacketAckMsg (zero IBCAcknowledgement_codec) (zero IBCPacket_codec)
    EmptyString)
  [ field! IBCPacketAckMsg_eta "acknowledgement" IBCAcknowledgement_codec IBCPacketAckMsg_Acknowledgement;
    field! IBCPacketAckMsg_eta "original_packet" IBCPacket_codec IBCPacketAckMsg_OriginalPacket;
    field! IBCPacketAckMsg_eta "relayer" c_string IBCPacketAckMsg_Relayer ].
#[export] Instance IBCPacketAckMsg_JSON : JSONType IBCPacketAckMsg := IBCPacketAckMsg_codec.

Record IBCPacketTimeoutMsg := mkIBCPacketTimeoutMsg {
  IBCPacketTimeoutMsg_Packet : IBCPacket;
  IBCPacketTimeoutMsg_Relayer : string }.
Definition IBCPacketTimeoutMsg_eta (x : IBCPacketTimeoutMsg) : IBCPacketTimeoutMsg :=
  mkIBCPacketTimeoutMsg (IBCPacketTimeoutMsg_Packet x) (IBCPacketTimeoutMsg_Relayer x).
Definition IBCPacketTimeoutMsg_codec : codec IBCPacketTimeoutMsg :=
  c_struct (mkIBCPacketTimeoutMsg (zero IBCPacket_codec) EmptyString)
  [ field! IBCPacketTimeoutMsg_eta "packet" IBCPacket_codec IBCPacketTimeoutMsg_Packet;
    field! IBCPacketTimeoutMsg_eta "relayer" c_string IBCPacketTimeoutMsg_Relayer ].
#[export] Instance IBCPacketTimeoutMsg_JSON : JSONType IBCPacketTimeoutMsg := IBCPacketTimeoutMsg_codec.

Record IBCAckCallbackMsg := mkIBCAckCallbackMsg {
  IBCAckCallbackMsg_Acknowledgement : IBCAcknowledgement;
  IBCAckCallbackMsg_OriginalPacket : IBCPacket;
  IBCAckCallbackMsg_Relayer : string }.
Definition IBCAckCallbackMsg_eta (x : IBCAckCallbackMsg) : IBCAckCallbackMsg :=
  mkIBCAckCallbackMsg (IBCAckCallbackMsg_Acknowledgement x) (IBCAckCallbackMsg_OriginalPacket x)
    (IBCAckCallbackMsg_Relayer x).
Definition IBCAckCallbackMsg_codec : codec IBCAckCallbackMsg :=
  c_struct (mkIBCAckCallbackMsg (zero IBCAcknowledgement_codec) (zero IBCPacket_codec)
    EmptyString)
  [ field! IBCAckCallbackMsg_eta "acknowledgement" IBCAcknowledgement_codec IBCAckCallbackMsg_Acknowledgement;
    field! IBCAckCallbackMsg_eta "original_packet" IBCPacket_codec IBCAckCallbackMsg_OriginalPacket;
    field! IBCAckCallbackMsg_eta "relayer" c_string IBCAckCallbackMsg_Relayer ].
#[export] Instance IBCAckCallbackMsg_JSON : JSONType IBCAckCallbackMsg := IBCAckCallbackMsg_codec.

Record IBCTimeoutCallbackMsg := mkIBCTimeoutCallbackMsg {
  IBCTimeoutCallbackMsg_Packet : IBCPacket;
  IBCTimeoutCallbackMsg_Relayer : string }.
Definition IBCTimeoutCallbackMsg_eta (x : IBCTimeoutCallbackMsg) : IBCTimeoutCallbackMsg :=
  mkIBCTimeoutCallbackMsg (IBCTimeoutCallbackMsg_Packet x) (IBCTimeoutCallbackMsg_Relayer x).
Definition IBCTimeoutCallbackMsg_codec : codec IBCTimeoutCallbackMsg :=
  c_struct (mkIBCTimeoutCallbackMsg (zero IBCPacket_codec) EmptyString)
  [ field! IBCTimeoutCallbackMsg_eta "packet" IBCPacket_codec IBCTimeoutCallbackMsg_Packet;
    field! IBCTimeoutCallbackMsg_eta "relayer" c_string IBCTimeoutCallbackMsg_Relayer ].
#[export] Instance IBCTimeoutCallbackMsg_JSON : JSONType IBCTimeoutCallbackMsg := IBCTimeoutCallbackMsg_codec.

Record IBCSourceCallbackMsg := mkIBCSourceCallbackMsg {
  IBCSourceCallbackMsg_Acknowledgement : option IBCAckCallbackMsg;
  IBCSourceCallbackMsg_Timeout : option IBCTimeoutCallbackMsg }.
Definition IBCSourceCallbackMsg_eta (x : IBCSourceCallbackMsg) : IBCSourceCallbackMsg :=
  mkIBCSourceCallbackMsg (IBCSourceCallbackMsg_Acknowledgement x)
    (IBCSourceCallbackMsg_Timeout x).
Definition IBCSourceCallbackMsg_codec : codec IBCSourceCallbackMsg :=
  c_struct (mkIBCSourceCallbackMsg None None)
  [ omitempty! IBCSourceCallbackMsg_eta "acknowledgement" (c_ptr IBCAckCallbackMsg_codec) IBCSourceCallbackMsg_Acknowledgement;
    omitempty! IBCSourceCallbackMsg_eta "timeout" (c_ptr IBCTimeoutCallbackMsg_codec) IBCSourceCallbackMsg_Timeout ].
#[export] Instance IBCSourceCallbackMsg_JSON : JSONType IBCSourceCallbackMsg := IBCSourceCallbackMsg_codec.

Record IBCTransferCallback := mkIBCTransferCallback {
  IBCTransferCallback_Funds : Array Coin;
  IBCTransferCallback_Receiver : string;
  IBCTransferCallback_Sender : string }.
Definition IBCTransferCallback_eta (x : IBCTransferCallback) : IBCTransferCallback :=
  mkIBCTransferCallback (IBCTransferCallback_Funds x) (IBCTransferCallback_Receiver x)
    (IBCTransferCallback_Sender x).
Definition IBCTransferCallback_codec : codec IBCTransferCallback :=
  c_struct (mkIBCTransferCallback None EmptyString EmptyString)
  [ field! IBCTransferCallback_eta "funds" (c_Array Coin_codec) IBCTransferCallback_Funds;
    field! IBCTransferCallback_eta "receiver" c_string IBCTransferCallback_Receiver;
    field! IBCTransferCallback_eta "sender" c_string IBCTransferCallback_Sender ].
#[export] Instance IBCTransferCallback_JSON : JSONType IBCTransferCallback := IBCTransferCallback_codec.

Record IBCDestinationCallbackMsg := mkIBCDestinationCallbackMsg {
  IBCDestinationCallbackMsg_Ack : IBCAcknowledgement;
  IBCDestinationCallbackMsg_Packet : IBCPacket;
  IBCDestinationCallbackMsg_Transfer : option IBCTransferCallback }.
Definition IBCDestinationCallbackMsg_eta (x : IBCDestinationCallbackMsg) : IBCDestinationCallbackMsg :=
  mkIBCDestinationCallbackMsg (IBCDestinationCallbackMsg_Ack x)
    (IBCDestinationCallbackMsg_Packet x) (IBCDestinationCallbackMsg_Transfer x).
Definition IBCDestinationCallbackMsg_codec : codec IBCDestinationCallbackMsg :=
  c_struct (mkIBCDestinationCallbackMsg (zero IBCAcknowledgement_codec) (zero IBCPacket_codec)
    None)
  [ field! IBCDestinationCallbackMsg_eta "ack" IBCAcknowledgement_codec IBCDestinationCallbackMsg_Ack;
    field! IBCDestinationCallbackMsg_eta "packet" IBCPacket_codec IBCDestinationCallbackMsg_Packet;
    omitempty! IBCDestinationCallbackMsg_eta "transfer" (c_ptr IBCTransferCallback_codec) IBCDestinationCallbackMsg_Transfer ].
#[export] Instance IBCDestinationCallbackMsg_JSON : JSONType IBCDestinationCallbackMsg := IBCDestinationCallbackMsg_codec.

Definition IBCChannelOpenMsg_GetChannel (msg : IBCChannelOpenMsg) : outcome IBCChannel :=
  match IBCChannelOpenMsg_OpenInit msg with
  | Some m => Ret (IBCOpenInit_Channel m)
  | None => let% m := deref (IBCChannelOpenMsg_OpenTry msg) in Ret (IBCOpenTry_Channel m)
  end.
Definition IBCChannelOpenMsg_GetCounterVersion (msg : IBCChannelOpenMsg) : string * bool :=
  match IBCChannelOpenMsg_OpenTry msg with
  | Some m => (IBCOpenTry_CounterpartyVersion m, true)
  | None => (EmptyString, false)
  end.
Definition IBCOpenInit_ToMsg (m : IBCOpenInit) : IBCChannelOpenMsg :=
  mkIBCChannelOpenMsg (Some m) None.
Definition IBCOpenTry_ToMsg (m : IBCOpenTry) : IBCChannelOpenMsg :=
  mkIBCChannelOpenMsg None (Some m).

Definition IBCChannelConnectMsg_GetChannel (msg : IBCChannelConnectMsg) : outcome IBCChannel :=
  match IBCChannelConnectMsg_OpenAck msg with
  | Some m => Ret (IBCOpenAck_Channel m)
  | None =>
    let% m := deref (IBCChannelConnectMsg_OpenConfirm msg) in Ret (IBCOpenConfirm_Channel m)
  end.
Definition IBCChannelConnectMsg_GetCounterVersion (msg : IBCChannelConnectMsg) : string * bool :=
  match IBCChannelConnectMsg_OpenAck msg with
  | Some m => (IBCOpenAck_CounterpartyVersion m, true)
  | None => (EmptyString, false)
  end.
Definition IBCOpenAck_ToMsg (m : IBCOpenAck) : IBCChannelConnectMsg :=
  mkIBCChannelConnectMsg (Some m) None.
Definition IBCOpenConfirm_ToMsg (m : IBCOpenConfirm) : IBCChannelConnectMsg :=
  mkIBCChannelConnectMsg None (Some m).

Definition IBCChannelCloseMsg_GetChannel (msg : IBCChannelCloseMsg) : outcome IBCChannel :=
  match IBCChannelCloseMsg_CloseInit msg with
  | Some m => Ret (IBCCloseInit_Channel m)
  | None =>
    let% m := deref (IBCChannelCloseMsg_CloseConfirm msg) in Ret (IBCCloseConfirm_Channel m)
  end.
Definition IBCCloseInit_ToMsg (m : IBCCloseInit) : IBCChannelCloseMsg :=
  mkIBCChannelCloseMsg (Some m) None.
Definition IBCCloseConfirm_ToMsg (m : IBCCloseConfirm) : IBCChannelCloseMsg :=
  mkIBCChannelCloseMsg None (Some m).

Definition IBCTimeoutBlock_IsZero (t : IBCTimeoutBlock) : bool :=
  (IBCTimeoutBlock_Revision t =? 0) && (IBCTimeoutBlock_Height t =? 0).

(** ** ibc2.go *)

Record IBC2Payload := mkIBC2Payload {
  IBC2Payload_SourcePort : string;
  IBC2Payload_DestinationPort : string;
  IBC2Payload_Version : string;
  IBC2Payload_Encoding : string;
  IBC2Payload_Value : bytes }.
Definition IBC2Payload_eta (x : IBC2Payload) : IBC2Payload :=
  mkIBC2Payload (IBC2Payload_SourcePort x) (IBC2Payload_DestinationPort x)
    (IBC2Payload_Version x) (IBC2Payload_Encoding x) (IBC2Payload_Value x).
Definition IBC2Payload_codec : codec IBC2Payload :=
  c_struct (mkIBC2Payload EmptyString EmptyString EmptyString EmptyString None)
  [ field! IBC2Payload_eta "source_port" c_string IBC2Payload_SourcePort;
    field! IBC2Payload_eta "destination_port" c_string IBC2Payload_DestinationPort;
    field! IBC2Payload_eta "version" c_string IBC2Payload_Version;
    field! IBC2Payload_eta "encoding" c_string IBC2Payload_Encoding;
    field! IBC2Payload_eta "value" c_bytes IBC2Payload_Value ].
#[export] Instance IBC2Payload_JSON : JSONType IBC2Payload := IBC2Payload_codec.

Record IBC2PacketReceiveMsg := mkIBC2PacketReceiveMsg {
  IBC2PacketReceiveMsg_Payload : IBC2Payload;
  IBC2PacketReceiveMsg_Relayer : string;
  IBC2PacketReceiveMsg_SourceClient : string;
  IBC2PacketReceiveMsg_DestinationClient : string;
  IBC2PacketReceiveMsg_PacketSequence : Z }.
Definition IBC2PacketReceiveMsg_eta (x : IBC2PacketReceiveMsg) : IBC2PacketReceiveMsg :=
  mkIBC2PacketReceiveMsg (IBC2PacketReceiveMsg_Payload x) (IBC2PacketReceiveMsg_Relayer x)
    (IBC2PacketReceiveMsg_SourceClient x) (IBC2PacketReceiveMsg_DestinationClient x)
    (IBC2PacketReceiveMsg_PacketSequence x).
Definition IBC2PacketReceiveMsg_codec : codec IBC2PacketReceiveMsg :=
  c_struct (mkIBC2PacketReceiveMsg (zero IBC2Payload_codec) EmptyString EmptyString EmptyString
    0)
  [ field! IBC2PacketReceiveMsg_eta "payload" IBC2Payload_codec IBC2PacketReceiveMsg_Payload;
    field! IBC2PacketReceiveMsg_eta "relayer" c_string IBC2PacketReceiveMsg_Relayer;
    field! IBC2PacketReceiveMsg_eta "source_client" c_string IBC2PacketReceiveMsg_SourceClient;
    field! IBC2PacketReceiveMsg_eta "destination_client" c_string IBC2PacketReceiveMsg_DestinationClient;
    field! IBC2PacketReceiveMsg_eta "packet_sequence" c_uint64 IBC2PacketReceiveMsg_PacketSequence ].
#[export] Instance IBC2PacketReceiveMsg_JSON : JSONType IBC2PacketReceiveMsg := IBC2PacketReceiveMsg_codec.

Record IBC2PacketTimeoutMsg := mkIBC2PacketTimeoutMsg {
  IBC2PacketTimeoutMsg_Payload : IBC2Payload;
  IBC2PacketTimeoutMsg_SourceClient : string;
  IBC2PacketTimeoutMsg_DestinationClient : string;
  IBC2PacketTimeoutMsg_PacketSequence : Z;
  IBC2PacketTimeoutMsg_Relayer : string }.
Definition IBC2PacketTimeoutMsg_eta (x : IBC2PacketTimeoutMsg) : IBC2PacketTimeoutMsg :=
  mkIBC2PacketTimeoutMsg (IBC2PacketTimeoutMsg_Payload x) (IBC2PacketTimeoutMsg_SourceClient x)
    (IBC2PacketTimeoutMsg_DestinationClient x) (IBC2PacketTimeoutMsg_PacketSequence x)
    (IBC2PacketTimeoutMsg_Relayer x).
Definition IBC2PacketTimeoutMsg_codec : codec IBC2PacketTimeoutMsg :=
  c_struct (mkIBC2PacketTimeoutMsg (zero IBC2Payload_codec) EmptyString EmptyString 0
    EmptyString)
  [ field! IBC2PacketTimeoutMsg_eta "payload" IBC2Payload_codec IBC2PacketTimeoutMsg_Payload;
    field! IBC2PacketTimeoutMsg_eta "source_client" c_string IBC2PacketTimeoutMsg_SourceClient;
    field! IBC2PacketTimeoutMsg_eta "destination_client" c_string IBC2PacketTimeoutMsg_DestinationClient;
    field! IBC2PacketTimeoutMsg_eta "packet_sequence" c_uint64 IBC2PacketTimeoutMsg_PacketSequence;
    field! IBC2PacketTimeoutMsg_eta "relayer" c_string IBC2PacketTimeoutMsg_Relayer ].
#[export] Instance IBC2PacketTimeoutMsg_JSON : JSONType IBC2PacketTimeoutMsg := IBC2PacketTimeoutMsg_codec.

Record IBC2AcknowledgeMsg := mkIBC2AcknowledgeMsg {
  IBC2AcknowledgeMsg_SourceClient : string;
  IBC2AcknowledgeMsg_DestinationClient : string;
  IBC2AcknowledgeMsg_Data : IBC2Payload;
  IBC2AcknowledgeMsg_Acknowledgement : bytes;
  IBC2AcknowledgeMsg_Relayer : string }.
Definition IBC2AcknowledgeMsg_eta (x : IBC2AcknowledgeMsg) : IBC2AcknowledgeMsg :=
  mkIBC2AcknowledgeMsg (IBC2AcknowledgeMsg_SourceClient x)
    (IBC2AcknowledgeMsg_DestinationClient x) (IBC2AcknowledgeMsg_Data x)
    (IBC2AcknowledgeMsg_Acknowledgement x) (IBC2AcknowledgeMsg_Relayer x).
Definition IBC2AcknowledgeMsg_codec : codec IBC2AcknowledgeMsg :=
  c_struct (mkIBC2AcknowledgeMsg EmptyString EmptyString (zero IBC2Payload_codec) None
    EmptyString)
  [ field! IBC2AcknowledgeMsg_eta "source_client" c_string IBC2AcknowledgeMsg_SourceClient;
    field! IBC2AcknowledgeMsg_eta "destination_client" c_string IBC2AcknowledgeMsg_DestinationClient;
    field! IBC2AcknowledgeMsg_eta "data" IBC2Payload_codec IBC2AcknowledgeMsg_Data;
    field! IBC2AcknowledgeMsg_eta "acknowledgement" c_bytes IBC2AcknowledgeMsg_Acknowledgement;
    field! IBC2AcknowledgeMsg_eta "relayer" c_string IBC2AcknowledgeMsg_Relayer ].
#[export] Instance IBC2AcknowledgeMsg_JSON : JSONType IBC2AcknowledgeMsg := IBC2AcknowledgeMsg_codec.

Record IBC2PacketSendMsg := mkIBC2PacketSendMsg {
  IBC2PacketSendMsg_Payload : IBC2Payload;
  IBC2PacketSendMsg_SourceClient : string;
  IBC2PacketSendMsg_DestinationClient : string;
  IBC2PacketSendMsg_PacketSequence : Z;
  IBC2PacketSendMsg_Signer : string }.
Definition IBC2PacketSendMsg_eta (x : IBC2PacketSendMsg) : IBC2PacketSendMsg :=
  mkIBC2PacketSendMsg (IBC2PacketSendMsg_Payload x) (IBC2PacketSendMsg_SourceClient x)
    (IBC2PacketSendMsg_DestinationClient x) (IBC2PacketSendMsg_PacketSequence x)
    (IBC2PacketSendMsg_Signer x).
Definition IBC2PacketSendMsg_codec : codec IBC2PacketSendMsg :=
  c_struct (mkIBC2PacketSendMsg (zero IBC2Payload_codec) EmptyString EmptyString 0 EmptyString)
  [ field! IBC2PacketSendMsg_eta "payload" IBC2Payload_codec IBC2PacketSendMsg_Payload;
    field! IBC2PacketSendMsg_eta "source_client" c_string IBC2PacketSendMsg_SourceClient;
    field! IBC2PacketSendMsg_eta "destination_client" c_string IBC2PacketSendMsg_DestinationClient;
    field! IBC2PacketSendMsg_eta "packet_sequence" c_uint64 IBC2PacketSendMsg_PacketSequence;
    field! IBC2PacketSendMsg_eta "signer" c_string IBC2PacketSendMsg_Signer ].
#[export] Instance IBC2PacketSendMsg_JSON : JSONType IBC2PacketSendMsg := IBC2PacketSendMsg_codec.

(** ** Round trips: every struct that is read back (the configuration, whose
    sizes have no reader, is only written). *)
#[export] Hint Opaque Coin_codec DenomUnit_codec DenomMetadata_codec DecCoin_codec
  PageRequest_codec MigrateInfo_codec BlockInfo_codec TransactionInfo_codec ContractInfo_codec
  Env_codec MessageInfo_codec IBCEndpoint_codec IBCChannel_codec IBCOpenInit_codec
  IBCOpenTry_codec IBCChannelOpenMsg_codec IBCOpenAck_codec IBCOpenConfirm_codec
  IBCChannelConnectMsg_codec IBCCloseInit_codec IBCCloseConfirm_codec IBCChannelCloseMsg_codec
  IBCTimeoutBlock_codec IBCTimeout_codec IBCPacket_codec IBCPacketReceiveMsg_codec
  IBCAcknowledgement_codec IBCPacketAckMsg_codec IBCPacketTimeoutMsg_codec
  IBCAckCallbackMsg_codec IBCTimeoutCallbackMsg_codec IBCSourceCallbackMsg_codec
  IBCTransferCallback_codec IBCDestinationCallbackMsg_codec IBC2Payload_codec
  IBC2PacketReceiveMsg_codec IBC2PacketTimeoutMsg_codec IBC2AcknowledgeMsg_codec
  IBC2PacketSendMsg_codec : typeclass_instances.

#[export] Instance Coin_rt : RoundTrip Coin_codec.
Proof. solve_struct_rt Coin_codec. Qed.
#[export] Instance DenomUnit_rt : RoundTrip DenomUnit_codec.
Proof. solve_struct_rt DenomUnit_codec. Qed.
#[export] Instance DenomMetadata_rt : RoundTrip DenomMetadata_codec.
Proof. solve_struct_rt DenomMetadata_codec. Qed.
#[export] Instance DecCoin_rt : RoundTrip DecCoin_codec.
Proof. solve_struct_rt DecCoin_codec. Qed.
#[export] Instance PageRequest_rt : RoundTrip PageRequest_codec.
Proof. solve_struct_rt PageRequest_codec. Qed.
#[export] Instance MigrateInfo_rt : RoundTrip MigrateInfo_codec.
Proof. solve_struct_rt MigrateInfo_codec. Qed.
#[export] Instance BlockInfo_rt : RoundTrip BlockInfo_codec.
Proof. solve_struct_rt BlockInfo_codec. Qed.
#[export] Instance TransactionInfo_rt : RoundTrip TransactionInfo_codec.
Proof. solve_struct_rt TransactionInfo_codec. Qed.
#[export] Instance ContractInfo_rt : RoundTrip ContractInfo_codec.
Proof. solve_struct_rt ContractInfo_codec. Qed.
#[export] Instance Env_rt : RoundTrip Env_codec.
Proof. solve_struct_rt Env_codec. Qed.
#[export] Instance MessageInfo_rt : RoundTrip MessageInfo_codec.
Proof. solve_struct_rt MessageInfo_codec. Qed.
#[export] Instance IBCEndpoint_rt : RoundTrip IBCEndpoint_codec.
Proof. solve_struct_rt IBCEndpoint_codec. Qed.
#[export] Instance IBCChannel_rt : RoundTrip IBCChannel_codec.
Proof. solve_struct_rt IBCChannel_codec. Qed.
#[export] Instance IBCOpenInit_rt : RoundTrip IBCOpenInit_codec.
Proof. solve_struct_rt IBCOpenInit_codec. Qed.
#[export] Instance IBCOpenTry_rt : RoundTrip IBCOpenTry_codec.
Proof. solve_struct_rt IBCOpenTry_codec. Qed.
#[export] Instance IBCChannelOpenMsg_rt : RoundTrip IBCChannelOpenMsg_codec.
Proof. solve_struct_rt IBCChannelOpenMsg_codec. Qed.
#[export] Instance IBCOpenAck_rt : RoundTrip IBCOpenAck_codec.
Proof. solve_struct_rt IBCOpenAck_codec. Qed.
#[export] Instance IBCOpenConfirm_rt : RoundTrip IBCOpenConfirm_codec.
Proof. solve_struct_rt IBCOpenConfirm_codec. Qed.
#[export] Instance IBCChannelConnectMsg_rt : RoundTrip IBCChannelConnectMsg_codec.
Proof. solve_struct_rt IBCChannelConnectMsg_codec. Qed.
#[export] Instance IBCCloseInit_rt : RoundTrip IBCCloseInit_codec.
Proof. solve_struct_rt IBCCloseInit_codec. Qed.
#[export] Instance IBCCloseConfirm_rt : RoundTrip IBCCloseConfirm_codec.
Proof. solve_struct_rt IBCCloseConfirm_codec. Qed.
#[export] Instance IBCChannelCloseMsg_rt : RoundTrip IBCChannelCloseMsg_codec.
Proof. solve_struct_rt IBCChannelCloseMsg_codec. Qed.
#[export] Instance IBCTimeoutBlock_rt : RoundTrip IBCTimeoutBlock_codec.
Proof. solve_struct_rt IBCTimeoutBlock_codec. Qed.
#[export] Instance IBCTimeout_rt : RoundTrip IBCTimeout_codec.
Proof. solve_struct_rt IBCTimeout_codec. Qed.
#[export] Instance IBCPacket_rt : RoundTrip IBCPacket_codec.
Proof. solve_struct_rt IBCPacket_codec. Qed.
#[export] Instance IBCPacketReceiveMsg_rt : RoundTrip IBCPacketReceiveMsg_codec.
Proof. solve_struct_rt IBCPacketReceiveMsg_codec. Qed.
#[export] Instance IBCAcknowledgement_rt : RoundTrip IBCAcknowledgement_codec.
Proof. solve_struct_rt IBCAcknowledgement_codec. Qed.
#[export] Instance IBCPacketAckMsg_rt : RoundTrip IBCPacketAckMsg_codec.
Proof. solve_struct_rt IBCPacketAckMsg_codec. Qed.
#[export] Instance IBCPacketTimeoutMsg_rt : RoundTrip IBCPacketTimeoutMsg_codec.
Proof. solve_struct_rt IBCPacketTimeoutMsg_codec. Qed.
#[export] Instance IBCAckCallbackMsg_rt : RoundTrip IBCAckCallbackMsg_codec.
Proof. solve_struct_rt IBCAckCallbackMsg_codec. Qed.
#[export] Instance IBCTimeoutCallbackMsg_rt : RoundTrip IBCTimeoutCallbackMsg_codec.
Proof. solve_struct_rt IBCTimeoutCallbackMsg_codec. Qed.
#[export] Instance IBCSourceCallbackMsg_rt : RoundTrip IBCSourceCallbackMsg_codec.
Proof. solve_struct_rt IBCSourceCallbackMsg_codec. Qed.
#[export] Instance IBCTransferCallback_rt : RoundTrip IBCTransferCallback_codec.
Proof. solve_struct_rt IBCTransferCallback_codec. Qed.
#[export] Instance IBCDestinationCallbackMsg_rt : RoundTrip IBCDestinationCallbackMsg_codec.
Proof. solve_struct_rt IBCDestinationCallbackMsg_codec. Qed.
#[export] Instance IBC2Payload_rt : RoundTrip IBC2Payload_codec.
Proof. solve_struct_rt IBC2Payload_codec. Qed.
#[export] Instance IBC2PacketReceiveMsg_rt : RoundTrip IBC2PacketReceiveMsg_codec.
Proof. solve_struct_rt IBC2PacketReceiveMsg_codec. Qed.
#[export] Instance IBC2PacketTimeoutMsg_rt : RoundTrip IBC2PacketTimeoutMsg_codec.
Proof. solve_struct_rt IBC2PacketTimeoutMsg_codec. Qed.
#[export] Instance IBC2AcknowledgeMsg_rt : RoundTrip IBC2AcknowledgeMsg_codec.
Proof. solve_struct_rt IBC2AcknowledgeMsg_codec. Qed.
#[export] Instance IBC2PacketSendMsg_rt : RoundTrip IBC2PacketSendMsg_codec.
Proof. solve_struct_rt IBC2PacketSendMsg_codec. Qed.
