(* ===== verification/JsonSize.v ===== *)
(** * Expected JSON sizes ([types/json_size.go])

    The functions that predict the length of a value's JSON without building
    it, and the theorems that compare the prediction with the length of what
    [json.Marshal] writes.  The prediction is exact for every value whose
    strings are valid UTF-8 without the two line separators; for any other
    string the difference is computed.

    Lengths are Go [int]s; the sums are written in [Z], since the text of a
    value that fits in memory is far shorter than 2^63 bytes.  The two places
    where the code computes with an [int] that can be any value (the sign
    change of [ExpectedJSONSizeInt] and the multiplication of
    [ExpectedJSONSizeBinary]) keep the width. *)

From S2P Require Import Prelude GoText Json Codec Scalars Types.

(** ** Constants *)

Definition brackets : Z := 2.
Definition quotes : Z := 2.
Definition comma : Z := 1.
Definition colon : Z := 1.
Definition null : Z := 4.

(** ** Free functions *)

(** What the loop of [ExpectedJSONSizeString] adds for a rune. *)
Definition rune_overhead (r : Z) : Z :=
  if (r =? 0x22) || (r =? 0x5C) then 1
  else if (r =? 0x08) || (r =? 0x0C) || (r =? 0x0A) || (r =? 0x0D) || (r =? 0x09) then 1
  else if r <=? 0x1F then 5
  else if (r =? 0x3C) || (r =? 0x3E) || (r =? 0x26) then 5
  else 0.

Definition ExpectedJSONSizeString (s : string) : Z :=
  fold_left (fun out ch => out + rune_overhead ch.1) (Utf8.range_string s) (quotes + slen s).

Definition ExpectedJSONSizeBinary (b : bytes) : Z :=
  match b with
  | None => null
  | Some s =>
    let b64Len := Z.land (int_quot (i64 (4 * slen s)) 3 + 3) (Z.lnot 3) in
    b64Len + quotes
  end.

(** The digit loop ends within twenty rounds ([Strconv.digit_loop_length]);
    the default is never taken. *)
Definition loop_digits (i out : Z) : Z := default (-1) (Strconv.digit_loop 20 i out).

Definition ExpectedJSONSizeInt (i : Z) : Z :=
  if i <=? 0 then loop_digits (i64 (- i)) 1 else loop_digits i 0.

Definition ExpectedJSONSizeUint64 (i : Z) : Z :=
  if i =? 0 then 1 else loop_digits i 0.

Definition ExpectedJSONSizeBool (b : bool) : Z := if b then 4 else 5.

(** ** The interface [ExpectedJSONSize] and its methods *)

Class ExpectedJSONSize (T : Type) := expectedJSONSize : T -> Z.
#[export] Hint Mode ExpectedJSONSize ! : typeclass_instances.

Definition Coin_ExpectedJSONSize (c : Coin) : Z :=
  brackets +
    7 + colon + ExpectedJSONSizeString (Coin_Denom c) + comma +
    8 + colon + ExpectedJSONSizeString (Coin_Amount c).
#[export] Instance Coin_size : ExpectedJSONSize Coin := Coin_ExpectedJSONSize.

(** The loop [for i, v := range a], a comma before every element but the
    first. *)
Fixpoint array_loop {T} `{ExpectedJSONSize T} (i : nat) (l : list T) (out : Z) : Z :=
  match l with
  | [] => out
  | v :: l =>
    array_loop (S i) l ((if (0 <? i)%nat then out + comma else out) + expectedJSONSize v)
  end.
Definition ExpectedJSONSizeArray {T} `{ExpectedJSONSize T} (a : Array T) : Z :=
  array_loop 0 (default [] a) brackets.

Definition IBCEndpoint_ExpectedJSONSize (t : IBCEndpoint) : Z :=
  brackets +
    9 + colon + ExpectedJSONSizeString (IBCEndpoint_PortID t) + comma +
    12 + colon + ExpectedJSONSizeString (IBCEndpoint_ChannelID t).
#[export] Instance IBCEndpoint_size : ExpectedJSONSize IBCEndpoint :=
  IBCEndpoint_ExpectedJSONSize.

Definition IBCChannel_ExpectedJSONSize (t : IBCChannel) : Z :=
  brackets +
    10 + colon + expectedJSONSize (IBCChannel_Endpoint t) + comma +
    23 + colon + expectedJSONSize (IBCChannel_CounterpartyEndpoint t) + comma +
    7 + colon + ExpectedJSONSizeString (IBCChannel_Order t) + comma +
    9 + colon + ExpectedJSONSizeString (IBCChannel_Version t) + comma +
    15 + colon + ExpectedJSONSizeString (IBCChannel_ConnectionID t).
#[export] Instance IBCChannel_size : ExpectedJSONSize IBCChannel :=
  IBCChannel_ExpectedJSONSize.

Definition IBCOpenInit_ExpectedJSONSize (t : IBCOpenInit) : Z :=
  brackets + 9 + colon + expectedJSONSize (IBCOpenInit_Channel t).
#[export] Instance IBCOpenInit_size : ExpectedJSONSize IBCOpenInit :=
  IBCOpenInit_ExpectedJSONSize.

Definition IBCOpenTry_ExpectedJSONSize (t : IBCOpenTry) : Z :=
  brackets +
    9 + colon + expectedJSONSize (IBCOpenTry_Channel t) + comma +
    22 + colon + ExpectedJSONSizeString (IBCOpenTry_CounterpartyVersion t).
#[export] Instance IBCOpenTry_size : ExpectedJSONSize IBCOpenTry :=
  IBCOpenTry_ExpectedJSONSize.

(** A nil-able part of a message: [if p != nil { out += n + ... }]. *)
Definition add_part {T} `{ExpectedJSONSize T} (name : Z) (p : option T) (out : Z) : Z :=
  match p with Some t => out + (name + colon + expectedJSONSize t) | None => out end.
Definition add_comma {S T} (p : option S) (q : option T) (out : Z) : Z :=
  match p, q with Some _, Some _ => out + comma | _, _ => out end.

Definition IBCChannelOpenMsg_ExpectedJSONSize (t : IBCChannelOpenMsg) : Z :=
  let out := brackets in
  let out := add_part 11 (IBCChannelOpenMsg_OpenInit t) out in
  let out := add_comma (IBCChannelOpenMsg_OpenInit t) (IBCChannelOpenMsg_OpenTry t) out in
  add_part 10 (IBCChannelOpenMsg_OpenTry t) out.
#[export] Instance IBCChannelOpenMsg_size : ExpectedJSONSize IBCChannelOpenMsg :=
  IBCChannelOpenMsg_ExpectedJSONSize.

Definition IBCOpenAck_ExpectedJSONSize (t : IBCOpenAck) : Z :=
  brackets +
    9 + colon + expectedJSONSize (IBCOpenAck_Channel t) + comma +
    22 + colon + ExpectedJSONSizeString (IBCOpenAck_CounterpartyVersion t).
#[export] Instance IBCOpenAck_size : ExpectedJSONSize IBCOpenAck :=
  IBCOpenAck_ExpectedJSONSize.

Definition IBCOpenConfirm_ExpectedJSONSize (t : IBCOpenConfirm) : Z :=
  brackets + 9 + colon + expectedJSONSize (IBCOpenConfirm_Channel t).
#[export] Instance IBCOpenConfirm_size : ExpectedJSONSize IBCOpenConfirm :=
  IBCOpenConfirm_ExpectedJSONSize.

Definition IBCChannelConnectMsg_ExpectedJSONSize (t : IBCChannelConnectMsg) : Z :=
  let out := brackets in
  let out := add_part 10 (IBCChannelConnectMsg_OpenAck t) out in
  let out := add_comma (IBCChannelConnectMsg_OpenAck t) (IBCChannelConnectMsg_OpenConfirm t) out in
  add_part 14 (IBCChannelConnectMsg_OpenConfirm t) out.
#[export] Instance IBCChannelConnectMsg_size : ExpectedJSONSize IBCChannelConnectMsg :=
  IBCChannelConnectMsg_ExpectedJSONSize.

Definition IBCCloseInit_ExpectedJSONSize (t : IBCCloseInit) : Z :=
  brackets + 9 + colon + expectedJSONSize (IBCCloseInit_Channel t).
#[export] Instance IBCCloseInit_size : ExpectedJSONSize IBCCloseInit :=
  IBCCloseInit_ExpectedJSONSize.

Definition IBCCloseConfirm_ExpectedJSONSize (t : IBCCloseConfirm) : Z :=
  brackets + 9 + colon + expectedJSONSize (IBCCloseConfirm_Channel t).
#[export] Instance IBCCloseConfirm_size : ExpectedJSONSize IBCCloseConfirm :=
  IBCCloseConfirm_ExpectedJSONSize.

Definition IBCChannelCloseMsg_ExpectedJSONSize (t : IBCChannelCloseMsg) : Z :=
  let out := brackets in
  let out := add_part 12 (IBCChannelCloseMsg_CloseInit t) out in
  let out := add_comma (IBCChannelCloseMsg_CloseInit t) (IBCChannelCloseMsg_CloseConfirm t) out in
  add_part 15 (IBCChannelCloseMsg_CloseConfirm t) out.
#[export] Instance IBCChannelCloseMsg_size : ExpectedJSONSize IBCChannelCloseMsg :=
  IBCChannelCloseMsg_ExpectedJSONSize.

Definition IBCTimeoutBlock_ExpectedJSONSize (t : IBCTimeoutBlock) : Z :=
  brackets +
    10 + colon + ExpectedJSONSizeUint64 (IBCTimeoutBlock_Revision t) + comma +
    8 + colon + ExpectedJSONSizeUint64 (IBCTimeoutBlock_Height t).
#[export] Instance IBCTimeoutBlock_size : ExpectedJSONSize IBCTimeoutBlock :=
  IBCTimeoutBlock_ExpectedJSONSize.

Definition IBCTimeout_ExpectedJSONSize (t : IBCTimeout) : Z :=
  let out := brackets in
  let out :=
    match IBCTimeout_Block t with
    | Some b => out + (7 + colon + expectedJSONSize b)
    | None => out + (7 + colon + null)
    end in
  if negb (IBCTimeout_Timestamp t =? 0)
  then out + (comma + 11 + colon + ExpectedJSONSizeUint64 (IBCTimeout_Timestamp t) + quotes)
  else out.
#[export] Instance IBCTimeout_size : ExpectedJSONSize IBCTimeout :=
  IBCTimeout_ExpectedJSONSize.

Definition IBCPacket_ExpectedJSONSize (t : IBCPacket) : Z :=
  brackets +
    6 + colon + ExpectedJSONSizeBinary (IBCPacket_Data t) + comma +
    5 + colon + expectedJSONSize (IBCPacket_Src t) + comma +
    6 + colon + expectedJSONSize (IBCPacket_Dest t) + comma +
    10 + colon + ExpectedJSONSizeUint64 (IBCPacket_Sequence t) + comma +
    9 + colon + expectedJSONSize (IBCPacket_Timeout t).
#[export] Instance IBCPacket_size : ExpectedJSONSize IBCPacket :=
  IBCPacket_ExpectedJSONSize.

Definition IBCAcknowledgement_ExpectedJSONSize (t : IBCAcknowledgement) : Z :=
  brackets + 6 + colon + ExpectedJSONSizeBinary (IBCAcknowledgement_Data t).
#[export] Instance IBCAcknowledgement_size : ExpectedJSONSize IBCAcknowledgement :=
  IBCAcknowledgement_ExpectedJSONSize.

Definition IBCPacketReceiveMsg_ExpectedJSONSize (t : IBCPacketReceiveMsg) : Z :=
  brackets +
    8 + colon + expectedJSONSize (IBCPacketReceiveMsg_Packet t) + comma +
    9 + colon + ExpectedJSONSizeString (IBCPacketReceiveMsg_Relayer t).
#[export] Instance IBCPacketReceiveMsg_size : ExpectedJSONSize IBCPacketReceiveMsg :=
  IBCPacketReceiveMsg_ExpectedJSONSize.

Definition IBCPacketAckMsg_ExpectedJSONSize (t : IBCPacketAckMsg) : Z :=
  brackets +
    17 + colon + expectedJSONSize (IBCPacketAckMsg_Acknowledgement t) + comma +
    17 + colon + expectedJSONSize (IBCPacketAckMsg_OriginalPacket t) + comma +
    9 + colon + ExpectedJSONSizeString (IBCPacketAckMsg_Relayer t).
#[export] Instance IBCPacketAckMsg_size : ExpectedJSONSize IBCPacketAckMsg :=
  IBCPacketAckMsg_ExpectedJSONSize.

Definition IBCPacketTimeoutMsg_ExpectedJSONSize (t : IBCPacketTimeoutMsg) : Z :=
  brackets +
    8 + colon + expectedJSONSize (IBCPacketTimeoutMsg_Packet t) + comma +
    9 + colon + ExpectedJSONSizeString (IBCPacketTimeoutMsg_Relayer t).
#[export] Instance IBCPacketTimeoutMsg_size : ExpectedJSONSize IBCPacketTimeoutMsg :=
  IBCPacketTimeoutMsg_ExpectedJSONSize.

Definition IBCAckCallbackMsg_ExpectedJSONSize (t : IBCAckCallbackMsg) : Z :=
  brackets +
    17 + colon + expectedJSONSize (IBCAckCallbackMsg_Acknowledgement t) + comma +
    17 + colon + expectedJSONSize (IBCAckCallbackMsg_OriginalPacket t) + comma +
    9 + colon + ExpectedJSONSizeString (IBCAckCallbackMsg_Relayer t).
#[export] Instance IBCAckCallbackMsg_size : ExpectedJSONSize IBCAckCallbackMsg :=
  IBCAckCallbackMsg_ExpectedJSONSize.

Definition IBCTimeoutCallbackMsg_ExpectedJSONSize (t : IBCTimeoutCallbackMsg) : Z :=
  brackets +
    8 + colon + expectedJSONSize (IBCTimeoutCallbackMsg_Packet t) + comma +
    9 + colon + ExpectedJSONSizeString (IBCTimeoutCallbackMsg_Relayer t).
#[export] Instance IBCTimeoutCallbackMsg_size : ExpectedJSONSize IBCTimeoutCallbackMsg :=
  IBCTimeoutCallbackMsg_ExpectedJSONSize.

Definition IBCSourceCallbackMsg_ExpectedJSONSize (t : IBCSourceCallbackMsg) : Z :=
  let out := brackets in
  let out := add_part 17 (IBCSourceCallbackMsg_Acknowledgement t) out in
  let out := add_comma (IBCSourceCallbackMsg_Acknowledgement t)
               (IBCSourceCallbackMsg_Timeout t) out in
  add_part 9 (IBCSourceCallbackMsg_Timeout t) out.
#[export] Instance IBCSourceCallbackMsg_size : ExpectedJSONSize IBCSourceCallbackMsg :=
  IBCSourceCallbackMsg_ExpectedJSONSize.

Definition IBCTransferCallback_ExpectedJSONSize (t : IBCTransferCallback) : Z :=
  brackets +
    7 + colon + ExpectedJSONSizeArray (IBCTransferCallback_Funds t) + comma +
    10 + colon + ExpectedJSONSizeString (IBCTransferCallback_Receiver t) + comma +
    8 + colon + ExpectedJSONSizeString (IBCTransferCallback_Sender t).
#[export] Instance IBCTransferCallback_size : ExpectedJSONSize IBCTransferCallback :=
  IBCTransferCallback_ExpectedJSONSize.

Definition IBCDestinationCallbackMsg_ExpectedJSONSize (t : IBCDestinationCallbackMsg) : Z :=
  let out :=
    brackets +
      5 + colon + expectedJSONSize (IBCDestinationCallbackMsg_Ack t) + comma +
      8 + colon + expectedJSONSize (IBCDestinationCallbackMsg_Packet t) in
  match IBCDestinationCallbackMsg_Transfer t with
  | Some tr => out + (comma + 10 + colon + expectedJSONSize tr)
  | None => out
  end.
#[export] Instance IBCDestinationCallbackMsg_size : ExpectedJSONSize IBCDestinationCallbackMsg :=
  IBCDestinationCallbackMsg_ExpectedJSONSize.

(** ** Strings: the prediction and its exact error *)

Definition is_invalid (ch : Z * string) : bool :=
  (ch.1 =? Utf8.RuneError) && (slen ch.2 =? 1).
Definition is_separator (ch : Z * string) : bool := (ch.1 =? 0x2028) || (ch.1 =? 0x2029).

(** Bytes of a string that are not part of valid UTF-8, and line separators. *)
Definition invalid_bytes (s : string) : Z := zlen (List.filter is_invalid (Utf8.range_string s)).
Definition line_separators (s : string) : Z :=
  zlen (List.filter is_separator (Utf8.range_string s)).

(** What the encoder writes for a chunk beyond what the loop counts for it. *)
Definition gap (ch : Z * string) : Z :=
  (if is_invalid ch then 5 else 0) + (if is_separator ch then 3 else 0).

Lemma escape_ascii c : code c < Utf8.RuneSelf ->
  slen (escape_rune (code c, String c EmptyString)) = 1 + rune_overhead (code c).
Proof. destruct c as [[] [] [] [] [] [] [] []]; vm_compute; congruence. Qed.

Lemma escape_rune_len ch : Utf8.chunk_wf ch ->
  slen (escape_rune ch) = slen ch.2 + rune_overhead ch.1 + gap ch.
Proof.
  intros [(c & -> & Hc)|[(c & -> & Hc)|Hw]].
  - rewrite escape_ascii by done. unfold gap, is_invalid, is_separator, Utf8.RuneSelf,
      Utf8.RuneError in *. cbn [fst snd]. change (slen (String c EmptyString)) with 1.
    repeat case_match; lia.
  - done.
  - destruct ch as [r src]. cbn [fst snd] in *. unfold Utf8.width_of in Hw.
    assert (rune_overhead r = 0) as ->.
    { unfold rune_overhead. repeat case_match; lia. }
    unfold escape_rune, gap, is_invalid, is_separator, Utf8.RuneSelf, Utf8.RuneError in *.
    cbn [fst snd]. repeat case_match; try lia; rewrite !slen_app;
      change (slen backslash) with 1; change (slen (hex1 _)) with 1;
      change (slen "ufffd") with 5; change (slen "u202") with 4; lia.
Qed.

Lemma escape_all_len l : Forall Utf8.chunk_wf l -> forall out,
  slen (concat_strings (map escape_rune l)) + out =
  fold_left (fun out ch => out + rune_overhead ch.1) l (out + slen (concat_strings (map snd l)))
  + 5 * zlen (List.filter is_invalid l) + 3 * zlen (List.filter is_separator l).
Proof.
  induction 1 as [|ch l Hch _ IH]; intros out.
  { unfold zlen, slen. cbn [map concat_strings fold_left List.filter length String.length]. lia. }
  cbn [map concat_strings fold_left List.filter]. rewrite !slen_app, escape_rune_len by done.
  replace (out + (slen ch.2 + slen (concat_strings (map snd l))) + rune_overhead ch.1)
    with ((out + slen ch.2 + rune_overhead ch.1) + slen (concat_strings (map snd l))) by lia.
  rewrite <- Z.add_assoc.
  specialize (IH (out + slen ch.2 + rune_overhead ch.1)). unfold gap.
  destruct (is_invalid ch), (is_separator ch); rewrite ?zlen_cons; lia.
Qed.

Lemma string_text_len s :
  slen (string_text s) =
  ExpectedJSONSizeString s + 5 * invalid_bytes s + 3 * line_separators s.
Proof.
  unfold string_text, ExpectedJSONSizeString, invalid_bytes, line_separators.
  rewrite slen_quote, Z.add_comm, (escape_all_len _ (Utf8.range_string_wf s)).
  by rewrite Utf8.range_string_concat.
Qed.

(** A string whose prediction is exact. *)
Definition plain_text (s : string) : bool := (invalid_bytes s =? 0) && (line_separators s =? 0).

Lemma plain_text_len s : plain_text s = true -> ExpectedJSONSizeString s = slen (string_text s).
Proof.
  unfold plain_text. intros [H1%Z.eqb_eq H2%Z.eqb_eq]%andb_true_iff.
  rewrite string_text_len, H1, H2. lia.
Qed.

(** Printable ASCII without the escaped characters is written as it is. *)
Lemma range_string_plain c s : code c < Utf8.RuneSelf ->
  Utf8.range_string (String c s) = (code c, String c EmptyString) :: Utf8.range_string s.
Proof.
  intros Hc. unfold Utf8.range_string. cbn [Utf8.range_from].
  unfold Utf8.DecodeRune. by rewrite (proj2 (Z.ltb_lt _ _) Hc).
Qed.
Lemma string_text_plain s : Base64.all_plain s = true -> string_text s = quote s.
Proof.
  intros H. unfold string_text. f_equal. induction s as [|c s IH]; [done|].
  cbn [Base64.all_plain] in H. apply andb_true_iff in H as [Hc Hs].
  assert (code c < Utf8.RuneSelf).
  { unfold Base64.plain in Hc. cbv zeta in Hc. unfold Utf8.RuneSelf. lia. }
  rewrite range_string_plain by done. cbn [map concat_strings]. rewrite IH by done.
  assert (escape_rune (code c, String c EmptyString) = String c EmptyString) as ->; [|done].
  unfold escape_rune. rewrite (proj2 (Z.ltb_lt _ _)) by done.
  assert (htmlSafe (code c) = true) as ->; [|done].
  unfold htmlSafe, Base64.plain in *. cbv zeta in Hc.
  apply andb_true_iff in Hc as [Hc ->]. rewrite andb_true_r. lia.
Qed.

Lemma all_plain_app s t :
  Base64.all_plain (s +:+ t) = Base64.all_plain s && Base64.all_plain t.
Proof. induction s as [|c s IH]; [done|]. cbn. by rewrite IH, andb_assoc. Qed.
Lemma dec_digits_plain f n : 0 <= n -> Base64.all_plain (Strconv.dec_digits f n) = true.
Proof.
  revert n. induction f as [|f IH]; intros n Hn; [done|]. cbn [Strconv.dec_digits].
  assert (forall d, 0 <= d < 10 -> Base64.plain (Strconv.digit_char d) = true) as Hd.
  { intros d Hd. unfold Base64.plain. rewrite Strconv.code_digit by done.
    cbn [existsb]. lia. }
  case_match.
  - cbn. rewrite Hd by lia. done.
  - rewrite all_plain_app, IH by (Z.div_mod_to_equations; lia).
    cbn. rewrite Hd by (Z.div_mod_to_equations; lia). done.
Qed.

(** ** Numbers and binary data *)

Lemma uint64_size n : is_u64 n -> ExpectedJSONSizeUint64 n = slen (Strconv.FormatUint n).
Proof.
  intros Hn. unfold ExpectedJSONSizeUint64, loop_digits.
  destruct (Z.eqb_spec n 0) as [->|H0]; [done|].
  by rewrite Strconv.digit_loop_FormatUint.
Qed.

Lemma int_size i : is_i64 i -> i <> MinInt64 ->
  ExpectedJSONSizeInt i = slen (Strconv.FormatInt i).
Proof.
  intros Hi Hmin. unfold ExpectedJSONSizeInt, Strconv.FormatInt, loop_digits.
  destruct (Z.leb_spec i 0) as [Hle|Hgt].
  - destruct (Z.ltb_spec i 0) as [Hlt|Hge].
    + assert (0 -u u64 i = - i) as -> by width_lia.
      rewrite (i64_id (- i)) by width_lia.
      rewrite Strconv.digit_loop_length by width_lia.
      rewrite slen_cons. done.
    + assert (i = 0) as -> by lia. done.
  - rewrite (proj2 (Z.ltb_ge _ _)) by lia. rewrite u64_id by width_lia.
    rewrite Strconv.digit_loop_FormatUint by width_lia. done.
Qed.

Lemma round_up4 z : 0 <= z -> Z.land (z + 3) (Z.lnot 3) = 4 * ((z + 3) / 4).
Proof.
  intros Hz. change 3 with (Z.ones 2) at 2. rewrite <- Z.ldiff_land.
  rewrite Z.ldiff_ones_r, Z.shiftl_mul_pow2, Z.shiftr_div_pow2 by lia.
  change (2 ^ 2) with 4. lia.
Qed.

Lemma binary_size s : slen s < 2 ^ 60 ->
  ExpectedJSONSizeBinary (Some s) = slen (string_text (Base64.Encode s)).
Proof.
  intros Hs. pose proof (slen_nonneg s) as H0.
  rewrite string_text_plain by apply Base64.Encode_plain.
  rewrite slen_quote, Base64.slen_Encode. unfold ExpectedJSONSizeBinary, quotes.
  assert (int_quot (i64 (4 * slen s)) 3 = 4 * slen s / 3) as ->.
  { rewrite i64_id by width_lia. unfold int_quot.
    rewrite Z.quot_div_nonneg by lia. apply i64_id. width_lia. }
  rewrite round_up4 by (Z.div_mod_to_equations; lia).
  Z.div_mod_to_equations. lia.
Qed.

(** ** Documents *)

(** Every string of the document has an exact prediction and is shorter than
    any string that fits in memory. *)
Fixpoint size_exact (j : json) : bool :=
  match j with
  | JString s => plain_text s && (slen s <? 2 ^ 60)
  | JArray l => forallb size_exact l
  | JObject fs => forallb (fun kv => size_exact kv.2) fs
  | JSource _ _ => false
  | _ => true
  end.

(** The uint64 fields of a value, which a Go value keeps in range. *)
Class U64Fields (T : Type) := u64_fields : T -> list Z.
#[export] Instance no_u64_fields {T} : U64Fields T | 100 := fun _ => [].
#[export] Instance opt_u64_fields {T} `{U64Fields T} : U64Fields (option T) :=
  fun p => match p with Some t => u64_fields t | None => [] end.
#[export] Instance IBCTimeoutBlock_u64 : U64Fields IBCTimeoutBlock :=
  fun t => [IBCTimeoutBlock_Revision t; IBCTimeoutBlock_Height t].
#[export] Instance IBCTimeout_u64 : U64Fields IBCTimeout :=
  fun t => IBCTimeout_Timestamp t :: u64_fields (IBCTimeout_Block t).
#[export] Instance IBCPacket_u64 : U64Fields IBCPacket :=
  fun t => IBCPacket_Sequence t :: u64_fields (IBCPacket_Timeout t).
#[export] Instance IBCPacketReceiveMsg_u64 : U64Fields IBCPacketReceiveMsg :=
  fun t => u64_fields (IBCPacketReceiveMsg_Packet t).
#[export] Instance IBCPacketAckMsg_u64 : U64Fields IBCPacketAckMsg :=
  fun t => u64_fields (IBCPacketAckMsg_OriginalPacket t).
#[export] Instance IBCPacketTimeoutMsg_u64 : U64Fields IBCPacketTimeoutMsg :=
  fun t => u64_fields (IBCPacketTimeoutMsg_Packet t).
#[export] Instance IBCAckCallbackMsg_u64 : U64Fields IBCAckCallbackMsg :=
  fun t => u64_fields (IBCAckCallbackMsg_OriginalPacket t).
#[export] Instance IBCTimeoutCallbackMsg_u64 : U64Fields IBCTimeoutCallbackMsg :=
  fun t => u64_fields (IBCTimeoutCallbackMsg_Packet t).
#[export] Instance IBCSourceCallbackMsg_u64 : U64Fields IBCSourceCallbackMsg :=
  fun t => u64_fields (IBCSourceCallbackMsg_Acknowledgement t)
           ++ u64_fields (IBCSourceCallbackMsg_Timeout t).
#[export] Instance IBCDestinationCallbackMsg_u64 : U64Fields IBCDestinationCallbackMsg :=
  fun t => u64_fields (IBCDestinationCallbackMsg_Packet t).

(** A type whose prediction is the length of its JSON. *)
Class SizeExact (T : Type) `{JSONType T} `{ExpectedJSONSize T} `{U64Fields T} : Prop :=
  size_is_exact : forall t : T,
    Forall is_u64 (u64_fields t) -> size_exact (enc codec_of t) = true ->
    slen (json_text (enc codec_of t)) = expectedJSONSize t.

Definition member_len (kv : string * json) : Z :=
  slen (string_text kv.1) + 1 + slen (json_text kv.2).
(** The members of an object with the commas between them. *)
Fixpoint members_len (fs : list (string * json)) : Z :=
  match fs with
  | [] => 0
  | kv :: fs' => member_len kv + match fs' with [] => 0 | _ => 1 + members_len fs' end
  end.

Lemma slen_join {A} (f : A -> string) (m : A -> Z) l :
  (forall a, slen (f a) = m a) ->
  slen (join "," (map f l)) =
  (fix go l := match l with
   | [] => 0
   | a :: l' => m a + match l' with [] => 0 | _ => 1 + go l' end
   end) l.
Proof.
  intros Hf. induction l as [|a [|b l] IH]; [done| |].
  - cbn [map join]. rewrite Hf. lia.
  - change (join "," (map f (a :: b :: l))) with (f a +:+ "," +:+ join "," (map f (b :: l))).
    rewrite !slen_app, IH, Hf. change (slen ",") with 1. lia.
Qed.
Lemma object_len fs : slen (json_text (JObject fs)) = 2 + members_len fs.
Proof.
  cbn [json_text]. unfold brace. rewrite !slen_app.
  rewrite (slen_join _ member_len).
  - change (slen "{") with 1. change (slen "}") with 1.
    assert (forall l, (fix go l := match l with
       | [] => 0
       | a :: l' => member_len a + match l' with [] => 0 | _ => 1 + go l' end
       end) l = members_len l) as -> by done. lia.
  - intros kv. rewrite !slen_app. unfold member_len. change (slen ":") with 1. lia.
Qed.

Lemma enc_string_len s : size_exact (enc c_string s) = true ->
  slen (json_text (enc c_string s)) = ExpectedJSONSizeString s.
Proof.
  cbn [size_exact enc c_string json_text]. intros [H _]%andb_true_iff.
  by rewrite plain_text_len.
Qed.
Lemma enc_bytes_len b : size_exact (enc c_bytes b) = true ->
  slen (json_text (enc c_bytes b)) = ExpectedJSONSizeBinary b.
Proof.
  destruct b as [s|]; [|done]. cbn [enc c_bytes json_text size_exact].
  intros [_ H%Z.ltb_lt]%andb_true_iff.
  rewrite Base64.slen_Encode in H. rewrite binary_size; [done|].
  Z.div_mod_to_equations. lia.
Qed.
Lemma enc_uint64_len n : is_u64 n ->
  slen (json_text (enc c_uint64 n)) = ExpectedJSONSizeUint64 n.
Proof. intros H. by rewrite uint64_size. Qed.
Lemma enc_uint64_string_len n : is_u64 n ->
  slen (json_text (enc c_uint64_string n)) = ExpectedJSONSizeUint64 n + quotes.
Proof.
  intros H. cbn [enc c_uint64_string json_text].
  rewrite string_text_plain by (apply dec_digits_plain; apply H).
  rewrite slen_quote, uint64_size by done. unfold quotes. lia.
Qed.

(** The proof of a struct: its members one by one, each by the lemma of its
    type, then the sum. *)
Ltac split_hyps :=
  repeat match goal with
  | H : Forall _ (_ :: _) |- _ => apply Forall_cons in H as [? ?]
  | H : Forall _ (_ ++ _) |- _ => apply Forall_app in H as [? ?]
  | H : _ && _ = true |- _ => apply andb_true_iff in H as [? ?]
  end.
Ltac size_child :=
  match goal with
  | H : size_exact (enc ?c ?x) = true |- context [slen (json_text (enc ?c ?x))] =>
    first
      [ rewrite (enc_string_len x H)
      | rewrite (enc_bytes_len x H)
      | let E := fresh "E" in
        assert (slen (json_text (enc c x)) = expectedJSONSize x) as E;
        [ let P := fresh in pose proof (size_is_exact x) as P; apply P;
          [solve [assumption | apply Forall_nil; exact I] | exact H]
        | rewrite E; clear E ] ]
  | H : is_u64 ?n |- context [slen (json_text (enc c_uint64 ?n))] =>
    rewrite (enc_uint64_len n H)
  | H : is_u64 ?n |- context [slen (json_text (enc c_uint64_string ?n))] =>
    rewrite (enc_uint64_string_len n H)
  end.
Ltac key_lens :=
  repeat match goal with
  | |- context [slen (string_text ?k)] =>
    let n := eval vm_compute in (slen (string_text k)) in
    lazymatch n with Zpos _ => change (slen (string_text k)) with n end
  end;
  change (slen (json_text JNull)) with 4.
Ltac open_struct T_json T_codec T_size :=
  intros t Hu Hs; unfold codec_of, T_json, T_codec in Hs |- *;
  cbn [enc c_struct] in Hs |- *; rewrite object_len;
  change (expectedJSONSize t) with (T_size t); unfold T_size;
  change (u64_fields t) with (@u64_fields _ _ t) in Hu.
Ltac open_u64 T_u64 :=
  match goal with
  | H : Forall is_u64 _ |- _ => unfold u64_fields at 1 in H; unfold T_u64 in H
  end.
Ltac fields_simpl :=
  cbn [enc_fields flat_map gfield f_key f_enc f_omitempty f_empty andb app
    size_exact forallb fst snd is_empty c_ptr enc members_len member_len] in *;
  unfold member_len; cbn [fst snd].
Ltac close_struct :=
  split_hyps; repeat size_child; key_lens;
  unfold add_part, add_comma, brackets, quotes, comma, colon, null; try lia.

#[export] Instance Coin_exact : SizeExact Coin.
Proof.
  open_struct Coin_JSON Coin_codec Coin_ExpectedJSONSize.
  fields_simpl. close_struct.
Qed.

#[export] Instance IBCEndpoint_exact : SizeExact IBCEndpoint.
Proof.
  open_struct IBCEndpoint_JSON IBCEndpoint_codec IBCEndpoint_ExpectedJSONSize.
  fields_simpl. close_struct.
Qed.

#[export] Instance IBCChannel_exact : SizeExact IBCChannel.
Proof.
  open_struct IBCChannel_JSON IBCChannel_codec IBCChannel_ExpectedJSONSize.
  fields_simpl. close_struct.
Qed.

#[export] Instance IBCOpenInit_exact : SizeExact IBCOpenInit.
Proof.
  open_struct IBCOpenInit_JSON IBCOpenInit_codec IBCOpenInit_ExpectedJSONSize.
  fields_simpl. close_struct.
Qed.

#[export] Instance IBCOpenTry_exact : SizeExact IBCOpenTry.
Proof.
  open_struct IBCOpenTry_JSON IBCOpenTry_codec IBCOpenTry_ExpectedJSONSize.
  fields_simpl. close_struct.
Qed.

#[export] Instance IBCOpenAck_exact : SizeExact IBCOpenAck.
Proof.
  open_struct IBCOpenAck_JSON IBCOpenAck_codec IBCOpenAck_ExpectedJSONSize.
  fields_simpl. close_struct.
Qed.

#[export] Instance IBCOpenConfirm_exact : SizeExact IBCOpenConfirm.
Proof.
  open_struct IBCOpenConfirm_JSON IBCOpenConfirm_codec IBCOpenConfirm_ExpectedJSONSize.
  fields_simpl. close_struct.
Qed.

#[export] Instance IBCCloseInit_exact : SizeExact IBCCloseInit.
Proof.
  open_struct IBCCloseInit_JSON IBCCloseInit_codec IBCCloseInit_ExpectedJSONSize.
  fields_simpl. close_struct.
Qed.

#[export] Instance IBCCloseConfirm_exact : SizeExact IBCCloseConfirm.
Proof.
  open_struct IBCCloseConfirm_JSON IBCCloseConfirm_codec IBCCloseConfirm_ExpectedJSONSize.
  fields_simpl. close_struct.
Qed.

#[export] Instance IBCAcknowledgement_exact : SizeExact IBCAcknowledgement.
Proof.
  open_struct IBCAcknowledgement_JSON IBCAcknowledgement_codec IBCAcknowledgement_ExpectedJSONSize.
  fields_simpl. close_struct.
Qed.

#[export] Instance IBCTimeoutBlock_exact : SizeExact IBCTimeoutBlock.
Proof.
  open_struct IBCTimeoutBlock_JSON IBCTimeoutBlock_codec IBCTimeoutBlock_ExpectedJSONSize.
  open_u64 IBCTimeoutBlock_u64.
  fields_simpl. close_struct.
Qed.

#[export] Instance IBCChannelOpenMsg_exact : SizeExact IBCChannelOpenMsg.
Proof.
  open_struct IBCChannelOpenMsg_JSON IBCChannelOpenMsg_codec IBCChannelOpenMsg_ExpectedJSONSize.
  fields_simpl. destruct t as [[a|] [b|]]; cbn [IBCChannelOpenMsg_OpenInit IBCChannelOpenMsg_OpenTry] in *;
  fields_simpl; close_struct.
Qed.

#[export] Instance IBCChannelConnectMsg_exact : SizeExact IBCChannelConnectMsg.
Proof.
  open_struct IBCChannelConnectMsg_JSON IBCChannelConnectMsg_codec IBCChannelConnectMsg_ExpectedJSONSize.
  fields_simpl. destruct t as [[a|] [b|]]; cbn [IBCChannelConnectMsg_OpenAck IBCChannelConnectMsg_OpenConfirm] in *;
  fields_simpl; close_struct.
Qed.

#[export] Instance IBCChannelCloseMsg_exact : SizeExact IBCChannelCloseMsg.
Proof.
  open_struct IBCChannelCloseMsg_JSON IBCChannelCloseMsg_codec IBCChannelCloseMsg_ExpectedJSONSize.
  fields_simpl. destruct t as [[a|] [b|]]; cbn [IBCChannelCloseMsg_CloseInit IBCChannelCloseMsg_CloseConfirm] in *;
  fields_simpl; close_struct.
Qed.

#[export] Instance IBCTimeout_exact : SizeExact IBCTimeout.
Proof.
  open_struct IBCTimeout_JSON IBCTimeout_codec IBCTimeout_ExpectedJSONSize.
  open_u64 IBCTimeout_u64.
  fields_simpl. destruct t as [blk ts].
  cbn [c_uint64_string is_empty IBCTimeout_Block IBCTimeout_Timestamp] in *.
  destruct (Z.eqb_spec 0 ts) as [<-|Hts];
    [|rewrite (proj2 (Z.eqb_neq ts 0)) by congruence];
    destruct blk as [b|]; cbn [u64_fields opt_u64_fields] in *;
    fields_simpl; cbn [negb Z.eqb]; close_struct.
Qed.

#[export] Instance IBCPacket_exact : SizeExact IBCPacket.
Proof.
  open_struct IBCPacket_JSON IBCPacket_codec IBCPacket_ExpectedJSONSize.
  open_u64 IBCPacket_u64.
  fields_simpl. close_struct.
Qed.

#[export] Instance IBCPacketReceiveMsg_exact : SizeExact IBCPacketReceiveMsg.
Proof.
  open_struct IBCPacketReceiveMsg_JSON IBCPacketReceiveMsg_codec IBCPacketReceiveMsg_ExpectedJSONSize.
  open_u64 IBCPacketReceiveMsg_u64.
  fields_simpl. close_struct.
Qed.

#[export] Instance IBCPacketAckMsg_exact : SizeExact IBCPacketAckMsg.
Proof.
  open_struct IBCPacketAckMsg_JSON IBCPacketAckMsg_codec IBCPacketAckMsg_ExpectedJSONSize.
  open_u64 IBCPacketAckMsg_u64.
  fields_simpl. close_struct.
Qed.

#[export] Instance IBCPacketTimeoutMsg_exact : SizeExact IBCPacketTimeoutMsg.
Proof.
  open_struct IBCPacketTimeoutMsg_JSON IBCPacketTimeoutMsg_codec IBCPacketTimeoutMsg_ExpectedJSONSize.
  open_u64 IBCPacketTimeoutMsg_u64.
  fields_simpl. close_struct.
Qed.

#[export] Instance IBCAckCallbackMsg_exact : SizeExact IBCAckCallbackMsg.
Proof.
  open_struct IBCAckCallbackMsg_JSON IBCAckCallbackMsg_codec IBCAckCallbackMsg_ExpectedJSONSize.
  open_u64 IBCAckCallbackMsg_u64.
  fields_simpl. close_struct.
Qed.

#[export] Instance IBCTimeoutCallbackMsg_exact : SizeExact IBCTimeoutCallbackMsg.
Proof.
  open_struct IBCTimeoutCallbackMsg_JSON IBCTimeoutCallbackMsg_codec IBCTimeoutCallbackMsg_ExpectedJSONSize.
  open_u64 IBCTimeoutCallbackMsg_u64.
  fields_simpl. close_struct.
Qed.

#[export] Instance IBCSourceCallbackMsg_exact : SizeExact IBCSourceCallbackMsg.
Proof.
  open_struct IBCSourceCallbackMsg_JSON IBCSourceCallbackMsg_codec IBCSourceCallbackMsg_ExpectedJSONSize.
  open_u64 IBCSourceCallbackMsg_u64.
  fields_simpl. destruct t as [[a|] [b|]];
    cbn [IBCSourceCallbackMsg_Acknowledgement IBCSourceCallbackMsg_Timeout
      u64_fields opt_u64_fields] in *;
  fields_simpl; close_struct.
Qed.

(** Arrays: the loop adds the elements and the commas between them. *)
Lemma array_loop_len {T} `{SizeExact T} (l : list T) i out :
  Forall (fun t => Forall is_u64 (u64_fields t)) l ->
  forallb size_exact (map (enc codec_of) l) = true ->
  array_loop i l out =
  out + slen (join "," (map json_text (map (enc codec_of) l)))
  + (if (0 <? i)%nat then match l with [] => 0 | _ => 1 end else 0).
Proof.
  revert i out. induction l as [|t l IH]; intros i out Hu Hs; cbn [array_loop].
  { cbn [map join]. change (slen EmptyString) with 0. case_match; lia. }
  apply Forall_cons in Hu as [Ht Hl]. cbn [map forallb] in Hs.
  apply andb_true_iff in Hs as [Hs1 Hs2].
  rewrite IH, <- size_is_exact by done. unfold comma. cbn [Nat.ltb Nat.leb].
  destruct l as [|t' l].
  - cbn [map join]. change (slen EmptyString) with 0. case_match; lia.
  - cbn [map]. rewrite join_cons2, !slen_app. change (slen ",") with 1. case_match; lia.
Qed.

Lemma array_len {T} `{SizeExact T} (a : Array T) :
  Forall (fun t => Forall is_u64 (u64_fields t)) (default [] a) ->
  size_exact (enc (c_Array codec_of) a) = true ->
  slen (json_text (enc (c_Array codec_of) a)) = ExpectedJSONSizeArray a.
Proof.
  intros Hu Hs. unfold ExpectedJSONSizeArray, brackets.
  destruct a as [[|t l]|]; [done| |done].
  change (enc (c_Array codec_of) (Some (t :: l))) with (JArray (map (enc codec_of) (t :: l))) in *.
  cbn [size_exact] in Hs. cbn [default] in *. rewrite array_loop_len by done.
  cbn [json_text Nat.ltb Nat.leb]. unfold bracket. rewrite !slen_app.
  change (slen "[") with 1. change (slen "]") with 1. unfold id. lia.
Qed.

Lemma coins_len (a : Array Coin) :
  size_exact (enc (c_Array Coin_codec) a) = true ->
  slen (json_text (enc (c_Array Coin_codec) a)) = ExpectedJSONSizeArray a.
Proof.
  intros Hs. pose proof (array_len a) as P. apply P; [|done]. apply Forall_true. constructor.
Qed.

#[export] Instance IBCTransferCallback_exact : SizeExact IBCTransferCallback.
Proof.
  open_struct IBCTransferCallback_JSON IBCTransferCallback_codec
    IBCTransferCallback_ExpectedJSONSize.
  fields_simpl. split_hyps. rewrite coins_len by done. close_struct.
Qed.

#[export] Instance IBCDestinationCallbackMsg_exact : SizeExact IBCDestinationCallbackMsg.
Proof.
  open_struct IBCDestinationCallbackMsg_JSON IBCDestinationCallbackMsg_codec
    IBCDestinationCallbackMsg_ExpectedJSONSize.
  open_u64 IBCDestinationCallbackMsg_u64.
  fields_simpl. destruct t as [ack p [tr|]];
    cbn [IBCDestinationCallbackMsg_Ack IBCDestinationCallbackMsg_Packet
      IBCDestinationCallbackMsg_Transfer] in *;
    fields_simpl; close_struct.
Qed.

(** ** Properties *)

(** The messages for which ibc.go asserts that they implement the interface:
    those that the IBC entry points pass to a contract. *)
Inductive ibc_message :=
| MChannelOpen (m : IBCChannelOpenMsg)
| MChannelConnect (m : IBCChannelConnectMsg)
| MChannelClose (m : IBCChannelCloseMsg)
| MPacketReceive (m : IBCPacketReceiveMsg)
| MPacketAck (m : IBCPacketAckMsg)
| MPacketTimeout (m : IBCPacketTimeoutMsg)
| MSourceCallback (m : IBCSourceCallbackMsg)
| MDestinationCallback (m : IBCDestinationCallbackMsg).

Definition ibc_message_json (m : ibc_message) : json :=
  match m with
  | MChannelOpen m => to_json m
  | MChannelConnect m => to_json m
  | MChannelClose m => to_json m
  | MPacketReceive m => to_json m
  | MPacketAck m => to_json m
  | MPacketTimeout m => to_json m
  | MSourceCallback m => to_json m
  | MDestinationCallback m => to_json m
  end.
Definition ibc_message_size (m : ibc_message) : Z :=
  match m with
  | MChannelOpen m => expectedJSONSize m
  | MChannelConnect m => expectedJSONSize m
  | MChannelClose m => expectedJSONSize m
  | MPacketReceive m => expectedJSONSize m
  | MPacketAck m => expectedJSONSize m
  | MPacketTimeout m => expectedJSONSize m
  | MSourceCallback m => expectedJSONSize m
  | MDestinationCallback m => expectedJSONSize m
  end.
Definition ibc_message_u64 (m : ibc_message) : list Z :=
  match m with
  | MPacketReceive m => u64_fields m
  | MPacketAck m => u64_fields m
  | MPacketTimeout m => u64_fields m
  | MSourceCallback m => u64_fields m
  | MDestinationCallback m => u64_fields m
  | _ => []
  end.

(** C37. For every string, the length of its JSON is the prediction of
    [ExpectedJSONSizeString] plus 5 for every byte that is not part of valid
    UTF-8 and 3 for every U+2028 or U+2029: the prediction is exact for every
    valid string without line separators, and otherwise too small by the
    amount stated. *)
Theorem ExpectedJSONSizeString_error (s : string) :
  slen (string_text s) =
  ExpectedJSONSizeString s + 5 * invalid_bytes s + 3 * line_separators s.
Proof. apply string_text_len. Qed.

(** C36. For each of the eight IBC messages, [ExpectedJSONSize] is exactly the
    length of what [json.Marshal] writes, whenever the message's strings are
    valid UTF-8 without line separators (and shorter than 2^60 bytes), and
    its uint64 fields are in range. *)
Theorem ibc_message_size_exact (m : ibc_message) :
  Forall is_u64 (ibc_message_u64 m) ->
  size_exact (ibc_message_json m) = true ->
  ibc_message_size m = slen (json_text (ibc_message_json m)).
Proof.
  destruct m as [m|m|m|m|m|m|m|m]; intros Hu Hs; symmetry;
    pose proof (size_is_exact m) as P; apply P; assumption.
Qed.

Definition example_endpoint : IBCEndpoint := mkIBCEndpoint "port" "channel-1".
Definition example_packet : IBCPacket :=
  mkIBCPacket (Some "data") example_endpoint (mkIBCEndpoint "<their>" "channel-7") 15
    (mkIBCTimeout (Some (mkIBCTimeoutBlock 1 123456)) 1578939743987654321).
Lemma ibc_message_size_exact_witness :
  ibc_message_size (MPacketAck
    (mkIBCPacketAckMsg (mkIBCAcknowledgement (Some "ok")) example_packet "relayer")) = 306 /\
  slen (json_text (ibc_message_json (MPacketAck
    (mkIBCPacketAckMsg (mkIBCAcknowledgement (Some "ok")) example_packet "relayer")))) =
  ibc_message_size (MPacketAck
    (mkIBCPacketAckMsg (mkIBCAcknowledgement (Some "ok")) example_packet "relayer")).
Proof.
  split; [vm_compute; reflexivity|].
  symmetry. apply ibc_message_size_exact.
  - repeat constructor; vm_compute; congruence.
  - vm_compute. reflexivity.
Defined.

(** [ExpectedJSONSizeUint64] is the number of decimal digits, for every
    uint64 (so the loop ends). *)
Theorem ExpectedJSONSizeUint64_exact (n : Z) :
  is_u64 n -> ExpectedJSONSizeUint64 n = slen (Strconv.FormatUint n).
Proof. apply uint64_size. Qed.
Lemma ExpectedJSONSizeUint64_exact_witness :
  ExpectedJSONSizeUint64 MaxUint64 = slen (Strconv.FormatUint MaxUint64).
Proof. apply ExpectedJSONSizeUint64_exact. vm_compute. split; congruence. Defined.

(** [ExpectedJSONSizeInt] is the length of the decimal form of every
    int64 but the smallest, for which it returns 1 instead of 20: negating
    it leaves it negative and the digit loop does not run. *)
Theorem ExpectedJSONSizeInt_exact (i : Z) :
  is_i64 i ->
  ExpectedJSONSizeInt i =
  (if i =? MinInt64 then 1 else slen (Strconv.FormatInt i)) /\
  slen (Strconv.FormatInt MinInt64) = 20.
Proof.
  intros Hi. split; [|reflexivity].
  destruct (Z.eqb_spec i MinInt64) as [->|Hne]; [reflexivity|by apply int_size].
Qed.
Lemma ExpectedJSONSizeInt_exact_witness :
  ExpectedJSONSizeInt MinInt64 = 1 /\ ExpectedJSONSizeInt (-120) = 4.
Proof.
  split.
  - apply (ExpectedJSONSizeInt_exact MinInt64). vm_compute. split; congruence.
  - apply (ExpectedJSONSizeInt_exact (-120)). vm_compute. split; congruence.
Defined.

(** [ExpectedJSONSizeBinary] is the length of the quoted padded base64
    of every byte slice shorter than 2^60 bytes, and of [null] for nil: the
    rounding expression computes four characters per started group of three
    bytes. *)
Theorem ExpectedJSONSizeBinary_exact (b : bytes) :
  blen b < 2 ^ 60 ->
  ExpectedJSONSizeBinary b = slen (json_text (enc c_bytes b)) /\
  (forall s, b = Some s -> ExpectedJSONSizeBinary b = 4 * ((slen s + 2) / 3) + 2).
Proof.
  intros Hb. destruct b as [s|]; [|split; [done|discriminate]].
  split; [by rewrite binary_size|]. intros s' [= <-].
  rewrite binary_size, string_text_plain by (done || apply Base64.Encode_plain).
  rewrite slen_quote, Base64.slen_Encode. lia.
Qed.
Lemma ExpectedJSONSizeBinary_exact_witness :
  ExpectedJSONSizeBinary (Some "hello") = slen (json_text (enc c_bytes (Some "hello"))).
Proof. apply ExpectedJSONSizeBinary_exact. vm_compute. reflexivity. Defined.
