(* ===== verification/Messages.v ===== *)
(** * Messages and results of a contract call

    [types/msg.go], [types/submessages.go] and the results of [types/ibc.go]:
    what a contract returns and what it asks the chain to do.  Every struct is
    a record with its fields in the order of the source; its codec lists the
    JSON tags.  [VoteMsg] and [CosmosMsg] have readers of their own, which
    accept a field under its old and its new name. *)

From S2P Require Import Prelude GoText Json JsonParse Codec JsonText Scalars Types.

Record SendMsg := mkSendMsg {
  SendMsg_ToAddress : string;
  SendMsg_Amount : Array Coin }.
Definition SendMsg_eta (x : SendMsg) : SendMsg :=
  mkSendMsg (SendMsg_ToAddress x) (SendMsg_Amount x).
Definition SendMsg_codec : codec SendMsg :=
  c_struct (mkSendMsg EmptyString None)
  [ field! SendMsg_eta "to_address" c_string SendMsg_ToAddress;
    field! SendMsg_eta "amount" (c_Array Coin_codec) SendMsg_Amount ].
#[export] Instance SendMsg_JSON : JSONType SendMsg := SendMsg_codec.

Record BurnMsg := mkBurnMsg {
  BurnMsg_Amount : Array Coin }.
Definition BurnMsg_eta (x : BurnMsg) : BurnMsg :=
  mkBurnMsg (BurnMsg_Amount x).
Definition BurnMsg_codec : codec BurnMsg :=
  c_struct (mkBurnMsg None)
  [ field! BurnMsg_eta "amount" (c_Array Coin_codec) BurnMsg_Amount ].
#[export] Instance BurnMsg_JSON : JSONType BurnMsg := BurnMsg_codec.

Record BankMsg := mkBankMsg {
  BankMsg_Send : option SendMsg;
  BankMsg_Burn : option BurnMsg }.
Definition BankMsg_eta (x : BankMsg) : BankMsg :=
  mkBankMsg (BankMsg_Send x) (BankMsg_Burn x).
Definition BankMsg_codec : codec BankMsg :=
  c_struct (mkBankMsg None None)
  [ omitempty! BankMsg_eta "send" (c_ptr SendMsg_codec) BankMsg_Send;
    omitempty! BankMsg_eta "burn" (c_ptr BurnMsg_codec) BankMsg_Burn ].
#[export] Instance BankMsg_JSON : JSONType BankMsg := BankMsg_codec.

Record SetWithdrawAddressMsg := mkSetWithdrawAddressMsg {
  SetWithdrawAddressMsg_Address : string }.
Definition SetWithdrawAddressMsg_eta (x : SetWithdrawAddressMsg) : SetWithdrawAddressMsg :=
  mkSetWithdrawAddressMsg (SetWithdrawAddressMsg_Address x).
Definition SetWithdrawAddressMsg_codec : codec SetWithdrawAddressMsg :=
  c_struct (mkSetWithdrawAddressMsg EmptyString)
  [ field! SetWithdrawAddressMsg_eta "address" c_string SetWithdrawAddressMsg_Address ].
#[export] Instance SetWithdrawAddressMsg_JSON : JSONType SetWithdrawAddressMsg := SetWithdrawAddressMsg_codec.

Record WithdrawDelegatorRewardMsg := mkWithdrawDelegatorRewardMsg {
  WithdrawDelegatorRewardMsg_Validator : string }.
Definition WithdrawDelegatorRewardMsg_eta (x : WithdrawDelegatorRewardMsg) : WithdrawDelegatorRewardMsg :=
  mkWithdrawDelegatorRewardMsg (WithdrawDelegatorRewardMsg_Validator x).
Definition WithdrawDelegatorRewardMsg_codec : codec WithdrawDelegatorRewardMsg :=
  c_struct (mkWithdrawDelegatorRewardMsg EmptyString)
  [ field! WithdrawDelegatorRewardMsg_eta "validator" c_string WithdrawDelegatorRewardMsg_Validator ].
#[export] Instance WithdrawDelegatorRewardMsg_JSON : JSONType WithdrawDelegatorRewardMsg := WithdrawDelegatorRewardMsg_codec.

Record FundCommunityPoolMsg := mkFundCommunityPoolMsg {
  FundCommunityPoolMsg_Amount : Array Coin }.
Definition FundCommunityPoolMsg_eta (x : FundCommunityPoolMsg) : FundCommunityPoolMsg :=
  mkFundCommunityPoolMsg (FundCommunityPoolMsg_Amount x).
Definition FundCommunityPoolMsg_codec : codec FundCommunityPoolMsg :=
  c_struct (mkFundCommunityPoolMsg None)
  [ field! FundCommunityPoolMsg_eta "amount" (c_Array Coin_codec) FundCommunityPoolMsg_Amount ].
#[export] Instance FundCommunityPoolMsg_JSON : JSONType FundCommunityPoolMsg := FundCommunityPoolMsg_codec.

Record DistributionMsg := mkDistributionMsg {
  DistributionMsg_SetWithdrawAddress : option SetWithdrawAddressMsg;
  DistributionMsg_WithdrawDelegatorReward : option WithdrawDelegatorRewardMsg;
  DistributionMsg_FundCommunityPool : option FundCommunityPoolMsg }.
Definition DistributionMsg_eta (x : DistributionMsg) : DistributionMsg :=
  mkDistributionMsg (DistributionMsg_SetWithdrawAddress x)
    (DistributionMsg_WithdrawDelegatorReward x) (DistributionMsg_FundCommunityPool x).
Definition DistributionMsg_codec : codec DistributionMsg :=
  c_struct (mkDistributionMsg None None None)
  [ omitempty! DistributionMsg_eta "set_withdraw_address" (c_ptr SetWithdrawAddressMsg_codec) DistributionMsg_SetWithdrawAddress;
    omitempty! DistributionMsg_eta "withdraw_delegator_reward" (c_ptr WithdrawDelegatorRewardMsg_codec) DistributionMsg_WithdrawDelegatorReward;
    omitempty! DistributionMsg_eta "fund_community_pool" (c_ptr FundCommunityPoolMsg_codec) DistributionMsg_FundCommunityPool ].
#[export] Instance DistributionMsg_JSON : JSONType DistributionMsg := DistributionMsg_codec.

Record VoteMsg := mkVoteMsg {
  VoteMsg_ProposalId : Z;
  VoteMsg_Option : voteOption }.
Definition VoteMsg_eta (x : VoteMsg) : VoteMsg :=
  mkVoteMsg (VoteMsg_ProposalId x) (VoteMsg_Option x).
Definition VoteMsg_struct : codec VoteMsg :=
  c_struct (mkVoteMsg 0 UnsetVoteOption)
  [ field! VoteMsg_eta "proposal_id" c_uint64 VoteMsg_ProposalId;
    field! VoteMsg_eta "option" c_voteOption VoteMsg_Option ].
(** The struct with both names that [VoteMsg.UnmarshalJSON] reads into. *)
Record InternalVoteMsg := mkInternalVoteMsg {
  InternalVoteMsg_ProposalId : Z;
  InternalVoteMsg_Option : option voteOption;
  InternalVoteMsg_Vote : option voteOption }.
Definition InternalVoteMsg_eta (x : InternalVoteMsg) : InternalVoteMsg :=
  mkInternalVoteMsg (InternalVoteMsg_ProposalId x) (InternalVoteMsg_Option x)
    (InternalVoteMsg_Vote x).
Definition InternalVoteMsg_codec : codec InternalVoteMsg :=
  c_struct (mkInternalVoteMsg 0 None None)
  [ field! InternalVoteMsg_eta "proposal_id" c_uint64 InternalVoteMsg_ProposalId;
    field! InternalVoteMsg_eta "option" (c_ptr c_voteOption) InternalVoteMsg_Option;
    field! InternalVoteMsg_eta "vote" (c_ptr c_voteOption) InternalVoteMsg_Vote ].
#[export] Instance InternalVoteMsg_JSON : JSONType InternalVoteMsg := InternalVoteMsg_codec.

(** Without [option] and [vote] the last step dereferences nil. *)
Definition VoteMsg_UnmarshalJSON (data : json) : outcome (json_error + VoteMsg) :=
  let% r := unmarshal InternalVoteMsg_codec data in
  match r with
  | inl err => Ret (inl err)
  | inr tmp =>
    match InternalVoteMsg_Option tmp, InternalVoteMsg_Vote tmp with
    | Some _, Some _ =>
      Ret (inl (CustomError "invalid VoteMsg: both 'option' and 'vote' fields are set"))
    | opt, vote =>
      let opt' := match opt, vote with None, Some _ => vote | _, _ => opt end in
      let% v := deref opt' in
      Ret (inr (mkVoteMsg (InternalVoteMsg_ProposalId tmp) v))
    end
  end.

Definition VoteMsg_codec : codec VoteMsg :=
  c_custom (zero VoteMsg_struct) (enc VoteMsg_struct) (fun j _ => VoteMsg_UnmarshalJSON j)
    (fun _ => false) (wf VoteMsg_struct).
#[export] Instance VoteMsg_JSON : JSONType VoteMsg := VoteMsg_codec.

Record WeightedVoteOption := mkWeightedVoteOption {
  WeightedVoteOption_Option : voteOption;
  WeightedVoteOption_Weight : string }.
Definition WeightedVoteOption_eta (x : WeightedVoteOption) : WeightedVoteOption :=
  mkWeightedVoteOption (WeightedVoteOption_Option x) (WeightedVoteOption_Weight x).
Definition WeightedVoteOption_codec : codec WeightedVoteOption :=
  c_struct (mkWeightedVoteOption UnsetVoteOption EmptyString)
  [ field! WeightedVoteOption_eta "option" c_voteOption WeightedVoteOption_Option;
    field! WeightedVoteOption_eta "weight" c_string WeightedVoteOption_Weight ].
#[export] Instance WeightedVoteOption_JSON : JSONType WeightedVoteOption := WeightedVoteOption_codec.

Record VoteWeightedMsg := mkVoteWeightedMsg {
  VoteWeightedMsg_ProposalId : Z;
  VoteWeightedMsg_Options : option (list WeightedVoteOption) }.
Definition VoteWeightedMsg_eta (x : VoteWeightedMsg) : VoteWeightedMsg :=
  mkVoteWeightedMsg (VoteWeightedMsg_ProposalId x) (VoteWeightedMsg_Options x).
Definition VoteWeightedMsg_codec : codec VoteWeightedMsg :=
  c_struct (mkVoteWeightedMsg 0 None)
  [ field! VoteWeightedMsg_eta "proposal_id" c_uint64 VoteWeightedMsg_ProposalId;
    field! VoteWeightedMsg_eta "options" (c_slice WeightedVoteOption_codec) VoteWeightedMsg_Options ].
#[export] Instance VoteWeightedMsg_JSON : JSONType VoteWeightedMsg := VoteWeightedMsg_codec.

Record GovMsg := mkGovMsg {
  GovMsg_Vote : option VoteMsg;
  GovMsg_VoteWeighted : option VoteWeightedMsg }.
Definition GovMsg_eta (x : GovMsg) : GovMsg :=
  mkGovMsg (GovMsg_Vote x) (GovMsg_VoteWeighted x).
Definition GovMsg_codec : codec GovMsg :=
  c_struct (mkGovMsg None None)
  [ omitempty! GovMsg_eta "vote" (c_ptr VoteMsg_codec) GovMsg_Vote;
    omitempty! GovMsg_eta "vote_weighted" (c_ptr VoteWeightedMsg_codec) GovMsg_VoteWeighted ].
#[export] Instance GovMsg_JSON : JSONType GovMsg := GovMsg_codec.

Record TransferMsg := mkTransferMsg {
  TransferMsg_ChannelID : string;
  TransferMsg_ToAddress : string;
  TransferMsg_Amount : Coin;
  TransferMsg_Timeout : IBCTimeout;
  TransferMsg_Memo : string }.
Definition TransferMsg_eta (x : TransferMsg) : TransferMsg :=
  mkTransferMsg (TransferMsg_ChannelID x) (TransferMsg_ToAddress x) (TransferMsg_Amount x)
    (TransferMsg_Timeout x) (TransferMsg_Memo x).
Definition TransferMsg_codec : codec TransferMsg :=
  c_struct (mkTransferMsg EmptyString EmptyString (zero Coin_codec) (zero IBCTimeout_codec)
    EmptyString)
  [ field! TransferMsg_eta "channel_id" c_string TransferMsg_ChannelID;
    field! TransferMsg_eta "to_address" c_string TransferMsg_ToAddress;
    field! TransferMsg_eta "amount" Coin_codec TransferMsg_Amount;
    field! TransferMsg_eta "timeout" IBCTimeout_codec TransferMsg_Timeout;
    omitempty! TransferMsg_eta "memo" c_string TransferMsg_Memo ].
#[export] Instance TransferMsg_JSON : JSONType TransferMsg := TransferMsg_codec.

Record SendPacketMsg := mkSendPacketMsg {
  SendPacketMsg_ChannelID : string;
  SendPacketMsg_Data : bytes;
  SendPacketMsg_Timeout : IBCTimeout }.
Definition SendPacketMsg_eta (x : SendPacketMsg) : SendPacketMsg :=
  mkSendPacketMsg (SendPacketMsg_ChannelID x) (SendPacketMsg_Data x) (SendPacketMsg_Timeout x).
Definition SendPacketMsg_codec : codec SendPacketMsg :=
  c_struct (mkSendPacketMsg EmptyString None (zero IBCTimeout_codec))
  [ field! SendPacketMsg_eta "channel_id" c_string SendPacketMsg_ChannelID;
    field! SendPacketMsg_eta "data" c_bytes SendPacketMsg_Data;
    field! SendPacketMsg_eta "timeout" IBCTimeout_codec SendPacketMsg_Timeout ].
#[export] Instance SendPacketMsg_JSON : JSONType SendPacketMsg := SendPacketMsg_codec.

Record WriteAcknowledgementMsg := mkWriteAcknowledgementMsg {
  WriteAcknowledgementMsg_Ack : IBCAcknowledgement;
  WriteAcknowledgementMsg_ChannelID : string;
  WriteAcknowledgementMsg_PacketSequence : Z }.
Definition WriteAcknowledgementMsg_eta (x : WriteAcknowledgementMsg) : WriteAcknowledgementMsg :=
  mkWriteAcknowledgementMsg (WriteAcknowledgementMsg_Ack x)
    (WriteAcknowledgementMsg_ChannelID x) (WriteAcknowledgementMsg_PacketSequence x).
Definition WriteAcknowledgementMsg_codec : codec WriteAcknowledgementMsg :=
  c_struct (mkWriteAcknowledgementMsg (zero IBCAcknowledgement_codec) EmptyString 0)
  [ field! WriteAcknowledgementMsg_eta "ack" IBCAcknowledgement_codec WriteAcknowledgementMsg_Ack;
    field! WriteAcknowledgementMsg_eta "channel_id" c_string WriteAcknowledgementMsg_ChannelID;
    field! WriteAcknowledgementMsg_eta "packet_sequence" c_uint64 WriteAcknowledgementMsg_PacketSequence ].
#[export] Instance WriteAcknowledgementMsg_JSON : JSONType WriteAcknowledgementMsg := WriteAcknowledgementMsg_codec.

Record CloseChannelMsg := mkCloseChannelMsg {
  CloseChannelMsg_ChannelID : string }.
Definition CloseChannelMsg_eta (x : CloseChannelMsg) : CloseChannelMsg :=
  mkCloseChannelMsg (CloseChannelMsg_ChannelID x).
Definition CloseChannelMsg_codec : codec CloseChannelMsg :=
  c_struct (mkCloseChannelMsg EmptyString)
  [ field! CloseChannelMsg_eta "channel_id" c_string CloseChannelMsg_ChannelID ].
#[export] Instance CloseChannelMsg_JSON : JSONType CloseChannelMsg := CloseChannelMsg_codec.

Record IBCFee := mkIBCFee {
  IBCFee_AckFee : Array Coin;
  IBCFee_ReceiveFee : Array Coin;
  IBCFee_TimeoutFee : Array Coin }.
Definition IBCFee_eta (x : IBCFee) : IBCFee :=
  mkIBCFee (IBCFee_AckFee x) (IBCFee_ReceiveFee x) (IBCFee_TimeoutFee x).
Definition IBCFee_codec : codec IBCFee :=
  c_struct (mkIBCFee None None None)
  [ field! IBCFee_eta "ack_fee" (c_Array Coin_codec) IBCFee_AckFee;
    field! IBCFee_eta "receive_fee" (c_Array Coin_codec) IBCFee_ReceiveFee;
    field! IBCFee_eta "timeout_fee" (c_Array Coin_codec) IBCFee_TimeoutFee ].
#[export] Instance IBCFee_JSON : JSONType IBCFee := IBCFee_codec.

Record PayPacketFeeMsg := mkPayPacketFeeMsg {
  PayPacketFeeMsg_ChannelID : string;
  PayPacketFeeMsg_Fee : IBCFee;
  PayPacketFeeMsg_PortID : string;
  PayPacketFeeMsg_Relayers : Array string }.
Definition PayPacketFeeMsg_eta (x : PayPacketFeeMsg) : PayPacketFeeMsg :=
  mkPayPacketFeeMsg (PayPacketFeeMsg_ChannelID x) (PayPacketFeeMsg_Fee x)
    (PayPacketFeeMsg_PortID x) (PayPacketFeeMsg_Relayers x).
Definition PayPacketFeeMsg_codec : codec PayPacketFeeMsg :=
  c_struct (mkPayPacketFeeMsg EmptyString (zero IBCFee_codec) EmptyString None)
  [ field! PayPacketFeeMsg_eta "channel_id" c_string PayPacketFeeMsg_ChannelID;
    field! PayPacketFeeMsg_eta "fee" IBCFee_codec PayPacketFeeMsg_Fee;
    field! PayPacketFeeMsg_eta "port_id" c_string PayPacketFeeMsg_PortID;
    field! PayPacketFeeMsg_eta "relayers" (c_Array c_string) PayPacketFeeMsg_Relayers ].
#[export] Instance PayPacketFeeMsg_JSON : JSONType PayPacketFeeMsg := PayPacketFeeMsg_codec.

Record PayPacketFeeAsyncMsg := mkPayPacketFeeAsyncMsg {
  PayPacketFeeAsyncMsg_ChannelID : string;
  PayPacketFeeAsyncMsg_Fee : IBCFee;
  PayPacketFeeAsyncMsg_PortID : string;
  PayPacketFeeAsyncMsg_Relayers : Array string;
  PayPacketFeeAsyncMsg_Sequence : Z }.
Definition PayPacketFeeAsyncMsg_eta (x : PayPacketFeeAsyncMsg) : PayPacketFeeAsyncMsg :=
  mkPayPacketFeeAsyncMsg (PayPacketFeeAsyncMsg_ChannelID x) (PayPacketFeeAsyncMsg_Fee x)
    (PayPacketFeeAsyncMsg_PortID x) (PayPacketFeeAsyncMsg_Relayers x)
    (PayPacketFeeAsyncMsg_Sequence x).
Definition PayPacketFeeAsyncMsg_codec : codec PayPacketFeeAsyncMsg :=
  c_struct (mkPayPacketFeeAsyncMsg EmptyString (zero IBCFee_codec) EmptyString None 0)
  [ field! PayPacketFeeAsyncMsg_eta "channel_id" c_string PayPacketFeeAsyncMsg_ChannelID;
    field! PayPacketFeeAsyncMsg_eta "fee" IBCFee_codec PayPacketFeeAsyncMsg_Fee;
    field! PayPacketFeeAsyncMsg_eta "port_id" c_string PayPacketFeeAsyncMsg_PortID;
    field! PayPacketFeeAsyncMsg_eta "relayers" (c_Array c_string) PayPacketFeeAsyncMsg_Relayers;
    field! PayPacketFeeAsyncMsg_eta "sequence" c_uint64 PayPacketFeeAsyncMsg_Sequence ].
#[export] Instance PayPacketFeeAsyncMsg_JSON : JSONType PayPacketFeeAsyncMsg := PayPacketFeeAsyncMsg_codec.

Record IBCMsg := mkIBCMsg {
  IBCMsg_Transfer : option TransferMsg;
  IBCMsg_SendPacket : option SendPacketMsg;
  IBCMsg_WriteAcknowledgement : option WriteAcknowledgementMsg;
  IBCMsg_CloseChannel : option CloseChannelMsg;
  IBCMsg_PayPacketFee : option PayPacketFeeMsg;
  IBCMsg_PayPacketFeeAsync : option PayPacketFeeAsyncMsg }.
Definition IBCMsg_eta (x : IBCMsg) : IBCMsg :=
  mkIBCMsg (IBCMsg_Transfer x) (IBCMsg_SendPacket x) (IBCMsg_WriteAcknowledgement x)
    (IBCMsg_CloseChannel x) (IBCMsg_PayPacketFee x) (IBCMsg_PayPacketFeeAsync x).
Definition IBCMsg_codec : codec IBCMsg :=
  c_struct (mkIBCMsg None None None None None None)
  [ omitempty! IBCMsg_eta "transfer" (c_ptr TransferMsg_codec) IBCMsg_Transfer;
    omitempty! IBCMsg_eta "send_packet" (c_ptr SendPacketMsg_codec) IBCMsg_SendPacket;
    omitempty! IBCMsg_eta "write_acknowledgement" (c_ptr WriteAcknowledgementMsg_codec) IBCMsg_WriteAcknowledgement;
    omitempty! IBCMsg_eta "close_channel" (c_ptr CloseChannelMsg_codec) IBCMsg_CloseChannel;
    omitempty! IBCMsg_eta "pay_packet_fee" (c_ptr PayPacketFeeMsg_codec) IBCMsg_PayPacketFee;
    omitempty! IBCMsg_eta "pay_packet_fee_async" (c_ptr PayPacketFeeAsyncMsg_codec) IBCMsg_PayPacketFeeAsync ].
#[export] Instance IBCMsg_JSON : JSONType IBCMsg := IBCMsg_codec.

Record DelegateMsg := mkDelegateMsg {
  DelegateMsg_Validator : string;
  DelegateMsg_Amount : Coin }.
Definition DelegateMsg_eta (x : DelegateMsg) : DelegateMsg :=
  mkDelegateMsg (DelegateMsg_Validator x) (DelegateMsg_Amount x).
Definition DelegateMsg_codec : codec DelegateMsg :=
  c_struct (mkDelegateMsg EmptyString (zero Coin_codec))
  [ field! DelegateMsg_eta "validator" c_string DelegateMsg_Validator;
    field! DelegateMsg_eta "amount" Coin_codec DelegateMsg_Amount ].
#[export] Instance DelegateMsg_JSON : JSONType DelegateMsg := DelegateMsg_codec.

Record UndelegateMsg := mkUndelegateMsg {
  UndelegateMsg_Validator : string;
  UndelegateMsg_Amount : Coin }.
Definition UndelegateMsg_eta (x : UndelegateMsg) : UndelegateMsg :=
  mkUndelegateMsg (UndelegateMsg_Validator x) (UndelegateMsg_Amount x).
Definition UndelegateMsg_codec : codec UndelegateMsg :=
  c_struct (mkUndelegateMsg EmptyString (zero Coin_codec))
  [ field! UndelegateMsg_eta "validator" c_string UndelegateMsg_Validator;
    field! UndelegateMsg_eta "amount" Coin_codec UndelegateMsg_Amount ].
#[export] Instance UndelegateMsg_JSON : JSONType UndelegateMsg := UndelegateMsg_codec.

Record RedelegateMsg := mkRedelegateMsg {
  RedelegateMsg_SrcValidator : string;
  RedelegateMsg_DstValidator : string;
  RedelegateMsg_Amount : Coin }.
Definition RedelegateMsg_eta (x : RedelegateMsg) : RedelegateMsg :=
  mkRedelegateMsg (RedelegateMsg_SrcValidator x) (RedelegateMsg_DstValidator x)
    (RedelegateMsg_Amount x).
Definition RedelegateMsg_codec : codec RedelegateMsg :=
  c_struct (mkRedelegateMsg EmptyString EmptyString (zero Coin_codec))
  [ field! RedelegateMsg_eta "src_validator" c_string RedelegateMsg_SrcValidator;
    field! RedelegateMsg_eta "dst_validator" c_string RedelegateMsg_DstValidator;
    field! RedelegateMsg_eta "amount" Coin_codec RedelegateMsg_Amount ].
#[export] Instance RedelegateMsg_JSON : JSONType RedelegateMsg := RedelegateMsg_codec.

Record StakingMsg := mkStakingMsg {
  StakingMsg_Delegate : option DelegateMsg;
  StakingMsg_Undelegate : option UndelegateMsg;
  StakingMsg_Redelegate : option RedelegateMsg }.
Definition StakingMsg_eta (x : StakingMsg) : StakingMsg :=
  mkStakingMsg (StakingMsg_Delegate x) (StakingMsg_Undelegate x) (StakingMsg_Redelegate x).
Definition StakingMsg_codec : codec StakingMsg :=
  c_struct (mkStakingMsg None None None)
  [ omitempty! StakingMsg_eta "delegate" (c_ptr DelegateMsg_codec) StakingMsg_Delegate;
    omitempty! StakingMsg_eta "undelegate" (c_ptr UndelegateMsg_codec) StakingMsg_Undelegate;
    omitempty! StakingMsg_eta "redelegate" (c_ptr RedelegateMsg_codec) StakingMsg_Redelegate ].
#[export] Instance StakingMsg_JSON : JSONType StakingMsg := StakingMsg_codec.

Record AnyMsg := mkAnyMsg {
  AnyMsg_TypeURL : string;
  AnyMsg_Value : bytes }.
Definition AnyMsg_eta (x : AnyMsg) : AnyMsg :=
  mkAnyMsg (AnyMsg_TypeURL x) (AnyMsg_Value x).
Definition AnyMsg_codec : codec AnyMsg :=
  c_struct (mkAnyMsg EmptyString None)
  [ field! AnyMsg_eta "type_url" c_string AnyMsg_TypeURL;
    field! AnyMsg_eta "value" c_bytes AnyMsg_Value ].
#[export] Instance AnyMsg_JSON : JSONType AnyMsg := AnyMsg_codec.

Record ExecuteMsg := mkExecuteMsg {
  ExecuteMsg_ContractAddr : string;
  ExecuteMsg_Msg : bytes;
  ExecuteMsg_Funds : Array Coin }.
Definition ExecuteMsg_eta (x : ExecuteMsg) : ExecuteMsg :=
  mkExecuteMsg (ExecuteMsg_ContractAddr x) (ExecuteMsg_Msg x) (ExecuteMsg_Funds x).
Definition ExecuteMsg_codec : codec ExecuteMsg :=
  c_struct (mkExecuteMsg EmptyString None None)
  [ field! ExecuteMsg_eta "contract_addr" c_string ExecuteMsg_ContractAddr;
    field! ExecuteMsg_eta "msg" c_bytes ExecuteMsg_Msg;
    field! ExecuteMsg_eta "funds" (c_Array Coin_codec) ExecuteMsg_Funds ].
#[export] Instance ExecuteMsg_JSON : JSONType ExecuteMsg := ExecuteMsg_codec.

Record InstantiateMsg := mkInstantiateMsg {
  InstantiateMsg_CodeID : Z;
  InstantiateMsg_Msg : bytes;
  InstantiateMsg_Funds : Array Coin;
  InstantiateMsg_Label : string;
  InstantiateMsg_Admin : string }.
Definition InstantiateMsg_eta (x : InstantiateMsg) : InstantiateMsg :=
  mkInstantiateMsg (InstantiateMsg_CodeID x) (InstantiateMsg_Msg x) (InstantiateMsg_Funds x)
    (InstantiateMsg_Label x) (InstantiateMsg_Admin x).
Definition InstantiateMsg_codec : codec InstantiateMsg :=
  c_struct (mkInstantiateMsg 0 None None EmptyString EmptyString)
  [ field! InstantiateMsg_eta "code_id" c_uint64 InstantiateMsg_CodeID;
    field! InstantiateMsg_eta "msg" c_bytes InstantiateMsg_Msg;
    field! InstantiateMsg_eta "funds" (c_Array Coin_codec) InstantiateMsg_Funds;
    field! InstantiateMsg_eta "label" c_string InstantiateMsg_Label;
    omitempty! InstantiateMsg_eta "admin" c_string InstantiateMsg_Admin ].
#[export] Instance InstantiateMsg_JSON : JSONType InstantiateMsg := InstantiateMsg_codec.

Record Instantiate2Msg := mkInstantiate2Msg {
  Instantiate2Msg_CodeID : Z;
  Instantiate2Msg_Msg : bytes;
  Instantiate2Msg_Funds : Array Coin;
  Instantiate2Msg_Label : string;
  Instantiate2Msg_Admin : string;
  Instantiate2Msg_Salt : bytes }.
Definition Instantiate2Msg_eta (x : Instantiate2Msg) : Instantiate2Msg :=
  mkInstantiate2Msg (Instantiate2Msg_CodeID x) (Instantiate2Msg_Msg x) (Instantiate2Msg_Funds x)
    (Instantiate2Msg_Label x) (Instantiate2Msg_Admin x) (Instantiate2Msg_Salt x).
Definition Instantiate2Msg_codec : codec Instantiate2Msg :=
  c_struct (mkInstantiate2Msg 0 None None EmptyString EmptyString None)
  [ field! Instantiate2Msg_eta "code_id" c_uint64 Instantiate2Msg_CodeID;
    field! Instantiate2Msg_eta "msg" c_bytes Instantiate2Msg_Msg;
    field! Instantiate2Msg_eta "funds" (c_Array Coin_codec) Instantiate2Msg_Funds;
    field! Instantiate2Msg_eta "label" c_string Instantiate2Msg_Label;
    omitempty! Instantiate2Msg_eta "admin" c_string Instantiate2Msg_Admin;
    field! Instantiate2Msg_eta "salt" c_bytes Instantiate2Msg_Salt ].
#[export] Instance Instantiate2Msg_JSON : JSONType Instantiate2Msg := Instantiate2Msg_codec.

Record MigrateMsg := mkMigrateMsg {
  MigrateMsg_ContractAddr : string;
  MigrateMsg_NewCodeID : Z;
  MigrateMsg_Msg : bytes }.
Definition MigrateMsg_eta (x : MigrateMsg) : MigrateMsg :=
  mkMigrateMsg (MigrateMsg_ContractAddr x) (MigrateMsg_NewCodeID x) (MigrateMsg_Msg x).
Definition MigrateMsg_codec : codec MigrateMsg :=
  c_struct (mkMigrateMsg EmptyString 0 None)
  [ field! MigrateMsg_eta "contract_addr" c_string MigrateMsg_ContractAddr;
    field! MigrateMsg_eta "new_code_id" c_uint64 MigrateMsg_NewCodeID;
    field! MigrateMsg_eta "msg" c_bytes MigrateMsg_Msg ].
#[export] Instance MigrateMsg_JSON : JSONType MigrateMsg := MigrateMsg_codec.

Record UpdateAdminMsg := mkUpdateAdminMsg {
  UpdateAdminMsg_ContractAddr : string;
  UpdateAdminMsg_Admin : string }.
Definition UpdateAdminMsg_eta (x : UpdateAdminMsg) : UpdateAdminMsg :=
  mkUpdateAdminMsg (UpdateAdminMsg_ContractAddr x) (UpdateAdminMsg_Admin x).
Definition UpdateAdminMsg_codec : codec UpdateAdminMsg :=
  c_struct (mkUpdateAdminMsg EmptyString EmptyString)
  [ field! UpdateAdminMsg_eta "contract_addr" c_string UpdateAdminMsg_ContractAddr;
    field! UpdateAdminMsg_eta "admin" c_string UpdateAdminMsg_Admin ].
#[export] Instance UpdateAdminMsg_JSON : JSONType UpdateAdminMsg := UpdateAdminMsg_codec.

Record ClearAdminMsg := mkClearAdminMsg {
  ClearAdminMsg_ContractAddr : string }.
Definition ClearAdminMsg_eta (x : ClearAdminMsg) : ClearAdminMsg :=
  mkClearAdminMsg (ClearAdminMsg_ContractAddr x).
Definition ClearAdminMsg_codec : codec ClearAdminMsg :=
  c_struct (mkClearAdminMsg EmptyString)
  [ field! ClearAdminMsg_eta "contract_addr" c_string ClearAdminMsg_ContractAddr ].
#[export] Instance ClearAdminMsg_JSON : JSONType ClearAdminMsg := ClearAdminMsg_codec.

Record WasmMsg := mkWasmMsg {
  WasmMsg_Execute : option ExecuteMsg;
  WasmMsg_Instantiate : option InstantiateMsg;
  WasmMsg_Instantiate2 : option Instantiate2Msg;
  WasmMsg_Migrate : option MigrateMsg;
  WasmMsg_UpdateAdmin : option UpdateAdminMsg;
  WasmMsg_ClearAdmin : option ClearAdminMsg }.
Definition WasmMsg_eta (x : WasmMsg) : WasmMsg :=
  mkWasmMsg (WasmMsg_Execute x) (WasmMsg_Instantiate x) (WasmMsg_Instantiate2 x)
    (WasmMsg_Migrate x) (WasmMsg_UpdateAdmin x) (WasmMsg_ClearAdmin x).
Definition WasmMsg_codec : codec WasmMsg :=
  c_struct (mkWasmMsg None None None None None None)
  [ omitempty! WasmMsg_eta "execute" (c_ptr ExecuteMsg_codec) WasmMsg_Execute;
    omitempty! WasmMsg_eta "instantiate" (c_ptr InstantiateMsg_codec) WasmMsg_Instantiate;
    omitempty! WasmMsg_eta "instantiate2" (c_ptr Instantiate2Msg_codec) WasmMsg_Instantiate2;
    omitempty! WasmMsg_eta "migrate" (c_ptr MigrateMsg_codec) WasmMsg_Migrate;
    omitempty! WasmMsg_eta "update_admin" (c_ptr UpdateAdminMsg_codec) WasmMsg_UpdateAdmin;
    omitempty! WasmMsg_eta "clear_admin" (c_ptr ClearAdminMsg_codec) WasmMsg_ClearAdmin ].
#[export] Instance WasmMsg_JSON : JSONType WasmMsg := WasmMsg_codec.

Record IBC2SendPacketMsg := mkIBC2SendPacketMsg {
  IBC2SendPacketMsg_SourceClient : string;
  IBC2SendPacketMsg_Payloads : option (list IBC2Payload);
  IBC2SendPacketMsg_Timeout : Z }.
Definition IBC2SendPacketMsg_eta (x : IBC2SendPacketMsg) : IBC2SendPacketMsg :=
  mkIBC2SendPacketMsg (IBC2SendPacketMsg_SourceClient x) (IBC2SendPacketMsg_Payloads x)
    (IBC2SendPacketMsg_Timeout x).
Definition IBC2SendPacketMsg_codec : codec IBC2SendPacketMsg :=
  c_struct (mkIBC2SendPacketMsg EmptyString None 0)
  [ field! IBC2SendPacketMsg_eta "source_client" c_string IBC2SendPacketMsg_SourceClient;
    field! IBC2SendPacketMsg_eta "payloads" (c_slice IBC2Payload_codec) IBC2SendPacketMsg_Payloads;
    omitempty! IBC2SendPacketMsg_eta "timeout" c_uint64_string IBC2SendPacketMsg_Timeout ].
#[export] Instance IBC2SendPacketMsg_JSON : JSONType IBC2SendPacketMsg := IBC2SendPacketMsg_codec.

Record IBC2WriteAcknowledgementMsg := mkIBC2WriteAcknowledgementMsg {
  IBC2WriteAcknowledgementMsg_Ack : IBCAcknowledgement;
  IBC2WriteAcknowledgementMsg_SourceClient : string;
  IBC2WriteAcknowledgementMsg_DestinationClient : string;
  IBC2WriteAcknowledgementMsg_PacketSequence : Z }.
Definition IBC2WriteAcknowledgementMsg_eta (x : IBC2WriteAcknowledgementMsg) : IBC2WriteAcknowledgementMsg :=
  mkIBC2WriteAcknowledgementMsg (IBC2WriteAcknowledgementMsg_Ack x)
    (IBC2WriteAcknowledgementMsg_SourceClient x)
    (IBC2WriteAcknowledgementMsg_DestinationClient x)
    (IBC2WriteAcknowledgementMsg_PacketSequence x).
Definition IBC2WriteAcknowledgementMsg_codec : codec IBC2WriteAcknowledgementMsg :=
  c_struct (mkIBC2WriteAcknowledgementMsg (zero IBCAcknowledgement_codec) EmptyString
    EmptyString 0)
  [ field! IBC2WriteAcknowledgementMsg_eta "ack" IBCAcknowledgement_codec IBC2WriteAcknowledgementMsg_Ack;
    field! IBC2WriteAcknowledgementMsg_eta "source_client" c_string IBC2WriteAcknowledgementMsg_SourceClient;
    field! IBC2WriteAcknowledgementMsg_eta "destination_client" c_string IBC2WriteAcknowledgementMsg_DestinationClient;
    field! IBC2WriteAcknowledgementMsg_eta "packet_sequence" c_uint64 IBC2WriteAcknowledgementMsg_PacketSequence ].
#[export] Instance IBC2WriteAcknowledgementMsg_JSON : JSONType IBC2WriteAcknowledgementMsg := IBC2WriteAcknowledgementMsg_codec.

Record IBC2Msg := mkIBC2Msg {
  IBC2Msg_SendPacket : option IBC2SendPacketMsg;
  IBC2Msg_WriteAcknowledgement : option IBC2WriteAcknowledgementMsg }.
Definition IBC2Msg_eta (x : IBC2Msg) : IBC2Msg :=
  mkIBC2Msg (IBC2Msg_SendPacket x) (IBC2Msg_WriteAcknowledgement x).
Definition IBC2Msg_codec : codec IBC2Msg :=
  c_struct (mkIBC2Msg None None)
  [ omitempty! IBC2Msg_eta "send_packet" (c_ptr IBC2SendPacketMsg_codec) IBC2Msg_SendPacket;
    omitempty! IBC2Msg_eta "write_acknowledgement" (c_ptr IBC2WriteAcknowledgementMsg_codec) IBC2Msg_WriteAcknowledgement ].
#[export] Instance IBC2Msg_JSON : JSONType IBC2Msg := IBC2Msg_codec.

Record CosmosMsg := mkCosmosMsg {
  CosmosMsg_Bank : option BankMsg;
  CosmosMsg_Custom : bytes;
  CosmosMsg_Distribution : option DistributionMsg;
  CosmosMsg_Gov : option GovMsg;
  CosmosMsg_IBC : option IBCMsg;
  CosmosMsg_Staking : option StakingMsg;
  CosmosMsg_Any : option AnyMsg;
  CosmosMsg_Wasm : option WasmMsg;
  CosmosMsg_IBC2 : option IBC2Msg }.
Definition CosmosMsg_eta (x : CosmosMsg) : CosmosMsg :=
  mkCosmosMsg (CosmosMsg_Bank x) (CosmosMsg_Custom x) (CosmosMsg_Distribution x)
    (CosmosMsg_Gov x) (CosmosMsg_IBC x) (CosmosMsg_Staking x) (CosmosMsg_Any x)
    (CosmosMsg_Wasm x) (CosmosMsg_IBC2 x).
Definition CosmosMsg_struct : codec CosmosMsg :=
  c_struct (mkCosmosMsg None None None None None None None None None)
  [ omitempty! CosmosMsg_eta "bank" (c_ptr BankMsg_codec) CosmosMsg_Bank;
    omitempty! CosmosMsg_eta "custom" c_raw CosmosMsg_Custom;
    omitempty! CosmosMsg_eta "distribution" (c_ptr DistributionMsg_codec) CosmosMsg_Distribution;
    omitempty! CosmosMsg_eta "gov" (c_ptr GovMsg_codec) CosmosMsg_Gov;
    omitempty! CosmosMsg_eta "ibc" (c_ptr IBCMsg_codec) CosmosMsg_IBC;
    omitempty! CosmosMsg_eta "staking" (c_ptr StakingMsg_codec) CosmosMsg_Staking;
    omitempty! CosmosMsg_eta "any" (c_ptr AnyMsg_codec) CosmosMsg_Any;
    omitempty! CosmosMsg_eta "wasm" (c_ptr WasmMsg_codec) CosmosMsg_Wasm;
    omitempty! CosmosMsg_eta "ibc2" (c_ptr IBC2Msg_codec) CosmosMsg_IBC2 ].
(** The struct with both variants that [CosmosMsg.UnmarshalJSON] reads into. *)
Record InternalCosmosMsg := mkInternalCosmosMsg {
  InternalCosmosMsg_Bank : option BankMsg;
  InternalCosmosMsg_Custom : bytes;
  InternalCosmosMsg_Distribution : option DistributionMsg;
  InternalCosmosMsg_Gov : option GovMsg;
  InternalCosmosMsg_IBC : option IBCMsg;
  InternalCosmosMsg_Staking : option StakingMsg;
  InternalCosmosMsg_Any : option AnyMsg;
  InternalCosmosMsg_Wasm : option WasmMsg;
  InternalCosmosMsg_Stargate : option AnyMsg;
  InternalCosmosMsg_IBC2 : option IBC2Msg }.
Definition InternalCosmosMsg_eta (x : InternalCosmosMsg) : InternalCosmosMsg :=
  mkInternalCosmosMsg (InternalCosmosMsg_Bank x) (InternalCosmosMsg_Custom x)
    (InternalCosmosMsg_Distribution x) (InternalCosmosMsg_Gov x) (InternalCosmosMsg_IBC x)
    (InternalCosmosMsg_Staking x) (InternalCosmosMsg_Any x) (InternalCosmosMsg_Wasm x)
    (InternalCosmosMsg_Stargate x) (InternalCosmosMsg_IBC2 x).
Definition InternalCosmosMsg_codec : codec InternalCosmosMsg :=
  c_struct (mkInternalCosmosMsg None None None None None None None None None None)
  [ omitempty! InternalCosmosMsg_eta "bank" (c_ptr BankMsg_codec) InternalCosmosMsg_Bank;
    omitempty! InternalCosmosMsg_eta "custom" c_raw InternalCosmosMsg_Custom;
    omitempty! InternalCosmosMsg_eta "distribution" (c_ptr DistributionMsg_codec) InternalCosmosMsg_Distribution;
    omitempty! InternalCosmosMsg_eta "gov" (c_ptr GovMsg_codec) InternalCosmosMsg_Gov;
    omitempty! InternalCosmosMsg_eta "ibc" (c_ptr IBCMsg_codec) InternalCosmosMsg_IBC;
    omitempty! InternalCosmosMsg_eta "staking" (c_ptr StakingMsg_codec) InternalCosmosMsg_Staking;
    omitempty! InternalCosmosMsg_eta "any" (c_ptr AnyMsg_codec) InternalCosmosMsg_Any;
    omitempty! InternalCosmosMsg_eta "wasm" (c_ptr WasmMsg_codec) InternalCosmosMsg_Wasm;
    omitempty! InternalCosmosMsg_eta "stargate" (c_ptr AnyMsg_codec) InternalCosmosMsg_Stargate;
    omitempty! InternalCosmosMsg_eta "ibc2" (c_ptr IBC2Msg_codec) InternalCosmosMsg_IBC2 ].
#[export] Instance InternalCosmosMsg_JSON : JSONType InternalCosmosMsg := InternalCosmosMsg_codec.

Definition CosmosMsg_UnmarshalJSON (data : json) : outcome (json_error + CosmosMsg) :=
  let% r := unmarshal InternalCosmosMsg_codec data in
  match r with
  | inl err => Ret (inl err)
  | inr tmp =>
    match InternalCosmosMsg_Any tmp, InternalCosmosMsg_Stargate tmp with
    | Some _, Some _ =>
      Ret (inl (CustomError "invalid CosmosMsg: both 'any' and 'stargate' fields are set"))
    | any, stargate =>
      let any' := match any, stargate with None, Some _ => stargate | _, _ => any end in
      Ret (inr (mkCosmosMsg (InternalCosmosMsg_Bank tmp) (InternalCosmosMsg_Custom tmp)
        (InternalCosmosMsg_Distribution tmp) (InternalCosmosMsg_Gov tmp)
        (InternalCosmosMsg_IBC tmp) (InternalCosmosMsg_Staking tmp) any'
        (InternalCosmosMsg_Wasm tmp) (InternalCosmosMsg_IBC2 tmp)))
    end
  end.

Definition CosmosMsg_codec : codec CosmosMsg :=
  c_custom (zero CosmosMsg_struct) (enc CosmosMsg_struct) (fun j _ => CosmosMsg_UnmarshalJSON j)
    (fun _ => false) (wf CosmosMsg_struct).
#[export] Instance CosmosMsg_JSON : JSONType CosmosMsg := CosmosMsg_codec.

Record SubMsg := mkSubMsg {
  SubMsg_ID : Z;
  SubMsg_Msg : CosmosMsg;
  SubMsg_Payload : bytes;
  SubMsg_GasLimit : option Z;
  SubMsg_ReplyOn : replyOn }.
Definition SubMsg_eta (x : SubMsg) : SubMsg :=
  mkSubMsg (SubMsg_ID x) (SubMsg_Msg x) (SubMsg_Payload x) (SubMsg_GasLimit x)
    (SubMsg_ReplyOn x).
Definition SubMsg_codec : codec SubMsg :=
  c_struct (mkSubMsg 0 (zero CosmosMsg_codec) None None UnsetReplyOn)
  [ field! SubMsg_eta "id" c_uint64 SubMsg_ID;
    field! SubMsg_eta "msg" CosmosMsg_codec SubMsg_Msg;
    omitempty! SubMsg_eta "payload" c_bytes SubMsg_Payload;
    omitempty! SubMsg_eta "gas_limit" (c_ptr c_uint64) SubMsg_GasLimit;
    field! SubMsg_eta "reply_on" c_replyOn SubMsg_ReplyOn ].
#[export] Instance SubMsg_JSON : JSONType SubMsg := SubMsg_codec.

Record EventAttribute := mkEventAttribute {
  EventAttribute_Key : string;
  EventAttribute_Value : string }.
Definition EventAttribute_eta (x : EventAttribute) : EventAttribute :=
  mkEventAttribute (EventAttribute_Key x) (EventAttribute_Value x).
Definition EventAttribute_codec : codec EventAttribute :=
  c_struct (mkEventAttribute EmptyString EmptyString)
  [ field! EventAttribute_eta "key" c_string EventAttribute_Key;
    field! EventAttribute_eta "value" c_string EventAttribute_Value ].
#[export] Instance EventAttribute_JSON : JSONType EventAttribute := EventAttribute_codec.

Record Event := mkEvent {
  Event_Type : string;
  Event_Attributes : Array EventAttribute }.
Definition Event_eta (x : Event) : Event :=
  mkEvent (Event_Type x) (Event_Attributes x).
Definition Event_codec : codec Event :=
  c_struct (mkEvent EmptyString None)
  [ field! Event_eta "type" c_string Event_Type;
    field! Event_eta "attributes" (c_Array EventAttribute_codec) Event_Attributes ].
#[export] Instance Event_JSON : JSONType Event := Event_codec.

Record Response := mkResponse {
  Response_Messages : option (list SubMsg);
  Response_Data : bytes;
  Response_Attributes : option (list EventAttribute);
  Response_Events : option (list Event) }.
Definition Response_eta (x : Response) : Response :=
  mkResponse (Response_Messages x) (Response_Data x) (Response_Attributes x)
    (Response_Events x).
Definition Response_codec : codec Response :=
  c_struct (mkResponse None None None None)
  [ field! Response_eta "messages" (c_slice SubMsg_codec) Response_Messages;
    field! Response_eta "data" c_bytes Response_Data;
    field! Response_eta "attributes" (c_slice EventAttribute_codec) Response_Attributes;
    field! Response_eta "events" (c_slice Event_codec) Response_Events ].
#[export] Instance Response_JSON : JSONType Response := Response_codec.

Record ContractResult := mkContractResult {
  ContractResult_Ok : option Response;
  ContractResult_Err : string }.
Definition ContractResult_eta (x : ContractResult) : ContractResult :=
  mkContractResult (ContractResult_Ok x) (ContractResult_Err x).
Definition ContractResult_codec : codec ContractResult :=
  c_struct (mkContractResult None EmptyString)
  [ omitempty! ContractResult_eta "ok" (c_ptr Response_codec) ContractResult_Ok;
    omitempty! ContractResult_eta "error" c_string ContractResult_Err ].
#[export] Instance ContractResult_JSON : JSONType ContractResult := ContractResult_codec.

Record MsgResponse := mkMsgResponse {
  MsgResponse_TypeURL : string;
  MsgResponse_Value : bytes }.
Definition MsgResponse_eta (x : MsgResponse) : MsgResponse :=
  mkMsgResponse (MsgResponse_TypeURL x) (MsgResponse_Value x).
Definition MsgResponse_codec : codec MsgResponse :=
  c_struct (mkMsgResponse EmptyString None)
  [ field! MsgResponse_eta "type_url" c_string MsgResponse_TypeURL;
    field! MsgResponse_eta "value" c_bytes MsgResponse_Value ].
#[export] Instance MsgResponse_JSON : JSONType MsgResponse := MsgResponse_codec.

Record SubMsgResponse := mkSubMsgResponse {
  SubMsgResponse_Events : Array Event;
  SubMsgResponse_Data : bytes;
  SubMsgResponse_MsgResponses : Array MsgResponse }.
Definition SubMsgResponse_eta (x : SubMsgResponse) : SubMsgResponse :=
  mkSubMsgResponse (SubMsgResponse_Events x) (SubMsgResponse_Data x)
    (SubMsgResponse_MsgResponses x).
Definition SubMsgResponse_codec : codec SubMsgResponse :=
  c_struct (mkSubMsgResponse None None None)
  [ field! SubMsgResponse_eta "events" (c_Array Event_codec) SubMsgResponse_Events;
    omitempty! SubMsgResponse_eta "data" c_bytes SubMsgResponse_Data;
    field! SubMsgResponse_eta "msg_responses" (c_Array MsgResponse_codec) SubMsgResponse_MsgResponses ].
#[export] Instance SubMsgResponse_JSON : JSONType SubMsgResponse := SubMsgResponse_codec.

Record SubMsgResult := mkSubMsgResult {
  SubMsgResult_Ok : option SubMsgResponse;
  SubMsgResult_Err : string }.
Definition SubMsgResult_eta (x : SubMsgResult) : SubMsgResult :=
  mkSubMsgResult (SubMsgResult_Ok x) (SubMsgResult_Err x).
Definition SubMsgResult_codec : codec SubMsgResult :=
  c_struct (mkSubMsgResult None EmptyString)
  [ omitempty! SubMsgResult_eta "ok" (c_ptr SubMsgResponse_codec) SubMsgResult_Ok;
    omitempty! SubMsgResult_eta "error" c_string SubMsgResult_Err ].
#[export] Instance SubMsgResult_JSON : JSONType SubMsgResult := SubMsgResult_codec.

Record Reply := mkReply {
  Reply_GasUsed : Z;
  Reply_ID : Z;
  Reply_Result : SubMsgResult;
  Reply_Payload : bytes }.
Definition Reply_eta (x : Reply) : Reply :=
  mkReply (Reply_GasUsed x) (Reply_ID x) (Reply_Result x) (Reply_Payload x).
Definition Reply_codec : codec Reply :=
  c_struct (mkReply 0 0 (zero SubMsgResult_codec) None)
  [ field! Reply_eta "gas_used" c_uint64 Reply_GasUsed;
    field! Reply_eta "id" c_uint64 Reply_ID;
    field! Reply_eta "result" SubMsgResult_codec Reply_Result;
    omitempty! Reply_eta "payload" c_bytes Reply_Payload ].
#[export] Instance Reply_JSON : JSONType Reply := Reply_codec.

Record IBC3ChannelOpenResponse := mkIBC3ChannelOpenResponse {
  IBC3ChannelOpenResponse_Version : string }.
Definition IBC3ChannelOpenResponse_eta (x : IBC3ChannelOpenResponse) : IBC3ChannelOpenResponse :=
  mkIBC3ChannelOpenResponse (IBC3ChannelOpenResponse_Version x).
Definition IBC3ChannelOpenResponse_codec : codec IBC3ChannelOpenResponse :=
  c_struct (mkIBC3ChannelOpenResponse EmptyString)
  [ field! IBC3ChannelOpenResponse_eta "version" c_string IBC3ChannelOpenResponse_Version ].
#[export] Instance IBC3ChannelOpenResponse_JSON : JSONType IBC3ChannelOpenResponse := IBC3ChannelOpenResponse_codec.

Record IBCChannelOpenResult := mkIBCChannelOpenResult {
  IBCChannelOpenResult_Ok : option IBC3ChannelOpenResponse;
  IBCChannelOpenResult_Err : string }.
Definition IBCChannelOpenResult_eta (x : IBCChannelOpenResult) : IBCChannelOpenResult :=
  mkIBCChannelOpenResult (IBCChannelOpenResult_Ok x) (IBCChannelOpenResult_Err x).
Definition IBCChannelOpenResult_codec : codec IBCChannelOpenResult :=
  c_struct (mkIBCChannelOpenResult None EmptyString)
  [ omitempty! IBCChannelOpenResult_eta "ok" (c_ptr IBC3ChannelOpenResponse_codec) IBCChannelOpenResult_Ok;
    omitempty! IBCChannelOpenResult_eta "error" c_string IBCChannelOpenResult_Err ].
#[export] Instance IBCChannelOpenResult_JSON : JSONType IBCChannelOpenResult := IBCChannelOpenResult_codec.

Record IBCBasicResponse := mkIBCBasicResponse {
  IBCBasicResponse_Messages : option (list SubMsg);
  IBCBasicResponse_Attributes : option (list EventAttribute);
  IBCBasicResponse_Events : option (list Event) }.
Definition IBCBasicResponse_eta (x : IBCBasicResponse) : IBCBasicResponse :=
  mkIBCBasicResponse (IBCBasicResponse_Messages x) (IBCBasicResponse_Attributes x)
    (IBCBasicResponse_Events x).
Definition IBCBasicResponse_codec : codec IBCBasicResponse :=
  c_struct (mkIBCBasicResponse None None None)
  [ field! IBCBasicResponse_eta "messages" (c_slice SubMsg_codec) IBCBasicResponse_Messages;
    field! IBCBasicResponse_eta "attributes" (c_slice EventAttribute_codec) IBCBasicResponse_Attributes;
    field! IBCBasicResponse_eta "events" (c_slice Event_codec) IBCBasicResponse_Events ].
#[export] Instance IBCBasicResponse_JSON : JSONType IBCBasicResponse := IBCBasicResponse_codec.

Record IBCBasicResult := mkIBCBasicResult {
  IBCBasicResult_Ok : option IBCBasicResponse;
  IBCBasicResult_Err : string }.
Definition IBCBasicResult_eta (x : IBCBasicResult) : IBCBasicResult :=
  mkIBCBasicResult (IBCBasicResult_Ok x) (IBCBasicResult_Err x).
Definition IBCBasicResult_codec : codec IBCBasicResult :=
  c_struct (mkIBCBasicResult None EmptyString)
  [ omitempty! IBCBasicResult_eta "ok" (c_ptr IBCBasicResponse_codec) IBCBasicResult_Ok;
    omitempty! IBCBasicResult_eta "error" c_string IBCBasicResult_Err ].
#[export] Instance IBCBasicResult_JSON : JSONType IBCBasicResult := IBCBasicResult_codec.

Record IBCReceiveResponse := mkIBCReceiveResponse {
  IBCReceiveResponse_Acknowledgement : bytes;
  IBCReceiveResponse_Messages : option (list SubMsg);
  IBCReceiveResponse_Attributes : option (list EventAttribute);
  IBCReceiveResponse_Events : option (list Event) }.
Definition IBCReceiveResponse_eta (x : IBCReceiveResponse) : IBCReceiveResponse :=
  mkIBCReceiveResponse (IBCReceiveResponse_Acknowledgement x) (IBCReceiveResponse_Messages x)
    (IBCReceiveResponse_Attributes x) (IBCReceiveResponse_Events x).
Definition IBCReceiveResponse_codec : codec IBCReceiveResponse :=
  c_struct (mkIBCReceiveResponse None None None None)
  [ field! IBCReceiveResponse_eta "acknowledgement" c_bytes IBCReceiveResponse_Acknowledgement;
    field! IBCReceiveResponse_eta "messages" (c_slice SubMsg_codec) IBCReceiveResponse_Messages;
    field! IBCReceiveResponse_eta "attributes" (c_slice EventAttribute_codec) IBCReceiveResponse_Attributes;
    field! IBCReceiveResponse_eta "events" (c_slice Event_codec) IBCReceiveResponse_Events ].
#[export] Instance IBCReceiveResponse_JSON : JSONType IBCReceiveResponse := IBCReceiveResponse_codec.

Record IBCReceiveResult := mkIBCReceiveResult {
  IBCReceiveResult_Ok : option IBCReceiveResponse;
  IBCReceiveResult_Err : string }.
Definition IBCReceiveResult_eta (x : IBCReceiveResult) : IBCReceiveResult :=
  mkIBCReceiveResult (IBCReceiveResult_Ok x) (IBCReceiveResult_Err x).
Definition IBCReceiveResult_codec : codec IBCReceiveResult :=
  c_struct (mkIBCReceiveResult None EmptyString)
  [ omitempty! IBCReceiveResult_eta "ok" (c_ptr IBCReceiveResponse_codec) IBCReceiveResult_Ok;
    omitempty! IBCReceiveResult_eta "error" c_string IBCReceiveResult_Err ].
#[export] Instance IBCReceiveResult_JSON : JSONType IBCReceiveResult := IBCReceiveResult_codec.

(** ** SubMessages: the messages of a successful result, nil otherwise. *)

Definition ContractResult_SubMessages (r : ContractResult) : option (list SubMsg) :=
  match ContractResult_Ok r with Some ok => Response_Messages ok | None => None end.
Definition IBCBasicResult_SubMessages (r : IBCBasicResult) : option (list SubMsg) :=
  match IBCBasicResult_Ok r with Some ok => IBCBasicResponse_Messages ok | None => None end.
Definition IBCReceiveResult_SubMessages (r : IBCReceiveResult) : option (list SubMsg) :=
  match IBCReceiveResult_Ok r with Some ok => IBCReceiveResponse_Messages ok | None => None end.

(** ** Round trips *)

#[export] Hint Opaque SendMsg_codec BurnMsg_codec BankMsg_codec SetWithdrawAddressMsg_codec
  WithdrawDelegatorRewardMsg_codec FundCommunityPoolMsg_codec DistributionMsg_codec
  InternalVoteMsg_codec VoteMsg_codec WeightedVoteOption_codec VoteWeightedMsg_codec
  GovMsg_codec TransferMsg_codec SendPacketMsg_codec WriteAcknowledgementMsg_codec
  CloseChannelMsg_codec IBCFee_codec PayPacketFeeMsg_codec PayPacketFeeAsyncMsg_codec
  IBCMsg_codec DelegateMsg_codec UndelegateMsg_codec RedelegateMsg_codec StakingMsg_codec
  AnyMsg_codec ExecuteMsg_codec InstantiateMsg_codec Instantiate2Msg_codec MigrateMsg_codec
  UpdateAdminMsg_codec ClearAdminMsg_codec WasmMsg_codec IBC2SendPacketMsg_codec
  IBC2WriteAcknowledgementMsg_codec IBC2Msg_codec InternalCosmosMsg_codec CosmosMsg_codec
  SubMsg_codec EventAttribute_codec Event_codec Response_codec ContractResult_codec
  MsgResponse_codec SubMsgResponse_codec SubMsgResult_codec Reply_codec
  IBC3ChannelOpenResponse_codec IBCChannelOpenResult_codec IBCBasicResponse_codec
  IBCBasicResult_codec IBCReceiveResponse_codec IBCReceiveResult_codec : typeclass_instances.

#[export] Instance SendMsg_rt : RoundTrip SendMsg_codec.
Proof. solve_struct_rt SendMsg_codec. Qed.
#[export] Instance BurnMsg_rt : RoundTrip BurnMsg_codec.
Proof. solve_struct_rt BurnMsg_codec. Qed.
#[export] Instance BankMsg_rt : RoundTrip BankMsg_codec.
Proof. solve_struct_rt BankMsg_codec. Qed.
#[export] Instance SetWithdrawAddressMsg_rt : RoundTrip SetWithdrawAddressMsg_codec.
Proof. solve_struct_rt SetWithdrawAddressMsg_codec. Qed.
#[export] Instance WithdrawDelegatorRewardMsg_rt : RoundTrip WithdrawDelegatorRewardMsg_codec.
Proof. solve_struct_rt WithdrawDelegatorRewardMsg_codec. Qed.
#[export] Instance FundCommunityPoolMsg_rt : RoundTrip FundCommunityPoolMsg_codec.
Proof. solve_struct_rt FundCommunityPoolMsg_codec. Qed.
#[export] Instance DistributionMsg_rt : RoundTrip DistributionMsg_codec.
Proof. solve_struct_rt DistributionMsg_codec. Qed.
#[export] Instance InternalVoteMsg_rt : RoundTrip InternalVoteMsg_codec.
Proof. solve_struct_rt InternalVoteMsg_codec. Qed.
#[export] Instance VoteMsg_rt : RoundTrip VoteMsg_codec.
Proof.
  intros [p o] Hw. cbn [VoteMsg_codec c_custom wf enc dec zero] in *.
  apply Forall_cons in Hw as [Hp [Ho _]%Forall_cons]. cbn [gfield f_wf andb] in Hp, Ho.
  set (tmp := mkInternalVoteMsg p (Some o) None).
  assert (dec InternalVoteMsg_codec (enc VoteMsg_struct (mkVoteMsg p o))
            (zero InternalVoteMsg_codec) = dret tmp) as E.
  { unfold InternalVoteMsg_codec. refine (dec_struct_prefix _ _ 2 tmp _ _).
    - apply (bool_decide_unpack _). vm_compute. exact I.
    - apply dec_chain_field; [apply _|exact Hp|reflexivity|reflexivity|].
      apply dec_chain_field; [apply _| |reflexivity|reflexivity|reflexivity].
      split; [exact Ho|discriminate]. }
  unfold VoteMsg_UnmarshalJSON, unmarshal. rewrite E. reflexivity.
Qed.
#[export] Instance WeightedVoteOption_rt : RoundTrip WeightedVoteOption_codec.
Proof. solve_struct_rt WeightedVoteOption_codec. Qed.
#[export] Instance VoteWeightedMsg_rt : RoundTrip VoteWeightedMsg_codec.
Proof. solve_struct_rt VoteWeightedMsg_codec. Qed.
#[export] Instance GovMsg_rt : RoundTrip GovMsg_codec.
Proof. solve_struct_rt GovMsg_codec. Qed.
#[export] Instance TransferMsg_rt : RoundTrip TransferMsg_codec.
Proof. solve_struct_rt TransferMsg_codec. Qed.
#[export] Instance SendPacketMsg_rt : RoundTrip SendPacketMsg_codec.
Proof. solve_struct_rt SendPacketMsg_codec. Qed.
#[export] Instance WriteAcknowledgementMsg_rt : RoundTrip WriteAcknowledgementMsg_codec.
Proof. solve_struct_rt WriteAcknowledgementMsg_codec. Qed.
#[export] Instance CloseChannelMsg_rt : RoundTrip CloseChannelMsg_codec.
Proof. solve_struct_rt CloseChannelMsg_codec. Qed.
#[export] Instance IBCFee_rt : RoundTrip IBCFee_codec.
Proof. solve_struct_rt IBCFee_codec. Qed.
#[export] Instance PayPacketFeeMsg_rt : RoundTrip PayPacketFeeMsg_codec.
Proof. solve_struct_rt PayPacketFeeMsg_codec. Qed.
#[export] Instance PayPacketFeeAsyncMsg_rt : RoundTrip PayPacketFeeAsyncMsg_codec.
Proof. solve_struct_rt PayPacketFeeAsyncMsg_codec. Qed.
#[export] Instance IBCMsg_rt : RoundTrip IBCMsg_codec.
Proof. solve_struct_rt IBCMsg_codec. Qed.
#[export] Instance DelegateMsg_rt : RoundTrip DelegateMsg_codec.
Proof. solve_struct_rt DelegateMsg_codec. Qed.
#[export] Instance UndelegateMsg_rt : RoundTrip UndelegateMsg_codec.
Proof. solve_struct_rt UndelegateMsg_codec. Qed.
#[export] Instance RedelegateMsg_rt : RoundTrip RedelegateMsg_codec.
Proof. solve_struct_rt RedelegateMsg_codec. Qed.
#[export] Instance StakingMsg_rt : RoundTrip StakingMsg_codec.
Proof. solve_struct_rt StakingMsg_codec. Qed.
#[export] Instance AnyMsg_rt : RoundTrip AnyMsg_codec.
Proof. solve_struct_rt AnyMsg_codec. Qed.
#[export] Instance ExecuteMsg_rt : RoundTrip ExecuteMsg_codec.
Proof. solve_struct_rt ExecuteMsg_codec. Qed.
#[export] Instance InstantiateMsg_rt : RoundTrip InstantiateMsg_codec.
Proof. solve_struct_rt InstantiateMsg_codec. Qed.
#[export] Instance Instantiate2Msg_rt : RoundTrip Instantiate2Msg_codec.
Proof. solve_struct_rt Instantiate2Msg_codec. Qed.
#[export] Instance MigrateMsg_rt : RoundTrip MigrateMsg_codec.
Proof. solve_struct_rt MigrateMsg_codec. Qed.
#[export] Instance UpdateAdminMsg_rt : RoundTrip UpdateAdminMsg_codec.
Proof. solve_struct_rt UpdateAdminMsg_codec. Qed.
#[export] Instance ClearAdminMsg_rt : RoundTrip ClearAdminMsg_codec.
Proof. solve_struct_rt ClearAdminMsg_codec. Qed.
#[export] Instance WasmMsg_rt : RoundTrip WasmMsg_codec.
Proof. solve_struct_rt WasmMsg_codec. Qed.
#[export] Instance IBC2SendPacketMsg_rt : RoundTrip IBC2SendPacketMsg_codec.
Proof. solve_struct_rt IBC2SendPacketMsg_codec. Qed.
#[export] Instance IBC2WriteAcknowledgementMsg_rt : RoundTrip IBC2WriteAcknowledgementMsg_codec.
Proof. solve_struct_rt IBC2WriteAcknowledgementMsg_codec. Qed.
#[export] Instance IBC2Msg_rt : RoundTrip IBC2Msg_codec.
Proof. solve_struct_rt IBC2Msg_codec. Qed.
#[export] Instance InternalCosmosMsg_rt : RoundTrip InternalCosmosMsg_codec.
Proof. solve_struct_rt InternalCosmosMsg_codec. Qed.
#[export] Instance CosmosMsg_rt : RoundTrip CosmosMsg_codec.
Proof.
  intros m Hw. cbn [CosmosMsg_codec c_custom wf enc dec zero] in *.
  set (tmp := mkInternalCosmosMsg (CosmosMsg_Bank m) (CosmosMsg_Custom m)
    (CosmosMsg_Distribution m) (CosmosMsg_Gov m) (CosmosMsg_IBC m) (CosmosMsg_Staking m)
    (CosmosMsg_Any m) (CosmosMsg_Wasm m) None (CosmosMsg_IBC2 m)).
  assert (enc CosmosMsg_struct m = enc InternalCosmosMsg_codec tmp) as -> by reflexivity.
  unfold CosmosMsg_UnmarshalJSON. rewrite (unmarshal_rt InternalCosmosMsg_codec tmp).
  - cbn [obind tmp InternalCosmosMsg_Any InternalCosmosMsg_Stargate].
    destruct m as [? ? ? ? ? ? [any|] ? ?]; reflexivity.
  - cbn [wf InternalCosmosMsg_codec CosmosMsg_struct c_struct] in *.
    repeat (apply Forall_cons in Hw as [? Hw]).
    repeat (apply Forall_cons; split; [by first [assumption|reflexivity]|]). by apply Forall_nil.
Qed.
#[export] Instance SubMsg_rt : RoundTrip SubMsg_codec.
Proof. solve_struct_rt SubMsg_codec. Qed.
#[export] Instance EventAttribute_rt : RoundTrip EventAttribute_codec.
Proof. solve_struct_rt EventAttribute_codec. Qed.
#[export] Instance Event_rt : RoundTrip Event_codec.
Proof. solve_struct_rt Event_codec. Qed.
#[export] Instance Response_rt : RoundTrip Response_codec.
Proof. solve_struct_rt Response_codec. Qed.
#[export] Instance ContractResult_rt : RoundTrip ContractResult_codec.
Proof. solve_struct_rt ContractResult_codec. Qed.
#[export] Instance MsgResponse_rt : RoundTrip MsgResponse_codec.
Proof. solve_struct_rt MsgResponse_codec. Qed.
#[export] Instance SubMsgResponse_rt : RoundTrip SubMsgResponse_codec.
Proof. solve_struct_rt SubMsgResponse_codec. Qed.
#[export] Instance SubMsgResult_rt : RoundTrip SubMsgResult_codec.
Proof. solve_struct_rt SubMsgResult_codec. Qed.
#[export] Instance Reply_rt : RoundTrip Reply_codec.
Proof. solve_struct_rt Reply_codec. Qed.
#[export] Instance IBC3ChannelOpenResponse_rt : RoundTrip IBC3ChannelOpenResponse_codec.
Proof. solve_struct_rt IBC3ChannelOpenResponse_codec. Qed.
#[export] Instance IBCChannelOpenResult_rt : RoundTrip IBCChannelOpenResult_codec.
Proof. solve_struct_rt IBCChannelOpenResult_codec. Qed.
#[export] Instance IBCBasicResponse_rt : RoundTrip IBCBasicResponse_codec.
Proof. solve_struct_rt IBCBasicResponse_codec. Qed.
#[export] Instance IBCBasicResult_rt : RoundTrip IBCBasicResult_codec.
Proof. solve_struct_rt IBCBasicResult_codec. Qed.
#[export] Instance IBCReceiveResponse_rt : RoundTrip IBCReceiveResponse_codec.
Proof. solve_struct_rt IBCReceiveResponse_codec. Qed.
#[export] Instance IBCReceiveResult_rt : RoundTrip IBCReceiveResult_codec.
Proof. solve_struct_rt IBCReceiveResult_codec. Qed.

(** ** Properties *)

(** A message that sends two coins, with a reply on errors. *)
Definition example_submsg : SubMsg :=
  mkSubMsg 7
    (mkCosmosMsg
       (Some (mkBankMsg (Some (mkSendMsg "addr" (Some [mkCoin "uatom" "12"; mkCoin "x" "3"]))) None))
       None None None None None None None None)
    (Some "pay") (Some 400000) ReplyError.

(** [CosmosMsg]: the old name [stargate] and the new name [any] read
    as the same message, and a document with both is refused. *)
Theorem CosmosMsg_any_stargate (a b : AnyMsg) :
  let msg := mkCosmosMsg None None None None None None (Some a) None None in
  from_json (A := CosmosMsg) (JObject [("any", to_json a)]) = Ret (inr msg) /\
  from_json (A := CosmosMsg) (JObject [("stargate", to_json a)]) = Ret (inr msg) /\
  from_json (A := CosmosMsg) (JObject [("any", to_json a); ("stargate", to_json b)]) =
    Ret (inl (CustomError "invalid CosmosMsg: both 'any' and 'stargate' fields are set")).
Proof.
  destruct a as [t [v|]], b as [t' [v'|]]; cbv zeta; split_and!;
    lazy -[Base64.Decode Base64.Encode]; rewrite ?Base64.Decode_Encode64; reflexivity.
Qed.

(** Reading the proposal number, and what the reader of a vote makes of the
    documents with one name, with both and with none. *)
Lemma dec_uint64_text p old : is_u64 p ->
  dec c_uint64 (JNumber (Strconv.FormatUint p)) old = dret p.
Proof.
  intros Hp. cbn [dec c_uint64 c_uint view]. rewrite Strconv.ParseUint_FormatUint by done.
  by rewrite (proj2 (Z.ltb_lt p two64)) by apply Hp.
Qed.
Lemma VoteMsg_read p ms : is_u64 p ->
  VoteMsg_UnmarshalJSON (JObject (("proposal_id", JNumber (Strconv.FormatUint p)) :: ms)) =
  let% r := finish (dec InternalVoteMsg_codec (JObject ms) (mkInternalVoteMsg p None None)) in
  match r with
  | inl err => Ret (inl err)
  | inr (mkInternalVoteMsg q (Some _) (Some _)) =>
    Ret (inl (CustomError "invalid VoteMsg: both 'option' and 'vote' fields are set"))
  | inr (mkInternalVoteMsg q (Some v) None) => Ret (inr (mkVoteMsg q v))
  | inr (mkInternalVoteMsg q None v) => let% v := deref v in Ret (inr (mkVoteMsg q v))
  end.
Proof.
  intros Hp. unfold VoteMsg_UnmarshalJSON, unmarshal, InternalVoteMsg_codec.
  cbn [c_struct dec zero view]. read_member. rewrite dec_uint64_text by done. cbn [dbind dret].
  match goal with |- context [dec_members ?fs ms ?s] => set (m := dec_members fs ms s) end.
  change (dec_members _ ms (mkInternalVoteMsg p None None)) with m.
  destruct m as [[q [?|] [?|]] [?|]| |]; reflexivity.
Qed.

(** Reading a vote does not depend on how its document is spelled. *)
#[export] Instance c_voteOption_spelled : Spelled c_voteOption.
Proof.
  intros j old. cbn [c_voteOption c_custom dec]. unfold voteOption_UnmarshalJSON, unmarshal.
  by rewrite spelled.
Qed.
#[export] Instance InternalVoteMsg_spelled : Spelled InternalVoteMsg_codec.
Proof.
  apply c_struct_spelled. repeat constructor; intros j a; apply field_spelled; apply _.
Qed.
Lemma VoteMsg_reads j : from_json (A := VoteMsg) j = VoteMsg_UnmarshalJSON (plain j).
Proof.
  unfold from_json, codec_of, VoteMsg_JSON. cbn [VoteMsg_codec c_custom dec].
  assert (VoteMsg_UnmarshalJSON j = VoteMsg_UnmarshalJSON (plain j)) as ->
    by (unfold VoteMsg_UnmarshalJSON, unmarshal; by rewrite spelled).
  by destruct (VoteMsg_UnmarshalJSON (plain j)) as [[?|?]|?].
Qed.

(** C38. [VoteMsg]: the old name [vote] and the new name [option] read as the
    same message and both together are refused, but a document with neither
    (or with nulls) makes the reader dereference a nil pointer: reading such
    a result of a contract panics instead of returning an error. *)
Theorem VoteMsg_option_vote (p v w : Z) (j : json) :
  is_u64 p -> Yes <= v <= NoWithVeto -> Yes <= w <= NoWithVeto ->
  let id := ("proposal_id", JNumber (Strconv.FormatUint p)) in
  let opt := ("option", voteOption_MarshalJSON v) in
  let vote := ("vote", voteOption_MarshalJSON v) in
  let vote' := ("vote", voteOption_MarshalJSON w) in
  (plain j = JObject [id; opt] -> from_json (A := VoteMsg) j = Ret (inr (mkVoteMsg p v))) /\
  (plain j = JObject [id; vote] -> from_json (A := VoteMsg) j = Ret (inr (mkVoteMsg p v))) /\
  (plain j = JObject [id; opt; vote'] -> from_json (A := VoteMsg) j =
    Ret (inl (CustomError "invalid VoteMsg: both 'option' and 'vote' fields are set"))) /\
  (plain j = JObject [id] -> from_json (A := VoteMsg) j =
    Panic (runtime_panic "invalid memory address or nil pointer dereference")) /\
  from_json (A := ContractResult) (JObject [("ok", JObject [("messages", JArray [JObject
      [("msg", JObject [("gov", JObject [("vote",
        JObject [("proposal_id", JNumber "1")])])])]])])]) =
    Panic (runtime_panic "invalid memory address or nil pointer dereference").
Proof.
  intros Hp Hv Hw. cbv zeta. rewrite VoteMsg_reads.
  split_and!; try (intros ->; rewrite VoteMsg_read by done);
    [..|pattern v; apply four_values; try exact Hv; reflexivity];
    pattern v; apply four_values; try exact Hv; try reflexivity;
    pattern w; apply four_values; try exact Hw; reflexivity.
Qed.
Lemma VoteMsg_option_vote_witness :
  from_json (A := VoteMsg) (JObject [("proposal_id", JNumber (Strconv.FormatUint 4))]) =
  Panic (runtime_panic "invalid memory address or nil pointer dereference").
Proof.
  apply (VoteMsg_option_vote 4 Yes No
    (JObject [("proposal_id", JNumber (Strconv.FormatUint 4))])); vm_compute; first [reflexivity | split; congruence].
Defined.
