(* ===== verification/Errors.v ===== *)
(** * Errors

    [types/systemerror.go] and the error values of the code.  A Go error is
    an interface value: nil, or a value of one of the types that implement it.
    The system errors implement it on the value, so that a pointer to one
    (which may itself be nil) is an error too. *)

From S2P Require Import Prelude GoText Json Codec Scalars Types.

(** Texts that are made outside this repository: of errors by
    [encoding/json], of error numbers by the operating system, and by Rust's
    [{:?}] of an optional string (which depends on tables of Unicode). *)
Class ErrorTexts := {
  json_error_text : json_error -> string;
  errno_text : Z -> string;
  rust_debug : option string -> string;
}.

Record InvalidRequest := mkInvalidRequest {
  InvalidRequest_Err : string;
  InvalidRequest_Request : bytes }.
Definition InvalidRequest_eta (x : InvalidRequest) : InvalidRequest :=
  mkInvalidRequest (InvalidRequest_Err x) (InvalidRequest_Request x).
Definition InvalidRequest_codec : codec InvalidRequest :=
  c_struct (mkInvalidRequest EmptyString None)
  [ field! InvalidRequest_eta "error" c_string InvalidRequest_Err;
    field! InvalidRequest_eta "request" c_bytes InvalidRequest_Request ].
#[export] Instance InvalidRequest_JSON : JSONType InvalidRequest := InvalidRequest_codec.

Record InvalidResponse := mkInvalidResponse {
  InvalidResponse_Err : string;
  InvalidResponse_Response : bytes }.
Definition InvalidResponse_eta (x : InvalidResponse) : InvalidResponse :=
  mkInvalidResponse (InvalidResponse_Err x) (InvalidResponse_Response x).
Definition InvalidResponse_codec : codec InvalidResponse :=
  c_struct (mkInvalidResponse EmptyString None)
  [ field! InvalidResponse_eta "error" c_string InvalidResponse_Err;
    field! InvalidResponse_eta "response" c_bytes InvalidResponse_Response ].
#[export] Instance InvalidResponse_JSON : JSONType InvalidResponse := InvalidResponse_codec.

Record NoSuchContract := mkNoSuchContract {
  NoSuchContract_Addr : string }.
Definition NoSuchContract_eta (x : NoSuchContract) : NoSuchContract :=
  mkNoSuchContract (NoSuchContract_Addr x).
Definition NoSuchContract_codec : codec NoSuchContract :=
  c_struct (mkNoSuchContract EmptyString)
  [ omitempty! NoSuchContract_eta "addr" c_string NoSuchContract_Addr ].
#[export] Instance NoSuchContract_JSON : JSONType NoSuchContract := NoSuchContract_codec.

Record NoSuchCode := mkNoSuchCode {
  NoSuchCode_CodeID : Z }.
Definition NoSuchCode_eta (x : NoSuchCode) : NoSuchCode :=
  mkNoSuchCode (NoSuchCode_CodeID x).
Definition NoSuchCode_codec : codec NoSuchCode :=
  c_struct (mkNoSuchCode 0)
  [ omitempty! NoSuchCode_eta "code_id" c_uint64 NoSuchCode_CodeID ].
#[export] Instance NoSuchCode_JSON : JSONType NoSuchCode := NoSuchCode_codec.

Record Unknown := mkUnknown { }.
Definition Unknown_codec : codec Unknown := c_struct mkUnknown [].
#[export] Instance Unknown_JSON : JSONType Unknown := Unknown_codec.

Record UnsupportedRequest := mkUnsupportedRequest {
  UnsupportedRequest_Kind : string }.
Definition UnsupportedRequest_eta (x : UnsupportedRequest) : UnsupportedRequest :=
  mkUnsupportedRequest (UnsupportedRequest_Kind x).
Definition UnsupportedRequest_codec : codec UnsupportedRequest :=
  c_struct (mkUnsupportedRequest EmptyString)
  [ omitempty! UnsupportedRequest_eta "kind" c_string UnsupportedRequest_Kind ].
#[export] Instance UnsupportedRequest_JSON : JSONType UnsupportedRequest := UnsupportedRequest_codec.

Record SystemError := mkSystemError {
  SystemError_InvalidRequest : option InvalidRequest;
  SystemError_InvalidResponse : option InvalidResponse;
  SystemError_NoSuchContract : option NoSuchContract;
  SystemError_NoSuchCode : option NoSuchCode;
  SystemError_Unknown : option Unknown;
  SystemError_UnsupportedRequest : option UnsupportedRequest }.
Definition SystemError_eta (x : SystemError) : SystemError :=
  mkSystemError (SystemError_InvalidRequest x) (SystemError_InvalidResponse x)
    (SystemError_NoSuchContract x) (SystemError_NoSuchCode x) (SystemError_Unknown x)
    (SystemError_UnsupportedRequest x).
Definition SystemError_codec : codec SystemError :=
  c_struct (mkSystemError None None None None None None)
  [ omitempty! SystemError_eta "invalid_request" (c_ptr InvalidRequest_codec) SystemError_InvalidRequest;
    omitempty! SystemError_eta "invalid_response" (c_ptr InvalidResponse_codec) SystemError_InvalidResponse;
    omitempty! SystemError_eta "no_such_contract" (c_ptr NoSuchContract_codec) SystemError_NoSuchContract;
    omitempty! SystemError_eta "no_such_code" (c_ptr NoSuchCode_codec) SystemError_NoSuchCode;
    omitempty! SystemError_eta "unknown" (c_ptr Unknown_codec) SystemError_Unknown;
    omitempty! SystemError_eta "unsupported_request" (c_ptr UnsupportedRequest_codec) SystemError_UnsupportedRequest ].
#[export] Instance SystemError_JSON : JSONType SystemError := SystemError_codec.

(** The types the code itself makes or tells apart; an error of any other
    type is what the code can learn of it: whether it is a nil pointer, and
    what its [Error] method does. *)
Inductive error :=
| errorString (msg : string)
| OutOfGasError
| Errno (n : Z)
| JsonError (e : json_error)
| foreignError (nil_pointer : bool) (text : outcome string)
| vSystemError (e : SystemError) | pSystemError (e : option SystemError)
| vInvalidRequest (e : InvalidRequest) | pInvalidRequest (e : option InvalidRequest)
| vInvalidResponse (e : InvalidResponse) | pInvalidResponse (e : option InvalidResponse)
| vNoSuchContract (e : NoSuchContract) | pNoSuchContract (e : option NoSuchContract)
| vNoSuchCode (e : NoSuchCode) | pNoSuchCode (e : option NoSuchCode)
| vUnknown (e : Unknown) | pUnknown (e : option Unknown)
| vUnsupportedRequest (e : UnsupportedRequest) | pUnsupportedRequest (e : option UnsupportedRequest).

(** ** The texts *)

Definition InvalidRequest_Error (e : InvalidRequest) : string :=
  "invalid request: " +:+ InvalidRequest_Err e +:+ " - original request: " +:+
  string_of_bytes (InvalidRequest_Request e).
Definition InvalidResponse_Error (e : InvalidResponse) : string :=
  "invalid response: " +:+ InvalidResponse_Err e +:+ " - original response: " +:+
  string_of_bytes (InvalidResponse_Response e).
Definition NoSuchContract_Error (e : NoSuchContract) : string :=
  "no such contract: " +:+ NoSuchContract_Addr e.
Definition NoSuchCode_Error (e : NoSuchCode) : string :=
  "no such code: " +:+ Strconv.FormatUint (NoSuchCode_CodeID e).
Definition Unknown_Error (e : Unknown) : string := "unknown system error".
Definition UnsupportedRequest_Error (e : UnsupportedRequest) : string :=
  "unsupported request: " +:+ UnsupportedRequest_Kind e.

Definition SystemError_Error (a : SystemError) : outcome string :=
  match SystemError_InvalidRequest a with Some e => Ret (InvalidRequest_Error e) | None =>
  match SystemError_InvalidResponse a with Some e => Ret (InvalidResponse_Error e) | None =>
  match SystemError_NoSuchContract a with Some e => Ret (NoSuchContract_Error e) | None =>
  match SystemError_NoSuchCode a with Some e => Ret (NoSuchCode_Error e) | None =>
  match SystemError_Unknown a with Some e => Ret (Unknown_Error e) | None =>
  match SystemError_UnsupportedRequest a with Some e => Ret (UnsupportedRequest_Error e) | None =>
  Panic (string_panic "unknown error variant")
  end end end end end end.

(** [err.Error()]: a method on the value is called through a pointer by
    dereferencing it. *)
Definition Error `{ErrorTexts} (err : error) : outcome string :=
  match err with
  | errorString msg => Ret msg
  | OutOfGasError => Ret "Out of gas"
  | Errno n => Ret (errno_text n)
  | JsonError e => Ret (json_error_text e)
  | foreignError _ text => text
  | vSystemError e => SystemError_Error e
  | pSystemError p => let% e := deref p in SystemError_Error e
  | vInvalidRequest e => Ret (InvalidRequest_Error e)
  | pInvalidRequest p => let% e := deref p in Ret (InvalidRequest_Error e)
  | vInvalidResponse e => Ret (InvalidResponse_Error e)
  | pInvalidResponse p => let% e := deref p in Ret (InvalidResponse_Error e)
  | vNoSuchContract e => Ret (NoSuchContract_Error e)
  | pNoSuchContract p => let% e := deref p in Ret (NoSuchContract_Error e)
  | vNoSuchCode e => Ret (NoSuchCode_Error e)
  | pNoSuchCode p => let% e := deref p in Ret (NoSuchCode_Error e)
  | vUnknown e => Ret (Unknown_Error e)
  | pUnknown p => let% e := deref p in Ret (Unknown_Error e)
  | vUnsupportedRequest e => Ret (UnsupportedRequest_Error e)
  | pUnsupportedRequest p => let% e := deref p in Ret (UnsupportedRequest_Error e)
  end.

(** ** Conversion *)

Definition is_none {A} (o : option A) : bool := match o with None => true | Some _ => false end.

(** The nil interface, or a nil pointer of any type. *)
Definition isNil (err : option error) : bool :=
  match err with
  | None => true
  | Some e =>
    match e with
    | foreignError nil_pointer _ => nil_pointer
    | pSystemError p => is_none p
    | pInvalidRequest p => is_none p
    | pInvalidResponse p => is_none p
    | pNoSuchContract p => is_none p
    | pNoSuchCode p => is_none p
    | pUnknown p => is_none p
    | pUnsupportedRequest p => is_none p
    | _ => false
    end
  end.

Definition ToSystemError (err : option error) : option SystemError :=
  if isNil err then None
  else
    match err with
    | Some (vSystemError t) => Some t
    | Some (pSystemError t) => t
    | Some (vInvalidRequest t) => Some (mkSystemError (Some t) None None None None None)
    | Some (pInvalidRequest t) => Some (mkSystemError t None None None None None)
    | Some (vInvalidResponse t) => Some (mkSystemError None (Some t) None None None None)
    | Some (pInvalidResponse t) => Some (mkSystemError None t None None None None)
    | Some (vNoSuchContract t) => Some (mkSystemError None None (Some t) None None None)
    | Some (pNoSuchContract t) => Some (mkSystemError None None t None None None)
    | Some (vNoSuchCode t) => Some (mkSystemError None None None (Some t) None None)
    | Some (pNoSuchCode t) => Some (mkSystemError None None None t None None)
    | Some (vUnknown t) => Some (mkSystemError None None None None (Some t) None)
    | Some (pUnknown t) => Some (mkSystemError None None None None t None)
    | Some (vUnsupportedRequest t) => Some (mkSystemError None None None None None (Some t))
    | Some (pUnsupportedRequest t) => Some (mkSystemError None None None None None t)
    | _ => None
    end.

(** ** Lemmas *)

#[export] Hint Opaque InvalidRequest_codec InvalidResponse_codec NoSuchContract_codec
  NoSuchCode_codec Unknown_codec UnsupportedRequest_codec SystemError_codec :
  typeclass_instances.

#[export] Instance InvalidRequest_rt : RoundTrip InvalidRequest_codec.
Proof. solve_struct_rt InvalidRequest_codec. Qed.
#[export] Instance InvalidResponse_rt : RoundTrip InvalidResponse_codec.
Proof. solve_struct_rt InvalidResponse_codec. Qed.
#[export] Instance NoSuchContract_rt : RoundTrip NoSuchContract_codec.
Proof. solve_struct_rt NoSuchContract_codec. Qed.
#[export] Instance NoSuchCode_rt : RoundTrip NoSuchCode_codec.
Proof. solve_struct_rt NoSuchCode_codec. Qed.
#[export] Instance Unknown_rt : RoundTrip Unknown_codec.
Proof. solve_struct_rt Unknown_codec. Qed.
#[export] Instance UnsupportedRequest_rt : RoundTrip UnsupportedRequest_codec.
Proof. solve_struct_rt UnsupportedRequest_codec. Qed.
#[export] Instance SystemError_rt : RoundTrip SystemError_codec.
Proof. solve_struct_rt SystemError_codec. Qed.

(** The number of variants set. *)
Definition variants (a : SystemError) : Z :=
  let b {A} (o : option A) : Z := if is_none o then 0 else 1 in
  b (SystemError_InvalidRequest a) + b (SystemError_InvalidResponse a) +
  b (SystemError_NoSuchContract a) + b (SystemError_NoSuchCode a) +
  b (SystemError_Unknown a) + b (SystemError_UnsupportedRequest a).

Definition is_system_struct (err : error) : bool :=
  match err with vSystemError _ | pSystemError _ => true | _ => false end.

(** ** Properties *)

(** [ToSystemError] of an error that is one of the six variants (by value
    or by a pointer that is not nil) is a [SystemError] with exactly one
    variant, whose text is the text of the error; of a nil interface or a nil
    pointer it is nil. *)
Theorem ToSystemError_embeds `{ErrorTexts} (err : error) (a : SystemError) :
  (isNil (Some err) = true -> ToSystemError (Some err) = None) /\
  (is_system_struct err = false -> ToSystemError (Some err) = Some a ->
     variants a = 1 /\ SystemError_Error a = Error err).
Proof.
  split; [unfold ToSystemError; by intros ->|].
  destruct err as [| | | |n t|e|e|e|[e|]|e|[e|]|e|[e|]|e|[e|]|e|[e|]|e|[e|]]; try discriminate;
    try (by destruct n); intros _ [= <-]; split; reflexivity.
Qed.
Lemma ToSystemError_embeds_witness :
  let a := mkSystemError None None None (Some (mkNoSuchCode 7)) None None in
  let I := Build_ErrorTexts (fun _ => "bad json"%string) (fun _ => "errno"%string) (fun _ => "debug"%string) in
  variants a = 1 /\ SystemError_Error a = @Error I (vNoSuchCode (mkNoSuchCode 7)).
Proof.
  apply (@ToSystemError_embeds
    (Build_ErrorTexts (fun _ => "bad json"%string) (fun _ => "errno"%string) (fun _ => "debug"%string))
    (vNoSuchCode (mkNoSuchCode 7))
    (mkSystemError None None None (Some (mkNoSuchCode 7)) None None)); reflexivity.
Defined.

(** [SystemError.Error] panics exactly when no variant is set, as it is
    after reading an empty object. *)
Theorem SystemError_Error_panics (a : SystemError) :
  (SystemError_Error a = Panic (string_panic "unknown error variant") <-> variants a = 0) /\
  from_json (A := SystemError) (JObject []) = Ret (inr (zero SystemError_codec)) /\
  variants (zero SystemError_codec) = 0.
Proof.
  split; [|split; reflexivity].
  destruct a as [[|] [|] [|] [|] [|] [|]]; split; intros E;
    first [reflexivity | discriminate E | vm_compute in E; discriminate E].
Qed.
