(* ===== verification/Queries.v ===== *)
(** * Queries

    [types/queries.go]: the requests a contract sends to the chain, the
    responses it gets, and the conversion of a querier's answer to the
    two-level result of the Rust side. *)

From S2P Require Import Prelude GoText Json JsonParse Codec Scalars Types Errors.

Definition c_empty_struct : codec unit := c_struct tt [].

Record QueryResult := mkQueryResult {
  QueryResult_Ok : bytes;
  QueryResult_Err : string }.
Definition QueryResult_eta (x : QueryResult) : QueryResult :=
  mkQueryResult (QueryResult_Ok x) (QueryResult_Err x).
Definition queryResultImpl_codec : codec QueryResult :=
  c_struct (mkQueryResult None EmptyString)
  [ omitempty! QueryResult_eta "ok" c_bytes QueryResult_Ok;
    omitempty! QueryResult_eta "error" c_string QueryResult_Err ].

(** With neither data nor an error the result is written as an empty [ok]. *)
Definition QueryResult_MarshalJSON (q : QueryResult) : json :=
  if (blen (QueryResult_Ok q) =? 0) && (slen (QueryResult_Err q) =? 0)
  then JObject [("ok", JString "")]
  else enc queryResultImpl_codec q.

(** Reading uses the tags of the struct. *)
Definition QueryResult_codec : codec QueryResult :=
  Codec QueryResult_MarshalJSON (dec queryResultImpl_codec) (zero queryResultImpl_codec)
    (fun _ => false)
    (fun q => match QueryResult_Ok q with
              | None => QueryResult_Err q <> ""%string
              | Some s => s <> ""%string \/ QueryResult_Err q = ""%string
              end).
#[export] Instance QueryResult_JSON : JSONType QueryResult := QueryResult_codec.

Record QuerierResult := mkQuerierResult {
  QuerierResult_Ok : option QueryResult;
  QuerierResult_Err : option SystemError }.
Definition QuerierResult_eta (x : QuerierResult) : QuerierResult :=
  mkQuerierResult (QuerierResult_Ok x) (QuerierResult_Err x).
Definition QuerierResult_codec : codec QuerierResult :=
  c_struct (mkQuerierResult None None)
  [ omitempty! QuerierResult_eta "ok" (c_ptr QueryResult_codec) QuerierResult_Ok;
    omitempty! QuerierResult_eta "error" (c_ptr SystemError_codec) QuerierResult_Err ].
#[export] Instance QuerierResult_JSON : JSONType QuerierResult := QuerierResult_codec.

Record SupplyQuery := mkSupplyQuery {
  SupplyQuery_Denom : string }.
Definition SupplyQuery_eta (x : SupplyQuery) : SupplyQuery :=
  mkSupplyQuery (SupplyQuery_Denom x).
Definition SupplyQuery_codec : codec SupplyQuery :=
  c_struct (mkSupplyQuery EmptyString)
  [ field! SupplyQuery_eta "denom" c_string SupplyQuery_Denom ].
#[export] Instance SupplyQuery_JSON : JSONType SupplyQuery := SupplyQuery_codec.

Record BalanceQuery := mkBalanceQuery {
  BalanceQuery_Address : string;
  BalanceQuery_Denom : string }.
Definition BalanceQuery_eta (x : BalanceQuery) : BalanceQuery :=
  mkBalanceQuery (BalanceQuery_Address x) (BalanceQuery_Denom x).
Definition BalanceQuery_codec : codec BalanceQuery :=
  c_struct (mkBalanceQuery EmptyString EmptyString)
  [ field! BalanceQuery_eta "address" c_string BalanceQuery_Address;
    field! BalanceQuery_eta "denom" c_string BalanceQuery_Denom ].
#[export] Instance BalanceQuery_JSON : JSONType BalanceQuery := BalanceQuery_codec.

Record AllBalancesQuery := mkAllBalancesQuery {
  AllBalancesQuery_Address : string }.
Definition AllBalancesQuery_eta (x : AllBalancesQuery) : AllBalancesQuery :=
  mkAllBalancesQuery (AllBalancesQuery_Address x).
Definition AllBalancesQuery_codec : codec AllBalancesQuery :=
  c_struct (mkAllBalancesQuery EmptyString)
  [ field! AllBalancesQuery_eta "address" c_string AllBalancesQuery_Address ].
#[export] Instance AllBalancesQuery_JSON : JSONType AllBalancesQuery := AllBalancesQuery_codec.

Record DenomMetadataQuery := mkDenomMetadataQuery {
  DenomMetadataQuery_Denom : string }.
Definition DenomMetadataQuery_eta (x : DenomMetadataQuery) : DenomMetadataQuery :=
  mkDenomMetadataQuery (DenomMetadataQuery_Denom x).
Definition DenomMetadataQuery_codec : codec DenomMetadataQuery :=
  c_struct (mkDenomMetadataQuery EmptyString)
  [ field! DenomMetadataQuery_eta "denom" c_string DenomMetadataQuery_Denom ].
#[export] Instance DenomMetadataQuery_JSON : JSONType DenomMetadataQuery := DenomMetadataQuery_codec.

Record AllDenomMetadataQuery := mkAllDenomMetadataQuery {
  AllDenomMetadataQuery_Pagination : option PageRequest }.
Definition AllDenomMetadataQuery_eta (x : AllDenomMetadataQuery) : AllDenomMetadataQuery :=
  mkAllDenomMetadataQuery (AllDenomMetadataQuery_Pagination x).
Definition AllDenomMetadataQuery_codec : codec AllDenomMetadataQuery :=
  c_struct (mkAllDenomMetadataQuery None)
  [ omitempty! AllDenomMetadataQuery_eta "pagination" (c_ptr PageRequest_codec) AllDenomMetadataQuery_Pagination ].
#[export] Instance AllDenomMetadataQuery_JSON : JSONType AllDenomMetadataQuery := AllDenomMetadataQuery_codec.

Record BankQuery := mkBankQuery {
  BankQuery_Supply : option SupplyQuery;
  BankQuery_Balance : option BalanceQuery;
  BankQuery_AllBalances : option AllBalancesQuery;
  BankQuery_DenomMetadata : option DenomMetadataQuery;
  BankQuery_AllDenomMetadata : option AllDenomMetadataQuery }.
Definition BankQuery_eta (x : BankQuery) : BankQuery :=
  mkBankQuery (BankQuery_Supply x) (BankQuery_Balance x) (BankQuery_AllBalances x)
    (BankQuery_DenomMetadata x) (BankQuery_AllDenomMetadata x).
Definition BankQuery_codec : codec BankQuery :=
  c_struct (mkBankQuery None None None None None)
  [ omitempty! BankQuery_eta "supply" (c_ptr SupplyQuery_codec) BankQuery_Supply;
    omitempty! BankQuery_eta "balance" (c_ptr BalanceQuery_codec) BankQuery_Balance;
    omitempty! BankQuery_eta "all_balances" (c_ptr AllBalancesQuery_codec) BankQuery_AllBalances;
    omitempty! BankQuery_eta "denom_metadata" (c_ptr DenomMetadataQuery_codec) BankQuery_DenomMetadata;
    omitempty! BankQuery_eta "all_denom_metadata" (c_ptr AllDenomMetadataQuery_codec) BankQuery_AllDenomMetadata ].
#[export] Instance BankQuery_JSON : JSONType BankQuery := BankQuery_codec.

Record PortIDQuery := mkPortIDQuery { }.
Definition PortIDQuery_codec : codec PortIDQuery := c_struct mkPortIDQuery [].
#[export] Instance PortIDQuery_JSON : JSONType PortIDQuery := PortIDQuery_codec.

Record ListChannelsQuery := mkListChannelsQuery {
  ListChannelsQuery_PortID : string }.
Definition ListChannelsQuery_eta (x : ListChannelsQuery) : ListChannelsQuery :=
  mkListChannelsQuery (ListChannelsQuery_PortID x).
Definition ListChannelsQuery_codec : codec ListChannelsQuery :=
  c_struct (mkListChannelsQuery EmptyString)
  [ omitempty! ListChannelsQuery_eta "port_id" c_string ListChannelsQuery_PortID ].
#[export] Instance ListChannelsQuery_JSON : JSONType ListChannelsQuery := ListChannelsQuery_codec.

Record ChannelQuery := mkChannelQuery {
  ChannelQuery_PortID : string;
  ChannelQuery_ChannelID : string }.
Definition ChannelQuery_eta (x : ChannelQuery) : ChannelQuery :=
  mkChannelQuery (ChannelQuery_PortID x) (ChannelQuery_ChannelID x).
Definition ChannelQuery_codec : codec ChannelQuery :=
  c_struct (mkChannelQuery EmptyString EmptyString)
  [ omitempty! ChannelQuery_eta "port_id" c_string ChannelQuery_PortID;
    field! ChannelQuery_eta "channel_id" c_string ChannelQuery_ChannelID ].
#[export] Instance ChannelQuery_JSON : JSONType ChannelQuery := ChannelQuery_codec.

Record IBCQuery := mkIBCQuery {
  IBCQuery_PortID : option PortIDQuery;
  IBCQuery_ListChannels : option ListChannelsQuery;
  IBCQuery_Channel : option ChannelQuery }.
Definition IBCQuery_eta (x : IBCQuery) : IBCQuery :=
  mkIBCQuery (IBCQuery_PortID x) (IBCQuery_ListChannels x) (IBCQuery_Channel x).
Definition IBCQuery_codec : codec IBCQuery :=
  c_struct (mkIBCQuery None None None)
  [ omitempty! IBCQuery_eta "port_id" (c_ptr PortIDQuery_codec) IBCQuery_PortID;
    omitempty! IBCQuery_eta "list_channels" (c_ptr ListChannelsQuery_codec) IBCQuery_ListChannels;
    omitempty! IBCQuery_eta "channel" (c_ptr ChannelQuery_codec) IBCQuery_Channel ].
#[export] Instance IBCQuery_JSON : JSONType IBCQuery := IBCQuery_codec.

Record AllValidatorsQuery := mkAllValidatorsQuery { }.
Definition AllValidatorsQuery_codec : codec AllValidatorsQuery := c_struct mkAllValidatorsQuery [].
#[export] Instance AllValidatorsQuery_JSON : JSONType AllValidatorsQuery := AllValidatorsQuery_codec.

Record ValidatorQuery := mkValidatorQuery {
  ValidatorQuery_Address : string }.
Definition ValidatorQuery_eta (x : ValidatorQuery) : ValidatorQuery :=
  mkValidatorQuery (ValidatorQuery_Address x).
Definition ValidatorQuery_codec : codec ValidatorQuery :=
  c_struct (mkValidatorQuery EmptyString)
  [ field! ValidatorQuery_eta "address" c_string ValidatorQuery_Address ].
#[export] Instance ValidatorQuery_JSON : JSONType ValidatorQuery := ValidatorQuery_codec.

Record AllDelegationsQuery := mkAllDelegationsQuery {
  AllDelegationsQuery_Delegator : string }.
Definition AllDelegationsQuery_eta (x : AllDelegationsQuery) : AllDelegationsQuery :=
  mkAllDelegationsQuery (AllDelegationsQuery_Delegator x).
Definition AllDelegationsQuery_codec : codec AllDelegationsQuery :=
  c_struct (mkAllDelegationsQuery EmptyString)
  [ field! AllDelegationsQuery_eta "delegator" c_string AllDelegationsQuery_Delegator ].
#[export] Instance AllDelegationsQuery_JSON : JSONType AllDelegationsQuery := AllDelegationsQuery_codec.

Record DelegationQuery := mkDelegationQuery {
  DelegationQuery_Delegator : string;
  DelegationQuery_Validator : string }.
Definition DelegationQuery_eta (x : DelegationQuery) : DelegationQuery :=
  mkDelegationQuery (DelegationQuery_Delegator x) (DelegationQuery_Validator x).
Definition DelegationQuery_codec : codec DelegationQuery :=
  c_struct (mkDelegationQuery EmptyString EmptyString)
  [ field! DelegationQuery_eta "delegator" c_string DelegationQuery_Delegator;
    field! DelegationQuery_eta "validator" c_string DelegationQuery_Validator ].
#[export] Instance DelegationQuery_JSON : JSONType DelegationQuery := DelegationQuery_codec.

Record StakingQuery := mkStakingQuery {
  StakingQuery_AllValidators : option AllValidatorsQuery;
  StakingQuery_Validator : option ValidatorQuery;
  StakingQuery_AllDelegations : option AllDelegationsQuery;
  StakingQuery_Delegation : option DelegationQuery;
  StakingQuery_BondedDenom : option unit }.
Definition StakingQuery_eta (x : StakingQuery) : StakingQuery :=
  mkStakingQuery (StakingQuery_AllValidators x) (StakingQuery_Validator x)
    (StakingQuery_AllDelegations x) (StakingQuery_Delegation x) (StakingQuery_BondedDenom x).
Definition StakingQuery_codec : codec StakingQuery :=
  c_struct (mkStakingQuery None None None None None)
  [ omitempty! StakingQuery_eta "all_validators" (c_ptr AllValidatorsQuery_codec) StakingQuery_AllValidators;
    omitempty! StakingQuery_eta "validator" (c_ptr ValidatorQuery_codec) StakingQuery_Validator;
    omitempty! StakingQuery_eta "all_delegations" (c_ptr AllDelegationsQuery_codec) StakingQuery_AllDelegations;
    omitempty! StakingQuery_eta "delegation" (c_ptr DelegationQuery_codec) StakingQuery_Delegation;
    omitempty! StakingQuery_eta "bonded_denom" (c_ptr c_empty_struct) StakingQuery_BondedDenom ].
#[export] Instance StakingQuery_JSON : JSONType StakingQuery := StakingQuery_codec.

Record DelegatorWithdrawAddressQuery := mkDelegatorWithdrawAddressQuery {
  DelegatorWithdrawAddressQuery_DelegatorAddress : string }.
Definition DelegatorWithdrawAddressQuery_eta (x : DelegatorWithdrawAddressQuery) : DelegatorWithdrawAddressQuery :=
  mkDelegatorWithdrawAddressQuery (DelegatorWithdrawAddressQuery_DelegatorAddress x).
Definition DelegatorWithdrawAddressQuery_codec : codec DelegatorWithdrawAddressQuery :=
  c_struct (mkDelegatorWithdrawAddressQuery EmptyString)
  [ field! DelegatorWithdrawAddressQuery_eta "delegator_address" c_string DelegatorWithdrawAddressQuery_DelegatorAddress ].
#[export] Instance DelegatorWithdrawAddressQuery_JSON : JSONType DelegatorWithdrawAddressQuery := DelegatorWithdrawAddressQuery_codec.

Record DelegationRewardsQuery := mkDelegationRewardsQuery {
  DelegationRewardsQuery_DelegatorAddress : string;
  DelegationRewardsQuery_ValidatorAddress : string }.
Definition DelegationRewardsQuery_eta (x : DelegationRewardsQuery) : DelegationRewardsQuery :=
  mkDelegationRewardsQuery (DelegationRewardsQuery_DelegatorAddress x)
    (DelegationRewardsQuery_ValidatorAddress x).
Definition DelegationRewardsQuery_codec : codec DelegationRewardsQuery :=
  c_struct (mkDelegationRewardsQuery EmptyString EmptyString)
  [ field! DelegationRewardsQuery_eta "delegator_address" c_string DelegationRewardsQuery_DelegatorAddress;
    field! DelegationRewardsQuery_eta "validator_address" c_string DelegationRewardsQuery_ValidatorAddress ].
#[export] Instance DelegationRewardsQuery_JSON : JSONType DelegationRewardsQuery := DelegationRewardsQuery_codec.

Record DelegationTotalRewardsQuery := mkDelegationTotalRewardsQuery {
  DelegationTotalRewardsQuery_DelegatorAddress : string }.
Definition DelegationTotalRewardsQuery_eta (x : DelegationTotalRewardsQuery) : DelegationTotalRewardsQuery :=
  mkDelegationTotalRewardsQuery (DelegationTotalRewardsQuery_DelegatorAddress x).
Definition DelegationTotalRewardsQuery_codec : codec DelegationTotalRewardsQuery :=
  c_struct (mkDelegationTotalRewardsQuery EmptyString)
  [ field! DelegationTotalRewardsQuery_eta "delegator_address" c_string DelegationTotalRewardsQuery_DelegatorAddress ].
#[export] Instance DelegationTotalRewardsQuery_JSON : JSONType DelegationTotalRewardsQuery := DelegationTotalRewardsQuery_codec.

Record DelegatorValidatorsQuery := mkDelegatorValidatorsQuery {
  DelegatorValidatorsQuery_DelegatorAddress : string }.
Definition DelegatorValidatorsQuery_eta (x : DelegatorValidatorsQuery) : DelegatorValidatorsQuery :=
  mkDelegatorValidatorsQuery (DelegatorValidatorsQuery_DelegatorAddress x).
Definition DelegatorValidatorsQuery_codec : codec DelegatorValidatorsQuery :=
  c_struct (mkDelegatorValidatorsQuery EmptyString)
  [ field! DelegatorValidatorsQuery_eta "delegator_address" c_string DelegatorValidatorsQuery_DelegatorAddress ].
#[export] Instance DelegatorValidatorsQuery_JSON : JSONType DelegatorValidatorsQuery := DelegatorValidatorsQuery_codec.

Record DistributionQuery := mkDistributionQuery {
  DistributionQuery_DelegatorWithdrawAddress : option DelegatorWithdrawAddressQuery;
  DistributionQuery_DelegationRewards : option DelegationRewardsQuery;
  DistributionQuery_DelegationTotalRewards : option DelegationTotalRewardsQuery;
  DistributionQuery_DelegatorValidators : option DelegatorValidatorsQuery }.
Definition DistributionQuery_eta (x : DistributionQuery) : DistributionQuery :=
  mkDistributionQuery (DistributionQuery_DelegatorWithdrawAddress x)
    (DistributionQuery_DelegationRewards x) (DistributionQuery_DelegationTotalRewards x)
    (DistributionQuery_DelegatorValidators x).
Definition DistributionQuery_codec : codec DistributionQuery :=
  c_struct (mkDistributionQuery None None None None)
  [ omitempty! DistributionQuery_eta "delegator_withdraw_address" (c_ptr DelegatorWithdrawAddressQuery_codec) DistributionQuery_DelegatorWithdrawAddress;
    omitempty! DistributionQuery_eta "delegation_rewards" (c_ptr DelegationRewardsQuery_codec) DistributionQuery_DelegationRewards;
    omitempty! DistributionQuery_eta "delegation_total_rewards" (c_ptr DelegationTotalRewardsQuery_codec) DistributionQuery_DelegationTotalRewards;
    omitempty! DistributionQuery_eta "delegator_validators" (c_ptr DelegatorValidatorsQuery_codec) DistributionQuery_DelegatorValidators ].
#[export] Instance DistributionQuery_JSON : JSONType DistributionQuery := DistributionQuery_codec.

Record StargateQuery := mkStargateQuery {
  StargateQuery_Data : bytes;
  StargateQuery_Path : string }.
Definition StargateQuery_eta (x : StargateQuery) : StargateQuery :=
  mkStargateQuery (StargateQuery_Data x) (StargateQuery_Path x).
Definition StargateQuery_codec : codec StargateQuery :=
  c_struct (mkStargateQuery None EmptyString)
  [ field! StargateQuery_eta "data" c_bytes StargateQuery_Data;
    field! StargateQuery_eta "path" c_string StargateQuery_Path ].
#[export] Instance StargateQuery_JSON : JSONType StargateQuery := StargateQuery_codec.

Record GrpcQuery := mkGrpcQuery {
  GrpcQuery_Data : bytes;
  GrpcQuery_Path : string }.
Definition GrpcQuery_eta (x : GrpcQuery) : GrpcQuery :=
  mkGrpcQuery (GrpcQuery_Data x) (GrpcQuery_Path x).
Definition GrpcQuery_codec : codec GrpcQuery :=
  c_struct (mkGrpcQuery None EmptyString)
  [ field! GrpcQuery_eta "data" c_bytes GrpcQuery_Data;
    field! GrpcQuery_eta "path" c_string GrpcQuery_Path ].
#[export] Instance GrpcQuery_JSON : JSONType GrpcQuery := GrpcQuery_codec.

Record SmartQuery := mkSmartQuery {
  SmartQuery_ContractAddr : string;
  SmartQuery_Msg : bytes }.
Definition SmartQuery_eta (x : SmartQuery) : SmartQuery :=
  mkSmartQuery (SmartQuery_ContractAddr x) (SmartQuery_Msg x).
Definition SmartQuery_codec : codec SmartQuery :=
  c_struct (mkSmartQuery EmptyString None)
  [ field! SmartQuery_eta "contract_addr" c_string SmartQuery_ContractAddr;
    field! SmartQuery_eta "msg" c_bytes SmartQuery_Msg ].
#[export] Instance SmartQuery_JSON : JSONType SmartQuery := SmartQuery_codec.

Record RawQuery := mkRawQuery {
  RawQuery_ContractAddr : string;
  RawQuery_Key : bytes }.
Definition RawQuery_eta (x : RawQuery) : RawQuery :=
  mkRawQuery (RawQuery_ContractAddr x) (RawQuery_Key x).
Definition RawQuery_codec : codec RawQuery :=
  c_struct (mkRawQuery EmptyString None)
  [ field! RawQuery_eta "contract_addr" c_string RawQuery_ContractAddr;
    field! RawQuery_eta "key" c_bytes RawQuery_Key ].
#[export] Instance RawQuery_JSON : JSONType RawQuery := RawQuery_codec.

Record ContractInfoQuery := mkContractInfoQuery {
  ContractInfoQuery_ContractAddr : string }.
Definition ContractInfoQuery_eta (x : ContractInfoQuery) : ContractInfoQuery :=
  mkContractInfoQuery (ContractInfoQuery_ContractAddr x).
Definition ContractInfoQuery_codec : codec ContractInfoQuery :=
  c_struct (mkContractInfoQuery EmptyString)
  [ field! ContractInfoQuery_eta "contract_addr" c_string ContractInfoQuery_ContractAddr ].
#[export] Instance ContractInfoQuery_JSON : JSONType ContractInfoQuery := ContractInfoQuery_codec.

Record CodeInfoQuery := mkCodeInfoQuery {
  CodeInfoQuery_CodeID : Z }.
Definition CodeInfoQuery_eta (x : CodeInfoQuery) : CodeInfoQuery :=
  mkCodeInfoQuery (CodeInfoQuery_CodeID x).
Definition CodeInfoQuery_codec : codec CodeInfoQuery :=
  c_struct (mkCodeInfoQuery 0)
  [ field! CodeInfoQuery_eta "code_id" c_uint64 CodeInfoQuery_CodeID ].
#[export] Instance CodeInfoQuery_JSON : JSONType CodeInfoQuery := CodeInfoQuery_codec.

Record RawRangeQuery := mkRawRangeQuery {
  RawRangeQuery_ContractAddr : string;
  RawRangeQuery_Start : bytes;
  RawRangeQuery_End : bytes;
  RawRangeQuery_Limit : Z;
  RawRangeQuery_Order : string }.
Definition RawRangeQuery_eta (x : RawRangeQuery) : RawRangeQuery :=
  mkRawRangeQuery (RawRangeQuery_ContractAddr x) (RawRangeQuery_Start x) (RawRangeQuery_End x)
    (RawRangeQuery_Limit x) (RawRangeQuery_Order x).
Definition RawRangeQuery_codec : codec RawRangeQuery :=
  c_struct (mkRawRangeQuery EmptyString None None 0 EmptyString)
  [ field! RawRangeQuery_eta "contract_addr" c_string RawRangeQuery_ContractAddr;
    omitempty! RawRangeQuery_eta "start" c_bytes RawRangeQuery_Start;
    omitempty! RawRangeQuery_eta "end" c_bytes RawRangeQuery_End;
    field! RawRangeQuery_eta "limit" c_uint16 RawRangeQuery_Limit;
    field! RawRangeQuery_eta "order" c_string RawRangeQuery_Order ].
#[export] Instance RawRangeQuery_JSON : JSONType RawRangeQuery := RawRangeQuery_codec.

Record WasmQuery := mkWasmQuery {
  WasmQuery_Smart : option SmartQuery;
  WasmQuery_Raw : option RawQuery;
  WasmQuery_ContractInfo : option ContractInfoQuery;
  WasmQuery_CodeInfo : option CodeInfoQuery;
  WasmQuery_RawRange : option RawRangeQuery }.
Definition WasmQuery_eta (x : WasmQuery) : WasmQuery :=
  mkWasmQuery (WasmQuery_Smart x) (WasmQuery_Raw x) (WasmQuery_ContractInfo x)
    (WasmQuery_CodeInfo x) (WasmQuery_RawRange x).
Definition WasmQuery_codec : codec WasmQuery :=
  c_struct (mkWasmQuery None None None None None)
  [ omitempty! WasmQuery_eta "smart" (c_ptr SmartQuery_codec) WasmQuery_Smart;
    omitempty! WasmQuery_eta "raw" (c_ptr RawQuery_codec) WasmQuery_Raw;
    omitempty! WasmQuery_eta "contract_info" (c_ptr ContractInfoQuery_codec) WasmQuery_ContractInfo;
    omitempty! WasmQuery_eta "code_info" (c_ptr CodeInfoQuery_codec) WasmQuery_CodeInfo;
    omitempty! WasmQuery_eta "raw_range" (c_ptr RawRangeQuery_codec) WasmQuery_RawRange ].
#[export] Instance WasmQuery_JSON : JSONType WasmQuery := WasmQuery_codec.

Record QueryRequest := mkQueryRequest {
  QueryRequest_Bank : option BankQuery;
  QueryRequest_Custom : bytes;
  QueryRequest_IBC : option IBCQuery;
  QueryRequest_Staking : option StakingQuery;
  QueryRequest_Distribution : option DistributionQuery;
  QueryRequest_Stargate : option StargateQuery;
  QueryRequest_Grpc : option GrpcQuery;
  QueryRequest_Wasm : option WasmQuery }.
Definition QueryRequest_eta (x : QueryRequest) : QueryRequest :=
  mkQueryRequest (QueryRequest_Bank x) (QueryRequest_Custom x) (QueryRequest_IBC x)
    (QueryRequest_Staking x) (QueryRequest_Distribution x) (QueryRequest_Stargate x)
    (QueryRequest_Grpc x) (QueryRequest_Wasm x).
Definition QueryRequest_codec : codec QueryRequest :=
  c_struct (mkQueryRequest None None None None None None None None)
  [ omitempty! QueryRequest_eta "bank" (c_ptr BankQuery_codec) QueryRequest_Bank;
    omitempty! QueryRequest_eta "custom" c_raw QueryRequest_Custom;
    omitempty! QueryRequest_eta "ibc" (c_ptr IBCQuery_codec) QueryRequest_IBC;
    omitempty! QueryRequest_eta "staking" (c_ptr StakingQuery_codec) QueryRequest_Staking;
    omitempty! QueryRequest_eta "distribution" (c_ptr DistributionQuery_codec) QueryRequest_Distribution;
    omitempty! QueryRequest_eta "stargate" (c_ptr StargateQuery_codec) QueryRequest_Stargate;
    omitempty! QueryRequest_eta "grpc" (c_ptr GrpcQuery_codec) QueryRequest_Grpc;
    omitempty! QueryRequest_eta "wasm" (c_ptr WasmQuery_codec) QueryRequest_Wasm ].
#[export] Instance QueryRequest_JSON : JSONType QueryRequest := QueryRequest_codec.

Record SupplyResponse := mkSupplyResponse {
  SupplyResponse_Amount : Coin }.
Definition SupplyResponse_eta (x : SupplyResponse) : SupplyResponse :=
  mkSupplyResponse (SupplyResponse_Amount x).
Definition SupplyResponse_codec : codec SupplyResponse :=
  c_struct (mkSupplyResponse (zero Coin_codec))
  [ field! SupplyResponse_eta "amount" Coin_codec SupplyResponse_Amount ].
#[export] Instance SupplyResponse_JSON : JSONType SupplyResponse := SupplyResponse_codec.

Record BalanceResponse := mkBalanceResponse {
  BalanceResponse_Amount : Coin }.
Definition BalanceResponse_eta (x : BalanceResponse) : BalanceResponse :=
  mkBalanceResponse (BalanceResponse_Amount x).
Definition BalanceResponse_codec : codec BalanceResponse :=
  c_struct (mkBalanceResponse (zero Coin_codec))
  [ field! BalanceResponse_eta "amount" Coin_codec BalanceResponse_Amount ].
#[export] Instance BalanceResponse_JSON : JSONType BalanceResponse := BalanceResponse_codec.

Record AllBalancesResponse := mkAllBalancesResponse {
  AllBalancesResponse_Amount : Array Coin }.
Definition AllBalancesResponse_eta (x : AllBalancesResponse) : AllBalancesResponse :=
  mkAllBalancesResponse (AllBalancesResponse_Amount x).
Definition AllBalancesResponse_codec : codec AllBalancesResponse :=
  c_struct (mkAllBalancesResponse None)
  [ field! AllBalancesResponse_eta "amount" (c_Array Coin_codec) AllBalancesResponse_Amount ].
#[export] Instance AllBalancesResponse_JSON : JSONType AllBalancesResponse := AllBalancesResponse_codec.

Record DenomMetadataResponse := mkDenomMetadataResponse {
  DenomMetadataResponse_Metadata : DenomMetadata }.
Definition DenomMetadataResponse_eta (x : DenomMetadataResponse) : DenomMetadataResponse :=
  mkDenomMetadataResponse (DenomMetadataResponse_Metadata x).
Definition DenomMetadataResponse_codec : codec DenomMetadataResponse :=
  c_struct (mkDenomMetadataResponse (zero DenomMetadata_codec))
  [ field! DenomMetadataResponse_eta "metadata" DenomMetadata_codec DenomMetadataResponse_Metadata ].
#[export] Instance DenomMetadataResponse_JSON : JSONType DenomMetadataResponse := DenomMetadataResponse_codec.

Record AllDenomMetadataResponse := mkAllDenomMetadataResponse {
  AllDenomMetadataResponse_Metadata : option (list DenomMetadata);
  AllDenomMetadataResponse_NextKey : bytes }.
Definition AllDenomMetadataResponse_eta (x : AllDenomMetadataResponse) : AllDenomMetadataResponse :=
  mkAllDenomMetadataResponse (AllDenomMetadataResponse_Metadata x)
    (AllDenomMetadataResponse_NextKey x).
Definition AllDenomMetadataResponse_codec : codec AllDenomMetadataResponse :=
  c_struct (mkAllDenomMetadataResponse None None)
  [ field! AllDenomMetadataResponse_eta "metadata" (c_slice DenomMetadata_codec) AllDenomMetadataResponse_Metadata;
    omitempty! AllDenomMetadataResponse_eta "next_key" c_bytes AllDenomMetadataResponse_NextKey ].
#[export] Instance AllDenomMetadataResponse_JSON : JSONType AllDenomMetadataResponse := AllDenomMetadataResponse_codec.

Record PortIDResponse := mkPortIDResponse {
  PortIDResponse_PortID : string }.
Definition PortIDResponse_eta (x : PortIDResponse) : PortIDResponse :=
  mkPortIDResponse (PortIDResponse_PortID x).
Definition PortIDResponse_codec : codec PortIDResponse :=
  c_struct (mkPortIDResponse EmptyString)
  [ field! PortIDResponse_eta "port_id" c_string PortIDResponse_PortID ].
#[export] Instance PortIDResponse_JSON : JSONType PortIDResponse := PortIDResponse_codec.

Record ListChannelsResponse := mkListChannelsResponse {
  ListChannelsResponse_Channels : Array IBCChannel }.
Definition ListChannelsResponse_eta (x : ListChannelsResponse) : ListChannelsResponse :=
  mkListChannelsResponse (ListChannelsResponse_Channels x).
Definition ListChannelsResponse_codec : codec ListChannelsResponse :=
  c_struct (mkListChannelsResponse None)
  [ field! ListChannelsResponse_eta "channels" (c_Array IBCChannel_codec) ListChannelsResponse_Channels ].
#[export] Instance ListChannelsResponse_JSON : JSONType ListChannelsResponse := ListChannelsResponse_codec.

Record ChannelResponse := mkChannelResponse {
  ChannelResponse_Channel : option IBCChannel }.
Definition ChannelResponse_eta (x : ChannelResponse) : ChannelResponse :=
  mkChannelResponse (ChannelResponse_Channel x).
Definition ChannelResponse_codec : codec ChannelResponse :=
  c_struct (mkChannelResponse None)
  [ omitempty! ChannelResponse_eta "channel" (c_ptr IBCChannel_codec) ChannelResponse_Channel ].
#[export] Instance ChannelResponse_JSON : JSONType ChannelResponse := ChannelResponse_codec.

Record Validator := mkValidator {
  Validator_Address : string;
  Validator_Commission : string;
  Validator_MaxCommission : string;
  Validator_MaxChangeRate : string }.
Definition Validator_eta (x : Validator) : Validator :=
  mkValidator (Validator_Address x) (Validator_Commission x) (Validator_MaxCommission x)
    (Validator_MaxChangeRate x).
Definition Validator_codec : codec Validator :=
  c_struct (mkValidator EmptyString EmptyString EmptyString EmptyString)
  [ field! Validator_eta "address" c_string Validator_Address;
    field! Validator_eta "commission" c_string Validator_Commission;
    field! Validator_eta "max_commission" c_string Validator_MaxCommission;
    field! Validator_eta "max_change_rate" c_string Validator_MaxChangeRate ].
#[export] Instance Validator_JSON : JSONType Validator := Validator_codec.

Record AllValidatorsResponse := mkAllValidatorsResponse {
  AllValidatorsResponse_Validators : Array Validator }.
Definition AllValidatorsResponse_eta (x : AllValidatorsResponse) : AllValidatorsResponse :=
  mkAllValidatorsResponse (AllValidatorsResponse_Validators x).
Definition AllValidatorsResponse_codec : codec AllValidatorsResponse :=
  c_struct (mkAllValidatorsResponse None)
  [ field! AllValidatorsResponse_eta "validators" (c_Array Validator_codec) AllValidatorsResponse_Validators ].
#[export] Instance AllValidatorsResponse_JSON : JSONType AllValidatorsResponse := AllValidatorsResponse_codec.

Record ValidatorResponse := mkValidatorResponse {
  ValidatorResponse_Validator : option Validator }.
Definition ValidatorResponse_eta (x : ValidatorResponse) : ValidatorResponse :=
  mkValidatorResponse (ValidatorResponse_Validator x).
Definition ValidatorResponse_codec : codec ValidatorResponse :=
  c_struct (mkValidatorResponse None)
  [ field! ValidatorResponse_eta "validator" (c_ptr Validator_codec) ValidatorResponse_Validator ].
#[export] Instance ValidatorResponse_JSON : JSONType ValidatorResponse := ValidatorResponse_codec.

Record Delegation := mkDelegation {
  Delegation_Delegator : string;
  Delegation_Validator : string;
  Delegation_Amount : Coin }.
Definition Delegation_eta (x : Delegation) : Delegation :=
  mkDelegation (Delegation_Delegator x) (Delegation_Validator x) (Delegation_Amount x).
Definition Delegation_codec : codec Delegation :=
  c_struct (mkDelegation EmptyString EmptyString (zero Coin_codec))
  [ field! Delegation_eta "delegator" c_string Delegation_Delegator;
    field! Delegation_eta "validator" c_string Delegation_Validator;
    field! Delegation_eta "amount" Coin_codec Delegation_Amount ].
#[export] Instance Delegation_JSON : JSONType Delegation := Delegation_codec.

Record AllDelegationsResponse := mkAllDelegationsResponse {
  AllDelegationsResponse_Delegations : Array Delegation }.
Definition AllDelegationsResponse_eta (x : AllDelegationsResponse) : AllDelegationsResponse :=
  mkAllDelegationsResponse (AllDelegationsResponse_Delegations x).
Definition AllDelegationsResponse_codec : codec AllDelegationsResponse :=
  c_struct (mkAllDelegationsResponse None)
  [ field! AllDelegationsResponse_eta "delegations" (c_Array Delegation_codec) AllDelegationsResponse_Delegations ].
#[export] Instance AllDelegationsResponse_JSON : JSONType AllDelegationsResponse := AllDelegationsResponse_codec.

Record DelegatorWithdrawAddressResponse := mkDelegatorWithdrawAddressResponse {
  DelegatorWithdrawAddressResponse_WithdrawAddress : string }.
Definition DelegatorWithdrawAddressResponse_eta (x : DelegatorWithdrawAddressResponse) : DelegatorWithdrawAddressResponse :=
  mkDelegatorWithdrawAddressResponse (DelegatorWithdrawAddressResponse_WithdrawAddress x).
Definition DelegatorWithdrawAddressResponse_codec : codec DelegatorWithdrawAddressResponse :=
  c_struct (mkDelegatorWithdrawAddressResponse EmptyString)
  [ field! DelegatorWithdrawAddressResponse_eta "withdraw_address" c_string DelegatorWithdrawAddressResponse_WithdrawAddress ].
#[export] Instance DelegatorWithdrawAddressResponse_JSON : JSONType DelegatorWithdrawAddressResponse := DelegatorWithdrawAddressResponse_codec.

Record DelegationRewardsResponse := mkDelegationRewardsResponse {
  DelegationRewardsResponse_Rewards : option (list DecCoin) }.
Definition DelegationRewardsResponse_eta (x : DelegationRewardsResponse) : DelegationRewardsResponse :=
  mkDelegationRewardsResponse (DelegationRewardsResponse_Rewards x).
Definition DelegationRewardsResponse_codec : codec DelegationRewardsResponse :=
  c_struct (mkDelegationRewardsResponse None)
  [ field! DelegationRewardsResponse_eta "rewards" (c_slice DecCoin_codec) DelegationRewardsResponse_Rewards ].
#[export] Instance DelegationRewardsResponse_JSON : JSONType DelegationRewardsResponse := DelegationRewardsResponse_codec.

Record DelegatorReward := mkDelegatorReward {
  DelegatorReward_Reward : option (list DecCoin);
  DelegatorReward_ValidatorAddress : string }.
Definition DelegatorReward_eta (x : DelegatorReward) : DelegatorReward :=
  mkDelegatorReward (DelegatorReward_Reward x) (DelegatorReward_ValidatorAddress x).
Definition DelegatorReward_codec : codec DelegatorReward :=
  c_struct (mkDelegatorReward None EmptyString)
  [ field! DelegatorReward_eta "reward" (c_slice DecCoin_codec) DelegatorReward_Reward;
    field! DelegatorReward_eta "validator_address" c_string DelegatorReward_ValidatorAddress ].
#[export] Instance DelegatorReward_JSON : JSONType DelegatorReward := DelegatorReward_codec.

Record DelegationTotalRewardsResponse := mkDelegationTotalRewardsResponse {
  DelegationTotalRewardsResponse_Rewards : option (list DelegatorReward);
  DelegationTotalRewardsResponse_Total : option (list DecCoin) }.
Definition DelegationTotalRewardsResponse_eta (x : DelegationTotalRewardsResponse) : DelegationTotalRewardsResponse :=
  mkDelegationTotalRewardsResponse (DelegationTotalRewardsResponse_Rewards x)
    (DelegationTotalRewardsResponse_Total x).
Definition DelegationTotalRewardsResponse_codec : codec DelegationTotalRewardsResponse :=
  c_struct (mkDelegationTotalRewardsResponse None None)
  [ field! DelegationTotalRewardsResponse_eta "rewards" (c_slice DelegatorReward_codec) DelegationTotalRewardsResponse_Rewards;
    field! DelegationTotalRewardsResponse_eta "total" (c_slice DecCoin_codec) DelegationTotalRewardsResponse_Total ].
#[export] Instance DelegationTotalRewardsResponse_JSON : JSONType DelegationTotalRewardsResponse := DelegationTotalRewardsResponse_codec.

Record DelegatorValidatorsResponse := mkDelegatorValidatorsResponse {
  DelegatorValidatorsResponse_Validators : option (list string) }.
Definition DelegatorValidatorsResponse_eta (x : DelegatorValidatorsResponse) : DelegatorValidatorsResponse :=
  mkDelegatorValidatorsResponse (DelegatorValidatorsResponse_Validators x).
Definition DelegatorValidatorsResponse_codec : codec DelegatorValidatorsResponse :=
  c_struct (mkDelegatorValidatorsResponse None)
  [ field! DelegatorValidatorsResponse_eta "validators" (c_slice c_string) DelegatorValidatorsResponse_Validators ].
#[export] Instance DelegatorValidatorsResponse_JSON : JSONType DelegatorValidatorsResponse := DelegatorValidatorsResponse_codec.

Record FullDelegation := mkFullDelegation {
  FullDelegation_Delegator : string;
  FullDelegation_Validator : string;
  FullDelegation_Amount : Coin;
  FullDelegation_AccumulatedRewards : Array Coin;
  FullDelegation_CanRedelegate : Coin }.
Definition FullDelegation_eta (x : FullDelegation) : FullDelegation :=
  mkFullDelegation (FullDelegation_Delegator x) (FullDelegation_Validator x)
    (FullDelegation_Amount x) (FullDelegation_AccumulatedRewards x)
    (FullDelegation_CanRedelegate x).
Definition FullDelegation_codec : codec FullDelegation :=
  c_struct (mkFullDelegation EmptyString EmptyString (zero Coin_codec) None (zero Coin_codec))
  [ field! FullDelegation_eta "delegator" c_string FullDelegation_Delegator;
    field! FullDelegation_eta "validator" c_string FullDelegation_Validator;
    field! FullDelegation_eta "amount" Coin_codec FullDelegation_Amount;
    field! FullDelegation_eta "accumulated_rewards" (c_Array Coin_codec) FullDelegation_AccumulatedRewards;
    field! FullDelegation_eta "can_redelegate" Coin_codec FullDelegation_CanRedelegate ].
#[export] Instance FullDelegation_JSON : JSONType FullDelegation := FullDelegation_codec.

Record DelegationResponse := mkDelegationResponse {
  DelegationResponse_Delegation : option FullDelegation }.
Definition DelegationResponse_eta (x : DelegationResponse) : DelegationResponse :=
  mkDelegationResponse (DelegationResponse_Delegation x).
Definition DelegationResponse_codec : codec DelegationResponse :=
  c_struct (mkDelegationResponse None)
  [ omitempty! DelegationResponse_eta "delegation" (c_ptr FullDelegation_codec) DelegationResponse_Delegation ].
#[export] Instance DelegationResponse_JSON : JSONType DelegationResponse := DelegationResponse_codec.

Record BondedDenomResponse := mkBondedDenomResponse {
  BondedDenomResponse_Denom : string }.
Definition BondedDenomResponse_eta (x : BondedDenomResponse) : BondedDenomResponse :=
  mkBondedDenomResponse (BondedDenomResponse_Denom x).
Definition BondedDenomResponse_codec : codec BondedDenomResponse :=
  c_struct (mkBondedDenomResponse EmptyString)
  [ field! BondedDenomResponse_eta "denom" c_string BondedDenomResponse_Denom ].
#[export] Instance BondedDenomResponse_JSON : JSONType BondedDenomResponse := BondedDenomResponse_codec.

Record RawRangeEntry := mkRawRangeEntry {
  RawRangeEntry_Key : bytes;
  RawRangeEntry_Value : bytes }.

Definition RawRangeEntry_MarshalJSON (r : RawRangeEntry) : json :=
  enc (c_slice c_bytes) (Some [RawRangeEntry_Key r; RawRangeEntry_Value r]).

Definition RawRangeEntry_UnmarshalJSON (data : json) : outcome (json_error + RawRangeEntry) :=
  let% r := unmarshal (c_slice c_bytes) data in
  match r with
  | inl err => Ret (inl err)
  | inr arr =>
    match default [] arr with
    | [k; v] => Ret (inr (mkRawRangeEntry k v))
    | l => Ret (inl (CustomError ("invalid RawRange entry: expected array of length 2, got " +:+
             Strconv.FormatInt (zlen l))))
    end
  end.

Definition RawRangeEntry_codec : codec RawRangeEntry :=
  c_custom (mkRawRangeEntry None None) RawRangeEntry_MarshalJSON
    (fun j _ => RawRangeEntry_UnmarshalJSON j) (fun _ => false) (fun _ => True).
#[export] Instance RawRangeEntry_JSON : JSONType RawRangeEntry := RawRangeEntry_codec.

Record RawRangeResponse := mkRawRangeResponse {
  RawRangeResponse_Data : Array RawRangeEntry;
  RawRangeResponse_NextKey : bytes }.
Definition RawRangeResponse_eta (x : RawRangeResponse) : RawRangeResponse :=
  mkRawRangeResponse (RawRangeResponse_Data x) (RawRangeResponse_NextKey x).
Definition RawRangeResponse_codec : codec RawRangeResponse :=
  c_struct (mkRawRangeResponse None None)
  [ field! RawRangeResponse_eta "data" (c_Array RawRangeEntry_codec) RawRangeResponse_Data;
    field! RawRangeResponse_eta "next_key" c_bytes RawRangeResponse_NextKey ].
#[export] Instance RawRangeResponse_JSON : JSONType RawRangeResponse := RawRangeResponse_codec.

Record ContractInfoResponse := mkContractInfoResponse {
  ContractInfoResponse_CodeID : Z;
  ContractInfoResponse_Creator : string;
  ContractInfoResponse_Admin : string;
  ContractInfoResponse_Pinned : bool;
  ContractInfoResponse_IBCPort : string;
  ContractInfoResponse_IBC2Port : string }.
Definition ContractInfoResponse_eta (x : ContractInfoResponse) : ContractInfoResponse :=
  mkContractInfoResponse (ContractInfoResponse_CodeID x) (ContractInfoResponse_Creator x)
    (ContractInfoResponse_Admin x) (ContractInfoResponse_Pinned x)
    (ContractInfoResponse_IBCPort x) (ContractInfoResponse_IBC2Port x).
Definition ContractInfoResponse_codec : codec ContractInfoResponse :=
  c_struct (mkContractInfoResponse 0 EmptyString EmptyString false EmptyString EmptyString)
  [ field! ContractInfoResponse_eta "code_id" c_uint64 ContractInfoResponse_CodeID;
    field! ContractInfoResponse_eta "creator" c_string ContractInfoResponse_Creator;
    omitempty! ContractInfoResponse_eta "admin" c_string ContractInfoResponse_Admin;
    field! ContractInfoResponse_eta "pinned" c_bool ContractInfoResponse_Pinned;
    omitempty! ContractInfoResponse_eta "ibc_port" c_string ContractInfoResponse_IBCPort;
    omitempty! ContractInfoResponse_eta "ibc2_port" c_string ContractInfoResponse_IBC2Port ].
#[export] Instance ContractInfoResponse_JSON : JSONType ContractInfoResponse := ContractInfoResponse_codec.

Record CodeInfoResponse := mkCodeInfoResponse {
  CodeInfoResponse_CodeID : Z;
  CodeInfoResponse_Creator : string;
  CodeInfoResponse_Checksum : Checksum }.
Definition CodeInfoResponse_eta (x : CodeInfoResponse) : CodeInfoResponse :=
  mkCodeInfoResponse (CodeInfoResponse_CodeID x) (CodeInfoResponse_Creator x)
    (CodeInfoResponse_Checksum x).
Definition CodeInfoResponse_codec : codec CodeInfoResponse :=
  c_struct (mkCodeInfoResponse 0 EmptyString None)
  [ field! CodeInfoResponse_eta "code_id" c_uint64 CodeInfoResponse_CodeID;
    field! CodeInfoResponse_eta "creator" c_string CodeInfoResponse_Creator;
    field! CodeInfoResponse_eta "checksum" c_Checksum CodeInfoResponse_Checksum ].
#[export] Instance CodeInfoResponse_JSON : JSONType CodeInfoResponse := CodeInfoResponse_codec.

(** ** The querier *)

Definition ToQuerierResult `{ErrorTexts} (response : bytes) (err : option error) :
    outcome QuerierResult :=
  match err with
  | None => Ret (mkQuerierResult (Some (mkQueryResult response "")) None)
  | Some e =>
    match ToSystemError err with
    | Some syserr => Ret (mkQuerierResult None (Some syserr))
    | None =>
      let% text := Error e in
      Ret (mkQuerierResult (Some (mkQueryResult None text)) None)
    end
  end.

(** [query] is the [Query] method of the querier. *)
Definition RustQuery `{ErrorTexts} {S} (query : QueryRequest -> Z -> GoM S (bytes * option error))
    (binRequest : bytes) (gasLimit : Z) : GoM S QuerierResult :=
  r ← glift (Unmarshal (string_of_bytes binRequest));
  match r with
  | inl err =>
    mret (mkQuerierResult None (Some (mkSystemError
      (Some (mkInvalidRequest (json_error_text err) binRequest)) None None None None None)))
  | inr request =>
    answer ← query request gasLimit;
    glift (ToQuerierResult answer.1 answer.2)
  end.

(** ** Round trips *)

#[export] Hint Opaque c_empty_struct QueryResult_codec QuerierResult_codec SupplyQuery_codec
  BalanceQuery_codec AllBalancesQuery_codec DenomMetadataQuery_codec AllDenomMetadataQuery_codec
  BankQuery_codec PortIDQuery_codec ListChannelsQuery_codec ChannelQuery_codec IBCQuery_codec
  AllValidatorsQuery_codec ValidatorQuery_codec AllDelegationsQuery_codec DelegationQuery_codec
  StakingQuery_codec DelegatorWithdrawAddressQuery_codec DelegationRewardsQuery_codec
  DelegationTotalRewardsQuery_codec DelegatorValidatorsQuery_codec DistributionQuery_codec
  StargateQuery_codec GrpcQuery_codec SmartQuery_codec RawQuery_codec ContractInfoQuery_codec
  CodeInfoQuery_codec RawRangeQuery_codec WasmQuery_codec QueryRequest_codec
  SupplyResponse_codec BalanceResponse_codec AllBalancesResponse_codec
  DenomMetadataResponse_codec AllDenomMetadataResponse_codec PortIDResponse_codec
  ListChannelsResponse_codec ChannelResponse_codec Validator_codec AllValidatorsResponse_codec
  ValidatorResponse_codec Delegation_codec AllDelegationsResponse_codec
  DelegatorWithdrawAddressResponse_codec DelegationRewardsResponse_codec DelegatorReward_codec
  DelegationTotalRewardsResponse_codec DelegatorValidatorsResponse_codec FullDelegation_codec
  DelegationResponse_codec BondedDenomResponse_codec RawRangeEntry_codec RawRangeResponse_codec
  ContractInfoResponse_codec CodeInfoResponse_codec : typeclass_instances.

#[export] Instance c_empty_struct_rt : RoundTrip c_empty_struct.
Proof. by intros [] _. Qed.

#[export] Instance queryResultImpl_rt : RoundTrip queryResultImpl_codec.
Proof. solve_struct_rt queryResultImpl_codec. Qed.
#[export] Instance QueryResult_rt : RoundTrip QueryResult_codec.
Proof.
  intros [ok err] Hw. cbn [QueryResult_codec enc dec zero wf QueryResult_Ok QueryResult_Err] in *.
  unfold QueryResult_MarshalJSON. cbn [QueryResult_Ok QueryResult_Err].
  destruct ok as [[|c ok]|], err as [|d err]; try done;
    first [by destruct Hw | by apply queryResultImpl_rt; repeat constructor].
Qed.
#[export] Instance QuerierResult_rt : RoundTrip QuerierResult_codec.
Proof. solve_struct_rt QuerierResult_codec. Qed.
#[export] Instance SupplyQuery_rt : RoundTrip SupplyQuery_codec.
Proof. solve_struct_rt SupplyQuery_codec. Qed.
#[export] Instance BalanceQuery_rt : RoundTrip BalanceQuery_codec.
Proof. solve_struct_rt BalanceQuery_codec. Qed.
#[export] Instance AllBalancesQuery_rt : RoundTrip AllBalancesQuery_codec.
Proof. solve_struct_rt AllBalancesQuery_codec. Qed.
#[export] Instance DenomMetadataQuery_rt : RoundTrip DenomMetadataQuery_codec.
Proof. solve_struct_rt DenomMetadataQuery_codec. Qed.
#[export] Instance AllDenomMetadataQuery_rt : RoundTrip AllDenomMetadataQuery_codec.
Proof. solve_struct_rt AllDenomMetadataQuery_codec. Qed.
#[export] Instance BankQuery_rt : RoundTrip BankQuery_codec.
Proof. solve_struct_rt BankQuery_codec. Qed.
#[export] Instance PortIDQuery_rt : RoundTrip PortIDQuery_codec.
Proof. solve_struct_rt PortIDQuery_codec. Qed.
#[export] Instance ListChannelsQuery_rt : RoundTrip ListChannelsQuery_codec.
Proof. solve_struct_rt ListChannelsQuery_codec. Qed.
#[export] Instance ChannelQuery_rt : RoundTrip ChannelQuery_codec.
Proof. solve_struct_rt ChannelQuery_codec. Qed.
#[export] Instance IBCQuery_rt : RoundTrip IBCQuery_codec.
Proof. solve_struct_rt IBCQuery_codec. Qed.
#[export] Instance AllValidatorsQuery_rt : RoundTrip AllValidatorsQuery_codec.
Proof. solve_struct_rt AllValidatorsQuery_codec. Qed.
#[export] Instance ValidatorQuery_rt : RoundTrip ValidatorQuery_codec.
Proof. solve_struct_rt ValidatorQuery_codec. Qed.
#[export] Instance AllDelegationsQuery_rt : RoundTrip AllDelegationsQuery_codec.
Proof. solve_struct_rt AllDelegationsQuery_codec. Qed.
#[export] Instance DelegationQuery_rt : RoundTrip DelegationQuery_codec.
Proof. solve_struct_rt DelegationQuery_codec. Qed.
#[export] Instance StakingQuery_rt : RoundTrip StakingQuery_codec.
Proof. solve_struct_rt StakingQuery_codec. Qed.
#[export] Instance DelegatorWithdrawAddressQuery_rt : RoundTrip DelegatorWithdrawAddressQuery_codec.
Proof. solve_struct_rt DelegatorWithdrawAddressQuery_codec. Qed.
#[export] Instance DelegationRewardsQuery_rt : RoundTrip DelegationRewardsQuery_codec.
Proof. solve_struct_rt DelegationRewardsQuery_codec. Qed.
#[export] Instance DelegationTotalRewardsQuery_rt : RoundTrip DelegationTotalRewardsQuery_codec.
Proof. solve_struct_rt DelegationTotalRewardsQuery_codec. Qed.
#[export] Instance DelegatorValidatorsQuery_rt : RoundTrip DelegatorValidatorsQuery_codec.
Proof. solve_struct_rt DelegatorValidatorsQuery_codec. Qed.
#[export] Instance DistributionQuery_rt : RoundTrip DistributionQuery_codec.
Proof. solve_struct_rt DistributionQuery_codec. Qed.
#[export] Instance StargateQuery_rt : RoundTrip StargateQuery_codec.
Proof. solve_struct_rt StargateQuery_codec. Qed.
#[export] Instance GrpcQuery_rt : RoundTrip GrpcQuery_codec.
Proof. solve_struct_rt GrpcQuery_codec. Qed.
#[export] Instance SmartQuery_rt : RoundTrip SmartQuery_codec.
Proof. solve_struct_rt SmartQuery_codec. Qed.
#[export] Instance RawQuery_rt : RoundTrip RawQuery_codec.
Proof. solve_struct_rt RawQuery_codec. Qed.
#[export] Instance ContractInfoQuery_rt : RoundTrip ContractInfoQuery_codec.
Proof. solve_struct_rt ContractInfoQuery_codec. Qed.
#[export] Instance CodeInfoQuery_rt : RoundTrip CodeInfoQuery_codec.
Proof. solve_struct_rt CodeInfoQuery_codec. Qed.
#[export] Instance RawRangeQuery_rt : RoundTrip RawRangeQuery_codec.
Proof. solve_struct_rt RawRangeQuery_codec. Qed.
#[export] Instance WasmQuery_rt : RoundTrip WasmQuery_codec.
Proof. solve_struct_rt WasmQuery_codec. Qed.
#[export] Instance QueryRequest_rt : RoundTrip QueryRequest_codec.
Proof. solve_struct_rt QueryRequest_codec. Qed.
#[export] Instance SupplyResponse_rt : RoundTrip SupplyResponse_codec.
Proof. solve_struct_rt SupplyResponse_codec. Qed.
#[export] Instance BalanceResponse_rt : RoundTrip BalanceResponse_codec.
Proof. solve_struct_rt BalanceResponse_codec. Qed.
#[export] Instance AllBalancesResponse_rt : RoundTrip AllBalancesResponse_codec.
Proof. solve_struct_rt AllBalancesResponse_codec. Qed.
#[export] Instance DenomMetadataResponse_rt : RoundTrip DenomMetadataResponse_codec.
Proof. solve_struct_rt DenomMetadataResponse_codec. Qed.
#[export] Instance AllDenomMetadataResponse_rt : RoundTrip AllDenomMetadataResponse_codec.
Proof. solve_struct_rt AllDenomMetadataResponse_codec. Qed.
#[export] Instance PortIDResponse_rt : RoundTrip PortIDResponse_codec.
Proof. solve_struct_rt PortIDResponse_codec. Qed.
#[export] Instance ListChannelsResponse_rt : RoundTrip ListChannelsResponse_codec.
Proof. solve_struct_rt ListChannelsResponse_codec. Qed.
#[export] Instance ChannelResponse_rt : RoundTrip ChannelResponse_codec.
Proof. solve_struct_rt ChannelResponse_codec. Qed.
#[export] Instance Validator_rt : RoundTrip Validator_codec.
Proof. solve_struct_rt Validator_codec. Qed.
#[export] Instance AllValidatorsResponse_rt : RoundTrip AllValidatorsResponse_codec.
Proof. solve_struct_rt AllValidatorsResponse_codec. Qed.
#[export] Instance ValidatorResponse_rt : RoundTrip ValidatorResponse_codec.
Proof. solve_struct_rt ValidatorResponse_codec. Qed.
#[export] Instance Delegation_rt : RoundTrip Delegation_codec.
Proof. solve_struct_rt Delegation_codec. Qed.
#[export] Instance AllDelegationsResponse_rt : RoundTrip AllDelegationsResponse_codec.
Proof. solve_struct_rt AllDelegationsResponse_codec. Qed.
#[export] Instance DelegatorWithdrawAddressResponse_rt : RoundTrip DelegatorWithdrawAddressResponse_codec.
Proof. solve_struct_rt DelegatorWithdrawAddressResponse_codec. Qed.
#[export] Instance DelegationRewardsResponse_rt : RoundTrip DelegationRewardsResponse_codec.
Proof. solve_struct_rt DelegationRewardsResponse_codec. Qed.
#[export] Instance DelegatorReward_rt : RoundTrip DelegatorReward_codec.
Proof. solve_struct_rt DelegatorReward_codec. Qed.
#[export] Instance DelegationTotalRewardsResponse_rt : RoundTrip DelegationTotalRewardsResponse_codec.
Proof. solve_struct_rt DelegationTotalRewardsResponse_codec. Qed.
#[export] Instance DelegatorValidatorsResponse_rt : RoundTrip DelegatorValidatorsResponse_codec.
Proof. solve_struct_rt DelegatorValidatorsResponse_codec. Qed.
#[export] Instance FullDelegation_rt : RoundTrip FullDelegation_codec.
Proof. solve_struct_rt FullDelegation_codec. Qed.
#[export] Instance DelegationResponse_rt : RoundTrip DelegationResponse_codec.
Proof. solve_struct_rt DelegationResponse_codec. Qed.
#[export] Instance BondedDenomResponse_rt : RoundTrip BondedDenomResponse_codec.
Proof. solve_struct_rt BondedDenomResponse_codec. Qed.
#[export] Instance RawRangeEntry_rt : RoundTrip RawRangeEntry_codec.
Proof.
  intros [k v] _. cbn [RawRangeEntry_codec c_custom enc dec].
  unfold RawRangeEntry_UnmarshalJSON, RawRangeEntry_MarshalJSON.
  rewrite (unmarshal_rt (c_slice c_bytes)) by (by repeat constructor). reflexivity.
Qed.
#[export] Instance RawRangeResponse_rt : RoundTrip RawRangeResponse_codec.
Proof. solve_struct_rt RawRangeResponse_codec. Qed.
#[export] Instance ContractInfoResponse_rt : RoundTrip ContractInfoResponse_codec.
Proof. solve_struct_rt ContractInfoResponse_codec. Qed.
#[export] Instance CodeInfoResponse_rt : RoundTrip CodeInfoResponse_codec.
Proof. solve_struct_rt CodeInfoResponse_codec. Qed.

(** ** Properties *)

(** A query request survives being written and read. *)
Theorem QueryRequest_round_trip (q : QueryRequest) :
  wf QueryRequest_codec q -> from_json (to_json q) = Ret (inr q).
Proof. intros Hw. unfold from_json, to_json. by rewrite round_trip. Qed.
Lemma QueryRequest_round_trip_witness :
  let q := mkQueryRequest None None None None None None None
    (Some (mkWasmQuery None (Some (mkRawQuery "contract" (Some "key"))) None None None)) in
  from_json (to_json q) = Ret (inr q).
Proof.
  apply QueryRequest_round_trip. repeat (constructor || discriminate).
Defined.

(** The result of a query as the Rust side sees it: an answer without an
    error is an [ok] with the data, and it is always written with exactly one
    of the members [ok] and [error], an empty answer too. *)
Theorem QueryResult_one_member (q : QueryResult) :
  (QueryResult_Ok q = None \/ QueryResult_Err q = ""%string) ->
  exists k v, to_json q = JObject [(k, v)] /\
    (k = "error"%string <-> QueryResult_Err q <> ""%string) /\ (k = "ok" \/ k = "error")%string.
Proof.
  unfold to_json, codec_of, QueryResult_JSON, QueryResult_codec. cbn [enc].
  unfold QueryResult_MarshalJSON.
  destruct q as [ok err]. cbn [QueryResult_Ok QueryResult_Err]. intros Hq.
  destruct ok as [[|c ok]|], err as [|d err]; destruct Hq as [?|?]; try done;
    do 2 eexists; (split; [reflexivity|]); (split; [|auto]);
    split; intros E; first [done | by destruct E].
Qed.
Lemma QueryResult_one_member_witness :
  exists k v, to_json (mkQueryResult (Some "") "") = JObject [(k, v)] /\
    (k = "error"%string <-> QueryResult_Err (mkQueryResult (Some "") "") <> ""%string) /\
    (k = "ok" \/ k = "error")%string.
Proof. apply QueryResult_one_member. right. reflexivity. Defined.

(** A system error: one of the seven types, and not a nil pointer. *)
Definition is_system_error (err : error) : bool :=
  negb (isNil (Some err)) &&
  match err with
  | errorString _ | OutOfGasError | Errno _ | JsonError _ | foreignError _ _ => false
  | _ => true
  end.

(** C35. The two-level result of a querier's answer, case by case: data are
    the inner [ok]; a [SystemError] is the outer error as it is, and each of
    its six variants is put into one with only this variant set, by value or
    by pointer; every other error, nil pointers and types of other packages
    included, is the inner error by its text, and the answer panics exactly
    when making that text does, as it does for a nil pointer to one of the
    seven types. *)
Theorem ToQuerierResult_levels `{ErrorTexts} (bz : bytes) :
  let outer e := Ret (mkQuerierResult None (Some e)) in
  let res e := ToQuerierResult bz (Some e) in
  ToQuerierResult bz None = Ret (mkQuerierResult (Some (mkQueryResult bz "")) None) /\
  (forall e, res (vSystemError e) = outer e /\ res (pSystemError (Some e)) = outer e) /\
  (forall e, let r := outer (mkSystemError (Some e) None None None None None) in
     res (vInvalidRequest e) = r /\ res (pInvalidRequest (Some e)) = r) /\
  (forall e, let r := outer (mkSystemError None (Some e) None None None None) in
     res (vInvalidResponse e) = r /\ res (pInvalidResponse (Some e)) = r) /\
  (forall e, let r := outer (mkSystemError None None (Some e) None None None) in
     res (vNoSuchContract e) = r /\ res (pNoSuchContract (Some e)) = r) /\
  (forall e, let r := outer (mkSystemError None None None (Some e) None None) in
     res (vNoSuchCode e) = r /\ res (pNoSuchCode (Some e)) = r) /\
  (forall e, let r := outer (mkSystemError None None None None (Some e) None) in
     res (vUnknown e) = r /\ res (pUnknown (Some e)) = r) /\
  (forall e, let r := outer (mkSystemError None None None None None (Some e)) in
     res (vUnsupportedRequest e) = r /\ res (pUnsupportedRequest (Some e)) = r) /\
  (forall err, is_system_error err = false ->
     res err = match Error err with
              | Ret text => Ret (mkQuerierResult (Some (mkQueryResult None text)) None)
              | Panic p => Panic p
              end) /\
  Forall (fun err => is_system_error err = false /\ exists p, res err = Panic p)
    [pSystemError None; pInvalidRequest None; pInvalidResponse None; pNoSuchContract None;
     pNoSuchCode None; pUnknown None; pUnsupportedRequest None].
Proof.
  cbv zeta. split_and!; try (intros e; split; reflexivity); [reflexivity| |].
  - intros err. destruct err as [| | | |n t|e|[e|]|e|[e|]|e|[e|]|e|[e|]|e|[e|]|e|[e|]|e|[e|]];
      try discriminate; intros _; try reflexivity.
    unfold ToQuerierResult, ToSystemError. by destruct n, t.
  - repeat constructor; by eexists.
Qed.
Lemma ToQuerierResult_levels_witness :
  let I := Build_ErrorTexts (fun _ => "bad json"%string) (fun _ => "errno"%string) (fun _ => "debug"%string) in
  ToQuerierResult (Some "data"%string) (Some (foreignError true (Ret "no error"%string))) =
  Ret (mkQuerierResult (Some (mkQueryResult None "no error")) None).
Proof.
  intros I. destruct (@ToQuerierResult_levels I (Some "data"%string))
    as (_ & _ & _ & _ & _ & _ & _ & _ & Hf & _).
  exact (Hf (foreignError true (Ret "no error"%string)) eq_refl).
Defined.

(** A raw-range entry is a pair of byte strings on the wire: it survives
    the round trip, and an array of any other length is refused. *)
Theorem RawRangeEntry_pairs (r : RawRangeEntry) (l : list bytes) :
  RawRangeEntry_UnmarshalJSON (RawRangeEntry_MarshalJSON r) = Ret (inr r) /\
  (zlen l <> 2 -> RawRangeEntry_UnmarshalJSON (enc (c_slice c_bytes) (Some l)) =
     Ret (inl (CustomError ("invalid RawRange entry: expected array of length 2, got " +:+
       Strconv.FormatInt (zlen l))))).
Proof.
  assert (forall l, unmarshal (c_slice c_bytes) (enc (c_slice c_bytes) (Some l)) = Ret (inr (Some l)))
    as E.
  { intros k. apply (unmarshal_rt (c_slice c_bytes)). by apply Forall_true. }
  unfold RawRangeEntry_UnmarshalJSON, RawRangeEntry_MarshalJSON. rewrite !E. split.
  - by destruct r.
  - intros Hl. destruct l as [|a [|b [|c l]]]; done.
Qed.
Lemma RawRangeEntry_pairs_witness :
  RawRangeEntry_UnmarshalJSON (enc (c_slice c_bytes) (Some [Some "k"%string])) =
  Ret (inl (CustomError "invalid RawRange entry: expected array of length 2, got 1")).
Proof.
  apply (RawRangeEntry_pairs (mkRawRangeEntry None None) [Some "k"%string]). discriminate.
Defined.
