(* ===== verification/Documents.v ===== *)
(** * The documents of messages and results

    The JSON a contract and the chain exchange, spelled out: the names and
    the order of the members of every message ([types/msg.go], the IBC
    messages of [types/ibc.go] and [types/ibc2.go]) and of every result
    ([types/submessages.go], [types/msg.go], [types/ibc.go],
    [types/queries.go]).  The codecs take these from the tags of the structs;
    here they are written down on their own, so that a changed tag shows.
    The last part is the round trip of the results through their text. *)

From S2P Require Import Prelude GoText Json JsonParse Codec JsonText Scalars Types Messages Errors Queries.



(** ** Properties *)



(** C26. The results a contract returns and the reply it is given come back
    through their text: [json.Unmarshal] of what [json.Marshal] writes is
    exactly the value, for every value that is in normal form (numbers in
    range, enumerations set, an [Array] that is not nil, nothing empty but not
    nil that is left out, and either data or an error in the result of a
    query), whose strings are UTF-8, whose custom messages have the text the
    encoder writes (no spaces, its escapes), and whose document is nested at
    most 10000 deep. *)
Theorem results_round_trip (r : ContractResult) (q : QueryResult) (b : IBCBasicResult)
    (v : IBCReceiveResult) (o : IBCChannelOpenResult) (p : Reply) :
  (survives r -> Unmarshal (Marshal r) = Ret (inr r)) /\
  (survives q -> Unmarshal (Marshal q) = Ret (inr q)) /\
  (survives b -> Unmarshal (Marshal b) = Ret (inr b)) /\
  (survives v -> Unmarshal (Marshal v) = Ret (inr v)) /\
  (survives o -> Unmarshal (Marshal o) = Ret (inr o)) /\
  (survives p -> Unmarshal (Marshal p) = Ret (inr p)).
Proof. split_and!; apply Unmarshal_Marshal. Qed.

(** A response with two messages: a transfer with a reply, and a custom one. *)
Definition example_raw : string := brace (dquote +:+ "a" +:+ dquote +:+ ":[1,null]").
Definition example_custom : SubMsg :=
  mkSubMsg 8 (mkCosmosMsg None (Some example_raw) None None None None None None None)
    None None ReplyNever.
Definition example_results : ContractResult :=
  mkContractResult (Some (mkResponse (Some [example_submsg; example_custom]) (Some "hi") None
    (Some [mkEvent "t" (Some [mkEventAttribute "k" "v"])]))) "".
Lemma example_raw_wf : wf c_raw (Some example_raw).
Proof. exists example_raw. split; [reflexivity|]. vm_compute. reflexivity. Qed.
Lemma example_survives : survives example_results.
Proof.
  split_and!; [|vm_compute; reflexivity|apply Nat.leb_le; vm_compute; reflexivity].
  repeat (exact example_raw_wf || constructor || discriminate || (intros; discriminate));
    vm_compute; congruence.
Qed.
Lemma results_round_trip_witness :
  Unmarshal (Marshal example_results) = Ret (inr example_results).
Proof.
  refine (proj1 (results_round_trip example_results (zero QueryResult_codec)
    (zero IBCBasicResult_codec) (zero IBCReceiveResult_codec) (zero IBCChannelOpenResult_codec)
    (zero Reply_codec)) _). exact example_survives.
Defined.

(** A custom message is read as the text it has, and written without the
    spaces and with the escapes of the encoder: for such a text the round
    trip gives another value. *)
Example custom_text :
  let raw := ("{ " +:+ quote "a" +:+ " : " +:+ quote "<" +:+ " }")%string in
  let m := mkCosmosMsg None (Some raw) None None None None None None None in
  Unmarshal ("{" +:+ quote "custom" +:+ ": " +:+ raw +:+ "}") = Ret (inr m) /\
  Marshal m = ("{" +:+ quote "custom" +:+ ":{" +:+ quote "a" +:+ ":" +:+
    quote (backslash +:+ "u003c") +:+ "}}")%string /\
  Unmarshal (Marshal m) <> Ret (inr m).
Proof. cbv zeta. split_and!; vm_compute; [reflexivity|reflexivity|discriminate]. Qed.
