(* ===== verification/Memory.v ===== *)
(** * Memory across the language boundary

    [internal/api/memory.go] and its Rust counterpart
    [libwasmvm/src/memory.rs].  Go hands bytes to Rust as a view of its own
    memory ([ByteSliceView]), Rust hands borrowed bytes to Go as a
    [U8SliceView], and owned bytes travel as an [UnmanagedVector], which lives
    in Rust's heap until it is consumed or destroyed exactly once.  All three
    keep nil and empty apart.

    The heap maps the address of a live buffer to its bytes.  Reading or
    freeing an address that is not live is a memory fault; it is a panic of
    its own kind here, and the theorems show that it does not happen. *)

From S2P Require Import Prelude GoText.

Definition two31 : Z := 2147483648.
(** [C.int(v)] *)
Definition cint (z : Z) : Z := (z + two31) mod two32 - two31.

Record heap := mkHeap { blocks : gmap Z string; next : Z }.
Definition empty_heap : heap := mkHeap ∅ 1.

Definition memory_fault : panic_value := PanicValue "fault" "invalid address".

Definition alloc (data : string) : GoM heap Z := fun h =>
  (Ret (next h), mkHeap (<[next h := data]> (blocks h)) (next h + 1)).
Definition load (p : Z) : GoM heap string := fun h =>
  match blocks h !! p with
  | Some d => (Ret d, h)
  | None => (Panic memory_fault, h)
  end.
Definition dealloc (p : Z) : GoM heap unit := fun h =>
  match blocks h !! p with
  | Some _ => (Ret tt, mkHeap (delete p (blocks h)) (next h))
  | None => (Panic memory_fault, h)
  end.

(** [C.GoBytes(ptr, n)]: a copy of the first [n] bytes; a negative length
    panics. *)
Definition GoBytes (p : Z) (n : Z) : GoM heap bytes :=
  if n <? 0 then gpanic (runtime_panic "gobytes: length out of range")
  else d ← load p; mret (Some (stake (Z.to_nat n) d)).

(** ** ByteSliceView: Go bytes that Rust reads

    The pointer is the start of the Go slice it was taken from, or null. *)

Record ByteSliceView := mkByteSliceView {
  bsv_is_nil : bool; bsv_ptr : option string; bsv_len : Z }.

Definition makeView (s : bytes) : ByteSliceView :=
  match s with
  | None => mkByteSliceView true None 0
  | Some d =>
    if slen d =? 0 then mkByteSliceView false None 0
    else mkByteSliceView false (Some d) (slen d)
  end.

(** [ByteSliceView::read] *)
Definition ByteSliceView_read (v : ByteSliceView) : outcome (option string) :=
  if bsv_is_nil v then Ret None
  else if bsv_len v =? 0 then Ret (Some EmptyString)
  else
    match bsv_ptr v with
    | None => Panic memory_fault
    | Some d => Ret (Some (stake (Z.to_nat (bsv_len v)) d))
    end.

(** ** U8SliceView: Rust bytes that Go copies *)

Record U8SliceView := mkU8SliceView { u8_is_none : bool; u8_ptr : Z; u8_len : Z }.

(** [U8SliceView::new] of a buffer at address [p] that holds [data]. *)
Definition U8SliceView_new (source : option (Z * string)) : U8SliceView :=
  match source with
  | Some (p, data) =>
    mkU8SliceView false (if slen data =? 0 then 0 else p) (slen data)
  | None => mkU8SliceView true 0 0
  end.

Definition copyU8Slice (view : U8SliceView) : GoM heap bytes :=
  if u8_is_none view then mret None
  else if u8_len view =? 0 then mret (Some EmptyString)
  else GoBytes (u8_ptr view) (cint (u8_len view)).

(** ** UnmanagedVector *)

Record UnmanagedVector := mkUnmanagedVector {
  is_none : bool; uv_ptr : Z; uv_len : Z; uv_cap : Z }.

(** A Rust vector: its bytes and its capacity, 0 when it never allocated. *)
Record Vec := mkVec { vec_data : string; vec_cap : Z }.

(** [UnmanagedVector::new] *)
Definition UnmanagedVector_new (source : option Vec) : GoM heap UnmanagedVector :=
  match source with
  | Some data =>
    if vec_cap data =? 0 then mret (mkUnmanagedVector false 0 0 0)
    else
      p ← alloc (vec_data data);
      mret (mkUnmanagedVector false p (slen (vec_data data)) (vec_cap data))
  | None => mret (mkUnmanagedVector true 0 0 0)
  end.
(** [UnmanagedVector::default] *)
Definition UnmanagedVector_default : UnmanagedVector := mkUnmanagedVector true 0 0 0.

(** [UnmanagedVector::consume]: the buffer becomes a managed vector again. *)
Definition UnmanagedVector_consume (v : UnmanagedVector) : GoM heap (option Vec) :=
  if is_none v then mret None
  else if uv_cap v =? 0 then mret (Some (mkVec EmptyString 0))
  else
    d ← load (uv_ptr v);
    _ ← dealloc (uv_ptr v);
    mret (Some (mkVec (stake (Z.to_nat (uv_len v)) d) (uv_cap v))).

(** The exports [new_unmanaged_vector] and [destroy_unmanaged_vector]; the
    first copies Go memory into a vector of exactly that capacity. *)
Definition new_unmanaged_vector (nil : bool) (ptr : option string) (length : Z) :
    GoM heap UnmanagedVector :=
  if nil then UnmanagedVector_new None
  else if length =? 0 then UnmanagedVector_new (Some (mkVec EmptyString 0))
  else
    d ← glift (match ptr with Some d => Ret d | None => Panic memory_fault end);
    UnmanagedVector_new (Some (mkVec (stake (Z.to_nat length) d) length)).
Definition destroy_unmanaged_vector (v : UnmanagedVector) : GoM heap unit :=
  _ ← UnmanagedVector_consume v; mret tt.

(** The Go side. *)
Definition constructUnmanagedVector (none : bool) (ptr len cap : Z) : UnmanagedVector :=
  mkUnmanagedVector none ptr len cap.
Definition uninitializedUnmanagedVector : UnmanagedVector := mkUnmanagedVector false 0 0 0.

Definition newUnmanagedVector (data : bytes) : GoM heap UnmanagedVector :=
  match data with
  | None => new_unmanaged_vector true None 0
  | Some d =>
    if slen d =? 0 then new_unmanaged_vector false None 0
    else new_unmanaged_vector false (Some d) (slen d)
  end.

Definition copyAndDestroyUnmanagedVector (v : UnmanagedVector) : GoM heap bytes :=
  out ← (if is_none v then mret None
         else if uv_cap v =? 0 then mret (Some EmptyString)
         else GoBytes (uv_ptr v) (cint (uv_len v)));
  _ ← destroy_unmanaged_vector v;
  mret out.

(** [C.OptionalU64] and [*uint64] *)
Record OptionalU64 := mkOptionalU64 { is_some : bool; value : Z }.
Definition optionalU64ToPtr (val : OptionalU64) : option Z :=
  if is_some val then Some (value val) else None.

(** ** Ownership *)

(** Addresses are positive and below the next one to be handed out. *)
Definition heap_wf (h : heap) : Prop :=
  1 <= next h /\ forall p d, blocks h !! p = Some d -> 1 <= p < next h.

(** [v] is a vector of heap [h] that holds [data]. *)
Definition owns (h : heap) (v : UnmanagedVector) (data : bytes) : Prop :=
  match data with
  | None => is_none v = true
  | Some d =>
    is_none v = false /\
    if uv_cap v =? 0 then d = EmptyString
    else blocks h !! uv_ptr v = Some d /\ uv_len v = slen d
  end.

(** The heap once [v] is gone. *)
Definition without (v : UnmanagedVector) (h : heap) : heap :=
  if is_none v || (uv_cap v =? 0) then h else mkHeap (delete (uv_ptr v) (blocks h)) (next h).

Lemma empty_heap_wf : heap_wf empty_heap.
Proof. split; [done|]. intros p d. cbn [blocks empty_heap]. by rewrite lookup_empty. Qed.

Lemma stake_all s : stake (Z.to_nat (slen s)) s = s.
Proof.
  unfold slen. rewrite Nat2Z.id. induction s as [|c s IH]; simpl; congruence.
Qed.
Lemma cint_small n : 0 <= n < two31 -> cint n = n.
Proof. intros H. unfold cint. rewrite Z.mod_small; unfold two31, two32 in *; lia. Qed.

Lemma alloc_fresh h : heap_wf h -> blocks h !! next h = None.
Proof.
  intros [_ Hf]. destruct (blocks h !! next h) as [d|] eqn:E; [|done].
  apply Hf in E. lia.
Qed.
Lemma alloc_wf h d : heap_wf h -> heap_wf (mkHeap (<[next h := d]> (blocks h)) (next h + 1)).
Proof.
  intros [Hn Hf]. split; cbn [next blocks]; [lia|]. intros p d' Hp.
  apply lookup_insert_Some in Hp as [[<- _]|[_ Hp]]; [lia|]. apply Hf in Hp. lia.
Qed.

(** Creating a vector of a capacity that holds its bytes: it is owned, and
    destroying it gives the buffers back. *)
Lemma UnmanagedVector_new_spec source h :
  heap_wf h ->
  (forall d, source = Some d -> vec_cap d = 0 -> vec_data d = EmptyString) ->
  exists v h', UnmanagedVector_new source h = (Ret v, h') /\
    heap_wf h' /\ owns h' v (option_map vec_data source) /\
    blocks (without v h') = blocks h /\ next h <= next h' /\
    (forall w d, owns h w d -> owns h' w d) /\
    (forall p, p < next h -> blocks h' !! p = blocks h !! p).
Proof.
  intros Hh Hc. unfold UnmanagedVector_new. destruct source as [[d c]|]; cbn [vec_cap vec_data] in *.
  2: { exists UnmanagedVector_default, h. split; [reflexivity|]. split_and!; auto; try lia; done. }
  destruct (Z.eqb_spec c 0) as [->|Hne].
  { pose proof (Hc _ eq_refl eq_refl) as E. cbn [vec_data] in E. subst d. eexists _, h. split; [reflexivity|].
    split_and!; auto; try lia; done. }
  eexists _, _. split; [reflexivity|].
  cbn [option_map owns is_none uv_cap uv_ptr uv_len blocks next vec_data].
  rewrite (proj2 (Z.eqb_neq c 0)) by done. cbn [blocks next].
  split_and!; [by apply alloc_wf|done|by rewrite lookup_insert_eq|done| |lia| |].
  - unfold without. cbn [is_none uv_cap uv_ptr orb]. rewrite (proj2 (Z.eqb_neq c 0)) by done.
    cbn [blocks]. by rewrite delete_insert_id by (by apply alloc_fresh).
  - intros w [e|]; [|done]. intros [Hw Hb]. split; [done|]. cbn [owns] in *.
    destruct (uv_cap w =? 0); [done|]. destruct Hb as [Hb Hl]. split; [|done].
    cbn [blocks]. rewrite lookup_insert_ne; [done|]. intros E. rewrite <- E, alloc_fresh in Hb by done. done.
  - intros p Hp. cbn [blocks]. by rewrite lookup_insert_ne by lia.
Qed.

Lemma newUnmanagedVector_spec data h :
  heap_wf h ->
  exists v h', newUnmanagedVector data h = (Ret v, h') /\
    heap_wf h' /\ owns h' v data /\ blocks (without v h') = blocks h /\ next h <= next h' /\
    (forall w d, owns h w d -> owns h' w d) /\
    (forall p, p < next h -> blocks h' !! p = blocks h !! p).
Proof.
  intros Hh. destruct data as [d|]; cbn [newUnmanagedVector].
  2: { by apply (UnmanagedVector_new_spec None). }
  destruct (Z.eqb_spec (slen d) 0) as [E|E].
  { apply slen_empty in E as ->.
    apply (UnmanagedVector_new_spec (Some (mkVec EmptyString 0))); [done|].
    by intros ? [= <-]. }
  unfold new_unmanaged_vector. rewrite (proj2 (Z.eqb_neq (slen d) 0)) by done.
  unfold mbind, GoM_bind, glift. cbn beta iota. rewrite stake_all.
  apply (UnmanagedVector_new_spec (Some (mkVec d (slen d)))); [done|].
  by intros ? [= <-].
Qed.

Lemma consume_spec v data h :
  owns h v data ->
  exists r, UnmanagedVector_consume v h = (Ret r, without v h) /\ option_map vec_data r = data.
Proof.
  unfold UnmanagedVector_consume, without. destruct data as [d|]; cbn [owns].
  2: { intros ->. by eexists. }
  intros [-> Hv]. cbn [orb]. destruct (uv_cap v =? 0).
  { subst d. by eexists. }
  destruct Hv as [Hp Hl]. eexists. unfold mbind, GoM_bind, load, dealloc.
  rewrite Hp. cbn beta iota. rewrite Hp. split; [reflexivity|]. cbn [option_map vec_data].
  by rewrite Hl, stake_all.
Qed.

Lemma copyAndDestroy_spec v data h :
  owns h v data -> blen data < two31 ->
  copyAndDestroyUnmanagedVector v h = (Ret data, without v h).
Proof.
  intros Ho Hl. destruct (consume_spec v data h Ho) as (r & Hc & _).
  unfold copyAndDestroyUnmanagedVector, destroy_unmanaged_vector.
  assert ((if is_none v then mret None
           else if uv_cap v =? 0 then mret (Some EmptyString)
           else GoBytes (uv_ptr v) (cint (uv_len v))) h = (Ret data, h)) as E.
  { destruct data as [d|]; cbn [owns] in Ho; [|by rewrite Ho].
    destruct Ho as [-> Ho]. destruct (uv_cap v =? 0); [by subst d|]. destruct Ho as [Hp Hn].
    change (blen (Some d)) with (slen d) in Hl. pose proof (slen_nonneg d).
    rewrite Hn, cint_small by lia. unfold GoBytes.
    rewrite (proj2 (Z.ltb_ge _ _)) by lia. unfold mbind, GoM_bind, load. rewrite Hp.
    by rewrite stake_all. }
  rewrite (gbind_eq _ _ _ _ _ E). unfold mbind at 1 2, GoM_bind at 1 2. by rewrite Hc.
Qed.

Lemma copyU8Slice_spec p data h :
  match data with Some d => slen d <> 0 -> blocks h !! p = Some d | None => True end ->
  blen data < two31 ->
  copyU8Slice (U8SliceView_new (option_map (fun d => (p, d)) data)) h = (Ret data, h).
Proof.
  intros Hb Hl. destruct data as [d|]; [|done]. unfold copyU8Slice.
  cbn [option_map U8SliceView_new u8_is_none u8_len u8_ptr].
  destruct (Z.eqb_spec (slen d) 0) as [E|E]; [by apply slen_empty in E as ->|].
  change (blen (Some d)) with (slen d) in Hl. pose proof (slen_nonneg d).
  rewrite cint_small by lia. unfold GoBytes. rewrite (proj2 (Z.ltb_ge _ _)) by lia.
  unfold mbind, GoM_bind, load. rewrite Hb by done. by rewrite stake_all.
Qed.

(** ** Ownership on the map of buffers *)

(** [v] holds [data] among the buffers [m]; [drop v m] are the others. *)
Definition holds (m : gmap Z string) (v : UnmanagedVector) (data : bytes) : Prop :=
  match data with
  | None => is_none v = true
  | Some d =>
    is_none v = false /\
    if uv_cap v =? 0 then d = EmptyString else m !! uv_ptr v = Some d /\ uv_len v = slen d
  end.
Definition drop_vec (v : UnmanagedVector) (m : gmap Z string) : gmap Z string :=
  if is_none v || (uv_cap v =? 0) then m else delete (uv_ptr v) m.

(** [m'] is [m] and the buffer of the new vector [v], if it has one. *)
Record extends (m : gmap Z string) (v : UnmanagedVector) (data : bytes) (m' : gmap Z string) :
    Prop := {
  ext_holds : holds m' v data;
  ext_drop : drop_vec v m' = m;
}.

Lemma owns_holds h v d : owns h v d = holds (blocks h) v d.
Proof. reflexivity. Qed.
Lemma blocks_without v h : blocks (without v h) = drop_vec v (blocks h).
Proof. unfold without, drop_vec. by destruct (is_none v || (uv_cap v =? 0)). Qed.

Lemma drop_vec_comm v w m : drop_vec v (drop_vec w m) = drop_vec w (drop_vec v m).
Proof. unfold drop_vec. repeat case_match; [done..|]. apply delete_delete. Qed.
Lemma drop_vec_sub v m : drop_vec v m ⊆ m.
Proof. unfold drop_vec. case_match; [done|apply delete_subseteq]. Qed.
Lemma drop_none m : drop_vec UnmanagedVector_default m = m.
Proof. reflexivity. Qed.

Lemma holds_mono m m' v d : m ⊆ m' -> holds m v d -> holds m' v d.
Proof.
  intros Hm. destruct d as [d|]; [|done]. intros [Hn Hd]. split; [done|].
  destruct (uv_cap v =? 0); [done|]. destruct Hd. split; [by eapply lookup_weaken|done].
Qed.

(** A new vector is apart from the ones that were there. *)
Lemma extends_drop m v d m' w dw :
  extends m v d m' -> holds m w dw -> extends (drop_vec w m) v d (drop_vec w m').
Proof.
  intros [Hh Hd] Hw. split; [|by rewrite drop_vec_comm, Hd].
  destruct d as [d|]; [|done]. destruct Hh as [Hn Hv]. split; [done|].
  unfold drop_vec in Hd. rewrite Hn in Hd. cbn [orb] in Hd.
  destruct (uv_cap v =? 0); [done|]. destruct Hv as [Hv Hl]. split; [|done].
  unfold drop_vec. destruct (is_none w || (uv_cap w =? 0)) eqn:Ew; [done|].
  apply orb_false_iff in Ew as [Ew1 Ew2].
  destruct dw as [dw|]; cbn [holds] in Hw; [|by rewrite Hw in Ew1].
  rewrite Ew2 in Hw. destruct Hw as [_ [Hw _]].
  rewrite lookup_delete_ne; [done|]. intros E. rewrite E, <- Hd, lookup_delete_eq in Hw. done.
Qed.
Lemma extends_sub m v d m' : extends m v d m' -> m ⊆ m'.
Proof. intros [_ <-]. apply drop_vec_sub. Qed.

Lemma newUnmanagedVector_extends data h v h' :
  heap_wf h -> newUnmanagedVector data h = (Ret v, h') ->
  heap_wf h' /\ extends (blocks h) v data (blocks h').
Proof.
  intros Hh E. destruct (newUnmanagedVector_spec data h Hh) as (v1 & h1 & E1 & Hw & Ho & Hb & _).
  rewrite E1 in E. injection E as <- <-. split; [done|]. split; [done|].
  by rewrite <- blocks_without.
Qed.
Lemma newUnmanagedVector_returns data h : heap_wf h ->
  exists v h', newUnmanagedVector data h = (Ret v, h').
Proof.
  intros Hh. destruct (newUnmanagedVector_spec data h Hh) as (v & h' & E & _). eauto.
Qed.

(** ** Properties *)

(** C12. Bytes of less than 2 GiB that Go wraps in a vector and takes out again
    come back as they were, nil and empty told apart; in between the vector
    owns exactly one buffer if it has bytes and none otherwise, every other
    vector keeps its own, and afterwards the heap has the buffers it had
    before: nothing is leaked, nothing is freed twice. *)
Theorem vector_round_trip (data : bytes) (h : heap) :
  heap_wf h -> blen data < two31 ->
  exists v h1 h2,
    newUnmanagedVector data h = (Ret v, h1) /\
    copyAndDestroyUnmanagedVector v h1 = (Ret data, h2) /\
    blocks h2 = blocks h /\
    (forall w d, owns h w d -> owns h1 w d /\ owns h2 w d).
Proof.
  intros Hh Hl. destruct (newUnmanagedVector_spec data h Hh) as (v & h1 & E & Hw & Ho & Hb & _ & Hf & _).
  exists v, h1, (without v h1). rewrite E, (copyAndDestroy_spec v data) by done.
  split_and!; [done..|]. intros w d Hd. split; [by apply Hf|].
  destruct d as [d|]; [|done]. destruct Hd as [Hn Hd]. split; [done|].
  destruct (uv_cap w =? 0); [done|]. by rewrite Hb.
Qed.
Lemma vector_round_trip_witness :
  exists v h1 h2,
    newUnmanagedVector (Some "abc") empty_heap = (Ret v, h1) /\
    copyAndDestroyUnmanagedVector v h1 = (Ret (Some "abc"), h2) /\
    blocks h2 = blocks empty_heap /\
    (forall w d, owns empty_heap w d -> owns h1 w d /\ owns h2 w d).
Proof. apply vector_round_trip; [apply empty_heap_wf|reflexivity]. Defined.

(** A vector that owns a buffer can be destroyed once: the second time is
    a memory fault, as is copying it after it was destroyed.  A vector
    without a buffer (nil, empty, or the uninitialised one Go passes as an
    out-parameter) can be destroyed any number of times. *)
Theorem vector_destroyed_once (v : UnmanagedVector) (data : bytes) (h : heap) :
  owns h v data ->
  exists h', destroy_unmanaged_vector v h = (Ret tt, h') /\
    if is_none v || (uv_cap v =? 0)
    then h' = h /\ destroy_unmanaged_vector v h' = (Ret tt, h')
    else destroy_unmanaged_vector v h' = (Panic memory_fault, h').
Proof.
  intros Ho. destruct (consume_spec v data h Ho) as (r & Hc & _).
  exists (without v h). unfold destroy_unmanaged_vector.
  rewrite (gbind_eq _ _ _ _ _ Hc). split; [done|].
  unfold without, UnmanagedVector_consume in *. destruct (is_none v); [done|]. cbn [orb] in *.
  destruct (uv_cap v =? 0); [done|]. apply gbind_panic, gbind_panic.
  unfold load. cbn [blocks]. by rewrite lookup_delete_eq.
Qed.
Lemma vector_destroyed_once_witness :
  let v := mkUnmanagedVector false 1 2 8 in
  let h := mkHeap {[1 := "ab"%string]} 2 in
  exists h', destroy_unmanaged_vector v h = (Ret tt, h') /\
    destroy_unmanaged_vector v h' = (Panic memory_fault, h').
Proof.
  apply (vector_destroyed_once (mkUnmanagedVector false 1 2 8) (Some "ab"%string)
    (mkHeap {[1 := "ab"%string]} 2)).
  split; [reflexivity|]. split; vm_compute; reflexivity.
Defined.

(** The views keep nil, empty and data apart in both directions: Rust
    reads from a [ByteSliceView] the bytes Go made it from, and Go copies
    from a [U8SliceView] the bytes Rust made it from (below 2 GiB), without
    touching the heap. *)
Theorem views_exact (s data : bytes) (p : Z) (h : heap) :
  (forall d, data = Some d -> slen d <> 0 -> blocks h !! p = Some d) ->
  blen data < two31 ->
  ByteSliceView_read (makeView s) = Ret s /\
  copyU8Slice (U8SliceView_new (option_map (fun d => (p, d)) data)) h = (Ret data, h).
Proof.
  intros Hb Hl. split.
  - destruct s as [d|]; [|done]. cbn [makeView].
    destruct (Z.eqb_spec (slen d) 0) as [E|E].
    + by apply slen_empty in E as ->.
    + unfold ByteSliceView_read. cbn [bsv_is_nil bsv_len bsv_ptr].
      rewrite (proj2 (Z.eqb_neq _ _)) by done. by rewrite stake_all.
  - apply copyU8Slice_spec; [|done]. destruct data as [d|]; [|done]. by apply Hb.
Qed.
Lemma views_exact_witness :
  ByteSliceView_read (makeView (Some "")) = Ret (Some ""%string) /\
  copyU8Slice (U8SliceView_new (Some (5, "key"%string))) (mkHeap {[5 := "key"%string]} 6) =
    (Ret (Some "key"%string), mkHeap {[5 := "key"%string]} 6).
Proof.
  apply (views_exact (Some ""%string) (Some "key"%string) 5 (mkHeap {[5 := "key"%string]} 6)).
  - intros d [= <-] _. reflexivity.
  - reflexivity.
Defined.

(** Buffers of 2 GiB and more: the length is narrowed to a C int, so from
    2 GiB up to 4 GiB the copy panics before the vector is destroyed (its
    buffer stays), and at 4 GiB and above it silently copies only the low 32
    bits of the length (where those are below 2 GiB). *)
Theorem vector_length_narrowed (v : UnmanagedVector) (d : string) (h : heap) :
  owns h v (Some d) -> uv_cap v <> 0 ->
  (two31 <= slen d < two32 ->
     copyAndDestroyUnmanagedVector v h =
     (Panic (runtime_panic "gobytes: length out of range"), h)) /\
  (slen d mod two32 < two31 ->
     copyAndDestroyUnmanagedVector v h =
     (Ret (Some (stake (Z.to_nat (slen d mod two32)) d)), without v h)).
Proof.
  intros Ho Hc. destruct (consume_spec v _ h Ho) as (r & Hcs & _).
  destruct Ho as [Hn Ho]. rewrite (proj2 (Z.eqb_neq _ _)) in Ho by done. destruct Ho as [Hp Hl].
  unfold copyAndDestroyUnmanagedVector, destroy_unmanaged_vector. rewrite Hn.
  rewrite (proj2 (Z.eqb_neq (uv_cap v) 0)) by done. rewrite Hl. split; intros Hd.
  - apply gbind_panic. unfold GoBytes.
    replace (cint (slen d) <? 0) with true; [done|]. symmetry. apply Z.ltb_lt.
    unfold cint, two31, two32 in *. Z.div_mod_to_equations. lia.
  - assert (cint (slen d) = slen d mod two32) as ->.
    { unfold cint, two31, two32 in *. pose proof (slen_nonneg d). Z.div_mod_to_equations. lia. }
    erewrite gbind_eq; [unfold mbind at 1 2, GoM_bind at 1 2; by rewrite Hcs|].
    unfold GoBytes. rewrite (proj2 (Z.ltb_ge _ _))
      by (pose proof (Z.mod_pos_bound (slen d) two32); unfold two32 in *; lia).
    unfold mbind, GoM_bind, load. by rewrite Hp.
Qed.
Lemma vector_length_narrowed_witness :
  copyAndDestroyUnmanagedVector (mkUnmanagedVector false 1 2 8) (mkHeap {[1 := "ab"%string]} 2) =
  (Ret (Some (stake (Z.to_nat (slen "ab" mod two32)) "ab")),
   without (mkUnmanagedVector false 1 2 8) (mkHeap {[1 := "ab"%string]} 2)).
Proof.
  apply (vector_length_narrowed (mkUnmanagedVector false 1 2 8) "ab"
    (mkHeap {[1 := "ab"%string]} 2)); [|discriminate|reflexivity].
  split; [reflexivity|]. split; vm_compute; reflexivity.
Defined.
