(* ===== verification/MemDB.v ===== *)
(** * The in-memory database of the tests

    [internal/api/testdb/memdb.go] and [memdb_iterator.go].  The database is
    a B-tree of pairs ordered by [bytes.Compare].  The B-tree is a library
    ([github.com/google/btree]); [BTree] is its documented interface: the
    items in ascending order, and what each operation does to them.

    An iterator reads what a traversal of the tree sends, in order.  The
    traversal holds the read lock until the iterator is closed or drained, so
    that nothing is written under it: the sequence is fixed when the iterator
    is made. *)

From Stdlib Require Import Sorting.Sorted.
From S2P Require Import Prelude GoText Json Codec Scalars Types Errors.

(** [bytes.Compare(a, b) == -1] *)
Definition key_lt (a b : string) : bool :=
  match String.compare a b with Lt => true | _ => false end.
Definition key_le (a b : string) : bool := negb (key_lt b a).

Record item := mkItem { item_key : string; item_value : string }.
(** [item.Less] *)
Definition Less (i other : item) : bool := key_lt (item_key i) (item_key other).

(** ** The B-tree *)

Class BTree (T : Type) := {
  bt_New : T;
  (** The items in ascending order. *)
  bt_items : T -> list item;
  bt_Get : T -> string -> option item;
  bt_ReplaceOrInsert : T -> item -> T;
  bt_Delete : T -> string -> T;
}.

Definition find_item (k : string) (l : list item) : option item :=
  List.find (fun i => String.eqb (item_key i) k) l.

Class BTreeLaws (T : Type) `{BTree T} : Prop := {
  bt_New_items : bt_items bt_New = [];
  bt_sorted t : StronglySorted (fun a b => Less a b = true) (bt_items t);
  bt_Get_items t k : bt_Get t k = find_item k (bt_items t);
  bt_ReplaceOrInsert_get t i k :
    find_item k (bt_items (bt_ReplaceOrInsert t i)) =
    if String.eqb (item_key i) k then Some i else find_item k (bt_items t);
  bt_Delete_get t d k :
    find_item k (bt_items (bt_Delete t d)) =
    if String.eqb d k then None else find_item k (bt_items t);
}.

Section MemDB.
Context {T : Type} `{BTree T}.

(** The traversals, as the items they visit in order. *)
Definition Ascend (t : T) : list item := bt_items t.
Definition Descend (t : T) : list item := rev (bt_items t).
Definition AscendGreaterOrEqual (t : T) (pivot : string) : list item :=
  List.filter (fun i => key_le pivot (item_key i)) (bt_items t).
Definition AscendRange (t : T) (ge lt : string) : list item :=
  List.filter (fun i => key_le ge (item_key i) && key_lt (item_key i) lt) (bt_items t).
Definition DescendLessOrEqual (t : T) (pivot : string) : list item :=
  rev (List.filter (fun i => key_le (item_key i) pivot) (bt_items t)).

(** ** MemDB *)

Definition errKeyEmpty : error := errorString "key cannot be empty".
Definition errValueNil : error := errorString "value cannot be nil".

Definition NewMemDB : T := bt_New.

(** [newKey] and [newPair]; the value of a key is never looked at. *)
Definition newKey (key : bytes) : item := mkItem (string_of_bytes key) EmptyString.
Definition newPair (key value : bytes) : item := mkItem (string_of_bytes key) (string_of_bytes value).
(** The methods that do not lock. *)
Definition MemDB_set (db : T) (key value : bytes) : T := bt_ReplaceOrInsert db (newPair key value).
Definition MemDB_delete (db : T) (key : bytes) : T := bt_Delete db (item_key (newKey key)).

Definition MemDB_Get (db : T) (key : bytes) : bytes * option error :=
  if blen key =? 0 then (None, Some errKeyEmpty)
  else
    match bt_Get db (item_key (newKey key)) with
    | Some i => (Some (item_value i), None)
    | None => (None, None)
    end.

Definition MemDB_Has (db : T) (key : bytes) : bool * option error :=
  if blen key =? 0 then (false, Some errKeyEmpty)
  else (match bt_Get db (item_key (newKey key)) with Some _ => true | None => false end, None).

Definition MemDB_Set (db : T) (key value : bytes) : T * option error :=
  if blen key =? 0 then (db, Some errKeyEmpty)
  else
    match value with
    | None => (db, Some errValueNil)
    | Some _ => (MemDB_set db key value, None)
    end.
Definition MemDB_SetSync (db : T) (key value : bytes) : T * option error := MemDB_Set db key value.

Definition MemDB_Delete (db : T) (key : bytes) : T * option error :=
  if blen key =? 0 then (db, Some errKeyEmpty)
  else (MemDB_delete db key, None).
Definition MemDB_DeleteSync (db : T) (key : bytes) : T * option error := MemDB_Delete db key.
Definition MemDB_Close (db : T) : option error := None.

(** [Stats], as the pairs of the map it returns. *)
Definition MemDB_Stats (db : T) : list (string * string) :=
  [("database.type", "memDB"); ("database.size", Strconv.FormatInt (zlen (bt_items db)))]%string.

(** [Print], as the lines it writes. *)
Definition MemDB_Print (db : T) : list string * option error :=
  (map (fun i => "[" +:+ Hex.encode_upper (item_key i) +:+ "]:" +:+ chr 9 +:+ "[" +:+
     Hex.encode_upper (item_value i) +:+ "]" +:+ chr 10) (Ascend db), None).

(** ** Iterators *)

(** The visitor: [skipEqual] is dropped once, and the traversal stops at the
    first key below [abortLessThan]. *)
Definition send (abortLessThan : bytes) (i : item) (rest : list item) : list item :=
  match abortLessThan with
  | Some k => if key_lt (item_key i) k then [] else i :: rest
  | None => i :: rest
  end.
Fixpoint visit (skipEqual abortLessThan : bytes) (l : list item) : list item :=
  match l with
  | [] => []
  | i :: l =>
    match skipEqual with
    | Some k =>
      if String.eqb (item_key i) k then visit None abortLessThan l
      else send abortLessThan i (visit skipEqual abortLessThan l)
    | None => send abortLessThan i (visit skipEqual abortLessThan l)
    end
  end.

(** What the traversal goroutine sends. *)
Definition traversal (db : T) (start end_ : bytes) (reverse : bool) : list item :=
  match start, end_, reverse with
  | None, None, false => visit None None (Ascend db)
  | None, None, true => visit None None (Descend db)
  | _, None, false => visit None None (AscendGreaterOrEqual db (string_of_bytes start))
  | _, Some e, false => visit None None (AscendRange db (string_of_bytes start) e)
  | _, None, true => visit None start (Descend db)
  | _, Some e, true => visit (Some e) start (DescendLessOrEqual db e)
  end.

(** The item it stands on, and those still to come. *)
Record memDBIterator := mkMemDBIterator {
  mi_item : option item;
  mi_ch : list item;
  mi_start : bytes;
  mi_end : bytes;
}.

Definition newMemDBIterator (db : T) (start end_ : bytes) (reverse : bool) : memDBIterator :=
  let ch := traversal db start end_ reverse in
  mkMemDBIterator (head ch) (tail ch) start end_.

Definition empty_bound (b : bytes) : bool :=
  match b with Some EmptyString => true | _ => false end.
Definition MemDB_Iterator (db : T) (start end_ : bytes) : option memDBIterator * option error :=
  if empty_bound start || empty_bound end_ then (None, Some errKeyEmpty)
  else (Some (newMemDBIterator db start end_ false), None).
Definition MemDB_ReverseIterator (db : T) (start end_ : bytes) :
    option memDBIterator * option error :=
  if empty_bound start || empty_bound end_ then (None, Some errKeyEmpty)
  else (Some (newMemDBIterator db start end_ true), None).
(** Without the lock the traversal is the same as long as nobody writes. *)
Definition MemDB_IteratorNoMtx (db : T) (start end_ : bytes) : option memDBIterator * option error :=
  if empty_bound start || empty_bound end_ then (None, Some errKeyEmpty)
  else (Some (newMemDBIterator db start end_ false), None).
Definition MemDB_ReverseIteratorNoMtx (db : T) (start end_ : bytes) :
    option memDBIterator * option error :=
  if empty_bound start || empty_bound end_ then (None, Some errKeyEmpty)
  else (Some (newMemDBIterator db start end_ true), None).

End MemDB.

Definition Valid (i : memDBIterator) : bool :=
  match mi_item i with Some _ => true | None => false end.
Definition assertIsValid (i : memDBIterator) : outcome item :=
  match mi_item i with
  | Some it => Ret it
  | None => Panic (string_panic "iterator is invalid")
  end.
Definition Key (i : memDBIterator) : outcome bytes :=
  let% it := assertIsValid i in Ret (Some (item_key it)).
Definition Value (i : memDBIterator) : outcome bytes :=
  let% it := assertIsValid i in Ret (Some (item_value it)).
Definition Next (i : memDBIterator) : outcome memDBIterator :=
  let% _ := assertIsValid i in
  Ret (mkMemDBIterator (head (mi_ch i)) (tail (mi_ch i)) (mi_start i) (mi_end i)).
Definition Close (i : memDBIterator) : memDBIterator :=
  mkMemDBIterator None [] (mi_start i) (mi_end i).
Definition Domain (i : memDBIterator) : bytes * bytes := (mi_start i, mi_end i).
Definition memDBIterator_Error (i : memDBIterator) : option error := None.

(** [for ; it.Valid(); it.Next() { ... it.Key(), it.Value() ... }] *)
Fixpoint collect (fuel : nat) (i : memDBIterator) : outcome (list (bytes * bytes)) :=
  match fuel with
  | O => Ret []
  | S f =>
    if Valid i then
      let% k := Key i in
      let% v := Value i in
      let% i := Next i in
      let% l := collect f i in
      Ret ((k, v) :: l)
    else Ret []
  end.

(** ** The order of keys *)

Lemma compare_refl s : String.compare s s = Eq.
Proof. induction s as [|c s IH]; [done|]. simpl. unfold Ascii.compare. by rewrite N.compare_refl. Qed.
Lemma key_lt_trans a b c : key_lt a b = true -> key_lt b c = true -> key_lt a c = true.
Proof.
  unfold key_lt. revert b c. induction a as [|x a IH]; intros [|y b] [|z c]; simpl; try done.
  unfold Ascii.compare.
  destruct (N.compare_spec (Ascii.N_of_ascii x) (Ascii.N_of_ascii y)) as [E1|E1|E1];
  destruct (N.compare_spec (Ascii.N_of_ascii y) (Ascii.N_of_ascii z)) as [E2|E2|E2];
  destruct (N.compare_spec (Ascii.N_of_ascii x) (Ascii.N_of_ascii z)) as [E3|E3|E3];
    try done; try lia. intros H1 H2. by eapply IH.
Qed.
Lemma key_lt_irrefl a : key_lt a a = false.
Proof. unfold key_lt. by rewrite compare_refl. Qed.
Lemma key_lt_antisym a b : key_lt a b = true -> key_lt b a = false.
Proof.
  intros E. destruct (key_lt b a) eqn:E2; [|done].
  pose proof (key_lt_trans _ _ _ E E2) as E3. by rewrite key_lt_irrefl in E3.
Qed.
Lemma key_lt_total a b : key_lt a b = false -> key_lt b a = false -> a = b.
Proof.
  unfold key_lt. rewrite (String.compare_antisym b a). destruct (String.compare a b) eqn:E; try done.
  intros _ _. by apply String.compare_eq_iff.
Qed.
Lemma key_lt_empty a : key_lt a EmptyString = false.
Proof. by destruct a. Qed.
Lemma key_le_empty a : key_le EmptyString a = true.
Proof. unfold key_le. by rewrite key_lt_empty. Qed.
Lemma key_lt_le_trans a b c : key_lt a b = true -> key_lt c b = false -> key_lt a c = true.
Proof.
  intros H1 H2. destruct (key_lt b c) eqn:E; [by eapply key_lt_trans|].
  by rewrite <- (key_lt_total _ _ E H2).
Qed.

(** ** What an iterator yields *)

Definition in_range (start end_ : bytes) (i : item) : bool :=
  key_le (string_of_bytes start) (item_key i) &&
  match end_ with Some e => key_lt (item_key i) e | None => true end.

Definition descending := StronglySorted (fun a b => Less b a = true).

Lemma visit_all l : visit None None l = l.
Proof. induction l as [|i l IH]; simpl; [done|]. by rewrite IH. Qed.

(** Below the bound everything that follows in descending order is below
    too. *)
Lemma filter_below s l i :
  descending (i :: l) -> key_lt (item_key i) s = true ->
  List.filter (fun j => key_le s (item_key j)) l = [].
Proof.
  intros Hd Hi. inversion Hd as [|? ? Hl Hf]; subst. clear Hd Hl.
  induction Hf as [|j l Hj _ IH]; [done|]. simpl. unfold key_le at 1.
  unfold Less in Hj. by rewrite (key_lt_trans _ _ _ Hj Hi).
Qed.
Lemma visit_abort s l :
  descending l -> visit None (Some s) l = List.filter (fun i => key_le s (item_key i)) l.
Proof.
  induction l as [|i l IH]; intros Hd; [done|]. cbn [visit List.filter send].
  unfold key_le at 1. destruct (key_lt (item_key i) s) eqn:E; cbn [negb].
  - symmetry. by eapply filter_below.
  - rewrite IH; [done|]. by inversion Hd.
Qed.
Lemma visit_abort_start start l :
  descending l ->
  visit None start l = List.filter (fun i => key_le (string_of_bytes start) (item_key i)) l.
Proof.
  intros Hd. destruct start as [s|]; [by apply visit_abort|]. rewrite visit_all.
  symmetry. apply List.forallb_filter_id, List.forallb_forall. intros i _. apply key_le_empty.
Qed.

(** With the end of the range skipped. *)
Lemma visit_skip_below e start l :
  Forall (fun i => key_lt (item_key i) e = true) l -> visit (Some e) start l = visit None start l.
Proof.
  induction 1 as [|i l Hi _ IH]; [done|]. cbn [visit]. rewrite IH.
  destruct (String.eqb_spec (item_key i) e) as [E|_]; [|done].
  by rewrite E, key_lt_irrefl in Hi.
Qed.
Lemma filter_end e start l :
  Forall (fun i => key_lt (item_key i) e = true) l ->
  List.filter (fun i => key_le start (item_key i) && key_lt (item_key i) e) l =
  List.filter (fun i => key_le start (item_key i)) l.
Proof.
  induction 1 as [|i l Hi _ IH]; [done|]. cbn [List.filter]. by rewrite Hi, andb_true_r, IH.
Qed.
Lemma visit_skip e start l :
  descending l -> Forall (fun i => key_le (item_key i) e = true) l ->
  visit (Some e) start l =
  List.filter (fun i => key_le (string_of_bytes start) (item_key i) && key_lt (item_key i) e) l.
Proof.
  intros Hd He. destruct l as [|i l]; [done|].
  apply Forall_cons in He as [Hi He]. unfold key_le in Hi. apply negb_true_iff in Hi.
  inversion Hd as [|? ? Hl Hf]; subst.
  assert (Forall (fun j => key_lt (item_key j) e = true) l) as Hlt.
  { eapply Forall_impl; [exact Hf|]. intros j Hj. unfold Less in Hj.
    eapply key_lt_le_trans; [exact Hj|done]. }
  cbn [visit List.filter]. destruct (String.eqb_spec (item_key i) e) as [E|Hne].
  - rewrite E, key_lt_irrefl, andb_false_r. rewrite filter_end by done. by apply visit_abort_start.
  - assert (key_lt (item_key i) e = true) as Hie.
    { destruct (key_lt (item_key i) e) eqn:E; [done|]. destruct Hne. by apply key_lt_total. }
    rewrite visit_skip_below by done. rewrite Hie, andb_true_r, filter_end by done.
    change (send start i (visit None start l)) with (visit None start (i :: l)).
    by rewrite visit_abort_start.
Qed.

Lemma sorted_rev {A} (R : A -> A -> Prop) l :
  StronglySorted R l -> StronglySorted (fun a b => R b a) (rev l).
Proof.
  induction 1 as [|a l Hl IH Hf]; [constructor|]. simpl.
  clear Hl. apply Forall_rev in Hf. revert IH Hf. generalize (rev l). intros k Hk Hf.
  induction Hk as [|b k Hk IH Hb]; simpl; [repeat constructor|].
  apply Forall_cons in Hf as [Hab Hf]. constructor; [by apply IH|].
  apply Forall_app. split; [done|by repeat constructor].
Qed.
Lemma sorted_filter {A} (R : A -> A -> Prop) f l :
  StronglySorted R l -> StronglySorted R (List.filter f l).
Proof.
  induction 1 as [|a l Hl IH Hf]; [constructor|]. simpl. destruct (f a); [|done].
  constructor; [done|]. rewrite List.Forall_forall in *. intros x Hx.
  apply List.filter_In in Hx as [Hx _]. by apply Hf.
Qed.
Lemma filter_rev {A} (f : A -> bool) l : List.filter f (rev l) = rev (List.filter f l).
Proof.
  induction l as [|a l IH]; [done|]. simpl. rewrite List.filter_app, IH. simpl.
  destruct (f a); simpl; [done|by rewrite app_nil_r].
Qed.
Lemma filter_filter {A} (f g : A -> bool) l :
  List.filter f (List.filter g l) = List.filter (fun a => g a && f a) l.
Proof.
  induction l as [|a l IH]; [done|]. simpl. destruct (g a) eqn:Eg; simpl; [|done].
  destruct (f a); by rewrite IH.
Qed.

Section Yields.
Context {T : Type} `{BTreeLaws T}.

Lemma traversal_range (db : T) start end_ reverse :
  traversal db start end_ reverse =
  let l := List.filter (in_range start end_) (bt_items db) in if reverse then rev l else l.
Proof.
  cbv zeta.
  pose proof (bt_sorted db) as Hs. apply sorted_rev in Hs as Hd. unfold traversal, in_range.
  assert (forall l, List.filter (fun i => key_le "" (item_key i) && true) l = l) as Hall.
  { intros l. apply List.forallb_filter_id, List.forallb_forall. intros i _. by rewrite key_le_empty. }
  assert (forall s l, List.filter (fun i => key_le s (item_key i) && true) l =
    List.filter (fun i => key_le s (item_key i)) l) as Htrue.
  { intros s l. apply List.filter_ext. intros i. apply andb_true_r. }
  destruct reverse, end_ as [e|].
  - assert (visit (Some e) start (DescendLessOrEqual db e) =
      rev (List.filter (fun i => key_le (string_of_bytes start) (item_key i) &&
        key_lt (item_key i) e) (bt_items db))) as E; [|by destruct start].
    unfold DescendLessOrEqual. rewrite <- filter_rev.
    rewrite visit_skip; [|by apply sorted_filter|].
    + rewrite filter_filter, <- filter_rev. apply List.filter_ext. intros i.
      unfold key_le at 1. destruct (key_lt e (item_key i)) eqn:E; cbn [negb andb]; [|done].
      by rewrite (key_lt_antisym _ _ E), andb_false_r.
    + apply List.Forall_forall. intros i Hi. by apply List.filter_In in Hi as [_ Hi].
  - assert (visit None start (Descend db) =
      rev (List.filter (fun i => key_le (string_of_bytes start) (item_key i) && true)
        (bt_items db))) as E; [|by destruct start].
    rewrite Htrue, <- filter_rev. by apply visit_abort_start.
  - destruct start; by rewrite visit_all.
  - destruct start as [s|]; rewrite visit_all; [by rewrite Htrue|]. symmetry. apply Hall.
Qed.

(** Reading an iterator to its end gives the sequence it was made with. *)
Definition remaining (i : memDBIterator) : list item :=
  match mi_item i with Some it => it :: mi_ch i | None => [] end.
Lemma collect_all n i :
  (length (remaining i) <= n)%nat ->
  collect n i = Ret (map (fun it => (Some (item_key it), Some (item_value it))) (remaining i)).
Proof.
  revert i. induction n as [|n IH]; intros i Hn.
  - by destruct (remaining i); [|simpl in Hn; lia].
  - cbn [collect]. unfold Valid, Key, Value, Next, assertIsValid. unfold remaining in *.
    destruct i as [[it|] ch a b]; cbn [mi_item mi_ch mi_start mi_end obind] in *; [|done].
    rewrite IH; cbn [mi_item mi_ch]; destruct ch; simpl in *; try done; lia.
Qed.
Lemma remaining_new (db : T) start end_ reverse :
  remaining (newMemDBIterator db start end_ reverse) = traversal db start end_ reverse.
Proof. unfold remaining, newMemDBIterator. cbn [mi_item mi_ch]. by destruct (traversal _ _ _ _). Qed.
End Yields.

(** ** A B-tree of the reference kind: a sorted list *)

Fixpoint sl_insert (l : list item) (i : item) : list item :=
  match l with
  | [] => [i]
  | j :: l' =>
    if key_lt (item_key i) (item_key j) then i :: l
    else if key_lt (item_key j) (item_key i) then j :: sl_insert l' i
    else i :: l'
  end.
Definition ascending := StronglySorted (fun a b => Less a b = true).

Lemma sl_insert_in l i j : In j (sl_insert l i) -> j = i \/ In j l.
Proof.
  induction l as [|k l IH]; simpl; [intros [->|[]]; by left|].
  repeat case_match; simpl; intros; intuition congruence.
Qed.
Lemma sl_insert_sorted l i : ascending l -> ascending (sl_insert l i).
Proof.
  induction 1 as [|j l Hl IH Hf]; [by repeat constructor|]. simpl.
  destruct (key_lt (item_key i) (item_key j)) eqn:E1.
  - constructor; [by constructor|]. constructor; [done|].
    eapply Forall_impl; [exact Hf|]. intros k Hk. unfold Less in *. by eapply key_lt_trans.
  - destruct (key_lt (item_key j) (item_key i)) eqn:E2.
    + constructor; [done|]. apply List.Forall_forall. intros k Hk.
      apply sl_insert_in in Hk as [->|Hk]; [done|]. by apply (proj1 (List.Forall_forall _ _) Hf).
    + constructor; [done|]. eapply Forall_impl; [exact Hf|]. intros k. unfold Less.
      by rewrite (key_lt_total _ _ E1 E2).
Qed.
Lemma sl_insert_get l i k :
  find_item k (sl_insert l i) = if String.eqb (item_key i) k then Some i else find_item k l.
Proof.
  unfold find_item. induction l as [|j l IH]; simpl; [done|].
  destruct (key_lt (item_key i) (item_key j)) eqn:E1; simpl; [done|].
  destruct (key_lt (item_key j) (item_key i)) eqn:E2; simpl.
  - rewrite IH. destruct (String.eqb_spec (item_key j) k) as [<-|]; [|done].
    destruct (String.eqb_spec (item_key i) (item_key j)) as [E|]; [|done].
    by rewrite E, key_lt_irrefl in E2.
  - rewrite (key_lt_total _ _ E1 E2). by destruct (String.eqb (item_key j) k).
Qed.
Lemma sl_delete_get l d k :
  find_item k (List.filter (fun i => negb (String.eqb (item_key i) d)) l) =
  if String.eqb d k then None else find_item k l.
Proof.
  unfold find_item. induction l as [|j l IH]; simpl; [by destruct (String.eqb d k)|].
  destruct (String.eqb_spec (item_key j) d) as [E|E]; simpl; rewrite IH.
  - subst d. by destruct (String.eqb (item_key j) k).
  - destruct (String.eqb_spec (item_key j) k) as [<-|]; [|done].
    destruct (String.eqb_spec d (item_key j)); [congruence|done].
Qed.

Definition sorted_list : Type := { l : list item | ascending l }.
#[export] Instance sorted_list_btree : BTree sorted_list := {|
  bt_New := exist _ [] (SSorted_nil _);
  bt_items t := proj1_sig t;
  bt_Get t k := find_item k (proj1_sig t);
  bt_ReplaceOrInsert t i := exist _ (sl_insert (proj1_sig t) i) (sl_insert_sorted _ i (proj2_sig t));
  bt_Delete t d := exist _ (List.filter (fun i => negb (String.eqb (item_key i) d)) (proj1_sig t))
    (sorted_filter _ _ _ (proj2_sig t));
|}.
#[export] Instance sorted_list_laws : BTreeLaws sorted_list.
Proof.
  split.
  - done.
  - intros t. exact (proj2_sig t).
  - done.
  - intros t i k. apply sl_insert_get.
  - intros t d k. apply sl_delete_get.
Qed.

(** ** Properties *)

(** The database is a map: after a write a read of the same key gives the
    value (an empty value is not a missing one), a deleted key is missing,
    and every other key reads as before; an empty or nil key and a nil value
    are refused and change nothing. *)
Theorem MemDB_is_a_map {T : Type} `{BTreeLaws T} (db : T) (k k' : bytes) (v : string) :
  blen k <> 0 ->
  (MemDB_Set db k (Some v)).2 = None /\
  (MemDB_Delete db k).2 = None /\
  (string_of_bytes k' = string_of_bytes k ->
     MemDB_Get (MemDB_Set db k (Some v)).1 k' = (Some v, None) /\
     MemDB_Get (MemDB_Delete db k).1 k' = (None, None)) /\
  (string_of_bytes k' <> string_of_bytes k ->
     MemDB_Get (MemDB_Set db k (Some v)).1 k' = MemDB_Get db k' /\
     MemDB_Get (MemDB_Delete db k).1 k' = MemDB_Get db k') /\
  MemDB_Set db k None = (db, Some errValueNil) /\
  (blen k' = 0 -> MemDB_Set db k' (Some v) = (db, Some errKeyEmpty) /\
     MemDB_Get db k' = (None, Some errKeyEmpty)).
Proof.
  intros Hk. unfold MemDB_Set, MemDB_Delete, MemDB_Get, MemDB_set, MemDB_delete, newPair, newKey.
  cbn [item_key]. rewrite (proj2 (Z.eqb_neq (blen k) 0)) by done. cbn [fst snd].
  split_and!; [done|done| | |done|by intros ->].
  - intros E. unfold blen in *. rewrite E, (proj2 (Z.eqb_neq _ 0)) by done.
    rewrite !bt_Get_items, bt_ReplaceOrInsert_get, bt_Delete_get. cbn [item_key].
    by rewrite String.eqb_refl.
  - intros Hne. rewrite !bt_Get_items, bt_ReplaceOrInsert_get, bt_Delete_get. cbn [item_key].
    by rewrite (proj2 (String.eqb_neq _ _)) by congruence.
Qed.
Lemma MemDB_is_a_map_witness :
  (MemDB_Set (NewMemDB (T := sorted_list)) (Some "k"%string) (Some ""%string)).2 = None.
Proof.
  apply (MemDB_is_a_map (NewMemDB (T := sorted_list)) (Some "k"%string) None ""%string).
  discriminate.
Defined.

(** C25. An iterator over [start, end) yields exactly the pairs whose keys are
    in the range, each once, in ascending order (in descending order in
    reverse, where the library's traversal would include the end and run past
    the start); reading it to the end never panics, and a bound that is empty
    but not nil is refused. *)
Theorem MemDB_iterates_range {T : Type} `{BTreeLaws T} (db : T) (start end_ : bytes) (reverse : bool) :
  let it := newMemDBIterator db start end_ reverse in
  let l := List.filter (in_range start end_) (bt_items db) in
  collect (S (length l)) it =
    Ret (map (fun i => (Some (item_key i), Some (item_value i))) (if reverse then rev l else l)) /\
  Domain it = (start, end_) /\
  MemDB_Iterator db (Some ""%string) end_ = (None, Some errKeyEmpty).
Proof.
  cbv zeta. split_and!; [|done|done]. rewrite collect_all; rewrite remaining_new, traversal_range.
  - done.
  - destruct reverse; cbv zeta; rewrite ?length_rev; lia.
Qed.
Lemma MemDB_iterates_range_witness :
  let db := (MemDB_Set (MemDB_Set (NewMemDB (T := sorted_list)) (Some "b"%string) (Some "2"%string)).1
    (Some "a"%string) (Some "1"%string)).1 in
  collect 2 (newMemDBIterator db None (Some "b"%string) true) =
    Ret [(Some "a"%string, Some "1"%string)].
Proof.
  intros db. exact (proj1 (MemDB_iterates_range db None (Some "b"%string) true)).
Defined.

(** Past its end an iterator is invalid and stays so; asking it for a key,
    a value or the next entry panics, and closing a valid one ends it. *)
Theorem iterator_end (i : memDBIterator) :
  (Valid i = false <-> Key i = Panic (string_panic "iterator is invalid")) /\
  (Valid i = false -> Value i = Key i /\ exists p, Next i = Panic p) /\
  Valid (Close i) = false.
Proof.
  destruct i as [[it|] ch a b]; unfold Valid, Key, Value, Next, assertIsValid, Close; cbn;
    split_and!; try done; eauto.
Qed.
Lemma iterator_end_witness :
  Value (mkMemDBIterator None [] None None) = Key (mkMemDBIterator None [] None None) /\
  exists p, Next (mkMemDBIterator None [] None None) = Panic p.
Proof. apply (iterator_end (mkMemDBIterator None [] None None)). reflexivity. Defined.
