(* ===== verification/MemDBConc.v ===== *)
(** * The iterators of the test database at work

    [MemDB.v] has an iterator of [testdb] as the list of entries it will
    deliver.  In the code ([memdb_iterator.go]) a goroutine walks the B-tree
    under a read lock and sends the entries over a channel of 64 places to
    the iterator, which a context can cancel.  This file has those parts as a
    step relation, for any number of iterators and writers, and shows that
    what the calls of an iterator return is what the list gives. *)

From stdpp Require Import relations.
From S2P Require Import Prelude GoText Errors MemDB.

Definition chBufferSize : nat := 64.

(** What the owner of an iterator is doing: nothing, waiting for an entry (in
    [newMemDBIterator] or [Next]), or emptying the channel (in [Close]). *)
Inductive consumer := Idle | Receiving | Draining.
#[global] Instance consumer_eq_dec : EqDecision consumer.
Proof. solve_decision. Defined.

Section Conc.
Context {T : Type} `{BTree T}.

Record iter := mkIter {
  c_start : bytes;
  c_end : bytes;
  c_reverse : bool;
  c_sent : nat;              (** entries the traversal has sent *)
  c_stopped : bool;          (** the traversal has returned *)
  c_ch : list item;          (** the entries in the channel *)
  c_closed : bool;           (** [close(ch)] *)
  c_released : bool;         (** [db.mtx.RUnlock()] *)
  c_cancelled : bool;        (** [i.cancel()] *)
  c_item : option item;
  c_mode : consumer;
  c_nexts : nat;             (** calls of [Next] that have returned *)
  c_primed : bool;           (** the first entry has been received *)
  c_tree : T;                (** the tree when the iterator was opened *)
}.

Definition opened (db : T) (start end_ : bytes) (reverse : bool) : iter :=
  mkIter start end_ reverse 0 false [] false false false None Receiving 0 false db.

Definition set_producer (i : iter) sent stopped ch closed released : iter :=
  mkIter (c_start i) (c_end i) (c_reverse i) sent stopped ch closed released (c_cancelled i)
    (c_item i) (c_mode i) (c_nexts i) (c_primed i) (c_tree i).
Definition set_consumer (i : iter) ch cancelled it mode nexts primed : iter :=
  mkIter (c_start i) (c_end i) (c_reverse i) (c_sent i) (c_stopped i) ch (c_closed i)
    (c_released i) cancelled it mode nexts primed (c_tree i).
(** After a value or the end was received. *)
Definition received (i : iter) ch it : iter :=
  set_consumer i ch (c_cancelled i) it Idle (if c_primed i then S (c_nexts i) else c_nexts i) true.

(** A step of an iterator or of its goroutine.  The goroutine reads the
    tree as it is at that time. *)
Inductive istep (db : T) (i : iter) : iter -> Prop :=
| i_send x :
    c_stopped i = false -> traversal db (c_start i) (c_end i) (c_reverse i) !! c_sent i = Some x ->
    (length (c_ch i) < chBufferSize)%nat ->
    istep db i (set_producer i (S (c_sent i)) false (c_ch i ++ [x]) (c_closed i) (c_released i))
| i_cancelled x :
    c_stopped i = false -> traversal db (c_start i) (c_end i) (c_reverse i) !! c_sent i = Some x ->
    c_cancelled i = true ->
    istep db i (set_producer i (c_sent i) true (c_ch i) (c_closed i) (c_released i))
| i_end :
    c_stopped i = false -> traversal db (c_start i) (c_end i) (c_reverse i) !! c_sent i = None ->
    istep db i (set_producer i (c_sent i) true (c_ch i) (c_closed i) (c_released i))
| i_close_ch :
    c_stopped i = true -> c_closed i = false ->
    istep db i (set_producer i (c_sent i) true (c_ch i) true (c_released i))
| i_unlock :
    c_closed i = true -> c_released i = false ->
    istep db i (set_producer i (c_sent i) (c_stopped i) (c_ch i) true true)
| i_receive x ch :
    c_mode i = Receiving -> c_ch i = x :: ch -> istep db i (received i ch (Some x))
| i_receive_end :
    c_mode i = Receiving -> c_ch i = [] -> c_closed i = true -> istep db i (received i [] None)
| i_next x :
    c_mode i = Idle -> c_item i = Some x ->
    istep db i (set_consumer i (c_ch i) (c_cancelled i) (c_item i) Receiving (c_nexts i) (c_primed i))
| i_close :
    c_mode i = Idle ->
    istep db i (set_consumer i (c_ch i) true (c_item i) Draining (c_nexts i) (c_primed i))
| i_drain x ch :
    c_mode i = Draining -> c_ch i = x :: ch ->
    istep db i (set_consumer i ch (c_cancelled i) (c_item i) Draining (c_nexts i) (c_primed i))
| i_drained :
    c_mode i = Draining -> c_ch i = [] -> c_closed i = true ->
    istep db i (set_consumer i [] (c_cancelled i) None Idle (c_nexts i) (c_primed i)).

(** The database: its tree, and the iterators that were opened.  A write
    takes the lock for itself, so every goroutine must have returned. *)
Record database := mkDatabase { tree : T; iterators : gmap Z iter }.

Inductive dbstep (s : database) : database -> Prop :=
| c_open id start end_ reverse :
    iterators s !! id = None -> empty_bound start || empty_bound end_ = false ->
    dbstep s (mkDatabase (tree s) (<[id := opened (tree s) start end_ reverse]> (iterators s)))
| c_write db :
    (forall id i, iterators s !! id = Some i -> c_released i = true) ->
    (exists key value, db = (MemDB_Set (tree s) key value).1) \/
    (exists key, db = (MemDB_Delete (tree s) key).1) ->
    dbstep s (mkDatabase db (iterators s))
| c_iter id i i' :
    iterators s !! id = Some i -> istep (tree s) i i' ->
    dbstep s (mkDatabase (tree s) (<[id := i']> (iterators s))).

Definition started (db : T) : database := mkDatabase db ∅.

(** ** The invariant *)

Definition entries (i : iter) : list item := traversal (c_tree i) (c_start i) (c_end i) (c_reverse i).
(** How many entries the consumer has taken out of the channel by [Next]. *)
Definition taken (i : iter) : nat := if c_primed i then S (c_nexts i) else O.

Record iter_inv (db : T) (i : iter) : Prop := {
  (** While the goroutine has the lock nobody has written. *)
  inv_lock : c_released i = false -> c_tree i = db;
  inv_closed : c_closed i = true -> c_stopped i = true;
  inv_released : c_released i = true -> c_closed i = true;
  inv_sent : (c_sent i <= length (entries i))%nat;
  inv_buffer : (length (c_ch i) <= chBufferSize)%nat;
  inv_draining : c_mode i = Draining -> c_cancelled i = true;
  inv_done : c_cancelled i = false -> c_stopped i = true -> c_sent i = length (entries i);
  (** What is in the channel follows what was taken out. *)
  inv_channel : c_cancelled i = false ->
    c_ch i = take (c_sent i - taken i) (drop (taken i) (entries i));
  inv_ahead : c_cancelled i = false -> (taken i <= c_sent i)%nat \/
    (c_mode i = Idle /\ c_item i = None /\ taken i = S (length (entries i)) /\ c_sent i = length (entries i));
  inv_item : c_cancelled i = false -> c_primed i = true ->
    c_item i = entries i !! c_nexts i;
  inv_unprimed : c_primed i = false -> c_nexts i = O /\ c_mode i = Receiving /\ c_cancelled i = false;
  inv_cancelled : c_cancelled i = true -> c_mode i = Draining \/ (c_mode i = Idle /\ c_item i = None);
}.

Lemma opened_inv db start end_ reverse : iter_inv db (opened db start end_ reverse).
Proof. by split; cbn; try (by auto); try lia. Qed.

Lemma next_taken db i :
  iter_inv db i -> (if c_primed i then S (c_nexts i) else c_nexts i) = taken i.
Proof.
  intros Hi. unfold taken. destruct (c_primed i) eqn:E; [done|]. by destruct (inv_unprimed _ _ Hi E).
Qed.
(** An iterator that waits has something to wait for. *)
Lemma receiving_ahead db i :
  iter_inv db i -> c_mode i = Receiving -> c_cancelled i = false /\ (taken i <= c_sent i)%nat.
Proof.
  intros Hi Hm. destruct (c_cancelled i) eqn:Ec.
  { destruct (inv_cancelled _ _ Hi Ec) as [?|[? _]]; congruence. }
  split; [done|]. destruct (inv_ahead _ _ Hi Ec) as [?|[? _]]; [done|congruence].
Qed.

(** A goroutine that walks the tree has the lock. *)
Lemma walking_locked db i : iter_inv db i -> c_stopped i = false -> c_released i = false /\ c_tree i = db.
Proof.
  intros Hi Hs. assert (c_released i = false) as Hr; [|by split; [|apply (inv_lock _ _ Hi)]].
  destruct (c_released i) eqn:E; [|done].
  apply (inv_released _ _ Hi), (inv_closed _ _ Hi) in E. congruence.
Qed.

Lemma send_inv db i x :
  iter_inv db i -> c_stopped i = false ->
  traversal db (c_start i) (c_end i) (c_reverse i) !! c_sent i = Some x ->
  (length (c_ch i) < chBufferSize)%nat ->
  iter_inv db (set_producer i (S (c_sent i)) false (c_ch i ++ [x]) (c_closed i) (c_released i)).
Proof.
  intros Hi Hs Hx Hb.
  destruct (walking_locked _ _ Hi Hs) as [Hre Ht].
  assert (c_closed i = false) as Hcl
    by (destruct (c_closed i) eqn:E; [apply (inv_closed _ _ Hi) in E; congruence|done]).
  rewrite <- Ht in Hx. fold (entries i) in Hx.
  pose proof (lookup_lt_Some _ _ _ Hx) as Hlt.
  destruct Hi as [H1 H2 H3 H4 H5 H6 H7 H8 H9 H10 H11 H12].
  split; cbn; try done; try congruence.
  - rewrite length_app. cbn. lia.
  - intros Hc. destruct (H9 Hc) as [Ha|(_ & _ & _ & Ha)]; [|lia]. rewrite (H8 Hc) at 1.
    unfold taken in *. cbn. rewrite Nat.sub_succ_l by done. symmetry. apply take_S_r.
    rewrite lookup_drop. by replace (_ + _)%nat with (c_sent i) by lia.
  - intros Hc. left. destruct (H9 Hc) as [Ha|(_ & _ & _ & Ha)]; unfold taken in *; cbn; lia.
Qed.

Lemma receive_inv db i x ch :
  iter_inv db i -> c_mode i = Receiving -> c_ch i = x :: ch -> iter_inv db (received i ch (Some x)).
Proof.
  intros Hi Hm Hch. destruct (receiving_ahead _ _ Hi Hm) as [Hc Ha].
  pose proof (next_taken _ _ Hi) as Hn.
  pose proof (inv_channel _ _ Hi Hc) as Hbuf. rewrite Hch in Hbuf.
  assert (entries i !! taken i = Some x /\ (taken i < c_sent i)%nat /\
    ch = take (c_sent i - S (taken i)) (drop (S (taken i)) (entries i))) as (Hx & Hlt & Hrest).
  { destruct (c_sent i - taken i)%nat as [|m] eqn:Em; [done|].
    destruct (drop (taken i) (entries i)) as [|y r] eqn:Ed; [done|]. injection Hbuf as -> ->.
    split_and!; [|lia|].
    - rewrite <- (Nat.add_0_r (taken i)), <- lookup_drop, Ed. done.
    - replace (c_sent i - S (taken i))%nat with m by lia.
      rewrite <- Nat.add_1_r, <- drop_drop, Ed. done. }
  destruct Hi as [H1 H2 H3 H4 H5 H6 H7 H8 H9 H10 H11 H12].
  split; cbn; try done; try congruence.
  - rewrite Hch in H5. cbn in H5. lia.
  - intros _. by rewrite Hn.
  - intros _. left. by rewrite Hn.
  - intros _ _. by rewrite Hn.
Qed.

Lemma receive_end_inv db i :
  iter_inv db i -> c_mode i = Receiving -> c_ch i = [] -> c_closed i = true ->
  iter_inv db (received i [] None).
Proof.
  intros Hi Hm Hch Hcl. destruct (receiving_ahead _ _ Hi Hm) as [Hc Ha].
  pose proof (next_taken _ _ Hi) as Hn.
  pose proof (inv_done _ _ Hi Hc (inv_closed _ _ Hi Hcl)) as Hs.
  assert (taken i = length (entries i)) as Ht.
  { pose proof (inv_channel _ _ Hi Hc) as Hb. rewrite Hch in Hb. apply (f_equal length) in Hb.
    rewrite length_take, length_drop in Hb. cbn in Hb. lia. }
  destruct Hi as [H1 H2 H3 H4 H5 H6 H7 H8 H9 H10 H11 H12].
  split; cbn; try done; try congruence; try lia.
  - intros _. rewrite Hn. replace (c_sent i - S (taken i))%nat with O by lia. done.
  - intros _. right. split_and!; [done|done|by rewrite Hn, Ht|done].
  - intros _ _. rewrite Hn. symmetry. apply lookup_ge_None. change (entries (received i [] None)) with (entries i). lia.
Qed.

Lemma producer_inv db i i' :
  iter_inv db i ->
  i' = set_producer i (c_sent i) true (c_ch i) (c_closed i) (c_released i) /\
    (c_cancelled i = true \/
     c_stopped i = false /\ traversal db (c_start i) (c_end i) (c_reverse i) !! c_sent i = None) \/
  i' = set_producer i (c_sent i) true (c_ch i) true (c_released i) /\ c_stopped i = true \/
  i' = set_producer i (c_sent i) (c_stopped i) (c_ch i) true true /\ c_closed i = true ->
  iter_inv db i'.
Proof.
  intros Hi Hs. pose proof (walking_locked _ _ Hi) as Hw.
  destruct Hi as [H1 H2 H3 H4 H5 H6 H7 H8 H9 H10 H11 H12].
  destruct Hs as [[-> [Hc|[Hst Hx]]]|[[-> Hst]|[-> Hcl]]]; split; cbn; try done; try congruence; auto.
  intros _ _. destruct (Hw Hst) as [_ Ht]. rewrite <- Ht in Hx. apply lookup_ge_None in Hx.
  change (entries (set_producer i (c_sent i) true (c_ch i) (c_closed i) (c_released i))) with (entries i).
  unfold entries in *. lia.
Qed.

Lemma consumer_inv db i i' :
  iter_inv db i ->
  (exists x, c_mode i = Idle /\ c_item i = Some x /\
     i' = set_consumer i (c_ch i) (c_cancelled i) (c_item i) Receiving (c_nexts i) (c_primed i)) \/
  c_mode i = Idle /\
    i' = set_consumer i (c_ch i) true (c_item i) Draining (c_nexts i) (c_primed i) \/
  (exists x ch, c_mode i = Draining /\ c_ch i = x :: ch /\
     i' = set_consumer i ch (c_cancelled i) (c_item i) Draining (c_nexts i) (c_primed i)) \/
  c_mode i = Draining /\
    i' = set_consumer i [] (c_cancelled i) None Idle (c_nexts i) (c_primed i) ->
  iter_inv db i'.
Proof.
  intros [H1 H2 H3 H4 H5 H6 H7 H8 H9 H10 H11 H12] Hs.
  assert (c_mode i <> Receiving -> c_primed i = true) as Hp.
  { intros Hm. destruct (c_primed i); [done|]. by destruct (H11 eq_refl) as (_ & ? & _). }
  destruct Hs as [(x & Hm & Hit & ->)|[[Hm ->]|[(x & ch & Hm & Hch & ->)|[Hm ->]]]];
    try (assert (c_cancelled i = true) as Hc by auto); split; cbn; try done; try congruence; auto.
  - intros Hc. left. destruct (H9 Hc) as [?|(_ & ? & _)]; [done|congruence].
  - intros Hpr. rewrite Hp in Hpr; congruence.
  - intros Hc. destruct (H12 Hc) as [?|[_ ?]]; congruence.
  - intros Hpr. rewrite Hp in Hpr; congruence.
  - rewrite Hch in H5. cbn in H5. lia.
  - intros Hpr. rewrite Hp in Hpr; congruence.
  - lia.
  - intros Hpr. rewrite Hp in Hpr; congruence.
Qed.

Lemma istep_inv db i i' : iter_inv db i -> istep db i i' -> iter_inv db i'.
Proof.
  intros Hi Hs.
  destruct Hs as [x Hst Hx Hb|x Hst Hx Hc|Hst Hx|Hst Hcl|Hcl Hre|x ch Hm Hch|Hm Hch Hcl|x Hm Hit|Hm|x ch Hm Hch|Hm Hch Hcl].
  - by apply send_inv.
  - eapply producer_inv; [done|]. left. split; [reflexivity|by left].
  - eapply producer_inv; [done|]. left. split; [reflexivity|by right].
  - eapply producer_inv; [done|]. right; left. by split.
  - eapply producer_inv; [done|]. right; right. by split.
  - by apply receive_inv.
  - by apply receive_end_inv.
  - eapply consumer_inv; [done|]. left. by exists x.
  - eapply consumer_inv; [done|]. right; left. by split.
  - eapply consumer_inv; [done|]. right; right; left. by exists x, ch.
  - eapply consumer_inv; [done|]. right; right; right. by split.
Qed.

(** ** Reachable databases *)

Definition db_inv (s : database) : Prop :=
  forall id i, iterators s !! id = Some i -> iter_inv (tree s) i.

Lemma dbstep_inv s s' : db_inv s -> dbstep s s' -> db_inv s'.
Proof.
  intros Hs Hstep. destruct Hstep as [id start end_ reverse _ _|db Hfree _|id i i' Hi Hst];
    intros id' i0 Hi0; cbn [iterators tree] in *.
  - apply lookup_insert_Some in Hi0 as [[_ <-]|[_ Hi0]]; [apply opened_inv|by eapply Hs].
  - pose proof (Hfree _ _ Hi0) as Hr. destruct (Hs _ _ Hi0). by split; try done; congruence.
  - apply lookup_insert_Some in Hi0 as [[_ <-]|[_ Hi0]]; [|by eapply Hs].
    eapply istep_inv; [by eapply Hs|done].
Qed.
Lemma reachable_iter db s id i :
  rtc dbstep (started db) s -> iterators s !! id = Some i -> iter_inv (tree s) i.
Proof.
  intros Hr. assert (db_inv s) as Hs; [|apply Hs].
  assert (db_inv (started db)) as H0 by (by intros ? ? ?).
  induction Hr as [|s1 s2 s3 Hstep _ IH]; [done|]. apply IH. by eapply dbstep_inv.
Qed.

(** ** The sequential iterator *)

(** [n] calls of [Next]. *)
Fixpoint nexts (n : nat) (a : memDBIterator) : outcome memDBIterator :=
  match n with
  | O => Ret a
  | S n => let% a := Next a in nexts n a
  end.
Lemma nexts_drop n a :
  (n <= length (remaining a))%nat ->
  exists a', nexts n a = Ret a' /\ remaining a' = drop n (remaining a).
Proof.
  revert a. induction n as [|n IH]; intros a Hn; [by exists a|].
  unfold remaining in Hn. cbn [nexts]. unfold Next, assertIsValid.
  destruct a as [[it|] ch st en]; cbn [mi_item mi_ch mi_start mi_end obind] in *; [|cbn in Hn; lia].
  destruct (IH (mkMemDBIterator (head ch) (tail ch) st en)) as (a' & E & Hr).
  { unfold remaining. cbn. destruct ch; cbn in *; lia. }
  exists a'. split; [done|]. rewrite Hr. unfold remaining. cbn. by destruct ch.
Qed.
Lemma item_remaining a : mi_item a = remaining a !! O.
Proof. unfold remaining. by destruct (mi_item a). Qed.

(** ** Closing *)

Definition drain_step (db : T) (i i' : iter) : Prop := c_mode i = Draining /\ istep db i i'.
Definition close_bound (i : iter) : nat :=
  2 * (length (entries i) - c_sent i) + length (c_ch i) +
  (if c_stopped i then 0 else 1) + (if c_closed i then 0 else 1) + (if c_released i then 0 else 1) +
  match c_mode i with Draining => 1 | _ => 0 end.

Lemma drain_decreases db i i' :
  iter_inv db i -> drain_step db i i' -> (close_bound i' < close_bound i)%nat.
Proof.
  intros Hi [Hm Hs]. unfold close_bound.
  destruct Hs as [x Hst Hx Hb|x Hst Hx Hc|Hst Hx|Hst Hcl|Hcl Hre|x ch Hm' Hch|Hm' Hch Hcl|x Hm' Hit|Hm'|x ch Hm' Hch|Hm' Hch Hcl];
    try congruence; cbn; rewrite ?Hm, ?Hst, ?Hcl, ?Hre, ?Hch; cbn;
    try (change (entries (set_producer _ _ _ _ _ _)) with (entries i));
    try (change (entries (set_consumer _ _ _ _ _ _ _)) with (entries i)); try lia.
  destruct (walking_locked _ _ Hi Hst) as [_ <-]. apply lookup_lt_Some in Hx.
  rewrite length_app. cbn. fold (entries i) in Hx. lia.
Qed.
Lemma drain_progress db i :
  iter_inv db i -> c_mode i = Draining -> exists i', drain_step db i i'.
Proof.
  intros Hi Hm. destruct (c_ch i) as [|x ch] eqn:Hch.
  - destruct (c_closed i) eqn:Hcl; [eexists; split; [done|by apply i_drained]|].
    destruct (c_stopped i) eqn:Hst; [eexists; split; [done|by apply i_close_ch]|].
    destruct (traversal db (c_start i) (c_end i) (c_reverse i) !! c_sent i) eqn:Hx.
    + eexists; split; [done|]. eapply i_cancelled; [done|done|by apply (inv_draining _ _ Hi)].
    + eexists; split; [done|by apply i_end].
  - eexists; split; [done|by eapply i_drain].
Qed.

(** ** Unread entries *)

Lemma unread_locked db i :
  iter_inv db i -> c_cancelled i = false -> (taken i + chBufferSize < length (entries i))%nat ->
  c_released i = false.
Proof.
  intros Hi Hc Hl. destruct (c_released i) eqn:E; [|done]. exfalso.
  pose proof (inv_done _ _ Hi Hc (inv_closed _ _ Hi (inv_released _ _ Hi E))) as Hs.
  pose proof (inv_channel _ _ Hi Hc) as Hb. apply (f_equal length) in Hb.
  rewrite length_take, length_drop in Hb. pose proof (inv_buffer _ _ Hi). lia.
Qed.

Ltac solve_bound :=
  match goal with
  | i : iter |- _ =>
    unfold close_bound; cbn;
    repeat match goal with H : _ i = true |- _ => rewrite H | H : _ i = false |- _ => rewrite H end;
    cbn; rewrite ?length_app; cbn; change (entries (set_producer i _ _ _ _ _)) with (entries i); lia
  end.

(** The goroutine of an iterator with at most 64 unread entries comes to its
    end by itself. *)
Lemma goroutine_returns db i :
  iter_inv db i -> c_cancelled i = false -> (length (entries i) <= taken i + chBufferSize)%nat ->
  exists i', rtc (istep db) i i' /\ c_released i' = true /\
    c_item i' = c_item i /\ c_mode i' = c_mode i /\ c_cancelled i' = false.
Proof.
  remember (close_bound i) as n eqn:En. revert i En.
  induction (lt_wf n) as [n _ IH]. intros i -> Hi Hc Hl.
  assert (forall i1, istep db i i1 -> (close_bound i1 < close_bound i)%nat ->
    entries i1 = entries i -> taken i1 = taken i -> c_item i1 = c_item i -> c_mode i1 = c_mode i ->
    c_cancelled i1 = c_cancelled i ->
    exists i', rtc (istep db) i i' /\ c_released i' = true /\
      c_item i' = c_item i /\ c_mode i' = c_mode i /\ c_cancelled i' = false) as Hgo.
  { intros i1 Hst Hlt He Ht Hit Hmo Hca. pose proof (istep_inv _ _ _ Hi Hst) as Hi1.
    destruct (IH _ Hlt i1 eq_refl Hi1) as (i' & Hr & Hrel & Hi' & Hm' & Hc'); [congruence|congruence|].
    exists i'. split_and!; [by eapply rtc_l|done|congruence|congruence|done]. }
  destruct (c_stopped i) eqn:Hst.
  - destruct (c_closed i) eqn:Hcl.
    + destruct (c_released i) eqn:Hre; [by exists i|].
      eapply Hgo; [by apply i_unlock|solve_bound|done..].
    + eapply Hgo; [by apply i_close_ch|solve_bound|done..].
  - destruct (walking_locked _ _ Hi Hst) as [Hre Ht].
    destruct (traversal db (c_start i) (c_end i) (c_reverse i) !! c_sent i) as [x|] eqn:Hx.
    + assert (c_sent i < length (entries i))%nat as Hlt
        by (unfold entries; rewrite Ht; by apply lookup_lt_Some in Hx).
      eapply Hgo; [apply (i_send db i x); [done|done|]| |done..].
      * pose proof (inv_channel _ _ Hi Hc) as Hb. apply (f_equal length) in Hb.
        rewrite length_take, length_drop in Hb. unfold chBufferSize in *. lia.
      * solve_bound.
    + eapply Hgo; [by apply i_end|solve_bound|done..].
Qed.
End Conc.
Arguments database : clear implicits.

(** ** Properties *)

(** C10. With any number of iterators and writers at work, in any interleaving
    of their goroutines: an iterator that is between two calls and was not
    closed stands where as many calls of [Next] take the iterator of the
    sequential model over the tree as it was when the iterator was opened. *)
Theorem concurrent_iterator_exact {T : Type} `{BTree T} (db : T) (s : database T) (id : Z) (i : iter) :
  rtc dbstep (started db) s -> iterators s !! id = Some i ->
  c_mode i = Idle -> c_cancelled i = false ->
  exists a, nexts (c_nexts i) (newMemDBIterator (c_tree i) (c_start i) (c_end i) (c_reverse i)) = Ret a /\
    mi_item a = c_item i.
Proof.
  intros Hr Hid Hm Hc. pose proof (reachable_iter _ _ _ _ Hr Hid) as Hi.
  assert (c_primed i = true) as Hp
    by (destruct (c_primed i) eqn:E; [done|destruct (inv_unprimed _ _ Hi E) as (_ & ? & _); congruence]).
  assert (c_nexts i <= length (entries i))%nat as Hn.
  { pose proof (inv_sent _ _ Hi). destruct (inv_ahead _ _ Hi Hc) as [Ha|(_ & _ & Ha & _)];
      unfold taken in Ha; rewrite Hp in Ha; lia. }
  destruct (nexts_drop (c_nexts i) (newMemDBIterator (c_tree i) (c_start i) (c_end i) (c_reverse i)))
    as (a & E & Ha); [by rewrite remaining_new|].
  exists a. split; [done|]. rewrite item_remaining, Ha, remaining_new, lookup_drop, Nat.add_0_r.
  symmetry. by apply (inv_item _ _ Hi).
Qed.

(** C17. Closing an iterator returns: however the goroutine and the closing
    call take their turns, after a number of steps that is bounded by the
    entries left to send and to drop the call has returned, the iterator is
    invalid and its channel is closed. *)
Theorem close_returns {T : Type} `{BTree T} (db : T) (s : database T) (id : Z) (i i' : iter) (n : nat) :
  rtc dbstep (started db) s -> iterators s !! id = Some i -> c_mode i = Draining ->
  nsteps (drain_step (tree s)) n i i' ->
  (n <= close_bound i)%nat /\
  ((forall i'', ~ drain_step (tree s) i' i'') ->
     c_mode i' = Idle /\ c_item i' = None /\ c_closed i' = true).
Proof.
  intros Hr Hid Hm Hn. pose proof (reachable_iter _ _ _ _ Hr Hid) as Hi. clear Hr Hid.
  assert (c_mode i' = Draining \/ c_mode i' = Idle /\ c_item i' = None /\ c_closed i' = true) as Hend.
  { revert Hm. induction Hn as [|n i i1 i' [_ Hst] Hn IH]; intros Hm; [by left|].
    assert (c_mode i1 = Draining \/ c_mode i1 = Idle /\ c_item i1 = None /\ c_closed i1 = true) as [Hm1|Hm1].
    { destruct Hst; try congruence; cbn; auto. }
    - apply IH; [by eapply istep_inv|done].
    - inversion Hn as [|? ? ? ? [? _]]; subst; [by right|]. destruct Hm1. congruence. }
  assert (iter_inv (tree s) i' /\ (n + close_bound i' <= close_bound i)%nat) as [Hi' Hb].
  { clear Hm Hend. induction Hn as [|n i i1 i' Hst Hn IH]; [split; [done|lia]|].
    pose proof (drain_decreases _ _ _ Hi Hst). destruct Hst as [_ Hst].
    destruct IH as [? ?]; [by eapply istep_inv|]. split; [done|lia]. }
  split; [lia|]. intros Hstuck. destruct Hend as [Hd|Hd]; [|done].
  destruct (drain_progress _ _ Hi' Hd) as [i'' Hst]. by apply Hstuck in Hst.
Qed.

(** A write waits for the iterators: while an iterator that was not closed
    has more than 64 entries its owner has not read, no step changes the
    tree.  With 64 or fewer its goroutine returns by itself and gives the
    lock back, although the iterator is open. *)
Theorem writes_wait {T : Type} `{BTree T} (db : T) (s : database T) (id : Z) (i : iter) :
  rtc dbstep (started db) s -> iterators s !! id = Some i -> c_cancelled i = false ->
  ((taken i + chBufferSize < length (entries i))%nat ->
     forall s', dbstep s s' -> tree s' = tree s) /\
  ((length (entries i) <= taken i + chBufferSize)%nat ->
     exists i', rtc (istep (tree s)) i i' /\ c_released i' = true /\
       c_item i' = c_item i /\ c_mode i' = c_mode i /\ c_cancelled i' = false).
Proof.
  intros Hr Hid Hc. pose proof (reachable_iter _ _ _ _ Hr Hid) as Hi. split.
  - intros Hl s' Hs. destruct Hs as [| ? Hfree _|]; [done| |done].
    pose proof (unread_locked _ _ Hi Hc Hl). specialize (Hfree _ _ Hid). congruence.
  - by apply goroutine_returns.
Qed.

(** ** Examples *)

Definition one_entry : sorted_list := (MemDB_Set NewMemDB (Some "a"%string) (Some "1"%string)).1.
(** Opened, filled, primed, and closed. *)
Definition ex_opened : iter := opened one_entry None None false.
Definition ex_filled : iter := set_producer ex_opened 1 false [mkItem "a" "1"] false false.
Definition ex_primed : iter := received ex_filled [] (Some (mkItem "a" "1")).
Definition ex_closing : iter := set_consumer ex_primed [] true (Some (mkItem "a" "1")) Draining 0 true.
Definition ex_primed_db : database sorted_list :=
  mkDatabase one_entry (<[1 := ex_primed]> (<[1 := ex_filled]> (<[1 := ex_opened]> ∅))).

Lemma ex_primed_reachable : rtc dbstep (started one_entry) ex_primed_db.
Proof.
  eapply rtc_l; [by apply (c_open _ 1 None None false)|].
  eapply rtc_l; [apply (c_iter _ 1 ex_opened ex_filled); [by apply lookup_insert_eq|]|].
  { refine (i_send one_entry ex_opened (mkItem "a" "1") _ _ _); [done|done|].
    apply Nat.ltb_lt. reflexivity. }
  eapply rtc_l; [apply (c_iter _ 1 ex_filled ex_primed); [by apply lookup_insert_eq|]|apply rtc_refl].
  by refine (i_receive one_entry ex_filled (mkItem "a" "1") [] _ _).
Qed.

Lemma concurrent_iterator_exact_witness :
  exists a, nexts 0 (newMemDBIterator one_entry None None false) = Ret a /\
    mi_item a = Some (mkItem "a" "1").
Proof.
  refine (concurrent_iterator_exact one_entry ex_primed_db 1 ex_primed ex_primed_reachable _ _ _);
    [apply lookup_insert_eq|reflexivity|reflexivity].
Defined.

Lemma close_returns_witness :
  exists i' : iter (T := sorted_list), nsteps (drain_step one_entry) 3 ex_closing i' /\
    (3 <= close_bound ex_closing)%nat /\ c_mode i' = Idle /\ c_item i' = None.
Proof.
  set (i1 := set_producer ex_closing 1 true [] false false).
  set (i2 := set_producer i1 1 true [] true false).
  set (i3 := set_consumer i2 [] true None Idle 0 true).
  set (s := mkDatabase one_entry (<[1 := ex_closing]> (iterators ex_primed_db))).
  assert (rtc dbstep (started one_entry) s) as Hr.
  { eapply rtc_r; [apply ex_primed_reachable|].
    apply (c_iter ex_primed_db 1 ex_primed ex_closing); [apply lookup_insert_eq|].
    refine (i_close one_entry ex_primed _). reflexivity. }
  assert (nsteps (drain_step one_entry) 3 ex_closing i3) as Hn.
  { eapply nsteps_l; [split; [reflexivity|]; refine (i_end one_entry ex_closing _ _); reflexivity|].
    eapply nsteps_l; [split; [reflexivity|]; refine (i_close_ch one_entry i1 _ _); reflexivity|].
    eapply nsteps_l; [split; [reflexivity|]; refine (i_drained one_entry i2 _ _ _); reflexivity|].
    apply nsteps_O. }
  exists i3. destruct (close_returns one_entry s 1 ex_closing i3 3 Hr (lookup_insert_eq _ _ _)
    eq_refl Hn) as [Hb He].
  destruct He as (Hm & Hi & _); [intros i'' [Hm _]; discriminate Hm|].
  exact (conj Hn (conj Hb (conj Hm Hi))).
Defined.

(** A database of 66 entries. *)
Definition many : sorted_list :=
  fold_left (fun db n => (MemDB_Set db (Some (String (byte_of (Z.of_nat n)) EmptyString)) (Some "v"%string)).1)
    (seq 1 66) NewMemDB.
Lemma writes_wait_witness :
  length (entries (opened many None None false)) = 66%nat /\
  forall s', dbstep (mkDatabase many (<[1 := opened many None None false]> ∅)) s' -> tree s' = many.
Proof.
  split; [vm_compute; reflexivity|].
  refine (proj1 (writes_wait many (mkDatabase many (<[1 := opened many None None false]> ∅)) 1
    (opened many None None false) _ _ _) _).
  - eapply rtc_l; [by apply (c_open (started many) 1 None None false)|apply rtc_refl].
  - apply lookup_insert_eq.
  - reflexivity.
  - apply Nat.ltb_lt. vm_compute. reflexivity.
Defined.
