(* ===== verification/MemDBLock.v ===== *)
(** * The lock of the test database

    [MemDB] guards its tree with a [sync.RWMutex] ([memdb.go]): [Set] and
    [Delete] take it for writing, [Get], [Has], [Stats], [Print] and the
    goroutines of the iterators for reading.  [MemDBConc] says when a write
    may happen; this file adds the threads that call the database, what each
    of them waits for, and the preference of the lock: once a writer has
    announced itself no reader gets in before it is done.  It shows when a
    writer is served, and when it waits for ever.

    An iterator is used by the thread that opened it.  A read ([Get], [Has],
    [Stats], [Print]) gives the lock back before it returns and changes
    nothing, so it is no step: [may_read] says when it gets in. *)

From stdpp Require Import relations.
From S2P Require Import Prelude GoText Errors MemDB MemDBConc.

(** The writes, as they are called. *)
Inductive write_op :=
| WSet (key value : bytes)
| WDelete (key : bytes).

Section Lock.
Context {T : Type} `{BTree T}.

(** The checks of [Set] and [Delete], before the lock is taken. *)
Definition takes_lock (op : write_op) : bool :=
  match op with
  | WSet key value => negb (blen key =? 0) && match value with Some _ => true | None => false end
  | WDelete key => negb (blen key =? 0)
  end.
(** What is done under the lock. *)
Definition write (op : write_op) (db : T) : T :=
  match op with
  | WSet key value => MemDB_set db key value
  | WDelete key => MemDB_delete db key
  end.

Record lstate := mkLstate {
  ls_db : database T;
  owner : gmap Z Z;              (** the thread of an iterator *)
  waiting : gmap Z write_op;     (** the threads that are in [mtx.Lock()] *)
  announced : option Z;          (** the one of them that readers wait for *)
}.

(** A thread that is in no call: it waits for no lock, and is not in a call
    of one of its iterators. *)
Definition free (s : lstate) (t : Z) : Prop :=
  waiting s !! t = None /\
  forall id i, owner s !! id = Some t -> iterators (ls_db s) !! id = Some i -> c_mode i = Idle.
(** When a thread gets the lock for reading. *)
Definition may_read (s : lstate) (t : Z) : Prop := free s t /\ announced s = None.

(** A step of an iterator is one of its goroutine or one of its owner: only
    the goroutine sends, stops, closes the channel and gives the lock back. *)
Definition same_producer (i i' : iter (T := T)) : Prop :=
  c_sent i' = c_sent i /\ c_stopped i' = c_stopped i /\ c_closed i' = c_closed i /\
  c_released i' = c_released i.
#[global] Instance same_producer_dec i i' : Decision (same_producer i i').
Proof. unfold same_producer. apply _. Defined.
Definition set_iter (s : lstate) (id : Z) (i : iter) : lstate :=
  mkLstate (mkDatabase (tree (ls_db s)) (<[id := i]> (iterators (ls_db s)))) (owner s) (waiting s)
    (announced s).

(** A step of a goroutine. *)
Inductive gstep (s : lstate) : lstate -> Prop :=
| g_step id i i' :
    iterators (ls_db s) !! id = Some i -> istep (tree (ls_db s)) i i' -> ~ same_producer i i' ->
    gstep s (set_iter s id i').

Inductive lstep (s : lstate) : lstate -> Prop :=
| l_lock t op :
    free s t -> takes_lock op = true ->
    lstep s (mkLstate (ls_db s) (owner s) (<[t := op]> (waiting s)) (announced s))
| l_announce t op :
    waiting s !! t = Some op -> announced s = None ->
    lstep s (mkLstate (ls_db s) (owner s) (waiting s) (Some t))
| l_write t op :
    waiting s !! t = Some op -> announced s = Some t ->
    (forall id i, iterators (ls_db s) !! id = Some i -> c_released i = true) ->
    lstep s (mkLstate (mkDatabase (write op (tree (ls_db s))) (iterators (ls_db s))) (owner s)
      (delete t (waiting s)) None)
| l_open t id start end_ reverse :
    may_read s t -> iterators (ls_db s) !! id = None -> empty_bound start || empty_bound end_ = false ->
    lstep s (mkLstate (mkDatabase (tree (ls_db s))
        (<[id := opened (tree (ls_db s)) start end_ reverse]> (iterators (ls_db s))))
      (<[id := t]> (owner s)) (waiting s) (announced s))
| l_owner t id i i' :
    iterators (ls_db s) !! id = Some i -> owner s !! id = Some t -> waiting s !! t = None ->
    (c_mode i = Idle -> free s t) ->
    istep (tree (ls_db s)) i i' -> same_producer i i' ->
    lstep s (set_iter s id i')
| l_goroutine s' : gstep s s' -> lstep s s'.

Definition lstarted (db : T) : lstate := mkLstate (started db) ∅ ∅ None.

(** ** Lemmas *)

(** The lock only leaves out steps of [MemDBConc]. *)
Lemma write_Set op db : takes_lock op = true ->
  (exists key value, write op db = (MemDB_Set db key value).1) \/
  (exists key, write op db = (MemDB_Delete db key).1).
Proof.
  destruct op as [key [v|]|key]; cbn; [| |]; rewrite ?andb_true_r, ?andb_false_r; [|done|]; intros Hk.
  - left. exists key, (Some v). unfold MemDB_Set. apply negb_true_iff in Hk. by rewrite Hk.
  - right. exists key. unfold MemDB_Delete. apply negb_true_iff in Hk. by rewrite Hk.
Qed.

Record linv (s : lstate) : Prop := {
  li_iters : db_inv (ls_db s);
  li_waiting : map_Forall (fun _ op => takes_lock op = true) (waiting s);
  li_announced : forall t, announced s = Some t -> waiting s !! t <> None;
}.

Lemma gstep_dbstep s s' : gstep s s' -> dbstep (ls_db s) (ls_db s').
Proof. intros [id i i' Hi Hst _]. by eapply c_iter. Qed.

Lemma lstep_dbstep s s' : linv s -> lstep s s' -> rtc dbstep (ls_db s) (ls_db s').
Proof.
  intros Hs [t op|t op|t op Hw _ Hr|t id start end_ reverse _ Hid Hb|t id i i' Hi _ _ _ Hst _|s1 Hg].
  - apply rtc_refl.
  - apply rtc_refl.
  - apply rtc_once, c_write; [done|]. apply write_Set. by apply (li_waiting _ Hs t).
  - by apply rtc_once, c_open.
  - by eapply rtc_once, c_iter.
  - by apply rtc_once, gstep_dbstep.
Qed.
Lemma rtc_db_inv s s' : rtc dbstep s s' -> db_inv s -> db_inv s'.
Proof. induction 1 as [|s1 s2 s3 Hst _ IH]; [done|]. intros Hs. by eapply IH, dbstep_inv. Qed.

Lemma lstep_inv s s' : linv s -> lstep s s' -> linv s'.
Proof.
  intros Hs Hst. split; [by eapply rtc_db_inv, li_iters; [apply lstep_dbstep|]| |];
    destruct Hst as [t op Hf Hop|t op Hw _|t op Hw Ha Hr|t id start end_ reverse Hm Hid Hb
      |t id i i' Hi Ho Hw Hidle Hst Hp|s1 [id i i' Hi Hst Hp]]; cbn;
    try apply (li_waiting _ Hs); try apply (li_announced _ Hs).
  - apply map_Forall_insert_2; [done|apply (li_waiting _ Hs)].
  - apply map_Forall_delete, (li_waiting _ Hs).
  - intros t' Ha. destruct (decide (t' = t)) as [->|]; [by rewrite lookup_insert_eq|].
    rewrite lookup_insert_ne by done. by apply (li_announced _ Hs).
  - intros t' [= <-]. by rewrite Hw.
  - done.
Qed.
Lemma reachable_linv db s : rtc lstep (lstarted db) s -> linv s.
Proof.
  intros Hr. assert (linv (lstarted db)) as H0 by (by split; [intros ? ? ?|intros ? ? ?|]).
  induction Hr as [|s1 s2 s3 Hst _ IH]; [done|]. by eapply IH, lstep_inv.
Qed.

(** ** Waiting for ever *)

(** An iterator that keeps the lock: it was not closed, and more entries are
    unread than the channel holds. *)
Definition holds_lock (i : iter (T := T)) : Prop :=
  c_cancelled i = false /\ (taken i + chBufferSize < length (entries i))%nat.

(** The goroutine cannot change that. *)
Lemma producer_keeps db i i' :
  istep db i i' -> ~ same_producer i i' ->
  c_cancelled i' = c_cancelled i /\ taken i' = taken i /\ entries i' = entries i /\
  c_mode i' = c_mode i.
Proof. intros Hs Hp. destruct Hs; try done; exfalso; by apply Hp. Qed.

(** A thread that waits for the lock while one of its own iterators keeps
    it. *)
Definition stuck (s : lstate) (t : Z) (op : write_op) : Prop :=
  waiting s !! t = Some op /\
  exists id i, iterators (ls_db s) !! id = Some i /\ owner s !! id = Some t /\ holds_lock i.

Lemma stuck_step s s' t op :
  linv s -> lstep s s' -> stuck s t op ->
  stuck s' t op /\ tree (ls_db s') = tree (ls_db s) /\
  (announced s <> None -> announced s' = announced s /\
     dom (iterators (ls_db s')) = dom (iterators (ls_db s))).
Proof.
  intros Hs Hst (Hw & id & i & Hi & Ho & Hh & Hlen).
  assert (c_released i = false) as Hrel by (by eapply unread_locked; [by apply (li_iters _ Hs id)| |]).
  destruct Hst as [t' op' [Hf _] Hop|t' op' Hw' Ha|t' op' Hw' Ha Hr|t' id' start end_ reverse [[Hf _] Ha] Hid Hb
      |t' id' j j' Hj Ho' Hw' Hidle Hst Hp|s1 [id' j j' Hj Hst Hp]].
  - split; [|done]. split; [cbn; rewrite lookup_insert_ne; [done|congruence]|]. by exists id, i.
  - split; [|done]. split; [done|]. by exists id, i.
  - specialize (Hr _ _ Hi). congruence.
  - split; [|done]. split; [done|]. exists id, i. cbn.
    rewrite !lookup_insert_ne by congruence. done.
  - split; [|split; [done|intros _; split; [done|]]].
    + split; [done|]. exists id, i. cbn. rewrite lookup_insert_ne by congruence. done.
    + cbn. by rewrite dom_insert_lookup_L by (by eexists).
  - split; [|split; [done|intros _; split; [done|]]].
    + split; [done|]. destruct (decide (id' = id)) as [->|Hne].
      * assert (j = i) as -> by congruence. destruct (producer_keeps _ _ _ Hst Hp) as (E1 & E2 & E3 & _).
        exists id, j'. cbn. rewrite lookup_insert_eq. split_and!; [done|done|].
        split; [congruence|by rewrite E2, E3].
      * exists id, i. cbn. by rewrite lookup_insert_ne.
    + cbn. by rewrite dom_insert_lookup_L by (by eexists).
Qed.
(** ** Being served *)

(** An iterator whose goroutine comes to its end without its owner. *)
Definition gives_back (i : iter (T := T)) : Prop :=
  c_cancelled i = true \/ (length (entries i) <= taken i + chBufferSize)%nat.

(** The steps a goroutine has left. *)
Definition goroutine_bound (i : iter (T := T)) : nat :=
  (length (entries i) - c_sent i) + (if c_stopped i then 0 else 1) + (if c_closed i then 0 else 1) +
  (if c_released i then 0 else 1).
Definition lock_bound (s : lstate) : nat :=
  map_fold (fun _ i n => goroutine_bound i + n)%nat O (iterators (ls_db s)).

Lemma goroutine_decreases db i i' :
  iter_inv db i -> istep db i i' -> ~ same_producer i i' -> (goroutine_bound i' < goroutine_bound i)%nat.
Proof.
  intros Hi Hs Hp. unfold goroutine_bound. destruct (producer_keeps _ _ _ Hs Hp) as (_ & _ & -> & _).
  destruct Hs as [x Hst Hx Hb|x Hst Hx Hc|Hst Hx|Hst Hcl|Hcl Hre|x ch Hm Hch|Hm Hch Hcl|x Hm Hit|Hm|x ch Hm Hch|Hm Hch Hcl];
    try (exfalso; by apply Hp); cbn; rewrite ?Hst, ?Hcl, ?Hre; try lia.
  destruct (walking_locked _ _ Hi Hst) as [_ <-]. apply lookup_lt_Some in Hx. fold (entries i) in Hx. lia.
Qed.
Lemma lock_bound_split s id i : iterators (ls_db s) !! id = Some i ->
  lock_bound s = (goroutine_bound i +
    map_fold (fun _ i n => goroutine_bound i + n)%nat O (delete id (iterators (ls_db s))))%nat.
Proof.
  intros Hi. unfold lock_bound.
  rewrite (map_fold_delete_L (fun _ i n => goroutine_bound i + n)%nat O id i); [done| |done].
  intros. lia.
Qed.
Lemma gstep_decreases s s' : linv s -> gstep s s' -> (lock_bound s' < lock_bound s)%nat.
Proof.
  intros Hs [id i i' Hi Hst Hp].
  rewrite (lock_bound_split (set_iter s id i') id i') by (by cbn; rewrite lookup_insert_eq).
  rewrite (lock_bound_split s id i Hi). cbn. rewrite delete_insert_eq.
  pose proof (goroutine_decreases _ _ _ (li_iters _ Hs _ _ Hi) Hst Hp). lia.
Qed.

(** A goroutine that can do nothing has returned, unless its channel is
    full. *)
Lemma goroutine_done db i :
  iter_inv db i -> gives_back i -> (forall i', istep db i i' -> same_producer i i') -> c_released i = true.
Proof.
  intros Hi Hg Hno. destruct (c_released i) eqn:Hre; [done|]. exfalso.
  assert (exists i', istep db i i' /\ ~ same_producer i i') as (i' & Hst & Hp); [|by eapply Hp, Hno].
  destruct (c_stopped i) eqn:Hst.
  - destruct (c_closed i) eqn:Hcl.
    + eexists. split; [by apply i_unlock|]. intros (_ & _ & _ & E). cbn in E. congruence.
    + eexists. split; [by apply i_close_ch|]. intros (_ & _ & E & _). cbn in E. congruence.
  - destruct (traversal db (c_start i) (c_end i) (c_reverse i) !! c_sent i) as [x|] eqn:Hx.
    2: { eexists. split; [by apply i_end|]. intros (_ & E & _). cbn in E. congruence. }
    destruct (c_cancelled i) eqn:Hc.
    { eexists. split; [by eapply i_cancelled|]. intros (_ & E & _). cbn in E. congruence. }
    destruct Hg as [Hg|Hg]; [congruence|]. destruct (walking_locked _ _ Hi Hst) as [_ Ht].
    eexists. split; [apply (i_send db i x); [done|done|]|intros (E & _); cbn in E; lia].
    rewrite <- Ht in Hx. apply lookup_lt_Some in Hx. fold (entries i) in Hx.
    pose proof (inv_channel _ _ Hi Hc) as Hb. apply (f_equal length) in Hb.
    rewrite length_take, length_drop in Hb. unfold chBufferSize in *. lia.
Qed.

(** What the goroutines leave alone. *)
Lemma gstep_keeps s s' : gstep s s' ->
  waiting s' = waiting s /\ announced s' = announced s /\ tree (ls_db s') = tree (ls_db s) /\
  (map_Forall (fun _ => gives_back) (iterators (ls_db s)) ->
   map_Forall (fun _ => gives_back) (iterators (ls_db s'))).
Proof.
  intros [id i i' Hi Hst Hp]. split_and!; [done..|]. intros Hg. cbn.
  apply map_Forall_insert_2; [|done]. destruct (producer_keeps _ _ _ Hst Hp) as (E1 & E2 & E3 & _).
  unfold gives_back. rewrite E1, E2, E3. by apply (Hg id).
Qed.
Lemma gsteps_keep n s s' : linv s -> nsteps gstep n s s' ->
  linv s' /\ (n + lock_bound s' <= lock_bound s)%nat /\
  waiting s' = waiting s /\ announced s' = announced s /\ tree (ls_db s') = tree (ls_db s) /\
  (map_Forall (fun _ => gives_back) (iterators (ls_db s)) ->
   map_Forall (fun _ => gives_back) (iterators (ls_db s'))).
Proof.
  intros Hs Hn. induction Hn as [|n s s1 s' Hst Hn IH]; [by split_and!|].
  pose proof (gstep_decreases _ _ Hs Hst). destruct (gstep_keeps _ _ Hst) as (E1 & E2 & E3 & Hg).
  destruct IH as (Hs' & Hb & E1' & E2' & E3' & Hg'); [by eapply lstep_inv, l_goroutine|].
  split_and!; [done|lia|congruence|congruence|congruence|by auto].
Qed.
End Lock.
Arguments lstate : clear implicits.

(** ** Properties *)

(** C19. A thread that writes while one of its own iterators has more than 64
    unread entries waits for ever: whatever all other threads and goroutines
    do, it stays in [Lock] and the tree stays as it is.  Once a writer has
    announced itself it takes all others with it: no thread reads or opens
    an iterator any more. *)
Theorem write_waits_forever {T : Type} `{BTree T} (db : T) (s s' : lstate T) (t id : Z) (op : write_op)
    (i : iter) :
  rtc lstep (lstarted db) s -> waiting s !! t = Some op ->
  iterators (ls_db s) !! id = Some i -> owner s !! id = Some t -> c_cancelled i = false ->
  (taken i + chBufferSize < length (entries i))%nat ->
  rtc lstep s s' ->
  waiting s' !! t = Some op /\ tree (ls_db s') = tree (ls_db s) /\
  (announced s <> None -> (forall u, ~ may_read s' u) /\
     dom (iterators (ls_db s')) = dom (iterators (ls_db s))).
Proof.
  intros Hr Hw Hi Ho Hc Hl Hr'. pose proof (reachable_linv _ _ Hr) as Hs.
  assert (stuck s t op) as Hst by (by split; [|exists id, i]). clear Hr Hw Hi Ho Hc Hl.
  assert (stuck s' t op /\ tree (ls_db s') = tree (ls_db s) /\
    (announced s <> None -> announced s' = announced s /\
       dom (iterators (ls_db s')) = dom (iterators (ls_db s)))) as (Hst' & Ht & Ha).
  { induction Hr' as [|s s1 s' Hstep _ IH]; [done|].
    destruct (stuck_step _ _ _ _ Hs Hstep Hst) as (Hst1 & Ht1 & Ha1).
    destruct IH as (Hst' & Ht & Ha); [by eapply lstep_inv|done|].
    split_and!; [done|congruence|]. intros Hn. destruct (Ha1 Hn) as [E1 E2].
    rewrite <- E1, <- E2. apply Ha. by rewrite E1. }
  split_and!; [apply Hst'|done|]. intros Hn. destruct (Ha Hn) as [Ea Ed].
  split; [|done]. intros u [_ Hu]. congruence.
Qed.

(** C18. A writer is served when no iterator that is open has more than 64
    unread entries: however the goroutines take their turns, after a number
    of steps that is bounded by the entries they have left to send all of
    them have returned, and the write that was announced can be done, with
    no help from the owners of the iterators. *)
Theorem write_served {T : Type} `{BTree T} (db : T) (s s' : lstate T) (t : Z) (op : write_op) (n : nat) :
  rtc lstep (lstarted db) s -> waiting s !! t = Some op -> announced s = Some t ->
  (forall id i, iterators (ls_db s) !! id = Some i -> c_cancelled i = false ->
     (length (entries i) <= taken i + chBufferSize)%nat) ->
  nsteps gstep n s s' ->
  (n <= lock_bound s)%nat /\
  ((forall s1, ~ gstep s' s1) ->
   exists s1, lstep s' s1 /\ tree (ls_db s1) = write op (tree (ls_db s)) /\
     waiting s1 = delete t (waiting s) /\ announced s1 = None).
Proof.
  intros Hr Hw Ha Hg Hn. pose proof (reachable_linv _ _ Hr) as Hs.
  destruct (gsteps_keep _ _ _ Hs Hn) as (Hs' & Hb & Ew & Ea & Et & Hg'). split; [lia|]. intros Hstuck.
  assert (map_Forall (fun _ => gives_back) (iterators (ls_db s'))) as Hback.
  { apply Hg'. intros id i Hi. unfold gives_back. destruct (c_cancelled i) eqn:E; [by left|].
    right. by apply (Hg id). }
  eexists. split_and!; [apply (l_write s' t op); [congruence|congruence|]|cbn; by rewrite Et|cbn; by rewrite Ew|done].
  intros id i Hi. apply (goroutine_done (tree (ls_db s'))); [exact (li_iters _ Hs' id i Hi)|by apply (Hback id)|].
  intros i' Hst. destruct (decide (same_producer i i')) as [|Hp]; [done|]. exfalso.
  by eapply Hstuck, (g_step s' id i i').
Qed.

(** ** Examples *)

Lemma may_read_started {T : Type} `{BTree T} (db : T) t : may_read (lstarted db) t.
Proof. split; [split|]; [done| |done]. intros id i Ho. cbn in Ho. by rewrite lookup_empty in Ho. Qed.
(** A thread with one iterator, between its calls. *)
Lemma free_one {T : Type} `{BTree T} (s : lstate T) t id i :
  waiting s !! t = None -> owner s = <[id := t]> ∅ -> iterators (ls_db s) !! id = Some i ->
  c_mode i = Idle -> free s t.
Proof.
  intros Hw Ho Hi Hm. split; [done|]. intros id' i' Ho' Hi'. rewrite Ho in Ho'.
  apply lookup_insert_Some in Ho' as [[<- _]|[_ Ho']]; [congruence|by rewrite lookup_empty in Ho'].
Qed.

(** A thread opens an iterator, has its first entry and calls [Delete]. *)
Definition ex_opening (db : sorted_list) : lstate sorted_list :=
  mkLstate (mkDatabase db (<[1 := opened db None None false]> ∅)) (<[1 := 7]> ∅) ∅ None.
Definition ex_sent (db : sorted_list) (x : item) : iter :=
  set_producer (opened db None None false) 1 false [x] false false.
Definition ex_first (db : sorted_list) (x : item) : iter := received (ex_sent db x) [] (Some x).
Definition ex_reading (db : sorted_list) (x : item) : lstate sorted_list :=
  set_iter (set_iter (ex_opening db) 1 (ex_sent db x)) 1 (ex_first db x).
Definition ex_delete : write_op := WDelete (Some "a"%string).
Definition ex_waiting (db : sorted_list) (x : item) : lstate sorted_list :=
  mkLstate (ls_db (ex_reading db x)) (<[1 := 7]> ∅) (<[7 := ex_delete]> ∅) (Some 7).

Lemma ex_reading_reachable db x :
  traversal db None None false !! O = Some x -> rtc lstep (lstarted db) (ex_reading db x).
Proof.
  intros Hx. apply (rtc_l _ _ (ex_opening db)).
  { apply (l_open (lstarted db) 7 1 None None false); [apply may_read_started|done|done]. }
  apply (rtc_l _ _ (set_iter (ex_opening db) 1 (ex_sent db x))).
  { apply l_goroutine, (g_step _ 1 (opened db None None false)); [apply lookup_insert_eq| |].
    - apply (i_send db (opened db None None false) x); [done|done|]. apply Nat.ltb_lt. reflexivity.
    - intros [E _]. discriminate E. }
  apply rtc_once, (l_owner _ 7 1 (ex_sent db x)); [apply lookup_insert_eq|done|done|done| |done].
  by apply (i_receive db (ex_sent db x) x []).
Qed.
Lemma ex_waiting_reachable db x :
  traversal db None None false !! O = Some x -> rtc lstep (lstarted db) (ex_waiting db x).
Proof.
  intros Hx. set (s := ex_reading db x).
  set (s1 := mkLstate (ls_db s) (owner s) (<[7 := ex_delete]> (waiting s)) (announced s)).
  apply (rtc_r _ s1); [apply (rtc_r _ s); [by apply (ex_reading_reachable db x)|]|].
  - apply (l_lock s 7 ex_delete); [|done].
    apply (free_one _ 7 1 (ex_first db x)); [done|done|apply lookup_insert_eq|done].
  - by apply (l_announce s1 7 ex_delete).
Qed.

(** On 66 entries. *)
Definition ex_key : item := mkItem (String (byte_of 1) EmptyString) "v".
Lemma write_waits_forever_witness :
  length (entries (ex_first many ex_key)) = 66%nat /\
  forall s', rtc lstep (ex_waiting many ex_key) s' -> waiting s' !! 7 = Some ex_delete /\ tree (ls_db s') = many /\
    (forall u, ~ may_read s' u).
Proof.
  split; [vm_compute; reflexivity|]. intros s' Hr.
  destruct (write_waits_forever many (ex_waiting many ex_key) s' 7 1 ex_delete (ex_first many ex_key))
    as (Hw & Ht & Ha);
    [apply ex_waiting_reachable; vm_compute; reflexivity|reflexivity|apply lookup_insert_eq|reflexivity|reflexivity| |exact Hr|].
  - apply Nat.ltb_lt. vm_compute. reflexivity.
  - destruct Ha as [Ha _]; [discriminate|]. exact (conj Hw (conj Ht Ha)).
Defined.

(** On one entry, with the iterator still open: the goroutine returns in
    three steps. *)
Definition ex_one : lstate sorted_list := ex_waiting one_entry (mkItem "a" "1").
Definition ex_ended : iter := set_producer ex_primed 1 true [] false false.
Definition ex_ch_closed : iter := set_producer ex_ended 1 true [] true false.
Definition ex_unlocked : iter := set_producer ex_ch_closed 1 true [] true true.
Definition ex_served : lstate sorted_list :=
  set_iter (set_iter (set_iter ex_one 1 ex_ended) 1 ex_ch_closed) 1 ex_unlocked.

Lemma write_served_witness :
  (3 <= lock_bound ex_one)%nat /\
  exists s1, lstep ex_served s1 /\ MemDB_Has (tree (ls_db s1)) (Some "a"%string) = (false, None) /\
    waiting s1 !! 7 = None /\ announced s1 = None.
Proof.
  assert (nsteps gstep 3 ex_one ex_served) as Hn.
  { eapply nsteps_l; [apply (g_step _ 1 ex_primed ex_ended); [apply lookup_insert_eq| |]|].
    { refine (i_end one_entry ex_primed _ _); reflexivity. }
    { intros (_ & E & _). discriminate E. }
    eapply nsteps_l; [apply (g_step _ 1 ex_ended ex_ch_closed); [apply lookup_insert_eq| |]|].
    { refine (i_close_ch one_entry ex_ended _ _); reflexivity. }
    { intros (_ & _ & E & _). discriminate E. }
    eapply nsteps_l; [apply (g_step _ 1 ex_ch_closed ex_unlocked); [apply lookup_insert_eq| |]|apply nsteps_O].
    { refine (i_unlock one_entry ex_ch_closed _ _); reflexivity. }
    { intros (_ & _ & _ & E). discriminate E. } }
  assert (forall id i, iterators (ls_db ex_one) !! id = Some i -> i = ex_primed) as Hi.
  { intros id i Hid. cbn in Hid. rewrite !insert_insert_eq in Hid.
    apply lookup_insert_Some in Hid as [[_ <-]|[_ Hid]]; [done|by rewrite lookup_empty in Hid]. }
  destruct (write_served one_entry ex_one ex_served 7 ex_delete 3)
    as [Hb He]; [by apply ex_waiting_reachable|reflexivity|reflexivity| |exact Hn|].
  - intros id i Hid _. rewrite (Hi id i Hid). apply Nat.leb_le. vm_compute. reflexivity.
  - split; [exact Hb|]. destruct He as (s1 & H1 & H2 & H3 & H4).
    + intros s1 Hg. inversion Hg as [id i i' Hid Hst Hp]. cbn in Hid. rewrite !insert_insert_eq in Hid.
      apply lookup_insert_Some in Hid as [[_ <-]|[_ Hid]]; [|by rewrite lookup_empty in Hid].
      destruct Hst; try discriminate; by destruct Hp.
    + exists s1. rewrite H2, H3. split_and!; [done|vm_compute; reflexivity|reflexivity|done].
Defined.
