(* ===== verification/World.v ===== *)
(** * The state of the process and the host

    The global state of package [internal/api] together with what it shares
    with the other side: Rust's heap of vectors, the iterators of the running
    contract calls ([iteratorFrames]) and the counter of calls
    ([latestCallID]), both of [internal/api/iterator.go], and the state of the
    host, which the code reaches only through interfaces.

    [Host] lists those interfaces: [GasMeter] (types/gas.go), [KVStore] and
    [Iterator] (types/store.go), [Querier] (types/queries.go) and [GoAPI]
    (types/api.go).  An interface value is nil or the identity of an object
    of the host.  A method may change the whole state, because a host may call
    back into the VM (a query to a contract does); [HostLaws] says what it may
    change. *)

From S2P Require Import Prelude GoText Json Codec Scalars Types Errors Queries Memory.

(** An interface value: nil, or an object of the host. *)
Abbreviation iface := (option Z).
Abbreviation Iterator := iface.
Abbreviation frame := (list Iterator).

Record world (H : Type) := mkWorld {
  w_heap : heap;
  iteratorFrames : gmap Z frame;
  latestCallID : Z;
  w_host : H;
}.
Arguments mkWorld {H} _ _ _ _.
Arguments w_heap {H} _.
Arguments iteratorFrames {H} _.
Arguments latestCallID {H} _.
Arguments w_host {H} _.

Definition set_heap {H} (h : heap) (w : world H) : world H :=
  mkWorld h (iteratorFrames w) (latestCallID w) (w_host w).
Definition set_frames {H} (fs : gmap Z frame) (w : world H) : world H :=
  mkWorld (w_heap w) fs (latestCallID w) (w_host w).
Definition set_latest {H} (n : Z) (w : world H) : world H :=
  mkWorld (w_heap w) (iteratorFrames w) n (w_host w).

Definition on_heap {H A} (m : GoM heap A) : GoM (world H) A := fun w =>
  let '(r, h) := m (w_heap w) in (r, set_heap h w).

(** ** The interfaces of the host *)

Class Host (H : Type) := {
  GasMeter_GasConsumed : Z -> GoM (world H) Z;
  KVStore_Get : Z -> bytes -> GoM (world H) bytes;
  KVStore_Set : Z -> bytes -> bytes -> GoM (world H) unit;
  KVStore_Delete : Z -> bytes -> GoM (world H) unit;
  KVStore_Iterator : Z -> bytes -> bytes -> GoM (world H) Iterator;
  KVStore_ReverseIterator : Z -> bytes -> bytes -> GoM (world H) Iterator;
  Iterator_Valid : Z -> GoM (world H) bool;
  Iterator_Next : Z -> GoM (world H) unit;
  Iterator_Key : Z -> GoM (world H) bytes;
  Iterator_Value : Z -> GoM (world H) bytes;
  Iterator_Close : Z -> GoM (world H) (option error);
  Querier_Query : Z -> QueryRequest -> Z -> GoM (world H) (bytes * option error);
  Querier_GasConsumed : Z -> GoM (world H) Z;
  GoAPI_HumanizeAddress : Z -> bytes -> GoM (world H) (string * Z * option error);
  GoAPI_CanonicalizeAddress : Z -> string -> GoM (world H) (bytes * Z * option error);
  GoAPI_ValidateAddress : Z -> string -> GoM (world H) (Z * option error);
}.

(** Calling a method of an interface value. *)
Definition icall {H A} (i : iface) (f : Z -> GoM (world H) A) : GoM (world H) A :=
  match i with
  | Some o => f o
  | None => gpanic (runtime_panic "invalid memory address or nil pointer dereference")
  end.

(** ** What a call into the host may change *)

(** The live buffers are the same. *)
Definition heap_same (h h' : heap) : Prop :=
  heap_wf h -> heap_wf h' /\ blocks h' = blocks h.

(** Only calls that were started have frames. *)
Definition frames_below {H} (w : world H) : Prop :=
  forall c, iteratorFrames w !! c <> None -> 1 <= c <= latestCallID w.

(** [n] contract calls were started and finished in between.  As long as the
    counter of calls does not pass 2^64, the frames of the open calls are as
    they were and the finished calls have left none. *)
Definition keeps {H} (w w' : world H) : Prop :=
  is_u64 (latestCallID w) ->
  exists n, 0 <= n /\ latestCallID w' = u64 (latestCallID w + n) /\
    (latestCallID w + n < two64 -> frames_below w -> iteratorFrames w' = iteratorFrames w).

(** What a call into the host may change: its own state, and what contract
    calls it makes leave behind, which is nothing. *)
Record rely {H} (w w' : world H) : Prop := {
  rely_heap : heap_same (w_heap w) (w_heap w');
  rely_calls : keeps w w';
}.

(** A computation all of whose runs respect a relation, those that panic
    included. *)
Definition respects {H A} (R : world H -> world H -> Prop) (m : GoM (world H) A) : Prop :=
  forall w r w', m w = (r, w') -> R w w'.

Class HostLaws (H : Type) `{Host H} : Prop := {
  GasMeter_GasConsumed_rely g : respects rely (GasMeter_GasConsumed g);
  KVStore_Get_rely s k : respects rely (KVStore_Get s k);
  KVStore_Set_rely s k v : respects rely (KVStore_Set s k v);
  KVStore_Delete_rely s k : respects rely (KVStore_Delete s k);
  KVStore_Iterator_rely s a b : respects rely (KVStore_Iterator s a b);
  KVStore_ReverseIterator_rely s a b : respects rely (KVStore_ReverseIterator s a b);
  Iterator_Valid_rely i : respects rely (Iterator_Valid i);
  Iterator_Next_rely i : respects rely (Iterator_Next i);
  Iterator_Key_rely i : respects rely (Iterator_Key i);
  Iterator_Value_rely i : respects rely (Iterator_Value i);
  Iterator_Close_rely i : respects rely (Iterator_Close i);
  Querier_Query_rely q r g : respects rely (Querier_Query q r g);
  Querier_GasConsumed_rely q : respects rely (Querier_GasConsumed q);
  GoAPI_HumanizeAddress_rely a b : respects rely (GoAPI_HumanizeAddress a b);
  GoAPI_CanonicalizeAddress_rely a s : respects rely (GoAPI_CanonicalizeAddress a s);
  GoAPI_ValidateAddress_rely a s : respects rely (GoAPI_ValidateAddress a s);
}.
#[export] Hint Resolve GasMeter_GasConsumed_rely KVStore_Get_rely KVStore_Set_rely
  KVStore_Delete_rely KVStore_Iterator_rely KVStore_ReverseIterator_rely Iterator_Valid_rely
  Iterator_Next_rely Iterator_Key_rely Iterator_Value_rely Iterator_Close_rely
  Querier_Query_rely Querier_GasConsumed_rely GoAPI_HumanizeAddress_rely
  GoAPI_CanonicalizeAddress_rely GoAPI_ValidateAddress_rely : go.

(** ** Lemmas *)

#[export] Instance heap_same_preorder : PreOrder heap_same.
Proof.
  split.
  - by intros h Hh.
  - intros h1 h2 h3 H12 H23 Hh. destruct (H12 Hh) as (Hw & Hb).
    destruct (H23 Hw) as (Hw' & Hb'). split; [done|congruence].
Qed.

Section Relations.
Context {H : Type}.
Implicit Types w : world H.

Lemma frames_below_mono w w' :
  frames_below w -> iteratorFrames w' = iteratorFrames w -> latestCallID w <= latestCallID w' ->
  frames_below w'.
Proof. intros Hb E Hl c. rewrite E. intros Hc. specialize (Hb c Hc). lia. Qed.

Lemma u64_add_assoc a m n : u64 (u64 (a + m) + n) = u64 (a + (m + n)).
Proof. unfold u64. rewrite Z.add_mod_idemp_l by done. f_equal. lia. Qed.

#[export] Instance keeps_preorder : PreOrder (@keeps H).
Proof.
  split.
  - intros w Hl. exists 0. rewrite Z.add_0_r, u64_id by done. split_and!; [lia|done|done].
  - intros w1 w2 w3 Hc1 Hc2 Hl.
    destruct (Hc1 Hl) as (n1 & Hn1 & El1 & Ef1).
    destruct (Hc2 ltac:(rewrite El1; apply u64_range)) as (n2 & Hn2 & El2 & Ef2).
    exists (n1 + n2). rewrite El2, El1, u64_add_assoc. split_and!; [lia|done|].
    intros Hw Hb. assert (latestCallID w2 = latestCallID w1 + n1) as E
      by (rewrite El1; apply u64_id; unfold is_u64 in *; lia).
    rewrite Ef2, Ef1; [done|lia|done|lia|].
    eapply frames_below_mono; [done|apply Ef1; [lia|done]|lia].
Qed.
#[export] Instance rely_preorder : PreOrder (@rely H).
Proof.
  split.
  - intros w. by split.
  - intros w1 w2 w3 [Hh1 Hc1] [Hh2 Hc2]. split; by etransitivity.
Qed.

(** What a callback of the open call [c] may change of the frames: it may add
    iterators to the frame of [c]. *)
Definition grows (c : Z) (w w' : world H) : Prop :=
  is_u64 (latestCallID w) ->
  exists n, 0 <= n /\ latestCallID w' = u64 (latestCallID w + n) /\
    (latestCallID w + n < two64 -> frames_below w -> 1 <= c <= latestCallID w ->
       exists l, iteratorFrames w' =
         if decide (l = []) then iteratorFrames w
         else <[c := default [] (iteratorFrames w !! c) ++ l]> (iteratorFrames w)).

Lemma keeps_grows c w w' : keeps w w' -> grows c w w'.
Proof.
  intros Hc Hl. destruct (Hc Hl) as (n & ? & ? & Hf).
  exists n. split_and!; [done..|]. intros Hn Hb _. exists []. by apply Hf.
Qed.

Lemma grows_below c w w' l :
  frames_below w -> 1 <= c <= latestCallID w -> latestCallID w <= latestCallID w' ->
  iteratorFrames w' = (if decide (l = []) then iteratorFrames w
    else <[c := default [] (iteratorFrames w !! c) ++ l]> (iteratorFrames w)) ->
  frames_below w'.
Proof.
  intros Hb Hc Hl E d. rewrite E. destruct (decide (l = [])) as [->|Hne].
  - intros Hd. specialize (Hb d Hd). lia.
  - destruct (decide (d = c)) as [->|Hd]; [lia|]. rewrite lookup_insert_ne by done.
    intros Hd'. specialize (Hb d Hd'). lia.
Qed.

#[export] Instance grows_preorder c : PreOrder (grows c).
Proof.
  split; [intros w; by apply keeps_grows|].
  intros w1 w2 w3 Hc1 Hc2 Hl.
  destruct (Hc1 Hl) as (n1 & Hn1 & El1 & Ef1).
  destruct (Hc2 ltac:(rewrite El1; apply u64_range)) as (n2 & Hn2 & El2 & Ef2).
  exists (n1 + n2). rewrite El2, El1, u64_add_assoc. split_and!; [lia|done|].
  intros Hw Hb Hc. assert (latestCallID w2 = latestCallID w1 + n1) as E
    by (rewrite El1; apply u64_id; unfold is_u64 in *; lia).
  destruct (Ef1 ltac:(lia) Hb Hc) as [l1 E1].
  destruct Ef2 as [l2 E2]; [lia| |lia|].
  { by eapply grows_below; [apply Hb|done| |exact E1]; lia. }
  exists (l1 ++ l2). rewrite E2, E1.
  destruct (decide (l1 = [])) as [->|Hl1]; [done|].
  rewrite (decide_False (P := l1 ++ l2 = [])) by (by intros [? _]%app_eq_nil).
  destruct (decide (l2 = [])) as [->|Hl2]; [by rewrite app_nil_r|].
  by rewrite lookup_insert_eq, insert_insert_eq, app_assoc.
Qed.
End Relations.

(** ** Relations of composed computations *)

Section Respects.
Context {H : Type} (R : world H -> world H -> Prop) `{!PreOrder R}.

Lemma respects_ret {A} (a : A) : respects R (mret a).
Proof. by intros w r w' [= <- <-]. Qed.
Lemma respects_lift {A} (m : outcome A) : respects R (glift m).
Proof. by intros w r w' [= <- <-]. Qed.
Lemma respects_panic {A} p : respects R (gpanic (A := A) p).
Proof. by intros w r w' [= <- <-]. Qed.
Lemma respects_bind {A B} (m : GoM (world H) A) (k : A -> GoM (world H) B) :
  respects R m -> (forall a, respects R (k a)) -> respects R (m ≫= k).
Proof.
  intros Hm Hk w r w' E. apply gbind_inv in E as [(a & w1 & E1 & E2)|(p & E & ->)].
  - transitivity w1; [by eapply Hm|by eapply Hk].
  - by eapply Hm.
Qed.
Lemma respects_icall {A} i (f : Z -> GoM (world H) A) :
  (forall o, respects R (f o)) -> respects R (icall i f).
Proof. intros Hf. destruct i as [o|]; [apply Hf|apply respects_panic]. Qed.
Lemma respects_defer {A} (m : GoM (world H) A) cleanup :
  respects R m -> respects R cleanup -> respects R (with_defer m cleanup).
Proof.
  intros Hm Hc w r w'. unfold with_defer. destruct (m w) as [r1 w1] eqn:E1.
  apply Hm in E1. destruct (cleanup w1) as [[?|p] w2] eqn:E2; apply Hc in E2;
    intros [= <- <-]; by transitivity w1.
Qed.
End Respects.

Lemma respects_mono {H A} (R R' : world H -> world H -> Prop) (m : GoM (world H) A) :
  (forall w w', R w w' -> R' w w') -> respects R m -> respects R' m.
Proof. intros HR Hm w r w' E. by eapply HR, Hm. Qed.

Lemma keeps_on_heap {H A} (m : GoM heap A) : respects (@keeps H) (on_heap m).
Proof.
  intros w r w' E. unfold on_heap in E. destruct (m (w_heap w)) as [r1 h] eqn:E1.
  injection E as <- <-. intros Hl. exists 0. cbn [latestCallID set_heap].
  rewrite Z.add_0_r, u64_id by done. split_and!; [lia|done|done].
Qed.
#[export] Hint Resolve keeps_on_heap : go.

Lemma copyU8Slice_same view h r h' : copyU8Slice view h = (r, h') -> h' = h.
Proof.
  unfold copyU8Slice, GoBytes, mbind, GoM_bind, load, mret, GoM_ret, gpanic.
  repeat case_match; intros; by simplify_eq.
Qed.

Lemma respects_rely_keeps {H A} (m : GoM (world H) A) :
  respects rely m -> respects keeps m.
Proof. apply respects_mono. by intros w w' []. Qed.
Lemma respects_keeps_grows {H A} c (m : GoM (world H) A) :
  respects keeps m -> respects (grows c) m.
Proof. apply respects_mono. intros w w'. apply keeps_grows. Qed.

(** Decomposes a computation and closes its parts by the lemmas of the
    operations. *)
Ltac solve_respects :=
  repeat first
    [ assumption
    | apply respects_ret; apply _
    | apply respects_lift; apply _
    | apply respects_panic; apply _
    | apply respects_bind; [apply _ | | intros ?]
    | apply respects_icall; [apply _ | intros ?]
    | solve [eauto 2 with go]
    | apply respects_rely_keeps; solve [eauto 2 with go]
    | apply respects_keeps_grows; solve [eauto 2 with go]
    | apply respects_keeps_grows, respects_rely_keeps; solve [eauto 2 with go]
    | match goal with
      | |- respects _ (match ?x with _ => _ end) => destruct x
      | |- respects _ (if ?b then _ else _) => destruct b
      | |- respects _ (let '(_, _) := ?x in _) => destruct x
      end ].
