(* ===== verification/Mocks.v ===== *)
(** * The mock host of the tests

    [internal/api/mocks.go] and [mock_failure.go]: the gas meter, the store
    ([Lookup], over [MemDB]), the address functions and the querier that the
    tests of the repository run contracts with.  Together they are an
    instance of [World.Host], and they respect its laws.

    [strings.ToLower] and [strings.ToUpper] follow the Unicode tables, which
    are not part of the repository: they are parameters ([CaseMapping]). *)

From Stdlib Require Import Ascii.
From S2P Require Import Prelude GoText Json JsonParse Codec Scalars Types Errors Queries Memory MemDB World.

Class CaseMapping := { ToLower : string -> string; ToUpper : string -> string }.

(** ** Constructors of test data *)

Definition MOCK_CONTRACT_ADDR : string := "contract".

Definition MockEnv : Env :=
  mkEnv (mkBlockInfo 123 1578939743987654321 "foobar")
    (Some (mkTransactionInfo 4
       (match Hex.DecodeString "AABBCCDDEEFF0011AABBCCDDEEFF0011AABBCCDDEEFF0011AABBCCDDEEFF0011" with
        | inr txHash => Some txHash | inl _ => None end)))
    (mkContractInfo MOCK_CONTRACT_ADDR).
Definition MockEnvBin : string := Marshal MockEnv.

Definition MockInfo (sender : string) (funds : Array Coin) : MessageInfo := mkMessageInfo sender funds.
Definition MockInfoWithFunds (sender : string) : MessageInfo :=
  MockInfo sender (Some [mkCoin "ATOM" "100"]).
Definition MockInfoBin (sender : string) : string := Marshal (MockInfoWithFunds sender).

Definition MockIBCChannel (channelID ordering ibcVersion : string) : IBCChannel :=
  mkIBCChannel (mkIBCEndpoint "my_port" channelID) (mkIBCEndpoint "their_port" "channel-7")
    ordering ibcVersion "connection-3".
Definition MockIBCChannelOpenInit (channelID ordering ibcVersion : string) : IBCChannelOpenMsg :=
  mkIBCChannelOpenMsg (Some (mkIBCOpenInit (MockIBCChannel channelID ordering ibcVersion))) None.
Definition MockIBCChannelOpenTry (channelID ordering ibcVersion : string) : IBCChannelOpenMsg :=
  mkIBCChannelOpenMsg None
    (Some (mkIBCOpenTry (MockIBCChannel channelID ordering ibcVersion) ibcVersion)).
Definition MockIBCChannelConnectAck (channelID ordering ibcVersion : string) : IBCChannelConnectMsg :=
  mkIBCChannelConnectMsg
    (Some (mkIBCOpenAck (MockIBCChannel channelID ordering ibcVersion) ibcVersion)) None.
Definition MockIBCChannelConnectConfirm (channelID ordering ibcVersion : string) :
    IBCChannelConnectMsg :=
  mkIBCChannelConnectMsg None (Some (mkIBCOpenConfirm (MockIBCChannel channelID ordering ibcVersion))).
Definition MockIBCChannelCloseInit (channelID ordering ibcVersion : string) : IBCChannelCloseMsg :=
  mkIBCChannelCloseMsg (Some (mkIBCCloseInit (MockIBCChannel channelID ordering ibcVersion))) None.
Definition MockIBCChannelCloseConfirm (channelID ordering ibcVersion : string) :
    IBCChannelCloseMsg :=
  mkIBCChannelCloseMsg None (Some (mkIBCCloseConfirm (MockIBCChannel channelID ordering ibcVersion))).
Definition MockIBCPacket (myChannel : string) (data : bytes) : IBCPacket :=
  mkIBCPacket data (mkIBCEndpoint "their_port" "channel-7") (mkIBCEndpoint "my_port" myChannel) 15
    (mkIBCTimeout (Some (mkIBCTimeoutBlock 1 123456)) 0).
Definition MockIBCPacketReceive (myChannel : string) (data : bytes) : IBCPacketReceiveMsg :=
  mkIBCPacketReceiveMsg (MockIBCPacket myChannel data) "".
Definition MockIBCPacketAck (myChannel : string) (data : bytes) (ack : IBCAcknowledgement) :
    IBCPacketAckMsg :=
  mkIBCPacketAckMsg ack (MockIBCPacket myChannel data) "".
Definition MockIBCPacketTimeout (myChannel : string) (data : bytes) : IBCPacketTimeoutMsg :=
  mkIBCPacketTimeoutMsg (MockIBCPacket myChannel data) "".

(** ** Gas meter *)

Record mockGasMeter := mkMockGasMeter { gm_limit : Z; gm_consumed : Z }.
Definition NewMockGasMeter (limit : Z) : mockGasMeter := mkMockGasMeter limit 0.
Definition mockGasMeter_GasConsumed (g : mockGasMeter) : Z := gm_consumed g.
Definition mockGasMeter_Limit (g : mockGasMeter) : Z := gm_limit g.

Definition addUint64Overflow (a b : Z) : Z * bool :=
  if MaxUint64 -u a <? b then (0, true) else (a +u b, false).

Definition ErrorOutOfGas (descriptor : string) : panic_value := PanicValue "ErrorOutOfGas" descriptor.
Definition ErrorGasOverflow (descriptor : string) : panic_value :=
  PanicValue "ErrorGasOverflow" descriptor.

(** The sum is stored before it is checked. *)
Definition ConsumeGas (amount : Z) (descriptor : string) : GoM mockGasMeter unit := fun g =>
  let '(consumed, overflow) := addUint64Overflow (gm_consumed g) amount in
  let g := mkMockGasMeter (gm_limit g) consumed in
  if overflow then (Panic (ErrorGasOverflow descriptor), g)
  else if gm_limit g <? gm_consumed g then (Panic (ErrorOutOfGas descriptor), g)
  else (Ret tt, g).

(** ** Store *)

Definition GetPrice : Z := 99000.
Definition SetPrice : Z := 187000.
Definition RemovePrice : Z := 142000.
Definition RangePrice : Z := 261000.

Record Lookup_ (T : Type) := mkLookup { lk_db : T; lk_meter : mockGasMeter }.
Arguments mkLookup {T} _ _.
Arguments lk_db {T} _.
Arguments lk_meter {T} _.

Section Lookup.
Context {T : Type} `{BTree T}.

Definition NewLookup (meter : mockGasMeter) : Lookup_ T := mkLookup NewMemDB meter.
Definition SetGasMeter (l : Lookup_ T) (meter : mockGasMeter) : Lookup_ T := mkLookup (lk_db l) meter.
(** The new [Lookup] has the same database object: a model that goes on with
    both uses the tree of the one that was used last. *)
Definition WithGasMeter (l : Lookup_ T) (meter : mockGasMeter) : Lookup_ T := mkLookup (lk_db l) meter.

Definition charge (amount : Z) (descriptor : string) : GoM (Lookup_ T) unit := fun l =>
  let '(r, g) := ConsumeGas amount descriptor (lk_meter l) in (r, mkLookup (lk_db l) g).
(** [if err != nil { panic(err) }]: the dynamic type is a pointer, whose name
    is empty. *)
Definition check (err : option error) : GoM (Lookup_ T) unit :=
  match err with
  | Some (errorString text) => gpanic (PanicValue "" text)
  | Some _ => gpanic (PanicValue "" "error")
  | None => mret tt
  end.
Definition put_db (db : T) : GoM (Lookup_ T) unit := fun l => (Ret tt, mkLookup db (lk_meter l)).

Definition Lookup_Get (key : bytes) : GoM (Lookup_ T) bytes :=
  _ ← charge GetPrice "get";
  l ← gget;
  let '(v, err) := MemDB_Get (lk_db l) key in
  _ ← check err;
  mret v.
Definition Lookup_Set (key value : bytes) : GoM (Lookup_ T) unit :=
  _ ← charge SetPrice "set";
  l ← gget;
  let '(db, err) := MemDB_Set (lk_db l) key value in
  _ ← put_db db;
  check err.
Definition Lookup_Delete (key : bytes) : GoM (Lookup_ T) unit :=
  _ ← charge RemovePrice "remove";
  l ← gget;
  let '(db, err) := MemDB_Delete (lk_db l) key in
  _ ← put_db db;
  check err.
Definition Lookup_Iterator (start end_ : bytes) : GoM (Lookup_ T) (option memDBIterator) :=
  _ ← charge RangePrice "range";
  l ← gget;
  let '(iter, err) := MemDB_Iterator (lk_db l) start end_ in
  _ ← check err;
  mret iter.
Definition Lookup_ReverseIterator (start end_ : bytes) : GoM (Lookup_ T) (option memDBIterator) :=
  _ ← charge RangePrice "range";
  l ← gget;
  let '(iter, err) := MemDB_ReverseIterator (lk_db l) start end_ in
  _ ← check err;
  mret iter.
End Lookup.

(** ** Addresses *)

Definition CanonicalLength : Z := 32.
Definition CostCanonical : Z := 440.
Definition CostHuman : Z := 550.

Fixpoint zeros (n : nat) : string :=
  match n with O => EmptyString | S n => String "000"%char (zeros n) end.

Definition MockCanonicalizeAddress (human : string) : bytes * Z * option error :=
  if CanonicalLength <? slen human then (None, 0, Some (errorString "human encoding too long"))
  else (Some (human +:+ zeros (Z.to_nat (CanonicalLength - slen human))), CostCanonical, None).

(** The bytes before the first zero byte. *)
Fixpoint cut_zero (s : string) : string :=
  match s with
  | String c s => if code c =? 0 then EmptyString else String c (cut_zero s)
  | EmptyString => EmptyString
  end.

Definition MockHumanizeAddress (canon : bytes) : string * Z * option error :=
  if negb (blen canon =? CanonicalLength)
  then (EmptyString, 0, Some (errorString "wrong canonical length"))
  else (cut_zero (string_of_bytes canon), CostHuman, None).

Definition MockValidateAddress `{CaseMapping} (input : string) : Z * option error :=
  let '(canonicalized, gasCostCanonicalize, err) := MockCanonicalizeAddress input in
  let gasCost := 0 +u gasCostCanonicalize in
  match err with
  | Some _ => (gasCost, err)
  | None =>
    let '(humanized, gasCostHumanize, err) := MockHumanizeAddress canonicalized in
    let gasCost := gasCost +u gasCostHumanize in
    match err with
    | Some _ => (gasCost, err)
    | None =>
      if negb (String.eqb humanized (ToLower input))
      then (gasCost, Some (errorString "address validation failed"))
      else (gasCost, None)
    end
  end.

Definition MockFailureCanonicalizeAddress (human : string) : bytes * Z * option error :=
  (None, 0, Some (errorString "mock failure - canonical_address")).
Definition MockFailureHumanizeAddress (canon : bytes) : string * Z * option error :=
  (EmptyString, 0, Some (errorString "mock failure - human_address")).
Definition MockFailureValidateAddress (human : string) : Z * option error :=
  (0, Some (errorString "mock failure - validate_address")).

(** ** Querier *)

Record BankQuerier := mkBankQuerier { Balances : gmap string (Array Coin) }.
(** Every balance is copied into a fresh slice, so none is nil. *)
Definition NewBankQuerier (balances : gmap string (Array Coin)) : BankQuerier :=
  mkBankQuerier ((fun v => Some (default [] v)) <$> balances).

Definition json_ok (s : string) : bytes * option error := (Some s, None).

Definition BankQuerier_Query (q : BankQuerier) (request : BankQuery) : bytes * option error :=
  match BankQuery_Balance request with
  | Some b =>
    let denom := BalanceQuery_Denom b in
    let coin := fold_left (fun coin c => if String.eqb (Coin_Denom c) denom then c else coin)
      (default [] (default None (Balances q !! BalanceQuery_Address b))) (NewCoin 0 denom) in
    json_ok (Marshal (mkBalanceResponse coin))
  | None =>
    match BankQuery_AllBalances request with
    | Some a =>
      json_ok (Marshal (mkAllBalancesResponse (default None (Balances q !! AllBalancesQuery_Address a))))
    | None => (None, Some (vUnsupportedRequest (mkUnsupportedRequest "Empty BankQuery")))
    end
  end.

Record CapitalizedQuery := mkCapitalizedQuery { CapitalizedQuery_Text : string }.
Definition CapitalizedQuery_eta (x : CapitalizedQuery) : CapitalizedQuery :=
  mkCapitalizedQuery (CapitalizedQuery_Text x).
Definition CapitalizedQuery_codec : codec CapitalizedQuery :=
  c_struct (mkCapitalizedQuery EmptyString)
  [ field! CapitalizedQuery_eta "text" c_string CapitalizedQuery_Text ].
Record CustomQuery := mkCustomQuery {
  CustomQuery_Ping : option unit;
  CustomQuery_Capitalized : option CapitalizedQuery }.
Definition CustomQuery_eta (x : CustomQuery) : CustomQuery :=
  mkCustomQuery (CustomQuery_Ping x) (CustomQuery_Capitalized x).
Definition CustomQuery_codec : codec CustomQuery :=
  c_struct (mkCustomQuery None None)
  [ omitempty! CustomQuery_eta "ping" (c_ptr c_empty_struct) CustomQuery_Ping;
    omitempty! CustomQuery_eta "capitalized" (c_ptr CapitalizedQuery_codec) CustomQuery_Capitalized ].
#[export] Instance CustomQuery_JSON : JSONType CustomQuery := CustomQuery_codec.
Record CustomResponse := mkCustomResponse { CustomResponse_Msg : string }.
Definition CustomResponse_eta (x : CustomResponse) : CustomResponse :=
  mkCustomResponse (CustomResponse_Msg x).
Definition CustomResponse_codec : codec CustomResponse :=
  c_struct (mkCustomResponse EmptyString)
  [ field! CustomResponse_eta "msg" c_string CustomResponse_Msg ].
#[export] Instance CustomResponse_JSON : JSONType CustomResponse := CustomResponse_codec.

(** The implementations of [CustomQuerier]. *)
Inductive CustomQuerier := NoCustom | ReflectCustom.

Definition ReflectCustom_Query `{CaseMapping} (request : bytes) : outcome (bytes * option error) :=
  let% r := Unmarshal (string_of_bytes request) in
  match r with
  | inl err => Ret (None, Some (JsonError err))
  | inr query =>
    match CustomQuery_Ping query, CustomQuery_Capitalized query with
    | Some _, _ => Ret (json_ok (Marshal (mkCustomResponse "PONG")))
    | None, Some c =>
      Ret (json_ok (Marshal (mkCustomResponse (ToUpper (CapitalizedQuery_Text c)))))
    | None, None => Ret (None, Some (errorString "unsupported query"))
    end
  end.
Definition CustomQuerier_Query `{CaseMapping} (q : CustomQuerier) (request : bytes) :
    outcome (bytes * option error) :=
  match q with
  | NoCustom => Ret (None, Some (vUnsupportedRequest (mkUnsupportedRequest "custom")))
  | ReflectCustom => ReflectCustom_Query request
  end.

Record MockQuerier := mkMockQuerier { mq_Bank : BankQuerier; mq_Custom : CustomQuerier; usedGas : Z }.
Definition DefaultQuerier (contractAddr : string) (coins : Array Coin) : MockQuerier :=
  mkMockQuerier (NewBankQuerier {[contractAddr := coins]}) NoCustom 0.

Definition MockQuerier_Query `{CaseMapping} (request : QueryRequest) (_gasLimit : Z) :
    GoM MockQuerier (bytes * option error) := fun q =>
  if negb (raw_writable (QueryRequest_Custom request))
  then (Ret (None, Some (JsonError MarshalerError)), q) else
  let marshaled := Marshal request in
  let q := mkMockQuerier (mq_Bank q) (mq_Custom q) (usedGas q +u slen marshaled) in
  match QueryRequest_Bank request with
  | Some b => (Ret (BankQuerier_Query (mq_Bank q) b), q)
  | None =>
    match QueryRequest_Custom request with
    | Some c => (CustomQuerier_Query (mq_Custom q) (Some c), q)
    | None =>
      match QueryRequest_Staking request, QueryRequest_Wasm request with
      | Some _, _ => (Ret (None, Some (vUnsupportedRequest (mkUnsupportedRequest "staking"))), q)
      | None, Some _ => (Ret (None, Some (vUnsupportedRequest (mkUnsupportedRequest "wasm"))), q)
      | None, None => (Ret (None, Some (vUnknown mkUnknown)), q)
      end
    end
  end.
Definition MockQuerier_GasConsumed (q : MockQuerier) : Z := usedGas q.

(** ** The mocks as a host *)

Record mock_host (T : Type) := mkMockHost {
  mh_store : Lookup_ T;
  mh_iters : gmap Z memDBIterator;
  mh_querier : MockQuerier;
}.
Arguments mkMockHost {T} _ _ _.
Arguments mh_store {T} _.
Arguments mh_iters {T} _.
Arguments mh_querier {T} _.

Section MockHost.
Context {T : Type} `{BTree T} `{CaseMapping}.
Abbreviation W := (world (mock_host T)).

Definition set_host (h : mock_host T) (w : W) : W :=
  mkWorld (w_heap w) (iteratorFrames w) (latestCallID w) h.
(** A computation on the state of the host alone. *)
Definition on_host {A} (m : GoM (mock_host T) A) : GoM W A := fun w =>
  let '(r, h) := m (w_host w) in (r, set_host h w).
Definition on_store {A} (m : GoM (Lookup_ T) A) : GoM (mock_host T) A := fun h =>
  let '(r, l) := m (mh_store h) in (r, mkMockHost l (mh_iters h) (mh_querier h)).
Definition on_querier {A} (m : GoM MockQuerier A) : GoM (mock_host T) A := fun h =>
  let '(r, q) := m (mh_querier h) in (r, mkMockHost (mh_store h) (mh_iters h) q).

(** A new iterator object; its identity is the first that is not in use. *)
Definition add_iter (it : option memDBIterator) : GoM (mock_host T) Iterator := fun h =>
  match it with
  | None => (Ret None, h)
  | Some i =>
    let o := zlen (map_to_list (mh_iters h)) + 1 in
    (Ret (Some o), mkMockHost (mh_store h) (<[o := i]> (mh_iters h)) (mh_querier h))
  end.
(** A method of an iterator object: it may panic, or change the object. *)
Definition iter_method {A} (o : Z) (m : memDBIterator -> outcome (A * memDBIterator)) :
    GoM (mock_host T) A := fun h =>
  match mh_iters h !! o with
  | None => (Panic (runtime_panic "invalid memory address or nil pointer dereference"), h)
  | Some i =>
    match m i with
    | Ret (a, i) => (Ret a, mkMockHost (mh_store h) (<[o := i]> (mh_iters h)) (mh_querier h))
    | Panic p => (Panic p, h)
    end
  end.
Definition reader {A} (f : memDBIterator -> outcome A) (i : memDBIterator) :
    outcome (A * memDBIterator) :=
  let% a := f i in Ret (a, i).

(** The address functions are function values: those from 10 on are the
    functions of [mock_failure.go]. *)
Definition failing (f : Z) : bool := 10 <=? f.

#[export] Instance mocks : Host (mock_host T) := {|
  GasMeter_GasConsumed _ := on_host (h ← gget; mret (mockGasMeter_GasConsumed (lk_meter (mh_store h))));
  KVStore_Get _ k := on_host (on_store (Lookup_Get k));
  KVStore_Set _ k v := on_host (on_store (Lookup_Set k v));
  KVStore_Delete _ k := on_host (on_store (Lookup_Delete k));
  KVStore_Iterator _ a b := on_host (it ← on_store (Lookup_Iterator a b); add_iter it);
  KVStore_ReverseIterator _ a b := on_host (it ← on_store (Lookup_ReverseIterator a b); add_iter it);
  Iterator_Valid o := on_host (iter_method o (reader (fun i => Ret (Valid i))));
  Iterator_Next o := on_host (iter_method o (fun i => let% i := Next i in Ret (tt, i)));
  Iterator_Key o := on_host (iter_method o (reader Key));
  Iterator_Value o := on_host (iter_method o (reader Value));
  Iterator_Close o := on_host (iter_method o (fun i => Ret (None, Close i)));
  Querier_Query _ q g := on_host (on_querier (MockQuerier_Query q g));
  Querier_GasConsumed _ := on_host (h ← gget; mret (MockQuerier_GasConsumed (mh_querier h)));
  GoAPI_HumanizeAddress f b :=
    glift (Ret (if failing f then MockFailureHumanizeAddress b else MockHumanizeAddress b));
  GoAPI_CanonicalizeAddress f s :=
    glift (Ret (if failing f then MockFailureCanonicalizeAddress s else MockCanonicalizeAddress s));
  GoAPI_ValidateAddress f s :=
    glift (Ret (if failing f then MockFailureValidateAddress s else MockValidateAddress s));
|}.

Lemma rely_on_host {A} (m : GoM (mock_host T) A) : respects rely (on_host m).
Proof.
  intros w r w' E. unfold on_host in E. destruct (m (w_host w)) as [r1 h1].
  injection E as <- <-. split; [reflexivity|]. intros Hl. exists 0.
  cbn [latestCallID set_host]. rewrite Z.add_0_r, u64_id by done. split_and!; [lia|done|done].
Qed.

#[export] Instance mocks_laws : HostLaws (mock_host T).
Proof.
  split; intros; cbn;
    first [apply rely_on_host | by intros w r w' [= <- <-]].
Qed.
End MockHost.

(** ** Lemmas *)

Lemma cut_zero_app s n :
  (forall c, In c (String.list_ascii_of_string s) -> code c <> 0) ->
  cut_zero (s +:+ zeros n) = s.
Proof.
  induction s as [|c s IH]; intros Hc; [by destruct n|]. simpl.
  rewrite (proj2 (Z.eqb_neq (code c) 0)) by (apply Hc; by left).
  f_equal. apply IH. intros d Hd. apply Hc. by right.
Qed.
Lemma slen_zeros n : slen (zeros n) = Z.of_nat n.
Proof. induction n as [|n IH]; [done|]. cbn [zeros]. rewrite slen_cons, IH. lia. Qed.

Lemma ConsumeGas_ok amount d g :
  is_u64 (gm_consumed g) -> 0 <= amount ->
  ConsumeGas amount d g =
  if MaxUint64 <? gm_consumed g + amount
  then (Panic (ErrorGasOverflow d), mkMockGasMeter (gm_limit g) 0)
  else if gm_limit g <? gm_consumed g + amount
  then (Panic (ErrorOutOfGas d), mkMockGasMeter (gm_limit g) (gm_consumed g + amount))
  else (Ret tt, mkMockGasMeter (gm_limit g) (gm_consumed g + amount)).
Proof.
  intros Hc Ha. unfold ConsumeGas, addUint64Overflow.
  rewrite (u64_id (MaxUint64 - gm_consumed g)) by width_lia.
  destruct (Z.ltb_spec MaxUint64 (gm_consumed g + amount)) as [H1|H1].
  - by rewrite (proj2 (Z.ltb_lt _ _)) by lia.
  - rewrite (proj2 (Z.ltb_ge _ _)) by lia. cbn [gm_limit gm_consumed].
    rewrite u64_id by width_lia. done.
Qed.

(** ** Properties *)

(** The mock address functions: an address of at most 32 bytes without a
    zero byte canonicalizes to 32 bytes and humanizes back to itself, each at
    its cost, and it validates exactly when it is in lower case; a longer one
    is refused. *)
Theorem mock_addresses `{CaseMapping} (human : string) :
  (forall c, In c (String.list_ascii_of_string human) -> code c <> 0) ->
  (slen human <= CanonicalLength ->
     exists canon, MockCanonicalizeAddress human = (Some canon, CostCanonical, None) /\
       slen canon = CanonicalLength /\
       MockHumanizeAddress (Some canon) = (human, CostHuman, None) /\
       (MockValidateAddress human = (CostCanonical + CostHuman, None) <-> ToLower human = human)) /\
  (CanonicalLength < slen human ->
     exists e, MockCanonicalizeAddress human = (None, 0, Some e) /\
       MockValidateAddress human = (0, Some e)).
Proof.
  intros Hc. split; intros Hl.
  - unfold MockValidateAddress, MockCanonicalizeAddress.
    rewrite (proj2 (Z.ltb_ge _ _)) by done. eexists. split; [reflexivity|].
    assert (slen (human +:+ zeros (Z.to_nat (CanonicalLength - slen human))) = CanonicalLength) as El
      by (rewrite slen_app, slen_zeros; lia).
    split; [done|]. unfold MockHumanizeAddress.
    change (blen (Some ?s)) with (slen s). rewrite El. cbn [negb Z.eqb string_of_bytes default].
    rewrite Z.eqb_refl. cbn [negb]. unfold id. rewrite cut_zero_app by done. split; [done|].
    destruct (String.eqb_spec human (ToLower human)) as [E|E]; cbn [negb]; split; congruence || done.
  - unfold MockValidateAddress, MockCanonicalizeAddress. rewrite (proj2 (Z.ltb_lt _ _)) by done.
    by eexists.
Qed.
Lemma mock_addresses_witness :
  let I := {| ToLower := fun s => s; ToUpper := fun s => s |} in
  exists canon, MockCanonicalizeAddress "foobar" = (Some canon, CostCanonical, None) /\
    slen canon = CanonicalLength /\
    MockHumanizeAddress (Some canon) = ("foobar"%string, CostHuman, None) /\
    (MockValidateAddress "foobar" = (CostCanonical + CostHuman, None) <->
     ToLower "foobar" = "foobar"%string).
Proof.
  apply (@mock_addresses {| ToLower := fun s => s; ToUpper := fun s => s |} "foobar").
  - intros c Hc. simpl in Hc. intuition (subst; discriminate).
  - discriminate.
Defined.

(** The mock gas meter never counts past its limit without a panic, and
    the sum it keeps is the exact one, except that an addition that would
    pass 2^64 resets the counter to zero before it panics. *)
Theorem mock_gas_meter (amount : Z) (descriptor : string) (g : mockGasMeter) :
  is_u64 (gm_consumed g) -> 0 <= amount -> is_u64 (gm_limit g) ->
  exists r g', ConsumeGas amount descriptor g = (r, g') /\ gm_limit g' = gm_limit g /\
    (r = Ret tt -> gm_consumed g' = gm_consumed g + amount /\ gm_consumed g' <= gm_limit g) /\
    (r = Panic (ErrorOutOfGas descriptor) ->
       gm_consumed g' = gm_consumed g + amount /\ gm_limit g < gm_consumed g') /\
    (MaxUint64 < gm_consumed g + amount ->
       r = Panic (ErrorGasOverflow descriptor) /\ gm_consumed g' = 0).
Proof.
  intros Hc Ha Hl. rewrite ConsumeGas_ok by done.
  destruct (Z.ltb_spec MaxUint64 (gm_consumed g + amount)) as [H1|H1];
    [|destruct (Z.ltb_spec (gm_limit g) (gm_consumed g + amount)) as [H2|H2]];
    eexists _, _; (split; [reflexivity|]); cbn [gm_limit gm_consumed]; split_and!;
    intros; try discriminate; split_and?; auto; lia.
Qed.
Lemma mock_gas_meter_witness :
  exists r g', ConsumeGas 5 "read" (mkMockGasMeter 10 7) = (r, g') /\ gm_limit g' = 10 /\
    (r = Ret tt -> gm_consumed g' = 7 + 5 /\ gm_consumed g' <= 10) /\
    (r = Panic (ErrorOutOfGas "read") -> gm_consumed g' = 7 + 5 /\ 10 < gm_consumed g') /\
    (MaxUint64 < 7 + 5 -> r = Panic (ErrorGasOverflow "read") /\ gm_consumed g' = 0).
Proof.
  apply (mock_gas_meter 5 "read" (mkMockGasMeter 10 7)); vm_compute; try split; congruence.
Defined.

(** An account without balances: the querier answers an empty list, and
    reading the answer gives an empty [Array], not a nil one. *)
Theorem missing_balances (q : BankQuerier) (addr : string) :
  Balances q !! addr = None ->
  exists data, BankQuerier_Query q (mkBankQuery None None (Some (mkAllBalancesQuery addr)) None None) =
      (Some data, None) /\
    Unmarshal data = Ret (inr (mkAllBalancesResponse (Some []))).
Proof.
  intros E. exists (Marshal (mkAllBalancesResponse None)). split; [|vm_compute; reflexivity].
  exact (f_equal (fun o => json_ok (Marshal (mkAllBalancesResponse (default None o)))) E).
Qed.
Lemma missing_balances_witness :
  exists data, BankQuerier_Query (NewBankQuerier {["foobar"%string := None]})
      (mkBankQuery None None (Some (mkAllBalancesQuery "someone-else")) None None) = (Some data, None) /\
    Unmarshal data = Ret (inr (mkAllBalancesResponse (Some []))).
Proof. apply missing_balances. reflexivity. Defined.

(** ** A process to run examples in *)

Definition id_case : CaseMapping := {| ToLower s := s; ToUpper s := s |}.
Definition example_world (gas : Z) (entries : list (string * string)) : world (mock_host sorted_list) :=
  let db := fold_left (fun db e => fst (MemDB_Set db (Some (fst e)) (Some (snd e)))) entries NewMemDB in
  mkWorld empty_heap ∅ 0
    (mkMockHost (mkLookup db (NewMockGasMeter gas)) ∅ (DefaultQuerier MOCK_CONTRACT_ADDR None)).
