(* ===== verification/Iterators.v ===== *)
(** * Iterators of running contract calls

    [internal/api/iterator.go].  Every contract call gets an ID; the
    iterators it opens are kept in its frame and referred to by 1-based IDs
    until the call ends, when its frame is removed and its iterators are
    closed.  Each function that touches the global maps holds a mutex, so
    each is one atomic step; [endCall] is several, because the iterators are
    closed one by one after the lock is released.

    The second half models any number of calls that run at the same time as
    a transition system over these steps. *)

From stdpp Require Import relations.
From S2P Require Import Prelude GoText Json Codec Scalars Types Errors Queries Memory MemDB World Mocks.

Section Ops.
Context {H : Type} `{Host H}.

Definition iteratorIdToIndex (id : Z) : Z * bool :=
  if (id <? 1) || (MaxInt32 <? id) then (777777777, false) else (i64 id - 1, true).

Definition indexToIteratorID (index : Z) : Z * bool :=
  if (index <? 0) || (MaxInt32 <? index) then (888888888, false) else (u64 index +u 1, true).

Definition startCall : GoM (world H) Z := fun w =>
  let id := latestCallID w +u 1 in (Ret id, set_latest id w).

(** The frame of a call, nil when it has none. *)
Definition frame_of (callID : Z) (w : world H) : frame :=
  default [] (iteratorFrames w !! callID).

Definition removeFrame (callID : Z) : GoM (world H) frame := fun w =>
  (Ret (frame_of callID w), set_frames (delete callID (iteratorFrames w)) w).

Fixpoint close_all (l : frame) : GoM (world H) unit :=
  match l with
  | [] => mret tt
  | iter :: l => _ ← icall iter Iterator_Close; close_all l
  end.

Definition endCall (callID : Z) : GoM (world H) unit :=
  remove ← removeFrame callID; close_all remove.

Definition limit_error (frameLenLimit : Z) : error :=
  errorString ("reached iterator limit (" +:+ Strconv.FormatInt frameLenLimit +:+ ")").

Definition storeIterator (callID : Z) (it : Iterator) (frameLenLimit : Z) :
    GoM (world H) (Z * option error) := fun w =>
  let new_index := zlen (frame_of callID w) in
  if frameLenLimit <=? new_index then (Ret (0, Some (limit_error frameLenLimit)), w)
  else
    let w := set_frames (<[callID := frame_of callID w ++ [it]]> (iteratorFrames w)) w in
    let '(iterator_id, ok) := indexToIteratorID new_index in
    if negb ok
    then (Ret (0, Some (errorString "could not convert index to iterator ID")), w)
    else (Ret (iterator_id, None), w).

Definition retrieveIterator (callID iteratorID : Z) : GoM (world H) Iterator := fun w =>
  let '(indexInFrame, ok) := iteratorIdToIndex iteratorID in
  if negb ok then (Ret None, w)
  else
    match iteratorFrames w !! callID with
    | None => (Ret None, w)
    | Some myFrame =>
      if zlen myFrame <=? indexInFrame then (Ret None, w)
      else (Ret (default None (myFrame !! Z.to_nat indexInFrame)), w)
    end.

End Ops.

(** ** Lemmas on single operations *)

Section OpLemmas.
Context {H : Type} `{Host H}.
Implicit Types w : world H.

Lemma id_index id : 1 <= id <= MaxInt32 -> iteratorIdToIndex id = (id - 1, true).
Proof.
  intros Hid. unfold iteratorIdToIndex.
  rewrite (proj2 (Z.ltb_ge id 1)), (proj2 (Z.ltb_ge MaxInt32 id)) by lia. cbn [orb].
  rewrite i64_id by width_lia. done.
Qed.
Lemma index_id index : 0 <= index <= MaxInt32 -> indexToIteratorID index = (index + 1, true).
Proof.
  intros Hi. unfold indexToIteratorID.
  rewrite (proj2 (Z.ltb_ge index 0)), (proj2 (Z.ltb_ge MaxInt32 index)) by lia. cbn [orb].
  rewrite !u64_id by width_lia. done.
Qed.

(** What a successful and a refused store do. *)
Lemma storeIterator_ok c it limit w :
  zlen (frame_of c w) < limit -> limit <= MaxInt32 ->
  storeIterator c it limit w =
  (Ret (zlen (frame_of c w) + 1, None),
   set_frames (<[c := frame_of c w ++ [it]]> (iteratorFrames w)) w).
Proof.
  intros Hl Hm. unfold storeIterator. rewrite (proj2 (Z.leb_gt _ _)) by lia.
  pose proof (zlen_nonneg (frame_of c w)). by rewrite index_id by lia.
Qed.
Lemma storeIterator_full c it limit w :
  limit <= zlen (frame_of c w) ->
  storeIterator c it limit w = (Ret (0, Some (limit_error limit)), w).
Proof. intros Hl. unfold storeIterator. by rewrite (proj2 (Z.leb_le _ _)) by lia. Qed.

(** The iterator an ID refers to. *)
Definition lookup_id (f : frame) (id : Z) : Iterator := default None (f !! Z.to_nat (id - 1)).

Lemma retrieveIterator_spec c n w :
  retrieveIterator c n w =
  (Ret (if (1 <=? n) && (n <=? MaxInt32) then lookup_id (frame_of c w) n else None), w).
Proof.
  unfold retrieveIterator. destruct (Z.leb_spec 1 n) as [H1|H1]; cbn [andb].
  2: { unfold iteratorIdToIndex. by rewrite (proj2 (Z.ltb_lt n 1)) by lia. }
  destruct (Z.leb_spec n MaxInt32) as [H2|H2].
  2: { unfold iteratorIdToIndex. rewrite (proj2 (Z.ltb_lt MaxInt32 n)) by lia.
       by rewrite orb_true_r. }
  rewrite id_index by lia. cbn [negb]. unfold frame_of, lookup_id.
  destruct (iteratorFrames w !! c) as [f|]; cbn [default]; [|done].
  unfold id. destruct (Z.leb_spec (zlen f) (n - 1)) as [H3|H3]; [|done].
  rewrite (proj2 (lookup_ge_None f _)); [done|]. unfold zlen in *. lia.
Qed.

Lemma rely_retrieveIterator c n : respects (@rely H) (retrieveIterator c n).
Proof. intros w r w' E. rewrite retrieveIterator_spec in E. by injection E as <- <-. Qed.
Lemma rely_startCall : respects (@rely H) startCall.
Proof.
  intros w r w' [= <- <-]. split; [reflexivity|]. intros Hl. exists 1. split_and!; [lia|done|done].
Qed.

Lemma grows_storeIterator c it limit : respects (@grows H c) (storeIterator c it limit).
Proof.
  intros w r w' E Hl. exists 0. rewrite Z.add_0_r, u64_id by done. unfold storeIterator in E.
  destruct (limit <=? zlen (frame_of c w)).
  - injection E as <- <-. split_and!; [lia|done|]. intros _ _ _. by exists [].
  - destruct (indexToIteratorID (zlen (frame_of c w))) as [i ok].
    assert (w' = set_frames (<[c := frame_of c w ++ [it]]> (iteratorFrames w)) w) as ->
      by (destruct ok; by injection E as _ <-).
    split_and!; [lia|done|]. intros _ _ _. by exists [it].
Qed.

Lemma storeIterator_heap c it limit w r w' :
  storeIterator (H := H) c it limit w = (r, w') -> w_heap w' = w_heap w.
Proof. unfold storeIterator. repeat case_match; intros; by simplify_eq. Qed.

Lemma rely_close_all `{!HostLaws H} l : respects (@rely H) (close_all l).
Proof.
  induction l as [|it l IH]; cbn [close_all]; solve_respects.
Qed.
End OpLemmas.
#[export] Hint Resolve rely_retrieveIterator rely_startCall grows_storeIterator rely_close_all : go.

(** ** A whole call

    [callID := startCall(); defer endCall(callID); ...]: whatever the body
    does with its own frame, to the rest of the process the call looks like
    a call into the host: it leaves the frames as it found them. *)
Section Call.
Context {H : Type} `{HostLaws H}.
Implicit Types w : world H.

Definition with_call {A} (body : Z -> GoM (world H) A) : GoM (world H) A :=
  callID ← startCall; with_defer (body callID) (endCall callID).

Lemma endCall_inv c w r w' :
  endCall c w = (r, w') ->
  rely (set_frames (delete c (iteratorFrames w)) w) w'.
Proof.
  intros E. apply gbind_inv in E as [(f & w1 & E1 & E2)|(p & E & _)].
  - injection E1 as <- <-. by eapply rely_close_all.
  - discriminate.
Qed.

Lemma with_call_rely {A} (body : Z -> GoM (world H) A) :
  (forall c, respects (grows c) (body c)) ->
  (forall c w r w', body c w = (r, w') -> heap_same (w_heap w) (w_heap w')) ->
  respects rely (with_call body).
Proof.
  intros Hbody Hheap w r w' E. unfold with_call in E.
  apply gbind_inv in E as [(c & w1 & E1 & E2)|(p & E & _)]; [|discriminate].
  injection E1 as <- <-. set (c := latestCallID w +u 1) in *.
  unfold with_defer in E2. destruct (body c (set_latest c w)) as [rb wb] eqn:Eb.
  pose proof (Hheap _ _ _ _ Eb) as Hh. apply Hbody in Eb as Hc.
  assert (exists r', endCall c wb = (r', w')) as [r' Ee].
  { destruct (endCall c wb) as [[?|?] w2]; injection E2 as _ <-; eauto. }
  apply endCall_inv in Ee as [Hh' Hc'].
  split; [by transitivity (w_heap wb)|]. intros Hl.
  destruct Hc as (n & Hn & El & Ef); [apply u64_range|].
  cbn [latestCallID iteratorFrames set_latest set_frames] in *.
  destruct Hc' as (m & Hm & El' & Ef'); [cbn [latestCallID set_frames]; rewrite El; apply u64_range|].
  cbn [latestCallID iteratorFrames set_frames] in *.
  exists (1 + n + m). rewrite El', El. unfold c. rewrite !u64_add_assoc.
  split_and!; [lia|f_equal; lia|]. intros Hw Hb.
  assert (c = latestCallID w + 1) as Ec by (apply u64_id; unfold is_u64 in *; lia).
  assert (latestCallID wb = latestCallID w + 1 + n) as Elb
    by (rewrite El, Ec; apply u64_id; unfold is_u64 in *; lia).
  clearbody c. destruct Hl as [Hl0 _]. destruct Ef as [l Efb]; [lia| |lia|].
  { intros d Hd. specialize (Hb d Hd). cbn [latestCallID set_latest]. lia. }
  assert (iteratorFrames w !! c = None) as Hnone.
  { destruct (iteratorFrames w !! c) eqn:Ew; [|done]. assert (1 <= c <= latestCallID w); [|lia].
    apply Hb. intros En. discriminate (eq_trans (eq_sym Ew) En). }
  assert (delete c (iteratorFrames wb) = iteratorFrames w) as Ed.
  { rewrite Efb. destruct (decide (l = [])); [by apply delete_id|by apply delete_insert_id]. }
  rewrite Ef', Ed; [done|lia|].
  intros d. cbn [iteratorFrames set_frames latestCallID]. rewrite Ed. intros Hd.
  specialize (Hb d Hd). lia.
Qed.

End Call.

(** ** Calls that run at the same time *)

Section Concurrent.
Context {H : Type} `{Host H} (limit : Z).

(** What a call into the host leaves when the calls it made have ended and
    the counter of calls has not passed 2^64 (compare [World.keeps]). *)
Definition settled (w w' : world H) : Prop :=
  iteratorFrames w' = iteratorFrames w /\ latestCallID w <= latestCallID w' < two64.

Inductive phase := Running | Closing (rest : frame).

(** The process, where every started call stands, and what each call has
    stored, closed, and left open so far. *)
Record sys := mkSys {
  sw : world H;
  calls : gmap Z phase;
  stored : gmap Z frame;
  closed : gmap Z frame;
  unclosed : gmap Z frame;
}.

Definition log (m : gmap Z frame) (c : Z) : frame := default [] (m !! c).

(** [endCall] is [step_remove] and then the loop: each iterator is closed in
    a step of its own, and one that is nil or panics ends the loop and the
    call. *)
Inductive step : sys -> sys -> Prop :=
| step_start s id w :
    latestCallID (sw s) < MaxUint64 ->
    startCall (sw s) = (Ret id, w) ->
    step s (mkSys w (<[id := Running]> (calls s)) (stored s) (closed s) (unclosed s))
| step_store s c it id err w :
    calls s !! c = Some Running ->
    storeIterator c it limit (sw s) = (Ret (id, err), w) ->
    step s (mkSys w (calls s)
      (match err with None => <[c := log (stored s) c ++ [it]]> (stored s) | Some _ => stored s end)
      (closed s) (unclosed s))
| step_retrieve s c n it w :
    calls s !! c = Some Running ->
    retrieveIterator c n (sw s) = (Ret it, w) ->
    step s (mkSys w (calls s) (stored s) (closed s) (unclosed s))
| step_remove s c f w :
    calls s !! c = Some Running ->
    removeFrame c (sw s) = (Ret f, w) ->
    step s (mkSys w (<[c := Closing f]> (calls s)) (stored s) (closed s) (unclosed s))
| step_close s c it l err w :
    calls s !! c = Some (Closing (it :: l)) ->
    icall it Iterator_Close (sw s) = (Ret err, w) -> settled (sw s) w ->
    step s (mkSys w (<[c := Closing l]> (calls s)) (stored s)
      (<[c := log (closed s) c ++ [it]]> (closed s)) (unclosed s))
| step_panic s c it l p w :
    calls s !! c = Some (Closing (it :: l)) ->
    icall it Iterator_Close (sw s) = (Panic p, w) -> settled (sw s) w ->
    step s (mkSys w (delete c (calls s)) (stored s) (closed s) (<[c := it :: l]> (unclosed s)))
| step_done s c :
    calls s !! c = Some (Closing []) ->
    step s (mkSys (sw s) (delete c (calls s)) (stored s) (closed s) (unclosed s))
| step_host s w :
    settled (sw s) w ->
    step s (mkSys w (calls s) (stored s) (closed s) (unclosed s)).

Definition init (h : heap) (host : H) : sys := mkSys (mkWorld h ∅ 0 host) ∅ ∅ ∅ ∅.

(** Where each call stands agrees with its frame and its logs. *)
Definition call_inv (s : sys) (c : Z) : Prop :=
  match calls s !! c with
  | Some Running =>
    frame_of c (sw s) = log (stored s) c /\ log (closed s) c = [] /\ log (unclosed s) c = [] /\
    zlen (log (stored s) c) <= limit
  | Some (Closing l) =>
    iteratorFrames (sw s) !! c = None /\ log (unclosed s) c = [] /\
    log (closed s) c ++ l = log (stored s) c
  | None =>
    iteratorFrames (sw s) !! c = None /\ log (closed s) c ++ log (unclosed s) c = log (stored s) c
  end.

Record inv (s : sys) : Prop := {
  inv_latest : 0 <= latestCallID (sw s) < two64;
  inv_ids : forall c, calls s !! c <> None \/ stored s !! c <> None \/ closed s !! c <> None \/
    unclosed s !! c <> None -> 1 <= c <= latestCallID (sw s);
  inv_calls : forall c, call_inv s c;
}.

Lemma log_insert m c l : log (<[c := l]> m) c = l.
Proof. unfold log. by rewrite lookup_insert_eq. Qed.

Lemma init_inv h host : 0 <= limit -> inv (init h host).
Proof.
  intros Hl. split; [done| |].
  - intros c. cbn [init calls stored closed unclosed]. rewrite !lookup_empty. by intros [?|[?|[?|?]]].
  - intros c. unfold call_inv. cbn [init calls]. by rewrite lookup_empty.
Qed.

(** A call that was never started has no frame and no logs. *)
Lemma inv_fresh s c :
  inv s -> latestCallID (sw s) < c ->
  calls s !! c = None /\ iteratorFrames (sw s) !! c = None /\
  stored s !! c = None /\ closed s !! c = None /\ unclosed s !! c = None.
Proof.
  intros [Hl Hi Hc] Hlt.
  assert (calls s !! c = None /\ stored s !! c = None /\ closed s !! c = None /\ unclosed s !! c = None)
    as (E1 & E2 & E3 & E4).
  { split_and!; apply not_elem_of_dom; intros Hd%elem_of_dom; destruct Hd as [x Hx];
      assert (1 <= c <= latestCallID (sw s)); try lia; apply Hi; rewrite Hx; auto. }
  split_and!; [done| |done..]. specialize (Hc c). unfold call_inv in Hc. rewrite E1 in Hc. apply Hc.
Qed.

(** Changes that concern one call keep the others. *)
Lemma inv_update s s' c :
  inv s -> 0 <= latestCallID (sw s') < two64 -> latestCallID (sw s) <= latestCallID (sw s') ->
  1 <= c <= latestCallID (sw s') ->
  (forall d, d <> c -> calls s' !! d = calls s !! d /\ stored s' !! d = stored s !! d /\
     closed s' !! d = closed s !! d /\ unclosed s' !! d = unclosed s !! d /\
     iteratorFrames (sw s') !! d = iteratorFrames (sw s) !! d) ->
  call_inv s' c -> inv s'.
Proof.
  intros [Hl Hi Hc] Hl' Hle Hcr Hd Hcc. split; [done| |].
  - intros d. destruct (decide (d = c)) as [->|Hne]; [lia|].
    destruct (Hd d Hne) as (-> & -> & -> & -> & _). intros Hx. specialize (Hi d Hx). lia.
  - intros d. destruct (decide (d = c)) as [->|Hne]; [done|].
    destruct (Hd d Hne) as (E1 & E2 & E3 & E4 & E5). specialize (Hc d).
    unfold call_inv, frame_of, log in *. by rewrite E1, E2, E3, E4, E5.
Qed.

Lemma inv_open s c p : inv s -> calls s !! c = Some p -> 1 <= c <= latestCallID (sw s).
Proof. intros Hs E. apply Hs. left. by rewrite E. Qed.

Lemma store_inv s c it n err w :
  limit <= MaxInt32 -> inv s -> calls s !! c = Some Running ->
  storeIterator c it limit (sw s) = (Ret (n, err), w) ->
  inv (mkSys w (calls s)
    (match err with None => <[c := log (stored s) c ++ [it]]> (stored s) | Some _ => stored s end)
    (closed s) (unclosed s)).
Proof.
  intros Hm Hs Hr E. pose proof (inv_open _ _ _ Hs Hr) as Hcr.
  pose proof (inv_calls _ Hs c) as Hc. unfold call_inv in Hc. rewrite Hr in Hc.
  destruct Hc as (Ef & El & Eu & Hz). rewrite <- Ef in Hz.
  destruct (Z.lt_ge_cases (zlen (frame_of c (sw s))) limit) as [Hlt|Hge].
  - rewrite storeIterator_ok in E by done. injection E as <- <- <-.
    apply (inv_update s _ c); cbn [sw calls stored closed unclosed latestCallID set_frames iteratorFrames];
      [done|apply Hs|lia|lia| |].
    + intros d Hd. by rewrite !lookup_insert_ne.
    + unfold call_inv, frame_of. cbn [sw calls stored closed unclosed set_frames iteratorFrames].
      rewrite Hr, log_insert, lookup_insert_eq. cbn [default]. unfold id. rewrite <- Ef.
      split_and!; [done|done|done|]. rewrite zlen_app. unfold zlen at 2. simpl. lia.
  - rewrite storeIterator_full in E by done. injection E as <- <- <-. by destruct s.
Qed.

(** A step of one call: the others are untouched, and what is left is the
    state of that call. *)
Ltac update_call c :=
  match goal with Hs : inv ?s |- _ =>
    pose proof (inv_latest _ Hs);
    apply (inv_update s _ c);
    [ exact Hs
    | cbn [sw latestCallID set_latest set_frames]; unfold MaxUint64 in *; lia
    | cbn [sw latestCallID set_latest set_frames]; lia
    | cbn [sw latestCallID set_latest set_frames]; lia
    | let d := fresh "d" in intros d ?;
      cbn [sw calls stored closed unclosed iteratorFrames set_latest set_frames];
      rewrite ?lookup_insert_ne, ?lookup_delete_ne by done; try done
    | unfold call_inv; cbn [sw calls stored closed unclosed iteratorFrames set_latest set_frames];
      rewrite ?lookup_insert_eq, ?lookup_delete_eq ]
  end.

Lemma step_inv s s' : 0 <= limit <= MaxInt32 -> inv s -> step s s' -> inv s'.
Proof.
  intros Hm Hs Hst. destruct Hst as
    [s id w Hlt E|s c it id err w Hr E|s c n it w Hr E|s c f w Hr E|s c it l err w Hr E [Ef El]
    |s c it l p w Hr E [Ef El]|s c Hr|s w [Ef El]];
    try (pose proof (inv_open _ _ _ Hs Hr));
    try (pose proof (inv_calls _ Hs c) as Hc; unfold call_inv in Hc; rewrite Hr in Hc).
  - injection E as <- <-. pose proof (inv_latest _ Hs) as Hl. unfold MaxUint64 in Hlt.
    rewrite (u64_id (latestCallID (sw s) + 1)) by (unfold is_u64; lia).
    destruct (inv_fresh s (latestCallID (sw s) + 1) Hs ltac:(lia)) as (E1 & E2 & E3 & E4 & E5).
    update_call (latestCallID (sw s) + 1). unfold frame_of, log.
    cbn [iteratorFrames set_latest]. rewrite E2, E3, E4, E5. unfold zlen. simpl. split_and!; [done..|lia].
  - eapply store_inv; [lia|done..].
  - rewrite retrieveIterator_spec in E. injection E as <- <-. by destruct s.
  - injection E as <- <-. update_call c. by destruct Hc as (-> & -> & -> & _).
  - update_call c; [by rewrite Ef|]. rewrite Ef, log_insert, <- app_assoc. apply Hc.
  - update_call c; [by rewrite Ef|]. rewrite Ef, log_insert. by destruct Hc as (? & _ & ?).
  - update_call c. destruct Hc as (? & -> & ?). done.
  - destruct Hs as [Hl Hi Hc]. split; cbn [sw calls stored closed unclosed]; [lia| |].
    + intros c Hx. specialize (Hi c Hx). lia.
    + intros c. specialize (Hc c). unfold call_inv, frame_of in *.
      cbn [sw calls stored closed unclosed]. by rewrite Ef.
Qed.

Lemma reachable_inv h host s : 0 <= limit <= MaxInt32 -> rtc step (init h host) s -> inv s.
Proof.
  intros Hm Hr. remember (init h host) as s0 eqn:E0.
  assert (inv s0) as Hi by (subst s0; apply init_inv; lia). clear E0.
  induction Hr as [s|s1 s2 s3 Hst _ IH]; [done|]. apply IH. by eapply step_inv.
Qed.

(** *** [endCall] in these steps *)

(** Closing an iterator makes no calls that are still open when it returns. *)
Definition close_settles : Prop :=
  forall o w r w', is_u64 (latestCallID w) -> Iterator_Close o w = (r, w') -> settled w w'.

Lemma icall_settles it w r w' :
  close_settles -> is_u64 (latestCallID w) -> icall it Iterator_Close w = (r, w') -> settled w w'.
Proof.
  intros Hc Hw. destruct it as [o|]; [by apply Hc|]. intros E. injection E as _ <-.
  unfold is_u64 in Hw. split; [done|lia].
Qed.

Lemma close_all_steps c l s r w' :
  close_settles -> is_u64 (latestCallID (sw s)) -> calls s !! c = Some (Closing l) ->
  log (unclosed s) c = [] -> close_all l (sw s) = (r, w') ->
  exists s', rtc step s s' /\ sw s' = w' /\ calls s' !! c = None /\ stored s' = stored s /\
    (log (unclosed s') c = [] <-> exists u, r = Ret u).
Proof.
  intros Hcl. revert s. induction l as [|it l IH]; intros s Hw Hc Hu E; cbn [close_all] in E.
  - injection E as <- <-. eexists. split; [by apply rtc_once, step_done|].
    cbn [sw calls stored unclosed]. rewrite lookup_delete_eq. split_and!; [done..|]. rewrite Hu. split; [by exists tt|done].
  - apply gbind_inv in E as [(err & w1 & E1 & E2)|(p & E & ->)].
    + pose proof (icall_settles _ _ _ _ Hcl Hw E1) as Hs.
      pose proof (step_close s c it l err w1 Hc E1 Hs) as Hst.
      match type of Hst with step _ ?s1 => destruct (IH s1) as (s' & Hr & Hrest) end;
        [destruct Hs; unfold is_u64 in *; cbn [sw]; lia|apply lookup_insert_eq|exact Hu|exact E2|].
      exists s'. split; [by eapply rtc_l|exact Hrest].
    + pose proof (icall_settles _ _ _ _ Hcl Hw E) as Hs. eexists. split; [by eapply rtc_once, step_panic|].
      cbn [sw calls stored unclosed]. rewrite lookup_delete_eq, log_insert.
      split_and!; [done..|]. split; [done|by intros [u [=]]].
Qed.

Lemma endCall_steps c s r w' :
  0 <= limit <= MaxInt32 -> close_settles -> inv s -> calls s !! c = Some Running ->
  endCall c (sw s) = (r, w') ->
  exists s', rtc step s s' /\ sw s' = w' /\ calls s' !! c = None /\ stored s' = stored s /\
    (log (unclosed s') c = [] <-> exists u, r = Ret u).
Proof.
  intros Hm Hcl Hs Hc E. apply gbind_inv in E as [(f & w1 & E1 & E2)|(p & E & _)]; [|discriminate].
  pose proof (step_remove s c f w1 Hc E1) as Hst.
  pose proof (step_inv _ _ Hm Hs Hst) as Hs1. pose proof (inv_calls _ Hs1 c) as Hc1.
  unfold call_inv in Hc1. cbn [calls] in Hc1. rewrite lookup_insert_eq in Hc1. destruct Hc1 as (_ & Hu & _).
  destruct (close_all_steps c f _ r w' Hcl (inv_latest _ Hs1) (lookup_insert_eq _ _ _) Hu E2)
    as (s' & Hr & Hrest).
  exists s'. split; [by eapply rtc_l|exact Hrest].
Qed.
End Concurrent.

(** ** Properties *)

(** C3. Any number of calls at the same time, in any interleaving of their
    steps: the [n]-th iterator a running call stored is what its ID [n]
    retrieves, whatever the other calls do, and it has closed nothing; a call
    that has ended has no frame, and has closed the iterators it stored, once
    each and in order, up to the first that is nil or panics when it is
    closed: that one and those after it stay open.  Run at one go from any
    such state, these steps are [endCall], which returns when everything was
    closed and panics when something was left open. *)
Theorem iterators_isolated {H : Type} `{Host H} (limit : Z) (h : heap) (host : H) (s : sys) (c : Z) :
  0 <= limit <= MaxInt32 -> rtc (step limit) (init h host) s ->
  (calls s !! c = Some Running ->
     log (closed s) c = [] /\ zlen (log (stored s) c) <= limit /\
     forall n it, log (stored s) c !! n = Some it ->
       retrieveIterator c (Z.of_nat n + 1) (sw s) = (Ret it, sw s)) /\
  (calls s !! c = None ->
     iteratorFrames (sw s) !! c = None /\
     log (closed s) c ++ log (unclosed s) c = log (stored s) c) /\
  (forall r w', calls s !! c = Some Running -> close_settles (H := H) -> endCall c (sw s) = (r, w') ->
     exists s', rtc (step limit) s s' /\ sw s' = w' /\ calls s' !! c = None /\
       iteratorFrames w' !! c = None /\
       log (closed s') c ++ log (unclosed s') c = log (stored s) c /\
       (log (unclosed s') c = [] <-> exists u, r = Ret u)).
Proof.
  intros Hm Hr. pose proof (reachable_inv limit h host s Hm Hr) as Hs.
  pose proof (inv_calls _ _ Hs c) as Hc. unfold call_inv in Hc. split_and!.
  - intros E. rewrite E in Hc. destruct Hc as (Ef & El & _ & Hz). split_and!; [done..|]. intros n it Hn.
    rewrite retrieveIterator_spec, Ef. pose proof (lookup_lt_Some _ _ _ Hn). unfold zlen in Hz.
    rewrite (proj2 (Z.leb_le 1 _)), (proj2 (Z.leb_le _ MaxInt32)) by lia. cbn [andb].
    unfold lookup_id. replace (Z.to_nat (Z.of_nat n + 1 - 1)) with n by lia. by rewrite Hn.
  - intros E. by rewrite E in Hc.
  - intros r w' E Hcl Ee.
    destruct (endCall_steps limit c s r w' Hm Hcl Hs E Ee) as (s' & Hr' & Ew & Ec & Est & Hu).
    exists s'. pose proof (reachable_inv limit h host s' Hm ltac:(by etransitivity)) as Hs'.
    pose proof (inv_calls _ _ Hs' c) as Hc'. unfold call_inv in Hc'. rewrite Ec in Hc'.
    rewrite <- Ew, <- Est. by destruct Hc'.
Qed.

(** Two calls that overlap: the first stores the iterators 1 and 9, of which
    the host knows only the first; it ends while the other one runs. *)
#[local] Existing Instance id_case.
Definition ex_host : mock_host sorted_list :=
  mkMockHost (NewLookup (NewMockGasMeter 1000)) {[1 := newMemDBIterator NewMemDB None None false]}
    (DefaultQuerier "" None).
Definition ex_running : sys (H := mock_host sorted_list) :=
  mkSys (mkWorld empty_heap (<[2 := [Some 1]]> {[1 := [Some 1; Some 9]]}) 2 ex_host)
    (<[2 := Running]> {[1 := Running]}) (<[2 := [Some 1]]> {[1 := [Some 1; Some 9]]}) ∅ ∅.
Lemma ex_running_reachable : rtc (step 5) (init empty_heap ex_host) ex_running.
Proof.
  eapply rtc_l; [apply step_start; [reflexivity|reflexivity]|].
  eapply rtc_l; [eapply (step_store _ _ 1 (Some 1)); [reflexivity|reflexivity]|].
  eapply rtc_l; [apply step_start; [reflexivity|reflexivity]|].
  eapply rtc_l; [eapply (step_store _ _ 2 (Some 1)); [reflexivity|reflexivity]|].
  eapply rtc_l; [eapply (step_store _ _ 1 (Some 9)); [reflexivity|reflexivity]|].
  match goal with |- rtc _ ?x ?y =>
    refine (eq_rect y (fun z => rtc (step 5) z y) (rtc_refl _ y) x _) end.
  vm_compute. reflexivity.
Qed.
Lemma ex_close_settles : close_settles (H := mock_host sorted_list).
Proof.
  intros o w r w' Hw E. cbn in E. unfold on_host in E.
  destruct (iter_method _ _ _) as [r1 h1]. injection E as _ <-. unfold is_u64 in Hw. split; [done|].
  cbn [latestCallID set_host]. lia.
Qed.
Lemma iterators_isolated_witness :
  let out := endCall 1 (sw ex_running) in
  (exists p, fst out = Panic p) /\
  exists s', rtc (step 5) ex_running s' /\ sw s' = snd out /\
    log (closed s') 1 ++ log (unclosed s') 1 = [Some 1; Some 9] /\
    (log (unclosed s') 1 = [] <-> exists u, fst out = Ret u).
Proof.
  intros out. split; [by eexists|].
  destruct (iterators_isolated 5 empty_heap ex_host ex_running 1 ltac:(vm_compute; split; congruence)
    ex_running_reachable) as (_ & _ & Hend).
  destruct (Hend (fst out) (snd out) eq_refl ex_close_settles (surjective_pairing _))
    as (s' & Hr & Ew & _ & _ & El & Hu).
  exists s'. exact (conj Hr (conj Ew (conj El Hu))).
Defined.

(** C24. Storing: below the limit the iterator goes to the end of its call's
    frame, under the ID that retrieves it, and no other frame changes; at the
    limit the store is refused and nothing changes. *)
Theorem store_then_retrieve {H : Type} (c limit : Z) (it : Iterator) (w : world H) :
  limit <= MaxInt32 ->
  (zlen (frame_of c w) < limit ->
   exists id w', storeIterator c it limit w = (Ret (id, None), w') /\
     id = zlen (frame_of c w) + 1 /\
     retrieveIterator c id w' = (Ret it, w') /\
     frame_of c w' = frame_of c w ++ [it] /\
     (forall d, d <> c -> iteratorFrames w' !! d = iteratorFrames w !! d)) /\
  (limit <= zlen (frame_of c w) ->
     storeIterator c it limit w = (Ret (0, Some (limit_error limit)), w)).
Proof.
  intros Hm. split; [|apply storeIterator_full]. intros Hl.
  eexists _, _. split; [by apply storeIterator_ok|]. split; [done|].
  assert (frame_of c (set_frames (<[c:=frame_of c w ++ [it]]> (iteratorFrames w)) w) =
    frame_of c w ++ [it]) as E.
  { unfold frame_of at 1. cbn [iteratorFrames set_frames]. by rewrite lookup_insert_eq. }
  split_and!; [|done|].
  - rewrite retrieveIterator_spec, E. pose proof (zlen_nonneg (frame_of c w)).
    rewrite (proj2 (Z.leb_le 1 _)), (proj2 (Z.leb_le _ MaxInt32)) by lia. cbn [andb].
    unfold lookup_id. rewrite Z.add_simpl_r. unfold zlen. rewrite Nat2Z.id.
    by rewrite lookup_app_r, Nat.sub_diag by lia.
  - intros d Hd. cbn [iteratorFrames set_frames]. by rewrite lookup_insert_ne.
Qed.
Lemma store_then_retrieve_witness :
  exists id w', storeIterator 3 (Some 9) 2 (mkWorld empty_heap {[3 := [Some 8]]} 3 tt) =
      (Ret (id, None), w') /\
    id = zlen (frame_of 3 (mkWorld empty_heap {[3 := [Some 8]]} 3 tt)) + 1 /\
    retrieveIterator 3 id w' = (Ret (Some 9), w') /\
    frame_of 3 w' = frame_of 3 (mkWorld empty_heap {[3 := [Some 8]]} 3 tt) ++ [Some 9] /\
    (forall d, d <> 3 -> iteratorFrames w' !! d =
       iteratorFrames (mkWorld empty_heap {[3 := [Some 8]]} 3 tt) !! d).
Proof.
  apply (store_then_retrieve 3 2 (Some 9) (mkWorld empty_heap {[3 := [Some 8]]} 3 tt));
    vm_compute; congruence.
Defined.

(** The conversions between indexes and IDs are inverse on the indexes
    below 2^31 - 1, and refuse everything else: ID 0, and IDs and indexes
    above the 32-bit range. *)
Theorem iterator_ids (id index : Z) :
  (0 <= index < MaxInt32 ->
     exists i, indexToIteratorID index = (i, true) /\ iteratorIdToIndex i = (index, true)) /\
  ((iteratorIdToIndex id).2 = true <-> 1 <= id <= MaxInt32) /\
  ((indexToIteratorID index).2 = true <-> 0 <= index <= MaxInt32).
Proof.
  split_and!.
  - intros Hi. exists (index + 1). rewrite index_id, id_index by lia. split; [done|]. f_equal. lia.
  - unfold iteratorIdToIndex. destruct (Z.ltb_spec id 1), (Z.ltb_spec MaxInt32 id); cbn; split; lia || done.
  - unfold indexToIteratorID.
    destruct (Z.ltb_spec index 0), (Z.ltb_spec MaxInt32 index); cbn; split; lia || done.
Qed.
Lemma iterator_ids_witness :
  exists i, indexToIteratorID 32767 = (i, true) /\ iteratorIdToIndex i = (32767, true).
Proof. apply (iterator_ids 0 32767). vm_compute. split; congruence. Defined.
