(* ===== verification/Callbacks.v ===== *)
(** * Callbacks from Rust into Go

    [internal/api/callbacks.go].  While a contract runs, Rust reaches the
    chain through these exported functions.  Their pointer arguments may be
    null; they report through a status code and write their results through
    pointers.  A panic of the host is caught at the boundary and becomes a
    status code.

    A callback runs over the state of the process ([World.world]) and the
    memory its out-pointers refer to ([outs]): [None] is a null pointer, so
    what was written before a panic stays written. *)

From S2P Require Import Prelude GoText Json JsonParse Codec Scalars Types Errors Queries Memory World Iterators.

(** [enum GoError] *)
Inductive GoError :=
| GoError_None | GoError_Panic | GoError_BadArgument | GoError_OutOfGas
| GoError_CannotSerialize | GoError_User | GoError_Other.

Record IteratorReference := mkIteratorReference { call_id : Z; iterator_id : Z }.

(** ** Tables of functions

    The C functions whose addresses Go puts into the tables, as the untyped
    pointers ([any_function_t]) they are stored as; [None] in a table is a
    null pointer.  [Vtables] says what calling one does. *)
Inductive any_function_t :=
| cGet_cgo | cSet_cgo | cDelete_cgo | cScan_cgo
| cNext_cgo | cNextKey_cgo | cNextValue_cgo
| cHumanizeAddress_cgo | cCanonicalizeAddress_cgo | cValidateAddress_cgo
| cQueryExternal_cgo.

Record DbVtable := mkDbVtable {
  read_db : option any_function_t;
  write_db : option any_function_t;
  remove_db : option any_function_t;
  scan_db : option any_function_t;
}.
Definition db_vtable : DbVtable :=
  mkDbVtable (Some cGet_cgo) (Some cSet_cgo) (Some cDelete_cgo) (Some cScan_cgo).

Record IteratorVtable := mkIteratorVtable {
  vt_next : option any_function_t;
  vt_next_key : option any_function_t;
  vt_next_value : option any_function_t;
}.
Definition iterator_vtable : IteratorVtable :=
  mkIteratorVtable (Some cNext_cgo) (Some cNextKey_cgo) (Some cNextValue_cgo).

Record GoApiVtable := mkGoApiVtable {
  humanize_address : option any_function_t;
  canonicalize_address : option any_function_t;
  validate_address : option any_function_t;
}.
Definition api_vtable : GoApiVtable :=
  mkGoApiVtable (Some cHumanizeAddress_cgo) (Some cCanonicalizeAddress_cgo)
    (Some cValidateAddress_cgo).

Record QuerierVtable := mkQuerierVtable { query_external : option any_function_t }.
Definition querier_vtable : QuerierVtable := mkQuerierVtable (Some cQueryExternal_cgo).

Record GoIter := mkGoIter {
  gi_gas_meter : option iface;
  gi_reference : IteratorReference;
  gi_vtable : IteratorVtable;
}.

(** What a [db_t] pointer refers to. *)
Record DBState := mkDBState { Store : iface; CallID : Z }.
(** [types.GoAPI]: three function values, any of which may be nil. *)
Record GoAPI := mkGoAPI {
  HumanizeAddress : iface; CanonicalizeAddress : iface; ValidateAddress : iface }.

Definition buildDBState (kv : iface) (callID : Z) : DBState := mkDBState kv callID.

(** What a contract call hands to Rust by value: pointers and a table. *)
Record Db := mkDb {
  db_gas_meter : option iface; db_state : option DBState; db_table : DbVtable }.
Definition buildDB (state : option DBState) (gm : option iface) : Db := mkDb gm state db_vtable.
Record GoApi := mkGoApi { ga_state : option GoAPI; ga_table : GoApiVtable }.
Definition buildAPI (api : option GoAPI) : GoApi := mkGoApi api api_vtable.
Record GoQuerier := mkGoQuerier { gq_state : option iface; gq_table : QuerierVtable }.
Definition buildQuerier (q : option iface) : GoQuerier := mkGoQuerier q querier_vtable.

(** The memory behind the out-pointers of one callback. *)
Record outs := mkOuts {
  o_gas : option Z;
  o_key : option UnmanagedVector;
  o_val : option UnmanagedVector;
  o_err : option UnmanagedVector;
  o_iter : option GoIter;
}.

Record cstate (H : Type) := mkCstate { cw : world H; co : outs }.
Arguments mkCstate {H} _ _.
Arguments cw {H} _.
Arguments co {H} _.

Definition frameLenLimit : Z := 32768.

Definition override_panic : panic_value :=
  string_panic "Got a non-none UnmanagedVector we're about to override. This is a bug because someone has to drop the old one.".
Definition nil_deref : panic_value :=
  runtime_panic "invalid memory address or nil pointer dereference".

Section Callbacks.
Context {H : Type} `{Host H} `{ErrorTexts}.
Abbreviation CM := (GoM (cstate H)).

(** A computation on the process alone. *)
Definition inw {A} (m : GoM (world H) A) : CM A := fun s =>
  let '(r, w) := m (cw s) in (r, mkCstate w (co s)).

(** Reading through a pointer, and writing through one. *)
Definition read_out (sel : outs -> option UnmanagedVector) : CM UnmanagedVector := fun s =>
  match sel (co s) with Some v => (Ret v, s) | None => (Panic nil_deref, s) end.
Definition write_gas (g : Z) : CM unit := fun s =>
  match o_gas (co s) with
  | Some _ =>
    (Ret tt, mkCstate (cw s) (mkOuts (Some g) (o_key (co s)) (o_val (co s)) (o_err (co s)) (o_iter (co s))))
  | None => (Panic nil_deref, s)
  end.
Definition write_key (v : UnmanagedVector) : CM unit := fun s =>
  match o_key (co s) with
  | Some _ =>
    (Ret tt, mkCstate (cw s) (mkOuts (o_gas (co s)) (Some v) (o_val (co s)) (o_err (co s)) (o_iter (co s))))
  | None => (Panic nil_deref, s)
  end.
Definition write_val (v : UnmanagedVector) : CM unit := fun s =>
  match o_val (co s) with
  | Some _ =>
    (Ret tt, mkCstate (cw s) (mkOuts (o_gas (co s)) (o_key (co s)) (Some v) (o_err (co s)) (o_iter (co s))))
  | None => (Panic nil_deref, s)
  end.
Definition write_err (v : UnmanagedVector) : CM unit := fun s =>
  match o_err (co s) with
  | Some _ =>
    (Ret tt, mkCstate (cw s) (mkOuts (o_gas (co s)) (o_key (co s)) (o_val (co s)) (Some v) (o_iter (co s))))
  | None => (Panic nil_deref, s)
  end.
Definition write_iter (i : GoIter) : CM unit := fun s =>
  match o_iter (co s) with
  | Some _ =>
    (Ret tt, mkCstate (cw s) (mkOuts (o_gas (co s)) (o_key (co s)) (o_val (co s)) (o_err (co s)) (Some i)))
  | None => (Panic nil_deref, s)
  end.

Definition new_vector (data : bytes) : CM UnmanagedVector := inw (on_heap (newUnmanagedVector data)).
Definition copy_view (v : U8SliceView) : CM bytes := inw (on_heap (copyU8Slice v)).
(** [*val = newUnmanagedVector(data)], and the same for the other pointers. *)
Definition assign_key (data : bytes) : CM unit := vec ← new_vector data; write_key vec.
Definition assign_val (data : bytes) : CM unit := vec ← new_vector data; write_val vec.
Definition assign_err (data : bytes) : CM unit := vec ← new_vector data; write_err vec.

(** The panic of a callback that would overwrite a vector. *)
Definition check_none (v : UnmanagedVector) : CM unit :=
  if negb (is_none v) then gpanic override_panic else mret tt.

(** [defer recoverPanic(&ret)]: the name of the type of the panic decides. *)
Definition recoverPanic (body : CM GoError) (s : cstate H) : GoError * cstate H :=
  match body s with
  | (Ret ret, s) => (ret, s)
  | (Panic rec, s) =>
    (if String.eqb (panic_type rec) "ErrorOutOfGas" then GoError_OutOfGas else GoError_Panic, s)
  end.

Definition buildIterator (callID : Z) (it : Iterator) :
    GoM (world H) (IteratorReference * option error) :=
  '(iteratorID, err) ← storeIterator callID it frameLenLimit;
  match err with
  | Some _ => mret (mkIteratorReference 0 0, err)
  | None => mret (mkIteratorReference callID iteratorID, None)
  end.

(** ** Storage *)

Definition cGet_body (ptr : option DBState) (gasMeter : option iface) (key : U8SliceView) :
    CM GoError := fun s =>
  match ptr, gasMeter, o_gas (co s), o_val (co s), o_err (co s) with
  | Some db, Some gm, Some _, Some val, Some _ =>
    (_ ← check_none val;
     let kv := Store db in
     k ← copy_view key;
     gasBefore ← inw (icall gm GasMeter_GasConsumed);
     v ← inw (icall kv (fun kv => KVStore_Get kv k));
     gasAfter ← inw (icall gm GasMeter_GasConsumed);
     _ ← write_gas (gasAfter -u gasBefore);
     _ ← assign_val v;
     mret GoError_None) s
  | _, _, _, _, _ => (Ret GoError_BadArgument, s)
  end.
Definition cGet ptr gasMeter key := recoverPanic (cGet_body ptr gasMeter key).

Definition cSet_body (ptr : option DBState) (gasMeter : option iface) (key val : U8SliceView) :
    CM GoError := fun s =>
  match ptr, gasMeter, o_gas (co s), o_err (co s) with
  | Some db, Some gm, Some _, Some _ =>
    (let kv := Store db in
     k ← copy_view key;
     v ← copy_view val;
     gasBefore ← inw (icall gm GasMeter_GasConsumed);
     _ ← inw (icall kv (fun kv => KVStore_Set kv k v));
     gasAfter ← inw (icall gm GasMeter_GasConsumed);
     _ ← write_gas (gasAfter -u gasBefore);
     mret GoError_None) s
  | _, _, _, _ => (Ret GoError_BadArgument, s)
  end.
Definition cSet ptr gasMeter key val := recoverPanic (cSet_body ptr gasMeter key val).

Definition cDelete_body (ptr : option DBState) (gasMeter : option iface) (key : U8SliceView) :
    CM GoError := fun s =>
  match ptr, gasMeter, o_gas (co s), o_err (co s) with
  | Some db, Some gm, Some _, Some _ =>
    (let kv := Store db in
     k ← copy_view key;
     gasBefore ← inw (icall gm GasMeter_GasConsumed);
     _ ← inw (icall kv (fun kv => KVStore_Delete kv k));
     gasAfter ← inw (icall gm GasMeter_GasConsumed);
     _ ← write_gas (gasAfter -u gasBefore);
     mret GoError_None) s
  | _, _, _, _ => (Ret GoError_BadArgument, s)
  end.
Definition cDelete ptr gasMeter key := recoverPanic (cDelete_body ptr gasMeter key).

Definition cScan_body (ptr : option DBState) (gasMeter : option iface) (start end_ : U8SliceView)
    (order : Z) : CM GoError := fun s =>
  match ptr, gasMeter, o_gas (co s), o_iter (co s), o_err (co s) with
  | Some state, Some gm, Some _, Some _, Some errOut =>
    (_ ← check_none errOut;
     let kv := Store state in
     a ← copy_view start;
     e ← copy_view end_;
     gasBefore ← inw (icall gm GasMeter_GasConsumed);
     if negb ((order =? 1) || (order =? 2)) then mret GoError_BadArgument
     else
       iter ← (if order =? 1 then inw (icall kv (fun kv => KVStore_Iterator kv a e))
               else inw (icall kv (fun kv => KVStore_ReverseIterator kv a e)));
       gasAfter ← inw (icall gm GasMeter_GasConsumed);
       _ ← write_gas (gasAfter -u gasBefore);
       '(iteratorRef, err) ← inw (buildIterator (CallID state) iter);
       match err with
       | Some err =>
         text ← glift (Error err);
         _ ← assign_err (Some text);
         mret GoError_User
       | None =>
         _ ← write_iter (mkGoIter gasMeter iteratorRef iterator_vtable);
         mret GoError_None
       end) s
  | _, _, _, _, _ => (Ret GoError_BadArgument, s)
  end.
Definition cScan ptr gasMeter start end_ order :=
  recoverPanic (cScan_body ptr gasMeter start end_ order).

(** ** Iterators *)

Definition retrieve_panic : panic_value := string_panic "Unable to retrieve iterator.".

Definition cNext_body (ref : IteratorReference) (gasMeter : option iface) : CM GoError := fun s =>
  match gasMeter, o_gas (co s), o_key (co s), o_val (co s), o_err (co s) with
  | Some gm, Some _, Some key, Some val, Some _ =>
    if call_id ref =? 0 then (Ret GoError_BadArgument, s)
    else
    (_ ← (if negb (is_none key) || negb (is_none val) then gpanic override_panic else mret tt);
     iter ← inw (retrieveIterator (call_id ref) (iterator_id ref));
     match iter with
     | None => gpanic retrieve_panic
     | Some it =>
       valid ← inw (Iterator_Valid it);
       if negb valid then mret GoError_None
       else
         gasBefore ← inw (icall gm GasMeter_GasConsumed);
         k ← inw (Iterator_Key it);
         v ← inw (Iterator_Value it);
         _ ← inw (Iterator_Next it);
         gasAfter ← inw (icall gm GasMeter_GasConsumed);
         _ ← write_gas (gasAfter -u gasBefore);
         _ ← assign_key k;
         _ ← assign_val v;
         mret GoError_None
     end) s
  | _, _, _, _, _ => (Ret GoError_BadArgument, s)
  end.
Definition cNext ref gasMeter := recoverPanic (cNext_body ref gasMeter).

(** The shared body of [cNextKey] and [cNextValue]; [valFn] is the part of
    the entry, and the one result goes to [o_val]. *)
Definition nextPart_body (ref : IteratorReference) (gasMeter : option iface)
    (valFn : Z -> GoM (world H) bytes) : CM GoError := fun s =>
  match gasMeter, o_gas (co s), o_val (co s), o_err (co s) with
  | Some gm, Some _, Some output, Some _ =>
    if call_id ref =? 0 then (Ret GoError_BadArgument, s)
    else
    (_ ← check_none output;
     iter ← inw (retrieveIterator (call_id ref) (iterator_id ref));
     match iter with
     | None => gpanic retrieve_panic
     | Some it =>
       valid ← inw (Iterator_Valid it);
       if negb valid then mret GoError_None
       else
         gasBefore ← inw (icall gm GasMeter_GasConsumed);
         out ← inw (valFn it);
         _ ← inw (Iterator_Next it);
         gasAfter ← inw (icall gm GasMeter_GasConsumed);
         _ ← write_gas (gasAfter -u gasBefore);
         _ ← assign_val out;
         mret GoError_None
     end) s
  | _, _, _, _ => (Ret GoError_BadArgument, s)
  end.
Definition nextPart ref gasMeter valFn := recoverPanic (nextPart_body ref gasMeter valFn).
Definition cNextKey ref gasMeter := nextPart ref gasMeter Iterator_Key.
Definition cNextValue ref gasMeter := nextPart ref gasMeter Iterator_Value.

(** Calling a function of the API through the pointer. *)
Definition api_call {A} (ptr : option GoAPI) (field : GoAPI -> iface) (f : Z -> GoM (world H) A) :
    GoM (world H) A :=
  match ptr with
  | None => gpanic nil_deref
  | Some api => icall (field api) f
  end.

(** ** Addresses

    The text of the panic on an empty address also shows the input; only the
    type of a panic can be observed.  These functions check only the pointers they are about to overwrite; a null [api]
    or [used_gas] pointer panics where it is used. *)

Definition cHumanizeAddress_body (ptr : option GoAPI) (src : U8SliceView) : CM GoError := fun s =>
  match o_val (co s), o_err (co s) with
  | Some dest, Some errOut =>
    (_ ← (if negb (is_none dest) || negb (is_none errOut) then gpanic override_panic else mret tt);
     a ← copy_view src;
     '(h, cost, err) ← inw (api_call ptr HumanizeAddress (fun f => GoAPI_HumanizeAddress f a));
     _ ← write_gas cost;
     match err with
     | Some err =>
       text ← glift (Error err);
       _ ← assign_err (Some text);
       mret GoError_User
     | None =>
       if slen h =? 0 then gpanic (string_panic "`api.HumanizeAddress()` returned an empty string")
       else
         _ ← assign_val (Some h);
         mret GoError_None
     end) s
  | _, _ => (Ret GoError_BadArgument, s)
  end.
Definition cHumanizeAddress ptr src := recoverPanic (cHumanizeAddress_body ptr src).

Definition cCanonicalizeAddress_body (ptr : option GoAPI) (src : U8SliceView) : CM GoError := fun s =>
  match o_val (co s), o_err (co s) with
  | Some dest, Some errOut =>
    (_ ← (if negb (is_none dest) || negb (is_none errOut) then gpanic override_panic else mret tt);
     a ← copy_view src;
     '(c, cost, err) ← inw (api_call ptr CanonicalizeAddress (fun f => GoAPI_CanonicalizeAddress f (string_of_bytes a)));
     _ ← write_gas cost;
     match err with
     | Some err =>
       text ← glift (Error err);
       _ ← assign_err (Some text);
       mret GoError_User
     | None =>
       if blen c =? 0
       then gpanic (string_panic "`api.CanonicalizeAddress()` returned an empty string")
       else
         _ ← assign_val c;
         mret GoError_None
     end) s
  | _, _ => (Ret GoError_BadArgument, s)
  end.
Definition cCanonicalizeAddress ptr src := recoverPanic (cCanonicalizeAddress_body ptr src).

Definition cValidateAddress_body (ptr : option GoAPI) (src : U8SliceView) : CM GoError := fun s =>
  match o_err (co s) with
  | Some errOut =>
    (_ ← check_none errOut;
     a ← copy_view src;
     '(cost, err) ← inw (api_call ptr ValidateAddress (fun f => GoAPI_ValidateAddress f (string_of_bytes a)));
     _ ← write_gas cost;
     match err with
     | Some err =>
       text ← glift (Error err);
       _ ← assign_err (Some text);
       mret GoError_User
     | None => mret GoError_None
     end) s
  | None => (Ret GoError_BadArgument, s)
  end.
Definition cValidateAddress ptr src := recoverPanic (cValidateAddress_body ptr src).

(** ** Queries

    Writing the result as JSON cannot fail: its type has no value the encoder
    refuses. *)

Definition cQueryExternal_body (ptr : option iface) (gasLimit : Z) (request : U8SliceView) :
    CM GoError := fun s =>
  match ptr, o_gas (co s), o_val (co s), o_err (co s) with
  | Some querier, Some _, Some result, Some errOut =>
    (_ ← (if negb (is_none result) || negb (is_none errOut) then gpanic override_panic else mret tt);
     req ← copy_view request;
     gasBefore ← inw (icall querier Querier_GasConsumed);
     res ← inw (RustQuery (fun q g => icall querier (fun o => Querier_Query o q g)) req gasLimit);
     gasAfter ← inw (icall querier Querier_GasConsumed);
     _ ← write_gas (gasAfter -u gasBefore);
     _ ← assign_val (Some (Marshal res));
     mret GoError_None) s
  | _, _, _, _ => (Ret GoError_BadArgument, s)
  end.
Definition cQueryExternal ptr gasLimit request :=
  recoverPanic (cQueryExternal_body ptr gasLimit request).

End Callbacks.

(** ** What callbacks change *)

Section Effects.
Context {H : Type} `{HostLaws H} `{ErrorTexts}.
Implicit Types s : cstate H.

(** All runs of a computation of a callback respect a relation on the
    process. *)
Definition crespects {A} (R : world H -> world H -> Prop) (m : GoM (cstate H) A) : Prop :=
  forall s r s', m s = (r, s') -> R (cw s) (cw s').

Section Combinators.
Context (R : world H -> world H -> Prop) `{!PreOrder R}.

Lemma crespects_ret {A} (a : A) : crespects R (mret a).
Proof. by intros s r s' [= <- <-]. Qed.
Lemma crespects_lift {A} (m : outcome A) : crespects R (glift m).
Proof. by intros s r s' [= <- <-]. Qed.
Lemma crespects_panic {A} p : crespects R (gpanic (A := A) p).
Proof. by intros s r s' [= <- <-]. Qed.
Lemma crespects_bind {A B} (m : GoM (cstate H) A) (k : A -> GoM (cstate H) B) :
  crespects R m -> (forall a, crespects R (k a)) -> crespects R (m ≫= k).
Proof.
  intros Hm Hk s r s' E. apply gbind_inv in E as [(a & s1 & E1 & E2)|(p & E & ->)].
  - transitivity (cw s1); [by eapply Hm|by eapply Hk].
  - by eapply Hm.
Qed.
Lemma crespects_inw {A} (m : GoM (world H) A) : respects R m -> crespects R (inw m).
Proof.
  intros Hm s r s' E. unfold inw in E. destruct (m (cw s)) as [r1 w1] eqn:E1.
  injection E as <- <-. by eapply Hm.
Qed.
Lemma crespects_write_gas g : crespects R (write_gas g).
Proof. intros s r s' E. unfold write_gas in E. case_match; by injection E as _ <-. Qed.
Lemma crespects_write_key v : crespects R (write_key v).
Proof. intros s r s' E. unfold write_key in E. case_match; by injection E as _ <-. Qed.
Lemma crespects_write_val v : crespects R (write_val v).
Proof. intros s r s' E. unfold write_val in E. case_match; by injection E as _ <-. Qed.
Lemma crespects_write_err v : crespects R (write_err v).
Proof. intros s r s' E. unfold write_err in E. case_match; by injection E as _ <-. Qed.
Lemma crespects_write_iter v : crespects R (write_iter v).
Proof. intros s r s' E. unfold write_iter in E. case_match; by injection E as _ <-. Qed.
End Combinators.

Lemma rely_api_call {A} ptr field (f : Z -> GoM (world H) A) :
  (forall o, respects rely (f o)) -> respects rely (api_call ptr field f).
Proof. intros Hf. unfold api_call. solve_respects. Qed.
Lemma rely_RustQuery querier req gasLimit :
  respects rely (RustQuery (fun q g => icall querier (fun o => Querier_Query o q g)) req gasLimit).
Proof. unfold RustQuery. solve_respects. Qed.
Lemma grows_buildIterator c it : respects (@grows H c) (buildIterator c it).
Proof. unfold buildIterator. solve_respects. Qed.

End Effects.
#[export] Hint Resolve rely_RustQuery grows_buildIterator : go.

Ltac solve_crespects :=
  repeat first
    [ apply crespects_ret; apply _
    | apply crespects_lift; apply _
    | apply crespects_panic; apply _
    | apply crespects_write_gas; apply _
    | apply crespects_write_key; apply _
    | apply crespects_write_val; apply _
    | apply crespects_write_err; apply _
    | apply crespects_write_iter; apply _
    | apply crespects_bind; [apply _ | | intros ?]
    | apply crespects_inw; solve
        [ solve_respects
        | apply respects_rely_keeps, rely_api_call; intros ?; solve_respects ]
    | progress unfold check_none, assign_key, assign_val, assign_err, new_vector, copy_view
    | match goal with
      | |- crespects _ (match ?x with _ => _ end) => destruct x
      | |- crespects _ (if ?b then _ else _) => destruct b
      end ].
Ltac solve_callback body :=
  let s := fresh "s" in let r := fresh "r" in let s' := fresh "s'" in let E := fresh "E" in
  intros s r s' E; unfold body in E;
  repeat match type of E with
         | match ?x with _ => _ end = _ => destruct x
         | (if ?x then _ else _) = _ => destruct x
         end;
  try (injection E as <- <-; reflexivity);
  match goal with
  | |- ?R (cw s) (cw s') =>
    match type of E with ?m _ = _ =>
      let C := fresh in cut (crespects R m); [intros C; exact (C _ _ _ E)|]
    end
  end; clear E; solve_crespects.

Section EffectLemmas.
Context {H : Type} `{HostLaws H} `{ErrorTexts}.

(** Only [cScan] adds to a frame, that of the call its database belongs to. *)
Lemma keeps_cGet ptr gm key : crespects (@keeps H) (cGet_body ptr gm key).
Proof. solve_callback @cGet_body. Qed.
Lemma keeps_cSet ptr gm key val : crespects (@keeps H) (cSet_body ptr gm key val).
Proof. solve_callback @cSet_body. Qed.
Lemma keeps_cDelete ptr gm key : crespects (@keeps H) (cDelete_body ptr gm key).
Proof. solve_callback @cDelete_body. Qed.
Lemma grows_cScan db gm a b order :
  crespects (@grows H (CallID db)) (cScan_body (Some db) gm a b order).
Proof. solve_callback @cScan_body. Qed.
Lemma keeps_cNext ref gm : crespects (@keeps H) (cNext_body ref gm).
Proof. solve_callback @cNext_body. Qed.
Lemma keeps_cNextKey ref gm :
  crespects (@keeps H) (nextPart_body ref gm Iterator_Key).
Proof. solve_callback @nextPart_body. Qed.
Lemma keeps_cNextValue ref gm :
  crespects (@keeps H) (nextPart_body ref gm Iterator_Value).
Proof. solve_callback @nextPart_body. Qed.
Lemma keeps_cHumanizeAddress ptr src : crespects (@keeps H) (cHumanizeAddress_body ptr src).
Proof. solve_callback @cHumanizeAddress_body. Qed.
Lemma keeps_cCanonicalizeAddress ptr src : crespects (@keeps H) (cCanonicalizeAddress_body ptr src).
Proof. solve_callback @cCanonicalizeAddress_body. Qed.
Lemma keeps_cValidateAddress ptr src : crespects (@keeps H) (cValidateAddress_body ptr src).
Proof. solve_callback @cValidateAddress_body. Qed.
Lemma keeps_cQueryExternal ptr gas req : crespects (@keeps H) (cQueryExternal_body ptr gas req).
Proof. solve_callback @cQueryExternal_body. Qed.

Lemma recoverPanic_inv (R : world H -> world H -> Prop) body s e s' :
  crespects R body -> recoverPanic body s = (e, s') -> R (cw s) (cw s').
Proof.
  intros Hb E. unfold recoverPanic in E. destruct (body s) as [r s1] eqn:Es.
  apply Hb in Es. destruct r; by injection E as _ <-.
Qed.
End EffectLemmas.

(** ** Ownership of the results

    While a callback runs, the live buffers are those that were there
    ([B]) and those of the vectors it has handed out so far: consuming these
    in turn leaves exactly [B]. *)

Definition slot (o : option UnmanagedVector) : UnmanagedVector :=
  match o with Some v => v | None => UnmanagedVector_default end.
Lemma slot_Some v : slot (Some v) = v.
Proof. reflexivity. Qed.

Record outs_own (B m : gmap Z string) (o : outs) (kd vd ed : bytes) : Prop := {
  oo_key : holds m (slot (o_key o)) kd;
  oo_val : holds (drop_vec (slot (o_key o)) m) (slot (o_val o)) vd;
  oo_err : holds (drop_vec (slot (o_val o)) (drop_vec (slot (o_key o)) m)) (slot (o_err o)) ed;
  oo_rest : drop_vec (slot (o_err o)) (drop_vec (slot (o_val o)) (drop_vec (slot (o_key o)) m)) = B;
}.

Section Ownership.
Context {H : Type} `{HostLaws H} `{ErrorTexts}.
Implicit Types s : cstate H.

Definition cinv (B : gmap Z string) s : Prop :=
  heap_wf (w_heap (cw s)) /\
  exists kd vd ed, outs_own B (blocks (w_heap (cw s))) (co s) kd vd ed.

(** Which of the vectors can be written: the pointer is not null and what it
    refers to has no data yet. *)
Record unset := Unset { u_key : bool; u_val : bool; u_err : bool }.
Definition nones (u : unset) (o : outs) : Prop :=
  (u_key u = true -> exists v, o_key o = Some v /\ is_none v = true) /\
  (u_val u = true -> exists v, o_val o = Some v /\ is_none v = true) /\
  (u_err u = true -> exists v, o_err o = Some v /\ is_none v = true).

Definition csafe {A} (u : unset) (m : GoM (cstate H) A) : Prop :=
  forall B s r s', cinv B s -> nones u (co s) -> m s = (r, s') -> cinv B s'.
Definition cstep {A} (u : unset) (m : GoM (cstate H) A) (u' : unset) : Prop :=
  csafe u m /\
  forall B s a s', cinv B s -> nones u (co s) -> m s = (Ret a, s') -> nones u' (co s').

Lemma csafe_bind {A B} u u' (m : GoM (cstate H) A) (k : A -> GoM (cstate H) B) :
  cstep u m u' -> (forall a, csafe u' (k a)) -> csafe u (m ≫= k).
Proof.
  intros [Hm Hn] Hk B0 s r s' Hi Hu E.
  apply gbind_inv in E as [(a & s1 & E1 & E2)|(p & E & ->)]; [|by eapply Hm].
  eapply Hk; [by eapply Hm|by eapply Hn|done].
Qed.
(** Computations that touch neither the pointers nor, in the end, the heap. *)
Lemma cstep_same {A} u (m : GoM (cstate H) A) :
  (forall s r s', m s = (r, s') -> co s' = co s /\ heap_same (w_heap (cw s)) (w_heap (cw s'))) ->
  cstep u m u.
Proof.
  intros Hm. split.
  - intros B s r s' [Hw (kd & vd & ed & Ho)] _ E. apply Hm in E as [Ec Hh].
    destruct (Hh Hw) as (Hw' & Hb). split; [done|]. exists kd, vd, ed. by rewrite Ec, Hb.
  - intros B s a s' _ Hu E. apply Hm in E as [-> _]. done.
Qed.
Lemma cstep_ret {A} u (a : A) : cstep u (mret a) u.
Proof. apply cstep_same. intros s r s' [= <- <-]. done. Qed.
Lemma cstep_lift {A} u (m : outcome A) : cstep u (glift m) u.
Proof. apply cstep_same. intros s r s' [= <- <-]. done. Qed.
Lemma cstep_panic {A} u p : cstep u (gpanic (A := A) p) u.
Proof. apply cstep_same. intros s r s' [= <- <-]. done. Qed.
Lemma cstep_rely {A} u (m : GoM (world H) A) : respects rely m -> cstep u (inw m) u.
Proof.
  intros Hm. apply cstep_same. intros s r s' E. unfold inw in E.
  destruct (m (cw s)) as [r1 w1] eqn:E1. injection E as <- <-. split; [done|].
  by apply Hm in E1 as [? _].
Qed.
Lemma cstep_copy u view : cstep u (copy_view view) u.
Proof.
  apply cstep_same. intros s r s' E. unfold copy_view, inw, on_heap in E.
  destruct (copyU8Slice view (w_heap (cw s))) as [r1 h1] eqn:E1. injection E as <- <-.
  apply copyU8Slice_same in E1 as ->. done.
Qed.
Lemma cstep_build u c it : cstep u (inw (buildIterator (H := H) c it)) u.
Proof.
  apply cstep_same. intros s r s' E. unfold inw in E.
  destruct (buildIterator c it (cw s)) as [r1 w1] eqn:E1. injection E as <- <-. split; [done|].
  unfold buildIterator in E1. apply gbind_inv in E1 as [([i e] & w2 & E2 & E3)|(p & E2 & _)].
  - apply storeIterator_heap in E2. destruct e; injection E3 as _ <-; cbn [cw]; by rewrite E2.
  - apply storeIterator_heap in E2. cbn [cw]. by rewrite E2.
Qed.
(** Writing a number or an iterator changes no vector. *)
Lemma cinv_outs B s o :
  cinv B s -> o_key o = o_key (co s) -> o_val o = o_val (co s) -> o_err o = o_err (co s) ->
  cinv B (mkCstate (cw s) o).
Proof.
  intros [Hw (kd & vd & ed & [])] E1 E2 E3. split; [done|]. exists kd, vd, ed.
  by split; cbn [co cw]; rewrite ?E1, ?E2, ?E3.
Qed.
Lemma cstep_write_gas u g : cstep u (write_gas g) u.
Proof.
  split; intros B s r s' Hi Hu E; unfold write_gas in E; case_match; simplify_eq; try done.
  by apply cinv_outs.
Qed.
Lemma cstep_write_iter u i : cstep u (write_iter i) u.
Proof.
  split; intros B s r s' Hi Hu E; unfold write_iter in E; case_match; simplify_eq; try done.
  by apply cinv_outs.
Qed.

Lemma holds_is_none m v d : holds m v d -> is_none v = true -> d = None /\ drop_vec v m = m.
Proof.
  intros Hd Hn. unfold drop_vec. rewrite Hn. split; [|done].
  destruct d as [d|]; [|done]. destruct Hd as [Hd _]. congruence.
Qed.

(** Assigning a new vector: the heap grows by its buffer. *)
Lemma new_vector_inv data s v s' B :
  cinv B s -> new_vector data s = (v, s') ->
  exists w vec, v = Ret vec /\ s' = mkCstate w (co s) /\ heap_wf (w_heap w) /\
    extends (blocks (w_heap (cw s))) vec data (blocks (w_heap w)).
Proof.
  intros [Hw _] E. unfold new_vector, inw, on_heap in E.
  destruct (newUnmanagedVector data (w_heap (cw s))) as [r h] eqn:En.
  destruct (newUnmanagedVector_returns data _ Hw) as (vec & h' & En'). rewrite En' in En.
  injection En as <- <-. injection E as <- <-. exists (set_heap h' (cw s)), vec.
  apply newUnmanagedVector_extends in En' as [? ?]; [|done]. done.
Qed.

Lemma cstep_assign_key u data :
  u_key u = true -> cstep u (assign_key data) (Unset false (u_val u) (u_err u)).
Proof.
  intros Hk. assert (forall B s r s', cinv B s -> nones u (co s) -> assign_key data s = (r, s') ->
    cinv B s' /\ nones (Unset false (u_val u) (u_err u)) (co s')) as Hall.
  2: { split; intros B s r s' Hi Hu E; by destruct (Hall _ _ _ _ Hi Hu E). }
  intros B s r s' Hi (Hnk & Hnv & Hne) E. destruct (Hnk Hk) as (v0 & E0 & Hn0).
  pose proof Hi as [_ (kd & vd & ed & [Ok Ov Oe Or])]. unfold assign_key in E.
  unfold mbind, GoM_bind in E. destruct (new_vector data s) as [rv s1] eqn:En.
  apply (new_vector_inv _ _ _ _ B) in En as (w & vec & -> & -> & Hw & Hx); [|done].
  unfold write_key in E. cbn [co cw] in E. rewrite E0 in *. injection E as <- <-.
  rewrite slot_Some in *.
  destruct (holds_is_none _ _ _ Ok Hn0) as [-> Ed]. rewrite Ed in *. destruct Hx as [Hh Hd].
  split; [|split_and!; cbn [u_key u_val u_err co o_key o_val o_err]; [done|exact Hnv|exact Hne]].
  split; [done|]. exists data, vd, ed.
  split; cbn [co cw o_key o_val o_err]; rewrite ?slot_Some, ?Hd; done.
Qed.
Lemma cstep_assign_val u data :
  u_val u = true -> cstep u (assign_val data) (Unset (u_key u) false (u_err u)).
Proof.
  intros Hk. assert (forall B s r s', cinv B s -> nones u (co s) -> assign_val data s = (r, s') ->
    cinv B s' /\ nones (Unset (u_key u) false (u_err u)) (co s')) as Hall.
  2: { split; intros B s r s' Hi Hu E; by destruct (Hall _ _ _ _ Hi Hu E). }
  intros B s r s' Hi (Hnk & Hnv & Hne) E. destruct (Hnv Hk) as (v0 & E0 & Hn0).
  pose proof Hi as [_ (kd & vd & ed & [Ok Ov Oe Or])]. unfold assign_val in E.
  unfold mbind, GoM_bind in E. destruct (new_vector data s) as [rv s1] eqn:En.
  apply (new_vector_inv _ _ _ _ B) in En as (w & vec & -> & -> & Hw & Hx); [|done].
  unfold write_val in E. cbn [co cw] in E. rewrite E0 in *. injection E as <- <-.
  rewrite slot_Some in *.
  destruct (holds_is_none _ _ _ Ov Hn0) as [-> Ed]. rewrite Ed in *.
  destruct (extends_drop _ _ _ _ _ _ Hx Ok) as [Hh Hd].
  split; [|split_and!; cbn [u_key u_val u_err co o_key o_val o_err]; [exact Hnk|done|exact Hne]].
  split; [done|]. exists kd, data, ed.
  split; cbn [co cw o_key o_val o_err]; rewrite ?slot_Some, ?Hd; try done.
  eapply holds_mono; [by eapply extends_sub|done].
Qed.
Lemma cstep_assign_err u data :
  u_err u = true -> cstep u (assign_err data) (Unset (u_key u) (u_val u) false).
Proof.
  intros Hk. assert (forall B s r s', cinv B s -> nones u (co s) -> assign_err data s = (r, s') ->
    cinv B s' /\ nones (Unset (u_key u) (u_val u) false) (co s')) as Hall.
  2: { split; intros B s r s' Hi Hu E; by destruct (Hall _ _ _ _ Hi Hu E). }
  intros B s r s' Hi (Hnk & Hnv & Hne) E. destruct (Hne Hk) as (v0 & E0 & Hn0).
  pose proof Hi as [_ (kd & vd & ed & [Ok Ov Oe Or])]. unfold assign_err in E.
  unfold mbind, GoM_bind in E. destruct (new_vector data s) as [rv s1] eqn:En.
  apply (new_vector_inv _ _ _ _ B) in En as (w & vec & -> & -> & Hw & Hx); [|done].
  unfold write_err in E. cbn [co cw] in E. rewrite E0 in *. injection E as <- <-.
  rewrite slot_Some in *.
  destruct (holds_is_none _ _ _ Oe Hn0) as [-> Ed]. rewrite Ed in *.
  pose proof (extends_drop _ _ _ _ _ _ Hx Ok) as Hx1.
  destruct (extends_drop _ _ _ _ _ _ Hx1 Ov) as [Hh Hd].
  split; [|split_and!; cbn [u_key u_val u_err co o_key o_val o_err]; [exact Hnk|exact Hnv|done]].
  split; [done|]. exists kd, vd, data.
  split; cbn [co cw o_key o_val o_err]; rewrite ?slot_Some, ?Hd; try done.
  - eapply holds_mono; [by eapply extends_sub|done].
  - eapply holds_mono; [by eapply extends_sub|done].
Qed.

Lemma csafe_of_step {A} u (m : GoM (cstate H) A) u' : cstep u m u' -> csafe u m.
Proof. by intros []. Qed.
Lemma cstep_if {A} u (b : bool) (m n : GoM (cstate H) A) u' :
  cstep u m u' -> cstep u n u' -> cstep u (if b then m else n) u'.
Proof. by destruct b. Qed.
End Ownership.

Ltac solve_cstep :=
  first
    [ apply cstep_ret | apply cstep_lift | apply cstep_panic | apply cstep_copy
    | apply cstep_build | apply cstep_write_gas | apply cstep_write_iter
    | apply cstep_assign_key; reflexivity
    | apply cstep_assign_val; reflexivity
    | apply cstep_assign_err; reflexivity
    | apply cstep_rely; solve
        [ solve_respects | apply rely_api_call; intros ?; solve_respects ]
    | apply cstep_if; solve_cstep ].
Ltac solve_csafe :=
  repeat first
    [ eapply csafe_bind; [solve_cstep|intros ?]
    | eapply csafe_of_step; solve_cstep
    | progress unfold check_none
    | match goal with
      | |- csafe _ (match ?x with _ => _ end) => destruct x
      | |- csafe _ (if ?b then _ else _) => destruct b
      end ].
Ltac callback_safe body :=
  let B := fresh "B" in let s := fresh "s" in let r := fresh "r" in let s' := fresh "s'" in
  let Hi := fresh "Hi" in let Hu := fresh "Hu" in let E := fresh "E" in
  intros B s r s' Hi Hu E; unfold body in E;
  repeat match type of E with
         | match ?x with _ => _ end = _ => destruct x
         | (if ?x then _ else _) = _ => destruct x
         end;
  try (injection E as <- <-; exact Hi);
  match type of Hu with nones ?u _ =>
    match type of E with ?m _ = _ =>
      let C := fresh in cut (csafe u m); [intros C; exact (C _ _ _ _ Hi Hu E)|]
    end
  end; clear Hi Hu E; solve_csafe.

(** Every callback keeps the ownership of its results in order, when it is
    entered with vectors that may be overwritten. *)
Section CallbacksSafe.
Context {H : Type} `{HostLaws H} `{ErrorTexts}.
Definition all_unset : unset := Unset true true true.

Lemma safe_cGet ptr gm key : csafe (H := H) all_unset (cGet_body ptr gm key).
Proof. callback_safe @cGet_body. Qed.
Lemma safe_cSet ptr gm key val : csafe (H := H) all_unset (cSet_body ptr gm key val).
Proof. callback_safe @cSet_body. Qed.
Lemma safe_cDelete ptr gm key : csafe (H := H) all_unset (cDelete_body ptr gm key).
Proof. callback_safe @cDelete_body. Qed.
Lemma safe_cScan ptr gm a b order : csafe (H := H) all_unset (cScan_body ptr gm a b order).
Proof. callback_safe @cScan_body. Qed.
Lemma safe_cNext ref gm : csafe (H := H) all_unset (cNext_body ref gm).
Proof. callback_safe @cNext_body. Qed.
Lemma safe_cNextKey ref gm :
  csafe (H := H) all_unset (nextPart_body ref gm Iterator_Key).
Proof. callback_safe @nextPart_body. Qed.
Lemma safe_cNextValue ref gm :
  csafe (H := H) all_unset (nextPart_body ref gm Iterator_Value).
Proof. callback_safe @nextPart_body. Qed.
Lemma safe_cHumanizeAddress ptr src : csafe (H := H) all_unset (cHumanizeAddress_body ptr src).
Proof. callback_safe @cHumanizeAddress_body. Qed.
Lemma safe_cCanonicalizeAddress ptr src :
  csafe (H := H) all_unset (cCanonicalizeAddress_body ptr src).
Proof. callback_safe @cCanonicalizeAddress_body. Qed.
Lemma safe_cValidateAddress ptr src : csafe (H := H) all_unset (cValidateAddress_body ptr src).
Proof. callback_safe @cValidateAddress_body. Qed.
Lemma safe_cQueryExternal ptr gas req : csafe (H := H) all_unset (cQueryExternal_body ptr gas req).
Proof. callback_safe @cQueryExternal_body. Qed.
End CallbacksSafe.

(** ** Properties *)

(** A pointer that is not null, and one to a vector that is already there. *)
Definition present {A} (p : option A) : bool := match p with Some _ => true | None => false end.
Definition occupied (p : option UnmanagedVector) : bool :=
  match p with Some v => negb (is_none v) | None => false end.
(** A view that cannot be copied is no lack of gas. *)
Lemma copy_view_panic {H : Type} (a : U8SliceView) (s s' : cstate H) p :
  copy_view a s = (Panic p, s') -> String.eqb (panic_type p) "ErrorOutOfGas" = false.
Proof.
  unfold copy_view, inw, on_heap, copyU8Slice, GoBytes, mbind, GoM_bind, load, mret, GoM_ret, gpanic.
  repeat case_match; intros; by simplify_eq.
Qed.
Lemma no_api {H A : Type} `{Host H} (b : bool) (src : U8SliceView) (field : GoAPI -> iface)
    (f : bytes -> Z -> GoM (world H) A) (k : A -> GoM (cstate H) GoError) (s : cstate H) :
  fst (recoverPanic (_ ← (if b then gpanic override_panic else mret tt);
    a ← copy_view src; r ← inw (api_call None field (f a)); k r) s) = GoError_Panic.
Proof.
  unfold recoverPanic. destruct b; [reflexivity|]. rewrite gbind_ret. unfold mbind, GoM_bind.
  destruct (copy_view src s) as [[d|p] s1] eqn:E; [reflexivity|].
  cbn. by rewrite (copy_view_panic _ _ _ _ E).
Qed.

(** C34. What the callbacks do with bad pointers.  One that is handed a null
    pointer among those it checks (or, for iterators, a zero call ID) reports
    a bad argument and has no effect at all; one that is handed all of them
    but would overwrite a vector panics before it reaches the host, and has
    no effect either.  The address functions do not check the pointer to the
    API: a null one is a panic. *)
Theorem callbacks_check_pointers {H : Type} `{Host H} `{ErrorTexts} (ptr : option DBState)
    (gm querier : option iface) (api : option GoAPI) (ref : IteratorReference) (a b : U8SliceView)
    (order gas_limit : Z) (w : world H) (gas : option Z) (key val err : option UnmanagedVector)
    (iter : option GoIter) :
  let s := mkCstate w (mkOuts gas key val err iter) in
  let bad := (GoError_BadArgument, s) in
  let panic := (GoError_Panic, s) in
  let store := present ptr && present gm && present gas && present err in
  let next := present gm && present gas && present val && present err && negb (call_id ref =? 0) in
  let address := present val && present err in
  let query := present querier && present gas && present val && present err in
  (* null pointers *)
  (store && present val = false -> cGet ptr gm a s = bad) /\
  (store = false -> cSet ptr gm a b s = bad /\ cDelete ptr gm a s = bad) /\
  (store && present iter = false -> cScan ptr gm a b order s = bad) /\
  (next && present key = false -> cNext ref gm s = bad) /\
  (next = false -> cNextKey ref gm s = bad /\ cNextValue ref gm s = bad) /\
  (address = false -> cHumanizeAddress api a s = bad /\ cCanonicalizeAddress api a s = bad) /\
  (present err = false -> cValidateAddress api a s = bad) /\
  (query = false -> cQueryExternal querier gas_limit a s = bad) /\
  (* vectors that are there already *)
  (store && occupied val = true -> cGet ptr gm a s = panic) /\
  (store && present iter && occupied err = true -> cScan ptr gm a b order s = panic) /\
  (next && present key && (occupied key || occupied val) = true -> cNext ref gm s = panic) /\
  (next && occupied val = true -> cNextKey ref gm s = panic /\ cNextValue ref gm s = panic) /\
  (address && (occupied val || occupied err) = true ->
     cHumanizeAddress api a s = panic /\ cCanonicalizeAddress api a s = panic) /\
  (occupied err = true -> cValidateAddress api a s = panic) /\
  (query && (occupied val || occupied err) = true -> cQueryExternal querier gas_limit a s = panic) /\
  (* no API *)
  (address = true -> api = None ->
     fst (cHumanizeAddress api a s) = GoError_Panic /\ fst (cCanonicalizeAddress api a s) = GoError_Panic) /\
  (present err = true -> api = None -> fst (cValidateAddress api a s) = GoError_Panic).
Proof.
  intros s bad panic store next address query. unfold store, next, address, query; clear store next address query.
  split_and!.
  - destruct ptr, gm, gas, val, err; try discriminate; reflexivity.
  - destruct ptr, gm, gas, err; try discriminate; by split.
  - destruct ptr, gm, gas, err, iter; try discriminate; reflexivity.
  - unfold cNext, recoverPanic, cNext_body. cbn [s co o_gas o_key o_val o_err].
    destruct gm, gas, val, err, key, (call_id ref =? 0); try discriminate; reflexivity.
  - unfold cNextKey, cNextValue, nextPart, recoverPanic, nextPart_body. cbn [s co o_gas o_val o_err].
    destruct gm, gas, val, err, (call_id ref =? 0); try discriminate; by split.
  - destruct val, err; try discriminate; by split.
  - destruct err; try discriminate; reflexivity.
  - destruct querier, gas, val, err; try discriminate; reflexivity.
  - destruct ptr, gm, gas, val, err; try discriminate. cbn [present occupied andb]. intros Ho.
    unfold cGet, recoverPanic, cGet_body, check_none. cbn [s co o_gas o_val o_err]. by rewrite Ho.
  - destruct ptr, gm, gas, iter, err; try discriminate. cbn [present occupied andb]. intros Ho.
    unfold cScan, recoverPanic, cScan_body, check_none. cbn [s co o_gas o_iter o_err]. by rewrite Ho.
  - unfold cNext, recoverPanic, cNext_body. cbn [s co o_gas o_key o_val o_err].
    destruct gm, gas, val, err, key, (call_id ref =? 0); try discriminate.
    cbn [present occupied andb negb]. intros Ho. by rewrite Ho.
  - unfold cNextKey, cNextValue, nextPart, recoverPanic, nextPart_body, check_none.
    cbn [s co o_gas o_val o_err]. destruct gm, gas, val, err, (call_id ref =? 0); try discriminate.
    cbn [present occupied andb negb]. intros Ho. by rewrite Ho.
  - destruct val, err; try discriminate. cbn [present occupied andb]. intros Ho.
    unfold cHumanizeAddress, cCanonicalizeAddress, recoverPanic, cHumanizeAddress_body,
      cCanonicalizeAddress_body. cbn [s co o_val o_err]. by rewrite Ho.
  - destruct err; try discriminate. cbn [occupied]. intros Ho.
    unfold cValidateAddress, recoverPanic, cValidateAddress_body, check_none. cbn [s co o_err]. by rewrite Ho.
  - destruct querier, gas, val, err; try discriminate. cbn [present occupied andb]. intros Ho.
    unfold cQueryExternal, recoverPanic, cQueryExternal_body. cbn [s co o_gas o_val o_err]. by rewrite Ho.
  - intros Hp ->. destruct val as [v|], err as [e|]; try discriminate.
    split; apply (no_api (negb (is_none v) || negb (is_none e))).
  - intros Hp ->. destruct err as [e|]; [|discriminate]. apply (no_api (negb (is_none e))).
Qed.
