(* ===== verification/Vtables.v ===== *)
(** * Calls through the tables of functions

    Rust reaches the callbacks through tables of untyped function pointers
    ([callbacks.go]) that lead to C functions ([callbacks_cgo.go]), each of
    which forwards its arguments to the Go function of its name.  The compiler
    checks none of this: the pointers are cast to [any_function_t].  Here are
    the signatures on the three sides, what a call through a pointer does, and
    the agreement between them. *)

From S2P Require Import Prelude GoText Json JsonParse Codec Scalars Types Errors Queries Memory World Iterators Callbacks.

(** ** Signatures *)

Inductive c_type :=
| T_db_t_ptr | T_gas_meter_t_ptr | T_api_t_ptr | T_querier_t_ptr
| T_uint64_t | T_uint64_t_ptr | T_int32_t
| T_U8SliceView | T_UnmanagedVector_ptr | T_GoIter_ptr
| T_IteratorReference | T_IteratorReference_ptr.
#[export] Instance c_type_eq : EqDecision c_type.
Proof. solve_decision. Defined.

(** The parameters of the C functions, as [callbacks_cgo.go] defines them. *)
Definition cgo_signature (f : any_function_t) : list c_type :=
  match f with
  | cGet_cgo =>
    [T_db_t_ptr; T_gas_meter_t_ptr; T_uint64_t_ptr; T_U8SliceView; T_UnmanagedVector_ptr; T_UnmanagedVector_ptr]
  | cSet_cgo =>
    [T_db_t_ptr; T_gas_meter_t_ptr; T_uint64_t_ptr; T_U8SliceView; T_U8SliceView; T_UnmanagedVector_ptr]
  | cDelete_cgo => [T_db_t_ptr; T_gas_meter_t_ptr; T_uint64_t_ptr; T_U8SliceView; T_UnmanagedVector_ptr]
  | cScan_cgo =>
    [T_db_t_ptr; T_gas_meter_t_ptr; T_uint64_t_ptr; T_U8SliceView; T_U8SliceView; T_int32_t;
     T_GoIter_ptr; T_UnmanagedVector_ptr]
  | cNext_cgo =>
    [T_IteratorReference_ptr; T_gas_meter_t_ptr; T_uint64_t_ptr; T_UnmanagedVector_ptr;
     T_UnmanagedVector_ptr; T_UnmanagedVector_ptr]
  | cNextKey_cgo | cNextValue_cgo =>
    [T_IteratorReference_ptr; T_gas_meter_t_ptr; T_uint64_t_ptr; T_UnmanagedVector_ptr; T_UnmanagedVector_ptr]
  | cHumanizeAddress_cgo | cCanonicalizeAddress_cgo =>
    [T_api_t_ptr; T_U8SliceView; T_UnmanagedVector_ptr; T_UnmanagedVector_ptr; T_uint64_t_ptr]
  | cValidateAddress_cgo => [T_api_t_ptr; T_U8SliceView; T_UnmanagedVector_ptr; T_uint64_t_ptr]
  | cQueryExternal_cgo =>
    [T_querier_t_ptr; T_uint64_t; T_uint64_t_ptr; T_U8SliceView; T_UnmanagedVector_ptr; T_UnmanagedVector_ptr]
  end.

(** The parameters of the Go function a C function forwards to. *)
Definition go_signature (f : any_function_t) : list c_type :=
  match f with
  | cNext_cgo =>
    [T_IteratorReference; T_gas_meter_t_ptr; T_uint64_t_ptr; T_UnmanagedVector_ptr;
     T_UnmanagedVector_ptr; T_UnmanagedVector_ptr]
  | cNextKey_cgo | cNextValue_cgo =>
    [T_IteratorReference; T_gas_meter_t_ptr; T_uint64_t_ptr; T_UnmanagedVector_ptr; T_UnmanagedVector_ptr]
  | cGet_cgo =>
    [T_db_t_ptr; T_gas_meter_t_ptr; T_uint64_t_ptr; T_U8SliceView; T_UnmanagedVector_ptr; T_UnmanagedVector_ptr]
  | cSet_cgo =>
    [T_db_t_ptr; T_gas_meter_t_ptr; T_uint64_t_ptr; T_U8SliceView; T_U8SliceView; T_UnmanagedVector_ptr]
  | cDelete_cgo => [T_db_t_ptr; T_gas_meter_t_ptr; T_uint64_t_ptr; T_U8SliceView; T_UnmanagedVector_ptr]
  | cScan_cgo =>
    [T_db_t_ptr; T_gas_meter_t_ptr; T_uint64_t_ptr; T_U8SliceView; T_U8SliceView; T_int32_t;
     T_GoIter_ptr; T_UnmanagedVector_ptr]
  | cHumanizeAddress_cgo | cCanonicalizeAddress_cgo =>
    [T_api_t_ptr; T_U8SliceView; T_UnmanagedVector_ptr; T_UnmanagedVector_ptr; T_uint64_t_ptr]
  | cValidateAddress_cgo => [T_api_t_ptr; T_U8SliceView; T_UnmanagedVector_ptr; T_uint64_t_ptr]
  | cQueryExternal_cgo =>
    [T_querier_t_ptr; T_uint64_t; T_uint64_t_ptr; T_U8SliceView; T_UnmanagedVector_ptr; T_UnmanagedVector_ptr]
  end.

(** The fields of the tables with the types Rust declares for them. *)
Definition DbVtable_fields (t : DbVtable) : list (option any_function_t * list c_type) :=
  [ (read_db t, [T_db_t_ptr; T_gas_meter_t_ptr; T_uint64_t_ptr; T_U8SliceView; T_UnmanagedVector_ptr;
                 T_UnmanagedVector_ptr]);
    (write_db t, [T_db_t_ptr; T_gas_meter_t_ptr; T_uint64_t_ptr; T_U8SliceView; T_U8SliceView;
                  T_UnmanagedVector_ptr]);
    (remove_db t, [T_db_t_ptr; T_gas_meter_t_ptr; T_uint64_t_ptr; T_U8SliceView; T_UnmanagedVector_ptr]);
    (scan_db t, [T_db_t_ptr; T_gas_meter_t_ptr; T_uint64_t_ptr; T_U8SliceView; T_U8SliceView; T_int32_t;
                 T_GoIter_ptr; T_UnmanagedVector_ptr]) ].
Definition IteratorVtable_fields (t : IteratorVtable) : list (option any_function_t * list c_type) :=
  [ (vt_next t, [T_IteratorReference; T_gas_meter_t_ptr; T_uint64_t_ptr; T_UnmanagedVector_ptr;
                 T_UnmanagedVector_ptr; T_UnmanagedVector_ptr]);
    (vt_next_key t, [T_IteratorReference; T_gas_meter_t_ptr; T_uint64_t_ptr; T_UnmanagedVector_ptr;
                     T_UnmanagedVector_ptr]);
    (vt_next_value t, [T_IteratorReference; T_gas_meter_t_ptr; T_uint64_t_ptr; T_UnmanagedVector_ptr;
                       T_UnmanagedVector_ptr]) ].
Definition GoApiVtable_fields (t : GoApiVtable) : list (option any_function_t * list c_type) :=
  [ (humanize_address t, [T_api_t_ptr; T_U8SliceView; T_UnmanagedVector_ptr; T_UnmanagedVector_ptr;
                          T_uint64_t_ptr]);
    (canonicalize_address t, [T_api_t_ptr; T_U8SliceView; T_UnmanagedVector_ptr; T_UnmanagedVector_ptr;
                              T_uint64_t_ptr]);
    (validate_address t, [T_api_t_ptr; T_U8SliceView; T_UnmanagedVector_ptr; T_uint64_t_ptr]) ].
Definition QuerierVtable_fields (t : QuerierVtable) : list (option any_function_t * list c_type) :=
  [ (query_external t, [T_querier_t_ptr; T_uint64_t; T_uint64_t_ptr; T_U8SliceView;
                        T_UnmanagedVector_ptr; T_UnmanagedVector_ptr]) ].

(** A field that is set to a function whose signature, on the given side, is
    the one Rust calls it with. *)
Definition field_agrees (side : any_function_t -> list c_type)
    (fld : option any_function_t * list c_type) : bool :=
  match fst fld with
  | Some f => bool_decide (side f = snd fld)
  | None => false
  end.

(** ** Calls

    The arguments of a call, by the field it goes through; the pointers to
    results are the [outs] of the callback. *)
Inductive c_args :=
| args_read (db : option DBState) (gas_meter : option iface) (key : U8SliceView)
| args_write (db : option DBState) (gas_meter : option iface) (key value : U8SliceView)
| args_remove (db : option DBState) (gas_meter : option iface) (key : U8SliceView)
| args_scan (db : option DBState) (gas_meter : option iface) (start end_ : U8SliceView) (order : Z)
| args_next (iterator : IteratorReference) (gas_meter : option iface)
| args_next_part (iterator : IteratorReference) (gas_meter : option iface)
| args_address (api : option GoAPI) (input : U8SliceView)
| args_validate (api : option GoAPI) (input : U8SliceView)
| args_query (querier : option iface) (gas_limit : Z) (request : U8SliceView).

(** The C functions: each forwards what it is called with.  Arguments the Go
    function does not take are undefined behaviour ([None]).  The iterator
    functions forward the reference as it was passed, although they declare
    it as a pointer. *)
Definition cgo_call {H : Type} `{Host H} `{ErrorTexts} (f : any_function_t) (a : c_args) :
    option (cstate H -> GoError * cstate H) :=
  match f, a with
  | cGet_cgo, args_read ptr gas_meter key => Some (cGet ptr gas_meter key)
  | cSet_cgo, args_write ptr gas_meter key val => Some (cSet ptr gas_meter key val)
  | cDelete_cgo, args_remove ptr gas_meter key => Some (cDelete ptr gas_meter key)
  | cScan_cgo, args_scan ptr gas_meter start end_ order => Some (cScan ptr gas_meter start end_ order)
  | cNext_cgo, args_next ref gas_meter => Some (cNext ref gas_meter)
  | cNextKey_cgo, args_next_part ref gas_meter => Some (cNextKey ref gas_meter)
  | cNextValue_cgo, args_next_part ref gas_meter => Some (cNextValue ref gas_meter)
  | cCanonicalizeAddress_cgo, args_address ptr src => Some (cCanonicalizeAddress ptr src)
  | cHumanizeAddress_cgo, args_address ptr src => Some (cHumanizeAddress ptr src)
  | cValidateAddress_cgo, args_validate ptr src => Some (cValidateAddress ptr src)
  | cQueryExternal_cgo, args_query ptr gas_limit request => Some (cQueryExternal ptr gas_limit request)
  | _, _ => None
  end.

(** The types of the arguments of a call, with those of its out-pointers. *)
Definition args_types (a : c_args) : list c_type :=
  match a with
  | args_read _ _ _ =>
    [T_db_t_ptr; T_gas_meter_t_ptr; T_uint64_t_ptr; T_U8SliceView; T_UnmanagedVector_ptr; T_UnmanagedVector_ptr]
  | args_write _ _ _ _ =>
    [T_db_t_ptr; T_gas_meter_t_ptr; T_uint64_t_ptr; T_U8SliceView; T_U8SliceView; T_UnmanagedVector_ptr]
  | args_remove _ _ _ => [T_db_t_ptr; T_gas_meter_t_ptr; T_uint64_t_ptr; T_U8SliceView; T_UnmanagedVector_ptr]
  | args_scan _ _ _ _ _ =>
    [T_db_t_ptr; T_gas_meter_t_ptr; T_uint64_t_ptr; T_U8SliceView; T_U8SliceView; T_int32_t;
     T_GoIter_ptr; T_UnmanagedVector_ptr]
  | args_next _ _ =>
    [T_IteratorReference; T_gas_meter_t_ptr; T_uint64_t_ptr; T_UnmanagedVector_ptr;
     T_UnmanagedVector_ptr; T_UnmanagedVector_ptr]
  | args_next_part _ _ =>
    [T_IteratorReference; T_gas_meter_t_ptr; T_uint64_t_ptr; T_UnmanagedVector_ptr; T_UnmanagedVector_ptr]
  | args_address _ _ =>
    [T_api_t_ptr; T_U8SliceView; T_UnmanagedVector_ptr; T_UnmanagedVector_ptr; T_uint64_t_ptr]
  | args_validate _ _ => [T_api_t_ptr; T_U8SliceView; T_UnmanagedVector_ptr; T_uint64_t_ptr]
  | args_query _ _ _ =>
    [T_querier_t_ptr; T_uint64_t; T_uint64_t_ptr; T_U8SliceView; T_UnmanagedVector_ptr; T_UnmanagedVector_ptr]
  end.

(** A call is defined exactly when its arguments have the types of the Go
    function behind the pointer. *)
Lemma cgo_call_typed {H : Type} `{Host H} `{ErrorTexts} f a :
  cgo_call (H := H) f a <> None <-> args_types a = go_signature f.
Proof. destruct f, a; cbn; split; first [discriminate | congruence | done]. Qed.

(** ** Properties *)

(** Every field of the four tables is set to the C function of its purpose:
    a call through it, with the arguments Rust passes there, is a call of the
    Go function of that name, and a call with the arguments of another field
    is undefined. *)
Theorem vtables_reach {H : Type} `{Host H} `{ErrorTexts} :
  let through (f : option any_function_t) a :=
    match f with Some f => cgo_call (H := H) f a | None => None end in
  (forall p g k, through (read_db db_vtable) (args_read p g k) = Some (cGet p g k)) /\
  (forall p g k v, through (write_db db_vtable) (args_write p g k v) = Some (cSet p g k v)) /\
  (forall p g k, through (remove_db db_vtable) (args_remove p g k) = Some (cDelete p g k)) /\
  (forall p g a b o, through (scan_db db_vtable) (args_scan p g a b o) = Some (cScan p g a b o)) /\
  (forall r g, through (vt_next iterator_vtable) (args_next r g) = Some (cNext r g)) /\
  (forall r g, through (vt_next_key iterator_vtable) (args_next_part r g) = Some (cNextKey r g)) /\
  (forall r g, through (vt_next_value iterator_vtable) (args_next_part r g) = Some (cNextValue r g)) /\
  (forall p x, through (humanize_address api_vtable) (args_address p x) = Some (cHumanizeAddress p x)) /\
  (forall p x, through (canonicalize_address api_vtable) (args_address p x) =
     Some (cCanonicalizeAddress p x)) /\
  (forall p x, through (validate_address api_vtable) (args_validate p x) = Some (cValidateAddress p x)) /\
  (forall q g x, through (query_external querier_vtable) (args_query q g x) =
     Some (cQueryExternal q g x)) /\
  (forall f a, cgo_call (H := H) f a <> None -> args_types a = go_signature f).
Proof. cbv zeta. split_and!; try reflexivity. intros f a. apply cgo_call_typed. Qed.

(** The signatures on the three sides agree with those Rust declares, but for
    the C functions of the iterators: these are declared with a pointer to
    the reference that both sides pass by value. *)
Theorem vtables_typed :
  let fields := DbVtable_fields db_vtable ++ IteratorVtable_fields iterator_vtable ++
    GoApiVtable_fields api_vtable ++ QuerierVtable_fields querier_vtable in
  forallb (field_agrees go_signature) fields = true /\
  map (field_agrees cgo_signature) fields =
    [true; true; true; true; false; false; false; true; true; true; true].
Proof. split; reflexivity. Qed.
