(* ===== verification/Backend.v ===== *)
(** * The Rust side of the callbacks

    How [libwasmvm] uses the callbacks while a contract runs
    ([libwasmvm/src/storage.rs], [iterator.rs], [api.rs], [querier.rs] and the
    conversion of status codes in [error/go.rs]): it lends the arguments as
    views, hands in empty vectors for the results, consumes every one of them
    whatever the outcome, turns them into the result of the method, and keeps
    the iterators of the call in a table of its own.  The callbacks are
    reached through the tables of functions the call was given ([Vtables]).

    The virtual machine itself is not part of the repository.  A run of a
    contract is any finite tree of requests and of what to do with each
    answer ([vm_prog]); the theorems hold for all of them. *)

From S2P Require Import Prelude GoText RustText Json JsonParse Codec Scalars Types Errors Queries Memory MemDB World Mocks Iterators Callbacks Vtables.

(** ** Results

    What [cosmwasm-vm] calls a [BackendResult]: an error or a result, and the
    gas, spent in the call ([cost]) or metered outside ([externally_used]). *)
Inductive BackendError :=
| foreign_panic | bad_argument | out_of_gas
| user_err (msg : string) | unknown (msg : string)
| invalid_utf8 | iterator_does_not_exist (id : Z).

Record GasInfo := mkGasInfo { cost : Z; externally_used : Z }.
Definition with_cost (amount : Z) : GasInfo := mkGasInfo amount 0.
Definition with_externally_used (amount : Z) : GasInfo := mkGasInfo 0 amount.
Definition gas_free : GasInfo := mkGasInfo 0 0.

(** The values of the methods: nothing, [Option<Vec<u8>>], [Vec<u8>] or
    [String], an optional record, the ID of an iterator, and the two-level
    result of a query.  [SystemResult<ContractResult<Binary>>] has the JSON of
    [types.QuerierResult], and is represented by that type. *)
Inductive answer :=
| Done
| Found (data : option string)
| Data (data : string)
| NextRecord (r : option (string * string))
| IteratorId (id : Z)
| Queried (r : QuerierResult).

Record reply := mkReply { rp_result : BackendError + answer; rp_gas : GasInfo }.

Definition MAX_ERROR_LEN : nat := Z.to_nat 8192.

(** [GoError::into_result], with the error message that was taken from its
    vector. *)
Definition build_error_msg (error_msg : option string) (default_error_msg : string) : string :=
  match error_msg with
  | Some data => from_utf8_lossy (stake MAX_ERROR_LEN data)
  | None => default_error_msg
  end.
Definition into_result (code : GoError) (error_msg : option string) (default_error_msg : string) :
    option BackendError :=
  match code with
  | GoError_None => None
  | GoError_Panic => Some foreign_panic
  | GoError_BadArgument => Some bad_argument
  | GoError_OutOfGas => Some out_of_gas
  | GoError_User => Some (user_err (build_error_msg error_msg default_error_msg))
  | GoError_CannotSerialize | GoError_Other =>
    Some (unknown (build_error_msg error_msg default_error_msg))
  end.

(** [serde_json::from_slice] for the result of a query: the text of an error,
    or the result. *)
Class SerdeJson := { serde_from_slice : string -> string + QuerierResult }.

(** What a contract can ask for. *)
Inductive request :=
| RGet (key : string)
| RSet (key value : string)
| RRemove (key : string)
| RScan (start end_ : bytes) (order : Z)
| RNext (id : Z)
| RNextKey (id : Z)
| RNextValue (id : Z)
| RHumanize (canonical : string)
| RCanonicalize (human : string)
| RValidate (human : string)
| RQuery (request : string) (gas_limit : Z).

(** [into_backend]: what a contract call hands to the VM. *)
Record backend := mkBackend { be_db : Db; be_api : GoApi; be_querier : GoQuerier }.
(** The one Go builds. *)
Definition go_backend (state : DBState) (gm : option iface) (api : option GoAPI)
    (querier : option iface) : backend :=
  mkBackend (buildDB (Some state) gm) (buildAPI api) (buildQuerier querier).

Section Backend.
Context {H : Type} `{Host H} `{ErrorTexts} `{SerdeJson}.
Abbreviation WM := (GoM (world H)).

(** [U8SliceView::new(Some(data))] for the time of a call. *)
Definition with_view {A} (data : bytes) (f : U8SliceView -> WM A) : WM A :=
  match data with
  | None => f (U8SliceView_new None)
  | Some d =>
    p ← on_heap (alloc d);
    r ← f (U8SliceView_new (Some (p, d)));
    _ ← on_heap (dealloc p);
    mret r
  end.

(** [GoIter::stub] *)
Definition GoIter_stub : GoIter :=
  mkGoIter None (mkIteratorReference 0 0) (mkIteratorVtable None None None).

(** The memory for the results, as it is handed in. *)
Definition fresh_outs : outs :=
  mkOuts (Some 0) (Some UnmanagedVector_default) (Some UnmanagedVector_default)
    (Some UnmanagedVector_default) (Some GoIter_stub).

Definition take (v : UnmanagedVector) : WM (option string) :=
  r ← on_heap (UnmanagedVector_consume v); mret (option_map vec_data r).

(** What a callback has left in that memory, taken out of its vectors. *)
Record go_result := mkGoResult {
  gr_code : GoError;
  gr_key : option string;
  gr_output : option string;
  gr_error_msg : option string;
  gr_used_gas : Z;
  gr_iter : GoIter;
}.
Definition go_call (cb : cstate H -> GoError * cstate H) : WM go_result := fun w =>
  let '(code, s) := cb (mkCstate w fresh_outs) in
  (key ← take (slot (o_key (co s)));
   output ← take (slot (o_val (co s)));
   error_msg ← take (slot (o_err (co s)));
   mret (mkGoResult code key output error_msg (default 0 (o_gas (co s)))
           (default GoIter_stub (o_iter (co s))))) (cw s).

(** A Rust panic: [expect] on a null pointer, and calling a function with
    arguments it does not take, which C leaves undefined. *)
Definition expect (f : option any_function_t) (msg : string) : WM any_function_t :=
  match f with
  | Some f => mret f
  | None => gpanic (string_panic msg)
  end.
Definition call_through (f : any_function_t) (a : c_args) : WM go_result :=
  match cgo_call f a with
  | Some cb => go_call cb
  | None => gpanic (string_panic "undefined behaviour")
  end.

(** The end of a method: the error of the callback, or the result. *)
Definition method_reply (r : go_result) (gas : GasInfo) (default_msg : string)
    (ok : BackendError + answer) : reply :=
  mkReply (match into_result (gr_code r) (gr_error_msg r) default_msg with
           | Some err => inl err
           | None => ok
           end) gas.

(** ** [GoStorage] *)

Definition storage_get (db : Db) (key : string) : WM reply :=
  read_db ← expect (read_db (db_table db)) "vtable function 'read_db' not set";
  r ← with_view (Some key) (fun k => call_through read_db (args_read (db_state db) (db_gas_meter db) k));
  mret (method_reply r (with_externally_used (gr_used_gas r))
    ("Failed to read a key in the db: " +:+ from_utf8_lossy key)
    (inr (Found (gr_output r)))).

Definition storage_scan (db : Db) (iterators : list GoIter) (start end_ : bytes) (order : Z) :
    WM (reply * list GoIter) :=
  scan_db ← expect (scan_db (db_table db)) "vtable function 'scan_db' not set";
  r ← with_view start (fun s => with_view end_ (fun e =>
    call_through scan_db (args_scan (db_state db) (db_gas_meter db) s e order)));
  let gas_info := with_externally_used (gr_used_gas r) in
  let default_msg := "Failed to read the next key between " +:+
    rust_debug (option_map from_utf8_lossy start) +:+ " and " +:+
    rust_debug (option_map from_utf8_lossy end_) in
  match into_result (gr_code r) (gr_error_msg r) default_msg with
  | Some err => mret (mkReply (inl err) gas_info, iterators)
  | None =>
    let next_id := zlen iterators in
    if next_id <? two32
    then mret (mkReply (inr (IteratorId next_id)) gas_info, iterators ++ [gr_iter r])
    else gpanic (string_panic "Iterator count exceeded uint32 range. This is a bug.")
  end.

Definition storage_set (db : Db) (key value : string) : WM reply :=
  write_db ← expect (write_db (db_table db)) "vtable function 'write_db' not set";
  r ← with_view (Some key) (fun k => with_view (Some value) (fun v =>
    call_through write_db (args_write (db_state db) (db_gas_meter db) k v)));
  mret (method_reply r (with_externally_used (gr_used_gas r))
    ("Failed to set a key in the db: " +:+ from_utf8_lossy key) (inr Done)).

Definition storage_remove (db : Db) (key : string) : WM reply :=
  remove_db ← expect (remove_db (db_table db)) "vtable function 'remove_db' not set";
  r ← with_view (Some key) (fun k => call_through remove_db (args_remove (db_state db) (db_gas_meter db) k));
  mret (method_reply r (with_externally_used (gr_used_gas r))
    ("Failed to delete a key in the db: " +:+ from_utf8_lossy key) (inr Done)).

(** [GoIter::next]: the end is a missing key; a key without a value is an
    error. *)
Definition next_record (r : go_result) : BackendError + answer :=
  match gr_key r with
  | Some key =>
    match gr_output r with
    | Some value => inr (NextRecord (Some (key, value)))
    | None => inl (unknown "Failed to read value while reading the next key in the db")
    end
  | None => inr (NextRecord None)
  end.
Definition next_default_msg : string := "Failed to fetch next item from iterator".
Definition iter_next (it : GoIter) : WM reply :=
  next ← expect (vt_next (gi_vtable it)) "iterator vtable function 'next' not set";
  r ← call_through next (args_next (gi_reference it) (gi_gas_meter it));
  mret (method_reply r (with_externally_used (gr_used_gas r)) next_default_msg (next_record r)).
Definition next_key_or_val (it : GoIter) (next : any_function_t) : WM reply :=
  r ← call_through next (args_next_part (gi_reference it) (gi_gas_meter it));
  mret (method_reply r (with_externally_used (gr_used_gas r)) next_default_msg (inr (Found (gr_output r)))).
Definition iter_next_key (it : GoIter) : WM reply :=
  next_key ← expect (vt_next_key (gi_vtable it)) "iterator vtable function 'next_key' not set";
  next_key_or_val it next_key.
Definition iter_next_value (it : GoIter) : WM reply :=
  next_value ← expect (vt_next_value (gi_vtable it)) "iterator vtable function 'next_value' not set";
  next_key_or_val it next_value.

(** The three methods of the storage on an iterator of its table. *)
Definition storage_iterator (iterators : list GoIter) (id : Z) (method : GoIter -> WM reply) : WM reply :=
  match iterators !! Z.to_nat id with
  | None => mret (mkReply (inl (iterator_does_not_exist id)) gas_free)
  | Some it => method it
  end.

(** ** [GoApi] *)

Definition unset_output : BackendError := unknown "Unset output".
Definition addr_canonicalize (api : GoApi) (human : string) : WM reply :=
  canonicalize ← expect (canonicalize_address (ga_table api))
    "vtable function 'canonicalize_address' not set";
  r ← with_view (Some human) (fun v => call_through canonicalize (args_address (ga_state api) v));
  mret (method_reply r (with_cost (gr_used_gas r)) ("Failed to canonicalize the address: " +:+ human)
    (match gr_output r with Some d => inr (Data d) | None => inl unset_output end)).
Definition addr_humanize (api : GoApi) (canonical : string) : WM reply :=
  humanize ← expect (humanize_address (ga_table api)) "vtable function 'humanize_address' not set";
  r ← with_view (Some canonical) (fun v => call_through humanize (args_address (ga_state api) v));
  mret (method_reply r (with_cost (gr_used_gas r))
    ("Failed to humanize the address: " +:+ Hex.encode_upper canonical)
    (match gr_output r with
     | Some d => match from_utf8 d with Some h => inr (Data h) | None => inl invalid_utf8 end
     | None => inl unset_output
     end)).
Definition addr_validate (api : GoApi) (input : string) : WM reply :=
  validate ← expect (validate_address (ga_table api)) "vtable function 'validate_address' not set";
  r ← with_view (Some input) (fun v => call_through validate (args_validate (ga_state api) v));
  mret (method_reply r (with_cost (gr_used_gas r)) ("Failed to validate the address: " +:+ input) (inr Done)).

(** ** [GoQuerier]

    An answer that cannot be read is a result too: the system error that says
    so. *)
Definition invalid_response (e : string) (bin_result : string) : QuerierResult :=
  mkQuerierResult None (Some (mkSystemError None
    (Some (mkInvalidResponse ("Parsing Go response: " +:+ e) (Some bin_result))) None None None None)).
Definition read_sys_result (bin_result : string) : QuerierResult :=
  match serde_from_slice bin_result with
  | inr r => r
  | inl e => invalid_response e bin_result
  end.
Definition query_raw (querier : GoQuerier) (request : string) (gas_limit : Z) : WM reply :=
  query ← expect (query_external (gq_table querier)) "vtable function 'query_external' not set";
  r ← with_view (Some request) (fun v => call_through query (args_query (gq_state querier) gas_limit v));
  mret (method_reply r (with_externally_used (gr_used_gas r))
    ("Failed to query another contract with this request: " +:+ from_utf8_lossy request)
    (inr (Queried (read_sys_result (default EmptyString (gr_output r)))))).

(** A request, with the table of iterators before and after. *)
Definition perform (b : backend) (iters : list GoIter) (q : request) : WM (reply * list GoIter) :=
  let simple (m : WM reply) : WM (reply * list GoIter) := r ← m; mret (r, iters) in
  match q with
  | RGet key => simple (storage_get (be_db b) key)
  | RSet key value => simple (storage_set (be_db b) key value)
  | RRemove key => simple (storage_remove (be_db b) key)
  | RScan start end_ order => storage_scan (be_db b) iters start end_ order
  | RNext id => simple (storage_iterator iters id iter_next)
  | RNextKey id => simple (storage_iterator iters id iter_next_key)
  | RNextValue id => simple (storage_iterator iters id iter_next_value)
  | RHumanize a => simple (addr_humanize (be_api b) a)
  | RCanonicalize a => simple (addr_canonicalize (be_api b) a)
  | RValidate a => simple (addr_validate (be_api b) a)
  | RQuery req gas => simple (query_raw (be_querier b) req gas)
  end.

End Backend.

(** ** Runs *)

Inductive vm_prog (R : Type) : Type :=
| VDone (r : R)
| VCall (q : request) (k : reply -> vm_prog R).
Arguments VDone {R} _.
Arguments VCall {R} _ _.

Fixpoint run {H R} `{Host H} `{ErrorTexts} `{SerdeJson} (b : backend) (iters : list GoIter) (p : vm_prog R) :
    GoM (world H) R :=
  match p with
  | VDone r => mret r
  | VCall q k =>
    '(rep, iters) ← perform b iters q;
    run b iters (k rep)
  end.

(** [catch_unwind]: a panic in a run of a contract is [None]. *)
Definition catch_unwind {H A} (m : GoM (world H) A) : GoM (world H) (option A) := fun w =>
  match m w with
  | (Ret a, w) => (Ret (Some a), w)
  | (Panic _, w) => (Ret None, w)
  end.

(** ** What a run changes *)

Section BackendLemmas.
Context {H : Type} `{HostLaws H} `{ErrorTexts} `{SerdeJson}.
Implicit Types w : world H.

Lemma heap_wf_delete h p : heap_wf h -> heap_wf (mkHeap (delete p (blocks h)) (next h)).
Proof.
  intros [Hn Hb]. split; [done|]. intros q d. cbn [blocks next].
  rewrite lookup_delete_Some. intros [_ Hq]. by eapply Hb.
Qed.
Lemma heap_wf_without v h : heap_wf h -> heap_wf (without v h).
Proof. intros Hh. unfold without. case_match; [done|by apply heap_wf_delete]. Qed.

Lemma take_spec v d w :
  holds (blocks (w_heap w)) v d ->
  take v w = (Ret d, set_heap (without v (w_heap w)) w).
Proof.
  intros Hd. destruct (consume_spec v d (w_heap w) Hd) as (r & E & <-).
  unfold take, mbind, GoM_bind, on_heap. by rewrite E.
Qed.

(** Computations that return, and leave the buffers as they found them. *)
Definition clean {A} (m : GoM (world H) A) : Prop :=
  forall w r w', m w = (r, w') -> heap_wf (w_heap w) ->
    heap_wf (w_heap w') /\ blocks (w_heap w') = blocks (w_heap w) /\ no_panic r.

Lemma clean_ret {A} (a : A) : clean (mret a).
Proof. intros w r w' [= <- <-] Hw. split_and!; [done..|by exists a]. Qed.
Lemma clean_bind_ret {A B} (a : A) (k : A -> GoM (world H) B) : clean (k a) -> clean (mret a ≫= k).
Proof. done. Qed.
Lemma clean_bind {A B} (m : GoM (world H) A) (k : A -> GoM (world H) B) :
  clean m -> (forall a, clean (k a)) -> clean (m ≫= k).
Proof.
  intros Hm Hk w r w' E Hw. apply gbind_inv in E as [(a & w1 & E1 & E2)|(p & E & ->)].
  - destruct (Hm _ _ _ E1 Hw) as (Hw1 & Hb1 & _).
    destruct (Hk _ _ _ _ E2 Hw1) as (Hw2 & Hb2 & Hr). split_and!; [done|congruence|done].
  - destruct (Hm _ _ _ E Hw) as (_ & _ & [a [=]]).
Qed.

(** A callback that owns its results leaves, after the clean-up, the buffers
    that were there. *)
Lemma go_call_clean body : csafe all_unset body -> clean (go_call (recoverPanic body)).
Proof.
  intros Hs w r w' E Hw. unfold go_call in E.
  destruct (recoverPanic body (mkCstate w fresh_outs)) as [code s] eqn:Er.
  assert (cinv (blocks (w_heap w)) s) as [Hws (kd & vd & ed & [Hk Hv He Hr])].
  { unfold recoverPanic in Er. destruct (body (mkCstate w fresh_outs)) as [r1 s1] eqn:Eb.
    assert (s1 = s) as -> by (destruct r1; by injection Er as _ <-).
    refine (Hs _ _ _ _ _ _ Eb); [|split_and!; intros _; eexists; split; reflexivity].
    split; [done|]. by exists None, None, None. }
  erewrite gbind_eq in E by (by apply take_spec).
  erewrite gbind_eq in E by (apply take_spec; cbn [w_heap set_heap]; rewrite blocks_without; done).
  erewrite gbind_eq in E by (apply take_spec; cbn [w_heap set_heap]; rewrite !blocks_without; done).
  injection E as <- <-. cbn [w_heap set_heap].
  split_and!; [by repeat apply heap_wf_without|by rewrite !blocks_without|by eexists].
Qed.

Lemma with_view_clean {A} data (f : U8SliceView -> GoM (world H) A) :
  (forall v, clean (f v)) -> clean (with_view data f).
Proof.
  intros Hf w r w' E Hw. destruct data as [d|]; [|by eapply Hf]. cbn [with_view] in E.
  erewrite gbind_eq in E by reflexivity. cbn [w_heap] in E.
  set (h1 := mkHeap (<[next (w_heap w) := d]> (blocks (w_heap w))) (next (w_heap w) + 1)) in E.
  apply gbind_inv in E as [(a & w1 & E1 & E2)|(p & E & ->)].
  2: { destruct (Hf _ _ _ _ E (alloc_wf _ _ Hw)) as (_ & _ & [a [=]]). }
  destruct (Hf _ _ _ _ E1 (alloc_wf _ _ Hw)) as (Hw1 & Hb1 & _).
  cbn [w_heap set_heap blocks h1] in Hb1.
  assert (on_heap (dealloc (next (w_heap w))) w1 =
    (Ret tt, set_heap (mkHeap (delete (next (w_heap w)) (blocks (w_heap w1))) (next (w_heap w1))) w1)) as Ed.
  { unfold on_heap, dealloc. by rewrite Hb1, lookup_insert_eq. }
  rewrite (gbind_eq _ _ _ _ _ Ed) in E2. injection E2 as <- <-. cbn [w_heap set_heap blocks].
  split_and!; [by apply heap_wf_delete| |by eexists].
  rewrite Hb1. by apply delete_insert_id, alloc_fresh.
Qed.

Lemma go_call_keeps (R : world H -> world H -> Prop) `{!PreOrder R} body :
  (forall A (m : GoM heap A), respects R (on_heap m)) ->
  crespects R body -> respects R (go_call (recoverPanic body)).
Proof.
  intros Hheap Hb w r w' E. unfold go_call in E.
  destruct (recoverPanic body (mkCstate w fresh_outs)) as [code s] eqn:Er.
  apply (recoverPanic_inv R) in Er; [|done]. cbn [cw] in Er. transitivity (cw s); [done|].
  revert E. generalize (cw s). clear Er. intros w0 E.
  revert E. unfold take.
  match goal with |- ?m w0 = _ -> _ => enough (respects R m) as Hm by (intros E; by eapply Hm) end.
  repeat (apply respects_bind; [done| |intros ?]); solve_respects; apply Hheap.
Qed.

Lemma with_view_keeps (R : world H -> world H -> Prop) `{!PreOrder R} {A} data (f : U8SliceView -> GoM (world H) A) :
  (forall A (m : GoM heap A), respects R (on_heap m)) ->
  (forall v, respects R (f v)) -> respects R (with_view data f).
Proof.
  intros Hheap Hf. destruct data as [d|]; cbn [with_view]; [|done].
  repeat (apply respects_bind; [done| |intros ?]); solve_respects; apply Hheap.
Qed.

Lemma grows_on_heap c A (m : GoM heap A) : respects (@grows H c) (on_heap m).
Proof. apply respects_keeps_grows, keeps_on_heap. Qed.
Lemma crespects_keeps_grows {A} c (m : GoM (cstate H) A) : crespects keeps m -> crespects (grows c) m.
Proof. intros Hm s r s' E. by eapply keeps_grows, Hm. Qed.
End BackendLemmas.

(** ** Whole methods *)

Section Invocations.
Context {H : Type} `{HostLaws H} `{ErrorTexts} `{SerdeJson}.
Implicit Types w : world H.

(** A call with arguments of the right types returns and leaves no buffer. *)
Lemma call_through_clean f a : args_types a = go_signature f -> clean (H := H) (call_through f a).
Proof.
  intros Ha. apply (cgo_call_typed (H := H)) in Ha. unfold call_through.
  destruct f, a; cbn [cgo_call] in *; try done; apply go_call_clean;
    first [ apply safe_cGet | apply safe_cSet | apply safe_cDelete | apply safe_cScan
          | apply safe_cNext | apply safe_cNextKey | apply safe_cNextValue
          | apply safe_cHumanizeAddress | apply safe_cCanonicalizeAddress
          | apply safe_cValidateAddress | apply safe_cQueryExternal ].
Qed.

(** Only a scan of the call's own database adds to a frame. *)
Definition scans_in (c : Z) (a : c_args) : Prop :=
  match a with
  | args_scan db _ _ _ _ => exists st, db = Some st /\ CallID st = c
  | _ => True
  end.
Lemma call_through_grows c f a : scans_in c a -> respects (@grows H c) (call_through f a).
Proof.
  intros Ha. unfold call_through. destruct f, a; cbn [cgo_call scans_in] in *;
    try (apply respects_panic; apply _);
    try (destruct Ha as (st & -> & <-));
    apply go_call_keeps; try apply _; try apply grows_on_heap;
    first [ apply grows_cScan
          | apply crespects_keeps_grows; first
          [ apply keeps_cGet | apply keeps_cSet | apply keeps_cDelete
          | apply keeps_cNext | apply keeps_cNextKey | apply keeps_cNextValue
          | apply keeps_cHumanizeAddress | apply keeps_cCanonicalizeAddress
          | apply keeps_cValidateAddress | apply keeps_cQueryExternal ] ].
Qed.

(** Computations that may panic, but leave the buffers as they found them. *)
Definition tidy {A} (m : GoM (world H) A) : Prop :=
  forall w r w', m w = (r, w') -> heap_wf (w_heap w) ->
    heap_wf (w_heap w') /\ blocks (w_heap w') = blocks (w_heap w).
Lemma clean_tidy {A} (m : GoM (world H) A) : clean m -> tidy m.
Proof. intros Hm w r w' E Hw. by destruct (Hm _ _ _ E Hw) as (? & ? & _). Qed.
Lemma tidy_bind {A B} (m : GoM (world H) A) (k : A -> GoM (world H) B) :
  tidy m -> (forall a, tidy (k a)) -> tidy (m ≫= k).
Proof.
  intros Hm Hk w r w' E Hw. apply gbind_inv in E as [(a & w1 & E1 & E2)|(p & E & ->)].
  - destruct (Hm _ _ _ E1 Hw) as (Hw1 & Hb1). destruct (Hk _ _ _ _ E2 Hw1). split; [done|congruence].
  - by eapply Hm.
Qed.
Lemma tidy_panic {A} p : tidy (gpanic (A := A) p).
Proof. by intros w r w' [= <- <-] Hw. Qed.
End Invocations.

(** Tables that Go has filled need no check. *)
Ltac tables :=
  cbn [be_db be_api be_querier go_backend buildDB buildAPI buildQuerier db_table db_state db_gas_meter
    ga_table ga_state gq_table gq_state db_vtable api_vtable querier_vtable iterator_vtable
    read_db write_db remove_db scan_db vt_next vt_next_key vt_next_value
    humanize_address canonicalize_address validate_address query_external
    gi_vtable gi_reference gi_gas_meter expect] in *.
Ltac methods :=
  unfold storage_get, storage_set, storage_remove, storage_scan, storage_iterator, iter_next,
    iter_next_key, iter_next_value, next_key_or_val, addr_humanize, addr_canonicalize, addr_validate,
    query_raw; tables.
(** The same where the run of a method is computed. *)
Ltac run_method := methods; rewrite ?gbind_ret; cbv beta; rewrite ?gbind_assoc.

Ltac solve_clean :=
  repeat first
    [ apply clean_ret
    | apply with_view_clean; intros ?
    | apply call_through_clean; reflexivity
    | apply clean_bind_ret
    | apply clean_bind; [|intros ?]
    | match goal with
      | |- clean (match ?x with _ => _ end) => destruct x
      end ].
Ltac solve_grows :=
  repeat first
    [ apply respects_ret; apply _
    | apply respects_panic; apply _
    | apply with_view_keeps; [apply _|apply grows_on_heap|intros ?]
    | apply call_through_grows; first [exact I | by eexists]
    | apply respects_bind; [apply _| |intros ?]
    | match goal with
      | |- respects _ (match ?x with _ => _ end) => destruct x
      | |- respects _ (expect ?x _) => destruct x
      end ].

Section Runs.
Context {H : Type} `{HostLaws H} `{ErrorTexts} `{SerdeJson}.

(** The iterators of a table have the functions Go gave them. *)
Definition iters_ok (iters : list GoIter) : Prop :=
  Forall (fun it => gi_vtable it = iterator_vtable) iters.

Lemma iterator_clean iters id m :
  iters_ok iters ->
  (forall gm ref, clean (H := H) (m (mkGoIter gm ref iterator_vtable))) ->
  clean (storage_iterator iters id m).
Proof.
  intros Hi Hm. unfold storage_iterator. destruct (iters !! Z.to_nat id) as [[gm ref vt]|] eqn:E.
  - pose proof (Forall_lookup_1 _ _ _ _ Hi E) as Hv. cbn in Hv. subst vt. apply Hm.
  - apply clean_ret.
Qed.

Lemma perform_clean st gm api q0 iters q :
  iters_ok iters -> zlen iters < two32 -> clean (H := H) (perform (go_backend st gm api q0) iters q).
Proof.
  intros Hi Hl. destruct q; cbn [perform];
    try (apply clean_bind; [|intros ?; apply clean_ret];
         try (apply iterator_clean; [done|intros ? ?]); methods; solve_clean).
  methods. cbv zeta.  rewrite (proj2 (Z.ltb_lt (zlen iters) two32)) by done. solve_clean.
Qed.
Lemma perform_tidy st gm api q0 iters q :
  iters_ok iters -> tidy (H := H) (perform (go_backend st gm api q0) iters q).
Proof.
  intros Hi. destruct q; cbn [perform];
    try (apply clean_tidy, clean_bind; [|intros ?; apply clean_ret];
         try (apply iterator_clean; [done|intros ? ?]); methods; solve_clean).
  methods. change (mret cScan_cgo ≫= ?k) with (k cScan_cgo). cbv beta.
  apply tidy_bind; [apply clean_tidy; solve_clean|]. intros r.
  repeat case_match; solve [apply clean_tidy, clean_ret | apply tidy_panic].
Qed.
Lemma perform_grows st gm api q0 iters q :
  respects (@grows H (CallID st)) (perform (go_backend st gm api q0) iters q).
Proof. destruct q; cbn [perform]; methods; solve_grows. Qed.

(** A table grows by what a scan has returned. *)
Lemma perform_table st gm api q0 iters q (w : world H) rep its w' :
  perform (go_backend st gm api q0) iters q w = (Ret (rep, its), w') ->
  its = iters \/ exists start end_ order r, q = RScan start end_ order /\ its = iters ++ [gr_iter r] /\
    gr_code r = GoError_None /\
    with_view start (fun s => with_view end_ (fun e => call_through cScan_cgo (args_scan (Some st) gm s e order))) w =
      (Ret r, w').
Proof.
  destruct q; cbn [perform]; try (intros E; apply gbind_inv in E as [(? & ? & _ & E)|(? & _ & [=])];
    injection E as _ <- _; by left).
  methods. intros E. apply gbind_inv in E as [(? & ? & E1 & E)|(? & _ & [=])]. injection E1 as <- <-.
  apply gbind_inv in E as [(r & w1 & E1 & E)|(? & _ & [=])].
  destruct (into_result _ _ _) eqn:Ec; [injection E as _ <- _; by left|].
  destruct (_ <? _); [|done]. injection E as _ <- <-. right.
  exists start, end_, order, r. split_and!; [done|done| |done].
  by destruct (gr_code r).
Qed.
End Runs.

(** ** The table of iterators

    Rust numbers the iterators of a call by their count and panics when the
    count leaves 32 bits.  Each of them is one the frame of the call holds, so
    the limit of the frame keeps the count far below that. *)

Section Counting.
Context {H : Type} `{HostLaws H} `{ErrorTexts} `{SerdeJson}.
Implicit Types w : world H.

(** A scan that succeeds has found room in the frame and put its iterator
    there. *)
Definition scanned (c : Z) w w' (it : GoIter) : Prop :=
  gi_vtable it = iterator_vtable /\
  exists w3 o, grows c w w3 /\ latestCallID w' = latestCallID w3 /\
    zlen (frame_of c w3) < frameLenLimit /\
    iteratorFrames w' = <[c := frame_of c w3 ++ [o]]> (iteratorFrames w3).

Lemma scanned_heap c w w1 w2 w' it :
  grows c w w1 -> scanned c w1 w2 it ->
  latestCallID w' = latestCallID w2 -> iteratorFrames w' = iteratorFrames w2 -> scanned c w w' it.
Proof.
  intros Hg (Hv & w3 & o & Hg3 & El & Hf & Ef) El' Ef'. split; [done|]. exists w3, o.
  split_and!; [by transitivity w1|congruence|done|congruence].
Qed.

Lemma storeIterator_stored c it limit w r w' :
  storeIterator c it limit w = (Ret (r, None), w') ->
  zlen (frame_of c w) < limit /\ latestCallID w' = latestCallID w /\
    iteratorFrames w' = <[c := frame_of c w ++ [it]]> (iteratorFrames w).
Proof.
  unfold storeIterator. destruct (Z.leb_spec limit (zlen (frame_of c w))) as [|Hl]; [done|].
  destruct (indexToIteratorID _) as [i []]; cbn [negb]; [|done]. by intros [= _ <-].
Qed.

Lemma inw_inv {A} (m : GoM (world H) A) s r s' :
  inw m s = (r, s') -> m (cw s) = (r, cw s') /\ co s' = co s.
Proof. unfold inw. destruct (m (cw s)) as [r1 w1]. by intros [= <- <-]. Qed.

Lemma cScan_success st gm a e order w s :
  cScan (Some st) gm a e order (mkCstate w fresh_outs) = (GoError_None, s) ->
  exists it, o_iter (co s) = Some it /\ scanned (CallID st) w (cw s) it.
Proof.
  unfold cScan, recoverPanic. destruct (cScan_body _ _ _ _ _ _) as [[ret|p] s1] eqn:E.
  2: { by destruct (String.eqb _ _). }
  intros [= -> ->]. unfold cScan_body in E. cbn [co fresh_outs o_gas o_iter o_err] in E.
  destruct gm as [gm|]; [|done]. erewrite gbind_eq in E by reflexivity. cbv zeta in E.
  assert (forall A B (m : GoM (world H) A) (k : A -> GoM (cstate H) B) s0 b s2,
    respects (grows (CallID st)) m -> (inw m ≫= k) s0 = (Ret b, s2) ->
    exists r s3, grows (CallID st) (cw s0) (cw s3) /\ co s3 = co s0 /\ k r s3 = (Ret b, s2)) as Hstep.
  { intros A B m k s0 b s2 Hm E0. apply gbind_inv in E0 as [(x & s3 & E1 & E2)|(? & _ & [=])].
    apply inw_inv in E1 as [E1 Ec]. exists x, s3. split_and!; [by eapply Hm|done|done]. }
  unfold copy_view in E.
  apply Hstep in E as (v1 & s1 & G1 & C1 & E); [|apply grows_on_heap].
  apply Hstep in E as (v2 & s2 & G2 & C2 & E); [|apply grows_on_heap].
  apply Hstep in E as (g1 & s3 & G3 & C3 & E); [|solve_respects].
  destruct (negb _); [done|].
  assert (exists it s4, grows (CallID st) (cw s3) (cw s4) /\ co s4 = co s3 /\
    (gasAfter ← inw (icall gm GasMeter_GasConsumed);
     _ ← write_gas (gasAfter -u g1);
     '(iteratorRef, err) ← inw (buildIterator (CallID st) it);
     match err with
     | Some err => text ← glift (Error err); _ ← assign_err (Some text); mret GoError_User
     | None => _ ← write_iter (mkGoIter (Some gm) iteratorRef iterator_vtable); mret GoError_None
     end) s4 = (Ret GoError_None, s)) as (it & s4 & G4 & C4 & E4).
  { destruct (order =? 1); (apply Hstep in E as (it & s4 & G4 & C4 & E); [|solve_respects]);
      by exists it, s4. }
  clear E. apply Hstep in E4 as (g2 & s5 & G5 & C5 & E); [|solve_respects].
  apply gbind_inv in E as [([] & s6 & E6 & E)|(? & _ & [=])].
  assert (cw s6 = cw s5 /\ o_iter (co s6) = Some GoIter_stub) as [W6 I6].
  { unfold write_gas in E6. rewrite C5, C4, C3, C2, C1 in E6. cbn in E6. by injection E6 as <-. }
  apply gbind_inv in E as [([ref err] & s7 & E7 & E)|(? & _ & [=])].
  apply inw_inv in E7 as [E7 C7]. unfold buildIterator in E7.
  apply gbind_inv in E7 as [([id err2] & w7 & E7 & E8)|(? & _ & [=])].
  destruct err2 as [err2|]; injection E8 as <- <- W7.
  { exfalso. apply gbind_inv in E as [(? & ? & _ & E)|(? & _ & [=])].
    apply gbind_inv in E as [(? & ? & _ & E)|(? & _ & [=])]. done. }
  apply gbind_inv in E as [([] & s8 & E8 & E)|(? & _ & [=])]. injection E as <-.
  unfold write_iter in E8. rewrite C7, I6 in E8. injection E8 as <-. cbn [co o_iter cw].
  eexists. split; [reflexivity|]. split; [done|].
  apply storeIterator_stored in E7 as (Hl & El & Ef). exists (cw s6), it.
  rewrite W6 in *. subst w7. split_and!; [|done|done|done].
  cbn [cw] in G1. by do 4 (etransitivity; [eassumption|]).
Qed.

Lemma call_through_scan_success st gm a e order w r w' :
  call_through cScan_cgo (args_scan (Some st) gm a e order) w = (Ret r, w') -> gr_code r = GoError_None ->
  scanned (CallID st) w w' (gr_iter r).
Proof.
  unfold call_through, go_call. cbn [cgo_call].
  destruct (cScan _ _ _ _ _ _) as [code s] eqn:Es. intros E Hc.
  assert (forall v w1 x w2, take (H := H) v w1 = (x, w2) ->
    latestCallID w2 = latestCallID w1 /\ iteratorFrames w2 = iteratorFrames w1) as Ht.
  { intros v w1 x w2. unfold take, mbind, GoM_bind, on_heap.
    destruct (UnmanagedVector_consume v (w_heap w1)) as [[?|?] h]; by intros [= _ <-]. }
  apply gbind_inv in E as [(k & w1 & E1 & E)|(? & _ & [=])]. apply Ht in E1 as [L1 F1].
  apply gbind_inv in E as [(o & w2 & E2 & E)|(? & _ & [=])]. apply Ht in E2 as [L2 F2].
  apply gbind_inv in E as [(m & w3 & E3 & E)|(? & _ & [=])]. apply Ht in E3 as [L3 F3].
  injection E as <- <-. cbn [gr_code gr_iter] in *. subst code.
  apply cScan_success in Es as (it & -> & Hs). cbn [default id].
  eapply scanned_heap; [reflexivity|exact Hs|congruence|congruence].
Qed.

Lemma with_view_success c data (f : U8SliceView -> GoM (world H) go_result) w r w' :
  (forall v w r w', f v w = (Ret r, w') -> gr_code r = GoError_None -> scanned c w w' (gr_iter r)) ->
  with_view data f w = (Ret r, w') -> gr_code r = GoError_None -> scanned c w w' (gr_iter r).
Proof.
  intros Hf E Hc. destruct data as [d|]; [|by eapply Hf]. cbn [with_view] in E.
  apply gbind_inv in E as [(p & w1 & E1 & E)|(? & _ & [=])].
  apply gbind_inv in E as [(x & w2 & E2 & E)|(? & _ & [=])].
  apply gbind_inv in E as [(? & w3 & E3 & E)|(? & _ & [=])]. injection E as <- <-.
  eapply scanned_heap; [by eapply grows_on_heap|by eapply Hf| |];
    unfold on_heap in E3; destruct (dealloc p (w_heap w2)) as [? ?]; by injection E3 as _ <-.
Qed.

Lemma perform_scanned st gm api q0 iters q w rep its w' :
  perform (go_backend st gm api q0) iters q w = (Ret (rep, its), w') ->
  its = iters \/ exists it, its = iters ++ [it] /\ scanned (CallID st) w w' it.
Proof.
  intros E. apply perform_table in E as [-> | (a & e & o & r & -> & -> & Hc & E)]; [by left|].
  right. eexists. split; [reflexivity|]. revert E Hc. apply with_view_success. intros v w0 r0 w1.
  apply with_view_success. intros v1 w2 r1 w3. apply call_through_scan_success.
Qed.
Lemma perform_iters_ok st gm api q0 iters q w rep its w' :
  perform (go_backend st gm api q0) iters q w = (Ret (rep, its), w') ->
  iters_ok iters -> iters_ok its.
Proof.
  intros E Hi. apply perform_scanned in E as [-> | (it & -> & Hv & _)]; [done|].
  by apply Forall_app_2; [|apply Forall_singleton].
Qed.

(** [grows], with a fact that holds as long as the counter of calls does not
    pass 2^64. *)
Definition grows_with (c : Z) (Q : Prop) w w' : Prop :=
  is_u64 (latestCallID w) ->
  exists n, 0 <= n /\ latestCallID w' = u64 (latestCallID w + n) /\
    (latestCallID w + n < two64 -> frames_below w -> 1 <= c <= latestCallID w ->
       (exists l, iteratorFrames w' =
          if decide (l = []) then iteratorFrames w
          else <[c := default [] (iteratorFrames w !! c) ++ l]> (iteratorFrames w)) /\ Q).

Lemma frame_grown c w w' l :
  iteratorFrames w' = (if decide (l = []) then iteratorFrames w
    else <[c := default [] (iteratorFrames w !! c) ++ l]> (iteratorFrames w)) ->
  frame_of c w' = frame_of c w ++ l.
Proof.
  intros E. unfold frame_of. rewrite E. destruct (decide (l = [])) as [->|Hl].
  - by rewrite app_nil_r.
  - by rewrite lookup_insert_eq.
Qed.
Lemma grows_with_trans c (Q1 Q2 : Prop) w1 w2 w3 :
  grows_with c Q1 w1 w2 -> grows_with c (Q1 -> Q2) w2 w3 -> grows_with c Q2 w1 w3.
Proof.
  intros G1 G2 Hl. destruct (G1 Hl) as (n1 & Hn1 & El1 & Ef1).
  destruct (G2 ltac:(rewrite El1; apply u64_range)) as (n2 & Hn2 & El2 & Ef2).
  exists (n1 + n2). rewrite El2, El1, u64_add_assoc. split_and!; [lia|done|].
  intros Hw Hb Hc. assert (latestCallID w2 = latestCallID w1 + n1) as E
    by (rewrite El1; apply u64_id; unfold is_u64 in *; lia).
  destruct (Ef1 ltac:(lia) Hb Hc) as [[l1 E1] HQ1].
  destruct Ef2 as [[l2 E2] HQ2]; [lia| |lia|].
  { by eapply grows_below; [apply Hb|done| |exact E1]; lia. }
  split; [|by apply HQ2]. exists (l1 ++ l2). rewrite E2, E1.
  destruct (decide (l1 = [])) as [->|Hl1]; [done|].
  rewrite (decide_False (P := l1 ++ l2 = [])) by (by intros [? _]%app_eq_nil).
  destruct (decide (l2 = [])) as [->|Hl2]; [by rewrite app_nil_r|].
  by rewrite lookup_insert_eq, insert_insert_eq, app_assoc.
Qed.

(** The table has at most as many iterators as the frame, and at most as
    many as fit into one. *)
Definition counted (c : Z) (iters : list GoIter) w : Prop :=
  zlen iters <= zlen (frame_of c w) /\ zlen iters <= frameLenLimit.

Lemma perform_counted st gm api q0 iters q w r w' :
  iters_ok iters -> heap_wf (w_heap w) ->
  perform (go_backend st gm api q0) iters q w = (r, w') ->
  grows_with (CallID st) (counted (CallID st) iters w ->
    exists rep its, r = Ret (rep, its) /\ counted (CallID st) its w') w w'.
Proof.
  intros Hi Hw E. pose proof (perform_grows st gm api q0 iters q _ _ _ E) as Hg.
  assert (counted (CallID st) iters w -> exists rep its, r = Ret (rep, its)) as Hr.
  { intros [_ Hl]. assert (zlen iters < two32) as H32 by (unfold frameLenLimit, two32 in *; lia).
    destruct (perform_clean st gm api q0 iters q Hi H32 _ _ _ E Hw) as (_ & _ & [[rep its] ->]).
    by eauto. }
  destruct r as [[rep its]|p].
  2: { intros Hl. destruct (Hg Hl) as (n & ? & ? & Hf). exists n. split_and!; [done..|].
       intros. split; [by apply Hf|]. intros Hc. destruct (Hr Hc) as (? & ? & [=]). }
  apply perform_scanned in E as [-> | (it & -> & _ & w3 & o & Hg3 & El & Hf & Ef)].
  - intros Hl. destruct (Hg Hl) as (n & ? & ? & Hf). exists n. split_and!; [done..|].
    intros Hn Hb Hc. destruct (Hf Hn Hb Hc) as [l E]. split; [by exists l|]. intros [C1 C2].
    exists rep, iters. split; [done|]. split; [|done]. rewrite (frame_grown _ _ _ _ E), zlen_app.
    pose proof (zlen_nonneg l). lia.
  - intros Hl. destruct (Hg3 Hl) as (n & ? & El3 & Hf3). exists n. rewrite El, El3.
    split_and!; [done..|]. intros Hn Hb Hc. destruct (Hf3 Hn Hb Hc) as [l E]. split.
    + exists (l ++ [o]). rewrite decide_False by (by destruct l). rewrite Ef, (frame_grown _ _ _ _ E), E.
      destruct (decide (l = [])) as [->|Hne]; [by rewrite app_nil_r|].
      by rewrite insert_insert_eq, <- app_assoc.
    + intros [C1 C2]. exists rep, (iters ++ [it]). split; [done|].
      pose proof (frame_grown _ _ _ _ E) as Ew3. pose proof (zlen_nonneg l).
      rewrite Ew3, zlen_app in Hf. unfold counted. unfold frame_of at 1. rewrite Ef, lookup_insert_eq.
      cbn [default id]. rewrite Ew3, !zlen_app. change (zlen [o]) with 1. change (zlen [it]) with 1. lia.
Qed.
End Counting.

(** ** Runs of contracts *)

Section WholeRuns.
Context {H R : Type} `{HostLaws H} `{ErrorTexts} `{SerdeJson}.
Implicit Types w : world H.

Lemma run_tidy st gm api q0 iters (p : vm_prog R) w r w' :
  iters_ok iters -> heap_wf (w_heap w) -> run (go_backend st gm api q0) iters p w = (r, w') ->
  heap_wf (w_heap w') /\ blocks (w_heap w') = blocks (w_heap w).
Proof.
  revert iters w. induction p as [r0|q k IH]; intros iters w Hi Hw E; cbn [run] in E.
  { by injection E as _ <-. }
  apply gbind_inv in E as [([rep its] & w1 & E1 & E)|(p & E1 & ->)].
  - destruct (perform_tidy st gm api q0 iters q Hi _ _ _ E1 Hw) as [Hw1 Hb1].
    apply IH in E as [Hw' Hb']; [|by eapply perform_iters_ok|done]. split; [done|congruence].
  - by eapply (perform_tidy st gm api q0 iters q Hi).
Qed.
Lemma run_grows st gm api q0 iters (p : vm_prog R) :
  respects (@grows H (CallID st)) (run (go_backend st gm api q0) iters p).
Proof.
  revert iters. induction p as [r|q k IH]; intros iters; cbn [run]; [apply respects_ret; apply _|].
  apply respects_bind; [apply _|apply perform_grows|]. intros [rep its]. apply IH.
Qed.
Lemma run_counted st gm api q0 iters (p : vm_prog R) w r w' :
  iters_ok iters -> heap_wf (w_heap w) -> run (go_backend st gm api q0) iters p w = (r, w') ->
  grows_with (CallID st) (counted (CallID st) iters w -> no_panic r) w w'.
Proof.
  revert iters w. induction p as [r0|q k IH]; intros iters w Hi Hw E; cbn [run] in E.
  { injection E as <- <-. intros Hl. exists 0. rewrite Z.add_0_r, u64_id by done.
    split_and!; [lia|done|]. intros _ _ _. split; [by exists []|]. intros _. by exists r0. }
  apply gbind_inv in E as [([rep its] & w1 & E1 & E)|(p & E1 & ->)];
    pose proof (perform_counted st gm api q0 iters q _ _ _ Hi Hw E1) as Hp.
  - pose proof (perform_tidy st gm api q0 iters q Hi _ _ _ E1 Hw) as [Hw1 _].
    apply IH in E; [|by eapply perform_iters_ok|done].
    eapply (grows_with_trans _ _ _ _ _ _ Hp). intros Hl. destruct (E Hl) as (n & ? & ? & Hf).
    exists n. split_and!; [done..|]. intros Hn Hb Hc. destruct (Hf Hn Hb Hc) as [Hex Hq].
    split; [done|]. intros Hcount Hc0. apply Hq.
    destruct (Hcount Hc0) as (? & ? & [= <- <-] & ?). done.
  - intros Hl. destruct (Hp Hl) as (n & ? & ? & Hf). exists n. split_and!; [done..|].
    intros Hn Hb Hc. destruct (Hf Hn Hb Hc) as [Hex Hq]. split; [done|]. intros Hc0.
    by destruct (Hq Hc0) as (? & ? & [=] & _).
Qed.
End WholeRuns.

(** ** Lemmas on single requests *)

Section Requests.
Context {H : Type} `{HostLaws H} `{ErrorTexts} `{SerdeJson}.
Implicit Types w : world H.

(** The process while a view of [d] is lent out. *)
Definition lend (d : string) (w : world H) : world H :=
  set_heap (mkHeap (<[next (w_heap w) := d]> (blocks (w_heap w))) (next (w_heap w) + 1)) w.

Lemma copy_view_lent d w o :
  slen d < two31 ->
  copy_view (U8SliceView_new (Some (next (w_heap w), d))) (mkCstate (lend d w) o) =
  (Ret (Some d), mkCstate (lend d w) o).
Proof.
  intros Hd. unfold copy_view, inw, on_heap.
  pose proof (copyU8Slice_spec (next (w_heap w)) (Some d) (w_heap (lend d w))) as E.
  cbn [option_map] in E. cbn [cw]. rewrite E; [by destruct w|intros _|done].
  cbn [lend w_heap set_heap blocks]. by rewrite lookup_insert_eq.
Qed.

Lemma copy_view_lent2 d d2 w o :
  slen d < two31 ->
  copy_view (U8SliceView_new (Some (next (w_heap w), d))) (mkCstate (lend d2 (lend d w)) o) =
  (Ret (Some d), mkCstate (lend d2 (lend d w)) o).
Proof.
  intros Hd. unfold copy_view, inw, on_heap.
  pose proof (copyU8Slice_spec (next (w_heap w)) (Some d) (w_heap (lend d2 (lend d w)))) as E.
  cbn [option_map] in E. cbn [cw]. rewrite E; [by destruct w|intros _|done].
  cbn [lend w_heap set_heap blocks next]. rewrite lookup_insert_ne by lia. by rewrite lookup_insert_eq.
Qed.

Lemma inw_eq {A} (m : GoM (world H) A) w o r w' :
  m w = (r, w') -> inw m (mkCstate w o) = (r, mkCstate w' o).
Proof. intros E. unfold inw. cbn [cw co]. by rewrite E. Qed.

Lemma heap_rely {A} (m : GoM (world H) A) w r w' :
  respects rely m -> m w = (r, w') -> heap_wf (w_heap w) -> heap_wf (w_heap w').
Proof. intros Hm E Hw. by destruct (Hm _ _ _ E) as [Hh _], (Hh Hw). Qed.

Lemma take_default w : take UnmanagedVector_default w = (Ret None, w).
Proof. by destruct w. Qed.

(** Lending a view for the time of a callback. *)
Lemma with_view_lent {A} d (f : U8SliceView -> GoM (world H) A) w a w1 :
  clean (f (U8SliceView_new (Some (next (w_heap w), d)))) -> heap_wf (w_heap w) ->
  f (U8SliceView_new (Some (next (w_heap w), d))) (lend d w) = (Ret a, w1) ->
  exists w', with_view (Some d) f w = (Ret a, w') /\ w_host w' = w_host w1 /\
    iteratorFrames w' = iteratorFrames w1 /\
    heap_wf (w_heap w') /\ blocks (w_heap w') = blocks (w_heap w).
Proof.
  intros Hf Hw E. destruct (Hf _ _ _ E (alloc_wf _ _ Hw)) as (Hw1 & Hb1 & _).
  cbn [lend w_heap set_heap blocks] in Hb1.
  exists (set_heap (mkHeap (delete (next (w_heap w)) (blocks (w_heap w1))) (next (w_heap w1))) w1).
  split_and!; [|done|done|by apply heap_wf_delete|].
  - cbn [with_view]. erewrite gbind_eq by reflexivity.
    erewrite gbind_eq by exact E. erewrite gbind_eq; [reflexivity|].
    unfold on_heap, dealloc. by rewrite Hb1, lookup_insert_eq.
  - cbn [w_heap set_heap blocks]. rewrite Hb1. by apply delete_insert_id, alloc_fresh.
Qed.

(** The clean-up after a callback that has panicked, or returned nothing. *)
Lemma take_nothing w (k : option string -> option string -> option string -> GoM (world H) go_result) :
  (key ← take UnmanagedVector_default; output ← take UnmanagedVector_default;
   error_msg ← take UnmanagedVector_default; k key output error_msg) w = k None None None w.
Proof. do 3 (erewrite gbind_eq by apply take_default). done. Qed.

(** What Rust makes of a panic of the host. *)
Definition panic_code (p : panic_value) : GoError :=
  if String.eqb (panic_type p) "ErrorOutOfGas" then GoError_OutOfGas else GoError_Panic.
Definition panic_error (p : panic_value) : BackendError :=
  if String.eqb (panic_type p) "ErrorOutOfGas" then out_of_gas else foreign_panic.
Lemma into_result_panic p msg dflt : into_result (panic_code p) msg dflt = Some (panic_error p).
Proof. unfold panic_code, panic_error. by destruct (String.eqb _ _). Qed.

(** What a callback leaves: only a status, or a result in its one vector. *)
Definition only_code (code : GoError) (gas : Z) : go_result :=
  mkGoResult code None None None gas GoIter_stub.
Definition panicked (p : panic_value) : go_result := only_code (panic_code p) 0.
Definition with_output (d : bytes) (gas : Z) : go_result :=
  mkGoResult GoError_None None d None gas GoIter_stub.

(** Writing a vector through a pointer, and taking it out again. *)
Lemma assigned_err (text : string) w gas key val it :
  heap_wf (w_heap w) ->
  exists v h, assign_err (Some text) (mkCstate w (mkOuts gas key val (Some UnmanagedVector_default) it)) =
      (Ret tt, mkCstate (set_heap h w) (mkOuts gas key val (Some v) it)) /\
    holds (blocks h) v (Some text).
Proof.
  intros Hw. destruct (newUnmanagedVector_returns (Some text) _ Hw) as (v & h & E).
  pose proof (newUnmanagedVector_extends _ _ _ _ Hw E) as [_ [Hh _]]. exists v, h. split; [|done].
  unfold assign_err. etransitivity; [eapply gbind_eq; unfold new_vector; apply inw_eq; unfold on_heap;
    rewrite E; reflexivity|]. reflexivity.
Qed.
Lemma assigned_val (d : bytes) w gas key err it :
  heap_wf (w_heap w) ->
  exists v h, assign_val d (mkCstate w (mkOuts gas key (Some UnmanagedVector_default) err it)) =
      (Ret tt, mkCstate (set_heap h w) (mkOuts gas key (Some v) err it)) /\
    holds (blocks h) v d.
Proof.
  intros Hw. destruct (newUnmanagedVector_returns d _ Hw) as (v & h & E).
  pose proof (newUnmanagedVector_extends _ _ _ _ Hw E) as [_ [Hh _]]. exists v, h. split; [|done].
  unfold assign_val. etransitivity; [eapply gbind_eq; unfold new_vector; apply inw_eq; unfold on_heap;
    rewrite E; reflexivity|]. reflexivity.
Qed.
End Requests.

Ltac outs_cbn :=
  cbn [mret GoM_ret co cw o_gas o_key o_val o_err o_iter slot fresh_outs fst snd default id].
(** A panic of the host ends the callback; nothing but the error is left. *)
Ltac host_panic E :=
  erewrite gbind_panic by (apply inw_eq; exact E); outs_cbn;
  rewrite take_nothing; eexists; split_and!; reflexivity.
(** One vector has been written: the result, or the text of an error. *)
Ltac val_written d Hm :=
  let v := fresh "v" in let h := fresh "h" in let Ea := fresh "Ea" in let Hh := fresh "Hh" in
  cbn [o_gas o_key o_val o_err o_iter fresh_outs co cw];
  match goal with
  | |- context [mkCstate ?w (mkOuts ?g ?k (Some UnmanagedVector_default) ?e ?i)] =>
    destruct (assigned_val d w g k e i Hm) as (v & h & Ea & Hh)
  end;
  erewrite gbind_eq by exact Ea; outs_cbn; erewrite gbind_eq by apply take_default;
  erewrite gbind_eq by (apply take_spec; exact Hh);
  erewrite gbind_eq by apply take_default; eexists; by split_and!.
Ltac err_written text Hm :=
  let v := fresh "v" in let h := fresh "h" in let Ea := fresh "Ea" in let Hh := fresh "Hh" in
  cbn [o_gas o_key o_val o_err o_iter fresh_outs co cw];
  match goal with
  | |- context [mkCstate ?w (mkOuts ?g ?k ?d (Some UnmanagedVector_default) ?i)] =>
    destruct (assigned_err text w g k d i Hm) as (v & h & Ea & Hh)
  end;
  erewrite gbind_eq by exact Ea; outs_cbn;
  do 2 (erewrite gbind_eq by apply take_default);
  erewrite gbind_eq by (apply take_spec; exact Hh); eexists; by split_and!.

(** ** Properties *)

(** The examples run in the process of [Mocks.example_world], with the mock
    gas meter and store as objects 1 and 2 of the host. *)
#[local] Existing Instance id_case.
Definition example_texts : ErrorTexts :=
  Build_ErrorTexts (fun _ => "bad json"%string) (fun _ => "errno"%string) (fun _ => "debug"%string).
#[local] Existing Instance example_texts.
(** A reader that takes what Go's reader takes. *)
Definition example_serde : SerdeJson :=
  Build_SerdeJson (fun s =>
    match Unmarshal (A := QuerierResult) s with
    | Ret (inr r) => inr r
    | _ => inl "bad json"%string
    end).
#[local] Existing Instance example_serde.
Definition example_api : GoAPI := mkGoAPI (Some 4) (Some 5) (Some 6).
Definition example_backend (callID : Z) : backend :=
  go_backend (buildDBState (Some 2) callID) (Some (Some 1)) (Some example_api) (Some (Some 3)).

(** C5. Whatever a contract asks for, in whatever order and however the host
    answers or panics, its run comes to an end; every buffer that crossed the
    boundary is freed, and of all frames only the one of its own call has
    grown.  Unless the counter of calls passes 2^64, no Rust panic ends it
    either: the callbacks are where the tables say, and the limit on the
    frame of the call keeps the IDs of iterators within 32 bits. *)
Theorem run_contained {H R : Type} `{HostLaws H} `{ErrorTexts} `{SerdeJson} (st : DBState) (gm : option iface)
    (api : option GoAPI) (querier : option iface) (p : vm_prog R) (w : world H) :
  heap_wf (w_heap w) -> is_u64 (latestCallID w) ->
  exists r w', catch_unwind (run (go_backend st gm api querier) [] p) w = (Ret r, w') /\
    blocks (w_heap w') = blocks (w_heap w) /\ grows (CallID st) w w' /\
    exists n, 0 <= n /\ latestCallID w' = u64 (latestCallID w + n) /\
      (latestCallID w + n < two64 -> frames_below w -> 1 <= CallID st <= latestCallID w -> r <> None).
Proof.
  intros Hw Hl. unfold catch_unwind.
  destruct (run (go_backend st gm api querier) [] p w) as [r w'] eqn:E.
  destruct (run_tidy _ _ _ _ _ _ _ _ _ (Forall_nil_2 _) Hw E) as [_ Hb].
  pose proof (run_grows _ _ _ _ _ _ _ _ _ E) as Hg.
  destruct (run_counted _ _ _ _ _ _ _ _ _ (Forall_nil_2 _) Hw E Hl) as (n & Hn & En & Hf).
  exists (match r with Ret a => Some a | Panic _ => None end), w'.
  split_and!; [by destruct r|done|done|]. exists n. split_and!; [done|done|]. intros C1 C2 C3.
  destruct (Hf C1 C2 C3) as [_ Hp]. destruct Hp as [a ->]; [|done].
  split; [apply zlen_nonneg|done].
Qed.
(** A contract that reads the first entry of its store. *)
Definition example_prog : vm_prog (BackendError + answer) :=
  VCall (RScan None None 1) (fun _ => VCall (RNext 0) (fun rep => VDone (rp_result rep))).
Lemma run_contained_witness :
  let w := set_latest 1 (example_world 1000000 [("k", "v")]%string) in
  exists r w', catch_unwind (run (example_backend 1) [] example_prog) w = (Ret r, w') /\
    blocks (w_heap w') = blocks (w_heap w) /\ grows 1 w w'.
Proof.
  intros w. destruct (run_contained (buildDBState (Some 2) 1) (Some (Some 1)) (Some example_api)
    (Some (Some 3)) example_prog w) as (r & w' & E & Hb & Hg & _);
    [exact empty_heap_wf|split; [discriminate|reflexivity]|].
  exists r, w'. split; [exact E|split; [exact Hb|exact Hg]].
Defined.
