(* ===== verification/Storage.v ===== *)
(** * The store of a contract

    Reading, writing and removing, from the contract's request through the
    Rust side, the views and the Go callback to the host's store and back:
    over any host; and the steps of the mock store. *)

From Stdlib Require Import Ascii.
From S2P Require Import Prelude GoText RustText Json JsonParse Codec Scalars Types Errors Queries Memory MemDB World Mocks Iterators Callbacks Vtables Backend.

Inductive store_op :=
| SGet (key : string)
| SSet (key value : string)
| SRemove (key : string).

Definition request_of (op : store_op) : request :=
  match op with
  | SGet key => RGet key
  | SSet key value => RSet key value
  | SRemove key => RRemove key
  end.
Definition op_key (op : store_op) : string :=
  match op with SGet k | SSet k _ | SRemove k => k end.
(** Keys and values below 2 GiB, which Go can copy. *)
Definition op_small (op : store_op) : Prop :=
  match op with
  | SGet k | SRemove k => slen k < two31
  | SSet k v => slen k < two31 /\ slen v < two31
  end.

(** ** Over any host *)

Section StoreRequests.
Context {H : Type} `{HostLaws H} `{ErrorTexts} `{SerdeJson}.
Implicit Types w : world H.

(** What the host is asked to do, between two looks at its gas meter. *)
Definition no_value (m : GoM (world H) unit) : GoM (world H) bytes := fun w =>
  match m w with
  | (Ret _, w) => (Ret None, w)
  | (Panic p, w) => (Panic p, w)
  end.
Definition store_call (kv : Z) (op : store_op) : GoM (world H) bytes :=
  match op with
  | SGet k => KVStore_Get kv (Some k)
  | SSet k v => no_value (KVStore_Set kv (Some k) (Some v))
  | SRemove k => no_value (KVStore_Delete kv (Some k))
  end.
Definition metered (gm : Z) (m : GoM (world H) bytes) : GoM (world H) (bytes * Z) :=
  gasBefore ← GasMeter_GasConsumed gm;
  v ← m;
  gasAfter ← GasMeter_GasConsumed gm;
  mret (v, gasAfter -u gasBefore).

(** The process while the views of the arguments are lent to the callback. *)
Definition lent (op : store_op) (w : world H) : world H :=
  match op with
  | SGet k | SRemove k => lend k w
  | SSet k v => lend v (lend k w)
  end.

(** What the callback leaves, and the reply to the contract. *)
Definition store_result (r : outcome (bytes * Z)) : go_result :=
  match r with
  | Ret (v, gas) => with_output v gas
  | Panic p => panicked p
  end.
Definition reply_of (op : store_op) (r : outcome (bytes * Z)) : reply :=
  match r with
  | Ret (v, gas) =>
    mkReply (inr (match op with SGet _ => Found v | _ => Done end)) (with_externally_used gas)
  | Panic p => mkReply (inl (panic_error p)) (with_externally_used 0)
  end.
Lemma method_reply_store op r dflt :
  method_reply (store_result r) (with_externally_used (gr_used_gas (store_result r))) dflt
    (inr (match op with SGet _ => Found (gr_output (store_result r)) | _ => Done end)) = reply_of op r.
Proof. destruct r as [[v gas]|p]; [done|]. unfold method_reply. cbn. by rewrite into_result_panic. Qed.

Lemma metered_eq gm m w :
  metered gm m w =
  match GasMeter_GasConsumed gm w with
  | (Panic p, w2) => (Panic p, w2)
  | (Ret g1, w2) =>
    match m w2 with
    | (Panic p, w3) => (Panic p, w3)
    | (Ret v, w3) =>
      match GasMeter_GasConsumed gm w3 with
      | (Panic p, w4) => (Panic p, w4)
      | (Ret g2, w4) => (Ret (v, g2 -u g1), w4)
      end
    end
  end.
Proof.
  unfold metered, mbind, GoM_bind. destruct (GasMeter_GasConsumed gm w) as [[g1|p] w2]; [|done].
  destruct (m w2) as [[v|p] w3]; [|done]. by destruct (GasMeter_GasConsumed gm w3) as [[g2|p] w4].
Qed.
Lemma metered_heap gm kv op w r w' :
  metered gm (store_call kv op) w = (r, w') -> heap_wf (w_heap w) -> heap_wf (w_heap w').
Proof.
  intros E. eapply (heap_rely (metered gm (store_call kv op))); [|exact E].
  assert (forall m, respects rely m -> respects rely (no_value m)) as Hn.
  { intros m Hm v r2 v2 E2. unfold no_value in E2. destruct (m v) as [[?|?] v1] eqn:Em;
      injection E2 as _ <-; by eapply Hm. }
  unfold metered. destruct op; cbn [store_call]; solve_respects; apply Hn; eauto with go.
Qed.

End StoreRequests.

(** The two looks at the gas meter with the call of the host in between; a
    panic in any of the three ends the callback. *)
Ltac host_steps f v :=
  let w2 := fresh "w" in let w3 := fresh "w" in let w4 := fresh "w" in
  let E1 := fresh "E" in let E2 := fresh "E" in let E3 := fresh "E" in
  match goal with
  | |- context [GasMeter_GasConsumed ?gm ?w] =>
    destruct (GasMeter_GasConsumed gm w) as [[?|?] w2] eqn:E1; [|host_panic E1];
    erewrite gbind_eq by (apply inw_eq; exact E1);
    destruct (f w2) as [[v|?] w3] eqn:E2; [|host_panic E2];
    erewrite gbind_eq by (apply inw_eq; exact E2);
    destruct (GasMeter_GasConsumed gm w3) as [[?|?] w4] eqn:E3; [|host_panic E3];
    erewrite gbind_eq by (apply inw_eq; exact E3);
    erewrite gbind_eq by reflexivity; cbn [cw co o_gas o_key o_val o_err o_iter fst snd] in *
  end.

Section StoreExact.
Context {H : Type} `{HostLaws H} `{ErrorTexts} `{SerdeJson}.
Implicit Types w : world H.

(** The callback of an operation, with its views. *)
Definition callback (db : DBState) (gm : Z) (op : store_op) (w : world H) :
    cstate H -> GoError * cstate H :=
  let view d (w : world H) := U8SliceView_new (Some (next (w_heap w), d)) in
  match op with
  | SGet k => cGet (Some db) (Some (Some gm)) (view k w)
  | SSet k v => cSet (Some db) (Some (Some gm)) (view k w) (view v (lend k w))
  | SRemove k => cDelete (Some db) (Some (Some gm)) (view k w)
  end.

Lemma go_call_store db gm kv op w :
  Store db = Some kv -> op_small op -> heap_wf (w_heap w) ->
  exists w5, go_call (callback db gm op w) (lent op w) =
    (Ret (store_result (fst (metered gm (store_call kv op) (lent op w)))), w5) /\
    w_host w5 = w_host (snd (metered gm (store_call kv op) (lent op w))) /\
    iteratorFrames w5 = iteratorFrames (snd (metered gm (store_call kv op) (lent op w))).
Proof.
  intros Hkv Hs Hw.
  assert (heap_wf (w_heap (snd (metered gm (store_call kv op) (lent op w))))) as Hm.
  { eapply metered_heap; [apply surjective_pairing|]. destruct op; cbn [lent]; by repeat apply alloc_wf. }
  rewrite metered_eq in *.
  destruct op as [k|k v|k]; cbn [callback lent store_call op_small] in *; unfold go_call.
  - unfold cGet, recoverPanic, cGet_body. cbn [co fresh_outs o_gas o_val o_err]. rewrite Hkv.
    erewrite gbind_eq by reflexivity. erewrite gbind_eq by (by apply copy_view_lent).
    host_steps (KVStore_Get (H := H) kv (Some k)) v. val_written v Hm.
  - destruct Hs as [Hk Hv]. unfold cSet, recoverPanic, cSet_body.
    cbn [co fresh_outs o_gas o_val o_err]. rewrite Hkv.
    erewrite gbind_eq by (by apply copy_view_lent2). erewrite gbind_eq by (by apply copy_view_lent).
    unfold no_value in *. host_steps (KVStore_Set (H := H) kv (Some k) (Some v)) u.
    outs_cbn. rewrite take_nothing. eexists. by split_and!.
  - unfold cDelete, recoverPanic, cDelete_body. cbn [co fresh_outs o_gas o_val o_err]. rewrite Hkv.
    erewrite gbind_eq by (by apply copy_view_lent).
    unfold no_value in *. host_steps (KVStore_Delete (H := H) kv (Some k)) u.
    outs_cbn. rewrite take_nothing. eexists. by split_and!.
Qed.

Lemma perform_store st api q0 iters kv gm op w :
  Store st = Some kv -> op_small op -> heap_wf (w_heap w) ->
  exists w', perform (go_backend st (Some (Some gm)) api q0) iters (request_of op) w =
      (Ret (reply_of op (fst (metered gm (store_call kv op) (lent op w))), iters), w') /\
    w_host w' = w_host (snd (metered gm (store_call kv op) (lent op w))) /\
    iteratorFrames w' = iteratorFrames (snd (metered gm (store_call kv op) (lent op w))) /\
    heap_wf (w_heap w') /\ blocks (w_heap w') = blocks (w_heap w).
Proof.
  intros Hkv Hs Hw. destruct (go_call_store st gm kv op w Hkv Hs Hw) as (w5 & E & <- & <-).
  destruct op as [k|k v|k]; cbn [callback lent request_of perform] in *; run_method.
  - apply (with_view_lent k (fun v => call_through cGet_cgo (args_read (Some st) (Some (Some gm)) v)))
      in E as (w' & E' & Eh & Ef & Hw' & Hb); [|solve_clean|done].
    exists w'. split_and!; [|done..].
    erewrite gbind_eq by exact E'. by rewrite gbind_ret, (method_reply_store (SGet k)).
  - apply (with_view_lent v (fun x => call_through cSet_cgo (args_write (Some st) (Some (Some gm))
      (U8SliceView_new (Some (next (w_heap w), k))) x)))
      in E as (w1 & E' & Eh' & Ef' & _ & _); [|solve_clean|by apply alloc_wf].
    apply (with_view_lent k (fun x => with_view (Some v) (fun y =>
      call_through cSet_cgo (args_write (Some st) (Some (Some gm)) x y))))
      in E' as (w' & E'' & Eh'' & Ef'' & Hw' & Hb); [|solve_clean|done].
    exists w'. split_and!; [|congruence|congruence|done..].
    erewrite gbind_eq by exact E''. by rewrite gbind_ret, (method_reply_store (SSet k v)).
  - apply (with_view_lent k (fun v => call_through cDelete_cgo (args_remove (Some st) (Some (Some gm)) v)))
      in E as (w' & E' & Eh & Ef & Hw' & Hb); [|solve_clean|done].
    exists w'. split_and!; [|done..].
    erewrite gbind_eq by exact E'. by rewrite gbind_ret, (method_reply_store (SRemove k)).
Qed.
End StoreExact.

(** C13. A contract that reads, writes or removes a key gets exactly what the
    host's store gives for it, nil and empty kept apart, and is charged what
    the host's gas meter says it has cost.  A panic of the store or of the
    meter becomes an error of the contract, out of gas for an [ErrorOutOfGas]
    and a foreign panic otherwise, without a charge.  The host is left as it
    left itself, and no buffer stays allocated. *)
Theorem storage_exact {H : Type} `{HostLaws H} `{ErrorTexts} `{SerdeJson} (st : DBState) (api : option GoAPI)
    (querier : option iface) (iters : list GoIter) (kv gm : Z) (op : store_op) (w : world H) :
  Store st = Some kv -> op_small op -> heap_wf (w_heap w) ->
  exists w', perform (go_backend st (Some (Some gm)) api querier) iters (request_of op) w =
      (Ret (reply_of op (fst (metered gm (store_call kv op) (lent op w))), iters), w') /\
    w_host w' = w_host (snd (metered gm (store_call kv op) (lent op w))) /\
    blocks (w_heap w') = blocks (w_heap w).
Proof.
  intros Hkv Hs Hw.
  destruct (perform_store st api querier iters kv gm op w Hkv Hs Hw) as (w' & E & Eh & _ & _ & Hb).
  by exists w'.
Qed.

#[local] Existing Instance id_case.
#[local] Existing Instance example_texts.
#[local] Existing Instance example_serde.
Lemma storage_exact_witness :
  let w := example_world 1000000 [("k", "v")]%string in
  let poor := example_world 1000 [("k", "v")]%string in
  (exists w', perform (example_backend 1) [] (RGet "k") w =
    (Ret (mkReply (inr (Found (Some "v"%string))) (with_externally_used 99000), []), w')) /\
  (exists w', perform (example_backend 1) [] (RSet "k" "w") poor =
    (Ret (mkReply (inl out_of_gas) (with_externally_used 0), []), w')).
Proof.
  intros w poor. split.
  - destruct (storage_exact (buildDBState (Some 2) 1) (Some example_api) (Some (Some 3)) [] 2 1
      (SGet "k") w) as (w' & E & _); [reflexivity|reflexivity|exact empty_heap_wf|].
    exists w'. exact E.
  - destruct (storage_exact (buildDBState (Some 2) 1) (Some example_api) (Some (Some 3)) [] 2 1
      (SSet "k" "w") poor) as (w' & E & _); [reflexivity|split; reflexivity|exact empty_heap_wf|].
    exists w'. exact E.
Defined.

(** ** Over the mocks *)

(** What the mock store charges. *)
Definition price (op : store_op) : Z :=
  match op with SGet _ => GetPrice | SSet _ _ => SetPrice | SRemove _ => RemovePrice end.

Section MockStore.
Context {T : Type} `{BTreeLaws T} `{CaseMapping} `{ErrorTexts} `{SerdeJson}.
Implicit Types w : world (mock_host T).

Definition lookup_call (op : store_op) : GoM (Lookup_ T) bytes :=
  match op with
  | SGet k => Lookup_Get (Some k)
  | SSet k v => _ ← Lookup_Set (Some k) (Some v); mret None
  | SRemove k => _ ← Lookup_Delete (Some k); mret None
  end.
Definition new_db (op : store_op) (db : T) : T :=
  match op with
  | SGet _ => db
  | SSet k v => bt_ReplaceOrInsert db (mkItem k v)
  | SRemove k => bt_Delete db k
  end.

Lemma mock_gas gm w :
  GasMeter_GasConsumed gm w = (Ret (gm_consumed (lk_meter (mh_store (w_host w)))), w).
Proof. by destruct w. Qed.
Lemma mock_call kv op w :
  store_call kv op w =
  let '(r, l) := lookup_call op (mh_store (w_host w)) in
  (r, set_host (mkMockHost l (mh_iters (w_host w)) (mh_querier (w_host w))) w).
Proof.
  destruct op as [k|k v|k]; cbn [store_call lookup_call mocks KVStore_Get KVStore_Set KVStore_Delete];
    unfold no_value, on_host, on_store, mbind, GoM_bind; cbn.
  - by destruct (Lookup_Get (Some k) _) as [[?|?] ?].
  - by destruct (Lookup_Set (Some k) (Some v) _) as [[?|?] ?].
  - by destruct (Lookup_Delete (Some k) _) as [[?|?] ?].
Qed.

Lemma blen_key k : (blen (Some k) =? 0) = String.eqb k EmptyString.
Proof. destruct k as [|c k]; [done|]. unfold blen. cbn [string_of_bytes default id]. 
  rewrite slen_cons. pose proof (slen_nonneg k). apply Z.eqb_neq. lia. Qed.

(** The store pays, checks the key, and works on its database. *)
Lemma lookup_call_spec op (l : Lookup_ T) :
  is_u64 (gm_consumed (lk_meter l)) -> gm_consumed (lk_meter l) + price op < two64 ->
  let g := mkMockGasMeter (gm_limit (lk_meter l)) (gm_consumed (lk_meter l) + price op) in
  exists r, lookup_call op l =
    (r, mkLookup (if (gm_limit g <? gm_consumed g) || String.eqb (op_key op) EmptyString
                  then lk_db l else new_db op (lk_db l)) g) /\
    if gm_limit g <? gm_consumed g then exists d, r = Panic (ErrorOutOfGas d)
    else if String.eqb (op_key op) EmptyString then exists t, r = Panic (PanicValue "" t)
    else r = Ret (match op with
                  | SGet k => option_map item_value (find_item k (bt_items (lk_db l)))
                  | _ => None
                  end).
Proof.
  intros Hu Hp. cbv zeta.
  assert (forall d, charge (T := T) (price op) d l =
    (if gm_limit (lk_meter l) <? gm_consumed (lk_meter l) + price op
     then Panic (ErrorOutOfGas d) else Ret tt,
     mkLookup (lk_db l) (mkMockGasMeter (gm_limit (lk_meter l)) (gm_consumed (lk_meter l) + price op))))
    as Hc.
  { intros d. unfold charge. rewrite ConsumeGas_ok by (done || by destruct op).
    rewrite (proj2 (Z.ltb_ge MaxUint64 _)) by (unfold MaxUint64; lia). by destruct (_ <? _). }
  cbn [gm_limit gm_consumed].
  destruct op as [k|k v|k]; cbn [lookup_call op_key new_db];
    unfold Lookup_Get, Lookup_Set, Lookup_Delete, mbind, GoM_bind; cbn [price] in *; rewrite Hc;
    (destruct (_ <? _); cbn [orb]; [eexists; split; [reflexivity|by eexists]|]);
    cbn [gget lk_db]; unfold MemDB_Get, MemDB_Set, MemDB_Delete, MemDB_set, MemDB_delete, newPair, newKey; rewrite blen_key;
    (destruct (String.eqb k EmptyString); [eexists; split; [reflexivity|by eexists]|]).
  - cbn [item_key string_of_bytes default id]. rewrite bt_Get_items.
    destruct (find_item k (bt_items (lk_db l))); by eexists.
  - by eexists.
  - by eexists.
Qed.

Lemma MemDB_Get_find (db : T) k :
  k <> EmptyString ->
  MemDB_Get db (Some k) = (option_map item_value (find_item k (bt_items db)), None).
Proof.
  intros Hk. unfold MemDB_Get. rewrite blen_key, (proj2 (String.eqb_neq _ _)) by done.
  cbn [newKey item_key string_of_bytes default id]. rewrite bt_Get_items. by destruct (find_item _ _).
Qed.

Lemma lent_host op w : w_host (lent op w) = w_host w.
Proof. by destruct op. Qed.
End MockStore.
