(* ===== verification/Scans.v ===== *)
(** * Range scans of a contract

    Opening an iterator over a range and advancing it, from the contract's
    requests through the callbacks and the frame of the call to the host's
    iterator objects: over any host on every branch, and over the mocks down
    to the B-tree. *)

From S2P Require Import Prelude GoText RustText Json JsonParse Codec Scalars Types Errors Queries Memory MemDB World Mocks Iterators Callbacks Vtables Backend Storage.

(** ** Opening an iterator *)

Section Scan.
Context {H : Type} `{HostLaws H} `{ErrorTexts} `{SerdeJson}.
Implicit Types w : world H.

(** A bound, which may be nil, lent for the time of a callback. *)
Definition lend_bound (d : bytes) (w : world H) : world H :=
  match d with None => w | Some d => lend d w end.
Definition view_of (d : bytes) (w : world H) : U8SliceView :=
  U8SliceView_new (option_map (fun d => (next (w_heap w), d)) d).

Lemma copy_bound d w o :
  blen d < two31 ->
  copy_view (view_of d w) (mkCstate (lend_bound d w) o) = (Ret d, mkCstate (lend_bound d w) o).
Proof.
  destruct d as [d|]; cbn [lend_bound view_of option_map]; [apply copy_view_lent|].
  intros _. unfold copy_view, inw, on_heap. by destruct w.
Qed.
Lemma copy_bound2 d d2 w o :
  blen d < two31 ->
  copy_view (view_of d w) (mkCstate (lend_bound d2 (lend_bound d w)) o) =
  (Ret d, mkCstate (lend_bound d2 (lend_bound d w)) o).
Proof.
  destruct d as [d|]; cbn [lend_bound view_of option_map].
  - destruct d2 as [d2|]; [apply copy_view_lent2|apply copy_view_lent].
  - intros _. unfold copy_view, inw, on_heap. by destruct d2, w.
Qed.
Lemma with_bound {A} d (f : U8SliceView -> GoM (world H) A) w a w1 :
  clean (f (view_of d w)) -> heap_wf (w_heap w) ->
  f (view_of d w) (lend_bound d w) = (Ret a, w1) ->
  exists w', with_view d f w = (Ret a, w') /\ w_host w' = w_host w1 /\
    iteratorFrames w' = iteratorFrames w1 /\
    heap_wf (w_heap w') /\ blocks (w_heap w') = blocks (w_heap w).
Proof.
  intros Hf Hw E. destruct d as [d|]; cbn [lend_bound view_of option_map] in *.
  - destruct (Hf _ _ _ E (alloc_wf _ _ Hw)) as (Hw1 & Hb1 & _).
    cbn [lend w_heap set_heap blocks] in Hb1.
    exists (set_heap (mkHeap (delete (next (w_heap w)) (blocks (w_heap w1))) (next (w_heap w1))) w1).
    split_and!; [|done|done|by apply heap_wf_delete|].
    + cbn [with_view]. erewrite gbind_eq by reflexivity.
      erewrite gbind_eq by exact E. erewrite gbind_eq; [reflexivity|].
      unfold on_heap, dealloc. by rewrite Hb1, lookup_insert_eq.
    + cbn [w_heap set_heap blocks]. rewrite Hb1. by apply delete_insert_id, alloc_fresh.
  - destruct (Hf _ _ _ E Hw) as (Hw1 & Hb1 & _). by exists w1.
Qed.
Lemma lend_bound_wf d w : heap_wf (w_heap w) -> heap_wf (w_heap (lend_bound d w)).
Proof. intros Hw. destruct d; [by apply alloc_wf|done]. Qed.

Definition open_iterator (kv order : Z) (start end_ : bytes) : GoM (world H) Iterator :=
  if order =? 1 then KVStore_Iterator kv start end_ else KVStore_ReverseIterator kv start end_.

(** What the host is asked for a scan: nothing for an order that is neither
    ascending (1) nor descending (2). *)
Definition scan_call (kv gm order : Z) (start end_ : bytes) : GoM (world H) (option (Iterator * Z)) :=
  gasBefore ← GasMeter_GasConsumed gm;
  if negb ((order =? 1) || (order =? 2)) then mret None
  else
    it ← open_iterator kv order start end_;
    gasAfter ← GasMeter_GasConsumed gm;
    mret (Some (it, gasAfter -u gasBefore)).

Lemma scan_call_eq kv gm order start end_ w :
  scan_call kv gm order start end_ w =
  match GasMeter_GasConsumed gm w with
  | (Panic p, w2) => (Panic p, w2)
  | (Ret g1, w2) =>
    if negb ((order =? 1) || (order =? 2)) then (Ret None, w2) else
    match open_iterator kv order start end_ w2 with
    | (Panic p, w3) => (Panic p, w3)
    | (Ret it, w3) =>
      match GasMeter_GasConsumed gm w3 with
      | (Panic p, w4) => (Panic p, w4)
      | (Ret g2, w4) => (Ret (Some (it, g2 -u g1)), w4)
      end
    end
  end.
Proof.
  unfold scan_call, mbind, GoM_bind. destruct (GasMeter_GasConsumed gm w) as [[g1|p] w2]; [|done].
  destruct (negb _); [done|].
  destruct (open_iterator _ _ _ _ w2) as [[v|p] w3]; [|done].
  by destruct (GasMeter_GasConsumed gm w3) as [[g2|p] w4].
Qed.
Lemma rely_scan_call kv gm order start end_ : respects (@rely H) (scan_call kv gm order start end_).
Proof. unfold scan_call, open_iterator. solve_respects. Qed.

(** The reply, the table of iterators and the frames after it: an iterator
    that fits goes to the end of the frame of the call; one that does not is
    refused after it was opened. *)
Definition limit_text : string := "reached iterator limit (32768)".
Definition scan_outcome (c gm : Z) (iters : list GoIter) (r : outcome (option (Iterator * Z)))
    (w : world H) : reply * list GoIter * gmap Z frame :=
  match r with
  | Panic p => (mkReply (inl (panic_error p)) (with_externally_used 0), iters, iteratorFrames w)
  | Ret None => (mkReply (inl bad_argument) (with_externally_used 0), iters, iteratorFrames w)
  | Ret (Some (it, gas)) =>
    let f := frame_of c w in
    if frameLenLimit <=? zlen f
    then (mkReply (inl (user_err limit_text)) (with_externally_used gas), iters, iteratorFrames w)
    else (mkReply (inr (IteratorId (zlen iters))) (with_externally_used gas),
          iters ++ [mkGoIter (Some (Some gm)) (mkIteratorReference c (zlen f + 1)) iterator_vtable],
          <[c := f ++ [it]]> (iteratorFrames w))
  end.

(** What the callback leaves. *)
Definition scan_result (c gm : Z) (r : outcome (option (Iterator * Z))) (w : world H) : go_result :=
  match r with
  | Panic p => panicked p
  | Ret None => only_code GoError_BadArgument 0
  | Ret (Some (_, gas)) =>
    let f := frame_of c w in
    if frameLenLimit <=? zlen f
    then mkGoResult GoError_User None None (Some limit_text) gas GoIter_stub
    else mkGoResult GoError_None None None None gas
           (mkGoIter (Some (Some gm)) (mkIteratorReference c (zlen f + 1)) iterator_vtable)
  end.

Lemma go_call_scan st gm kv start end_ order w :
  let m := scan_call kv gm order start end_ (lend_bound end_ (lend_bound start w)) in
  Store st = Some kv -> blen start < two31 -> blen end_ < two31 -> heap_wf (w_heap w) ->
  exists w5, go_call (cScan (Some st) (Some (Some gm)) (view_of start w)
      (view_of end_ (lend_bound start w)) order) (lend_bound end_ (lend_bound start w)) =
    (Ret (scan_result (CallID st) gm (fst m) (snd m)), w5) /\
    w_host w5 = w_host (snd m) /\
    iteratorFrames w5 = snd (scan_outcome (CallID st) gm [] (fst m) (snd m)).
Proof.
  intros m Hkv Hs He Hw.
  assert (heap_wf (w_heap (snd m))) as Hm.
  { eapply (heap_rely (scan_call kv gm order start end_)); [apply rely_scan_call|apply surjective_pairing|].
    by repeat apply lend_bound_wf. }
  unfold m in *. clear m. rewrite scan_call_eq in *.
  unfold go_call, cScan, recoverPanic, cScan_body. cbn [co fresh_outs o_gas o_val o_err o_iter].
  rewrite Hkv. erewrite gbind_eq by reflexivity.
  erewrite gbind_eq by (by apply copy_bound2). erewrite gbind_eq by (by apply copy_bound).
  destruct (GasMeter_GasConsumed gm _) as [[g1|p] w2] eqn:E1; [|host_panic E1].
  erewrite gbind_eq by (apply inw_eq; exact E1).
  destruct (negb _); [outs_cbn; rewrite take_nothing; eexists; by split_and!|].
  assert (forall r w3, open_iterator kv order start end_ w2 = (r, w3) ->
    (if order =? 1 then inw (icall (Some kv) (fun kv => KVStore_Iterator kv start end_))
     else inw (icall (Some kv) (fun kv => KVStore_ReverseIterator kv start end_)))
      (mkCstate w2 fresh_outs) = (r, mkCstate w3 fresh_outs)) as Hopen.
  { intros r w3 E. unfold open_iterator in E. destruct (order =? 1); by apply inw_eq. }
  destruct (open_iterator kv order start end_ w2) as [[it|p] w3] eqn:E2.
  2: { erewrite gbind_panic by (by apply Hopen). outs_cbn. rewrite take_nothing. eexists; by split_and!. }
  erewrite gbind_eq by (by apply Hopen). clear Hopen.
  destruct (GasMeter_GasConsumed gm w3) as [[g2|p] w4] eqn:E3; [|host_panic E3].
  erewrite gbind_eq by (apply inw_eq; exact E3).
  erewrite gbind_eq by reflexivity.
  cbn [cw co o_gas o_key o_val o_err o_iter fst snd scan_result scan_outcome] in *.
  destruct (Z.leb_spec frameLenLimit (zlen (frame_of (CallID st) w4))) as [Hf|Hf].
  - erewrite gbind_eq.
    2: { apply inw_eq. unfold buildIterator. erewrite gbind_eq by (by apply storeIterator_full). reflexivity. }
    cbn beta iota. erewrite gbind_eq by reflexivity. change (Some _) with (Some limit_text) at 1.
    err_written limit_text Hm.
  - erewrite gbind_eq.
    2: { apply inw_eq. unfold buildIterator.
         erewrite gbind_eq by (apply storeIterator_ok; [exact Hf|done]). reflexivity. }
    cbn beta iota. erewrite gbind_eq by reflexivity. outs_cbn.
    rewrite take_nothing. eexists. by split_and!.
Qed.

Lemma limit_text_kept dflt : build_error_msg (Some limit_text) dflt = limit_text.
Proof. reflexivity. Qed.

Lemma perform_scan st api q0 iters kv gm start end_ order w :
  let m := scan_call kv gm order start end_ (lend_bound end_ (lend_bound start w)) in
  let '(rep, its, frames) := scan_outcome (CallID st) gm iters (fst m) (snd m) in
  Store st = Some kv -> blen start < two31 -> blen end_ < two31 -> zlen iters < two32 ->
  heap_wf (w_heap w) ->
  exists w', perform (go_backend st (Some (Some gm)) api q0) iters (RScan start end_ order) w =
      (Ret (rep, its), w') /\
    w_host w' = w_host (snd m) /\ iteratorFrames w' = frames /\
    heap_wf (w_heap w') /\ blocks (w_heap w') = blocks (w_heap w).
Proof.
  intros m. destruct (scan_outcome (CallID st) gm iters (fst m) (snd m)) as [[rep its] frames] eqn:Eo.
  intros Hkv Hs He Hl Hw.
  destruct (go_call_scan st gm kv start end_ order w Hkv Hs He Hw) as (r & E & Eh & Ef).
  fold m in E, Eh, Ef.
  apply (with_bound end_ (fun e => call_through cScan_cgo (args_scan (Some st) (Some (Some gm))
    (view_of start w) e order)))
    in E as (r1 & E' & Eh' & Ef' & _ & _); [|solve_clean|by apply lend_bound_wf].
  apply (with_bound start (fun s => with_view end_ (fun e => call_through cScan_cgo (args_scan (Some st)
    (Some (Some gm)) s e order))))
    in E' as (w' & E'' & Eh'' & Ef'' & Hw' & Hb); [|solve_clean|done].
  exists w'. cbn [perform]. run_method. erewrite gbind_eq by exact E''.
  unfold scan_result, scan_outcome in *. rewrite (proj2 (Z.ltb_lt (zlen iters) two32)) by done.
  destruct (fst m) as [[[it gas]|]|p].
  - destruct (frameLenLimit <=? zlen (frame_of (CallID st) (snd m))); injection Eo as <- <- <-;
      cbn [snd] in Ef; (split_and!; [done|congruence|congruence|done|done]).
  - injection Eo as <- <- <-. cbn [snd] in Ef. split_and!; [done|congruence|congruence|done|done].
  - injection Eo as <- <- <-. cbn [snd] in Ef. cbn [panicked only_code gr_code gr_error_msg gr_used_gas].
    rewrite into_result_panic. split_and!; [done|congruence|congruence|done|done].
Qed.
End Scan.

(** ** Advancing an iterator *)

(** The three ways to read an entry. *)
Inductive part := PRecord | PKey | PValue.
Definition part_request (p : part) (id : Z) : request :=
  match p with PRecord => RNext id | PKey => RNextKey id | PValue => RNextValue id end.

Section Advance.
Context {H : Type} `{HostLaws H} `{ErrorTexts} `{SerdeJson}.
Implicit Types w : world H.

(** What the host is asked: the key and the value, or one of them. *)
Definition read_part (p : part) (it : Z) : GoM (world H) (bytes * bytes) :=
  match p with
  | PRecord => k ← Iterator_Key it; v ← Iterator_Value it; mret (k, v)
  | PKey => k ← Iterator_Key it; mret (None, k)
  | PValue => v ← Iterator_Value it; mret (None, v)
  end.
Definition iter_call (p : part) (it gm : Z) : GoM (world H) (option (bytes * bytes) * Z) :=
  valid ← Iterator_Valid it;
  if negb valid then mret (None, 0)
  else
    gasBefore ← GasMeter_GasConsumed gm;
    kv ← read_part p it;
    _ ← Iterator_Next it;
    gasAfter ← GasMeter_GasConsumed gm;
    mret (Some kv, gasAfter -u gasBefore).

(** What the callback leaves, and the reply: an end is no entry at all, and a
    key without a value is an error. *)
Definition iter_result (r : outcome (option (bytes * bytes) * Z)) : go_result :=
  match r with
  | Panic p => panicked p
  | Ret (None, _) => only_code GoError_None 0
  | Ret (Some (k, v), gas) => mkGoResult GoError_None k v None gas GoIter_stub
  end.
Definition iter_reply (p : part) (r : outcome (option (bytes * bytes) * Z)) : reply :=
  match r with
  | Panic pv => mkReply (inl (panic_error pv)) (with_externally_used 0)
  | Ret (None, _) =>
    mkReply (inr (match p with PRecord => NextRecord None | _ => Found None end)) (with_externally_used 0)
  | Ret (Some (k, v), gas) =>
    mkReply (match p, k, v with
             | PRecord, Some k, Some v => inr (NextRecord (Some (k, v)))
             | PRecord, Some _, None =>
               inl (unknown "Failed to read value while reading the next key in the db")
             | PRecord, None, _ => inr (NextRecord None)
             | _, _, v => inr (Found v)
             end) (with_externally_used gas)
  end.

Definition part_callback (p : part) (ref : IteratorReference) (gm : option iface) :
    cstate H -> GoError * cstate H :=
  match p with
  | PRecord => cNext ref gm
  | PKey => cNextKey ref gm
  | PValue => cNextValue ref gm
  end.

Lemma rely_iter_call p it gm : respects (@rely H) (iter_call p it gm).
Proof. unfold iter_call, read_part. solve_respects. Qed.

(** The steps of the host in an advance, a panic in any of them included. *)
Lemma iter_call_eq p it gm w :
  iter_call p it gm w =
  match Iterator_Valid it w with
  | (Panic x, w1) => (Panic x, w1)
  | (Ret false, w1) => (Ret (None, 0), w1)
  | (Ret true, w1) =>
    match GasMeter_GasConsumed gm w1 with
    | (Panic x, w2) => (Panic x, w2)
    | (Ret g1, w2) =>
      match read_part p it w2 with
      | (Panic x, w3) => (Panic x, w3)
      | (Ret kv, w3) =>
        match Iterator_Next it w3 with
        | (Panic x, w4) => (Panic x, w4)
        | (Ret _, w4) =>
          match GasMeter_GasConsumed gm w4 with
          | (Panic x, w5) => (Panic x, w5)
          | (Ret g2, w5) => (Ret (Some kv, g2 -u g1), w5)
          end
        end
      end
    end
  end.
Proof.
  unfold iter_call, mbind, GoM_bind.
  destruct (Iterator_Valid it w) as [[[]|]w1]; cbn [negb]; try done.
Qed.

Lemma read_record_eq it w :
  read_part PRecord it w =
  match Iterator_Key it w with
  | (Panic x, w1) => (Panic x, w1)
  | (Ret k, w1) =>
    match Iterator_Value it w1 with
    | (Panic x, w2) => (Panic x, w2)
    | (Ret v, w2) => (Ret (k, v), w2)
    end
  end.
Proof. done. Qed.
Definition part_fn (p : part) : Z -> GoM (world H) bytes :=
  match p with PValue => Iterator_Value | _ => Iterator_Key end.
Lemma read_part_eq p it w :
  p <> PRecord ->
  read_part p it w =
  match part_fn p it w with
  | (Panic x, w1) => (Panic x, w1)
  | (Ret d, w1) => (Ret (None, d), w1)
  end.
Proof. by destruct p. Qed.

(** Key and value are written, in this order. *)
Lemma assigned_both (k v : bytes) w gas err it :
  heap_wf (w_heap w) ->
  exists kv vv h, (_ ← assign_key k; _ ← assign_val v; mret GoError_None)
      (mkCstate w (mkOuts gas (Some UnmanagedVector_default) (Some UnmanagedVector_default) err it)) =
      (Ret GoError_None, mkCstate (set_heap h w) (mkOuts gas (Some kv) (Some vv) err it)) /\
    holds (blocks h) kv k /\ holds (drop_vec kv (blocks h)) vv v.
Proof.
  intros Hw. destruct (newUnmanagedVector_returns k _ Hw) as (kv & h6 & E6).
  pose proof (newUnmanagedVector_extends _ _ _ _ Hw E6) as [Hw6 [Hh6 _]].
  destruct (newUnmanagedVector_returns v _ Hw6) as (vv & h7 & E7).
  pose proof (newUnmanagedVector_extends _ _ _ _ Hw6 E7) as [_ Hx7].
  exists kv, vv, h7. split_and!.
  - unfold assign_key. erewrite gbind_eq.
    2: { etransitivity; [eapply gbind_eq; unfold new_vector; apply inw_eq; unfold on_heap;
         rewrite E6; reflexivity|]. reflexivity. }
    unfold assign_val. erewrite gbind_eq.
    2: { etransitivity; [eapply gbind_eq; unfold new_vector; apply inw_eq; unfold on_heap;
         cbn [cw co write_key o_key w_heap set_heap]; rewrite E7; reflexivity|]. reflexivity. }
    done.
  - eapply holds_mono; [by eapply extends_sub|exact Hh6].
  - eapply ext_holds, extends_drop; [exact Hx7|exact Hh6].
Qed.

Lemma retrieve_stored c n it w :
  1 <= n <= MaxInt32 -> lookup_id (frame_of c w) n = Some it ->
  retrieveIterator c n w = (Ret (Some it), w).
Proof.
  intros Hn Hl. rewrite retrieveIterator_spec, (proj2 (Z.leb_le 1 n)), (proj2 (Z.leb_le n MaxInt32)) by lia.
  cbn [andb]. by rewrite Hl.
Qed.
Lemma iter_call_heap p it gm w : heap_wf (w_heap w) -> heap_wf (w_heap (snd (iter_call p it gm w))).
Proof.
  intros Hw. eapply (heap_rely (iter_call p it gm)); [apply rely_iter_call|apply surjective_pairing|done].
Qed.

Lemma go_call_record c n it gm w :
  let m := iter_call PRecord it gm w in
  c <> 0 -> 1 <= n <= MaxInt32 -> lookup_id (frame_of c w) n = Some it -> heap_wf (w_heap w) ->
  exists w6, go_call (part_callback PRecord (mkIteratorReference c n) (Some (Some gm))) w =
    (Ret (iter_result (fst m)), w6) /\
    w_host w6 = w_host (snd m) /\ iteratorFrames w6 = iteratorFrames (snd m).
Proof.
  intros m Hc Hn Hl Hw. pose proof (iter_call_heap PRecord it gm w Hw : heap_wf (w_heap (snd m))) as Hm.
  pose proof (retrieve_stored _ _ _ _ Hn Hl) as Er. apply Z.eqb_neq in Hc.
  unfold m in *. clear m. rewrite iter_call_eq in *. unfold go_call. cbn [part_callback].
  unfold cNext, recoverPanic, cNext_body. cbn [co fresh_outs o_gas o_key o_val o_err call_id iterator_id].
  rewrite Hc. erewrite gbind_eq by reflexivity. erewrite gbind_eq by (apply inw_eq; exact Er).
  destruct (Iterator_Valid it w) as [[[]|x] w1] eqn:E0; [| |host_panic E0];
    (erewrite gbind_eq by (apply inw_eq; exact E0)); cbn [negb];
    [|outs_cbn; rewrite take_nothing; eexists; by split_and!].
  destruct (GasMeter_GasConsumed gm w1) as [[g1|x] w2] eqn:E1; [|host_panic E1].
  erewrite gbind_eq by (apply inw_eq; exact E1). rewrite read_record_eq in *.
  destruct (Iterator_Key it w2) as [[k|x] w3] eqn:E2; [|host_panic E2].
  erewrite gbind_eq by (apply inw_eq; exact E2).
  destruct (Iterator_Value it w3) as [[v|x] w4] eqn:E3; [|host_panic E3].
  erewrite gbind_eq by (apply inw_eq; exact E3).
  destruct (Iterator_Next it w4) as [[[]|x] w5] eqn:E4; [|host_panic E4].
  erewrite gbind_eq by (apply inw_eq; exact E4).
  destruct (GasMeter_GasConsumed gm w5) as [[g2|x] w6] eqn:E5; [|host_panic E5].
  erewrite gbind_eq by (apply inw_eq; exact E5). erewrite gbind_eq by reflexivity.
  cbn [o_gas o_key o_val o_err o_iter fresh_outs co cw fst snd] in *.
  destruct (assigned_both k v w6 (Some (g2 -u g1)) (Some UnmanagedVector_default) (Some GoIter_stub) Hm)
    as (kv & vv & h & Ea & Hk & Hv). rewrite Ea. outs_cbn.
  erewrite gbind_eq by (apply take_spec; exact Hk).
  erewrite gbind_eq by (apply take_spec; cbn [w_heap set_heap]; by rewrite blocks_without).
  erewrite gbind_eq by apply take_default. eexists. by split_and!.
Qed.
Lemma go_call_part p c n it gm w :
  p <> PRecord ->
  let m := iter_call p it gm w in
  c <> 0 -> 1 <= n <= MaxInt32 -> lookup_id (frame_of c w) n = Some it -> heap_wf (w_heap w) ->
  exists w6, go_call (part_callback p (mkIteratorReference c n) (Some (Some gm))) w =
    (Ret (iter_result (fst m)), w6) /\
    w_host w6 = w_host (snd m) /\ iteratorFrames w6 = iteratorFrames (snd m).
Proof.
  intros Hp m Hc Hn Hl Hw. pose proof (iter_call_heap p it gm w Hw : heap_wf (w_heap (snd m))) as Hm.
  pose proof (retrieve_stored _ _ _ _ Hn Hl) as Er. apply Z.eqb_neq in Hc.
  assert (part_callback p (mkIteratorReference c n) (Some (Some gm)) =
    nextPart (mkIteratorReference c n) (Some (Some gm)) (part_fn p)) as -> by (by destruct p).
  unfold m in *. clear m. rewrite iter_call_eq in *. unfold go_call.
  unfold nextPart, recoverPanic, nextPart_body. cbn [co fresh_outs o_gas o_val o_err call_id iterator_id].
  rewrite Hc. erewrite gbind_eq by reflexivity. erewrite gbind_eq by (apply inw_eq; exact Er).
  destruct (Iterator_Valid it w) as [[[]|x] w1] eqn:E0; [| |host_panic E0];
    (erewrite gbind_eq by (apply inw_eq; exact E0)); cbn [negb];
    [|outs_cbn; rewrite take_nothing; eexists; by split_and!].
  destruct (GasMeter_GasConsumed gm w1) as [[g1|x] w2] eqn:E1; [|host_panic E1].
  erewrite gbind_eq by (apply inw_eq; exact E1). rewrite (read_part_eq p it w2 Hp) in *.
  destruct (part_fn p it w2) as [[d|x] w3] eqn:E2; [|host_panic E2].
  erewrite gbind_eq by (apply inw_eq; exact E2).
  destruct (Iterator_Next it w3) as [[[]|x] w5] eqn:E4; [|host_panic E4].
  erewrite gbind_eq by (apply inw_eq; exact E4).
  destruct (GasMeter_GasConsumed gm w5) as [[g2|x] w6] eqn:E5; [|host_panic E5].
  erewrite gbind_eq by (apply inw_eq; exact E5). erewrite gbind_eq by reflexivity.
  cbn [fst snd] in *. val_written d Hm.
Qed.

Lemma perform_iter p b iters id c n it gm w :
  let m := iter_call p it gm w in
  iters !! Z.to_nat id = Some (mkGoIter (Some (Some gm)) (mkIteratorReference c n) iterator_vtable) ->
  c <> 0 -> 1 <= n <= MaxInt32 -> lookup_id (frame_of c w) n = Some it -> heap_wf (w_heap w) ->
  exists w', perform b iters (part_request p id) w = (Ret (iter_reply p (fst m), iters), w') /\
    w_host w' = w_host (snd m) /\ iteratorFrames w' = iteratorFrames (snd m) /\
    heap_wf (w_heap w') /\ blocks (w_heap w') = blocks (w_heap w).
Proof.
  intros m Hi Hc Hn Hl Hw.
  assert (exists w6, go_call (part_callback p (mkIteratorReference c n) (Some (Some gm))) w =
    (Ret (iter_result (fst m)), w6) /\
    w_host w6 = w_host (snd m) /\ iteratorFrames w6 = iteratorFrames (snd m)) as (w' & E & Eh & Ef).
  { destruct p; [by apply go_call_record|by apply go_call_part..]. }
  exists w'.
  assert (clean (go_call (part_callback p (mkIteratorReference c n) (Some (Some gm))))) as Hcl.
  { destruct p; apply go_call_clean; [apply safe_cNext|apply safe_cNextKey|apply safe_cNextValue]. }
  destruct (Hcl _ _ _ E Hw) as (Hw' & Hb & _). split_and!; try done.
  destruct p; cbn [part_request perform part_callback] in *; unfold storage_iterator; rewrite Hi;
    run_method; unfold call_through; cbn [cgo_call]; rewrite ?gbind_assoc; erewrite gbind_eq by exact E;
    (destruct (fst m) as [[[[[] []]|] gas]|x]; [reflexivity..|]); unfold method_reply;
    cbn [iter_result panicked only_code gr_code gr_error_msg gr_used_gas];
    by rewrite into_result_panic.
Qed.
End Advance.

(** ** Iterator objects of the mocks *)

Section MockScan.
Context {T : Type} `{BTreeLaws T} `{CaseMapping} `{ErrorTexts} `{SerdeJson}.
Implicit Types w : world (mock_host T).

(** The host with an iterator object as given. *)
Definition with_iter (o : Z) (i : memDBIterator) (w : world (mock_host T)) : world (mock_host T) :=
  set_host (mkMockHost (mh_store (w_host w)) (<[o := i]> (mh_iters (w_host w))) (mh_querier (w_host w))) w.
Lemma with_iter_same o i w : mh_iters (w_host w) !! o = Some i -> with_iter o i w = w.
Proof. intros E. unfold with_iter. rewrite insert_id by done. by destruct w as [? ? ? []]. Qed.

Lemma mock_iter_valid o i w :
  mh_iters (w_host w) !! o = Some i -> Iterator_Valid o w = (Ret (Valid i), w).
Proof.
  intros E. rewrite <- (with_iter_same o i w E) at 2.
  cbn [Iterator_Valid mocks]. unfold on_host, iter_method. by rewrite E.
Qed.
Lemma mock_iter_reads o i it ch w :
  mh_iters (w_host w) !! o = Some i -> remaining i = it :: ch ->
  exists i', remaining i' = ch /\ Valid i = true /\
    Iterator_Key o w = (Ret (Some (item_key it)), w) /\
    Iterator_Value o w = (Ret (Some (item_value it)), w) /\
    Iterator_Next o w = (Ret tt, with_iter o i' w).
Proof.
  intros E Hr. unfold remaining in Hr. destruct (mi_item i) as [it'|] eqn:Ei; [|done].
  injection Hr as -> Hch. exists (mkMemDBIterator (head (mi_ch i)) (tail (mi_ch i)) (mi_start i) (mi_end i)).
  split_and!.
  - unfold remaining. cbn [mi_item mi_ch]. rewrite Hch. by destruct ch.
  - unfold Valid. by rewrite Ei.
  - rewrite <- (with_iter_same o i w E) at 2.
    cbn [Iterator_Key mocks]. unfold on_host, iter_method. rewrite E.
    unfold reader, Key, assertIsValid. by rewrite Ei.
  - rewrite <- (with_iter_same o i w E) at 2.
    cbn [Iterator_Value mocks]. unfold on_host, iter_method. rewrite E.
    unfold reader, Value, assertIsValid. by rewrite Ei.
  - cbn [Iterator_Next mocks]. unfold on_host, iter_method. rewrite E.
    unfold Next, assertIsValid. by rewrite Ei.
Qed.

End MockScan.

(** ** Properties *)

(** C22. A scan opens exactly the iterator the host gives for the bounds and
    the order, stores it at the end of the frame of the call, returns the
    number of iterators opened before as its ID and charges what the gas
    meter says.  Another order is a bad argument without the store being
    asked, a panic of the host an error without a charge.  When the frame is
    full the scan is refused, charged, and leaks: the iterator the store has
    opened is in no frame, so that it is never closed. *)
Theorem scan_exact {H : Type} `{HostLaws H} `{ErrorTexts} `{SerdeJson} (st : DBState) (api : option GoAPI)
    (querier : option iface) (iters : list GoIter) (kv gm : Z) (start end_ : bytes) (order : Z)
    (w : world H) :
  let m := scan_call kv gm order start end_ (lend_bound end_ (lend_bound start w)) in
  let '(rep, its, frames) := scan_outcome (CallID st) gm iters (fst m) (snd m) in
  Store st = Some kv -> blen start < two31 -> blen end_ < two31 -> zlen iters < two32 ->
  heap_wf (w_heap w) ->
  exists w', perform (go_backend st (Some (Some gm)) api querier) iters (RScan start end_ order) w =
      (Ret (rep, its), w') /\
    w_host w' = w_host (snd m) /\ iteratorFrames w' = frames /\
    blocks (w_heap w') = blocks (w_heap w).
Proof.
  pose proof (perform_scan st api querier iters kv gm start end_ order w) as Hp. cbv zeta in *.
  destruct (scan_outcome _ _ _ _ _) as [[rep its] frames]. intros Hkv Hs He Hl Hw.
  destruct (Hp Hkv Hs He Hl Hw) as (w' & E & Eh & Ef & _ & Hb). by exists w'.
Qed.

(** C21. Advancing an iterator by a record, a key or a value gives exactly the
    entry the host's iterator stands on, moves that iterator on and charges
    what the gas meter says; at its end it gives nothing and charges nothing.
    The iterator is the one the call stored under the ID, whatever other
    calls do.  A key without a value is an error, as is a panic of the
    host.  *)
Theorem iterator_exact {H : Type} `{HostLaws H} `{ErrorTexts} `{SerdeJson} (p : part) (b : backend)
    (iters : list GoIter) (id c n it gm : Z) (w : world H) :
  iters !! Z.to_nat id = Some (mkGoIter (Some (Some gm)) (mkIteratorReference c n) iterator_vtable) ->
  c <> 0 -> 1 <= n <= MaxInt32 -> lookup_id (frame_of c w) n = Some it -> heap_wf (w_heap w) ->
  let m := iter_call p it gm w in
  exists w', perform b iters (part_request p id) w = (Ret (iter_reply p (fst m), iters), w') /\
    w_host w' = w_host (snd m) /\ iteratorFrames w' = iteratorFrames (snd m) /\
    blocks (w_heap w') = blocks (w_heap w).
Proof.
  intros Hi Hc Hn Hl Hw m.
  destruct (perform_iter p b iters id c n it gm w Hi Hc Hn Hl Hw) as (w' & E & Eh & Ef & _ & Hb).
  by exists w'.
Qed.

#[local] Existing Instance id_case.
#[local] Existing Instance example_texts.
#[local] Existing Instance example_serde.
Lemma scan_exact_witness :
  let w := example_world 1000000 [("k", "v")]%string in
  exists w', perform (example_backend 1) [] (RScan None None 1) w =
    (Ret (mkReply (inr (IteratorId 0)) (with_externally_used 261000),
          [mkGoIter (Some (Some 1)) (mkIteratorReference 1 1) iterator_vtable]), w').
Proof.
  intros w.
  destruct (scan_exact (buildDBState (Some 2) 1) (Some example_api) (Some (Some 3)) [] 2 1 None None 1 w)
    as (w' & E & _); [reflexivity|reflexivity|reflexivity|reflexivity|exact empty_heap_wf|].
  exists w'. exact E.
Defined.
Lemma iterator_exact_witness :
  let w := snd (perform (example_backend 1) [] (RScan None None 1)
    (example_world 1000000 [("k", "v")]%string)) in
  let iters := [mkGoIter (Some (Some 1)) (mkIteratorReference 1 1) iterator_vtable] in
  exists w', perform (example_backend 1) iters (RNextValue 0) w =
    (Ret (mkReply (inr (Found (Some "v"%string))) (with_externally_used 0), iters), w').
Proof.
  intros w iters. edestruct (iterator_exact PValue (example_backend 1) iters 0 1 1 1 1 w)
    as (w' & E & _);
    [reflexivity|lia|split; vm_compute; discriminate|vm_compute; reflexivity| |].
  - split; [reflexivity|]. intros p d. vm_compute. discriminate.
  - exists w'. exact E.
Defined.
