(* ===== verification/StoreSpec.v ===== *)
(** * What a contract sees of its store

    The abstract store: a map of keys to values, a gas counter with a limit,
    and the iterators that are open, each the list of entries it has still to
    deliver.  A contract that uses its store in any way, reading, writing,
    scanning and advancing iterators, gets through the Rust side, the
    callbacks, the frames, the mock store, its gas meter and the B-tree
    exactly what the abstract store gives. *)

From stdpp Require Import sorting.
From S2P Require Import Prelude GoText RustText Json JsonParse Codec Scalars Types Errors Queries Memory MemDB World Mocks Iterators Callbacks Vtables Backend Storage Scans.

(** ** The specification *)

Record store_state := mkStore {
  ss_map : gmap string string;
  ss_used : Z;
  ss_iters : list (list (string * string));
}.

Inductive storage_op :=
| OStore (op : store_op)
| OScan (start end_ : bytes) (order : Z)
| ONext (p : part) (id : Z).
Definition storage_request (op : storage_op) : request :=
  match op with
  | OStore op => request_of op
  | OScan start end_ order => RScan start end_ order
  | ONext p id => part_request p id
  end.

(** The entries of a range, by their keys. *)
Definition key_in_range (start end_ : bytes) (k : string) : bool :=
  key_le (string_of_bytes start) k && match end_ with Some e => key_lt k e | None => true end.
Definition entry_le (a b : string * string) : Prop := key_le (fst a) (fst b) = true.
#[export] Instance entry_le_dec : RelDecision entry_le.
Proof. intros a b. unfold entry_le. apply _. Defined.
Definition range_entries (start end_ : bytes) (m : gmap string string) : list (string * string) :=
  merge_sort entry_le
    (List.filter (fun kv => key_in_range start end_ (fst kv)) (map_to_list m)).

(** Operations are paid first; what does not fit the limit is refused, and
    the counter keeps the attempt. *)
Definition store_step (limit : Z) (op : store_op) (s : store_state) : reply * store_state :=
  let used := ss_used s + price op in
  let refuse e :=
    (mkReply (inl e) (with_externally_used 0), mkStore (ss_map s) used (ss_iters s)) in
  let accept a m := (mkReply (inr a) (with_externally_used (price op)), mkStore m used (ss_iters s)) in
  if limit <? used then refuse out_of_gas
  else if String.eqb (op_key op) EmptyString then refuse foreign_panic
  else
    match op with
    | SGet k => accept (Found (ss_map s !! k)) (ss_map s)
    | SSet k v => accept Done (<[k := v]> (ss_map s))
    | SRemove k => accept Done (delete k (ss_map s))
    end.
Definition scan_step (limit : Z) (start end_ : bytes) (order : Z) (s : store_state) : reply * store_state :=
  let used := ss_used s + RangePrice in
  let paid its := mkStore (ss_map s) used its in
  if negb ((order =? 1) || (order =? 2)) then (mkReply (inl bad_argument) (with_externally_used 0), s)
  else if limit <? used then (mkReply (inl out_of_gas) (with_externally_used 0), paid (ss_iters s))
  else if empty_bound start || empty_bound end_
  then (mkReply (inl foreign_panic) (with_externally_used 0), paid (ss_iters s))
  else if frameLenLimit <=? zlen (ss_iters s)
  then (mkReply (inl (user_err limit_text)) (with_externally_used RangePrice), paid (ss_iters s))
  else
    let l := range_entries start end_ (ss_map s) in
    (mkReply (inr (IteratorId (zlen (ss_iters s)))) (with_externally_used RangePrice),
     paid (ss_iters s ++ [if order =? 2 then rev l else l])).
(** Reading from an iterator costs nothing. *)
Definition next_step (p : part) (id : Z) (s : store_state) : reply * store_state :=
  match ss_iters s !! Z.to_nat id with
  | None => (mkReply (inl (iterator_does_not_exist id)) gas_free, s)
  | Some [] =>
    (mkReply (inr (match p with PRecord => NextRecord None | _ => Found None end))
       (with_externally_used 0), s)
  | Some ((k, v) :: l) =>
    (mkReply (inr (match p with
                   | PRecord => NextRecord (Some (k, v))
                   | PKey => Found (Some k)
                   | PValue => Found (Some v)
                   end)) (with_externally_used 0),
     mkStore (ss_map s) (ss_used s) (<[Z.to_nat id := l]> (ss_iters s)))
  end.
Definition spec_step (limit : Z) (op : storage_op) (s : store_state) : reply * store_state :=
  match op with
  | OStore op => store_step limit op s
  | OScan start end_ order => scan_step limit start end_ order s
  | ONext p id => next_step p id s
  end.

(** Contracts that use their store only; what they do may depend on what
    they have read. *)
Inductive storage_prog (R : Type) :=
| SDone (r : R)
| SCall (op : storage_op) (k : reply -> storage_prog R).
Arguments SDone {R} _.
Arguments SCall {R} _ _.
Fixpoint compiled {R} (p : storage_prog R) : vm_prog R :=
  match p with
  | SDone r => VDone r
  | SCall op k => VCall (storage_request op) (fun rep => compiled (k rep))
  end.
Fixpoint spec_run {R} (limit : Z) (p : storage_prog R) (s : store_state) : R * store_state :=
  match p with
  | SDone r => (r, s)
  | SCall op k => let '(rep, s) := spec_step limit op s in spec_run limit (k rep) s
  end.

(** What the theorem asks of an operation: keys, values and bounds that Go can
    copy; and no write while an iterator has more than 65 entries left, the
    one it stands on and the 64 its channel holds, because such a write
    waits for the iterator ([MemDBConc.writes_wait]). *)
Definition writable (s : store_state) : Prop := Forall (fun l => zlen l <= 65) (ss_iters s).
Definition op_allowed (op : storage_op) (s : store_state) : Prop :=
  match op with
  | OStore (SGet k) => op_small (SGet k)
  | OStore op => op_small op /\ writable s
  | OScan start end_ _ => blen start < two31 /\ blen end_ < two31
  | ONext _ id => 0 <= id
  end.
Fixpoint allowed {R} (limit : Z) (p : storage_prog R) (s : store_state) : Prop :=
  match p with
  | SDone _ => True
  | SCall op k =>
    op_allowed op s /\ let '(rep, s) := spec_step limit op s in allowed limit (k rep) s
  end.

(** ** Ranges *)

Section Ranges.

Definition pair_of (i : item) : string * string := (item_key i, item_value i).
Abbreviation sorted := (StronglySorted (fun a b => Less a b = true)).

Lemma find_sorted l i : sorted l -> i ∈ l -> find_item (item_key i) l = Some i.
Proof.
  unfold find_item. induction 1 as [|j l Hs IH Hj]; cbn; [by intros ?%elem_of_nil|].
  intros [-> | Hi]%elem_of_cons; [by rewrite String.eqb_refl|].
  destruct (String.eqb_spec (item_key j) (item_key i)) as [E|]; [|by apply IH].
  rewrite Forall_forall in Hj. specialize (Hj i Hi). unfold Less in Hj.
  by rewrite E, key_lt_irrefl in Hj.
Qed.
Lemma find_elem l k i : find_item k l = Some i -> i ∈ l /\ item_key i = k.
Proof.
  unfold find_item. intros E. apply List.find_some in E as [Hi Hk].
  split; [by apply list_elem_of_In|by apply String.eqb_eq].
Qed.

Lemma pairs_sorted l : sorted l -> StronglySorted entry_le (map pair_of l).
Proof.
  induction 1 as [|i l Hs IH Hi]; cbn; constructor; [done|]. apply Forall_map.
  eapply Forall_impl; [exact Hi|]. intros j Hj. cbn. unfold entry_le, key_le, Less in *. cbn.
  by rewrite (key_lt_antisym _ _ Hj).
Qed.
Lemma pairs_nodup l : sorted l -> NoDup (map pair_of l).
Proof.
  induction 1 as [|i l Hs IH Hi]; cbn; constructor; [|done].
  intros (j & E & Hj)%list_elem_of_fmap. rewrite Forall_forall in Hi. specialize (Hi j Hj).
  injection E as Ek _. unfold Less in Hi. by rewrite Ek, key_lt_irrefl in Hi.
Qed.
#[export] Instance entry_le_trans : Transitive entry_le.
Proof.
  intros a b c. unfold entry_le, key_le. rewrite !negb_true_iff. intros H1 H2.
  destruct (key_lt (fst c) (fst a)) eqn:E; [|done].
  pose proof (key_lt_le_trans _ _ _ E H1) as E3. congruence.
Qed.
#[export] Instance entry_le_total : Total entry_le.
Proof.
  intros a b. unfold entry_le, key_le. rewrite !negb_true_iff.
  destruct (key_lt (fst b) (fst a)) eqn:E; [|by left]. right. by apply key_lt_antisym.
Qed.

Lemma range_nodup start end_ (m : gmap string string) :
  NoDup (List.filter (fun kv => key_in_range start end_ (fst kv)) (map_to_list m)).
Proof. apply NoDup_ListNoDup, List.NoDup_filter, NoDup_ListNoDup, NoDup_map_to_list. Qed.

(** The items of a B-tree in a range are the entries of its map in the
    range. *)
Lemma items_range (items : list item) (m : gmap string string) start end_ :
  sorted items -> (forall k, option_map item_value (find_item k items) = m !! k) ->
  map pair_of (List.filter (in_range start end_) items) = range_entries start end_ m.
Proof.
  intros Hs Hm. pose proof (sorted_filter _ (in_range start end_) _ Hs) as Hf.
  apply (StronglySorted_unique_strong entry_le).
  - intros [k1 v1] [k2 v2] H1 H2 L1 L2. unfold range_entries in H2. rewrite merge_sort_Permutation in H2.
    apply list_elem_of_fmap in H1 as (i & [= -> ->] & Hi).
    apply list_elem_of_In, filter_In in Hi as [Hi _]. apply list_elem_of_In in Hi.
    apply list_elem_of_In, filter_In in H2 as [H2 _]. apply list_elem_of_In, elem_of_map_to_list in H2.
    unfold entry_le, key_le in L1, L2. rewrite !negb_true_iff in L1, L2. cbn in L1, L2.
    pose proof (key_lt_total _ _ L2 L1) as <-.
    rewrite <- Hm, (find_sorted _ _ Hs Hi) in H2. by injection H2 as <-.
  - by apply pairs_sorted.
  - apply Sorted_StronglySorted; [apply _|]. apply Sorted_merge_sort. apply _.
  - unfold range_entries. rewrite merge_sort_Permutation. apply NoDup_Permutation.
    + by apply pairs_nodup.
    + apply range_nodup.
    + intros [k v]. split.
      * intros (i & [= -> ->] & Hi)%list_elem_of_fmap. apply list_elem_of_In, filter_In in Hi as [Hi Hr].
        apply list_elem_of_In in Hi. apply list_elem_of_In, filter_In. split; [|done].
        apply list_elem_of_In, elem_of_map_to_list. by rewrite <- Hm, (find_sorted _ _ Hs Hi).
      * intros [E Hr]%list_elem_of_In%filter_In. apply list_elem_of_In, elem_of_map_to_list in E.
        rewrite <- Hm in E. destruct (find_item k items) as [i|] eqn:Ei; [|done]. injection E as <-.
        apply find_elem in Ei as [Hi <-]. apply list_elem_of_fmap. exists i. split; [done|].
        apply list_elem_of_In, filter_In. split; [by apply list_elem_of_In|done].
Qed.
End Ranges.

(** ** The simulation *)

(** The table of a call with [n] iterators. *)
Definition call_table (c gm : Z) (n : nat) : list GoIter :=
  map (fun i => mkGoIter (Some (Some gm)) (mkIteratorReference c (Z.of_nat i + 1)) iterator_vtable)
    (seq 0 n).
Lemma call_table_S c gm n :
  call_table c gm (S n) =
  call_table c gm n ++ [mkGoIter (Some (Some gm)) (mkIteratorReference c (Z.of_nat n + 1)) iterator_vtable].
Proof. unfold call_table. by rewrite seq_S, map_app. Qed.
Lemma call_table_lookup c gm n i :
  (i < n)%nat ->
  call_table c gm n !! i =
    Some (mkGoIter (Some (Some gm)) (mkIteratorReference c (Z.of_nat i + 1)) iterator_vtable).
Proof.
  intros Hi. unfold call_table. etransitivity; [apply list_lookup_fmap|]. by rewrite lookup_seq_lt.
Qed.
Lemma call_table_length c gm n : length (call_table c gm n) = n.
Proof. unfold call_table. by rewrite length_map, length_seq. Qed.

Section Simulation.
Context {T : Type} `{BTreeLaws T} `{CaseMapping} `{ErrorTexts} `{SerdeJson}.
Context (limit c gm kv : Z).
Implicit Types w : world (mock_host T).
Implicit Types s : store_state.

(** The B-tree has the entries of the map and the meter its counter; the
    objects in the frame of the call deliver what the iterators of the
    specification have left, and no object is there twice. *)
Record simulates (iters : list GoIter) w s : Prop := {
  sim_map k : option_map item_value (find_item k (bt_items (lk_db (mh_store (w_host w))))) = ss_map s !! k;
  sim_limit : gm_limit (lk_meter (mh_store (w_host w))) = limit;
  sim_used : gm_consumed (lk_meter (mh_store (w_host w))) = ss_used s;
  sim_objects : exists os : list Z,
    frame_of c w = map Some os /\ NoDup os /\ iters = call_table c gm (length os) /\
    Forall2 (fun o l => exists it, mh_iters (w_host w) !! o = Some it /\ map pair_of (remaining it) = l)
      os (ss_iters s);
  sim_fresh o : is_Some (mh_iters (w_host w) !! o) -> 1 <= o <= zlen (map_to_list (mh_iters (w_host w)));
  sim_count : zlen (ss_iters s) <= frameLenLimit;
}.

(** What depends on the host and the frames only. *)
Lemma simulates_heap iters w w' s :
  w_host w' = w_host w -> iteratorFrames w' = iteratorFrames w -> simulates iters w s -> simulates iters w' s.
Proof.
  intros Eh Ef [S1 S2 S3 S4 S5 S6]. split; rewrite ?Eh; try done.
  unfold frame_of in *. by rewrite Ef.
Qed.

Lemma charge_spec amount d (l : Lookup_ T) :
  0 <= gm_consumed (lk_meter l) -> 0 <= amount -> gm_consumed (lk_meter l) + amount < two64 ->
  charge amount d l =
    (if gm_limit (lk_meter l) <? gm_consumed (lk_meter l) + amount
     then Panic (ErrorOutOfGas d) else Ret tt,
     mkLookup (lk_db l) (mkMockGasMeter (gm_limit (lk_meter l)) (gm_consumed (lk_meter l) + amount))).
Proof.
  intros C1 C2 C3. unfold charge. rewrite ConsumeGas_ok by (unfold is_u64 in *; lia).
  rewrite (proj2 (Z.ltb_ge MaxUint64 _)) by (unfold MaxUint64; lia). by destruct (_ <? _).
Qed.

(** Reading, writing and removing on the mocks. *)
Lemma mock_store_step iters op w s :
  simulates iters w s -> 0 <= ss_used s -> ss_used s + price op < two64 ->
  let m := metered gm (store_call kv op) w in
  let '(rep, s') := store_step limit op s in
  reply_of op (fst m) = rep /\ simulates iters (snd m) s'.
Proof.
  intros [Hm Hl Hu Ho Hf Hc] Hnn Hp m. unfold m. clear m. rewrite metered_eq, mock_gas, mock_call.
  assert (0 < price op) as Hpos by (by destruct op).
  destruct (lookup_call_spec op (mh_store (w_host w))) as (r & -> & Hr); [unfold is_u64; lia|lia|].
  cbn [gm_limit gm_consumed] in *. rewrite Hl, Hu in *. unfold store_step.
  destruct (limit <? ss_used s + price op); cbn [orb] in *.
  { destruct Hr as [d ->]. cbn. split; [done|]. by split. }
  destruct (String.eqb_spec (op_key op) EmptyString) as [Ek|Ek].
  { destruct Hr as [t ->]. cbn. split; [done|]. by split. }
  rewrite Hr, mock_gas. cbn [w_host set_host mh_store lk_meter gm_consumed reply_of fst snd].
  assert (ss_used s + price op -u ss_used s = price op) as Hg.
  { replace (ss_used s + price op - ss_used s) with (price op) by lia. apply u64_id. unfold is_u64. lia. }
  rewrite Hg. destruct op as [k|k v|k]; cbn in *;
    (split; [|split; cbn; [intros k'|done|done|done|done|done]]).
  - by rewrite Hm.
  - by rewrite Hm.
  - done.
  - rewrite bt_ReplaceOrInsert_get. cbn [item_key].
    destruct (String.eqb_spec k k') as [<-|Hne]; [by rewrite lookup_insert_eq|].
    by rewrite lookup_insert_ne, Hm.
  - done.
  - rewrite bt_Delete_get.
    destruct (String.eqb_spec k k') as [<-|Hne]; [by rewrite lookup_delete_eq|].
    by rewrite lookup_delete_ne, Hm.
Qed.

(** The host after the price of a scan, and with a new iterator object. *)
Definition paid w : world (mock_host T) :=
  let l := mh_store (w_host w) in
  set_host (mkMockHost (mkLookup (lk_db l)
      (mkMockGasMeter (gm_limit (lk_meter l)) (gm_consumed (lk_meter l) + RangePrice)))
    (mh_iters (w_host w)) (mh_querier (w_host w))) w.
Definition new_object w : Z := zlen (map_to_list (mh_iters (w_host w))) + 1.

Lemma mock_scan_call start end_ order w :
  let g := lk_meter (mh_store (w_host w)) in
  0 <= gm_consumed g -> gm_consumed g + RangePrice < two64 ->
  exists p : panic_value, panic_type p = EmptyString /\
  scan_call kv gm order start end_ w =
    if negb ((order =? 1) || (order =? 2)) then (Ret None, w)
    else if gm_limit g <? gm_consumed g + RangePrice then (Panic (ErrorOutOfGas "range"), paid w)
    else if empty_bound start || empty_bound end_ then (Panic p, paid w)
    else (Ret (Some (Some (new_object w), RangePrice)),
          with_iter (new_object w)
            (newMemDBIterator (lk_db (mh_store (w_host w))) start end_ (order =? 2)) (paid w)).
Proof.
  intros g Hnn Hlt. exists (PanicValue EmptyString "key cannot be empty"). split; [done|].
  rewrite scan_call_eq, mock_gas. fold g. destruct (negb _) eqn:Ho; [done|].
  unfold open_iterator.
  assert ((gm_consumed g + RangePrice) -u gm_consumed g = RangePrice) as Hg.
  { replace (gm_consumed g + RangePrice - gm_consumed g) with RangePrice by lia. by apply u64_id. }
  assert (order = 1 \/ order = 2) as [-> | ->].
  { apply negb_false_iff, orb_true_iff in Ho as [E|E]; apply Z.eqb_eq in E; auto. }
  all: cbn [Z.eqb Pos.eqb KVStore_Iterator KVStore_ReverseIterator mocks];
    unfold on_host, on_store, Lookup_Iterator, Lookup_ReverseIterator, mbind, GoM_bind;
    rewrite charge_spec by (done || lia); fold g;
    (destruct (gm_limit g <? gm_consumed g + RangePrice); [done|]);
    cbn [gget lk_db]; unfold MemDB_Iterator, MemDB_ReverseIterator;
    (destruct (empty_bound start || empty_bound end_); [done|]);
    cbn [mret GoM_ret check add_iter mh_iters mh_store mh_querier fst snd];
    rewrite mock_gas; cbn [set_host w_host mh_store lk_meter gm_consumed]; by rewrite Hg.
Qed.

Lemma new_object_fresh w :
  (forall o, is_Some (mh_iters (w_host w) !! o) -> 1 <= o <= zlen (map_to_list (mh_iters (w_host w)))) ->
  mh_iters (w_host w) !! new_object w = None.
Proof.
  intros Hf. destruct (mh_iters (w_host w) !! new_object w) as [i|] eqn:E; [|done].
  specialize (Hf (new_object w) ltac:(by rewrite E)). unfold new_object in Hf. lia.
Qed.

Lemma simulates_paid iters w s :
  simulates iters w s ->
  simulates iters (set_frames (iteratorFrames w) (paid w))
    (mkStore (ss_map s) (ss_used s + RangePrice) (ss_iters s)).
Proof. intros [Hm Hl Hu Ho Hf Hc]. split; cbn; try done. by rewrite Hu. Qed.
Lemma objects_kept (m : gmap Z memDBIterator) o i os ls :
  m !! o = None ->
  Forall2 (fun o l => exists it, m !! o = Some it /\ map pair_of (remaining it) = l) os ls ->
  Forall2 (fun o' l => exists it, <[o := i]> m !! o' = Some it /\ map pair_of (remaining it) = l) os ls.
Proof.
  intros Ho Hall. eapply Forall2_impl; [exact Hall|]. intros o' l (it & Hi & Hr). exists it.
  split; [|done]. rewrite lookup_insert_ne; [done|]. intros <-. by rewrite Ho in Hi.
Qed.
Lemma objects_counted (m : gmap Z memDBIterator) i :
  (forall o, is_Some (m !! o) -> 1 <= o <= zlen (map_to_list m)) ->
  let o := zlen (map_to_list m) + 1 in
  forall o', is_Some (<[o := i]> m !! o') -> 1 <= o' <= zlen (map_to_list (<[o := i]> m)).
Proof.
  intros Hf o o' Ho'. assert (m !! o = None) as Hn.
  { destruct (m !! o) eqn:E; [|done]. specialize (Hf o ltac:(by rewrite E)). unfold o in Hf. lia. }
  assert (zlen (map_to_list (<[o := i]> m)) = zlen (map_to_list m) + 1) as ->.
  { unfold zlen. rewrite (Permutation_length (map_to_list_insert _ _ _ Hn)). cbn. lia. }
  pose proof (zlen_nonneg (map_to_list m)).
  destruct (decide (o' = o)) as [->|Hne]; [unfold o; lia|].
  rewrite lookup_insert_ne in Ho' by done. specialize (Hf o' Ho'). lia.
Qed.

Lemma mock_scan_step iters start end_ order w s :
  simulates iters w s -> 0 <= ss_used s -> ss_used s + RangePrice < two64 ->
  let m := scan_call kv gm order start end_ w in
  let '(rep, its, frames) := scan_outcome c gm iters (fst m) (snd m) in
  let '(rep', s') := scan_step limit start end_ order s in
  rep = rep' /\ simulates its (set_frames frames (snd m)) s'.
Proof.
  intros Hsim Hnn Hp m. pose proof Hsim as [Hm Hl Hu Ho Hf Hc].
  destruct (mock_scan_call start end_ order w) as (p & Ep & E); [lia..|].
  unfold m. rewrite E. clear E m. rewrite Hl, Hu. unfold scan_step.
  destruct (negb _); [cbn; split; [done|by split]|].
  destruct (limit <? ss_used s + RangePrice); [cbn; split; [done|by apply simulates_paid]|].
  assert (panic_error p = foreign_panic) as Efp by (unfold panic_error; by rewrite Ep).
  destruct (empty_bound start || empty_bound end_); 
    [cbn; rewrite Efp; split; [done|by apply simulates_paid]|].
  destruct Ho as (os & Hfr & Hnd & -> & Hit). pose proof (Forall2_length _ _ _ Hit) as Hlen.
  cbn [fst snd scan_outcome].
  assert (frame_of c (with_iter (new_object w) (newMemDBIterator (lk_db (mh_store (w_host w))) start end_
    (order =? 2)) (paid w)) = map Some os) as Hfr' by exact Hfr.
  rewrite Hfr'. assert (zlen (map Some os) = zlen (ss_iters s)) as Hz
    by (unfold zlen; by rewrite length_map, Hlen).
  rewrite Hz. destruct (Z.leb_spec frameLenLimit (zlen (ss_iters s))) as [Hfull|Hroom].
  - split; [done|]. split; cbn; [done|done|by rewrite Hu| |by apply objects_counted|done].
    exists os. split_and!; [done|done|done|]. apply objects_kept; [by apply new_object_fresh|done].
  - assert (zlen (call_table c gm (length os)) = zlen (ss_iters s)) as Hzt
      by (unfold zlen; by rewrite call_table_length, Hlen).
    rewrite Hzt. split; [done|]. split; cbn; [done|done|by rewrite Hu| |by apply objects_counted|].
    + exists (os ++ [new_object w]). split_and!.
      * unfold frame_of. cbn. rewrite lookup_insert_eq. cbn. by rewrite map_app.
      * apply NoDup_app. split_and!; [done| |apply NoDup_singleton]. intros o Ho ->%list_elem_of_singleton.
        apply list_elem_of_lookup in Ho as [i Hi].
        destruct (Forall2_lookup_l _ _ _ _ _ Hit Hi) as (l & _ & it & Hi2 & _).
        by rewrite new_object_fresh in Hi2.
      * rewrite length_app, Nat.add_1_r, call_table_S. unfold zlen. by rewrite Hlen.
      * apply Forall2_app; [apply objects_kept; [by apply new_object_fresh|done]|].
        constructor; [|constructor]. rewrite lookup_insert_eq. eexists. split; [done|].
        rewrite remaining_new, traversal_range. cbv zeta. rewrite <- (items_range _ _ _ _ (bt_sorted _) Hm).
        destruct (order =? 2); [by rewrite map_rev|done].
    + rewrite zlen_app. change (zlen [_]) with 1. lia.
Qed.

(** Advancing an iterator object of the mocks. *)
Lemma mock_iter_call p o it w :
  mh_iters (w_host w) !! o = Some it ->
  match remaining it with
  | [] => iter_call p o gm w = (Ret (None, 0), w)
  | i :: l => exists it', remaining it' = l /\
      iter_call p o gm w =
        (Ret (Some (match p with PRecord => Some (item_key i) | _ => None end,
                    Some (match p with PKey => item_key i | _ => item_value i end)), 0),
         with_iter o it' w)
  end.
Proof.
  intros Ho. rewrite iter_call_eq, (mock_iter_valid o it w Ho).
  destruct (remaining it) as [|i l] eqn:Er.
  - assert (Valid it = false) as -> by (unfold remaining in Er; unfold Valid; by destruct (mi_item it)).
    done.
  - destruct (mock_iter_reads o it i l w Ho Er) as (it' & Hr & -> & Ek & Ev & En). exists it'.
    split; [done|]. rewrite mock_gas.
    assert (read_part p o w = (Ret (match p with PRecord => Some (item_key i) | _ => None end,
      Some (match p with PKey => item_key i | _ => item_value i end)), w)) as ->.
    { destruct p; [by rewrite read_record_eq, Ek, Ev|rewrite read_part_eq by done; cbn [part_fn]; by rewrite Ek|].
      rewrite read_part_eq by done. cbn [part_fn]. by rewrite Ev. }
    rewrite En, mock_gas. cbn [with_iter w_host set_host mh_store]. by rewrite Z.sub_diag.
Qed.

Lemma mock_next b iters p id w s :
  simulates iters w s -> 0 <= id -> c <> 0 -> heap_wf (w_heap w) ->
  exists w', perform b iters (part_request p id) w = (Ret (fst (next_step p id s), iters), w') /\
    simulates iters w' (snd (next_step p id s)) /\
    heap_wf (w_heap w') /\ blocks (w_heap w') = blocks (w_heap w).
Proof.
  intros Hsim Hid Hc Hw. pose proof Hsim as [Hm Hl Hu (os & Hfr & Hnd & -> & Hit) Hf Hcnt].
  pose proof (Forall2_length _ _ _ Hit) as Hlen. unfold next_step.
  destruct (ss_iters s !! Z.to_nat id) as [l|] eqn:El.
  2: { exists w. split_and!; [|done|done|done]. apply lookup_ge_None in El.
       assert (call_table c gm (length os) !! Z.to_nat id = None) as En
         by (apply lookup_ge_None; rewrite call_table_length; lia).
       destruct p; cbn [part_request perform]; unfold storage_iterator; by rewrite En. }
  pose proof (Forall2_lookup_r _ _ _ _ _ Hit El) as (o & Hos & it & Ho & Hr).
  pose proof (lookup_lt_Some _ _ _ El) as Hlt. pose proof (lookup_lt_Some _ _ _ Hos) as Hlt'.
  destruct (perform_iter p b (call_table c gm (length os)) id c (Z.of_nat (Z.to_nat id) + 1) o gm w)
    as (w' & E & Eh & Ef & Hw' & Hb).
  - by apply call_table_lookup.
  - done.
  - unfold MaxInt32, frameLenLimit, zlen in *. lia.
  - rewrite Hfr. unfold lookup_id. rewrite Z.add_simpl_r, Nat2Z.id.
    etransitivity; [by rewrite list_lookup_fmap|]. by rewrite Hos.
  - done.
  - exists w'. pose proof (mock_iter_call p o it w Ho) as Hcall.
    destruct (remaining it) as [|i r]; cbn in Hr; subst l.
    + rewrite Hcall in *. split_and!; [by destruct p| |done|done]. by apply (simulates_heap _ w).
    + destruct Hcall as (it' & Hr' & Ec). rewrite Ec in *. cbn [fst snd] in *.
      cbn [pair_of]. split_and!; [by destruct p| |done|done].
      apply (simulates_heap _ (with_iter o it' w)); [done|done|]. split; cbn; try done.
      * exists os. split_and!; [done|done|done|].
        apply Forall2_same_length_lookup. split; [by rewrite length_insert|]. intros j oj lj Hoj Hlj.
        destruct (decide (j = Z.to_nat id)) as [->|Hne].
        -- rewrite list_lookup_insert_eq in Hlj by done. injection Hlj as <-.
           rewrite Hos in Hoj. injection Hoj as <-. rewrite lookup_insert_eq. exists it'.
           split; [done|]. by rewrite Hr'.
        -- rewrite list_lookup_insert_ne in Hlj by done.
           destruct (Forall2_lookup_lr _ _ _ _ _ _ Hit Hoj Hlj) as (itj & Hij & Hrj). exists itj.
           split; [|done]. rewrite lookup_insert_ne; [done|]. intros <-.
           by apply Hne, (NoDup_lookup _ _ _ _ Hnd Hoj).
      * intros o' Ho'. unfold zlen in *. rewrite length_map_to_list, map_size_insert, Ho. unfold Datatypes.id.
        rewrite <- length_map_to_list. apply Hf.
        destruct (decide (o' = o)) as [->|Hne]; [by rewrite Ho|by rewrite lookup_insert_ne in Ho'].
      * unfold zlen in *. by rewrite length_insert.
Qed.

(** One request. *)
Lemma storage_step st api q0 iters op w s :
  Store st = Some kv -> CallID st = c -> c <> 0 -> heap_wf (w_heap w) ->
  simulates iters w s -> op_allowed op s -> 0 <= ss_used s ->
  ss_used (snd (spec_step limit op s)) < two64 ->
  exists its w', perform (go_backend st (Some (Some gm)) api q0) iters (storage_request op) w =
      (Ret (fst (spec_step limit op s), its), w') /\
    simulates its w' (snd (spec_step limit op s)) /\
    heap_wf (w_heap w') /\ blocks (w_heap w') = blocks (w_heap w).
Proof.
  intros Hkv Hcall Hc Hw Hsim Hop Hnn Hlt. destruct op as [op|start end_ order|p id].
  - assert (op_small op) as Hs by (destruct op; cbn in Hop; [done|apply Hop..]).
    destruct (perform_store st api q0 iters kv gm op w Hkv Hs Hw) as (w' & E & Eh & Ef & Hw' & Hb).
    cbn [spec_step storage_request] in *.
    assert (ss_used s + price op < two64) as Hlt'.
    { revert Hlt. unfold store_step. repeat (case_match; cbn [snd ss_used]; try lia). }
    assert (simulates iters (lent op w) s) as Hsim' by (destruct op; by apply (simulates_heap _ w)).
    pose proof (mock_store_step iters op (lent op w) s Hsim' Hnn Hlt') as Hm. cbv zeta in Hm.
    destruct (store_step limit op s) as [rep s']. destruct Hm as [<- Hm]. exists iters, w'.
    split_and!; [exact E| |done|done]. by eapply simulates_heap.
  - destruct Hop as [Hs He]. cbn [spec_step storage_request] in *.
    pose proof (perform_scan st api q0 iters kv gm start end_ order w) as Hp.
    assert (simulates iters (lend_bound end_ (lend_bound start w)) s) as Hsim'
      by (apply (simulates_heap _ w); [by destruct start, end_..|done]).
    assert (zlen iters < two32) as H32.
    { destruct Hsim as [_ _ _ (os & _ & _ & -> & Hit) _ Hcnt].
      unfold zlen in *. rewrite call_table_length, (Forall2_length _ _ _ Hit).
      unfold frameLenLimit, two32 in *. lia. }
    cbv zeta in Hp. rewrite Hcall in Hp.
    destruct (decide (ss_used s + RangePrice < two64)) as [Hlt'|Hge].
    + pose proof (mock_scan_step iters start end_ order _ s Hsim' Hnn Hlt') as Hm. cbv zeta in Hm.
      destruct (scan_outcome _ _ _ _ _) as [[rep its] frames]. destruct (scan_step _ _ _ _ _) as [rep' s'].
      destruct Hm as [<- Hm]. destruct (Hp Hkv Hs He H32 Hw) as (w' & E & Eh & Ef & Hw' & Hb).
      exists its, w'. split_and!; [exact E| |done|done]. by eapply simulates_heap; [| |exact Hm].
    + (* only an order that is none is not charged *)
      assert (negb ((order =? 1) || (order =? 2)) = true) as Ho.
      { revert Hlt. unfold scan_step. repeat (case_match; cbn [snd ss_used]; try lia). }
      unfold scan_step in *. rewrite Ho in *.
      assert (scan_call kv gm order start end_ (lend_bound end_ (lend_bound start w)) =
        (Ret None, lend_bound end_ (lend_bound start w))) as Ec
        by (by rewrite scan_call_eq, mock_gas, Ho).
      rewrite Ec in Hp. cbn [fst snd scan_outcome] in *.
      destruct (Hp Hkv Hs He H32 Hw) as (w' & E & Eh & Ef & Hw' & Hb).
      exists iters, w'. split_and!; [exact E| |done|done]. by eapply simulates_heap.
  - cbn [spec_step storage_request] in *.
    destruct (mock_next (go_backend st (Some (Some gm)) api q0) iters p id w s Hsim Hop Hc Hw)
      as (w' & E & Hs' & Hw' & Hb). by exists iters, w'.
Qed.
End Simulation.

Lemma spec_step_used limit op s : ss_used s <= ss_used (snd (spec_step limit op s)).
Proof.
  destruct op as [op|start end_ order|p id]; cbn [spec_step].
  - assert (0 <= price op) by (by destruct op). unfold store_step.
    repeat (case_match; cbn [snd ss_used]; try lia).
  - unfold scan_step, RangePrice. repeat (case_match; cbn [snd ss_used]; try lia).
  - unfold next_step. repeat (case_match; cbn [snd ss_used]; try lia).
Qed.
Lemma spec_run_used {R} limit (p : storage_prog R) s : ss_used s <= ss_used (snd (spec_run limit p s)).
Proof.
  revert s. induction p as [r|op k IH]; intros s; cbn [spec_run]; [done|].
  pose proof (spec_step_used limit op s) as Hs.
  destruct (spec_step limit op s) as [rep s']. cbn [snd] in Hs. specialize (IH rep s'). lia.
Qed.

Lemma run_refines {T : Type} `{BTreeLaws T} `{CaseMapping} `{ErrorTexts} `{SerdeJson} {R : Type}
    (limit kv gm : Z) (st : DBState) (api : option GoAPI) (querier : option iface)
    (p : storage_prog R) (w : world (mock_host T)) (s : store_state) (iters : list GoIter) :
  Store st = Some kv -> CallID st <> 0 -> heap_wf (w_heap w) ->
  simulates limit (CallID st) gm iters w s -> 0 <= ss_used s -> allowed limit p s ->
  ss_used (snd (spec_run limit p s)) < two64 ->
  exists its w', run (go_backend st (Some (Some gm)) api querier) iters (compiled p) w =
      (Ret (fst (spec_run limit p s)), w') /\
    simulates limit (CallID st) gm its w' (snd (spec_run limit p s)) /\
    blocks (w_heap w') = blocks (w_heap w).
Proof.
  intros Hkv Hc. revert w s iters.
  induction p as [r|op k IH]; intros w s iters Hw Hs Hnn Ha Hlt.
  { by exists iters, w. }
  cbn [allowed compiled run spec_run] in *. destruct Ha as [Hop Ha].
  pose proof (spec_step_used limit op s) as Hu.
  pose proof (storage_step limit (CallID st) gm kv st api querier iters op w s Hkv eq_refl Hc Hw Hs Hop Hnn)
    as Hstep.
  destruct (spec_step limit op s) as [rep s'] eqn:Es. cbn [fst snd] in *.
  pose proof (spec_run_used limit (k rep) s') as Hmono.
  destruct Hstep as (its & w1 & E & Hs1 & Hw1 & Hb1); [lia|].
  destruct (IH rep w1 s' its Hw1 Hs1 ltac:(lia) Ha Hlt) as (its' & w' & E' & Hs' & Hb').
  exists its', w'. split_and!; [|done|congruence]. by erewrite gbind_eq by exact E.
Qed.

(** *** Reading an iterator to its end *)

Fixpoint drain (fuel : nat) (id : Z) (acc : list (string * string)) :
    storage_prog (list (string * string)) :=
  match fuel with
  | O => SDone (rev acc)
  | S fuel => SCall (ONext PRecord id) (fun rep =>
      match rp_result rep with
      | inr (NextRecord (Some kv)) => drain fuel id (kv :: acc)
      | _ => SDone (rev acc)
      end)
  end.
(** A contract that scans a range. *)
Definition scan_all (fuel : nat) (start end_ : bytes) (order : Z) :
    storage_prog (list (string * string)) :=
  SCall (OScan start end_ order) (fun rep =>
    match rp_result rep with
    | inr (IteratorId id) => drain fuel id []
    | _ => SDone []
    end).

Lemma drain_spec limit fuel id acc l s :
  ss_iters s !! Z.to_nat id = Some l -> 0 <= id -> (length l < fuel)%nat ->
  allowed limit (drain fuel id acc) s /\
  spec_run limit (drain fuel id acc) s =
    (rev acc ++ l, mkStore (ss_map s) (ss_used s) (<[Z.to_nat id := []]> (ss_iters s))).
Proof.
  revert acc l s. induction fuel as [|fuel IH]; intros acc l s Hl Hid Hf; [lia|].
  cbn [drain allowed spec_run spec_step op_allowed]. unfold next_step. rewrite Hl.
  destruct l as [|[k v] l]; cbn [rp_result].
  - split; [done|]. rewrite app_nil_r. cbn [spec_run]. rewrite list_insert_id by done. by destruct s.
  - cbn in Hf. destruct (IH ((k, v) :: acc) l
      (mkStore (ss_map s) (ss_used s) (<[Z.to_nat id := l]> (ss_iters s)))) as [Ha Hr]; [|done|lia|].
    { cbn [ss_iters]. apply list_lookup_insert_eq. by eapply lookup_lt_Some. }
    split; [done|]. rewrite Hr. cbn [ss_map ss_used ss_iters]. rewrite list_insert_insert_eq.
    cbn [rev]. by rewrite <- app_assoc.
Qed.

Lemma range_entries_elem start end_ m k v :
  (k, v) ∈ range_entries start end_ m <-> key_in_range start end_ k = true /\ m !! k = Some v.
Proof.
  unfold range_entries. rewrite merge_sort_Permutation, list_elem_of_In, filter_In, <- list_elem_of_In,
    elem_of_map_to_list. cbn. tauto.
Qed.
Lemma sorted_strict (l : list (string * string)) :
  StronglySorted entry_le l -> NoDup l -> (forall k v v', (k, v) ∈ l -> (k, v') ∈ l -> v = v') ->
  StronglySorted (fun a b => key_lt (fst a) (fst b) = true) l.
Proof.
  induction 1 as [|[k v] l Hs IH Ha]; intros Hn Hf; constructor.
  - apply NoDup_cons in Hn as [_ Hn]. apply IH; [done|]. intros k0 v0 v0' H1 H2.
    by apply (Hf k0); apply elem_of_cons; right.
  - apply NoDup_cons in Hn as [Hkv _]. rewrite Forall_forall in *. intros [k' v'] Hin. cbn.
    specialize (Ha _ Hin). unfold entry_le, key_le in Ha. cbn in Ha. apply negb_true_iff in Ha.
    destruct (key_lt k k') eqn:E; [done|]. exfalso. pose proof (key_lt_total _ _ E Ha) as <-.
    rewrite (Hf k v v') in Hkv; [done| |]; apply elem_of_cons; [by left|by right].
Qed.
Lemma range_entries_sorted start end_ m :
  StronglySorted (fun a b => key_lt (fst a) (fst b) = true) (range_entries start end_ m).
Proof.
  apply sorted_strict.
  - apply Sorted_StronglySorted; [apply entry_le_trans|]. apply Sorted_merge_sort. apply entry_le_total.
  - unfold range_entries. rewrite merge_sort_Permutation. apply range_nodup.
  - intros k v v' [_ H1]%range_entries_elem [_ H2]%range_entries_elem. congruence.
Qed.

(** ** Properties *)

(** C4. The store a contract sees is a map with metered access and iterators
    over it: a contract that uses its store in any way, deciding as it goes
    by what it has read, gets on the mocks (store, gas meter and B-tree
    behind the callbacks and the frames) exactly the replies of the abstract
    store and leaves exactly its state, whether operations succeed, run out
    of gas, name an empty key, a wrong order or an iterator that does not
    exist, or open more iterators than fit; as long as the gas counter does
    not pass 2^64 and no write waits for an iterator. *)
Theorem store_refines_map {T : Type} `{BTreeLaws T} `{CaseMapping} `{ErrorTexts} `{SerdeJson} {R : Type}
    (limit kv gm : Z) (st : DBState) (api : option GoAPI) (querier : option iface)
    (p : storage_prog R) (w : world (mock_host T)) (s : store_state) :
  Store st = Some kv -> CallID st <> 0 -> heap_wf (w_heap w) ->
  simulates limit (CallID st) gm [] w s -> 0 <= ss_used s -> allowed limit p s ->
  ss_used (snd (spec_run limit p s)) < two64 ->
  exists its w', run (go_backend st (Some (Some gm)) api querier) [] (compiled p) w =
      (Ret (fst (spec_run limit p s)), w') /\
    simulates limit (CallID st) gm its w' (snd (spec_run limit p s)) /\
    blocks (w_heap w') = blocks (w_heap w).
Proof. by apply run_refines. Qed.

(** C8. A contract that scans a range reads exactly the entries of the store
    whose keys are in the range, each once, in ascending order (descending
    for order 2), whatever other iterators its call has open; the scan is
    charged once, and the store keeps its entries. *)
Theorem scan_reads_range {T : Type} `{BTreeLaws T} `{CaseMapping} `{ErrorTexts} `{SerdeJson}
    (limit kv gm : Z) (st : DBState) (api : option GoAPI) (querier : option iface)
    (start end_ : bytes) (order : Z) (fuel : nat) (w : world (mock_host T)) (s : store_state)
    (iters : list GoIter) :
  Store st = Some kv -> CallID st <> 0 -> heap_wf (w_heap w) ->
  simulates limit (CallID st) gm iters w s -> 0 <= ss_used s ->
  order = 1 \/ order = 2 -> blen start < two31 -> blen end_ < two31 ->
  empty_bound start || empty_bound end_ = false -> zlen (ss_iters s) < frameLenLimit ->
  ss_used s + RangePrice <= limit < two64 -> (size (ss_map s) < fuel)%nat ->
  exists l its w', run (go_backend st (Some (Some gm)) api querier) iters
      (compiled (scan_all fuel start end_ order)) w = (Ret l, w') /\
    (forall k v, (k, v) ∈ l <-> key_in_range start end_ k = true /\ ss_map s !! k = Some v) /\
    StronglySorted (fun a b => key_lt (fst a) (fst b) = true) (if order =? 2 then rev l else l) /\
    simulates limit (CallID st) gm its w'
      (mkStore (ss_map s) (ss_used s + RangePrice) (ss_iters s ++ [[]])) /\
    blocks (w_heap w') = blocks (w_heap w).
Proof.
  intros Hkv Hc Hw Hs Hnn Ho Hs1 He1 Hb Hroom Hlim Hfuel.
  set (l := range_entries start end_ (ss_map s)). set (l' := if order =? 2 then rev l else l).
  assert (length l' = length l) as Hll by (unfold l'; destruct (order =? 2); by rewrite ?length_rev).
  assert (length l <= size (ss_map s))%nat as Hsz.
  { unfold l, range_entries. rewrite merge_sort_Permutation, <- length_map_to_list.
    apply List.filter_length_le. }
  assert (scan_step limit start end_ order s =
    (mkReply (inr (IteratorId (zlen (ss_iters s)))) (with_externally_used RangePrice),
     mkStore (ss_map s) (ss_used s + RangePrice) (ss_iters s ++ [l']))) as Estep.
  { unfold scan_step. assert (negb ((order =? 1) || (order =? 2)) = false) as -> by (by destruct Ho as [-> | ->]).
    rewrite (proj2 (Z.ltb_ge _ _)), Hb, (proj2 (Z.leb_gt _ _)) by lia. done. }
  destruct (drain_spec limit fuel (zlen (ss_iters s)) [] l'
    (mkStore (ss_map s) (ss_used s + RangePrice) (ss_iters s ++ [l']))) as [Ha Hr];
    [cbn; unfold zlen; by rewrite Nat2Z.id, lookup_app_r, Nat.sub_diag|apply zlen_nonneg|lia|].
  assert (spec_run limit (scan_all fuel start end_ order) s =
    (l', mkStore (ss_map s) (ss_used s + RangePrice) (ss_iters s ++ [[]]))) as Erun.
  { cbn [scan_all spec_run spec_step]. rewrite Estep. cbn [rp_result]. rewrite Hr. cbn. f_equal. f_equal.
    unfold zlen. by rewrite Nat2Z.id, insert_app_r_alt, Nat.sub_diag by done. }
  destruct (run_refines limit kv gm st api querier (scan_all fuel start end_ order) w s iters)
    as (its & w' & E & Hs' & Hb'); [done..| |by rewrite Erun; cbn; lia|].
  { cbn [scan_all allowed spec_step op_allowed]. by rewrite Estep. }
  rewrite Erun in *. exists l', its, w'. split_and!; [done| | |done|done].
  - intros k v. unfold l'. rewrite <- range_entries_elem. destruct (order =? 2); [|done].
    by rewrite !list_elem_of_In, <- in_rev.
  - unfold l'. destruct (order =? 2); rewrite ?rev_involutive; apply range_entries_sorted.
Qed.

(** *** Examples *)

#[local] Existing Instance id_case.
#[local] Existing Instance example_texts.
#[local] Existing Instance example_serde.
Lemma example_simulates limit entries items m :
  bt_items (lk_db (mh_store (w_host (example_world limit entries)))) = items ->
  (forall k, option_map item_value (find_item k items) = m !! k) ->
  simulates limit 1 1 [] (example_world limit entries) (mkStore m 0 []).
Proof.
  intros <- Hm. split; [exact Hm|done|done| | |done].
  - exists []. split_and!; [done|constructor|done|constructor].
  - intros o [i Hi]. cbn in Hi. by rewrite lookup_empty in Hi.
Qed.
(** A contract that moves the first entry of its store to another key, unless
    it runs out of gas. *)
Definition example_move : storage_prog (option BackendError) :=
  SCall (OScan None None 1) (fun _ =>
  SCall (ONext PRecord 0) (fun rep =>
  match rp_result rep with
  | inr (NextRecord (Some (k, v))) =>
    SCall (OStore (SSet "l" v)) (fun _ => SCall (OStore (SRemove k)) (fun rep =>
      SDone (match rp_result rep with inl e => Some e | inr _ => None end)))
  | _ => SDone None
  end)).
Lemma store_refines_map_witness :
  let w := example_world 500000 [("k", "v")]%string in
  exists its w', run (example_backend 1) [] (compiled example_move) w = (Ret (Some out_of_gas), w') /\
    simulates 500000 1 1 its w'
      (mkStore (<["l"%string := "v"%string]> {["k"%string := "v"%string]}) 590000 [[]]).
Proof.
  intros w. edestruct (store_refines_map 500000 2 1 (buildDBState (Some 2) 1) (Some example_api)
    (Some (Some 3)) example_move w (mkStore {["k"%string := "v"%string]} 0 [])) as (its & w' & E & Hs & _);
    [reflexivity|discriminate|exact empty_heap_wf| |discriminate| |reflexivity|].
  - apply (example_simulates _ _ [mkItem "k" "v"]); [reflexivity|]. intros k. cbn -[String.eqb lookup].
    destruct (String.eqb_spec "k" k) as [<-|Hne]; [reflexivity|]. by rewrite lookup_singleton_ne.
  - cbn. unfold op_small, writable. vm_compute. repeat split; repeat constructor; discriminate.
  - exists its, w'. split; [exact E|exact Hs].
Defined.
Lemma scan_reads_range_witness :
  let w := example_world 1000000 [("b", "2"); ("a", "1")]%string in
  exists l w', run (example_backend 1) [] (compiled (scan_all 3 (Some "a"%string) None 2)) w = (Ret l, w') /\
    l = [("b", "2"); ("a", "1")]%string.
Proof.
  intros w. destruct (scan_reads_range 1000000 2 1 (buildDBState (Some 2) 1) (Some example_api)
    (Some (Some 3)) (Some "a"%string) None 2 3 w
    (mkStore (<["b"%string := "2"%string]> {["a"%string := "1"%string]}) 0 []) []) as (l & its & w' & E & _);
    [reflexivity|discriminate|exact empty_heap_wf| |discriminate|by right|reflexivity|reflexivity|
     reflexivity|reflexivity|split; [discriminate|reflexivity]|apply Nat.ltb_lt; vm_compute; reflexivity|].
  - apply (example_simulates _ _ [mkItem "a" "1"; mkItem "b" "2"]); [reflexivity|]. intros k.
    cbn -[String.eqb lookup].
    destruct (String.eqb_spec "a" k) as [<-|Ha]; [reflexivity|].
    destruct (String.eqb_spec "b" k) as [<-|Hb]; [reflexivity|].
    by rewrite lookup_insert_ne, lookup_singleton_ne.
  - exists l, w'. split; [exact E|].
    assert (fst (run (example_backend 1) [] (compiled (scan_all 3 (Some "a"%string) None 2)) w) =
      Ret [("b", "2"); ("a", "1")]%string) as E2 by (vm_compute; reflexivity).
    change (example_backend 1) with (go_backend (buildDBState (Some 2) 1) (Some (Some 1)) (Some example_api) (Some (Some 3))) in E2.
    rewrite E in E2. cbn in E2. congruence.
Defined.
