(* ===== verification/ContractQueries.v ===== *)
(** * The queries of a contract

    From the contract's request through the Rust side, the view of its bytes
    and the callback to the host's querier, and its answer back: over any
    host. *)

From S2P Require Import Prelude GoText RustText Json JsonParse Codec JsonText Scalars Types Errors Queries Memory MemDB World Mocks Iterators Callbacks Vtables Backend Storage.

Section QueryRequests.
Context {H : Type} `{HostLaws H} `{ErrorTexts} `{SerdeJson}.
Implicit Types w : world H.

(** What the host is asked, between two looks at the gas its querier has
    used. *)
Definition query_call (o : Z) (request : string) (gasLimit : Z) : GoM (world H) (bytes * Z) :=
  gasBefore ← Querier_GasConsumed o;
  res ← RustQuery (Querier_Query o) (Some request) gasLimit;
  gasAfter ← Querier_GasConsumed o;
  mret (Some (Marshal res), gasAfter -u gasBefore).

Lemma rely_query_call o request gasLimit : respects rely (query_call o request gasLimit).
Proof.
  unfold query_call. pose proof (rely_RustQuery (Some o) (Some request) gasLimit) as Hq.
  cbn [icall] in Hq. solve_respects.
Qed.

Lemma query_call_eq o request gasLimit w :
  query_call o request gasLimit w =
  match Querier_GasConsumed o w with
  | (Panic p, w2) => (Panic p, w2)
  | (Ret g1, w2) =>
    match RustQuery (Querier_Query o) (Some request) gasLimit w2 with
    | (Panic p, w3) => (Panic p, w3)
    | (Ret res, w3) =>
      match Querier_GasConsumed o w3 with
      | (Panic p, w4) => (Panic p, w4)
      | (Ret g2, w4) => (Ret (Some (Marshal res), g2 -u g1), w4)
      end
    end
  end.
Proof.
  unfold query_call, mbind, GoM_bind. destruct (Querier_GasConsumed o w) as [[g1|p] w2]; [|done].
  destruct (RustQuery _ _ _ w2) as [[res|p] w3]; [|done].
  by destruct (Querier_GasConsumed o w3) as [[g2|p] w4].
Qed.

(** The reply: the bytes [serde_json] reads the two-level result from. *)
Definition query_reply (r : outcome (bytes * Z)) : reply :=
  match r with
  | Ret (v, gas) => mkReply (inr (Queried (read_sys_result (default EmptyString v)))) (with_externally_used gas)
  | Panic p => mkReply (inl (panic_error p)) (with_externally_used 0)
  end.
Lemma method_reply_query r dflt :
  method_reply (store_result r) (with_externally_used (gr_used_gas (store_result r))) dflt
    (inr (Queried (read_sys_result (default EmptyString (gr_output (store_result r)))))) = query_reply r.
Proof. destruct r as [[v gas]|p]; [done|]. unfold method_reply. cbn. by rewrite into_result_panic. Qed.

Lemma go_call_query o request gasLimit w :
  slen request < two31 -> heap_wf (w_heap w) ->
  exists w5, go_call (cQueryExternal (Some (Some o)) gasLimit
      (U8SliceView_new (Some (next (w_heap w), request)))) (lend request w) =
    (Ret (store_result (fst (query_call o request gasLimit (lend request w)))), w5) /\
    w_host w5 = w_host (snd (query_call o request gasLimit (lend request w))).
Proof.
  intros Hs Hw.
  assert (heap_wf (w_heap (snd (query_call o request gasLimit (lend request w))))) as Hm.
  { eapply (heap_rely (query_call o request gasLimit)); [apply rely_query_call|apply surjective_pairing|].
    by apply alloc_wf. }
  rewrite query_call_eq in *.
  unfold go_call, cQueryExternal, recoverPanic, cQueryExternal_body.
  cbn [co fresh_outs o_gas o_val o_err].
  erewrite gbind_eq by reflexivity. erewrite gbind_eq by (by apply copy_view_lent).
  destruct (Querier_GasConsumed o (lend request w)) as [[g1|p] w2] eqn:E1; [|host_panic E1].
  erewrite gbind_eq by (apply inw_eq; exact E1).
  destruct (RustQuery (Querier_Query o) (Some request) gasLimit w2) as [[res|p] w3] eqn:E2; [|host_panic E2].
  erewrite gbind_eq by (apply inw_eq; exact E2).
  destruct (Querier_GasConsumed o w3) as [[g2|p] w4] eqn:E3; [|host_panic E3].
  erewrite gbind_eq by (apply inw_eq; exact E3).
  erewrite gbind_eq by reflexivity. cbn [fst snd] in *. val_written (Some (Marshal res)) Hm.
Qed.
End QueryRequests.

(** ** Properties *)

(** C14. A query of a contract: the contract gets the two-level result that
    [serde_json] reads of the JSON Go has written of it, or the system error
    for an invalid response that has the JSON in it, and is charged what the
    querier says it has used; a panic of the host becomes an error of the
    contract.  A request that is the JSON of a
    query reaches the host's querier as exactly that query; one that is not
    JSON, or not of a query, is answered as an invalid request without the
    host being asked.  No buffer stays allocated. *)
Theorem query_exact {H : Type} `{HostLaws H} `{ErrorTexts} `{SerdeJson} (st : DBState)
    (gm : option iface) (api : option GoAPI) (iters : list GoIter) (o : Z) (request : string)
    (gasLimit : Z) (w : world H) :
  slen request < two31 -> heap_wf (w_heap w) ->
  (exists w', perform (go_backend st gm api (Some (Some o))) iters (RQuery request gasLimit) w =
      (Ret (query_reply (fst (query_call o request gasLimit (lend request w))), iters), w') /\
    w_host w' = w_host (snd (query_call o request gasLimit (lend request w))) /\
    blocks (w_heap w') = blocks (w_heap w)) /\
  (forall q : QueryRequest, request = Marshal q -> wf QueryRequest_codec q ->
     printable (to_json q) = true -> (nesting (to_json q) <= maxNestingDepth)%nat ->
     forall v : world H, RustQuery (Querier_Query o) (Some request) gasLimit v =
       (answer ← Querier_Query o q gasLimit; glift (ToQuerierResult answer.1 answer.2)) v) /\
  (forall err, Unmarshal (A := QueryRequest) request = Ret (inl err) ->
     forall v : world H, RustQuery (Querier_Query o) (Some request) gasLimit v =
       (Ret (mkQuerierResult None (Some (mkSystemError
          (Some (mkInvalidRequest (json_error_text err) (Some request))) None None None None None))), v)).
Proof.
  intros Hs Hw. split_and!.
  - destruct (go_call_query o request gasLimit w Hs Hw) as (w5 & E & <-).
    apply (with_view_lent request (fun v => call_through cQueryExternal_cgo (args_query (Some (Some o)) gasLimit v)))
      in E as (w' & E' & Eh & _ & _ & Hb); [|solve_clean|done].
    exists w'. split_and!; [|done|done]. cbn [perform]. run_method. erewrite gbind_eq by exact E'.
    by rewrite gbind_ret, method_reply_query.
  - intros q -> Hwf Hp Hd v. unfold RustQuery. cbn [string_of_bytes default id].
    unfold Unmarshal, Marshal. rewrite parse_json_text by done. unfold from_json, to_json.
    by rewrite round_trip.
  - intros err E v. unfold RustQuery. cbn [string_of_bytes default id]. by rewrite E.
Qed.

#[local] Existing Instance id_case.
#[local] Existing Instance example_texts.
#[local] Existing Instance example_serde.
Definition example_query : QueryRequest :=
  mkQueryRequest (Some (mkBankQuery None (Some (mkBalanceQuery "addr" "ATOM")) None None None))
    None None None None None None None.
Lemma query_exact_witness :
  let w := example_world 1000000 [] in
  exists w', perform (example_backend 1) [] (RQuery (Marshal example_query) 1000) w =
    (Ret (mkReply (inr (Queried (mkQuerierResult
       (Some (mkQueryResult (Some (Marshal (mkBalanceResponse (NewCoin 0 "ATOM")))) "")) None)))
       (with_externally_used (slen (Marshal example_query))), []), w').
Proof.
  intros w. destruct (query_exact (buildDBState (Some 2) 1) (Some (Some 1)) (Some example_api) [] 3
    (Marshal example_query) 1000 w) as [(w' & E & _) _]; [reflexivity|exact empty_heap_wf|].
  exists w'. exact E.
Defined.
