(* ===== verification/Addresses.v ===== *)
(** * The address functions of a contract

    Humanizing, canonicalizing and validating an address, from the contract's
    request to the functions the host provides and back: over any host. *)

From S2P Require Import Prelude GoText RustText Json JsonParse Codec Scalars Types Errors Queries Memory MemDB World Mocks Iterators Callbacks Vtables Backend Storage.

Inductive addr_op :=
| AHumanize (canonical : string)
| ACanonicalize (human : string)
| AValidate (human : string).

Definition addr_input (op : addr_op) : string :=
  match op with AHumanize s | ACanonicalize s | AValidate s => s end.
Definition addr_request (op : addr_op) : request :=
  match op with
  | AHumanize s => RHumanize s
  | ACanonicalize s => RCanonicalize s
  | AValidate s => RValidate s
  end.
(** The function of the API an operation uses. *)
Definition addr_function (api : GoAPI) (op : addr_op) : iface :=
  match op with
  | AHumanize _ => HumanizeAddress api
  | ACanonicalize _ => CanonicalizeAddress api
  | AValidate _ => ValidateAddress api
  end.

Section AddressRequests.
Context {H : Type} `{HostLaws H} `{ErrorTexts} `{SerdeJson}.
Implicit Types w : world H.

(** What the host is asked; a validation has no result. *)
Definition addr_call (f : Z) (op : addr_op) : GoM (world H) (bytes * Z * option error) := fun w =>
  match op with
  | AHumanize s =>
    match GoAPI_HumanizeAddress f (Some s) w with
    | (Ret (h, cost, err), w) => (Ret (Some h, cost, err), w)
    | (Panic p, w) => (Panic p, w)
    end
  | ACanonicalize s => GoAPI_CanonicalizeAddress f s w
  | AValidate s =>
    match GoAPI_ValidateAddress f s w with
    | (Ret (cost, err), w) => (Ret (None, cost, err), w)
    | (Panic p, w) => (Panic p, w)
    end
  end.

(** What the callback leaves: the result, or the text of the error, and the
    cost in both cases; an empty result is a bug of the host. *)
Definition addr_result (op : addr_op) (r : outcome (bytes * Z * option error)) : go_result :=
  match r with
  | Panic p => panicked p
  | Ret (_, cost, Some err) =>
    match Error err with
    | Ret text => mkGoResult GoError_User None None (Some text) cost GoIter_stub
    | Panic p => only_code (panic_code p) cost
    end
  | Ret (v, cost, None) =>
    match op with
    | AValidate _ => only_code GoError_None cost
    | _ => if blen v =? 0 then only_code GoError_Panic cost else with_output v cost
    end
  end.
(** The reply.  The text of an error is cut to 8 KiB and made UTF-8; a human
    address must be UTF-8. *)
Definition addr_reply (op : addr_op) (r : outcome (bytes * Z * option error)) : reply :=
  match r with
  | Panic p => mkReply (inl (panic_error p)) (with_cost 0)
  | Ret (_, cost, Some err) =>
    match Error err with
    | Ret text => mkReply (inl (user_err (from_utf8_lossy (stake MAX_ERROR_LEN text)))) (with_cost cost)
    | Panic p => mkReply (inl (panic_error p)) (with_cost cost)
    end
  | Ret (v, cost, None) =>
    mkReply
      (match op, v with
       | AValidate _, _ => inr Done
       | _, None => inl foreign_panic
       | _, Some EmptyString => inl foreign_panic
       | ACanonicalize _, Some c => inr (Data c)
       | AHumanize _, Some h =>
         match from_utf8 h with Some h => inr (Data h) | None => inl invalid_utf8 end
       end) (with_cost cost)
  end.

Definition addr_callback (api : GoAPI) (op : addr_op) (v : U8SliceView) :
    cstate H -> GoError * cstate H :=
  match op with
  | AHumanize _ => cHumanizeAddress (Some api) v
  | ACanonicalize _ => cCanonicalizeAddress (Some api) v
  | AValidate _ => cValidateAddress (Some api) v
  end.

Lemma addr_call_heap f op w r w' :
  addr_call f op w = (r, w') -> heap_wf (w_heap w) -> heap_wf (w_heap w').
Proof.
  intros E. eapply (heap_rely (addr_call f op)); [|exact E]. clear E w r w'.
  intros w r w' E. destruct op as [s|s|s]; cbn [addr_call] in E.
  - destruct (GoAPI_HumanizeAddress f (Some s) w) as [[[[h c] e]|p] w1] eqn:E1;
      injection E as _ <-; by eapply GoAPI_HumanizeAddress_rely.
  - by eapply GoAPI_CanonicalizeAddress_rely.
  - destruct (GoAPI_ValidateAddress f s w) as [[[c e]|p] w1] eqn:E1;
      injection E as _ <-; by eapply GoAPI_ValidateAddress_rely.
Qed.

(** An error of the host: its text goes back. *)
Ltac host_error err Hm :=
  let text := fresh "text" in
  destruct (Error err) as [text|?];
  [ erewrite gbind_eq by reflexivity; err_written text Hm
  | erewrite gbind_panic by reflexivity; outs_cbn; rewrite take_nothing; eexists; by split_and! ].

Lemma go_call_addr api f op w :
  addr_function api op = Some f -> slen (addr_input op) < two31 -> heap_wf (w_heap w) ->
  exists w5, go_call (addr_callback api op (U8SliceView_new (Some (next (w_heap w), addr_input op))))
      (lend (addr_input op) w) =
    (Ret (addr_result op (fst (addr_call f op (lend (addr_input op) w)))), w5) /\
    w_host w5 = w_host (snd (addr_call f op (lend (addr_input op) w))).
Proof.
  intros Hf Hs Hw.
  assert (heap_wf (w_heap (snd (addr_call f op (lend (addr_input op) w))))) as Hm.
  { eapply addr_call_heap; [apply surjective_pairing|by apply alloc_wf]. }
  destruct op as [s|s|s]; cbn [addr_input addr_function addr_callback addr_call] in *; unfold go_call.
  - unfold cHumanizeAddress, recoverPanic, cHumanizeAddress_body. cbn [co fresh_outs o_gas o_val o_err].
    erewrite gbind_eq by reflexivity. erewrite gbind_eq by (by apply copy_view_lent).
    unfold api_call. rewrite Hf. cbn [icall].
    destruct (GoAPI_HumanizeAddress f (Some s) (lend s w)) as [[[[h0 cost] err]|p] w3] eqn:E1;
      [|host_panic E1].
    erewrite gbind_eq by (apply inw_eq; exact E1). cbn beta iota.
    erewrite gbind_eq by reflexivity. cbn [cw co o_gas o_key o_val o_err o_iter fst snd] in *.
    destruct err as [err|]; cbn [addr_result]; [host_error err Hm|].
    change (blen (Some h0)) with (slen h0). destruct (slen h0 =? 0).
    + cbn [gpanic]. outs_cbn. rewrite take_nothing. eexists. by split.
    + val_written (Some h0) Hm.
  - unfold cCanonicalizeAddress, recoverPanic, cCanonicalizeAddress_body.
    cbn [co fresh_outs o_gas o_val o_err].
    erewrite gbind_eq by reflexivity. erewrite gbind_eq by (by apply copy_view_lent).
    unfold api_call. rewrite Hf. cbn [icall string_of_bytes default id].
    destruct (GoAPI_CanonicalizeAddress f s (lend s w)) as [[[[c0 cost] err]|p] w3] eqn:E1;
      [|host_panic E1].
    erewrite gbind_eq by (apply inw_eq; exact E1). cbn beta iota.
    erewrite gbind_eq by reflexivity. cbn [cw co o_gas o_key o_val o_err o_iter fst snd] in *.
    destruct err as [err|]; cbn [addr_result]; [host_error err Hm|]. destruct (blen c0 =? 0).
    + cbn [gpanic]. outs_cbn. rewrite take_nothing. eexists. by split.
    + val_written c0 Hm.
  - unfold cValidateAddress, recoverPanic, cValidateAddress_body. cbn [co fresh_outs o_gas o_val o_err].
    erewrite gbind_eq by reflexivity. erewrite gbind_eq by (by apply copy_view_lent).
    unfold api_call. rewrite Hf. cbn [icall string_of_bytes default id].
    destruct (GoAPI_ValidateAddress f s (lend s w)) as [[[cost err]|p] w3] eqn:E1; [|host_panic E1].
    erewrite gbind_eq by (apply inw_eq; exact E1). cbn beta iota.
    erewrite gbind_eq by reflexivity. cbn [cw co o_gas o_key o_val o_err o_iter fst snd] in *.
    destruct err as [err|]; cbn [addr_result]; [host_error err Hm|].
    outs_cbn. rewrite take_nothing. eexists. by split.
Qed.

Definition addr_ok (op : addr_op) (r : go_result) : BackendError + answer :=
  match op with
  | AHumanize _ =>
    match gr_output r with
    | Some d => match from_utf8 d with Some h => inr (Data h) | None => inl invalid_utf8 end
    | None => inl unset_output
    end
  | ACanonicalize _ => match gr_output r with Some d => inr (Data d) | None => inl unset_output end
  | AValidate _ => inr Done
  end.
Lemma method_reply_addr op r dflt :
  method_reply (addr_result op r) (with_cost (gr_used_gas (addr_result op r))) dflt (addr_ok op (addr_result op r)) =
  addr_reply op r.
Proof.
  unfold method_reply. destruct r as [[[v cost] [err|]]|p]; cbn [addr_result addr_reply].
  - destruct (Error err) as [text|p]; [done|]. cbn. by rewrite into_result_panic.
  - destruct v as [[|c v]|]; destruct op; try done; cbn [blen string_of_bytes default id];
      rewrite slen_cons; pose proof (slen_nonneg v);
      by rewrite (proj2 (Z.eqb_neq (1 + slen v) 0)) by lia.
  - cbn. by rewrite into_result_panic.
Qed.
End AddressRequests.

(** ** Properties *)

(** C20. A contract that humanizes, canonicalizes or validates an address gets
    the host's result, or the host's error by its text (at most 8 KiB of it),
    and is charged the cost in both cases.  A panic of the host is out of gas
    when its type is [ErrorOutOfGas] and a foreign panic otherwise, at no
    charge; the same holds, at the cost, of a panic while the text of an error
    is made.  An empty result is a foreign panic, and a human address that is
    not UTF-8 an error.  No buffer stays allocated. *)
Theorem address_exact {H : Type} `{HostLaws H} `{ErrorTexts} `{SerdeJson} (st : DBState) (gm querier : option iface)
    (iters : list GoIter) (api : GoAPI) (f : Z) (op : addr_op) (w : world H) :
  addr_function api op = Some f -> slen (addr_input op) < two31 -> heap_wf (w_heap w) ->
  exists w', perform (go_backend st gm (Some api) querier) iters (addr_request op) w =
      (Ret (addr_reply op (fst (addr_call f op (lend (addr_input op) w))), iters), w') /\
    w_host w' = w_host (snd (addr_call f op (lend (addr_input op) w))) /\
    blocks (w_heap w') = blocks (w_heap w).
Proof.
  intros Hf Hs Hw. destruct (go_call_addr api f op w Hf Hs Hw) as (w5 & E & <-).
  destruct op as [s|s|s]; cbn [addr_input addr_callback addr_request perform] in *; run_method.
  - apply (with_view_lent s (fun v => call_through cHumanizeAddress_cgo (args_address (Some api) v)))
      in E as (w' & E' & Eh & _ & _ & Hb); [|solve_clean|done]. exists w'. split_and!; [|done|done].
    erewrite gbind_eq by exact E'. by rewrite gbind_ret, <- (method_reply_addr (AHumanize s) _
      ("Failed to humanize the address: " +:+ Hex.encode_upper s)).
  - apply (with_view_lent s (fun v => call_through cCanonicalizeAddress_cgo (args_address (Some api) v)))
      in E as (w' & E' & Eh & _ & _ & Hb); [|solve_clean|done]. exists w'. split_and!; [|done|done].
    erewrite gbind_eq by exact E'. by rewrite gbind_ret, <- (method_reply_addr (ACanonicalize s) _
      ("Failed to canonicalize the address: " +:+ s)).
  - apply (with_view_lent s (fun v => call_through cValidateAddress_cgo (args_validate (Some api) v)))
      in E as (w' & E' & Eh & _ & _ & Hb); [|solve_clean|done]. exists w'. split_and!; [|done|done].
    erewrite gbind_eq by exact E'. by rewrite gbind_ret, <- (method_reply_addr (AValidate s) _
      ("Failed to validate the address: " +:+ s)).
Qed.

#[local] Existing Instance id_case.
#[local] Existing Instance example_texts.
#[local] Existing Instance example_serde.
Lemma address_exact_witness :
  let w := example_world 1000000 [] in
  exists w', perform (example_backend 1) [] (RHumanize "short") w =
    (Ret (mkReply (inl (user_err "wrong canonical length")) (with_cost 0), []), w') /\
    blocks (w_heap w') = ∅.
Proof.
  intros w. destruct (address_exact (buildDBState (Some 2) 1) (Some (Some 1)) (Some (Some 3)) [] example_api 4
    (AHumanize "short") w) as (w' & E & _ & Hb); [reflexivity|reflexivity|exact empty_heap_wf|].
  exists w'. exact (conj E Hb).
Defined.
