(* ===== verification/MockTests.v ===== *)
(** * The tests of the mocks

    The test functions of [mocks.go], which the file has beside the mocks, and
    its API objects.  A test is the conjunction of its assertions. *)

From Stdlib Require Import Ascii.
From S2P Require Import Prelude GoText RustText Json JsonParse Codec Scalars Types Errors Queries Memory MemDB World Mocks Iterators Callbacks Vtables Backend.

Definition DEFAULT_QUERIER_GAS_LIMIT : Z := 1000000.

(** The functions as the values the host of [Mocks.v] knows them by. *)
Definition NewMockAPI : GoAPI := mkGoAPI (Some 1) (Some 2) (Some 3).
Definition NewMockFailureAPI : GoAPI := mkGoAPI (Some 11) (Some 12) (Some 13).

(** The ASCII part of the case mapping. *)
Definition shift_case (from d : Z) (c : ascii) : ascii :=
  if (from <=? code c) && (code c <? from + 26) then byte_of (code c + d) else c.
Fixpoint string_map (f : ascii -> ascii) (s : string) : string :=
  match s with EmptyString => EmptyString | String c s => String (f c) (string_map f s) end.
Definition ascii_case : CaseMapping := {|
  ToLower := string_map (shift_case 65 32);
  ToUpper := string_map (shift_case 97 (-32));
|}.

Section Tests.
Context `{CaseMapping}.

Definition TestMockApi : bool :=
  let human := "foobar"%string in
  match MockCanonicalizeAddress human with
  | (canon, cost, None) =>
    (blen canon =? CanonicalLength) && (cost =? CostCanonical) &&
    match MockHumanizeAddress canon with
    | (recover, cost, None) => String.eqb recover human && (cost =? CostHuman)
    | _ => false
    end
  | _ => false
  end.

(** A query that succeeds, and its answer read back. *)
Definition ask {A} `{JSONType A} (q : MockQuerier) (request : BankQuery) : option A :=
  match fst (MockQuerier_Query (mkQueryRequest (Some request) None None None None None None None)
      DEFAULT_QUERIER_GAS_LIMIT q) with
  | Ret (Some res, None) => match Unmarshal res with Ret (inr resp) => Some resp | _ => None end
  | _ => None
  end.

Definition balance : Array Coin := Some [NewCoin 12345678 "ATOM"; NewCoin 54321 "ETH"].
Definition same_coin (a b : Coin) : bool :=
  String.eqb (Coin_Denom a) (Coin_Denom b) && String.eqb (Coin_Amount a) (Coin_Amount b).
Fixpoint same_coins (a b : list Coin) : bool :=
  match a, b with
  | [], [] => true
  | x :: a, y :: b => same_coin x y && same_coins a b
  | _, _ => false
  end.

Definition TestBankQuerierAllBalances_existing : bool :=
  match ask (DefaultQuerier "foobar" balance)
    (mkBankQuery None None (Some (mkAllBalancesQuery "foobar")) None None) with
  | Some (mkAllBalancesResponse (Some amount)) => same_coins amount (default [] balance)
  | _ => false
  end.
(** [assert.Nil(t, resp2.Amount)] *)
Definition TestBankQuerierAllBalances_missing : bool :=
  match ask (DefaultQuerier "foobar" balance)
    (mkBankQuery None None (Some (mkAllBalancesQuery "someone-else")) None None) with
  | Some (mkAllBalancesResponse None) => true
  | _ => false
  end.
Definition TestBankQuerierAllBalances : bool :=
  TestBankQuerierAllBalances_existing && TestBankQuerierAllBalances_missing.

Definition TestBankQuerierBalance : bool :=
  let balance_of addr denom := ask (DefaultQuerier "foobar" balance)
    (mkBankQuery None (Some (mkBalanceQuery addr denom)) None None None) in
  let expect r coin :=
    match r with Some (mkBalanceResponse amount) => same_coin amount coin | None => false end in
  expect (balance_of "foobar" "ATOM")%string (NewCoin 12345678 "ATOM") &&
  expect (balance_of "foobar" "BTC")%string (NewCoin 0 "BTC") &&
  expect (balance_of "someone-else" "ATOM")%string (NewCoin 0 "ATOM").

Definition TestReflectCustomQuerier : bool :=
  let expect query answer :=
    match ReflectCustom_Query (Some (Marshal query)) with
    | Ret (Some bz, None) =>
      match Unmarshal bz with
      | Ret (inr resp) => String.eqb (CustomResponse_Msg resp) answer
      | _ => false
      end
    | _ => false
    end in
  expect (mkCustomQuery (Some tt) None) "PONG"%string &&
  expect (mkCustomQuery None (Some (mkCapitalizedQuery "small."))) "SMALL."%string.
End Tests.

(** ** Properties *)

(** What the tests give when they are run: all but the last assertion of
    [TestBankQuerierAllBalances] hold.  An account without balances is
    answered with an empty list, which is not nil. *)
Theorem mock_tests :
  @TestMockApi = true /\ @TestBankQuerierBalance ascii_case = true /\
  @TestReflectCustomQuerier ascii_case = true /\
  @TestBankQuerierAllBalances_existing ascii_case = true /\
  @TestBankQuerierAllBalances ascii_case = false.
Proof. split_and!; vm_compute; reflexivity. Qed.

#[local] Existing Instance ascii_case.
#[local] Existing Instance example_texts.
#[local] Existing Instance example_serde.
(** The failing API, as a contract sees it. *)
Example failing_api :
  fst (perform (go_backend (buildDBState (Some 2) 1) (Some (Some 1)) (Some NewMockFailureAPI) (Some (Some 3)))
    [] (RCanonicalize "foobar") (example_world 0 [])) =
  Ret (mkReply (inl (user_err "mock failure - canonical_address")) (with_cost 0), []).
Proof. vm_compute. reflexivity. Qed.
