(* ===== verification/Libwasmvm.v ===== *)
(** * The exported functions of libwasmvm

    The C functions Go calls: [libwasmvm/src/calls.rs] and [cache.rs], with the
    reporting of errors of [error/rust.rs].  A call gives a value, an error
    number (0 for success) and, through the pointer it is handed, a vector
    with the text of the error.  The values an error leaves are empty and own
    no buffer.

    The virtual machine behind these functions is the crate cosmwasm-vm, which
    is not part of the repository.  It is the class [VMLib]: its cache keeps
    its state in the state of the host, and running a contract is a tree of
    requests ([Backend.vm_prog]).  A Rust panic is caught at the boundary; as
    a result it is [None]. *)

From S2P Require Import Prelude GoText RustText Json JsonParse Codec Scalars Types Errors Queries Memory World Iterators Callbacks Vtables Backend.

(** ** Errors *)

Inductive RustError :=
| EmptyArg (name : string)
| InvalidUtf8 (msg : string)
| MessagePack (msg : string)
| Json (msg : string)
| OutOfGas
| RustPanic
| UnsetArg (name : string)
| ChecksumError
| VmErr (msg : string).

Definition RustError_text (e : RustError) : string :=
  match e with
  | EmptyArg name => "Empty argument: " +:+ name
  | InvalidUtf8 msg => "Cannot decode UTF8 bytes into string: " +:+ msg
  | MessagePack msg => "Cannot deserialize from MessagePack: " +:+ msg
  | Json msg => "Cannot serialize to / deserialize from JSON: " +:+ msg
  | OutOfGas => "Ran out of gas"
  | RustPanic => "Caught panic"
  | UnsetArg name => "Null/Nil argument: " +:+ name
  | ChecksumError => "Checksum not of length 32"
  | VmErr msg => "Error calling the VM: " +:+ msg
  end.

Definition ErrnoValue_Success : Z := 0.
Definition ErrnoValue_Other : Z := 1.
Definition ErrnoValue_OutOfGas : Z := 2.
Definition errno_of (e : RustError) : Z :=
  match e with OutOfGas => ErrnoValue_OutOfGas | _ => ErrnoValue_Other end.

(** The errors of the VM, and their conversion. *)
Inductive VmError := GasDepletion | OtherVmError (msg : string).
Definition from_vm_error (e : VmError) : RustError :=
  match e with GasDepletion => OutOfGas | OtherVmError msg => VmErr msg end.

(** ** The VM *)

(** The entry points of a contract. *)
Inductive entry_point :=
| call_instantiate_raw | call_execute_raw | call_migrate_raw | call_migrate_with_info_raw
| call_sudo_raw | call_reply_raw | call_query_raw
| call_ibc_channel_open_raw | call_ibc_channel_connect_raw | call_ibc_channel_close_raw
| call_ibc_packet_receive_raw | call_ibc_packet_ack_raw | call_ibc_packet_timeout_raw
| call_ibc_source_callback_raw | call_ibc_destination_callback_raw
| call_ibc2_packet_receive_raw | call_ibc2_packet_ack_raw | call_ibc2_packet_timeout_raw
| call_ibc2_packet_send_raw.

(** A function of the VM: it changes the state of the host, and unwinds
    ([None]), fails or gives a value. *)
Definition vm_fn (H A : Type) : Type := H -> option (VmError + A) * H.

(** What running an entry point gives: unwinding, or the result and the gas
    report. *)
Definition vm_leaf : Type := option ((VmError + Vec) * GasReport).

Record vm_analysis := mkVmAnalysis {
  va_has_ibc_entry_points : bool;
  va_required_capabilities : list string;
  va_entrypoints : list string;
  va_contract_migrate_version : option Z;
}.

Class VMLib (H : Type) := {
  (** [String::into::<Vec<u8>>]: its capacity is the allocator's choice *)
  vm_text : string -> Vec;
  vm_parse_config : string -> string + string;
  vm_new_with_config : string -> vm_fn H Z;
  vm_drop : Z -> H -> H;
  vm_store_code : Z -> string -> bool -> bool -> vm_fn H string;
  vm_remove_wasm : Z -> string -> vm_fn H unit;
  vm_load_wasm : Z -> string -> vm_fn H Vec;
  vm_pin : Z -> string -> vm_fn H unit;
  vm_unpin : Z -> string -> vm_fn H unit;
  vm_sync_pinned_codes : Z -> list string -> vm_fn H unit;
  vm_analyze : Z -> string -> vm_fn H vm_analysis;
  vm_metrics : Z -> vm_fn H Metrics;
  (** the metrics of the pinned modules, as MessagePack *)
  vm_pinned_metrics : Z -> vm_fn H (string + Vec);
  (** an instance of a contract with a gas limit *)
  vm_get_instance : Z -> string -> Z ->
    vm_fn H (entry_point -> list string -> bool -> vm_prog vm_leaf);
}.

Fixpoint prog_all {R} (P : R -> Prop) (p : vm_prog R) : Prop :=
  match p with
  | VDone r => P r
  | VCall _ k => forall rep, prog_all P (k rep)
  end.

(** A vector Rust can have, below the length Go can copy. *)
Definition vec_ok (v : Vec) : Prop :=
  slen (vec_data v) <= vec_cap v /\ slen (vec_data v) < two31.
Definition small (s : string) : Prop := slen s < two31 - 100.

Definition leaf_ok (l : vm_leaf) : Prop :=
  match l with
  | None => True
  | Some (inl (OtherVmError msg), _) => small msg
  | Some (inl GasDepletion, _) => True
  | Some (inr v, _) => vec_ok v
  end.
Definition result_ok {A} (P : A -> Prop) (r : option (VmError + A)) : Prop :=
  match r with
  | Some (inl (OtherVmError msg)) => small msg
  | Some (inr a) => P a
  | _ => True
  end.
Definition any {A} (_ : A) : Prop := True.

(** What the code relies on: vectors hold their bytes, and neither results
    nor texts of errors reach 2 GiB (a contract's results are bounded by its
    32-bit memory and by limits of the VM far below that). *)
Class VMLaws (H : Type) `{VMLib H} : Prop := {
  vm_text_data s : vec_data (vm_text s) = s;
  vm_text_cap s : slen s <= vec_cap (vm_text s);
  vm_parse_config_ok s : match vm_parse_config s with inl msg => small msg | inr _ => True end;
  vm_new_ok s h : result_ok any (fst (vm_new_with_config s h));
  vm_store_code_ok c w b p h : result_ok small (fst (vm_store_code c w b p h));
  vm_remove_wasm_ok c s h : result_ok any (fst (vm_remove_wasm c s h));
  vm_load_wasm_ok c s h : result_ok vec_ok (fst (vm_load_wasm c s h));
  vm_pin_ok c s h : result_ok any (fst (vm_pin c s h));
  vm_unpin_ok c s h : result_ok any (fst (vm_unpin c s h));
  vm_sync_ok c l h : result_ok any (fst (vm_sync_pinned_codes c l h));
  vm_analyze_ok c s h :
    result_ok (fun r => small (join "," (va_required_capabilities r)) /\
                        small (join "," (va_entrypoints r))) (fst (vm_analyze c s h));
  vm_metrics_ok c h : result_ok any (fst (vm_metrics c h));
  vm_pinned_metrics_ok c h :
    result_ok (fun r => match r with inl msg => small msg | inr v => vec_ok v end)
      (fst (vm_pinned_metrics c h));
  vm_get_instance_ok c s g h :
    result_ok (fun inst => forall e args dbg, prog_all leaf_ok (inst e args dbg))
      (fst (vm_get_instance c s g h));
}.

(** ** The exported functions *)

(** What comes back from a C call: the value, [errno], and what the error
    pointer refers to. *)
Record c_result (A : Type) := mkCResult { cr_value : A; cr_errno : Z; cr_errmsg : UnmanagedVector }.
Arguments mkCResult {A} _ _ _.
Arguments cr_value {A} _.
Arguments cr_errno {A} _.
Arguments cr_errmsg {A} _.

Section Exports.
Context {H : Type} `{Host H} `{ErrorTexts} `{SerdeJson} `{VMLib H}.
Abbreviation WM := (GoM (world H)).

Definition on_vm {A} (f : H -> A * H) : WM A := fun w =>
  let '(a, h) := f (w_host w) in
  (Ret a, mkWorld (w_heap w) (iteratorFrames w) (latestCallID w) h).

(** [set_error] *)
Definition set_error (err : RustError) : WM (Z * UnmanagedVector) :=
  msg ← on_heap (UnmanagedVector_new (Some (vm_text (RustError_text err))));
  mret (errno_of err, msg).

(** [handle_c_error_default], and with the null pointer or the empty vector as
    the default value the other two. *)
Definition handle_c_error {A} (default : A) (result : RustError + A) (error_msg : UnmanagedVector) :
    WM (c_result A) :=
  match result with
  | inr value => mret (mkCResult value ErrnoValue_Success error_msg)
  | inl err => '(errno, msg) ← set_error err; mret (mkCResult default errno msg)
  end.

(** [catch_unwind(f).unwrap_or_else(...)] of a function of the VM, with the
    conversion of its error. *)
Definition caught {A} (r : option (VmError + A)) : RustError + A :=
  match r with
  | None => inl RustPanic
  | Some (inl e) => inl (from_vm_error e)
  | Some (inr a) => inr a
  end.
Definition vm_call {A} (f : vm_fn H A) : WM (RustError + A) :=
  r ← on_vm f; mret (caught r).

(** Reading an argument, and a checksum. *)
Definition read_arg (name : string) (v : ByteSliceView) : WM (RustError + string) :=
  r ← glift (ByteSliceView_read v);
  mret (match r with Some d => inr d | None => inl (UnsetArg name) end).
Definition to_checksum (d : string) : RustError + string :=
  if slen d =? 32 then inr d else inl ChecksumError.

Definition bind_result {A B} (m : WM (RustError + A)) (k : A -> WM (RustError + B)) :
    WM (RustError + B) :=
  r ← m; match r with inl e => mret (inl e) | inr a => k a end.

(** [to_cache] *)
Definition with_cache {A} (cache : Z) (f : WM (RustError + A)) : WM (RustError + A) :=
  if cache =? 0 then mret (inl (UnsetArg "cache")) else f.
Definition with_checksum {A} (cache : Z) (checksum : ByteSliceView)
    (f : string -> WM (RustError + A)) : WM (RustError + A) :=
  with_cache cache (bind_result (read_arg "checksum" checksum) (fun d =>
    bind_result (mret (to_checksum d)) f)).

(** The value as an owned vector. *)
Definition owned (r : c_result Vec) : WM (c_result UnmanagedVector) :=
  v ← on_heap (UnmanagedVector_new (Some (cr_value r)));
  mret (mkCResult v (cr_errno r) (cr_errmsg r)).
Definition empty_vec : Vec := mkVec EmptyString 0.

Definition init_cache (config : ByteSliceView) (error_msg : UnmanagedVector) : WM (c_result Z) :=
  r ← bind_result (read_arg "config" config) (fun d =>
    bind_result (mret (match vm_parse_config d with inl msg => inl (Json msg) | inr c => inr c end))
      (fun c => vm_call (vm_new_with_config c)));
  handle_c_error 0 r error_msg.
Definition release_cache (cache : Z) : WM unit :=
  if cache =? 0 then mret tt else on_vm (fun h => (tt, vm_drop cache h)).
Definition store_code (cache : Z) (wasm : ByteSliceView) (checked persist : bool)
    (error_msg : UnmanagedVector) : WM (c_result UnmanagedVector) :=
  r ← with_cache cache (bind_result (read_arg "wasm" wasm) (fun d =>
    bind_result (vm_call (vm_store_code cache d checked persist)) (fun checksum =>
      mret (inr (vm_text checksum)))));
  c ← handle_c_error empty_vec r error_msg;
  owned c.
Definition remove_wasm (cache : Z) (checksum : ByteSliceView) (error_msg : UnmanagedVector) :
    WM (c_result unit) :=
  r ← with_checksum cache checksum (fun c => vm_call (vm_remove_wasm cache c));
  handle_c_error tt r error_msg.
Definition load_wasm (cache : Z) (checksum : ByteSliceView) (error_msg : UnmanagedVector) :
    WM (c_result UnmanagedVector) :=
  r ← with_checksum cache checksum (fun c => vm_call (vm_load_wasm cache c));
  c ← handle_c_error empty_vec r error_msg;
  owned c.
Definition pin (cache : Z) (checksum : ByteSliceView) (error_msg : UnmanagedVector) :
    WM (c_result unit) :=
  r ← with_checksum cache checksum (fun c => vm_call (vm_pin cache c));
  handle_c_error tt r error_msg.
Definition unpin (cache : Z) (checksum : ByteSliceView) (error_msg : UnmanagedVector) :
    WM (c_result unit) :=
  r ← with_checksum cache checksum (fun c => vm_call (vm_unpin cache c));
  handle_c_error tt r error_msg.

(** [chunks_exact(32)]: a shorter rest is left out. *)
Fixpoint chunks_exact (fuel : nat) (s : string) : list string :=
  match fuel with
  | O => []
  | S fuel =>
    if slen s <? 32 then [] else stake 32 s :: chunks_exact fuel (sdrop 32 s)
  end.
Definition sync_pinned_codes (cache : Z) (checksums : ByteSliceView) (error_msg : UnmanagedVector) :
    WM (c_result unit) :=
  r ← with_cache cache (bind_result (read_arg "checksums" checksums) (fun d =>
    vm_call (vm_sync_pinned_codes cache (chunks_exact (String.length d) d))));
  handle_c_error tt r error_msg.

Record c_AnalysisReport := mkCAnalysisReport {
  has_ibc_entry_points : bool;
  entrypoints : UnmanagedVector;
  required_capabilities : UnmanagedVector;
  contract_migrate_version : OptionalU64;
}.
Definition to_OptionalU64 (o : option Z) : OptionalU64 :=
  match o with None => mkOptionalU64 false 0 | Some v => mkOptionalU64 true v end.
Definition set_to_csv (set : list string) : string := join "," set.
Definition report_of (r : vm_analysis) : WM (RustError + c_AnalysisReport) :=
  req ← on_heap (UnmanagedVector_new (Some (vm_text (set_to_csv (va_required_capabilities r)))));
  ent ← on_heap (UnmanagedVector_new (Some (vm_text (set_to_csv (va_entrypoints r)))));
  mret (inr (mkCAnalysisReport (va_has_ibc_entry_points r) ent req
    (to_OptionalU64 (va_contract_migrate_version r)))).
Definition analyze_code (cache : Z) (checksum : ByteSliceView) (error_msg : UnmanagedVector) :
    WM (c_result c_AnalysisReport) :=
  r ← with_checksum cache checksum (fun c =>
    bind_result (vm_call (vm_analyze cache c)) report_of);
  handle_c_error (mkCAnalysisReport false UnmanagedVector_default UnmanagedVector_default
    (mkOptionalU64 false 0)) r error_msg.

Definition get_metrics (cache : Z) (error_msg : UnmanagedVector) : WM (c_result Metrics) :=
  r ← with_cache cache (vm_call (vm_metrics cache));
  handle_c_error (mkMetrics 0 0 0 0 0 0 0 0) r error_msg.
Definition get_pinned_metrics (cache : Z) (error_msg : UnmanagedVector) :
    WM (c_result UnmanagedVector) :=
  r ← with_cache cache (bind_result (vm_call (vm_pinned_metrics cache)) (fun enc =>
    match enc with
    | inl msg => mret (inl (MessagePack msg))
    | inr v => vec ← on_heap (UnmanagedVector_new (Some v)); mret (inr vec)
    end));
  handle_c_error UnmanagedVector_default r error_msg.

(** ** Contract calls *)

Fixpoint read_args (n : Z) (args : list ByteSliceView) : WM (RustError + list string) :=
  match args with
  | [] => mret (inr [])
  | a :: args =>
    bind_result (read_arg ("arg" +:+ Strconv.FormatInt n) a) (fun d =>
    bind_result (read_args (n + 1) args) (fun ds => mret (inr (d :: ds))))
  end.

(** [do_call_2_args] and [do_call_3_args]; the gas report is written once the
    entry point has come back. *)
Definition do_call_args (e : entry_point) (cache : Z) (checksum : ByteSliceView)
    (args : list ByteSliceView) (b : backend) (gas_limit : Z) (print_debug : bool)
    (gas_report : GasReport) : WM ((RustError + Vec) * GasReport) :=
  r ← with_checksum cache checksum (fun c =>
    bind_result (read_args 1 args) (fun ds =>
    bind_result (vm_call (vm_get_instance cache c gas_limit)) (fun instance =>
    mret (inr (instance e ds print_debug)))));
  match r with
  | inl err => mret (inl err, gas_report)
  | inr prog =>
    res ← catch_unwind (run b [] prog);
    match default None res with
    | None => mret (inl RustPanic, gas_report)
    | Some (inl err, gas_report) => mret (inl (from_vm_error err), gas_report)
    | Some (inr data, gas_report) => mret (inr data, gas_report)
    end
  end.

(** [call_2_args] and [call_3_args]; the gas report as it is afterwards. *)
Definition call_args (e : entry_point) (cache : Z) (checksum : ByteSliceView)
    (args : list ByteSliceView) (b : backend) (gas_limit : Z) (print_debug : bool)
    (gas_report : GasReport) (error_msg : UnmanagedVector) :
    WM (c_result UnmanagedVector * GasReport) :=
  '(r, gas_report) ← do_call_args e cache checksum args b gas_limit print_debug gas_report;
  c ← handle_c_error empty_vec r error_msg;
  v ← owned c;
  mret (v, gas_report).

End Exports.
