(* ===== verification/ExampleVM.v ===== *)
(** * A virtual machine to run examples with

    An instance of [Libwasmvm.VMLib] over any host, small enough to
    evaluate: it holds one contract, whose entry points return what the store
    has under the key [k], and whose queries run out of gas.  It refuses to
    start with a configuration of more than 1000 bytes.  It shows that
    the laws of [VMLaws] can hold. *)

From S2P Require Import Prelude GoText RustText Json JsonParse Codec Scalars Types Errors Queries Memory MemDB World Mocks Iterators Callbacks Vtables Backend Libwasmvm.

Definition example_checksum : string := "0123456789abcdef0123456789abcdef".
Definition example_report : GasReport := mkGasReport 1000 600 100 300.

Definition answers {H A} (a : VmError + A) : vm_fn H A := fun h => (Some a, h).

(** A short text as what a contract returns. *)
Definition short (v : string) : VmError + Vec :=
  if slen v <? 500 then inr (mkVec v (slen v)) else inl (OtherVmError "too long").
Lemma short_ok v : leaf_ok (Some (short v, example_report)).
Proof.
  unfold short. destruct (Z.ltb_spec (slen v) 500); [|done].
  split; cbn [vec_data vec_cap]; unfold two31; lia.
Qed.

Definition example_contract (e : entry_point) (args : list string) (print_debug : bool) :
    vm_prog vm_leaf :=
  match e with
  | call_query_raw => VDone (Some (inl GasDepletion, example_report))
  | _ =>
    VCall (RGet "k") (fun rep =>
      VDone (Some (match rp_result rep with
                   | inr (Found (Some v)) => short v
                   | _ => inl (OtherVmError "no value")
                   end, example_report)))
  end.

(** The virtual machine that holds a given contract. *)
Definition vm_of (contract : entry_point -> list string -> bool -> vm_prog vm_leaf) (H : Type) :
    VMLib H := {|
  vm_text s := mkVec s (slen s);
  vm_parse_config s := inr s;
  vm_new_with_config c := answers (if 1000 <? slen c then inl (OtherVmError "too long") else inr 1);
  vm_drop _ h := h;
  vm_store_code _ _ _ _ := answers (inr example_checksum);
  vm_remove_wasm _ _ := answers (inl (OtherVmError "Wasm file does not exist"));
  vm_load_wasm _ _ := answers (inl (OtherVmError "Error opening Wasm file for reading"));
  vm_pin _ _ := answers (inr tt);
  vm_unpin _ _ := answers (inr tt);
  vm_sync_pinned_codes _ _ := answers (inr tt);
  vm_analyze _ _ := answers (inr (mkVmAnalysis false [] ["execute"; "instantiate"]%string None));
  vm_metrics _ := answers (inr (mkMetrics 0 1 0 0 0 1 0 100));
  vm_pinned_metrics _ := answers (inr (inr (mkVec "x" 1)));
  vm_get_instance _ _ _ := answers (inr contract);
|}.

Lemma vm_of_laws contract (H : Type) :
  (forall e args dbg, prog_all leaf_ok (contract e args dbg)) -> @VMLaws H (vm_of contract H).
Proof.
  intros Hc. split; try (intros; exact I).
  - done.
  - intros s. reflexivity.
  - intros c h. cbn. by destruct (1000 <? slen c).
  - by intros.
  - by intros.
  - by intros.
  - by intros.
  - by intros.
  - intros c s g h. exact Hc.
Qed.

Definition example_vm (H : Type) : VMLib H := vm_of example_contract H.
Lemma example_vm_laws (H : Type) : @VMLaws H (example_vm H).
Proof.
  apply vm_of_laws. intros e args dbg.
  destruct e; cbn [example_contract prog_all]; try done; intros rep;
    destruct (rp_result rep) as [|[|[v|]| | | |]]; try done; apply short_ok.
Qed.
