(* ===== verification/Api.v ===== *)
(** * The Go side of the C interface

    [internal/api/lib.go]: one function per exported function of libwasmvm.
    Each makes views of its arguments, calls, and turns error number and
    error vector into a Go error or copies the result out of Rust's memory.
    A contract call also opens a call ID for the iterators of the contract and
    closes it, whatever happens. *)

From Stdlib Require Import Ascii.
From S2P Require Import Prelude GoText RustText Json JsonParse Codec Scalars Types Errors Queries Memory MemDB World Mocks Iterators Callbacks Vtables Backend Libwasmvm ExampleVM.

(** ** The operating system, as [InitCache] uses it

    Files are referred to by descriptors; a failed operation has no
    descriptor, or is [false] where the error is not looked at. *)
Class OS (H : Type) := {
  Join : string -> string -> string;
  MkdirAll : string -> H -> option error * H;
  OpenFile : string -> H -> option Z * H;
  WriteString : Z -> string -> H -> bool * H;
  Flock : Z -> H -> bool * H;
  CloseFile : Z -> H -> H;
}.

(** The MessagePack reader, a third-party package. *)
Class MsgPack := { UnmarshalAsArray : bytes -> error + PinnedMetrics }.

Record Cache := mkCache { cache_ptr : Z; lockfile : Z }.

(** [strings.Split(s, sep)] for a separator of one byte *)
Fixpoint Split (s : string) (sep : ascii) : list string :=
  match s with
  | EmptyString => [EmptyString]
  | String c s =>
    if Ascii.eqb c sep then EmptyString :: Split s sep
    else
      match Split s sep with
      | [] => [String c EmptyString]
      | t :: l => String c t :: l
      end
  end.

(** No comma in a name. *)
Fixpoint no_comma (s : string) : bool :=
  match s with
  | EmptyString => true
  | String c s => negb (Ascii.eqb c ",") && no_comma s
  end.

Lemma Split_join s l :
  no_comma s = true -> (forall t, t ∈ l -> no_comma t = true) ->
  Split (join "," (s :: l)) "," = s :: l.
Proof.
  revert s. induction l as [|t l IH]; intros s Hs Hl.
  - cbn [join]. induction s as [|c s IHs]; [done|]. cbn [no_comma Split] in *.
    apply andb_true_iff in Hs as [Hc Hs]. apply negb_true_iff in Hc. rewrite Hc, IHs by done. done.
  - rewrite join_cons2. specialize (IH t (Hl t ltac:(by left)) ltac:(intros u Hu; apply Hl; by right)).
    induction s as [|c s IHs]; cbn [no_comma] in *.
    + change (EmptyString +:+ "," +:+ join "," (t :: l)) with (String "," (join "," (t :: l))).
      cbn [Split]. by rewrite IH.
    + apply andb_true_iff in Hs as [Hc Hs]. apply negb_true_iff in Hc.
      change (String c s +:+ "," +:+ join "," (t :: l)) with (String c (s +:+ "," +:+ join "," (t :: l))).
      cbn [Split]. by rewrite Hc, IHs.
Qed.

Section Api.
Context {H : Type} `{Host H} `{ErrorTexts} `{SerdeJson} `{VMLib H} `{OS H} `{MsgPack}.
Abbreviation WM := (GoM (world H)).

Definition copyAndDestroy (v : UnmanagedVector) : WM bytes :=
  on_heap (copyAndDestroyUnmanagedVector v).

(** The error of a call: error number 0 is the nil error. *)
Definition errorWithMessage (errno : Z) (b : UnmanagedVector) : WM error :=
  msg ← copyAndDestroy b;
  mret (if errno =? 2 then OutOfGasError
        else match msg with None => Errno errno | Some m => errorString m end).

Definition convertGasReport (report : GasReport) : GasReport :=
  mkGasReport (GasReport_Limit report) (GasReport_Remaining report)
    (GasReport_UsedExternally report) (GasReport_UsedInternally report).

(** ** The cache *)

Definition lockfile_text : string :=
  "This is a lockfile that prevent two VM instances to operate on the same directory in parallel.
See codebase at github.com/CosmWasm/wasmvm for more information.
Safety first – brought to you by Confio ❤️
".

Definition zero_cache : Cache := mkCache 0 0.

(** A failing path returns without closing the lockfile. *)
Definition InitCache (config : VMConfig) : WM (Cache * option error) :=
  let BaseDir := CacheOptions_BaseDir (VMConfig_Cache config) in
  let fail msg : WM (Cache * option error) := mret (zero_cache, Some (errorString msg)) in
  err ← on_vm (MkdirAll BaseDir);
  match err with
  | Some _ => fail "could not create base directory"%string
  | None =>
  file ← on_vm (OpenFile (Join BaseDir "exclusive.lock"));
  match file with
  | None => fail "could not open exclusive.lock"%string
  | Some lockfile =>
    ok ← on_vm (WriteString lockfile lockfile_text);
    if negb ok then fail "error writing to exclusive.lock"%string
    else
    ok ← on_vm (Flock lockfile);
    if negb ok
    then fail "could not lock exclusive.lock. Is a different VM running in the same directory already?"%string
    else
    let configView := makeView (Some (Marshal config)) in
    let errmsg := uninitializedUnmanagedVector in
    r ← init_cache configView errmsg;
    if negb (cr_errno r =? 0)
    then err ← errorWithMessage (cr_errno r) (cr_errmsg r); mret (zero_cache, Some err)
    else mret (mkCache (cr_value r) lockfile, None)
  end
  end.

Definition ReleaseCache (cache : Cache) : WM unit :=
  _ ← release_cache (cache_ptr cache);
  on_vm (fun h => (tt, CloseFile (lockfile cache) h)).

(** [if err != nil { return zero, errorWithMessage(err, errmsg) }] *)
Definition checked {A B} (zero : B) (r : c_result A) (k : A -> WM (B * option error)) :
    WM (B * option error) :=
  if negb (cr_errno r =? 0)
  then err ← errorWithMessage (cr_errno r) (cr_errmsg r); mret (zero, Some err)
  else k (cr_value r).
(** The functions that return bytes, and those that return only an error. *)
Definition copied (v : UnmanagedVector) : WM (bytes * option error) :=
  d ← copyAndDestroy v; mret (d, None).
Definition only_error (m : WM (unit * option error)) : WM (option error) :=
  '(_, err) ← m; mret err.

Definition StoreCode (cache : Cache) (wasm : bytes) (persist : bool) : WM (bytes * option error) :=
  let w := makeView wasm in
  let errmsg := uninitializedUnmanagedVector in
  r ← store_code (cache_ptr cache) w true persist errmsg;
  checked None r copied.
Definition StoreCodeUnchecked (cache : Cache) (wasm : bytes) : WM (bytes * option error) :=
  let w := makeView wasm in
  let errmsg := uninitializedUnmanagedVector in
  r ← store_code (cache_ptr cache) w false true errmsg;
  checked None r copied.
Definition RemoveCode (cache : Cache) (checksum : bytes) : WM (option error) :=
  let cs := makeView checksum in
  let errmsg := uninitializedUnmanagedVector in
  r ← remove_wasm (cache_ptr cache) cs errmsg;
  only_error (checked tt r (fun _ => mret (tt, None))).
Definition GetCode (cache : Cache) (checksum : bytes) : WM (bytes * option error) :=
  let cs := makeView checksum in
  let errmsg := uninitializedUnmanagedVector in
  r ← load_wasm (cache_ptr cache) cs errmsg;
  checked None r copied.
Definition Pin (cache : Cache) (checksum : bytes) : WM (option error) :=
  let cs := makeView checksum in
  let errmsg := uninitializedUnmanagedVector in
  r ← pin (cache_ptr cache) cs errmsg;
  only_error (checked tt r (fun _ => mret (tt, None))).
Definition Unpin (cache : Cache) (checksum : bytes) : WM (option error) :=
  let cs := makeView checksum in
  let errmsg := uninitializedUnmanagedVector in
  r ← unpin (cache_ptr cache) cs errmsg;
  only_error (checked tt r (fun _ => mret (tt, None))).
Definition SyncPinnedCodes (cache : Cache) (checksums : bytes) : WM (option error) :=
  let cs := makeView checksums in
  let errmsg := uninitializedUnmanagedVector in
  r ← sync_pinned_codes (cache_ptr cache) cs errmsg;
  only_error (checked tt r (fun _ => mret (tt, None))).

Definition AnalyzeCode (cache : Cache) (checksum : bytes) :
    WM (option AnalysisReport * option error) :=
  let cs := makeView checksum in
  let errmsg := uninitializedUnmanagedVector in
  r ← analyze_code (cache_ptr cache) cs errmsg;
  checked None r (fun report =>
    requiredCapabilities ← copyAndDestroy (required_capabilities report);
    entrypoints ← copyAndDestroy (entrypoints report);
    let entrypoints_array := Split (string_of_bytes entrypoints) "," in
    mret (Some (mkAnalysisReport (has_ibc_entry_points report)
      (string_of_bytes requiredCapabilities) entrypoints_array
      (optionalU64ToPtr (contract_migrate_version report))), None)).

Definition GetMetrics (cache : Cache) : WM (option Metrics * option error) :=
  let errmsg := uninitializedUnmanagedVector in
  r ← get_metrics (cache_ptr cache) errmsg;
  checked None r (fun metrics =>
    mret (Some (mkMetrics
      (Metrics_HitsPinnedMemoryCache metrics) (Metrics_HitsMemoryCache metrics)
      (Metrics_HitsFsCache metrics) (Metrics_Misses metrics)
      (Metrics_ElementsPinnedMemoryCache metrics) (Metrics_ElementsMemoryCache metrics)
      (Metrics_SizePinnedMemoryCache metrics) (Metrics_SizeMemoryCache metrics)), None)).

Definition UnmarshalMessagePack (data : bytes) : error + PinnedMetrics := UnmarshalAsArray data.
Definition GetPinnedMetrics (cache : Cache) : WM (option PinnedMetrics * option error) :=
  let errmsg := uninitializedUnmanagedVector in
  r ← get_pinned_metrics (cache_ptr cache) errmsg;
  checked None r (fun metrics =>
    data ← copyAndDestroy metrics;
    match UnmarshalMessagePack data with
    | inl err => mret (None, Some err)
    | inr pinnedMetrics => mret (Some pinnedMetrics, None)
    end).

(** ** Contract calls *)

Definition api_panic (what : string) : panic_value :=
  string_panic (what +:+ " must not be nil. If you don't want to provide API functionality, please create an instance that returns an error on every call to HumanizeAddress(), CanonicalizeAddress() and ValidateAddress().").
Definition querier_panic : panic_value :=
  string_panic "Querier must not be nil. If you don't want to provide querier functionality, please create an instance that returns an error on every call to Query().".

(** Pinning keeps Go's garbage collector from moving the object; it has no
    effect in the model. *)
Definition checkAndPinAPI (api : option GoAPI) : WM unit :=
  match api with
  | None => gpanic (api_panic "API")
  | Some api =>
    match HumanizeAddress api with None => gpanic (api_panic "HumanizeAddress in API") | Some _ =>
    match CanonicalizeAddress api with None => gpanic (api_panic "CanonicalizeAddress in API") | Some _ =>
    match ValidateAddress api with None => gpanic (api_panic "ValidateAddress in API") | Some _ =>
    mret tt
    end end end
  end.
Definition checkAndPinQuerier (querier : option iface) : WM unit :=
  match querier with None => gpanic querier_panic | Some _ => mret tt end.

(** What the contract calls share.  [C] is the exported function, with the
    arguments of the call in its order.  [call_body] is what follows
    [defer endCall(callID)]. *)
Definition call_body (C : entry_point) (cache : Cache) (cs : ByteSliceView)
    (views : list ByteSliceView) (gasMeter : option iface) (store : iface) (api : option GoAPI)
    (querier : option iface) (gasLimit : Z) (printDebug : bool) (callID : Z) :
    WM (bytes * GasReport * option error) :=
  let dbState := buildDBState store callID in
  let b := go_backend dbState gasMeter api querier in
  let gasReport := mkGasReport 0 0 0 0 in
  let errmsg := uninitializedUnmanagedVector in
  '(res, gasReport) ←
    call_args C (cache_ptr cache) cs views b gasLimit printDebug gasReport errmsg;
  if negb (cr_errno res =? ErrnoValue_Success)
  then
    err ← errorWithMessage (cr_errno res) (cr_errmsg res);
    mret (None, convertGasReport gasReport, Some err)
  else
    data ← copyAndDestroy (cr_value res);
    mret (data, convertGasReport gasReport, None).

Definition contract_call (C : entry_point) (cache : Cache) (checksum : bytes) (args : list bytes)
    (gasMeter : option iface) (store : iface) (api : option GoAPI) (querier : option iface)
    (gasLimit : Z) (printDebug : bool) : WM (bytes * GasReport * option error) :=
  let cs := makeView checksum in
  let views := map makeView args in
  _ ← checkAndPinAPI api;
  _ ← checkAndPinQuerier querier;
  with_call (call_body C cache cs views gasMeter store api querier gasLimit printDebug).

Definition Instantiate cache checksum env info msg gasMeter store api querier gasLimit printDebug :=
  contract_call call_instantiate_raw cache checksum [env; info; msg]
    gasMeter store api querier gasLimit printDebug.
Definition Execute cache checksum env info msg gasMeter store api querier gasLimit printDebug :=
  contract_call call_execute_raw cache checksum [env; info; msg]
    gasMeter store api querier gasLimit printDebug.
Definition Migrate cache checksum env msg gasMeter store api querier gasLimit printDebug :=
  contract_call call_migrate_raw cache checksum [env; msg]
    gasMeter store api querier gasLimit printDebug.
Definition MigrateWithInfo cache checksum env msg migrateInfo gasMeter store api querier gasLimit
    printDebug :=
  contract_call call_migrate_with_info_raw cache checksum [env; msg; migrateInfo]
    gasMeter store api querier gasLimit printDebug.
Definition Sudo cache checksum env msg gasMeter store api querier gasLimit printDebug :=
  contract_call call_sudo_raw cache checksum [env; msg]
    gasMeter store api querier gasLimit printDebug.
Definition Reply cache checksum env reply gasMeter store api querier gasLimit printDebug :=
  contract_call call_reply_raw cache checksum [env; reply]
    gasMeter store api querier gasLimit printDebug.
Definition Query cache checksum env msg gasMeter store api querier gasLimit printDebug :=
  contract_call call_query_raw cache checksum [env; msg]
    gasMeter store api querier gasLimit printDebug.
Definition IBCChannelOpen cache checksum env msg gasMeter store api querier gasLimit printDebug :=
  contract_call call_ibc_channel_open_raw cache checksum [env; msg]
    gasMeter store api querier gasLimit printDebug.
Definition IBCChannelConnect cache checksum env msg gasMeter store api querier gasLimit printDebug :=
  contract_call call_ibc_channel_connect_raw cache checksum [env; msg]
    gasMeter store api querier gasLimit printDebug.
Definition IBCChannelClose cache checksum env msg gasMeter store api querier gasLimit printDebug :=
  contract_call call_ibc_channel_close_raw cache checksum [env; msg]
    gasMeter store api querier gasLimit printDebug.
Definition IBCPacketReceive cache checksum env packet gasMeter store api querier gasLimit printDebug :=
  contract_call call_ibc_packet_receive_raw cache checksum [env; packet]
    gasMeter store api querier gasLimit printDebug.
Definition IBC2PacketReceive cache checksum env payload gasMeter store api querier gasLimit printDebug :=
  contract_call call_ibc2_packet_receive_raw cache checksum [env; payload]
    gasMeter store api querier gasLimit printDebug.
Definition IBC2PacketAck cache checksum env payload gasMeter store api querier gasLimit printDebug :=
  contract_call call_ibc2_packet_ack_raw cache checksum [env; payload]
    gasMeter store api querier gasLimit printDebug.
Definition IBC2PacketTimeout cache checksum env payload gasMeter store api querier gasLimit printDebug :=
  contract_call call_ibc2_packet_timeout_raw cache checksum [env; payload]
    gasMeter store api querier gasLimit printDebug.
Definition IBC2PacketSend cache checksum env payload gasMeter store api querier gasLimit printDebug :=
  contract_call call_ibc2_packet_send_raw cache checksum [env; payload]
    gasMeter store api querier gasLimit printDebug.
Definition IBCPacketAck cache checksum env ack gasMeter store api querier gasLimit printDebug :=
  contract_call call_ibc_packet_ack_raw cache checksum [env; ack]
    gasMeter store api querier gasLimit printDebug.
Definition IBCPacketTimeout cache checksum env packet gasMeter store api querier gasLimit printDebug :=
  contract_call call_ibc_packet_timeout_raw cache checksum [env; packet]
    gasMeter store api querier gasLimit printDebug.
Definition IBCSourceCallback cache checksum env msg gasMeter store api querier gasLimit printDebug :=
  contract_call call_ibc_source_callback_raw cache checksum [env; msg]
    gasMeter store api querier gasLimit printDebug.
Definition IBCDestinationCallback cache checksum env msg gasMeter store api querier gasLimit
    printDebug :=
  contract_call call_ibc_destination_callback_raw cache checksum [env; msg]
    gasMeter store api querier gasLimit printDebug.

End Api.

(** ** Lemmas *)

(** What a failed call becomes. *)
Definition go_error (e : RustError) : error :=
  match e with OutOfGas => OutOfGasError | _ => errorString (RustError_text e) end.
(** The text of the error fits what Go can copy. *)
Definition err_ok (e : RustError) : Prop := slen (RustError_text e) < two31.

Section Lemmas.
Context {H : Type} `{HostLaws H} `{ErrorTexts} `{SerdeJson} `{VMLaws H}.
Implicit Types w : world H.

(** [w'] is [w] but for addresses: the same buffers are live. *)
Record same_but_heap (w w' : world H) : Prop := {
  sb_rest : w' = set_heap (w_heap w') w;
  sb_blocks : blocks (w_heap w') = blocks (w_heap w);
  sb_wf : heap_wf (w_heap w');
}.

Lemma new_vec v w :
  heap_wf (w_heap w) -> slen (vec_data v) <= vec_cap v ->
  exists vec h, on_heap (UnmanagedVector_new (Some v)) w = (Ret vec, set_heap h w) /\
    heap_wf h /\ owns h vec (Some (vec_data v)) /\ blocks (without vec h) = blocks (w_heap w).
Proof.
  intros Hw Hv.
  destruct (UnmanagedVector_new_spec (Some v) (w_heap w) Hw) as (vec & h & E & Hh & Ho & Hb & _).
  { intros d [= <-] Hc. apply slen_empty. pose proof (slen_nonneg (vec_data v)). lia. }
  exists vec, h. unfold on_heap. rewrite E. done.
Qed.

Lemma copyAndDestroy_owned vec h d w :
  owns h vec d -> blen d < two31 ->
  copyAndDestroy vec (set_heap h w) = (Ret d, set_heap (without vec h) w).
Proof.
  intros Ho Hd. unfold copyAndDestroy, on_heap. cbn [w_heap set_heap].
  by rewrite (copyAndDestroy_spec _ _ _ Ho Hd).
Qed.

Lemma set_error_spec e w :
  heap_wf (w_heap w) -> err_ok e ->
  exists vec h, set_error e w = (Ret (errno_of e, vec), set_heap h w) /\ heap_wf h /\
    errorWithMessage (errno_of e) vec (set_heap h w) = (Ret (go_error e), set_heap (without vec h) w) /\
    blocks (without vec h) = blocks (w_heap w).
Proof.
  intros Hw He.
  destruct (new_vec (vm_text (RustError_text e)) w Hw) as (vec & h & E & Hh & Ho & Hb).
  { rewrite vm_text_data. apply vm_text_cap. }
  rewrite vm_text_data in Ho. exists vec, h. split_and!; [|done| |done].
  - unfold set_error. by erewrite gbind_eq by exact E.
  - unfold errorWithMessage. erewrite gbind_eq by (by apply copyAndDestroy_owned).
    by destruct e.
Qed.

Lemma same_but_heap_without vec h w :
  heap_wf h -> blocks (without vec h) = blocks (w_heap w) ->
  same_but_heap w (set_heap (without vec h) w).
Proof. intros Hh Hb. split; [done|done|by apply heap_wf_without]. Qed.

(** Reporting a result without bytes. *)
Lemma checked_spec {A B} (default : A) (z : B) (r : RustError + A) (k : A -> GoM (world H) (B * option error)) w :
  heap_wf (w_heap w) -> (forall e, r = inl e -> err_ok e) ->
  match r with
  | inl e => exists w', (c ← handle_c_error default r uninitializedUnmanagedVector;
      checked z c k) w = (Ret (z, Some (go_error e)), w') /\ same_but_heap w w'
  | inr a => (c ← handle_c_error default r uninitializedUnmanagedVector; checked z c k) w = k a w
  end.
Proof.
  intros Hw He. destruct r as [e|a]; [|reflexivity].
  destruct (set_error_spec e w Hw (He _ eq_refl)) as (vec & h & E & Hh & Em & Hb).
  exists (set_heap (without vec h) w). split; [|by apply same_but_heap_without].
  cbn [handle_c_error]. erewrite gbind_eq by (by erewrite gbind_eq by exact E).
  unfold checked. cbn [cr_errno cr_errmsg].
  assert ((errno_of e =? 0) = false) as -> by (by destruct e). cbn [negb].
  by erewrite gbind_eq by exact Em.
Qed.

(** Reporting a result with bytes. *)
Definition bytes_result (r : RustError + Vec) : bytes * option error :=
  match r with
  | inl e => (None, Some (go_error e))
  | inr v => (Some (vec_data v), None)
  end.
Lemma copied_spec (r : RustError + Vec) w :
  heap_wf (w_heap w) -> (forall e, r = inl e -> err_ok e) -> (forall v, r = inr v -> vec_ok v) ->
  exists w', (c ← handle_c_error empty_vec r uninitializedUnmanagedVector; v ← owned c;
    checked None v copied) w = (Ret (bytes_result r), w') /\ same_but_heap w w'.
Proof.
  intros Hw He Hv. destruct r as [e|v].
  - destruct (set_error_spec e w Hw (He _ eq_refl)) as (vec & h & E & Hh & Em & Hb).
    exists (set_heap (without vec h) w). split; [|by apply same_but_heap_without].
    cbn [handle_c_error]. erewrite gbind_eq by (by erewrite gbind_eq by exact E).
    erewrite gbind_eq by reflexivity. unfold checked. cbn [cr_errno cr_errmsg].
    assert ((errno_of e =? 0) = false) as -> by (by destruct e). cbn [negb].
    by erewrite gbind_eq by exact Em.
  - destruct (Hv _ eq_refl) as [Hc Hl].
    destruct (new_vec v w Hw Hc) as (vec & h & E & Hh & Ho & Hb).
    exists (set_heap (without vec h) w). split; [|by apply same_but_heap_without].
    cbn [handle_c_error]. erewrite gbind_eq by reflexivity. unfold owned.
    erewrite gbind_eq by (by erewrite gbind_eq by exact E).
    unfold checked. cbn [cr_errno cr_value ErrnoValue_Success Z.eqb negb]. unfold copied.
    by erewrite gbind_eq by (by apply copyAndDestroy_owned).
Qed.

(** The process with another state of the host. *)
Definition put_host (h : H) w : world H :=
  mkWorld (w_heap w) (iteratorFrames w) (latestCallID w) h.

(** What a function of the VM with one argument comes to: the checks of the
    cache pointer and the argument, and then the VM. *)
Definition vm_with {A} (cache : Z) (name : string) (arg : bytes) (convert : string -> RustError + string)
    (f : string -> vm_fn H A) (h : H) : (RustError + A) * H :=
  if cache =? 0 then (inl (UnsetArg "cache"), h)
  else
    match arg with
    | None => (inl (UnsetArg name), h)
    | Some d =>
      match convert d with
      | inl e => (inl e, h)
      | inr c => let '(r, h) := f c h in (caught r, h)
      end
    end.

Lemma read_makeView s : ByteSliceView_read (makeView s) = Ret s.
Proof.
  destruct s as [d|]; cbn [makeView]; [|done].
  destruct (Z.eqb_spec (slen d) 0) as [E|E]; [by apply slen_empty in E as ->|].
  unfold ByteSliceView_read. cbn [bsv_is_nil bsv_len bsv_ptr].
  by rewrite (proj2 (Z.eqb_neq _ _)), stake_all by done.
Qed.
Lemma read_arg_view name s w :
  read_arg name (makeView s) w =
  (Ret (match s with Some d => inr d | None => inl (UnsetArg name) end), w).
Proof. unfold read_arg, glift. rewrite read_makeView. done. Qed.

Lemma on_vm_eq {A} (f : H -> A * H) w : on_vm f w = (Ret (fst (f (w_host w))), put_host (snd (f (w_host w))) w).
Proof. unfold on_vm. by destruct (f (w_host w)). Qed.
Lemma vm_call_eq {A} (f : vm_fn H A) w :
  vm_call f w = (Ret (caught (fst (f (w_host w)))), put_host (snd (f (w_host w))) w).
Proof. unfold vm_call. by erewrite gbind_eq by apply on_vm_eq. Qed.

Lemma put_host_same w : put_host (w_host w) w = w.
Proof. by destruct w. Qed.

Lemma with_arg_spec {A} cache name arg convert (f : string -> vm_fn H A) w :
  with_cache cache (bind_result (read_arg name (makeView arg)) (fun d =>
    bind_result (mret (convert d)) (fun c => vm_call (f c)))) w =
  (Ret (fst (vm_with cache name arg convert f (w_host w))),
   put_host (snd (vm_with cache name arg convert f (w_host w))) w).
Proof.
  unfold with_cache, vm_with. destruct (cache =? 0); [cbn [fst snd]; by rewrite put_host_same|].
  unfold bind_result. erewrite gbind_eq by apply read_arg_view.
  destruct arg as [d|]; cbn beta iota; [|cbn [fst snd]; by rewrite put_host_same].
  erewrite gbind_eq by reflexivity.
  destruct (convert d) as [e|c]; [cbn [fst snd]; by rewrite put_host_same|].
  rewrite vm_call_eq. by destruct (f c (w_host w)).
Qed.
Lemma with_checksum_spec {A} cache checksum (f : string -> vm_fn H A) w :
  with_checksum cache (makeView checksum) (fun c => vm_call (f c)) w =
  (Ret (fst (vm_with cache "checksum" checksum to_checksum f (w_host w))),
   put_host (snd (vm_with cache "checksum" checksum to_checksum f (w_host w))) w).
Proof. apply (with_arg_spec cache "checksum" checksum to_checksum f w). Qed.

Lemma small_err_ok (e : VmError) :
  match e with OtherVmError msg => small msg | GasDepletion => True end -> err_ok (from_vm_error e).
Proof.
  destruct e as [|msg]; [done|]. unfold small, err_ok. cbn [from_vm_error RustError_text].
  rewrite slen_app. change (slen "Error calling the VM: ") with 22. lia.
Qed.
Lemma vm_with_ok {A} (P : A -> Prop) cache name arg convert (f : string -> vm_fn H A) h :
  slen name < 100 -> (forall d e, convert d = inl e -> err_ok e) ->
  (forall c h, result_ok P (fst (f c h))) ->
  let r := fst (vm_with cache name arg convert f h) in
  (forall e, r = inl e -> err_ok e) /\ (forall a, r = inr a -> P a).
Proof.
  intros Hn Hc Hf. unfold vm_with. destruct (cache =? 0); [split; by intros ? [= <-]|].
  destruct arg as [d|]; cbn beta iota.
  2: { split; intros ? [= <-]. unfold err_ok, RustError_text. rewrite slen_app.
       change (slen "Null/Nil argument: ") with 19. unfold two31. lia. }
  destruct (convert d) as [e|c] eqn:Ec; [split; [|done]; intros ? [= <-]; by eapply Hc|].
  specialize (Hf c h). destruct (f c h) as [r h']. cbn [fst] in *.
  destruct r as [[e|a]|]; cbn [caught].
  - split; [|done]. intros ? [= <-]. by apply small_err_ok; destruct e.
  - split; [done|]. by intros ? [= <-].
  - split; [|done]. by intros ? [= <-].
Qed.
Lemma to_checksum_ok d e : to_checksum d = inl e -> err_ok e.
Proof. unfold to_checksum. case_match; by intros [= <-]. Qed.

Lemma same_but_heap_host w h w' : same_but_heap (put_host h w) w' ->
  w_host w' = h /\ iteratorFrames w' = iteratorFrames w /\ latestCallID w' = latestCallID w /\
  blocks (w_heap w') = blocks (w_heap w) /\ heap_wf (w_heap w').
Proof. intros [-> Hb Hw]. done. Qed.

(** What a function of the cache leaves: the host as the VM left it, and
    nothing else changed. *)
Definition only_host (w : world H) (h : H) (w' : world H) : Prop :=
  w_host w' = h /\ iteratorFrames w' = iteratorFrames w /\ latestCallID w' = latestCallID w /\
  blocks (w_heap w') = blocks (w_heap w) /\ heap_wf (w_heap w').

Lemma bytes_op (m : GoM (world H) (RustError + Vec)) r h w :
  m w = (Ret r, put_host h w) -> heap_wf (w_heap w) ->
  (forall e, r = inl e -> err_ok e) /\ (forall v, r = inr v -> vec_ok v) ->
  exists w', ((x ← m; c ← handle_c_error empty_vec x uninitializedUnmanagedVector; owned c) ≫=
    (fun c => checked None c copied)) w = (Ret (bytes_result r), w') /\ only_host w h w'.
Proof.
  intros E Hw [He Hv]. destruct (copied_spec r (put_host h w) Hw He Hv) as (w' & E' & Hs).
  exists w'. split; [|by apply same_but_heap_host]. rewrite gbind_assoc.
  erewrite gbind_eq by exact E. rewrite gbind_assoc. exact E'.
Qed.
(** A function that only reports success or failure. *)
Definition unit_result (r : RustError + unit) : option error :=
  match r with inl e => Some (go_error e) | inr _ => None end.
Lemma unit_op (m : GoM (world H) (RustError + unit)) r h w :
  m w = (Ret r, put_host h w) -> heap_wf (w_heap w) -> (forall e, r = inl e -> err_ok e) ->
  exists w', ((x ← m; handle_c_error tt x uninitializedUnmanagedVector) ≫=
    (fun c => only_error (checked tt c (fun _ => mret (tt, None))))) w = (Ret (unit_result r), w') /\
    only_host w h w'.
Proof.
  intros E Hw He.
  pose proof (checked_spec tt tt r (fun _ => mret (tt, None)) (put_host h w) Hw He) as Hc.
  rewrite gbind_assoc. erewrite gbind_eq by exact E. unfold only_error.
  rewrite <- (gbind_assoc _ (fun c => checked tt c (fun _ => mret (tt, None)))). destruct r as [e|u].
  - destruct Hc as (w' & E' & Hs). exists w'. split; [|by apply same_but_heap_host].
    by erewrite gbind_eq by exact E'.
  - exists (put_host h w). split; [|done]. by erewrite gbind_eq by exact Hc.
Qed.

Lemma map_vec_ok (cache : Z) wasm chk persist w :
  with_cache cache (bind_result (read_arg "wasm" (makeView wasm)) (fun d =>
    bind_result (vm_call (vm_store_code cache d chk persist)) (fun checksum =>
      mret (inr (vm_text checksum))))) w =
  let '(r, h) := vm_with cache "wasm" wasm inr (fun d => vm_store_code cache d chk persist) (w_host w) in
  (Ret (match r with inl e => inl e | inr c => inr (vm_text c) end), put_host h w).
Proof.
  unfold with_cache, vm_with. destruct (cache =? 0); [by rewrite put_host_same|].
  unfold bind_result. erewrite gbind_eq by apply read_arg_view.
  destruct wasm as [d|]; cbn beta iota; [|by rewrite put_host_same].
  erewrite gbind_eq by apply vm_call_eq.
  destruct (vm_store_code cache d chk persist (w_host w)) as [r h]. cbn [fst snd].
  by destruct (caught r).
Qed.

Lemma store_op (cache : Z) wasm chk persist w :
  heap_wf (w_heap w) ->
  let '(r, h) := vm_with cache "wasm" wasm inr (fun d => vm_store_code cache d chk persist) (w_host w) in
  exists w', (r ← store_code cache (makeView wasm) chk persist uninitializedUnmanagedVector;
    checked None r copied) w =
    (Ret (match r with inl e => (None, Some (go_error e)) | inr c => (Some c, None) end), w') /\
    only_host w h w'.
Proof.
  intros Hw. pose proof (map_vec_ok cache wasm chk persist w) as E.
  pose proof (vm_with_ok small cache "wasm" wasm inr (fun d => vm_store_code cache d chk persist)
    (w_host w)) as Hok.
  destruct (vm_with _ _ _ _ _ _) as [r h]. cbn [fst] in Hok.
  destruct Hok as [He Hs]; [reflexivity|done|intros; apply vm_store_code_ok|].
  destruct (bytes_op _ _ _ _ E Hw) as (w' & E' & Ho).
  { destruct r as [e|c]; split; intros ? [= <-]; [by apply He|].
    specialize (Hs _ eq_refl). unfold small in Hs. split; rewrite vm_text_data;
      [apply vm_text_cap|lia]. }
  exists w'. split; [|done]. etransitivity; [exact E'|]. f_equal. f_equal.
  destruct r as [e|c]; [done|]. cbn [bytes_result]. by rewrite vm_text_data.
Qed.
End Lemmas.

Lemma pin_functions_sync {H : Type} `{VMLib H} `{!VMLaws H} (cache : Cache) (checksums : bytes) (w : world H) :
  heap_wf (w_heap w) ->
  let '(r, h) := vm_with (cache_ptr cache) "checksums" checksums inr
    (fun d => vm_sync_pinned_codes (cache_ptr cache) (chunks_exact (String.length d) d)) (w_host w) in
  exists w', SyncPinnedCodes cache checksums w = (Ret (unit_result r), w') /\ only_host w h w'.
Proof.
  intros Hw. pose proof (with_arg_spec (cache_ptr cache) "checksums" checksums inr
    (fun d => vm_sync_pinned_codes (cache_ptr cache) (chunks_exact (String.length d) d)) w) as E.
  pose proof (vm_with_ok any (cache_ptr cache) "checksums" checksums inr
    (fun d => vm_sync_pinned_codes (cache_ptr cache) (chunks_exact (String.length d) d)) (w_host w)) as Hok.
  destruct (vm_with _ _ _ _ _ _) as [r h]. cbn [fst snd] in *.
  apply (unit_op _ _ _ _ E Hw). by apply Hok; [| |intros; apply vm_sync_ok].
Qed.

(** Checksums that were written one after the other are read back. *)
Lemma chunks_exact_concat l : Forall (fun c => slen c = 32) l ->
  forall fuel, (length l <= fuel)%nat -> chunks_exact fuel (concat_strings l) = l.
Proof.
  induction 1 as [|c l Hc Hl IH]; intros fuel Hf; cbn [concat_strings length] in *.
  { by destruct fuel. }
  destruct fuel as [|fuel]; [lia|]. cbn [chunks_exact]. rewrite slen_app, Hc.
  rewrite (proj2 (Z.ltb_ge _ _)) by (pose proof (slen_nonneg (concat_strings l)); lia).
  assert (String.length c = 32%nat) as Hn by (unfold slen in Hc; lia).
  assert (forall s, stake (String.length s) (s +:+ concat_strings l) = s /\
    sdrop (String.length s) (s +:+ concat_strings l) = concat_strings l) as Hsplit.
  { clear. induction s as [|x s [IH1 IH2]]; [by destruct (concat_strings l)|]. cbn.
    by rewrite IH1, IH2. }
  destruct (Hsplit c) as [E1 E2]. rewrite Hn in E1, E2. rewrite E1, E2, IH by lia. done.
Qed.
Lemma chunks_concat l : Forall (fun c => slen c = 32) l ->
  chunks_exact (String.length (concat_strings l)) (concat_strings l) = l.
Proof.
  intros Hl. apply chunks_exact_concat; [done|].
  assert (32 * zlen l <= slen (concat_strings l)) as Hs; [|unfold zlen, slen in Hs; lia].
  induction Hl as [|c l Hc _ IH]; [done|]. cbn [concat_strings]. rewrite slen_app, zlen_cons. lia.
Qed.

(** ** Properties of the cache functions *)

(** C29. Storing and loading code give exactly what the VM answers: its bytes,
    or an error with its text (the out-of-gas error for its error number),
    and an error that names the argument for a nil cache, a nil argument or a
    checksum that is not 32 bytes long, without reaching the VM.  Nothing but
    the VM's own state changes and no vector stays allocated. *)
Theorem code_functions_exact {H : Type} `{VMLaws H} (cache : Cache) (wasm checksum : bytes)
    (persist : bool) (w : world H) :
  heap_wf (w_heap w) ->
  (let '(r, h) := vm_with (cache_ptr cache) "wasm" wasm inr
      (fun d => vm_store_code (cache_ptr cache) d true persist) (w_host w) in
   exists w', StoreCode cache wasm persist w =
     (Ret (match r with inl e => (None, Some (go_error e)) | inr c => (Some c, None) end), w') /\
     only_host w h w') /\
  (let '(r, h) := vm_with (cache_ptr cache) "wasm" wasm inr
      (fun d => vm_store_code (cache_ptr cache) d false true) (w_host w) in
   exists w', StoreCodeUnchecked cache wasm w =
     (Ret (match r with inl e => (None, Some (go_error e)) | inr c => (Some c, None) end), w') /\
     only_host w h w') /\
  (let '(r, h) := vm_with (cache_ptr cache) "checksum" checksum to_checksum
      (vm_load_wasm (cache_ptr cache)) (w_host w) in
   exists w', GetCode cache checksum w = (Ret (bytes_result r), w') /\ only_host w h w').
Proof.
  intros Hw. split; [|split].
  - apply (store_op (cache_ptr cache) wasm true persist w Hw).
  - apply (store_op (cache_ptr cache) wasm false true w Hw).
  - pose proof (with_checksum_spec (cache_ptr cache) checksum (vm_load_wasm (cache_ptr cache)) w) as E.
    pose proof (vm_with_ok vec_ok (cache_ptr cache) "checksum" checksum to_checksum
      (vm_load_wasm (cache_ptr cache)) (w_host w)) as Hok.
    destruct (vm_with _ _ _ _ _ _) as [r h]. cbn [fst snd] in *.
    apply (bytes_op _ _ _ _ E Hw). apply Hok; [done|apply to_checksum_ok|intros; apply vm_load_wasm_ok].
Qed.

(** C32. Removing, pinning and unpinning a code report exactly the VM's answer
    in the same way; [SyncPinnedCodes] hands the VM the checksums its buffer
    is made of. *)
Theorem pin_functions_exact {H : Type} `{VMLaws H} (cache : Cache) (checksum : bytes)
    (checksums : bytes) (w : world H) :
  heap_wf (w_heap w) ->
  let by_checksum (f : string -> vm_fn H unit) (op : GoM (world H) (option error)) :=
    let '(r, h) := vm_with (cache_ptr cache) "checksum" checksum to_checksum f (w_host w) in
    exists w', op w = (Ret (unit_result r), w') /\ only_host w h w' in
  by_checksum (vm_remove_wasm (cache_ptr cache)) (RemoveCode cache checksum) /\
  by_checksum (vm_pin (cache_ptr cache)) (Pin cache checksum) /\
  by_checksum (vm_unpin (cache_ptr cache)) (Unpin cache checksum) /\
  (let '(r, h) := vm_with (cache_ptr cache) "checksums" checksums inr
      (fun d => vm_sync_pinned_codes (cache_ptr cache) (chunks_exact (String.length d) d)) (w_host w) in
   exists w', SyncPinnedCodes cache checksums w = (Ret (unit_result r), w') /\ only_host w h w').
Proof.
  intros Hw by_checksum.
  assert (forall (f : string -> vm_fn H unit) op, (forall c h, result_ok any (fst (f c h))) ->
    (forall w, op w = ((x ← with_checksum (cache_ptr cache) (makeView checksum) (fun c => vm_call (f c));
      handle_c_error tt x uninitializedUnmanagedVector) ≫=
      (fun c => only_error (checked tt c (fun _ => mret (tt, None))))) w) -> by_checksum f op) as Hby.
  { intros f op Hf Hop. unfold by_checksum.
    pose proof (with_checksum_spec (cache_ptr cache) checksum f w) as E.
    pose proof (vm_with_ok any (cache_ptr cache) "checksum" checksum to_checksum f (w_host w)) as Hok.
    destruct (vm_with _ _ _ _ _ _) as [r h]. cbn [fst snd] in *. rewrite Hop.
    apply (unit_op _ _ _ _ E Hw). by apply Hok; [|apply to_checksum_ok|]. }
  split_and!; [by apply Hby; [intros; apply vm_remove_wasm_ok|]|
    by apply Hby; [intros; apply vm_pin_ok|]|by apply Hby; [intros; apply vm_unpin_ok|]|].
  apply (pin_functions_sync cache checksums w Hw).
Qed.

#[local] Existing Instance id_case.
#[local] Existing Instance example_texts.
#[local] Existing Instance example_serde.
#[local] Existing Instance example_vm.
#[local] Existing Instance example_vm_laws.
Definition example_cache : Cache := mkCache 1 3.

Lemma code_functions_exact_witness :
  let w := example_world 1000000 [] in
  exists w', StoreCode example_cache (Some "wasm"%string) true w =
    (Ret (Some example_checksum, None), w') /\ only_host w (w_host w) w'.
Proof.
  intros w.
  exact (proj1 (code_functions_exact example_cache (Some "wasm"%string) None true w empty_heap_wf)).
Defined.
Lemma pin_functions_exact_witness :
  let w := example_world 1000000 [] in
  exists w', Pin example_cache (Some "short"%string) w =
    (Ret (Some (errorString "Checksum not of length 32")), w') /\ only_host w (w_host w) w'.
Proof.
  intros w.
  exact (proj1 (proj2 (pin_functions_exact example_cache (Some "short"%string) None w empty_heap_wf))).
Defined.

(** The report as the C function leaves it: two vectors, apart from each
    other, which hold the lists. *)
Lemma analyze_code_spec {H : Type} `{VMLib H} `{!VMLaws H} cache checksum (w : world H) report h :
  heap_wf (w_heap w) -> cache <> 0 -> slen checksum = 32 ->
  vm_analyze cache checksum (w_host w) = (Some (inr report), h) ->
  let req := join "," (va_required_capabilities report) in
  let ent := join "," (va_entrypoints report) in
  exists v1 v2 h2,
    analyze_code cache (makeView (Some checksum)) uninitializedUnmanagedVector w =
      (Ret (mkCResult (mkCAnalysisReport (va_has_ibc_entry_points report) v2 v1
        (to_OptionalU64 (va_contract_migrate_version report))) 0 uninitializedUnmanagedVector),
       set_heap h2 (put_host h w)) /\
    heap_wf h2 /\ owns h2 v1 (Some req) /\ owns (without v1 h2) v2 (Some ent) /\
    blocks (without v2 (without v1 h2)) = blocks (w_heap w).
Proof.
  intros Hw Hc Hl Ev req ent.
  destruct (new_vec (vm_text req) (put_host h w) Hw) as (v1 & h1 & E1 & Hh1 & Ho1 & Hb1);
    [rewrite vm_text_data; apply vm_text_cap|].
  destruct (new_vec (vm_text ent) (set_heap h1 (put_host h w)) Hh1) as (v2 & h2 & E2 & Hh2 & Ho2 & Hb2);
    [rewrite vm_text_data; apply vm_text_cap|].
  rewrite vm_text_data in *. cbn [w_heap set_heap put_host] in *.
  assert (extends (blocks h1) v2 (Some ent) (blocks h2)) as Hx
    by (split; [exact Ho2|by rewrite <- blocks_without]).
  rewrite owns_holds in Ho1. pose proof (extends_drop _ _ _ _ _ _ Hx Ho1) as [Ho2' Hd].
  exists v1, v2, h2. split_and!.
  - unfold analyze_code, with_checksum, with_cache. rewrite (proj2 (Z.eqb_neq _ _)) by done.
    unfold bind_result. rewrite gbind_assoc. erewrite gbind_eq by apply read_arg_view. cbn beta iota.
    rewrite gbind_assoc. erewrite gbind_eq by reflexivity. unfold to_checksum.
    rewrite Hl, Z.eqb_refl. cbn beta iota. rewrite gbind_assoc.
    erewrite gbind_eq by apply vm_call_eq. rewrite Ev. cbn [fst snd caught]. unfold report_of.
    rewrite gbind_assoc. erewrite gbind_eq by exact E1. rewrite gbind_assoc.
    by erewrite gbind_eq by exact E2.
  - done.
  - rewrite owns_holds. eapply holds_mono; [by eapply extends_sub|exact Ho1].
  - by rewrite owns_holds, blocks_without.
  - rewrite !blocks_without, Hd, <- blocks_without. exact Hb1.
Qed.

(** [AnalyzeCode] of a contract that has entry points gives them back one
    by one, and its other data unchanged; for one without entry points it
    gives a list with one empty name. *)
Theorem AnalyzeCode_exact {H : Type} `{VMLib H} `{!VMLaws H} (cache : Cache) (checksum : string)
    (w : world H) (report : vm_analysis) (h : H) :
  heap_wf (w_heap w) -> cache_ptr cache <> 0 -> slen checksum = 32 ->
  vm_analyze (cache_ptr cache) checksum (w_host w) = (Some (inr report), h) ->
  (forall n, n ∈ va_entrypoints report -> no_comma n = true) ->
  exists w', AnalyzeCode cache (Some checksum) w =
    (Ret (Some (mkAnalysisReport (va_has_ibc_entry_points report)
       (join "," (va_required_capabilities report))
       (if decide (va_entrypoints report = []) then [EmptyString] else va_entrypoints report)
       (va_contract_migrate_version report)), None), w') /\ only_host w h w'.
Proof.
  intros Hw Hc Hl Ev Hn.
  pose proof (vm_analyze_ok (cache_ptr cache) checksum (w_host w)) as Hok. rewrite Ev in Hok.
  destruct Hok as [Hs1 Hs2]. unfold small in *.
  destruct (analyze_code_spec (cache_ptr cache) checksum w report h Hw Hc Hl Ev)
    as (v1 & v2 & h2 & E & Hh & Ho1 & Ho2 & Hb).
  exists (set_heap (without v2 (without v1 h2)) (put_host h w)). split.
  - unfold AnalyzeCode. erewrite gbind_eq by exact E.
    unfold checked. cbn [cr_errno cr_value Z.eqb negb required_capabilities entrypoints
      has_ibc_entry_points contract_migrate_version].
    erewrite gbind_eq by (apply copyAndDestroy_owned; [exact Ho1|unfold blen; cbn; lia]).
    erewrite gbind_eq by (apply copyAndDestroy_owned; [exact Ho2|unfold blen; cbn; lia]).
    cbn [string_of_bytes default]. unfold id.
    replace (Split (join "," (va_entrypoints report)) ",") with
      (if decide (va_entrypoints report = []) then [EmptyString] else va_entrypoints report).
    { by destruct (va_contract_migrate_version report). }
    destruct (va_entrypoints report) as [|n l]; [done|].
    rewrite Split_join; [done|apply Hn; by left|intros t Ht; apply Hn; by right].
  - split_and!; try done. cbn [w_heap set_heap]. by repeat apply heap_wf_without.
Qed.
Lemma AnalyzeCode_exact_witness :
  let w := example_world 1000000 [] in
  exists w', AnalyzeCode example_cache (Some example_checksum) w =
    (Ret (Some (mkAnalysisReport false "" ["execute"; "instantiate"]%string None), None), w').
Proof.
  intros w. edestruct (AnalyzeCode_exact example_cache example_checksum w)
    as (w' & E & _); [exact empty_heap_wf|discriminate|reflexivity|reflexivity| |].
  - intros n Hn. cbn in Hn. set_unfold in Hn. by destruct Hn as [->|[->|[]]].
  - exists w'. exact E.
Defined.
