(* ===== verification/ContractCalls.v ===== *)
(** * Contract calls

    What the functions of [internal/api/lib.go] that call a contract share
    ([Api.contract_call]): what a call gives, that it leaves nothing behind,
    and when it is refused. *)

From S2P Require Import Prelude GoText RustText Json JsonParse Codec Scalars Types Errors Queries Memory MemDB World Mocks Iterators Callbacks Vtables Backend Libwasmvm ExampleVM Api.

(** ** Lemmas *)

Section CallLemmas.
Context {H : Type} `{HostLaws H} `{ErrorTexts} `{SerdeJson} `{VMLaws H}.
Implicit Types w : world H.

(** The arguments as Rust sees them: the first that is nil is an error. *)
Fixpoint args_result (n : Z) (args : list bytes) : RustError + list string :=
  match args with
  | [] => inr []
  | None :: _ => inl (UnsetArg ("arg" +:+ Strconv.FormatInt n))
  | Some d :: args =>
    match args_result (n + 1) args with inl e => inl e | inr ds => inr (d :: ds) end
  end.
Lemma read_args_views n args w : read_args n (map makeView args) w = (Ret (args_result n args), w).
Proof.
  revert n. induction args as [|a args IH]; intros n; [done|].
  cbn [read_args map]. unfold bind_result at 1. erewrite gbind_eq by apply read_arg_view.
  destruct a as [d|]; [|done]. unfold bind_result at 1. erewrite gbind_eq by apply IH.
  cbn [args_result]. by destruct (args_result (n + 1) args).
Qed.

(** The checks before a contract runs, and the instance. *)
Definition prepared (C : entry_point) (cache : Z) (checksum : bytes) (args : list bytes)
    (gas_limit : Z) (print_debug : bool) (h : H) : (RustError + vm_prog vm_leaf) * H :=
  if cache =? 0 then (inl (UnsetArg "cache"), h)
  else
    match checksum with
    | None => (inl (UnsetArg "checksum"), h)
    | Some d =>
      if negb (slen d =? 32) then (inl ChecksumError, h)
      else
        match args_result 1 args with
        | inl e => (inl e, h)
        | inr ds =>
          let '(r, h) := vm_get_instance cache d gas_limit h in
          (match caught r with inl e => inl e | inr inst => inr (inst C ds print_debug) end, h)
        end
    end.
Lemma prepare_spec C cache checksum args gas_limit print_debug w :
  with_checksum cache (makeView checksum) (fun c =>
    bind_result (read_args 1 (map makeView args)) (fun ds =>
    bind_result (vm_call (vm_get_instance cache c gas_limit)) (fun instance =>
    mret (inr (instance C ds print_debug))))) w =
  (Ret (fst (prepared C cache checksum args gas_limit print_debug (w_host w))),
   put_host (snd (prepared C cache checksum args gas_limit print_debug (w_host w))) w).
Proof.
  unfold with_checksum, with_cache, prepared, to_checksum.
  destruct (cache =? 0); [cbn [fst snd]; by rewrite put_host_same|].
  unfold bind_result. erewrite gbind_eq by apply read_arg_view.
  destruct checksum as [d|]; cbn beta iota; [|cbn [fst snd]; by rewrite put_host_same].
  erewrite gbind_eq by reflexivity. destruct (slen d =? 32); cbn [negb]; cbn beta iota.
  2: { cbn [fst snd]. by rewrite put_host_same. }
  erewrite gbind_eq by apply read_args_views.
  destruct (args_result 1 args) as [e|ds]; [cbn [fst snd]; by rewrite put_host_same|].
  erewrite gbind_eq by apply vm_call_eq.
  destruct (vm_get_instance cache d gas_limit (w_host w)) as [r h]. cbn [fst snd].
  by destruct (caught r).
Qed.

Lemma slen_digits f n : slen (Strconv.dec_digits f n) <= Z.of_nat f.
Proof.
  revert n. induction f as [|f IH]; intros n; [done|]. cbn [Strconv.dec_digits].
  specialize (IH (n / 10)).
  case_match; rewrite ?slen_app, slen_cons; change (slen EmptyString) with 0; lia.
Qed.
Lemma args_err_ok n args e : 0 <= n -> args_result n args = inl e -> err_ok e.
Proof.
  revert n. induction args as [|[d|] args IH]; intros n Hn; cbn [args_result]; [done| |].
  - destruct (args_result (n + 1) args) as [e'|ds] eqn:E; [|done]. intros [= <-].
    eapply IH; [|exact E]. lia.
  - intros [= <-]. unfold err_ok, RustError_text, Strconv.FormatInt.
    rewrite (proj2 (Z.ltb_ge n 0)) by done. rewrite slen_app, !slen_cons.
    pose proof (slen_digits 20 (u64 n)). unfold Strconv.FormatUint, two31.
    change (slen EmptyString) with 0. lia.
Qed.

Lemma prepared_ok C cache checksum args gas_limit print_debug h :
  let r := fst (prepared C cache checksum args gas_limit print_debug h) in
  (forall e, r = inl e -> err_ok e) /\ (forall p, r = inr p -> prog_all leaf_ok p).
Proof.
  unfold prepared. destruct (cache =? 0); [split; by intros ? [= <-]|].
  destruct checksum as [d|]; [|split; by intros ? [= <-]].
  destruct (slen d =? 32); cbn [negb]; cbn beta iota; [|split; by intros ? [= <-]].
  destruct (args_result 1 args) as [e|ds] eqn:Ea.
  { split; [|done]. intros ? [= <-]. eapply args_err_ok; [|exact Ea]. lia. }
  pose proof (vm_get_instance_ok cache d gas_limit h) as Hok.
  destruct (vm_get_instance cache d gas_limit h) as [r h']. cbn [fst] in *.
  destruct r as [[e|inst]|]; cbn [caught].
  - split; [|done]. intros ? [= <-]. by apply small_err_ok; destruct e.
  - split; [done|]. intros ? [= <-]. apply Hok.
  - split; [|done]. by intros ? [= <-].
Qed.

Lemma run_leaf {R} (P : R -> Prop) b iters (p : vm_prog R) w r w' :
  prog_all P p -> run b iters p w = (Ret r, w') -> P r.
Proof.
  revert iters w. induction p as [r0|q k IH]; intros iters w Hp E; cbn [run prog_all] in *.
  - by injection E as <- _.
  - apply gbind_inv in E as [([rep its] & w1 & E1 & E2)|(p & _ & [=])]. by eapply IH.
Qed.

Lemma grows_on_vm {A} c (f : H -> A * H) : respects (grows c) (on_vm f).
Proof.
  apply respects_keeps_grows. intros w r w' E. rewrite on_vm_eq in E. injection E as <- <-.
  intros Hl. exists 0. cbn [latestCallID put_host]. rewrite Z.add_0_r, u64_id by done.
  split_and!; [lia|done|done].
Qed.
Lemma grows_put_host c h w : grows c w (put_host h w).
Proof. by apply (grows_on_vm c (fun _ => (tt, h)) w (Ret tt)). Qed.
Lemma grows_set_heap c h w : grows c w (set_heap h w).
Proof. by apply (grows_on_heap c _ (fun _ => (Ret tt, h)) w (Ret tt)). Qed.

(** Running a contract to its result: it always comes back, with a result
    that can be copied, and changes nothing but the host and its own frame. *)
Lemma do_call_spec C cache checksum args st gm api querier gas_limit print_debug gas_report w :
  heap_wf (w_heap w) ->
  exists r gr w1, do_call_args C cache (makeView checksum) (map makeView args)
      (go_backend st gm api querier) gas_limit print_debug gas_report w = (Ret (r, gr), w1) /\
    heap_wf (w_heap w1) /\ blocks (w_heap w1) = blocks (w_heap w) /\
    grows (CallID st) w w1 /\
    (forall e, r = inl e -> err_ok e) /\ (forall v, r = inr v -> vec_ok v).
Proof.
  intros Hw. unfold do_call_args. erewrite gbind_eq by apply prepare_spec.
  destruct (prepared_ok C cache checksum args gas_limit print_debug (w_host w)) as [He Hp].
  destruct (prepared C cache checksum args gas_limit print_debug (w_host w)) as [[e|p] h].
  { cbn [fst snd] in *. eexists _, _, _. split; [reflexivity|].
    split_and!; [done|done|apply grows_put_host|intros ? [= <-]; by apply He|done]. }
  cbn [fst snd] in *. specialize (Hp _ eq_refl).
  destruct (run (go_backend st gm api querier) [] p (put_host h w)) as [res w1] eqn:Er.
  destruct (run_tidy _ _ _ _ _ _ _ _ _ (Forall_nil_2 _) (Hw : heap_wf (w_heap (put_host h w))) Er)
    as [Hw1 Hb1].
  pose proof (run_grows _ _ _ _ _ _ _ _ _ Er) as Hg.
  assert (grows (CallID st) w w1) as Hg1 by (etransitivity; [apply grows_put_host|exact Hg]).
  assert (leaf_ok (default None (match res with Ret a => Some a | Panic _ => None end))) as Hl
    by (destruct res; [by eapply (run_leaf leaf_ok)|done]).
  assert (catch_unwind (run (go_backend st gm api querier) [] p) (put_host h w) =
    (Ret (match res with Ret a => Some a | Panic _ => None end), w1)) as Ec
    by (unfold catch_unwind; rewrite Er; by destruct res).
  erewrite gbind_eq by exact Ec.
  destruct (default None _) as [[[e|v] gr]|]; eexists _, _, _; (split; [reflexivity|]);
    split_and!; try done; intros ? [= <-]; try done.
  by apply small_err_ok; destruct e.
Qed.

Lemma convertGasReport_id r : convertGasReport r = r.
Proof. by destruct r. Qed.

Lemma call_body_spec C cache checksum args gasMeter store api querier gasLimit printDebug c w r gr w1 :
  heap_wf (w_heap w1) -> (forall e, r = inl e -> err_ok e) -> (forall v, r = inr v -> vec_ok v) ->
  do_call_args C (cache_ptr cache) (makeView checksum) (map makeView args)
    (go_backend (buildDBState store c) gasMeter api querier) gasLimit printDebug
    (mkGasReport 0 0 0 0) w = (Ret (r, gr), w1) ->
  exists w2, call_body C cache (makeView checksum) (map makeView args) gasMeter store api querier
      gasLimit printDebug c w = (Ret (fst (bytes_result r), gr, snd (bytes_result r)), w2) /\
    same_but_heap w1 w2.
Proof.
  intros Hw He Hv E. unfold call_body, call_args. rewrite gbind_assoc.
  erewrite gbind_eq by exact E. cbn beta iota. destruct r as [e|v].
  - destruct (set_error_spec e w1 Hw (He _ eq_refl)) as (vec & h & Es & Hh & Em & Hb).
    exists (set_heap (without vec h) w1). split; [|by apply same_but_heap_without].
    rewrite gbind_assoc. cbn [handle_c_error]. erewrite gbind_eq by (by erewrite gbind_eq by exact Es).
    rewrite gbind_assoc. erewrite gbind_eq by reflexivity. erewrite gbind_eq by reflexivity.
    cbn [cr_errno cr_errmsg]. unfold ErrnoValue_Success.
    assert ((errno_of e =? 0) = false) as -> by (by destruct e). cbn [negb].
    erewrite gbind_eq by exact Em. by rewrite convertGasReport_id.
  - destruct (Hv _ eq_refl) as [Hc Hl].
    destruct (new_vec v w1 Hw Hc) as (vec & h & Es & Hh & Ho & Hb).
    exists (set_heap (without vec h) w1). split; [|by apply same_but_heap_without].
    rewrite gbind_assoc. erewrite gbind_eq by reflexivity. rewrite gbind_assoc. unfold owned.
    erewrite gbind_eq by (by erewrite gbind_eq by exact Es).
    erewrite gbind_eq by reflexivity. cbn [cr_errno cr_value ErrnoValue_Success Z.eqb negb].
    erewrite gbind_eq by (by apply copyAndDestroy_owned). by rewrite convertGasReport_id.
Qed.

Definition api_complete (api : GoAPI) : bool :=
  match HumanizeAddress api, CanonicalizeAddress api, ValidateAddress api with
  | Some _, Some _, Some _ => true
  | _, _, _ => false
  end.
Lemma checkAndPinAPI_spec api w :
  checkAndPinAPI api w = (Ret tt, w) \/ exists p, checkAndPinAPI api w = (Panic p, w).
Proof. unfold checkAndPinAPI. repeat case_match; (by left) || (right; by eexists). Qed.

Lemma grows_run_vm {A} c (f : vm_fn H A) : respects (grows c) (vm_call f).
Proof. unfold vm_call. apply respects_bind; [apply _|apply grows_on_vm|]. intros r. solve_respects. Qed.
Lemma grows_bind_result {A B} c (m : GoM (world H) (RustError + A)) (k : A -> GoM (world H) (RustError + B)) :
  respects (grows c) m -> (forall a, respects (grows c) (k a)) -> respects (grows c) (bind_result m k).
Proof.
  intros Hm Hk. unfold bind_result. apply respects_bind; [apply _|done|].
  intros [e|a]; [apply respects_ret; apply _|done].
Qed.
Lemma grows_read_arg c name v : respects (@grows H c) (read_arg name v).
Proof. unfold read_arg. solve_respects. Qed.
Lemma grows_read_args c n args : respects (@grows H c) (read_args n args).
Proof.
  revert n. induction args as [|a args IH]; intros n; cbn [read_args]; [solve_respects|].
  apply grows_bind_result; [apply grows_read_arg|]. intros d.
  apply grows_bind_result; [apply IH|]. intros ds. solve_respects.
Qed.
Lemma grows_catch {A} c (m : GoM (world H) A) : respects (grows c) m -> respects (grows c) (catch_unwind m).
Proof.
  intros Hm w r w' E. unfold catch_unwind in E. destruct (m w) as [[a|p] w1] eqn:E1;
    injection E as _ <-; by eapply Hm.
Qed.
Lemma grows_do_call C cache cs args st gm api querier gas dbg gr :
  respects (@grows H (CallID st)) (do_call_args C cache cs args (go_backend st gm api querier) gas dbg gr).
Proof.
  unfold do_call_args, with_checksum, with_cache.
  apply respects_bind; [apply _| |].
  - destruct (cache =? 0); [solve_respects|].
    apply grows_bind_result; [apply grows_read_arg|]. intros d.
    apply grows_bind_result; [solve_respects|]. intros c.
    apply grows_bind_result; [apply grows_read_args|]. intros ds.
    apply grows_bind_result; [apply grows_run_vm|]. intros inst. solve_respects.
  - intros [e|p]; [solve_respects|]. apply respects_bind; [apply _|apply grows_catch, run_grows|].
    intros res. destruct (default None res) as [[[e|v] gr']|]; solve_respects.
Qed.
Lemma grows_call_body C cache cs args gasMeter store api querier gas dbg c :
  respects (@grows H c) (call_body C cache cs args gasMeter store api querier gas dbg c).
Proof.
  assert (forall A (m : GoM heap A), respects (@grows H c) (on_heap m)) as Hh
    by (intros; apply grows_on_heap).
  unfold call_body, call_args, handle_c_error, set_error, owned, errorWithMessage, copyAndDestroy.
  apply respects_bind; [apply _| |intros [res gr]; solve_respects; apply Hh].
  apply respects_bind; [apply _|apply (grows_do_call C _ cs args (buildDBState store c))|]. intros [r gr]. solve_respects; apply Hh.
Qed.

Lemma call_body_rely C cache checksum args gasMeter store api querier gasLimit printDebug :
  respects rely (with_call (H := H) (call_body C cache (makeView checksum) (map makeView args)
    gasMeter store api querier gasLimit printDebug)).
Proof.
  apply with_call_rely; [intros c; apply grows_call_body|].
  intros c w r w' E Hw.
  destruct (do_call_spec C (cache_ptr cache) checksum args
    (buildDBState store c) gasMeter api querier gasLimit printDebug
    (mkGasReport 0 0 0 0) w Hw) as (r1 & gr & w1 & E1 & Hw1 & Hb1 & _ & He & Hv).
  destruct (call_body_spec C cache checksum args gasMeter store api querier gasLimit printDebug
    c w r1 gr w1 Hw1 He Hv E1) as (w2 & E2 & Hs).
  rewrite E2 in E. injection E as <- <-. destruct Hs as [_ Hb Hwf]. split; [done|congruence].
Qed.

Lemma pins_ok api querier (k : GoM (world H) (bytes * GasReport * option error)) w :
  api_complete api = true ->
  (_ ← checkAndPinAPI (Some api); _ ← checkAndPinQuerier (Some querier); k) w = k w.
Proof.
  intros Ha. unfold api_complete in Ha. unfold checkAndPinAPI.
  destruct (HumanizeAddress api); [|done]. destruct (CanonicalizeAddress api); [|done].
  destruct (ValidateAddress api); done.
Qed.
Lemma close_all_returns l w :
  (forall it w, exists e w', Iterator_Close it w = (Ret e, w')) ->
  (forall it, it ∈ l -> it <> None) ->
  exists w', close_all l w = (Ret tt, w').
Proof.
  intros Hc. revert w. induction l as [|[it|] l IH]; intros w Hl; [by eexists| |].
  - destruct (Hc it w) as (e & w1 & E). destruct (IH w1) as [w' E'].
    { intros j Hj. apply Hl. by right. }
    exists w'. cbn [close_all icall]. by erewrite gbind_eq by exact E.
  - exfalso. by apply (Hl None); [left|].
Qed.
End CallLemmas.

(** A call that is refused before the contract runs, up to its end. *)
Lemma contract_call_refused_body {H : Type} `{HostLaws H} `{ErrorTexts} `{SerdeJson} `{!VMLib H} `{!VMLaws H}
    C cache checksum args gasMeter store api querier gasLimit printDebug (w : world H) e :
  heap_wf (w_heap w) -> api_complete api = true ->
  fst (prepared C (cache_ptr cache) checksum args gasLimit printDebug (w_host w)) = inl e ->
  let c := latestCallID w +u 1 in
  exists w2, same_but_heap
      (put_host (snd (prepared C (cache_ptr cache) checksum args gasLimit printDebug (w_host w)))
        (set_latest c w)) w2 /\
    contract_call C cache checksum args gasMeter store (Some api) (Some querier) gasLimit printDebug w =
    match endCall c w2 with
    | (Ret _, w3) => (Ret (None, mkGasReport 0 0 0 0, Some (go_error e)), w3)
    | (Panic p, w3) => (Panic p, w3)
    end.
Proof.
  intros Hw Ha Ep c.
  destruct (prepared_ok C (cache_ptr cache) checksum args gasLimit printDebug (w_host w)) as [He _].
  assert (do_call_args C (cache_ptr cache) (makeView checksum) (map makeView args)
    (go_backend (buildDBState store c) gasMeter (Some api) (Some querier)) gasLimit printDebug
    (mkGasReport 0 0 0 0) (set_latest c w) = (Ret (inl e, mkGasReport 0 0 0 0),
    put_host (snd (prepared C (cache_ptr cache) checksum args gasLimit printDebug (w_host w)))
      (set_latest c w))) as E.
  { unfold do_call_args. erewrite gbind_eq by apply prepare_spec. cbn [set_latest w_host].
    by rewrite Ep. }
  apply (call_body_spec C cache checksum args gasMeter store (Some api) (Some querier) gasLimit
    printDebug c) in E as (w2 & E2 & Hs); [|done|intros ? [= <-]; by apply He|done].
  exists w2. split; [done|]. unfold contract_call. rewrite pins_ok by done. unfold with_call.
  erewrite gbind_eq by reflexivity. unfold with_defer. fold c. rewrite E2.
  by destruct (endCall c w2) as [[[]|p] w3].
Qed.

(** ** Properties *)

#[local] Existing Instance id_case.
#[local] Existing Instance example_texts.
#[local] Existing Instance example_serde.
#[local] Existing Instance example_vm.
#[local] Existing Instance example_vm_laws.

(** A contract call, for every entry point and whatever the contract, the
    host and the VM do, panics included, gives back all it took: the live
    vectors are those from before, and unless the counter of calls passes
    2^64 the iterators of all other calls are as they were and its own are
    gone.  This is what a call may assume of its host, so that a host may
    run contracts while one waits for it. *)
Lemma contract_call_contained {H : Type} `{HostLaws H} `{ErrorTexts} `{SerdeJson} `{!VMLib H} `{!VMLaws H}
    (C : entry_point) (cache : Cache) (checksum : bytes) (args : list bytes)
    (gasMeter : option iface) (store : iface) (api : option GoAPI) (querier : option iface)
    (gasLimit : Z) (printDebug : bool) :
  respects (@rely H) (contract_call C cache checksum args gasMeter store api querier gasLimit printDebug).
Proof.
  unfold contract_call, checkAndPinAPI, checkAndPinQuerier.
  apply respects_bind; [apply _|solve_respects|intros _].
  apply respects_bind; [apply _|solve_respects|intros _]. apply call_body_rely.
Qed.

(** What a contract call returns.  The contract is run by the VM with the
    given arguments in their order, the given store and gas meter, and a call
    ID of its own; its data is returned unchanged with its gas report, an
    error becomes a Go error with the same text and out of gas the out-of-gas
    error.  The call returns in every case, unless closing an iterator that
    is left open panics. *)
Lemma contract_call_exact {H : Type} `{HostLaws H} `{ErrorTexts} `{SerdeJson} `{!VMLib H} `{!VMLaws H}
    (C : entry_point) (cache : Cache) (checksum : bytes) (args : list bytes)
    (gasMeter : option iface) (store : iface) (api : GoAPI) (querier : iface)
    (gasLimit : Z) (printDebug : bool) (w : world H) :
  heap_wf (w_heap w) -> api_complete api = true ->
  let c := latestCallID w +u 1 in
  exists r report w1 w2,
    do_call_args C (cache_ptr cache) (makeView checksum) (map makeView args)
      (go_backend (buildDBState store c) gasMeter (Some api) (Some querier)) gasLimit printDebug
      (mkGasReport 0 0 0 0) (set_latest c w) = (Ret (r, report), w1) /\
    same_but_heap w1 w2 /\
    contract_call C cache checksum args gasMeter store (Some api) (Some querier) gasLimit printDebug w =
    match endCall c w2 with
    | (Ret _, w3) =>
      (Ret match r with
           | inl e => (None, report, Some (go_error e))
           | inr v => (Some (vec_data v), report, None)
           end, w3)
    | (Panic p, w3) => (Panic p, w3)
    end.
Proof.
  intros Hw Ha c.
  destruct (do_call_spec C (cache_ptr cache) checksum args
    (buildDBState store c) gasMeter (Some api) (Some querier) gasLimit printDebug
    (mkGasReport 0 0 0 0) (set_latest c w) Hw) as (r & report & w1 & E & Hw1 & _ & _ & He & Hv).
  destruct (call_body_spec C cache checksum args gasMeter store (Some api) (Some querier) gasLimit
    printDebug c (set_latest c w) r report w1 Hw1 He Hv E) as (w2 & E2 & Hs).
  exists r, report, w1, w2. split_and!; [exact E|done|].
  unfold contract_call. rewrite pins_ok by done. unfold with_call.
  erewrite gbind_eq by reflexivity. unfold with_defer. fold c. rewrite E2.
  destruct (endCall c w2) as [[[]|p] w3]; [|done]. by destruct r.
Qed.

(** C15. A call that must not run does not.  Without an API with all three
    functions or without a querier it panics before anything has changed.
    With a nil cache, a checksum that is nil or not 32 bytes long, a nil
    argument or a contract the VM cannot provide, it returns the error, an
    empty gas report and no data, and leaves no trace but the call ID it
    used. *)
Theorem contract_call_refused {H : Type} `{HostLaws H} `{ErrorTexts} `{SerdeJson} `{!VMLib H} `{!VMLaws H}
    (C : entry_point) (cache : Cache) (checksum : bytes) (args : list bytes)
    (gasMeter : option iface) (store : iface) (api : option GoAPI) (querier : option iface)
    (gasLimit : Z) (printDebug : bool) (w : world H) (e : RustError) :
  heap_wf (w_heap w) -> is_u64 (latestCallID w) -> frames_below w -> latestCallID w + 1 < two64 ->
  (querier = None \/ match api with None => True | Some a => api_complete a = false end ->
     exists p, contract_call C cache checksum args gasMeter store api querier gasLimit printDebug w =
       (Panic p, w)) /\
  (match api with None => False | Some a => api_complete a = true end -> querier <> None ->
   fst (prepared C (cache_ptr cache) checksum args gasLimit printDebug (w_host w)) = inl e ->
   exists w', contract_call C cache checksum args gasMeter store api querier gasLimit printDebug w =
       (Ret (None, mkGasReport 0 0 0 0, Some (go_error e)), w') /\
     w_host w' = snd (prepared C (cache_ptr cache) checksum args gasLimit printDebug (w_host w)) /\
     iteratorFrames w' = iteratorFrames w /\ latestCallID w' = latestCallID w + 1 /\
     blocks (w_heap w') = blocks (w_heap w)).
Proof.
  intros Hw Hu Hf Hl. split.
  - intros Hn. unfold contract_call.
    destruct (checkAndPinAPI_spec api w) as [E|[p E]]; [|exists p; by erewrite gbind_panic by exact E].
    erewrite gbind_eq by exact E. destruct Hn as [->|Ha]; [by eexists|]. exfalso. revert E.
    unfold checkAndPinAPI. destruct api as [a|]; [|done]. unfold api_complete in Ha.
    repeat case_match; done.
  - destruct api as [api|]; [|done]. destruct querier as [querier|]; [|done]. intros Ha _ Ep.
    destruct (contract_call_refused_body C cache checksum args gasMeter store api querier gasLimit
      printDebug w e Hw Ha Ep) as (w2 & Hs & E).
    assert (latestCallID w +u 1 = latestCallID w + 1) as Ec by (apply u64_id; unfold is_u64 in *; lia).
    rewrite Ec in *. apply same_but_heap_host in Hs as (Hh & Hfr & Hid & Hb & _).
    cbn [set_latest iteratorFrames latestCallID w_heap] in *.
    assert (iteratorFrames w !! (latestCallID w + 1) = None) as Hnone.
    { destruct (iteratorFrames w !! (latestCallID w + 1)) eqn:En; [|done].
      assert (1 <= latestCallID w + 1 <= latestCallID w); [|lia]. apply Hf. by rewrite En. }
    unfold endCall, mbind, GoM_bind, removeFrame, frame_of in E. rewrite Hfr, Hnone in E.
    cbn [default close_all] in E. eexists. split; [exact E|].
    cbn [set_frames w_host iteratorFrames latestCallID w_heap].
    split_and!; [done| |done|done]. by apply delete_id.
Qed.
Lemma contract_call_refused_witness :
  let w := example_world 1000000 [("k", "v")]%string in
  exists w', contract_call call_sudo_raw example_cache (Some example_checksum)
      [Some "{}"; None]%string (Some (Some 1)) (Some 2) (Some example_api) (Some (Some 3)) 1000 false w =
    (Ret (None, mkGasReport 0 0 0 0, Some (errorString "Null/Nil argument: arg2")), w') /\
    w_host w' = w_host w /\ iteratorFrames w' = ∅ /\ latestCallID w' = 1 /\ blocks (w_heap w') = ∅.
Proof.
  intros w. apply (contract_call_refused call_sudo_raw example_cache (Some example_checksum)
    [Some "{}"; None]%string (Some (Some 1)) (Some 2) (Some example_api) (Some (Some 3)) 1000 false w
    (UnsetArg "arg2")); try reflexivity; try discriminate; try exact empty_heap_wf; try by split.
Defined.
