(* ===== verification/CacheLock.v ===== *)
(** * The lock of the cache directory

    [InitCache] and [ReleaseCache] of [internal/api/lib.go]: a directory is
    used by one cache at a time. *)

From S2P Require Import Prelude GoText RustText Json JsonParse Codec Scalars Types Errors Queries Memory MemDB World Mocks Iterators Callbacks Vtables Backend Libwasmvm ExampleVM Api.

(** What the code relies on of the operating system: which file a descriptor
    is open on, and which descriptor holds the exclusive lock of a file
    (flock(2)).  A lock is given only when no other descriptor has it, and
    goes away with its descriptor; nothing else, the VM included, touches
    either. *)
Class OSLaws (H : Type) `{OS H} `{VMLib H} := {
  opened : H -> Z -> option string;
  locked : H -> string -> option Z;
  same_files (h h' : H) : Prop := (forall fd, opened h' fd = opened h fd) /\
    (forall path, locked h' path = locked h path);
  MkdirAll_files dir h : same_files h (snd (MkdirAll dir h));
  WriteString_files fd s h : same_files h (snd (WriteString fd s h));
  vm_new_files c h : same_files h (snd (vm_new_with_config c h));
  vm_drop_files c h : same_files h (vm_drop c h);
  vm_store_files c d checked persist h : same_files h (snd (vm_store_code c d checked persist h));
  OpenFile_files path h fd h' : OpenFile path h = (Some fd, h') ->
    opened h fd = None /\ opened h' fd = Some path /\ (forall p, locked h' p = locked h p);
  OpenFile_failed path h h' : OpenFile path h = (None, h') -> same_files h h';
  Flock_given fd path h h' : opened h fd = Some path -> Flock fd h = (true, h') ->
    (locked h path = None \/ locked h path = Some fd) /\ locked h' path = Some fd /\
    (forall p, p <> path -> locked h' p = locked h p) /\ (forall d, opened h' d = opened h d);
  Flock_refused fd h h' : Flock fd h = (false, h') -> same_files h h';
  locked_opened h path fd : locked h path = Some fd -> opened h fd = Some path;
  Close_files fd h : forall path, locked (CloseFile fd h) path =
    if decide (locked h path = Some fd) then None else locked h path;
}.

(** ** Lemmas *)

Section Lock.
Context {H : Type} `{OS H} `{VMLib H} `{!VMLaws H} `{!OSLaws H}.
Implicit Types w : world H.

Definition lock_path (config : VMConfig) : string :=
  Join (CacheOptions_BaseDir (VMConfig_Cache config)) "exclusive.lock".

(** Starting the VM: its answer, with the lock as it was. *)
Lemma init_cache_locks (config : string) w :
  heap_wf (w_heap w) ->
  exists r w', init_cache (makeView (Some config)) uninitializedUnmanagedVector w = (Ret r, w') /\
    (forall p, locked (w_host w') p = locked (w_host w) p).
Proof.
  intros Hw. unfold init_cache.
  assert (exists r h, bind_result (read_arg "config" (makeView (Some config))) (fun d =>
    bind_result (mret (match vm_parse_config d with inl msg => inl (Json msg) | inr c => inr c end))
      (fun c => vm_call (vm_new_with_config c))) w = (Ret r, put_host h w) /\
    (forall p, locked h p = locked (w_host w) p)) as (r & h & E & Hl).
  { unfold bind_result. erewrite gbind_eq by apply read_arg_view. cbn beta iota.
    erewrite gbind_eq by reflexivity. destruct (vm_parse_config config) as [msg|c].
    - eexists _, (w_host w). rewrite put_host_same. by split.
    - eexists _, _. split; [apply vm_call_eq|]. intros p. by apply vm_new_files. }
  erewrite gbind_eq by exact E. destruct r as [e|v]; [|by eexists _, _].
  cbn [handle_c_error]. unfold set_error.
  destruct (new_vec (vm_text (RustError_text e)) (put_host h w) Hw) as (vec & h1 & E1 & _);
    [rewrite vm_text_data; apply vm_text_cap|].
  erewrite gbind_eq by (by erewrite gbind_eq by exact E1). by eexists _, _.
Qed.

Lemma on_heap_host {A} (m : GoM heap A) w r w' : on_heap m w = (r, w') -> w_host w' = w_host w.
Proof. unfold on_heap. destruct (m (w_heap w)). by intros [= _ <-]. Qed.
Lemma errorWithMessage_host n v w r w' : errorWithMessage n v w = (r, w') -> w_host w' = w_host w.
Proof.
  unfold errorWithMessage, copyAndDestroy. intros E.
  apply gbind_inv in E as [(m & w1 & E1 & E2)|(p & E1 & _)].
  - injection E2 as _ <-. by eapply on_heap_host.
  - by eapply on_heap_host.
Qed.

(** Once the lock is taken nothing gives it back. *)
Lemma after_lock (config : VMConfig) fd w r w' :
  heap_wf (w_heap w) ->
  (r ← init_cache (makeView (Some (Marshal config))) uninitializedUnmanagedVector;
   if negb (cr_errno r =? 0)
   then err ← errorWithMessage (cr_errno r) (cr_errmsg r); mret (zero_cache, Some err)
   else mret (mkCache (cr_value r) fd, None)) w = (r, w') ->
  (forall p, locked (w_host w') p = locked (w_host w) p) /\
  forall c, r = Ret (c, None) -> lockfile c = fd.
Proof.
  intros Hw E. destruct (init_cache_locks (Marshal config) w Hw) as (res & w1 & E1 & Hl).
  erewrite gbind_eq in E by exact E1. destruct (negb (cr_errno res =? 0)).
  - apply gbind_inv in E as [(err & w2 & E2 & E3)|(p & E2 & ->)];
      apply errorWithMessage_host in E2; rewrite <- E2 in Hl.
    + injection E3 as <- <-. split; [done|]. by intros c [=].
    + done.
  - injection E as <- <-. split; [done|]. by intros c [= <-].
Qed.

(** The two ways [InitCache] ends: before the lock, or with it. *)
Lemma InitCache_inv config w r w' :
  heap_wf (w_heap w) -> InitCache config w = (r, w') ->
  ((exists err, r = Ret (zero_cache, Some err)) /\
    forall p, locked (w_host w') p = locked (w_host w) p) \/
  (exists fd, locked (w_host w) (lock_path config) = None /\
     locked (w_host w') (lock_path config) = Some fd /\
     forall c, r = Ret (c, None) -> lockfile c = fd).
Proof.
  intros Hw E. unfold InitCache in E. fold (lock_path config) in E.
  erewrite gbind_eq in E by apply on_vm_eq. set (h1 := snd (MkdirAll _ (w_host w))) in E.
  pose proof (MkdirAll_files (CacheOptions_BaseDir (VMConfig_Cache config)) (w_host w)) as [_ L1].
  fold h1 in L1. destruct (fst (MkdirAll _ (w_host w))).
  1: { left. injection E as <- <-. split; [by eexists|done]. }
  erewrite gbind_eq in E by apply on_vm_eq. cbn [put_host w_host] in E.
  destruct (OpenFile (lock_path config) h1) as [[fd|] h2] eqn:Eo; cbn [fst snd] in E.
  2: { left. apply OpenFile_failed in Eo as [_ L2]. injection E as <- <-.
       split; [by eexists|]. intros p. cbn. by rewrite L2. }
  apply OpenFile_files in Eo as (Hfresh & Hopen & L2).
  erewrite gbind_eq in E by apply on_vm_eq. cbn [put_host w_host] in E.
  pose proof (WriteString_files fd lockfile_text h2) as [O3 L3].
  destruct (WriteString fd lockfile_text h2) as [ok h3]. cbn [fst snd] in *.
  destruct ok; cbn [negb] in E.
  2: { left. injection E as <- <-. split; [by eexists|]. intros p. cbn. by rewrite L3, L2. }
  erewrite gbind_eq in E by apply on_vm_eq. cbn [put_host w_host] in E.
  destruct (Flock fd h3) as [ok h4] eqn:Ef. cbn [fst snd] in E. destruct ok; cbn [negb] in E.
  2: { left. apply Flock_refused in Ef as [_ L4]. injection E as <- <-.
       split; [by eexists|]. intros p. cbn. by rewrite L4, L3, L2. }
  right. apply (Flock_given fd (lock_path config)) in Ef as (Hfree & Htaken & _); [|by rewrite O3].
  apply after_lock in E as [Hl Hc]; [|done]. exists fd. split_and!.
  - rewrite L3, L2, L1 in Hfree. destruct Hfree as [Hfree|Hfree]; [done|]. exfalso.
    rewrite <- L1 in Hfree. apply locked_opened in Hfree. congruence.
  - rewrite Hl. exact Htaken.
  - done.
Qed.
End Lock.

(** C31. Two caches never use one directory: [InitCache] succeeds only when the
    lock of the directory is free, and its cache then holds it; while it is
    held every other attempt fails and changes no lock; releasing the cache
    frees it. *)
Theorem InitCache_exclusive {H : Type} `{OS H} `{VMLib H} `{!VMLaws H} `{!OSLaws H}
    (config : VMConfig) (w : world H) (r : outcome (Cache * option error)) (w' : world H) :
  heap_wf (w_heap w) -> InitCache config w = (r, w') ->
  (forall cache, r = Ret (cache, None) ->
     locked (w_host w) (lock_path config) = None /\
     locked (w_host w') (lock_path config) = Some (lockfile cache) /\
     (forall w1, locked (w_host w1) (lock_path config) = Some (lockfile cache) ->
        locked (w_host (snd (ReleaseCache cache w1))) (lock_path config) = None)) /\
  (locked (w_host w) (lock_path config) <> None ->
     (exists err, r = Ret (zero_cache, Some err)) /\
     forall p, locked (w_host w') p = locked (w_host w) p).
Proof.
  intros Hw E. apply InitCache_inv in E as [[[err ->] Hl]|(fd & Hfree & Htaken & Hc)]; [| |done].
  - split; [by intros cache [=]|]. intros _. split; [by eexists|done].
  - split; [|done]. intros cache ->. rewrite (Hc _ eq_refl). split_and!; [done|done|].
    intros w1 Hw1. unfold ReleaseCache, release_cache.
    assert (forall h, locked h (lock_path config) = Some fd ->
      locked (CloseFile (lockfile cache) h) (lock_path config) = None) as Hclose.
    { intros h Hh. rewrite Close_files, (Hc _ eq_refl). by rewrite decide_True. }
    destruct (cache_ptr cache =? 0).
    + erewrite gbind_eq by reflexivity. rewrite on_vm_eq. cbn. by apply Hclose.
    + erewrite gbind_eq by apply on_vm_eq. rewrite on_vm_eq. cbn. apply Hclose.
      destruct (vm_drop_files (cache_ptr cache) (w_host w1)) as [_ ->]. done.
Qed.

#[local] Existing Instance example_vm.
#[local] Existing Instance example_vm_laws.
(** An operating system to show that the laws can hold, and to run the
    examples with. *)
Record files := mkFiles { f_open : gmap Z string; f_lock : gmap string Z }.
Definition files_locked (h : files) (path : string) : option Z :=
  match f_lock h !! path with
  | Some fd => if decide (f_open h !! fd = Some path) then Some fd else None
  | None => None
  end.
Definition new_fd (h : files) : Z :=
  fresh (dom (f_open h) ∪ list_to_set (snd <$> map_to_list (f_lock h)) : gset Z).
#[local] Instance files_os : OS files := {|
  Join dir name := dir +:+ "/" +:+ name;
  MkdirAll _ h := (None, h);
  OpenFile path h := (Some (new_fd h), mkFiles (<[new_fd h := path]> (f_open h)) (f_lock h));
  WriteString _ _ h := (true, h);
  Flock fd h :=
    match f_open h !! fd with
    | None => (false, h)
    | Some path =>
      if decide (files_locked h path = None \/ files_locked h path = Some fd)
      then (true, mkFiles (f_open h) (<[path := fd]> (f_lock h)))
      else (false, h)
    end;
  CloseFile fd h := mkFiles (delete fd (f_open h)) (f_lock h);
|}.
Lemma new_fd_fresh h :
  f_open h !! new_fd h = None /\ forall path, f_lock h !! path <> Some (new_fd h).
Proof.
  pose proof (is_fresh (dom (f_open h) ∪ list_to_set (snd <$> map_to_list (f_lock h)) : gset Z)) as Hf.
  fold (new_fd h) in Hf. apply not_elem_of_union in Hf as [Ho Hl]. split; [by apply not_elem_of_dom|].
  intros path Hp. apply Hl, elem_of_list_to_set.
  apply list_elem_of_fmap. exists (path, new_fd h). split; [done|]. by apply elem_of_map_to_list.
Qed.
#[local] Instance files_laws : OSLaws files.
Proof.
  refine {| opened h fd := f_open h !! fd; locked := files_locked |}; try done.
  - intros path h fd h' [= <- <-]. destruct (new_fd_fresh h) as [Ho Hl]. cbn.
    split_and!; [done|apply lookup_insert_eq|]. intros p. unfold files_locked. cbn.
    destruct (f_lock h !! p) as [d|] eqn:Ed; [|done].
    rewrite lookup_insert_ne; [done|]. intros <-. by apply (Hl p).
  - intros fd path h h' Ho. cbn. rewrite Ho. case_decide as Hd; [|done]. intros [= <-].
    split_and!; [done| | |done].
    + unfold files_locked. cbn. by rewrite lookup_insert_eq, decide_True.
    + intros p Hp. unfold files_locked. cbn. by rewrite lookup_insert_ne.
  - intros fd h h'. cbn. repeat case_match; intros [= <-]; done.
  - intros h path fd. unfold files_locked. case_match; [|done]. case_decide; [|done].
    by intros [= <-].
  - intros fd h path. unfold files_locked. cbn. destruct (f_lock h !! path) as [d|]; [|done].
    destruct (decide (d = fd)) as [->|Hne].
    + rewrite lookup_delete_eq. rewrite decide_False by done. by repeat case_decide.
    + rewrite lookup_delete_ne by done. case_decide; [|done]. rewrite decide_False; congruence.
Qed.

Definition example_config : VMConfig :=
  mkVMConfig (zero WasmLimits_codec) (mkCacheOptions "/var/wasm" (Some []) (mkSize 0) (mkSize 0)).
Lemma InitCache_exclusive_witness :
  let w := mkWorld empty_heap ∅ 0 (mkFiles ∅ ∅) in
  let w' := snd (InitCache example_config w) in
  let cache := mkCache 1 0 in
  (locked (w_host w') "/var/wasm/exclusive.lock" = Some (lockfile cache)) /\
  locked (w_host (snd (ReleaseCache cache w'))) "/var/wasm/exclusive.lock" = None /\
  exists err, fst (InitCache example_config w') = Ret (zero_cache, Some err).
Proof.
  intros w w' cache.
  destruct (InitCache_exclusive example_config w (fst (InitCache example_config w)) w' empty_heap_wf
    (surjective_pairing _)) as [Hok _].
  destruct (Hok cache) as (_ & Hl & Hr); [vm_compute; reflexivity|].
  split; [exact Hl|]. split; [exact (Hr w' Hl)|].
  destruct (InitCache_exclusive example_config w' (fst (InitCache example_config w'))
    (snd (InitCache example_config w')) ltac:(vm_compute; split; [discriminate|discriminate])
    (surjective_pairing _)) as [_ Hno].
  apply Hno. intros E. discriminate (eq_trans (eq_sym Hl) E).
Defined.

(** C40. When the VM refuses to start, [InitCache] returns the VM's error but
    the lock is not given back: the lockfile is neither closed nor returned,
    so the directory is still locked and, until the garbage collector closes
    the file, every later attempt fails. *)
Theorem InitCache_failure_keeps_lock {H : Type} `{OS H} `{VMLib H} `{!VMLaws H} `{!OSLaws H}
    (config : VMConfig) (w : world H) (h1 h2 h3 h4 h5 : H) (fd : Z) (c : string) (e : VmError) :
  heap_wf (w_heap w) ->
  MkdirAll (CacheOptions_BaseDir (VMConfig_Cache config)) (w_host w) = (None, h1) ->
  OpenFile (lock_path config) h1 = (Some fd, h2) ->
  WriteString fd lockfile_text h2 = (true, h3) ->
  Flock fd h3 = (true, h4) ->
  vm_parse_config (Marshal config) = inr c ->
  vm_new_with_config c h4 = (Some (inl e), h5) ->
  exists w', InitCache config w = (Ret (zero_cache, Some (go_error (from_vm_error e))), w') /\
    locked (w_host w') (lock_path config) = Some fd.
Proof.
  intros Hw E1 E2 E3 E4 Ep E5.
  pose proof (vm_new_ok c h4) as Hok. rewrite E5 in Hok. cbn [fst result_ok] in Hok.
  destruct (set_error_spec (from_vm_error e) (put_host h5 w) Hw) as (vec & h & Es & Hh & Em & _).
  { by apply small_err_ok; destruct e. }
  exists (set_heap (without vec h) (put_host h5 w)). split.
  - unfold InitCache. fold (lock_path config).
    erewrite gbind_eq by apply on_vm_eq. rewrite E1. cbn [fst snd].
    erewrite gbind_eq by apply on_vm_eq. cbn [put_host w_host]. rewrite E2. cbn [fst snd].
    erewrite gbind_eq by apply on_vm_eq. cbn [put_host w_host]. rewrite E3. cbn [fst snd negb].
    erewrite gbind_eq by apply on_vm_eq. cbn [put_host w_host]. rewrite E4. cbn [fst snd negb].
    unfold init_cache, bind_result. rewrite !gbind_assoc.
    erewrite gbind_eq by apply read_arg_view. cbn beta iota. rewrite gbind_assoc.
    erewrite gbind_eq by reflexivity. rewrite Ep. erewrite gbind_eq by apply vm_call_eq.
    cbn [put_host w_host w_heap iteratorFrames latestCallID]. rewrite E5. cbn [fst snd caught].
    cbn [handle_c_error]. erewrite gbind_eq by (by erewrite gbind_eq by exact Es).
    cbn [cr_errno cr_errmsg].
    assert ((errno_of (from_vm_error e) =? 0) = false) as -> by (by destruct e). cbn [negb].
    by erewrite gbind_eq by exact Em.
  - cbn [set_heap put_host w_host]. apply OpenFile_files in E2 as (_ & Ho & _).
    pose proof (WriteString_files fd lockfile_text h2) as [O3 _]. rewrite E3 in O3. cbn [snd] in O3.
    apply (Flock_given fd (lock_path config)) in E4 as (_ & Hl & _); [|by rewrite O3].
    pose proof (vm_new_files c h4) as [_ L5]. rewrite E5 in L5. cbn [snd] in L5. by rewrite L5.
Qed.
Definition refused_config : VMConfig :=
  mkVMConfig (zero WasmLimits_codec)
    (mkCacheOptions (zeros 300) (Some []) (mkSize 0) (mkSize 0)).
Lemma refused_config_long : (1000 <? slen (Marshal refused_config)) = true.
Proof. vm_compute. reflexivity. Qed.
Lemma InitCache_failure_keeps_lock_witness :
  let w := mkWorld empty_heap ∅ 0 (mkFiles ∅ ∅) in
  exists w', InitCache refused_config w =
      (Ret (zero_cache, Some (errorString "Error calling the VM: too long")), w') /\
    locked (w_host w') (lock_path refused_config) = Some 0.
Proof.
  intros w. eapply (InitCache_failure_keeps_lock refused_config w _ _ _ _ _ 0 _
    (OtherVmError "too long") empty_heap_wf); [reflexivity..| |reflexivity|].
  - cbn [Flock files_os f_open]. rewrite lookup_insert_eq, decide_True; [reflexivity|by left].
  - unfold vm_new_with_config, example_vm, vm_of, answers. by rewrite refused_config_long.
Defined.
