(* ===== verification/Sha256.v ===== *)
(** * SHA-256

    [crypto/sha256.Sum256], which [CreateChecksum] identifies code by, as
    FIPS 180-4 defines it.  Words are 32-bit. *)

From Stdlib Require Import Ascii.
From S2P Require Import Prelude GoText.

Definition rotr (n x : Z) : Z := Z.lor (Z.shiftr x n) (u32 (Z.shiftl x (32 - n))).
Definition not32 (x : Z) : Z := Z.lxor x 0xFFFFFFFF.
Definition add32 (a b : Z) : Z := u32 (a + b).

Definition Ch (x y z : Z) : Z := Z.lxor (Z.land x y) (Z.land (not32 x) z).
Definition Maj (x y z : Z) : Z := Z.lxor (Z.lxor (Z.land x y) (Z.land x z)) (Z.land y z).
Definition Sigma0 (x : Z) : Z := Z.lxor (Z.lxor (rotr 2 x) (rotr 13 x)) (rotr 22 x).
Definition Sigma1 (x : Z) : Z := Z.lxor (Z.lxor (rotr 6 x) (rotr 11 x)) (rotr 25 x).
Definition sigma0 (x : Z) : Z := Z.lxor (Z.lxor (rotr 7 x) (rotr 18 x)) (Z.shiftr x 3).
Definition sigma1 (x : Z) : Z := Z.lxor (Z.lxor (rotr 17 x) (rotr 19 x)) (Z.shiftr x 10).

(** The constants: the first 32 bits of the fractional parts of the cube roots
    of the first 64 primes, and of the square roots of the first eight. *)
Definition divides_none (n : nat) : bool :=
  forallb (fun d => negb (Nat.eqb (Nat.modulo n d) 0)) (seq 2 (n - 2)).
Definition primes : list Z := map Z.of_nat (List.filter divides_none (seq 2 310)).

(** The largest number below [lo + 2 ^ n] whose cube is at most [z]. *)
Fixpoint cube_root (n : nat) (lo z : Z) : Z :=
  match n with
  | O => lo
  | S n =>
    let mid := lo + Z.shiftl 1 (Z.of_nat n) in
    cube_root n (if mid * mid * mid <=? z then mid else lo) z
  end.
Definition K : list Z :=
  Eval vm_compute in map (fun p => u32 (cube_root 36 0 (Z.shiftl p 96))) primes.
Definition H0 : list Z :=
  Eval vm_compute in map (fun p => u32 (Z.sqrt (Z.shiftl p 64))) (firstn 8 primes).

(** The big-endian bytes of a number, and the words of a block. *)
Fixpoint be_bytes (n : nat) (z : Z) : string :=
  match n with
  | O => EmptyString
  | S n => String (byte_of (Z.shiftr z (8 * Z.of_nat n) mod 256)) (be_bytes n z)
  end.
Fixpoint words (s : string) : list Z :=
  match s with
  | String a (String b (String c (String d s))) =>
    (((code a * 256 + code b) * 256 + code c) * 256 + code d) :: words s
  | _ => []
  end.

(** The message with its padding: one bit, zeros, and its length in bits. *)
Fixpoint zero_bytes (n : nat) : string :=
  match n with O => EmptyString | S n => String "000"%char (zero_bytes n) end.
Definition padded (s : string) : string :=
  s +:+ String (byte_of 0x80) (zero_bytes (Z.to_nat ((55 - slen s) mod 64))) +:+
  be_bytes 8 (u64 (8 * slen s)).

(** The message schedule, newest word first. *)
Fixpoint schedule (n : nat) (w : list Z) : list Z :=
  match n with
  | O => w
  | S n =>
    let at_ i := nth i w 0 in
    schedule n (add32 (add32 (sigma1 (at_ 1%nat)) (at_ 6%nat)) (add32 (sigma0 (at_ 14%nat)) (at_ 15%nat)) :: w)
  end.

Record state := mkState { sa : Z; sb : Z; sc : Z; sd : Z; se : Z; sf : Z; sg : Z; sh : Z }.
Definition round (s : state) (kw : Z * Z) : state :=
  let t1 := add32 (add32 (add32 (sh s) (Sigma1 (se s))) (add32 (Ch (se s) (sf s) (sg s)) (fst kw))) (snd kw) in
  let t2 := add32 (Sigma0 (sa s)) (Maj (sa s) (sb s) (sc s)) in
  mkState (add32 t1 t2) (sa s) (sb s) (sc s) (add32 (sd s) t1) (se s) (sf s) (sg s).

Definition compress (h : state) (block : list Z) : state :=
  let w := rev (schedule 48 (rev block)) in
  let r := fold_left round (combine K w) h in
  mkState (add32 (sa h) (sa r)) (add32 (sb h) (sb r)) (add32 (sc h) (sc r)) (add32 (sd h) (sd r))
    (add32 (se h) (se r)) (add32 (sf h) (sf r)) (add32 (sg h) (sg r)) (add32 (sh h) (sh r)).

(** The blocks of 16 words. *)
Fixpoint digest (fuel : nat) (h : state) (w : list Z) : state :=
  match fuel, w with
  | S fuel, _ :: _ => digest fuel (compress h (firstn 16 w)) (skipn 16 w)
  | _, _ => h
  end.

Definition Sum256 (s : string) : string :=
  let w := words (padded s) in
  let h := digest (length w) (mkState (nth 0 H0 0) (nth 1 H0 0) (nth 2 H0 0) (nth 3 H0 0)
    (nth 4 H0 0) (nth 5 H0 0) (nth 6 H0 0) (nth 7 H0 0)) w in
  be_bytes 4 (sa h) +:+ be_bytes 4 (sb h) +:+ be_bytes 4 (sc h) +:+ be_bytes 4 (sd h) +:+
  be_bytes 4 (se h) +:+ be_bytes 4 (sf h) +:+ be_bytes 4 (sg h) +:+ be_bytes 4 (sh h).

Lemma slen_be_bytes n z : slen (be_bytes n z) = Z.of_nat n.
Proof. induction n as [|n IH]; [done|]. cbn [be_bytes]. rewrite slen_cons, IH. lia. Qed.
Lemma slen_Sum256 s : slen (Sum256 s) = 32.
Proof. unfold Sum256. rewrite !slen_app, !slen_be_bytes. reflexivity. Qed.

(** The test vectors of the standard. *)
Example Sum256_abc :
  Hex.EncodeToString (Sum256 "abc") = "ba7816bf8f01cfea414140de5dae2223b00361a396177a9cb410ff61f20015ad"%string.
Proof. vm_compute. reflexivity. Qed.
Example Sum256_two_blocks :
  Hex.EncodeToString (Sum256 "abcdbcdecdefdefgefghfghighijhijkijkljklmklmnlmnomnopnopq") =
  "248d6a61d20638b8e5c026930c3e6039a33ce45964ff2167f6ecedd419db06c1"%string.
Proof. vm_compute. reflexivity. Qed.
