(* ===== verification/VM.v ===== *)
(** * The VM: the interface of the package

    [lib_libwasmvm.go] and [lib.go]: the methods of [VM], which marshal their
    arguments, call package [internal/api], and charge for and read the
    contract's response; the checksum of a code; and the version
    ([version_cgo.go], [version_no_cgo.go], [internal/api/version.go]). *)

From Stdlib Require Import Ascii.
From S2P Require Import Prelude GoText RustText Json JsonParse Codec Scalars Types Messages Errors Queries Memory MemDB World Mocks Iterators Callbacks Vtables Backend Libwasmvm ExampleVM Api Sha256.

(** ** Code *)

Definition wasm_magic : string := String "000"%char "asm".

(** [b[:n]] of a slice without spare capacity. *)
Definition slice_to (b : bytes) (n : nat) : outcome string :=
  if Z.of_nat n <=? blen b then Ret (stake n (string_of_bytes b))
  else Panic (runtime_panic "slice bounds out of range").

Definition CreateChecksum (wasm : bytes) : outcome (bytes * option error) :=
  let fail msg : bytes * option error := (Some EmptyString, Some (errorString msg)) in
  if blen wasm =? 0 then Ret (fail "wasm bytes nil or empty"%string)
  else if blen wasm <? 4 then Ret (fail "wasm bytes shorter than 4 bytes"%string)
  else
    let% start := slice_to wasm 4 in
    if negb (String.eqb start wasm_magic)
    then Ret (fail "wasm bytes do not start with Wasm magic number"%string)
    else Ret (Some (Sum256 (string_of_bytes wasm)), None).

Definition CostPerByte : Z := 3 * 140000.
Definition compileCost (code : bytes) : Z := CostPerByte *u u64 (blen code).

(** ** Responses *)

(** A type a response is read into; [sub_messages] is the method
    [SubMessages] where the type has it. *)
Class Response (A : Type) := {
  response_json :: JSONType A;
  sub_messages : option (A -> option (list SubMsg));
}.
#[export] Instance ContractResult_Response : Response ContractResult :=
  {| sub_messages := Some ContractResult_SubMessages |}.
#[export] Instance IBCBasicResult_Response : Response IBCBasicResult :=
  {| sub_messages := Some IBCBasicResult_SubMessages |}.
#[export] Instance IBCReceiveResult_Response : Response IBCReceiveResult :=
  {| sub_messages := Some IBCReceiveResult_SubMessages |}.
#[export] Instance QueryResult_Response : Response QueryResult := {| sub_messages := None |}.
#[export] Instance IBCChannelOpenResult_Response : Response IBCChannelOpenResult :=
  {| sub_messages := None |}.

Definition ReplyPayloadMaxBytes : Z := 128 * 1024.

Definition payload_error (i n : Z) : error :=
  errorString ("reply contains submessage at index " +:+ Strconv.FormatInt i +:+
    " with payload larger than " +:+ Strconv.FormatInt ReplyPayloadMaxBytes +:+ " bytes: " +:+
    Strconv.FormatInt n +:+ " bytes").
(** The loop over the messages, from index [i] on. *)
Fixpoint check_payloads (i : Z) (l : list SubMsg) : option error :=
  match l with
  | [] => None
  | m :: l =>
    if ReplyPayloadMaxBytes <? blen (SubMsg_Payload m)
    then Some (payload_error i (blen (SubMsg_Payload m)))
    else check_payloads (i + 1) l
  end.

Definition insufficient_gas (n : Z) : error :=
  errorString ("insufficient gas left to deserialize contract execution result (" +:+
    Strconv.FormatInt n +:+ " bytes)").

(** The gas report afterwards, and an error or the response. *)
Definition DeserializeResponse {A} `{Response A} (gasLimit : Z) (deserCost : UFraction)
    (gasReport : GasReport) (data : bytes) : outcome (GasReport * (error + A)) :=
  let% gasForDeserialization := UFraction_Floor (UFraction_Mul deserCost (u64 (blen data))) in
  if gasLimit <? gasForDeserialization +u GasReport_UsedInternally gasReport
  then Ret (gasReport, inl (insufficient_gas (blen data)))
  else
    let gasReport := mkGasReport (GasReport_Limit gasReport)
      (GasReport_Remaining gasReport -u gasForDeserialization)
      (GasReport_UsedExternally gasReport)
      (GasReport_UsedInternally gasReport +u gasForDeserialization) in
    let% r := Unmarshal (string_of_bytes data) in
    match r with
    | inl err => Ret (gasReport, inl (JsonError err))
    | inr response =>
      match sub_messages with
      | None => Ret (gasReport, inr response)
      | Some SubMessages =>
        match check_payloads 0 (default [] (SubMessages response)) with
        | Some err => Ret (gasReport, inl err)
        | None => Ret (gasReport, inr response)
        end
      end
    end.

(** ** The VM *)

Record VM := mkVM { vm_cache : Cache; vm_printDebug : bool }.

Section VM.
Context {H : Type} `{Host H} `{ErrorTexts} `{SerdeJson} `{VMLib H} `{OS H} `{MsgPack}.
Abbreviation WM := (GoM (world H)).

Definition NewVMWithConfig (config : VMConfig) (printDebug : bool) : WM (option VM * option error) :=
  '(cache, err) ← InitCache config;
  match err with
  | Some err => mret (None, Some err)
  | None => mret (Some (mkVM cache printDebug), None)
  end.
Definition no_limits : WasmLimits := zero WasmLimits_codec.
Definition NewVM (dataDir : string) (supportedCapabilities : option (list string)) (memoryLimit : Z)
    (printDebug : bool) (cacheSize : Z) : WM (option VM * option error) :=
  NewVMWithConfig (mkVMConfig no_limits (mkCacheOptions dataDir supportedCapabilities
    (NewSizeMebi cacheSize) (NewSizeMebi memoryLimit))) printDebug.

Definition VM_Cleanup (vm : VM) : WM unit := ReleaseCache (vm_cache vm).

Definition VM_StoreCode (vm : VM) (code : bytes) (gasLimit : Z) : WM (bytes * Z * option error) :=
  let gasCost := compileCost code in
  if gasLimit <? gasCost then mret (None, gasCost, Some OutOfGasError)
  else
    '(checksum, err) ← StoreCode (vm_cache vm) code true;
    mret (checksum, gasCost, err).
Definition VM_SimulateStoreCode (vm : VM) (code : bytes) (gasLimit : Z) :
    WM (bytes * Z * option error) :=
  let gasCost := compileCost code in
  if gasLimit <? gasCost then mret (None, gasCost, Some OutOfGasError)
  else
    '(checksum, err) ← StoreCode (vm_cache vm) code false;
    mret (checksum, gasCost, err).
Definition VM_StoreCodeUnchecked (vm : VM) (code : bytes) : WM (bytes * option error) :=
  StoreCodeUnchecked (vm_cache vm) code.
Definition VM_RemoveCode (vm : VM) (checksum : bytes) : WM (option error) :=
  RemoveCode (vm_cache vm) checksum.
Definition VM_GetCode (vm : VM) (checksum : bytes) : WM (bytes * option error) :=
  GetCode (vm_cache vm) checksum.
Definition VM_Pin (vm : VM) (checksum : bytes) : WM (option error) := Pin (vm_cache vm) checksum.
Definition VM_Unpin (vm : VM) (checksum : bytes) : WM (option error) := Unpin (vm_cache vm) checksum.
(** The buffer is made, so it is never nil. *)
Definition VM_SyncPinnedCodes (vm : VM) (checksums : list bytes) : WM (option error) :=
  let buffer := fold_left (fun buffer checksum => buffer +:+ string_of_bytes checksum)
    checksums EmptyString in
  SyncPinnedCodes (vm_cache vm) (Some buffer).
Definition VM_AnalyzeCode (vm : VM) (checksum : bytes) : WM (option AnalysisReport * option error) :=
  AnalyzeCode (vm_cache vm) checksum.
Definition VM_GetMetrics (vm : VM) : WM (option Metrics * option error) := GetMetrics (vm_cache vm).
Definition VM_GetPinnedMetrics (vm : VM) : WM (option PinnedMetrics * option error) :=
  GetPinnedMetrics (vm_cache vm).

(** What the methods that call a contract share, after the call.  Marshalling
    the arguments cannot fail: their types have no value the encoder
    refuses. *)
Definition respond {A} `{Response A} (gasLimit : Z) (deserCost : UFraction)
    (call : WM (bytes * GasReport * option error)) : WM (option A * Z * option error) :=
  '(data, gasReport, err) ← call;
  match err with
  | Some err => mret (None, GasReport_UsedInternally gasReport, Some err)
  | None =>
    '(gasReport, r) ← glift (DeserializeResponse gasLimit deserCost gasReport data);
    match r with
    | inl err => mret (None, GasReport_UsedInternally gasReport, Some err)
    | inr result => mret (Some result, GasReport_UsedInternally gasReport, None)
    end
  end.

Definition VM_Instantiate (vm : VM) (checksum : bytes) (env : Env) (info : MessageInfo) (initMsg : bytes)
    (store : iface) (goapi : GoAPI) (querier gasMeter : iface) (gasLimit : Z) (deserCost : UFraction) :
    WM (option ContractResult * Z * option error) :=
  respond gasLimit deserCost
    (Api.Instantiate (vm_cache vm) checksum (Some (Marshal env)) (Some (Marshal info)) initMsg
      (Some gasMeter) store (Some goapi) (Some querier) gasLimit (vm_printDebug vm)).
Definition VM_Execute (vm : VM) (checksum : bytes) (env : Env) (info : MessageInfo) (executeMsg : bytes)
    (store : iface) (goapi : GoAPI) (querier gasMeter : iface) (gasLimit : Z) (deserCost : UFraction) :
    WM (option ContractResult * Z * option error) :=
  respond gasLimit deserCost
    (Api.Execute (vm_cache vm) checksum (Some (Marshal env)) (Some (Marshal info)) executeMsg
      (Some gasMeter) store (Some goapi) (Some querier) gasLimit (vm_printDebug vm)).
Definition VM_Query (vm : VM) (checksum : bytes) (env : Env) (queryMsg : bytes)
    (store : iface) (goapi : GoAPI) (querier gasMeter : iface) (gasLimit : Z) (deserCost : UFraction) :
    WM (option QueryResult * Z * option error) :=
  respond gasLimit deserCost
    (Api.Query (vm_cache vm) checksum (Some (Marshal env)) queryMsg
      (Some gasMeter) store (Some goapi) (Some querier) gasLimit (vm_printDebug vm)).
Definition VM_Migrate (vm : VM) (checksum : bytes) (env : Env) (migrateMsg : bytes)
    (store : iface) (goapi : GoAPI) (querier gasMeter : iface) (gasLimit : Z) (deserCost : UFraction) :
    WM (option ContractResult * Z * option error) :=
  respond gasLimit deserCost
    (Api.Migrate (vm_cache vm) checksum (Some (Marshal env)) migrateMsg
      (Some gasMeter) store (Some goapi) (Some querier) gasLimit (vm_printDebug vm)).
Definition VM_MigrateWithInfo (vm : VM) (checksum : bytes) (env : Env) (migrateMsg : bytes) (migrateInfo : MigrateInfo)
    (store : iface) (goapi : GoAPI) (querier gasMeter : iface) (gasLimit : Z) (deserCost : UFraction) :
    WM (option ContractResult * Z * option error) :=
  respond gasLimit deserCost
    (Api.MigrateWithInfo (vm_cache vm) checksum (Some (Marshal env)) migrateMsg (Some (Marshal migrateInfo))
      (Some gasMeter) store (Some goapi) (Some querier) gasLimit (vm_printDebug vm)).
Definition VM_Sudo (vm : VM) (checksum : bytes) (env : Env) (sudoMsg : bytes)
    (store : iface) (goapi : GoAPI) (querier gasMeter : iface) (gasLimit : Z) (deserCost : UFraction) :
    WM (option ContractResult * Z * option error) :=
  respond gasLimit deserCost
    (Api.Sudo (vm_cache vm) checksum (Some (Marshal env)) sudoMsg
      (Some gasMeter) store (Some goapi) (Some querier) gasLimit (vm_printDebug vm)).
Definition VM_Reply (vm : VM) (checksum : bytes) (env : Env) (reply : Messages.Reply)
    (store : iface) (goapi : GoAPI) (querier gasMeter : iface) (gasLimit : Z) (deserCost : UFraction) :
    WM (option ContractResult * Z * option error) :=
  respond gasLimit deserCost
    (Api.Reply (vm_cache vm) checksum (Some (Marshal env)) (Some (Marshal reply))
      (Some gasMeter) store (Some goapi) (Some querier) gasLimit (vm_printDebug vm)).
Definition VM_IBCChannelOpen (vm : VM) (checksum : bytes) (env : Env) (msg : IBCChannelOpenMsg)
    (store : iface) (goapi : GoAPI) (querier gasMeter : iface) (gasLimit : Z) (deserCost : UFraction) :
    WM (option IBCChannelOpenResult * Z * option error) :=
  respond gasLimit deserCost
    (Api.IBCChannelOpen (vm_cache vm) checksum (Some (Marshal env)) (Some (Marshal msg))
      (Some gasMeter) store (Some goapi) (Some querier) gasLimit (vm_printDebug vm)).
Definition VM_IBCChannelConnect (vm : VM) (checksum : bytes) (env : Env) (msg : IBCChannelConnectMsg)
    (store : iface) (goapi : GoAPI) (querier gasMeter : iface) (gasLimit : Z) (deserCost : UFraction) :
    WM (option IBCBasicResult * Z * option error) :=
  respond gasLimit deserCost
    (Api.IBCChannelConnect (vm_cache vm) checksum (Some (Marshal env)) (Some (Marshal msg))
      (Some gasMeter) store (Some goapi) (Some querier) gasLimit (vm_printDebug vm)).
Definition VM_IBCChannelClose (vm : VM) (checksum : bytes) (env : Env) (msg : IBCChannelCloseMsg)
    (store : iface) (goapi : GoAPI) (querier gasMeter : iface) (gasLimit : Z) (deserCost : UFraction) :
    WM (option IBCBasicResult * Z * option error) :=
  respond gasLimit deserCost
    (Api.IBCChannelClose (vm_cache vm) checksum (Some (Marshal env)) (Some (Marshal msg))
      (Some gasMeter) store (Some goapi) (Some querier) gasLimit (vm_printDebug vm)).
Definition VM_IBCPacketReceive (vm : VM) (checksum : bytes) (env : Env) (msg : IBCPacketReceiveMsg)
    (store : iface) (goapi : GoAPI) (querier gasMeter : iface) (gasLimit : Z) (deserCost : UFraction) :
    WM (option IBCReceiveResult * Z * option error) :=
  respond gasLimit deserCost
    (Api.IBCPacketReceive (vm_cache vm) checksum (Some (Marshal env)) (Some (Marshal msg))
      (Some gasMeter) store (Some goapi) (Some querier) gasLimit (vm_printDebug vm)).
Definition VM_IBCPacketAck (vm : VM) (checksum : bytes) (env : Env) (msg : IBCPacketAckMsg)
    (store : iface) (goapi : GoAPI) (querier gasMeter : iface) (gasLimit : Z) (deserCost : UFraction) :
    WM (option IBCBasicResult * Z * option error) :=
  respond gasLimit deserCost
    (Api.IBCPacketAck (vm_cache vm) checksum (Some (Marshal env)) (Some (Marshal msg))
      (Some gasMeter) store (Some goapi) (Some querier) gasLimit (vm_printDebug vm)).
Definition VM_IBCPacketTimeout (vm : VM) (checksum : bytes) (env : Env) (msg : IBCPacketTimeoutMsg)
    (store : iface) (goapi : GoAPI) (querier gasMeter : iface) (gasLimit : Z) (deserCost : UFraction) :
    WM (option IBCBasicResult * Z * option error) :=
  respond gasLimit deserCost
    (Api.IBCPacketTimeout (vm_cache vm) checksum (Some (Marshal env)) (Some (Marshal msg))
      (Some gasMeter) store (Some goapi) (Some querier) gasLimit (vm_printDebug vm)).
Definition VM_IBCSourceCallback (vm : VM) (checksum : bytes) (env : Env) (msg : IBCSourceCallbackMsg)
    (store : iface) (goapi : GoAPI) (querier gasMeter : iface) (gasLimit : Z) (deserCost : UFraction) :
    WM (option IBCBasicResult * Z * option error) :=
  respond gasLimit deserCost
    (Api.IBCSourceCallback (vm_cache vm) checksum (Some (Marshal env)) (Some (Marshal msg))
      (Some gasMeter) store (Some goapi) (Some querier) gasLimit (vm_printDebug vm)).
Definition VM_IBCDestinationCallback (vm : VM) (checksum : bytes) (env : Env) (msg : IBCDestinationCallbackMsg)
    (store : iface) (goapi : GoAPI) (querier gasMeter : iface) (gasLimit : Z) (deserCost : UFraction) :
    WM (option IBCBasicResult * Z * option error) :=
  respond gasLimit deserCost
    (Api.IBCDestinationCallback (vm_cache vm) checksum (Some (Marshal env)) (Some (Marshal msg))
      (Some gasMeter) store (Some goapi) (Some querier) gasLimit (vm_printDebug vm)).
Definition VM_IBC2PacketAck (vm : VM) (checksum : bytes) (env : Env) (msg : IBC2AcknowledgeMsg)
    (store : iface) (goapi : GoAPI) (querier gasMeter : iface) (gasLimit : Z) (deserCost : UFraction) :
    WM (option IBCBasicResult * Z * option error) :=
  respond gasLimit deserCost
    (Api.IBC2PacketAck (vm_cache vm) checksum (Some (Marshal env)) (Some (Marshal msg))
      (Some gasMeter) store (Some goapi) (Some querier) gasLimit (vm_printDebug vm)).
Definition VM_IBC2PacketReceive (vm : VM) (checksum : bytes) (env : Env) (msg : IBC2PacketReceiveMsg)
    (store : iface) (goapi : GoAPI) (querier gasMeter : iface) (gasLimit : Z) (deserCost : UFraction) :
    WM (option IBCReceiveResult * Z * option error) :=
  respond gasLimit deserCost
    (Api.IBC2PacketReceive (vm_cache vm) checksum (Some (Marshal env)) (Some (Marshal msg))
      (Some gasMeter) store (Some goapi) (Some querier) gasLimit (vm_printDebug vm)).
Definition VM_IBC2PacketTimeout (vm : VM) (checksum : bytes) (env : Env) (msg : IBC2PacketTimeoutMsg)
    (store : iface) (goapi : GoAPI) (querier gasMeter : iface) (gasLimit : Z) (deserCost : UFraction) :
    WM (option IBCBasicResult * Z * option error) :=
  respond gasLimit deserCost
    (Api.IBC2PacketTimeout (vm_cache vm) checksum (Some (Marshal env)) (Some (Marshal msg))
      (Some gasMeter) store (Some goapi) (Some querier) gasLimit (vm_printDebug vm)).
Definition VM_IBC2PacketSend (vm : VM) (checksum : bytes) (env : Env) (msg : IBC2PacketSendMsg)
    (store : iface) (goapi : GoAPI) (querier gasMeter : iface) (gasLimit : Z) (deserCost : UFraction) :
    WM (option IBCBasicResult * Z * option error) :=
  respond gasLimit deserCost
    (Api.IBC2PacketSend (vm_cache vm) checksum (Some (Marshal env)) (Some (Marshal msg))
      (Some gasMeter) store (Some goapi) (Some querier) gasLimit (vm_printDebug vm)).
End VM.

(** ** The version

    What [C.version_str] gives: an error number, or the text. *)
Definition api_LibwasmvmVersion (version_str : Z + string) : string * option error :=
  match version_str with
  | inl errno => (EmptyString, Some (Errno errno))
  | inr version => (version, None)
  end.
(** [libwasmvmVersionImpl], with cgo and without; the build has one of them. *)
Definition libwasmvmVersionImpl_cgo (version_str : Z + string) : string * option error :=
  api_LibwasmvmVersion version_str.
Definition libwasmvmVersionImpl_no_cgo : string * option error :=
  (EmptyString, Some (errorString "libwasmvm unavailable since cgo is disabled")).
Definition LibwasmvmVersion (cgo : bool) (version_str : Z + string) : string * option error :=
  if cgo then libwasmvmVersionImpl_cgo version_str else libwasmvmVersionImpl_no_cgo.

(** ** Lemmas *)

Lemma check_payloads_None i l :
  check_payloads i l = None <-> Forall (fun m => blen (SubMsg_Payload m) <= ReplyPayloadMaxBytes) l.
Proof.
  revert i. induction l as [|m l IH]; intros i; cbn [check_payloads]; [split; [by constructor|done]|].
  rewrite Forall_cons. destruct (Z.ltb_spec ReplyPayloadMaxBytes (blen (SubMsg_Payload m))) as [Hm|Hm].
  - split; [done|]. intros [? _]. lia.
  - rewrite IH. split; [by split|by intros [_ ?]].
Qed.
(** An error names the first message that is too large. *)
Lemma check_payloads_Some i l e :
  check_payloads i l = Some e ->
  exists pre m post, l = pre ++ m :: post /\ ReplyPayloadMaxBytes < blen (SubMsg_Payload m) /\
    Forall (fun m => blen (SubMsg_Payload m) <= ReplyPayloadMaxBytes) pre /\
    e = payload_error (i + zlen pre) (blen (SubMsg_Payload m)).
Proof.
  revert i. induction l as [|m l IH]; intros i; cbn [check_payloads]; [done|].
  destruct (Z.ltb_spec ReplyPayloadMaxBytes (blen (SubMsg_Payload m))) as [Hm|Hm].
  - intros [= <-]. exists [], m, l. split_and!; [done|done|constructor|]. by rewrite Z.add_0_r.
  - intros E. apply IH in E as (pre & m' & post & -> & Hm' & Hpre & ->).
    exists (m :: pre), m', post. split_and!; [done|done|by constructor|].
    rewrite zlen_cons. f_equal. lia.
Qed.

Lemma floor_cost (d : UFraction) n :
  UFraction_Denominator d <> 0 -> 0 <= UFraction_Numerator d * n < two64 -> 0 <= n < two64 ->
  UFraction_Floor (UFraction_Mul d (u64 n)) = Ret (UFraction_Numerator d * n / UFraction_Denominator d).
Proof.
  intros Hd Hn Hl. unfold UFraction_Floor, UFraction_Mul. cbn.
  rewrite (proj2 (Z.eqb_neq _ _)), (u64_id n), u64_id by done. done.
Qed.

(** What the deserialization of a response costs. *)
Definition deserialization_cost (deserCost : UFraction) (data : bytes) : Z :=
  UFraction_Numerator deserCost * blen data / UFraction_Denominator deserCost.

(** A price and a response whose cost can be computed without overflow. *)
Record affordable (deserCost : UFraction) (data : bytes) (report : GasReport) : Prop := {
  af_denominator : 0 < UFraction_Denominator deserCost;
  af_numerator : 0 <= UFraction_Numerator deserCost;
  af_product : UFraction_Numerator deserCost * blen data < two64;
  af_length : blen data < two64;
  af_sum : deserialization_cost deserCost data + GasReport_UsedInternally report < two64;
  af_used : 0 <= GasReport_UsedInternally report;
}.

Lemma Deserialize_unfold {A} `{Response A} gasLimit deserCost report data :
  affordable deserCost data report ->
  let cost := deserialization_cost deserCost data in
  DeserializeResponse (A := A) gasLimit deserCost report data =
  if gasLimit <? cost + GasReport_UsedInternally report
  then Ret (report, inl (insufficient_gas (blen data)))
  else
    let report := mkGasReport (GasReport_Limit report) (GasReport_Remaining report -u cost)
      (GasReport_UsedExternally report) (GasReport_UsedInternally report + cost) in
    let% r := Unmarshal (string_of_bytes data) in
    match r with
    | inl err => Ret (report, inl (JsonError err))
    | inr response =>
      match sub_messages with
      | None => Ret (report, inr response)
      | Some SubMessages =>
        match check_payloads 0 (default [] (SubMessages response)) with
        | Some err => Ret (report, inl err)
        | None => Ret (report, inr response)
        end
      end
    end.
Proof.
  intros [Hd Hn Hp Hl Hs Hu]. unfold deserialization_cost in *.
  assert (0 <= blen data) as Hb by apply slen_nonneg.
  unfold DeserializeResponse. rewrite floor_cost by lia. cbn [obind].
  set (cost := UFraction_Numerator deserCost * blen data / UFraction_Denominator deserCost) in *.
  assert (0 <= cost) by (apply Z.div_pos; lia).
  rewrite (u64_id (cost + _)) by (unfold is_u64; lia).
  rewrite (u64_id (_ + cost)) by (unfold is_u64; lia). done.
Qed.

Lemma fold_concat checksums acc :
  fold_left (fun buffer checksum => buffer +:+ string_of_bytes checksum) (map Some checksums) acc =
  acc +:+ concat_strings checksums.
Proof.
  revert acc. induction checksums as [|c l IH]; intros acc; cbn [map fold_left concat_strings];
    [by rewrite string_app_nil_r|]. rewrite IH. apply string_app_assoc.
Qed.

(** ** Properties *)

(** C7. What a response costs.  With a price that is a fraction and a size that
    do not overflow, [DeserializeResponse] refuses a response the gas limit
    does not cover and then charges nothing; otherwise the internal gas grows
    by exactly the price of its bytes, rounded down, stays within the limit,
    and the other entries keep their values but for the remaining gas, which
    is exact as long as it covers the price and wraps around otherwise. *)
Theorem DeserializeResponse_gas {A} `{Response A} (gasLimit : Z) (deserCost : UFraction)
    (report report' : GasReport) (data : bytes) (r : error + A) :
  affordable deserCost data report -> is_u64 (GasReport_Remaining report) ->
  let cost := deserialization_cost deserCost data in
  (gasLimit < cost + GasReport_UsedInternally report ->
     DeserializeResponse (A := A) gasLimit deserCost report data =
       Ret (report, inl (insufficient_gas (blen data)))) /\
  (cost + GasReport_UsedInternally report <= gasLimit ->
   DeserializeResponse gasLimit deserCost report data = Ret (report', r) ->
     GasReport_UsedInternally report' = GasReport_UsedInternally report + cost /\
     GasReport_UsedInternally report' <= gasLimit /\
     GasReport_Limit report' = GasReport_Limit report /\
     GasReport_UsedExternally report' = GasReport_UsedExternally report /\
     GasReport_Remaining report' =
       if cost <=? GasReport_Remaining report then GasReport_Remaining report - cost
       else GasReport_Remaining report - cost + two64).
Proof.
  intros Ha Hr cost. rewrite Deserialize_unfold by done. fold cost. split; intros Hl.
  { by rewrite (proj2 (Z.ltb_lt _ _)) by lia. }
  rewrite (proj2 (Z.ltb_ge _ _)) by lia. intros E.
  assert (report' = mkGasReport (GasReport_Limit report) (GasReport_Remaining report -u cost)
    (GasReport_UsedExternally report) (GasReport_UsedInternally report + cost)) as ->.
  { destruct (Unmarshal (string_of_bytes data)) as [[e|a]|p]; cbn [obind] in E; [by injection E| |done].
    destruct sub_messages as [f|]; [|by injection E].
    destruct (check_payloads 0 (default [] (f a))); by injection E. }
  cbn [GasReport_UsedInternally GasReport_Limit GasReport_UsedExternally GasReport_Remaining].
  split_and!; [done|lia|done|done|]. destruct Ha as [Hd Hn _ _ Hs Hu]. fold cost in Hs.
  assert (0 <= cost) by (apply Z.div_pos; [apply Z.mul_nonneg_nonneg; [done|apply slen_nonneg]|done]).
  destruct (Z.leb_spec cost (GasReport_Remaining report)); width_lia.
Qed.
Lemma DeserializeResponse_gas_witness :
  let report := mkGasReport 1000 100 800 100 in
  let report' := mkGasReport 1000 (two64 - 400) 800 600 in
  let data := Some (Marshal (mkIBCBasicResult None "no")) in
  blen data = 14 /\
  exists r, DeserializeResponse (A := IBCBasicResult) 1000 (mkUFraction 500 14) report data =
    Ret (report', r) /\ GasReport_UsedInternally report' = 600 /\ GasReport_Remaining report < 500.
Proof.
  intros report report' data. split; [reflexivity|].
  exists (inr (mkIBCBasicResult None "no")). split; [vm_compute; reflexivity|]. split; [|reflexivity].
  destruct (DeserializeResponse_gas 1000 (mkUFraction 500 14) report report' data
    (inr (mkIBCBasicResult None "no"))) as [_ Hok].
  - split; vm_compute; congruence.
  - split; vm_compute; congruence.
  - apply Hok; vm_compute; congruence.
Defined.

(** C16. A response that is handed on is what the contract's bytes say, and no
    sub-message of it has a payload of more than 128 KiB; a response of a
    type with sub-messages whose bytes are well-formed is refused exactly
    when one of them has, and the error names the first. *)
Theorem DeserializeResponse_payloads {A} `{Response A} (gasLimit : Z) (deserCost : UFraction)
    (report report' : GasReport) (data : bytes) (response : A) (SubMessages : A -> option (list SubMsg)) :
  affordable deserCost data report ->
  deserialization_cost deserCost data + GasReport_UsedInternally report <= gasLimit ->
  sub_messages = Some SubMessages ->
  (DeserializeResponse gasLimit deserCost report data = Ret (report', inr response) ->
     Unmarshal (string_of_bytes data) = Ret (inr response) /\
     Forall (fun m => blen (SubMsg_Payload m) <= ReplyPayloadMaxBytes)
       (default [] (SubMessages response))) /\
  (Unmarshal (string_of_bytes data) = Ret (inr response) ->
   forall pre m post, default [] (SubMessages response) = pre ++ m :: post ->
     Forall (fun m => blen (SubMsg_Payload m) <= ReplyPayloadMaxBytes) pre ->
     ReplyPayloadMaxBytes < blen (SubMsg_Payload m) ->
     exists report', DeserializeResponse (A := A) gasLimit deserCost report data =
       Ret (report', inl (payload_error (zlen pre) (blen (SubMsg_Payload m))))).
Proof.
  intros Ha Hl Hs. rewrite Deserialize_unfold by done. rewrite (proj2 (Z.ltb_ge _ _)) by lia. split.
  - intros E. destruct (Unmarshal (string_of_bytes data)) as [[e|a]|p]; cbn [obind] in E; [done| |done].
    rewrite Hs in E. destruct (check_payloads 0 (default [] (SubMessages a))) eqn:Ec; [done|].
    injection E as _ ->. split; [done|]. by apply check_payloads_None in Ec.
  - intros -> pre m post El Hpre Hm. cbn [obind]. rewrite Hs, El.
    assert (forall i, check_payloads i (pre ++ m :: post) =
      Some (payload_error (i + zlen pre) (blen (SubMsg_Payload m)))) as ->.
    { clear El. induction Hpre as [|x pre Hx Hpre IH]; intros i; cbn [app check_payloads].
      - rewrite (proj2 (Z.ltb_lt _ _)) by lia. by rewrite Z.add_0_r.
      - rewrite (proj2 (Z.ltb_ge _ _)) by lia. rewrite IH, zlen_cons. do 2 f_equal. lia. }
    by eexists.
Qed.
Definition example_payload_result : IBCBasicResult :=
  mkIBCBasicResult (Some (mkIBCBasicResponse (Some [example_submsg; example_submsg]) (Some []) (Some []))) "".
Lemma DeserializeResponse_payloads_witness :
  let data := Some (Marshal example_payload_result) in
  Unmarshal (string_of_bytes data) = Ret (inr example_payload_result) /\
  Forall (fun m => blen (SubMsg_Payload m) <= ReplyPayloadMaxBytes) [example_submsg; example_submsg].
Proof.
  intros data.
  destruct (DeserializeResponse_payloads 1000 (mkUFraction 1 1) (mkGasReport 1000 1000 0 0)
    (mkGasReport 1000 (1000 - blen data) 0 (blen data)) data example_payload_result
    IBCBasicResult_SubMessages) as [Hok _];
    [split; vm_compute; congruence|vm_compute; congruence|reflexivity|].
  apply Hok. vm_compute. reflexivity.
Defined.

(** C28. Storing code costs 420000 gas a byte, reported in every case; a limit
    below that is the out-of-gas error with nothing stored and nothing
    changed.  Simulation asks the VM for the same without persisting. *)
Theorem StoreCode_gas {H : Type} `{VMLib H} `{!VMLaws H} (vm : VM) (code : bytes) (gasLimit : Z)
    (w : world H) :
  heap_wf (w_heap w) -> CostPerByte * blen code < two64 ->
  let cost := 420000 * blen code in
  (gasLimit < cost ->
     VM_StoreCode vm code gasLimit w = (Ret (None, cost, Some OutOfGasError), w) /\
     VM_SimulateStoreCode vm code gasLimit w = (Ret (None, cost, Some OutOfGasError), w)) /\
  (cost <= gasLimit ->
     forall persist,
     let '(r, h) := vm_with (cache_ptr (vm_cache vm)) "wasm" code inr
       (fun d => vm_store_code (cache_ptr (vm_cache vm)) d true persist) (w_host w) in
     exists w', (if persist then VM_StoreCode vm code gasLimit w
                 else VM_SimulateStoreCode vm code gasLimit w) =
       (Ret (match r with inl e => (None, cost, Some (go_error e)) | inr c => (Some c, cost, None) end), w') /\
       only_host w h w').
Proof.
  intros Hw Hc cost. pose proof (slen_nonneg (string_of_bytes code)) as Hb. fold (blen code) in Hb.
  assert (compileCost code = cost) as Ec.
  { unfold compileCost, CostPerByte, cost in *. rewrite (u64_id (blen code)), u64_id by (widths; lia).
    lia. }
  unfold VM_StoreCode, VM_SimulateStoreCode. rewrite Ec. split; intros Hl.
  - by rewrite (proj2 (Z.ltb_lt _ _)) by lia.
  - intros persist. rewrite (proj2 (Z.ltb_ge _ _)) by lia.
    pose proof (store_op (cache_ptr (vm_cache vm)) code true persist w Hw) as Hs.
    destruct (vm_with _ _ _ _ _ _) as [r h]. destruct Hs as (w' & E & Ho). exists w'.
    split; [|done].
    destruct persist; (erewrite gbind_eq by exact E); by destruct r.
Qed.
#[local] Existing Instance example_vm.
#[local] Existing Instance example_vm_laws.
#[local] Existing Instance id_case.
#[local] Existing Instance example_texts.
#[local] Existing Instance example_serde.
Lemma StoreCode_gas_witness :
  let w := example_world 0 [] in
  VM_StoreCode (mkVM example_cache false) (Some "wasm"%string) 1679999 w =
    (Ret (None, 1680000, Some OutOfGasError), w).
Proof.
  intros w. refine (proj1 (proj1 (@StoreCode_gas _ (example_vm _) (example_vm_laws _)
    (mkVM example_cache false) (Some "wasm"%string) 1679999 w empty_heap_wf _) _)); reflexivity.
Defined.

(** [SyncPinnedCodes] hands the VM exactly the checksums it is given, in
    their order, when each is 32 bytes long. *)
Theorem SyncPinnedCodes_exact {H : Type} `{VMLib H} `{!VMLaws H} (vm : VM) (checksums : list string)
    (w : world H) :
  heap_wf (w_heap w) -> cache_ptr (vm_cache vm) <> 0 -> Forall (fun c => slen c = 32) checksums ->
  let '(r, h) := vm_sync_pinned_codes (cache_ptr (vm_cache vm)) checksums (w_host w) in
  exists w', VM_SyncPinnedCodes vm (map Some checksums) w = (Ret (unit_result (caught r)), w') /\
    only_host w h w'.
Proof.
  intros Hw Hc Hl. pose proof (pin_functions_sync (vm_cache vm) (Some (concat_strings checksums)) w Hw) as Hs.
  unfold vm_with in Hs. rewrite (proj2 (Z.eqb_neq _ _)) in Hs by done.
  rewrite chunks_concat in Hs by done. unfold VM_SyncPinnedCodes. rewrite fold_concat.
  destruct (vm_sync_pinned_codes _ checksums (w_host w)) as [r h]. exact Hs.
Qed.
Lemma SyncPinnedCodes_exact_witness :
  let w := example_world 0 [] in
  exists w', VM_SyncPinnedCodes (mkVM example_cache false)
      (map Some [example_checksum; example_checksum]) w = (Ret None, w') /\ only_host w (w_host w) w'.
Proof.
  intros w. refine (SyncPinnedCodes_exact (mkVM example_cache false)
    [example_checksum; example_checksum] w empty_heap_wf _ _); [discriminate|].
  repeat constructor.
Defined.

(** C33. [CreateChecksum] accepts exactly the byte strings of at least four
    bytes that start with the Wasm magic number, and gives the 32 bytes of
    their SHA-256 hash; everything else, shorter strings included, is refused
    with the empty checksum and without a panic. *)
Theorem CreateChecksum_exact (wasm : bytes) :
  (forall rest, wasm = Some (wasm_magic +:+ rest) ->
     CreateChecksum wasm = Ret (Some (Sum256 (wasm_magic +:+ rest)), None) /\
     slen (Sum256 (wasm_magic +:+ rest)) = 32) /\
  ((forall rest, wasm <> Some (wasm_magic +:+ rest)) ->
     exists e, CreateChecksum wasm = Ret (Some EmptyString, Some e)).
Proof.
  split.
  - intros rest ->. split; [|apply slen_Sum256]. unfold CreateChecksum, slice_to.
    change (blen (Some (wasm_magic +:+ rest))) with (slen (wasm_magic +:+ rest)).
    rewrite slen_app. change (slen wasm_magic) with 4. pose proof (slen_nonneg rest).
    rewrite (proj2 (Z.eqb_neq _ _)), (proj2 (Z.ltb_ge _ _)), (proj2 (Z.leb_le _ _)) by lia. reflexivity.
  - intros Hn. unfold CreateChecksum, slice_to. destruct (blen wasm =? 0) eqn:E0; [by eexists|].
    destruct (Z.ltb_spec (blen wasm) 4); [by eexists|].
    rewrite (proj2 (Z.leb_le (Z.of_nat 4) _)) by lia. cbn [obind].
    destruct (String.eqb_spec (stake 4 (string_of_bytes wasm)) wasm_magic) as [E|E]; [|by eexists].
    exfalso. destruct wasm as [d|]; [|done]. cbn [string_of_bytes default] in E. unfold id in E.
    apply (Hn (sdrop 4 d)). by rewrite <- E, stake_sdrop.
Qed.
