(* ===== verification/Methods.v ===== *)
(** * The methods of the VM that call a contract

    The nineteen methods of [VM.v] as one family: which entry point each runs,
    which bytes it passes and which response it reads.  What holds of all of
    them is stated once, over the calls of [Api.v] and the reading of
    responses of [VM.v]. *)

From S2P Require Import Prelude GoText RustText Json JsonParse Codec JsonText Scalars Types Messages Errors Queries Documents Memory MemDB World Mocks Iterators Callbacks Vtables Backend Libwasmvm ExampleVM Api ContractCalls VM.

(** A method with its arguments, by the type of its response. *)
Inductive method : Type -> Type :=
| MInstantiate (env : Env) (info : MessageInfo) (initMsg : bytes) : method ContractResult
| MExecute (env : Env) (info : MessageInfo) (executeMsg : bytes) : method ContractResult
| MQuery (env : Env) (queryMsg : bytes) : method QueryResult
| MMigrate (env : Env) (migrateMsg : bytes) : method ContractResult
| MMigrateWithInfo (env : Env) (migrateMsg : bytes) (migrateInfo : MigrateInfo) : method ContractResult
| MSudo (env : Env) (sudoMsg : bytes) : method ContractResult
| MReply (env : Env) (reply : Messages.Reply) : method ContractResult
| MIBCChannelOpen (env : Env) (msg : IBCChannelOpenMsg) : method IBCChannelOpenResult
| MIBCChannelConnect (env : Env) (msg : IBCChannelConnectMsg) : method IBCBasicResult
| MIBCChannelClose (env : Env) (msg : IBCChannelCloseMsg) : method IBCBasicResult
| MIBCPacketReceive (env : Env) (msg : IBCPacketReceiveMsg) : method IBCReceiveResult
| MIBCPacketAck (env : Env) (msg : IBCPacketAckMsg) : method IBCBasicResult
| MIBCPacketTimeout (env : Env) (msg : IBCPacketTimeoutMsg) : method IBCBasicResult
| MIBCSourceCallback (env : Env) (msg : IBCSourceCallbackMsg) : method IBCBasicResult
| MIBCDestinationCallback (env : Env) (msg : IBCDestinationCallbackMsg) : method IBCBasicResult
| MIBC2PacketAck (env : Env) (msg : IBC2AcknowledgeMsg) : method IBCBasicResult
| MIBC2PacketReceive (env : Env) (msg : IBC2PacketReceiveMsg) : method IBCReceiveResult
| MIBC2PacketTimeout (env : Env) (msg : IBC2PacketTimeoutMsg) : method IBCBasicResult
| MIBC2PacketSend (env : Env) (msg : IBC2PacketSendMsg) : method IBCBasicResult.

(** What each method promises: the entry point, the bytes it is given in
    their order, and how its response is read. *)
Definition entry_of {A} (m : method A) : entry_point :=
  match m with
  | MInstantiate _ _ _ => call_instantiate_raw
  | MExecute _ _ _ => call_execute_raw
  | MQuery _ _ => call_query_raw
  | MMigrate _ _ => call_migrate_raw
  | MMigrateWithInfo _ _ _ => call_migrate_with_info_raw
  | MSudo _ _ => call_sudo_raw
  | MReply _ _ => call_reply_raw
  | MIBCChannelOpen _ _ => call_ibc_channel_open_raw
  | MIBCChannelConnect _ _ => call_ibc_channel_connect_raw
  | MIBCChannelClose _ _ => call_ibc_channel_close_raw
  | MIBCPacketReceive _ _ => call_ibc_packet_receive_raw
  | MIBCPacketAck _ _ => call_ibc_packet_ack_raw
  | MIBCPacketTimeout _ _ => call_ibc_packet_timeout_raw
  | MIBCSourceCallback _ _ => call_ibc_source_callback_raw
  | MIBCDestinationCallback _ _ => call_ibc_destination_callback_raw
  | MIBC2PacketAck _ _ => call_ibc2_packet_ack_raw
  | MIBC2PacketReceive _ _ => call_ibc2_packet_receive_raw
  | MIBC2PacketTimeout _ _ => call_ibc2_packet_timeout_raw
  | MIBC2PacketSend _ _ => call_ibc2_packet_send_raw
  end.
Definition arguments {A} (m : method A) : list bytes :=
  match m with
  | MInstantiate env info msg | MExecute env info msg =>
    [Some (Marshal env); Some (Marshal info); msg]
  | MQuery env msg | MMigrate env msg | MSudo env msg => [Some (Marshal env); msg]
  | MMigrateWithInfo env msg info => [Some (Marshal env); msg; Some (Marshal info)]
  | MReply env reply => [Some (Marshal env); Some (Marshal reply)]
  | MIBCChannelOpen env msg => [Some (Marshal env); Some (Marshal msg)]
  | MIBCChannelConnect env msg => [Some (Marshal env); Some (Marshal msg)]
  | MIBCChannelClose env msg => [Some (Marshal env); Some (Marshal msg)]
  | MIBCPacketReceive env msg => [Some (Marshal env); Some (Marshal msg)]
  | MIBCPacketAck env msg => [Some (Marshal env); Some (Marshal msg)]
  | MIBCPacketTimeout env msg => [Some (Marshal env); Some (Marshal msg)]
  | MIBCSourceCallback env msg => [Some (Marshal env); Some (Marshal msg)]
  | MIBCDestinationCallback env msg => [Some (Marshal env); Some (Marshal msg)]
  | MIBC2PacketAck env msg => [Some (Marshal env); Some (Marshal msg)]
  | MIBC2PacketReceive env msg => [Some (Marshal env); Some (Marshal msg)]
  | MIBC2PacketTimeout env msg => [Some (Marshal env); Some (Marshal msg)]
  | MIBC2PacketSend env msg => [Some (Marshal env); Some (Marshal msg)]
  end.
Definition response_of {A} (m : method A) : VM.Response A.
Proof. destruct m; exact _. Defined.

Section Methods.
Context {H : Type} `{Host H} `{ErrorTexts} `{SerdeJson} `{VMLib H}.

Definition invoke {A} (vm : VM) (checksum : bytes) (m : method A) (store : iface) (goapi : GoAPI)
    (querier gasMeter : iface) (gasLimit : Z) (deserCost : UFraction) :
    GoM (world H) (option A * Z * option error) :=
  match m with
  | MInstantiate env info msg =>
    VM_Instantiate vm checksum env info msg store goapi querier gasMeter gasLimit deserCost
  | MExecute env info msg =>
    VM_Execute vm checksum env info msg store goapi querier gasMeter gasLimit deserCost
  | MQuery env msg => VM_Query vm checksum env msg store goapi querier gasMeter gasLimit deserCost
  | MMigrate env msg => VM_Migrate vm checksum env msg store goapi querier gasMeter gasLimit deserCost
  | MMigrateWithInfo env msg info =>
    VM_MigrateWithInfo vm checksum env msg info store goapi querier gasMeter gasLimit deserCost
  | MSudo env msg => VM_Sudo vm checksum env msg store goapi querier gasMeter gasLimit deserCost
  | MReply env msg => VM_Reply vm checksum env msg store goapi querier gasMeter gasLimit deserCost
  | MIBCChannelOpen env msg =>
    VM_IBCChannelOpen vm checksum env msg store goapi querier gasMeter gasLimit deserCost
  | MIBCChannelConnect env msg =>
    VM_IBCChannelConnect vm checksum env msg store goapi querier gasMeter gasLimit deserCost
  | MIBCChannelClose env msg =>
    VM_IBCChannelClose vm checksum env msg store goapi querier gasMeter gasLimit deserCost
  | MIBCPacketReceive env msg =>
    VM_IBCPacketReceive vm checksum env msg store goapi querier gasMeter gasLimit deserCost
  | MIBCPacketAck env msg =>
    VM_IBCPacketAck vm checksum env msg store goapi querier gasMeter gasLimit deserCost
  | MIBCPacketTimeout env msg =>
    VM_IBCPacketTimeout vm checksum env msg store goapi querier gasMeter gasLimit deserCost
  | MIBCSourceCallback env msg =>
    VM_IBCSourceCallback vm checksum env msg store goapi querier gasMeter gasLimit deserCost
  | MIBCDestinationCallback env msg =>
    VM_IBCDestinationCallback vm checksum env msg store goapi querier gasMeter gasLimit deserCost
  | MIBC2PacketAck env msg =>
    VM_IBC2PacketAck vm checksum env msg store goapi querier gasMeter gasLimit deserCost
  | MIBC2PacketReceive env msg =>
    VM_IBC2PacketReceive vm checksum env msg store goapi querier gasMeter gasLimit deserCost
  | MIBC2PacketTimeout env msg =>
    VM_IBC2PacketTimeout vm checksum env msg store goapi querier gasMeter gasLimit deserCost
  | MIBC2PacketSend env msg =>
    VM_IBC2PacketSend vm checksum env msg store goapi querier gasMeter gasLimit deserCost
  end.

(** Every method is a contract call with a reading of the response. *)
Lemma invoke_eq {A} vm checksum (m : method A) store goapi querier gasMeter gasLimit deserCost :
  invoke vm checksum m store goapi querier gasMeter gasLimit deserCost =
  @respond H A (response_of m) gasLimit deserCost
    (contract_call (entry_of m) (vm_cache vm) checksum (arguments m) (Some gasMeter) store
      (Some goapi) (Some querier) gasLimit (vm_printDebug vm)).
Proof. by destruct m. Qed.
End Methods.

(** ** Properties *)

#[local] Existing Instance id_case.
#[local] Existing Instance example_texts.
#[local] Existing Instance example_serde.
#[local] Existing Instance example_vm.
#[local] Existing Instance example_vm_laws.

(** The world of the examples: the store has an answer under the key the
    example contract reads. *)
Definition example_answer : ContractResult :=
  mkContractResult (Some (mkResponse (Some [example_submsg]) (Some "hi"%string) (Some []) (Some []))) "".
Definition example_vm_world : world (mock_host sorted_list) :=
  example_world 1000000 [("k"%string, Marshal example_answer)].
Definition example_handle : VM := mkVM example_cache false.
Definition example_env : Env := mkEnv (mkBlockInfo 1 2 "chain") None (mkContractInfo "addr").
Definition example_method : method ContractResult :=
  MExecute example_env (mkMessageInfo "sender" (Some [])) (Some "{}"%string).

Lemma invoke_contained {H A : Type} `{HostLaws H} `{ErrorTexts} `{SerdeJson} `{!VMLib H} `{!VMLaws H}
    vm checksum (m : method A) store goapi querier gasMeter gasLimit deserCost :
  respects (@rely H) (invoke vm checksum m store goapi querier gasMeter gasLimit deserCost).
Proof.
  rewrite invoke_eq. unfold respond.
  apply respects_bind; [apply _|apply contract_call_contained|]. intros [[data report] [err|]];
    [solve_respects|].
  apply respects_bind; [apply _|solve_respects|]. intros [report' [err|a]]; solve_respects.
Qed.

(** C1. Each of the nineteen methods, whatever the contract, the host and the
    virtual machine do, panics included, gives back all it took: the live
    vectors are those from before, and unless the counter of calls passes
    2^64 the iterators of all other calls are as they were and its own are
    gone.  This is what a call may assume of its host, so that a host may
    call methods of the VM while a contract waits for it. *)
Theorem methods_contained {H A : Type} `{HostLaws H} `{ErrorTexts} `{SerdeJson} `{!VMLib H} `{!VMLaws H}
    (vm : VM) (checksum : bytes) (m : method A) (store : iface) (goapi : GoAPI)
    (querier gasMeter : iface) (gasLimit : Z) (deserCost : UFraction) :
  respects (@rely H) (invoke vm checksum m store goapi querier gasMeter gasLimit deserCost).
Proof. apply invoke_contained. Qed.
Lemma methods_contained_witness :
  let m := invoke example_handle (Some example_checksum) example_method (Some 2) example_api
    (Some 3) (Some 1) 1000 (mkUFraction 1 1) in
  fst (m example_vm_world) =
    Ret (Some example_answer, 300 + slen (Marshal example_answer), None) /\
  rely example_vm_world (snd (m example_vm_world)).
Proof.
  intros m. split; [vm_compute; reflexivity|].
  refine (methods_contained example_handle (Some example_checksum) example_method (Some 2)
    example_api (Some 3) (Some 1) 1000 (mkUFraction 1 1) example_vm_world
    (fst (m example_vm_world)) (snd (m example_vm_world)) _).
  apply surjective_pairing.
Defined.

(** What a method makes of the data of the contract. *)
Definition read_response {A} (R : VM.Response A) (gasLimit : Z) (deserCost : UFraction)
    (report : GasReport) (data : bytes) : outcome (option A * Z * option error) :=
  match @DeserializeResponse A R gasLimit deserCost report data with
  | Ret (report', inl err) => Ret (None, GasReport_UsedInternally report', Some err)
  | Ret (report', inr a) => Ret (Some a, GasReport_UsedInternally report', None)
  | Panic p => Panic p
  end.

Lemma respond_eq {H A} (R : VM.Response A) gasLimit deserCost
    (call : GoM (world H) (bytes * GasReport * option error)) w :
  @respond H A R gasLimit deserCost call w =
  match call w with
  | (Ret (_, report, Some err), w') => (Ret (None, GasReport_UsedInternally report, Some err), w')
  | (Ret (data, report, None), w') => (read_response R gasLimit deserCost report data, w')
  | (Panic p, w') => (Panic p, w')
  end.
Proof.
  unfold respond, mbind, GoM_bind, read_response.
  destruct (call w) as [[[[data report] [err|]]|p] w']; [done| |done]. unfold glift.
  by destruct (DeserializeResponse _ _ _ _) as [[report' [err|a]]|p].
Qed.

(** C2. What a method returns.  The contract's entry point of that name is run
    with the arguments of the method as JSON, in their order, on the given
    store, under a call ID of its own; an error of the virtual machine is
    returned with its text and the gas used so far, and data are charged for
    and read as the response of the method. *)
Theorem methods_exact {H A : Type} `{HostLaws H} `{ErrorTexts} `{SerdeJson} `{!VMLib H} `{!VMLaws H}
    (vm : VM) (checksum : bytes) (m : method A) (store : iface) (goapi : GoAPI)
    (querier gasMeter : iface) (gasLimit : Z) (deserCost : UFraction) (w : world H) :
  heap_wf (w_heap w) -> api_complete goapi = true ->
  let c := latestCallID w +u 1 in
  exists r report w1 w2,
    do_call_args (entry_of m) (cache_ptr (vm_cache vm)) (makeView checksum)
      (map makeView (arguments m))
      (go_backend (buildDBState store c) (Some gasMeter) (Some goapi) (Some querier)) gasLimit
      (vm_printDebug vm) (mkGasReport 0 0 0 0) (set_latest c w) = (Ret (r, report), w1) /\
    same_but_heap w1 w2 /\
    invoke vm checksum m store goapi querier gasMeter gasLimit deserCost w =
    match endCall c w2 with
    | (Ret _, w3) =>
      (match r with
       | inl e => Ret (None, GasReport_UsedInternally report, Some (go_error e))
       | inr v => read_response (response_of m) gasLimit deserCost report (Some (vec_data v))
       end, w3)
    | (Panic p, w3) => (Panic p, w3)
    end.
Proof.
  intros Hw Ha c.
  destruct (contract_call_exact (entry_of m) (vm_cache vm) checksum (arguments m) (Some gasMeter)
    store goapi querier gasLimit (vm_printDebug vm) w Hw Ha) as (r & report & w1 & w2 & E1 & Hs & E2).
  exists r, report, w1, w2. split_and!; [exact E1|exact Hs|]. rewrite invoke_eq, respond_eq, E2.
  fold c. destruct (endCall c w2) as [[u|p] w3]; [|done]. by destruct r.
Qed.

(** The five types of responses come back through their text. *)
#[export] Instance response_rt {A} (m : method A) :
  RoundTrip (@codec_of A (@response_json A (response_of m))).
Proof. destruct m; apply _. Qed.

(** C6. A contract that answers with the JSON of a response has its caller
    get exactly that response, at the gas the virtual machine used and the
    price of the bytes, unless closing one of the iterators of the call
    panics.  This holds for a response in normal form, with UTF-8 strings and
    nested at most 10000 deep ([survives]), whose submessages have payloads of
    at most 128 KiB, when the price does not overflow ([affordable]) and is,
    with the gas used, within the gas limit. *)
Theorem methods_answer {H A : Type} `{HostLaws H} `{ErrorTexts} `{SerdeJson} `{!VMLib H} `{!VMLaws H}
    (vm : VM) (checksum : bytes) (m : method A) (store : iface) (goapi : GoAPI)
    (querier gasMeter : iface) (gasLimit : Z) (deserCost : UFraction) (w w1 : world H)
    (v : Vec) (report : GasReport) (a : A) :
  heap_wf (w_heap w) -> api_complete goapi = true ->
  let c := latestCallID w +u 1 in
  let _ := @response_json A (response_of m) in
  do_call_args (entry_of m) (cache_ptr (vm_cache vm)) (makeView checksum)
    (map makeView (arguments m))
    (go_backend (buildDBState store c) (Some gasMeter) (Some goapi) (Some querier)) gasLimit
    (vm_printDebug vm) (mkGasReport 0 0 0 0) (set_latest c w) = (Ret (inr v, report), w1) ->
  vec_data v = Marshal a -> survives a ->
  (forall f, @sub_messages A (response_of m) = Some f ->
     Forall (fun s => blen (SubMsg_Payload s) <= ReplyPayloadMaxBytes) (default [] (f a))) ->
  affordable deserCost (Some (Marshal a)) report ->
  deserialization_cost deserCost (Some (Marshal a)) + GasReport_UsedInternally report <= gasLimit ->
  exists w2, same_but_heap w1 w2 /\
    invoke vm checksum m store goapi querier gasMeter gasLimit deserCost w =
    match endCall c w2 with
    | (Ret _, w3) =>
      (Ret (Some a, GasReport_UsedInternally report +
              deserialization_cost deserCost (Some (Marshal a)), None), w3)
    | (Panic p, w3) => (Panic p, w3)
    end.
Proof.
  intros Hw Ha c R E Hv Hs Hsub Haff Hgas. subst R.
  destruct (contract_call_exact (entry_of m) (vm_cache vm) checksum (arguments m) (Some gasMeter)
    store goapi querier gasLimit (vm_printDebug vm) w Hw Ha) as (r & report' & w1' & w2 & E1 & Hh & E2).
  cbv zeta in E1, E2. fold c in E1, E2. rewrite E in E1. injection E1 as <- <- <-.
  exists w2. split; [done|]. rewrite invoke_eq, respond_eq, E2.
  destruct (endCall c w2) as [[u|p] w3]; [|done]. f_equal.
  unfold read_response. rewrite Hv, Deserialize_unfold by done.
  rewrite (proj2 (Z.ltb_ge _ _)) by lia.
  cbn [string_of_bytes default id].
  rewrite (Unmarshal_Marshal (RoundTrip0 := response_rt m) a Hs). cbn [obind].
  destruct (@sub_messages A (response_of m)) as [f|] eqn:Ef; [|done].
  by rewrite (proj2 (check_payloads_None 0 _) (Hsub f eq_refl)).
Qed.

Lemma methods_exact_witness :
  exists r report w1 w2,
    do_call_args call_execute_raw 1 (makeView (Some example_checksum))
      (map makeView (arguments example_method)) (example_backend 1) 1000 false
      (mkGasReport 0 0 0 0) (set_latest 1 example_vm_world) = (Ret (r, report), w1) /\
    same_but_heap w1 w2 /\
    invoke example_handle (Some example_checksum) example_method (Some 2) example_api
      (Some 3) (Some 1) 1000 (mkUFraction 1 1) example_vm_world =
    match endCall 1 w2 with
    | (Ret _, w3) =>
      (match r with
       | inl e => Ret (None, GasReport_UsedInternally report, Some (go_error e))
       | inr v => read_response (response_of example_method) 1000 (mkUFraction 1 1) report
           (Some (vec_data v))
       end, w3)
    | (Panic p, w3) => (Panic p, w3)
    end.
Proof.
  apply (methods_exact example_handle (Some example_checksum) example_method (Some 2) example_api
    (Some 3) (Some 1) 1000 (mkUFraction 1 1) example_vm_world); [exact empty_heap_wf|reflexivity].
Defined.

(** The answer has a message with a payload. *)
Definition example_run : GoM (world (mock_host sorted_list)) ((RustError + Vec) * GasReport) :=
  do_call_args call_execute_raw 1 (makeView (Some example_checksum))
    (map makeView (arguments example_method)) (example_backend 1) 1000 false (mkGasReport 0 0 0 0).
Lemma methods_answer_witness :
  exists w', invoke example_handle (Some example_checksum) example_method (Some 2) example_api
      (Some 3) (Some 1) 1000 (mkUFraction 1 1) example_vm_world =
    (Ret (Some example_answer, 300 + slen (Marshal example_answer), None), w').
Proof.
  destruct (methods_answer example_handle (Some example_checksum) example_method (Some 2) example_api
    (Some 3) (Some 1) 1000 (mkUFraction 1 1) example_vm_world
    (snd (example_run (set_latest 1 example_vm_world)))
    (mkVec (Marshal example_answer) (slen (Marshal example_answer))) example_report example_answer)
    as (w2 & [Hf _ _] & E);
    [exact empty_heap_wf|reflexivity|apply grun; vm_compute; reflexivity|reflexivity| | | | |].
  - split_and!; [|vm_compute; reflexivity|apply Nat.leb_le; vm_compute; reflexivity].
    repeat (constructor || discriminate || (intros; discriminate)); vm_compute; congruence.
  - intros f [= <-]. repeat constructor. vm_compute. congruence.
  - split; vm_compute; congruence.
  - vm_compute. congruence.
  - rewrite E. unfold endCall, removeFrame, mbind, GoM_bind, frame_of. rewrite Hf.
    eexists. vm_compute. reflexivity.
Defined.

(** C23. A method that returns a response reports at most its gas limit, whatever
    the host and the virtual machine report and even where sums wrap
    around. *)
Theorem methods_gas_limit {H A : Type} `{Host H} `{ErrorTexts} `{SerdeJson} `{!VMLib H}
    (vm : VM) (checksum : bytes) (m : method A) (store : iface) (goapi : GoAPI)
    (querier gasMeter : iface) (gasLimit : Z) (deserCost : UFraction) (w w' : world H) (a : A)
    (used : Z) (err : option error) :
  invoke vm checksum m store goapi querier gasMeter gasLimit deserCost w =
    (Ret (Some a, used, err), w') ->
  used <= gasLimit.
Proof.
  rewrite invoke_eq, respond_eq.
  destruct (contract_call _ _ _ _ _ _ _ _ _ _ w) as [[[[data report] [e|]]|p] w1]; [done| |done].
  unfold read_response, DeserializeResponse.
  destruct (UFraction_Floor _) as [g|p]; cbn [obind]; [|done].
  destruct (Z.ltb_spec gasLimit (g +u GasReport_UsedInternally report)) as [|Hl]; [done|].
  destruct (Unmarshal _) as [[e|r]|p]; cbn [obind]; [done| |done].
  rewrite (Z.add_comm g) in Hl. destruct sub_messages as [f|].
  - destruct (check_payloads _ _); [done|]. intros E. by injection E as _ <- _ _.
  - intros E. by injection E as _ <- _ _.
Qed.
Lemma methods_gas_limit_witness : 300 + slen (Marshal example_answer) <= 1000.
Proof.
  refine (methods_gas_limit example_handle (Some example_checksum) example_method (Some 2) example_api
    (Some 3) (Some 1) 1000 (mkUFraction 1 1) example_vm_world _ example_answer
    (300 + slen (Marshal example_answer)) None _).
  apply grun. vm_compute. reflexivity.
Defined.
