(* ===== verification/Nesting.v ===== *)
(** * Contracts that query contracts

    A host answers the queries of a contract, and may do so by calling a
    method of the [VM] while the first call waits.  The frames of
    [iterator.go] are kept per call for this reason.  Here is the host that
    does it, to any depth: a host that serves some of the queries with
    [VM_Query], whose contract is served by the host of the depth below. *)

From S2P Require Import Prelude GoText RustText Json JsonParse Codec JsonText Scalars Types Messages Errors Queries Memory MemDB World Mocks Iterators Callbacks Vtables Backend Libwasmvm ExampleVM Api ContractCalls VM Methods.

(** The call a host makes for a query. *)
Record nested_call := mkNestedCall {
  nc_checksum : bytes;
  nc_env : Env;
  nc_msg : bytes;
  nc_store : iface;
  nc_goapi : GoAPI;
  nc_querier : iface;
  nc_gasMeter : iface;
  nc_gasLimit : Z;
  nc_deserCost : UFraction;
}.

Section Nesting.
Context {H : Type} `{ErrorTexts} `{SerdeJson} `{VMLib H}.
(** The host without nested calls, its handle of the VM, which queries it
    serves with a call, and what it makes of the result. *)
Context (base : Host H) (vm : VM) (resolve : H -> QueryRequest -> Z -> option nested_call).
Context (reply_with : option QueryResult * Z * option error -> bytes * option error).

Definition with_queries (below : Host H) : Host H := {|
  GasMeter_GasConsumed := @GasMeter_GasConsumed H base;
  KVStore_Get := @KVStore_Get H base;
  KVStore_Set := @KVStore_Set H base;
  KVStore_Delete := @KVStore_Delete H base;
  KVStore_Iterator := @KVStore_Iterator H base;
  KVStore_ReverseIterator := @KVStore_ReverseIterator H base;
  Iterator_Valid := @Iterator_Valid H base;
  Iterator_Next := @Iterator_Next H base;
  Iterator_Key := @Iterator_Key H base;
  Iterator_Value := @Iterator_Value H base;
  Iterator_Close := @Iterator_Close H base;
  Querier_Query o q g := fun w =>
    match resolve (w_host w) q g with
    | None => @Querier_Query H base o q g w
    | Some c =>
      (r ← @VM_Query H below _ _ _ vm (nc_checksum c) (nc_env c) (nc_msg c) (nc_store c) (nc_goapi c)
         (nc_querier c) (nc_gasMeter c) (nc_gasLimit c) (nc_deserCost c);
       mret (reply_with r)) w
    end;
  Querier_GasConsumed := @Querier_GasConsumed H base;
  GoAPI_HumanizeAddress := @GoAPI_HumanizeAddress H base;
  GoAPI_CanonicalizeAddress := @GoAPI_CanonicalizeAddress H base;
  GoAPI_ValidateAddress := @GoAPI_ValidateAddress H base;
|}.

(** Calls to the depth [n]. *)
Fixpoint nested (n : nat) : Host H :=
  match n with
  | O => base
  | S n => with_queries (nested n)
  end.

Context {base_laws : @HostLaws H base} `{!VMLaws H}.

Lemma served_rely below o q g : @HostLaws H below ->
  respects rely (@Querier_Query H (with_queries below) o q g).
Proof.
  intros Hb w r w'. unfold Querier_Query at 1, with_queries.
  destruct (resolve (w_host w) q g) as [c|]; [|by apply Querier_Query_rely].
  revert w r w'. apply respects_bind; [apply _| |intros; solve_respects].
  apply (@invoke_contained H QueryResult below Hb _ _ _ _ vm (nc_checksum c) (MQuery (nc_env c) (nc_msg c))).
Qed.
Lemma with_queries_laws below : @HostLaws H below -> @HostLaws H (with_queries below).
Proof.
  intros Hb. pose proof base_laws as B. destruct B.
  split; first [assumption|intros; by apply served_rely].
Qed.
Lemma nested_laws n : @HostLaws H (nested n).
Proof. induction n; [assumption|by apply with_queries_laws]. Qed.
End Nesting.

(** ** Properties *)

(** C11. Calls can be nested to any depth: a host that answers queries of a
    contract by calling [VM_Query], for contracts whose queries are answered
    in the same way, keeps to what a call may assume of its host, and so each
    of the nineteen methods gives back all it took, with the calls within
    it: the live vectors are those from before, and the frames of all other
    calls are as they were. *)
Theorem nested_methods_contained {H A : Type} `{ErrorTexts} `{SerdeJson} `{VMLib H} `{!VMLaws H} (base : Host H)
    `{!@HostLaws H base} (inner : VM) (resolve : H -> QueryRequest -> Z -> option nested_call)
    (reply_with : option QueryResult * Z * option error -> bytes * option error) (depth : nat)
    (vm : VM) (checksum : bytes) (m : method A) (store : iface) (goapi : GoAPI)
    (querier gasMeter : iface) (gasLimit : Z) (deserCost : UFraction) :
  respects (@rely H) (@invoke H (nested base inner resolve reply_with depth) _ _ _ A vm checksum m
    store goapi querier gasMeter gasLimit deserCost).
Proof. pose proof (nested_laws base inner resolve reply_with depth). apply invoke_contained. Qed.

(** An example: a contract whose query asks the contract at another address
    as long as the message says so, and a host that serves such queries. *)
Definition smart (msg : string) : QueryRequest :=
  mkQueryRequest None None None None None None None
    (Some (mkWasmQuery (Some (mkSmartQuery "addr" (Some msg))) None None None None)).
Definition asking_contract (e : entry_point) (args : list string) (print_debug : bool) :
    vm_prog vm_leaf :=
  match args with
  | [_; msg] =>
    if String.eqb msg "leaf"
    then VDone (Some (short (Marshal (mkQueryResult (Some "found"%string) "")), example_report))
    else
      VCall (RQuery (Marshal (smart (sdrop 1 msg))) 500) (fun rep =>
        VDone (Some (match rp_result rep with
                     | inr (Queried (mkQuerierResult (Some r) None)) => short (Marshal r)
                     | _ => inl (OtherVmError "the query failed")
                     end, example_report)))
  | _ => VDone (Some (inl GasDepletion, example_report))
  end.
Lemma asking_ok e args dbg : prog_all leaf_ok (asking_contract e args dbg).
Proof.
  unfold asking_contract. destruct args as [|a [|msg [|]]]; try done.
  destruct (String.eqb msg "leaf"); [apply short_ok|]. intros rep.
  destruct (rp_result rep) as [|[| | | | |[[r|] [e'|]]]]; try done. apply short_ok.
Qed.

#[local] Existing Instance id_case.
#[local] Existing Instance example_texts.
#[local] Existing Instance example_serde.
#[local] Instance asking_vm : VMLib (mock_host sorted_list) := vm_of asking_contract _.
#[local] Instance asking_laws : VMLaws (mock_host sorted_list) := vm_of_laws _ _ asking_ok.
Definition serve (h : mock_host sorted_list) (q : QueryRequest) (gasLimit : Z) : option nested_call :=
  match QueryRequest_Wasm q with
  | Some wq =>
    match WasmQuery_Smart wq with
    | Some s =>
      Some (mkNestedCall (Some example_checksum) example_env (SmartQuery_Msg s) (Some 2) example_api
        (Some 3) (Some 1) gasLimit (mkUFraction 1 1))
    | None => None
    end
  | None => None
  end.
Definition pass_on (r : option QueryResult * Z * option error) : bytes * option error :=
  match r with
  | (Some q, _, None) => (QueryResult_Ok q, None)
  | (_, _, err) => (None, err)
  end.
Lemma nested_methods_contained_witness :
  let w := example_world 1000000 [] in
  let m := @invoke _ (nested mocks example_handle serve pass_on 2) _ _ _ _ example_handle
    (Some example_checksum) (MQuery example_env (Some "++leaf"%string)) (Some 2) example_api (Some 3)
    (Some 1) 1000 (mkUFraction 1 1) in
  (match fst (m w) with Ret (Some _, _, None) => true | _ => false end) = true /\ latestCallID (snd (m w)) = 3 /\
  rely w (snd (m w)).
Proof.
  intros w m. split; [vm_compute; reflexivity|]. split; [vm_compute; reflexivity|].
  refine (nested_methods_contained mocks example_handle serve pass_on 2 example_handle
    (Some example_checksum) (MQuery example_env (Some "++leaf"%string)) (Some 2) example_api (Some 3)
    (Some 1) 1000 (mkUFraction 1 1) w (fst (m w)) (snd (m w)) (surjective_pairing _)).
Defined.
