(* ===== verification/Demo.v ===== *)
(** * The demo program

    [cmd/demo/main.go]: a command that prints the version of the library, or
    stores the code of a file in a cache of its own.  It is the one client of
    the package in the repository that is not a test, and runs the handle
    from its creation to its release. *)

From S2P Require Import Prelude GoText RustText Json JsonParse Codec Scalars Types Messages Errors Queries Memory MemDB World Mocks Iterators Callbacks Vtables Backend Libwasmvm ExampleVM Api CacheLock Sha256 VM.

(** ** The program *)

Definition PRINT_DEBUG : bool := true.
Definition MEMORY_LIMIT : Z := 32.
Definition CACHE_SIZE : Z := 100.
Definition SUPPORTED_CAPABILITIES : option (list string) := Some ["staking"%string].

(** [os.ReadFile], which the demo uses besides what [InitCache] does. *)
Class Reader (H : Type) := { ReadFile : string -> H -> (error + string) * H }.

(** The process with what it has printed. *)
Record terminal (H : Type) := mkTerminal { t_world : world H; t_stdout : list string }.
Arguments mkTerminal {H} _ _.
Arguments t_world {H} _.
Arguments t_stdout {H} _.

(** How the program ends: [panic(err)] with nothing deferred ends it with the
    error. *)
Inductive ending := Finished | Panicked (err : error).

(** The lines it prints.  [%X] formats a checksum by its [String] method:
    the digits printed are those of the text. *)
Definition newline : string := chr 10.
Definition version_line (version : string) : string := "libwasmvm: " +:+ version +:+ newline.
Definition running_line (file : string) : string := "Running " +:+ file +:+ "..." +:+ newline.
Definition loaded_line : string := "Loaded!" +:+ newline.
Definition stored_line (checksum : bytes) : string :=
  "Stored code with checksum: " +:+ Hex.encode_upper (Checksum_String checksum) +:+ newline.
Definition finished_line : string := "finished" +:+ newline.

Section Demo.
Context {H : Type} `{VMLib H} `{OS H} `{Reader H}.
Abbreviation DM := (GoM (terminal H)).

Definition Print (line : string) : DM unit := fun t =>
  (Ret tt, mkTerminal (t_world t) (t_stdout t ++ [line])).
(** A call of the library. *)
Definition lib {A} (m : GoM (world H) A) : DM A := fun t =>
  let '(r, w) := m (t_world t) in (r, mkTerminal w (t_stdout t)).
Definition panic_with (err : error) : DM ending := mret (Panicked err).

Definition main (Args : list string) (cgo : bool) (version_str : Z + string) : DM ending :=
  match Args !! 1%nat with
  | None => gpanic (runtime_panic ("index out of range [1] with length " +:+ Strconv.FormatInt (zlen Args)))
  | Some file =>
    if String.eqb file "version" then
      match LibwasmvmVersion cgo version_str with
      | (_, Some err) => panic_with err
      | (libwasmvmVersion, None) => _ ← Print (version_line libwasmvmVersion); mret Finished
      end
    else
    _ ← Print (running_line file);
    bz ← lib (on_vm (ReadFile file));
    match bz with
    | inl err => panic_with err
    | inr bz =>
      _ ← Print loaded_line;
      err ← lib (on_vm (MkdirAll "tmp"));
      match err with
      | Some err => panic_with err
      | None =>
        '(vm, err) ← lib (NewVM "tmp" SUPPORTED_CAPABILITIES MEMORY_LIMIT PRINT_DEBUG CACHE_SIZE);
        match err with
        | Some err => panic_with err
        | None =>
          vm ← glift (deref vm);
          '(checksum, _, err) ← lib (VM_StoreCode vm (Some bz) MaxUint64);
          match err with
          | Some err => panic_with err
          | None =>
            _ ← Print (stored_line checksum);
            _ ← lib (VM_Cleanup vm);
            _ ← Print finished_line;
            mret Finished
          end
        end
      end
    end
  end.
End Demo.

(** ** Lemmas *)

Section Lemmas.
Context {H : Type} `{OS H} `{VMLib H} `{!VMLaws H} `{!OSLaws H} `{!Reader H}.
Implicit Types w : world H.

Lemma lib_eq {A} (m : GoM (world H) A) r w w' out :
  m w = (r, w') -> lib m (mkTerminal w out) = (r, mkTerminal w' out).
Proof. intros E. unfold lib. cbn [t_world]. by rewrite E. Qed.

Lemma clean_on_vm {A} (f : H -> A * H) : clean (on_vm f).
Proof. intros w r w' E Hw. rewrite on_vm_eq in E. injection E as <- <-. split_and!; [done..|by eexists]. Qed.

(** Starting the VM returns, and leaves no buffer behind. *)
Lemma clean_start (config : VMConfig) fd :
  clean (r ← @init_cache H _ (makeView (Some (Marshal config))) uninitializedUnmanagedVector;
    checked zero_cache r (fun ptr => mret (mkCache ptr fd, None))).
Proof.
  intros w r w' E Hw. unfold init_cache, bind_result in E. rewrite !gbind_assoc in E.
  erewrite gbind_eq in E by apply read_arg_view. cbn beta iota in E. rewrite gbind_assoc in E.
  erewrite gbind_eq in E by reflexivity.
  assert (forall res h, (forall e, res = inl e -> err_ok e) ->
    (c ← handle_c_error 0 res uninitializedUnmanagedVector;
     checked zero_cache c (fun ptr => mret (mkCache ptr fd, None))) (put_host h w) = (r, w') ->
    heap_wf (w_heap w') /\ blocks (w_heap w') = blocks (w_heap w) /\ no_panic r) as Hend.
  { intros res h He Er.
    pose proof (checked_spec 0 zero_cache res (fun ptr => mret (mkCache ptr fd, None)) (put_host h w) Hw He) as Hs.
    destruct res as [e|ptr].
    - destruct Hs as (w1 & Es & [_ Hb Hh]). rewrite Es in Er. injection Er as <- <-.
      split_and!; [done|done|by eexists].
    - rewrite Hs in Er. injection Er as <- <-. split_and!; [done|done|by eexists]. }
  pose proof (vm_parse_config_ok (Marshal config)) as Hp.
  destruct (vm_parse_config (Marshal config)) as [msg|c].
  - rewrite <- (put_host_same w) in E. apply (Hend (inl (Libwasmvm.Json msg)) (w_host w)); [|exact E].
    intros e [= <-]. unfold small, err_ok in *. cbn [RustError_text]. rewrite slen_app.
    change (slen "Cannot serialize to / deserialize from JSON: ") with 45. lia.
  - erewrite gbind_eq in E by apply vm_call_eq. apply (Hend _ _) in E; [done|].
    intros e He. pose proof (vm_new_ok c (w_host w)) as Hn.
    destruct (fst (vm_new_with_config c (w_host w))) as [[e'|?]|]; cbn in He, Hn; simplify_eq;
      [|done]. apply small_err_ok. by destruct e'.
Qed.

Lemma clean_NewVM dataDir caps mem dbg size : clean (@NewVM H _ _ dataDir caps mem dbg size).
Proof.
  unfold NewVM, NewVMWithConfig. apply clean_bind; [|intros [c [e|]]; apply clean_ret].
  unfold InitCache. apply clean_bind; [apply clean_on_vm|intros [e|]; [apply clean_ret|]].
  apply clean_bind; [apply clean_on_vm|intros [fd|]; [|apply clean_ret]].
  apply clean_bind; [apply clean_on_vm|intros [|]; [|apply clean_ret]].
  apply clean_bind; [apply clean_on_vm|intros [|]; [|apply clean_ret]].
  apply clean_start.
Qed.

(** What comes of starting the VM: an error, or a handle that holds the lock
    of its directory. *)
Lemma NewVM_inv dataDir caps mem dbg size w :
  heap_wf (w_heap w) ->
  exists vm err w', NewVM dataDir caps mem dbg size w = (Ret (vm, err), w') /\
    heap_wf (w_heap w') /\ blocks (w_heap w') = blocks (w_heap w) /\
    (err = None -> exists cache, vm = Some (mkVM cache dbg) /\
       locked (w_host w') (Join dataDir "exclusive.lock") = Some (lockfile cache)).
Proof.
  intros Hw. destruct (NewVM dataDir caps mem dbg size w) as [r w'] eqn:E.
  destruct (clean_NewVM _ _ _ _ _ _ _ _ E Hw) as (Hw' & Hb & [[vm err] ->]).
  exists vm, err, w'. split_and!; [done..|]. intros ->. unfold NewVM, NewVMWithConfig in E.
  set (config := mkVMConfig _ _) in E.
  apply gbind_inv in E as [([cache [e|]] & w1 & E1 & E2)|(p & _ & [=])]; [by injection E2|].
  injection E2 as <- <-. exists cache. split; [done|].
  apply InitCache_inv in E1 as [[[e [=]] _]|(fd & _ & Hl & Hc)]; [|done].
  change (Join dataDir "exclusive.lock") with (lock_path config). by rewrite Hl, (Hc _ eq_refl).
Qed.

(** Storing code within the limit of the demo, and what the VM says. *)
Lemma store_within_limit (vm : VM) (code : string) w :
  heap_wf (w_heap w) ->
  let '(r, h) := vm_with (cache_ptr (vm_cache vm)) "wasm" (Some code) inr
    (fun d => vm_store_code (cache_ptr (vm_cache vm)) d true true) (w_host w) in
  exists w', VM_StoreCode vm (Some code) MaxUint64 w =
    (Ret (match r with inl e => None | inr c => Some c end, compileCost (Some code),
          match r with inl e => Some (go_error e) | inr _ => None end), w') /\ only_host w h w'.
Proof.
  intros Hw. pose proof (store_op (cache_ptr (vm_cache vm)) (Some code) true true w Hw) as Hs.
  destruct (vm_with _ _ _ _ _ _) as [r h]. destruct Hs as (w' & E & Ho). exists w'. split; [|done].
  unfold VM_StoreCode.
  assert ((MaxUint64 <? compileCost (Some code)) = false) as ->.
  { apply Z.ltb_ge. unfold compileCost. pose proof (u64_range (CostPerByte * u64 (blen (Some code)))).
    widths. lia. }
  erewrite gbind_eq by exact E. by destruct r.
Qed.

Lemma same_files_locked (h h' : H) path : same_files h h' -> locked h' path = locked h path.
Proof. by intros [_ ->]. Qed.
Lemma vm_with_files cache code h r h' :
  vm_with cache "wasm" (Some code) inr (fun d => vm_store_code cache d true true) h = (r, h') ->
  forall path, locked h' path = locked h path.
Proof.
  unfold vm_with. destruct (cache =? 0); [by intros [= _ <-]|].
  pose proof (vm_store_files cache code true true h) as Hf.
  destruct (vm_store_code cache code true true h). intros [= _ <-] path. by apply same_files_locked.
Qed.

(** Releasing the cache frees its lock, and no memory changes. *)
Lemma Cleanup_spec (vm : VM) path w :
  locked (w_host w) path = Some (lockfile (vm_cache vm)) ->
  exists w', VM_Cleanup vm w = (Ret tt, w') /\ w_heap w' = w_heap w /\ locked (w_host w') path = None.
Proof.
  intros Hl. unfold VM_Cleanup, ReleaseCache, release_cache.
  destruct (cache_ptr (vm_cache vm) =? 0).
  - erewrite gbind_eq by reflexivity. rewrite on_vm_eq. eexists. split_and!; [done..|]. cbn.
    by rewrite Close_files, decide_True.
  - erewrite gbind_eq by apply on_vm_eq. rewrite on_vm_eq. eexists. split_and!; [done..|]. cbn.
    rewrite Close_files, decide_True; [done|].
    by rewrite (same_files_locked _ _ _ (vm_drop_files _ _)).
Qed.
End Lemmas.

(** ** Properties *)

Definition demo_lock {H} `{OS H} : string := Join "tmp" "exclusive.lock".

(** C30. What the demo does with a file, on every path: it ends with the first
    error, or stores the code under the checksum the VM gives and releases
    the cache.  The limit never stops it, however long the code.  No buffer
    stays behind, and the lock of its directory is free again when it
    finishes; when the code is refused the handle is not released, and the
    lock is left to the end of the process. *)
Theorem main_exact {H : Type} `{OS H} `{VMLib H} `{!VMLaws H} `{!OSLaws H} `{!Reader H}
    (prog file : string) (cgo : bool) (version_str : Z + string) (w : world H) :
  heap_wf (w_heap w) -> file <> "version"%string ->
  let t := main [prog; file] cgo version_str (mkTerminal w []) in
  let '(contents, h1) := ReadFile file (w_host w) in
  match contents with
  | inl err => t = (Ret (Panicked err), mkTerminal (put_host h1 w) [running_line file])
  | inr code =>
    let started := [running_line file; loaded_line] in
    let '(err, h2) := MkdirAll "tmp" h1 in
    match err with
    | Some err => t = (Ret (Panicked err), mkTerminal (put_host h2 w) started)
    | None =>
      exists vm err w1, NewVM "tmp" SUPPORTED_CAPABILITIES 32 true 100 (put_host h2 w) =
        (Ret (vm, err), w1) /\
      match err with
      | Some err => t = (Ret (Panicked err), mkTerminal w1 started)
      | None =>
        exists cache, vm = Some (mkVM cache true) /\
        locked (w_host w1) demo_lock = Some (lockfile cache) /\
        let '(r, h) := vm_with (cache_ptr cache) "wasm" (Some code) inr
          (fun d => vm_store_code (cache_ptr cache) d true true) (w_host w1) in
        exists w', blocks (w_heap w') = blocks (w_heap w) /\
        match r with
        | inl e =>
          t = (Ret (Panicked (go_error e)), mkTerminal w' started) /\
          locked (w_host w') demo_lock = Some (lockfile cache)
        | inr checksum =>
          t = (Ret Finished,
               mkTerminal w' (started ++ [stored_line (Some checksum); finished_line])) /\
          locked (w_host w') demo_lock = None
        end
      end
    end
  end.
Proof.
  intros Hw Hf t.
  pose proof (eq_refl t) as Et. unfold t at 2, main in Et. cbn [lookup list_lookup] in Et.
  rewrite (proj2 (String.eqb_neq _ _)) in Et by done. erewrite gbind_eq in Et by reflexivity.
  cbn [t_world t_stdout app] in Et.
  destruct (ReadFile file (w_host w)) as [contents h1] eqn:Er.
  erewrite gbind_eq in Et by (apply lib_eq, on_vm_eq). rewrite Er in Et. cbn [fst snd] in Et.
  destruct contents as [err|code]; [exact Et|]. intros started.
  erewrite gbind_eq in Et by reflexivity. cbn [t_world t_stdout app] in Et. fold started in Et.
  destruct (MkdirAll "tmp" h1) as [err h2] eqn:Em.
  erewrite gbind_eq in Et by (apply lib_eq, on_vm_eq). cbn [put_host w_host] in Et.
  rewrite Em in Et. cbn [fst snd] in Et. destruct err as [err|]; [exact Et|].
  change (mkWorld _ _ _ h2) with (put_host h2 w) in Et.
  destruct (NewVM_inv "tmp" SUPPORTED_CAPABILITIES 32 true 100 (put_host h2 w) Hw)
    as (vm & err & w1 & En & Hw1 & Hb1 & Hvm).
  exists vm, err, w1. split; [done|].
  erewrite gbind_eq in Et by (apply lib_eq; exact En). cbn beta iota in Et.
  destruct err as [err|]; [exact Et|]. destruct (Hvm eq_refl) as (cache & -> & Hl).
  exists cache. split; [done|]. split; [done|].
  erewrite gbind_eq in Et by reflexivity.
  pose proof (store_within_limit (mkVM cache true) code w1 Hw1) as Hs. cbn [vm_cache] in Hs.
  destruct (vm_with _ _ _ _ _ _) as [r h] eqn:Ev.
  pose proof (vm_with_files _ _ _ _ _ Ev demo_lock) as Hlk.
  destruct Hs as (w2 & Es & Hh & _ & _ & Hb2 & _).
  erewrite gbind_eq in Et by (apply lib_eq; exact Es). cbn beta iota in Et.
  destruct r as [e|checksum].
  - exists w2. split_and!; [cbn in *; congruence|exact Et|]. rewrite Hh, Hlk. exact Hl.
  - erewrite gbind_eq in Et by reflexivity. cbn [t_world t_stdout] in Et.
    destruct (Cleanup_spec (mkVM cache true) demo_lock w2) as (w3 & Ec & Hh3 & Hl3).
    { rewrite Hh, Hlk. exact Hl. }
    erewrite gbind_eq in Et by (apply lib_eq; exact Ec).
    exists w3. split_and!; [rewrite Hh3; cbn in *; congruence| |done].
    exact Et.
Qed.

#[local] Existing Instance example_vm.
#[local] Existing Instance example_vm_laws.
#[local] Existing Instance files_os.
#[local] Existing Instance files_laws.
#[local] Instance example_reader : Reader files :=
  {| ReadFile path h := (inr ("code of " +:+ path), h) |}.
Lemma main_exact_witness :
  let w := mkWorld empty_heap ∅ 0 (mkFiles ∅ ∅) in
  exists t, main ["demo"; "a.wasm"]%string true (inl 0) (mkTerminal w []) = (Ret Finished, t) /\
    locked (w_host (t_world t)) demo_lock = None.
Proof.
  intros w.
  assert (fst (main ["demo"; "a.wasm"]%string true (inl 0) (mkTerminal w [])) = Ret Finished) as Ef
    by (vm_compute; reflexivity).
  destruct (main_exact "demo" "a.wasm" true (inl 0) w empty_heap_wf ltac:(discriminate))
    as (vm & [err|] & w1 & _ & M); [rewrite M in Ef; discriminate Ef|].
  destruct M as (cache & _ & _ & M). destruct (vm_with _ _ _ _ _ _) as [[e|checksum] h].
  - destruct M as (w' & _ & M & _). rewrite M in Ef. discriminate Ef.
  - destruct M as (w' & _ & M & Hl). eexists. split; [exact M|exact Hl].
Defined.

(** The checksum is printed as the digits of its digits, four to a byte: the
    method [String] gives hexadecimal text, which [%X] formats again. *)
Lemma stored_line_digits (cs : string) :
  Hex.DecodeString (Hex.encode_upper (Checksum_String (Some cs))) = inr (Checksum_String (Some cs)) /\
  slen (Hex.encode_upper (Checksum_String (Some cs))) = 4 * slen cs.
Proof.
  split; [apply Hex.Decode_upper|]. rewrite Hex.slen_upper. unfold Checksum_String.
  rewrite Hex.slen_EncodeToString. cbn [string_of_bytes default]. unfold id. lia.
Qed.
